(* ===== verification/_CoqProject ===== *)
-Q . S2P
Prelude.v
CLib.v
Hardware.v
Screen.v
Printf.v
FileSystem.v
Pic.v
Idt.v
Segments.v
Rtc.v
MemOps.v
Paging.v
Kernel.v
FdTable.v
Drivers.v
Streams.v
Process.v
CmdLine.v
Lifecycle.v
Terminals.v
Testcases.v
Keyboard.v
KeyboardSpec.v
Waiting.v
WaitingSpec.v
Syscall.v
SyscallSpec.v
Getargs.v
Vidmap.v
Exceptions.v
Boot.v
UserLib.v
Programs.v
Syserr.v
Emulate.v
UserSpec.v
SyserrSpec.v
ReadersSpec.v
RunSpec.v
ShellSpec.v
PromptSpec.v
SyscallTypes.v
ExceptionSpec.v
BootSpec.v
Fish.v
FishSpec.v
EmulateSpec.v
GrepSpec.v
Sample.v
FishExamples.v
BootExamples.v
Examples.v
ProgramExamples.v
GrepExamples.v
PromptExamples.v
