(* ===== verification/Prelude.v ===== *)
(** Verification of the ece391 operating system: the kernel of
    [src/student-distrib] and the user programs of [src/syscalls] and
    [src/fish].

    * The program

    A 32-bit x86 kernel booted by GRUB ([kernel.c]).  It keeps a text
    console per terminal in video memory ([lib.c]), drives the two interrupt
    controllers ([i8259.c]), the clock ([rtc.c]), the keyboard ([keyboard.c])
    and the timer ([sched.c]), reads programs and files from an image the
    boot loader leaves in memory ([filesystem.c]), maps one 4 MB page per
    process and a video window per terminal ([paging.c]), and serves ten
    system calls through INT 0x80 ([wrapper.S], [syscall.c]) over descriptors
    with jump tables ([fd_table.c]).  User programs call it through the stubs
    of [ece391syscall.S].

    * The model

    Integers are [Z], brought back to their C width where the code's type
    does ([u8], [i8], [u16], [u32], [i32] below).  Fallible code is in the
    [outcome] monad of this file: [Ok], [Fault] (undefined in C, or a trap)
    and [NoFuel].  Kernel code is in the monad [K] of [Kernel.v]: the whole
    kernel state is passed along, and a function returns or hands the
    processor over ([Jump]: to user code, to the parent's [execute], to
    another terminal's stack).  Functions carry the names of the source.

    - [CLib]: [strlen], [strncmp], [strcpy], [strncpy], [strrev], [itoa]
      ([lib.c]) on byte arrays.
    - [Hardware]: ports, the interrupt flag, byte memory ([lib.h]); a port
      read answers with an arbitrary input stream, port accesses are traced.
    - [Screen], [Printf]: the console and [printf] ([lib.c]).
    - [MemOps]: [memset*], [memcpy], [memmove] as their instruction
      sequences ([lib.c]).
    - [FileSystem]: the image as bytes, its boot block, directory, inodes and
      data blocks ([filesystem.c]).
    - [Pic], [Idt], [Rtc], [Paging]: [i8259.c], [idt.c] with the gates of
      [x86_desc.h], [rtc.c], [paging.c].  The processor's translation is
      [Paging.translate]: it reads CR0, CR3 and CR4 and walks the tables.
    - [Segments]: the segment descriptors and the task state [kernel.c] fills
      in ([x86_desc.h], [x86_desc.S]).
    - [Kernel]: all static variables of the kernel as one record, the monad
      and its weakest preconditions ([kwp]).
    - [FdTable], [Drivers]: [fd_table.c]; the open, read, write and close of
      files, directory, clock and terminal ([filesystem.c], [rtc.c],
      [terminal.c]).
    - [Process], [CmdLine], [Lifecycle]: [syscall.c] from [pc_init] to
      [execute] and [halt]; [terminal_switch] ([terminal.c]), with its
      theorems in [Terminals].
    - [Testcases], [Keyboard]: [testcases3_2.c], [keyboard.c].
    - [Waiting]: interrupts arriving while a system call polls a variable
      ([keyboard_read], [rtc_read], [sched.c]).
    - [Syscall]: the system calls and the dispatcher of [wrapper.S].
    - [Exceptions], [Boot]: [exceptions.c], [kernel.c].
    - [UserLib], [Programs], [Syserr], [Fish]: user space.  A stub
      runs the kernel's dispatcher, and [ece391_execute] runs the program it
      finds at the entry point of the executable.

    - [Emulate]: the library that runs user programs on a Linux host
      instead ([ece391emulate.c]).

    * The theorems

    - Libraries ([CLib], [Printf], [MemOps], [Screen]): [itoa] is read back
      by a numeral parser; [printf] prints what a rendering function says;
      block operations change exactly their range, for any overlap; the
      console is a 25x80 text with a cursor ([t_putc]), whatever terminal it
      is on.
    - Devices ([Pic], [Idt], [Rtc], [Paging]): which lines are masked, which
      gates are installed, which rate and which time of day, which addresses
      translate to what.  The invariants [paging_inv], [idt_wf], [screens_wf]
      are kept by their operations.
    - Files ([FileSystem], [Drivers], [Streams], [SyscallSpec]): lookup finds
      the first entry of a name, [read_data] returns the bytes of the file
      the image encodes; [Stream] is the interface between a driver and the
      loops that read it to its end.
    - Processes ([CmdLine], [Lifecycle], [Getargs], [Vidmap]): [execute]
      builds the child or changes nothing else, [halt] takes it down.
    - All system calls ([SyscallTypes]): a call keeps the types of the
      caller's descriptors and touches nothing of other processes, their
      memory, their terminals and their address translations included.
    - Terminals and keyboard ([Terminals], [KeyboardSpec], [WaitingSpec]):
      a switch loses no byte; a line is the fold of its keys through a pure
      line editor; waiting ends exactly when the awaited interrupt comes.
    - Booting ([BootSpec]): [entry] establishes what the other theorems assume
      and enters the shell at its prompt.
    - User space ([UserSpec], [ReadersSpec], [GrepSpec], [RunSpec], [ShellSpec],
      [PromptSpec], [ExceptionSpec], [SyserrSpec], [FishSpec]): whole programs
      over the whole kernel, from the keys typed at the shell's prompt to the text on
      the screen; [grep] prints exactly the lines of the directory's texts
      that contain the pattern, wherever its buffer cuts the file; the
      error-path tests all pass; [counter] refuses every line because of its
      newline; exceptions are survived whatever the program did before; the list of blinking characters
      refines a list of records.
    - The emulation ([EmulateSpec]): the argument vector of a command line,
      and getargs as its inverse.

    [Sample] is a small concrete machine; [Examples], [ProgramExamples],
    [GrepExamples], [PromptExamples], [FishExamples] and [BootExamples] apply the theorems to it.

    * Bounds and fuel

    A C loop is [loop] or [kloop] with a bound on its iterations.  Where the
    code bounds the loop, so does the definition, by that number of
    iterations plus one, and the theorems show that it is enough (they
    conclude [Ok], or a [wp]/[kwp], which [NoFuel] does not satisfy).  Where the
    code does not (a program reading a file, the list of blinks), the fuel is
    an argument and the theorems ask for more than the length of the data.  A
    waiting loop runs on a list of arriving interrupts and is [NoFuel] when
    the list ends before the awaited one.

    * Not modelled

    The bytes of executables: what the code at an entry point does is a
    parameter of [ece391_execute], instantiated by the [main]s of [Programs]
    and [Syserr] ([Process.execute] does copy the file's bytes into the page
    the program is mapped to).
    The kernel never calls a signal handler: [set_handler] returns -1, so the
    handlers of [ece391sigtest.c] are definitions without a caller.
    [debug.h] only prints and is unused.  [boot.S] is the jump to
    [entry].  The Linux calls of [ece391emulate.c] are parameters of its model.
    The scheduler is commented out in [sched.c]; only its timer
    handler is there.  Memory is indexed by integers: a block operation that
    runs over the end of the 32-bit address space does not come back to
    address 0.  The frequency table of [rtc.c] is read past its end for the
    two lowest rates; what lies there is the parameter [beyond]. *)

From stdpp Require Export base decidable numbers list gmap.
From Stdlib Require Export ZArith Lia.
From stdpp Require Export strings.

#[export] Set Default Goal Selector "!".
#[export] Set Default Proof Using "Type".

Declare Scope os_scope.
Delimit Scope os_scope with os.
#[global] Open Scope Z_scope.
#[global] Open Scope list_scope.

(** * Outcomes of C code

    [Ok a]: the code ran to completion with result [a].  [Fault]: the code
    reached something the C standard leaves undefined or the processor
    traps on (an array index out of bounds, a NULL dereference).  [NoFuel]:
    the iteration bound given to a loop ran out. *)
Inductive outcome (A : Type) : Type :=
| Ok (a : A)
| Fault
| NoFuel.
Arguments Ok {A} a.
Arguments Fault {A}.
Arguments NoFuel {A}.

#[export] Instance outcome_ret : MRet outcome := fun A a => Ok a.
#[export] Instance outcome_bind : MBind outcome := fun A B f m =>
  match m with
  | Ok a => f a
  | Fault => Fault
  | NoFuel => NoFuel
  end.
#[export] Instance outcome_fmap : FMap outcome := fun A B f m =>
  match m with
  | Ok a => Ok (f a)
  | Fault => Fault
  | NoFuel => NoFuel
  end.

#[export] Instance outcome_eq_dec {A} `{EqDecision A} : EqDecision (outcome A).
Proof. solve_decision. Defined.

(** [wp m Q]: [m] completes without fault and its result satisfies [Q]
    (total correctness). *)
Definition wp {A} (m : outcome A) (Q : A -> Prop) : Prop :=
  match m with
  | Ok a => Q a
  | Fault | NoFuel => False
  end.

Lemma wp_ret {A} (a : A) (Q : A -> Prop) : Q a -> wp (Ok a) Q.
Proof. done. Qed.

Lemma wp_bind {A B} (m : outcome A) (f : A -> outcome B) (Q : B -> Prop) :
  wp m (fun a => wp (f a) Q) -> wp (m ≫= f) Q.
Proof. by destruct m. Qed.

Lemma wp_bind_inv {A B} (m : outcome A) (f : A -> outcome B) (Q : B -> Prop) :
  wp (m ≫= f) Q -> wp m (fun a => wp (f a) Q).
Proof. by destruct m. Qed.

Lemma wp_mono {A} (m : outcome A) (P Q : A -> Prop) :
  wp m P -> (forall a, P a -> Q a) -> wp m Q.
Proof. destruct m; simpl; auto. Qed.

Lemma wp_conj {A} (m : outcome A) (P Q : A -> Prop) :
  wp m P -> wp m Q -> wp m (fun a => P a /\ Q a).
Proof. destruct m; simpl; auto. Qed.

Lemma wp_ok {A} (m : outcome A) (Q : A -> Prop) :
  wp m Q <-> exists a, m = Ok a /\ Q a.
Proof. destruct m; simpl; naive_solver. Qed.

Lemma wp_eq {A} (m : outcome A) (a : A) : wp m (fun x => x = a) -> m = Ok a.
Proof. rewrite wp_ok. naive_solver. Qed.

Lemma wp_of_eq {A} (m : outcome A) (a : A) (Q : A -> Prop) :
  m = Ok a -> Q a -> wp m Q.
Proof. by intros ->. Qed.

#[export] Instance wp_proper {A} (m : outcome A) :
  Proper (pointwise_relation A iff ==> iff) (wp m).
Proof. by intros P Q HPQ; destruct m; simpl; [apply HPQ | |]. Qed.

#[export] Instance wp_impl_proper {A} (m : outcome A) :
  Proper (pointwise_relation A impl ==> impl) (wp m).
Proof. by intros P Q HPQ; destruct m; simpl; [apply HPQ | |]. Qed.

(** * Loops

    [loop fuel body s] iterates [body] from [s]: [inl s'] goes round again,
    [inr r] leaves the loop (the condition failed, a [break] or a [return])
    with [r]. *)
Fixpoint loop {S R} (fuel : nat) (body : S -> outcome (S + R)) (s : S)
    : outcome R :=
  match fuel with
  | O => NoFuel
  | Datatypes.S fuel' =>
      match body s with
      | Ok (inl s') => loop fuel' body s'
      | Ok (inr r) => Ok r
      | Fault => Fault
      | NoFuel => NoFuel
      end
  end.

Lemma loop_S {S R} fuel (body : S -> outcome (S + R)) s :
  loop (Datatypes.S fuel) body s =
  r ← body s; match r with inl s' => loop fuel body s' | inr r => Ok r end.
Proof. simpl. by destruct (body s) as [[]| |]. Qed.

(** Total correctness of a loop: an invariant and a measure that decreases. *)
Lemma wp_loop {S R} (Inv : S -> Prop) (measure : S -> nat) (body : S -> outcome (S + R))
    (Q : R -> Prop) fuel s :
  Inv s -> (measure s < fuel)%nat ->
  (forall s, Inv s ->
     wp (body s) (fun r => match r with
                           | inl s' => Inv s' /\ (measure s' < measure s)%nat
                           | inr r => Q r
                           end)) ->
  wp (loop fuel body s) Q.
Proof.
  intros HI Hf Hb. revert s HI Hf.
  induction fuel as [|fuel IH]; intros s HI Hf; [lia|]. simpl.
  specialize (Hb s HI). destruct (body s) as [[s'|r]| |]; simpl in *; [|done..].
  destruct Hb. apply IH; [done|lia].
Qed.

Lemma loop_fuel_mono {S R} (body : S -> outcome (S + R)) fuel fuel' s r :
  loop fuel body s = Ok r -> (fuel <= fuel')%nat -> loop fuel' body s = Ok r.
Proof.
  revert fuel' s. induction fuel as [|fuel IH]; intros [|fuel'] s H Hle;
    simpl in *; try done; [lia|].
  destruct (body s) as [[s'|r']| |]; try done. apply IH; [done|lia].
Qed.

Arguments loop : simpl never.

(** [for_ n f s]: the counted loop [for (i = 0; i < n; i++) s = f(i, s)]. *)
Fixpoint for_from {S} (n : nat) (i : Z) (f : Z -> S -> S) (s : S) : S :=
  match n with
  | O => s
  | Datatypes.S n' => for_from n' (i + 1) f (f i s)
  end.
Definition for_ {S} (lo hi : Z) (f : Z -> S -> S) (s : S) : S :=
  for_from (Z.to_nat (hi - lo)) lo f s.

Lemma for_from_ind {S} (Inv : Z -> S -> Prop) n i (f : Z -> S -> S) s :
  Inv i s ->
  (forall j s, i <= j < i + Z.of_nat n -> Inv j s -> Inv (j + 1) (f j s)) ->
  Inv (i + Z.of_nat n) (for_from n i f s).
Proof.
  revert i s. induction n as [|n IH]; intros i s H0 Hs; simpl.
  - by rewrite Z.add_0_r.
  - replace (i + Z.of_nat (Datatypes.S n)) with ((i + 1) + Z.of_nat n) by lia.
    apply IH; [apply Hs; [lia|done]|]. intros. apply Hs; [lia|done].
Qed.

Lemma for_ind {S} (Inv : Z -> S -> Prop) lo hi (f : Z -> S -> S) s :
  lo <= hi -> Inv lo s ->
  (forall j s, lo <= j < hi -> Inv j s -> Inv (j + 1) (f j s)) ->
  Inv hi (for_ lo hi f s).
Proof.
  intros Hle H0 Hs. unfold for_.
  pose proof (for_from_ind Inv (Z.to_nat (hi - lo)) lo f s H0) as H.
  rewrite Z2Nat.id in H by lia. replace (lo + (hi - lo)) with hi in H by lia.
  apply H. intros. apply Hs; [lia|done].
Qed.

(** * Machine integers

    A w-bit C integer is a [Z] in range; conversions and arithmetic wrap. *)
Definition u8 (z : Z) : Z := z mod 2 ^ 8.
Definition u16 (z : Z) : Z := z mod 2 ^ 16.
Definition u32 (z : Z) : Z := z mod 2 ^ 32.
Definition i8 (z : Z) : Z := (z + 2 ^ 7) mod 2 ^ 8 - 2 ^ 7.
Definition i32 (z : Z) : Z := (z + 2 ^ 31) mod 2 ^ 32 - 2 ^ 31.

Definition byte (z : Z) : Prop := 0 <= z < 2 ^ 8.
Definition uint32 (z : Z) : Prop := 0 <= z < 2 ^ 32.
Definition int32 (z : Z) : Prop := - 2 ^ 31 <= z < 2 ^ 31.

Lemma u8_id z : 0 <= z < 2 ^ 8 -> u8 z = z.
Proof. apply Z.mod_small. Qed.
Lemma u16_id z : 0 <= z < 2 ^ 16 -> u16 z = z.
Proof. apply Z.mod_small. Qed.
Lemma u32_id z : 0 <= z < 2 ^ 32 -> u32 z = z.
Proof. apply Z.mod_small. Qed.
Lemma i32_id z : - 2 ^ 31 <= z < 2 ^ 31 -> i32 z = z.
Proof. intros. unfold i32. rewrite Z.mod_small; lia. Qed.
Lemma u8_range z : 0 <= u8 z < 2 ^ 8.
Proof. by apply Z.mod_pos_bound. Qed.
Lemma u16_range z : 0 <= u16 z < 2 ^ 16.
Proof. by apply Z.mod_pos_bound. Qed.
Lemma u32_range z : 0 <= u32 z < 2 ^ 32.
Proof. by apply Z.mod_pos_bound. Qed.
Lemma i32_range z : - 2 ^ 31 <= i32 z < 2 ^ 31.
Proof. unfold i32. pose proof (Z.mod_pos_bound (z + 2 ^ 31) (2 ^ 32)). lia. Qed.
Lemma i8_range z : - 2 ^ 7 <= i8 z < 2 ^ 7.
Proof. unfold i8. pose proof (Z.mod_pos_bound (z + 2 ^ 7) (2 ^ 8)). lia. Qed.
Lemma u8_idem z : u8 (u8 z) = u8 z.
Proof. apply u8_id, u8_range. Qed.
Lemma u32_idem z : u32 (u32 z) = u32 z.
Proof. apply u32_id, u32_range. Qed.

(** Conversion to [char] keeps bytes apart: [char] comparisons are byte
    comparisons. *)
Lemma i8_inj a b : byte a -> byte b -> i8 a = i8 b -> a = b.
Proof.
  unfold byte, i8. intros Ha Hb H.
  pose proof (Z.div_mod (a + 2 ^ 7) (2 ^ 8)). pose proof (Z.div_mod (b + 2 ^ 7) (2 ^ 8)).
  pose proof (Z.mod_pos_bound (a + 2 ^ 7) (2 ^ 8)). lia.
Qed.

Create Rewrite HintDb cintr.
Create HintDb cint.
#[export] Hint Rewrite u8_idem u32_idem : cintr.
#[export] Hint Resolve u8_range u16_range u32_range i8_range i32_range : cint.

(** * Arrays

    A C array object is the list of its elements; a read or a write outside
    it is a [Fault]. *)
Abbreviation zlen l := (Z.of_nat (length l)).

Definition at_ {A} `{Inhabited A} (l : list A) (i : Z) : A := l !!! Z.to_nat i.
Definition upd {A} (l : list A) (i : Z) (x : A) : list A := <[Z.to_nat i := x]> l.

Definition rd {A} (l : list A) (i : Z) : outcome A :=
  if decide (i < 0) then Fault
  else match l !! Z.to_nat i with Some x => Ok x | None => Fault end.

Definition wr {A} (l : list A) (i : Z) (x : A) : outcome (list A) :=
  if decide (0 <= i < zlen l) then Ok (upd l i x) else Fault.

Arguments rd : simpl never.
Arguments wr : simpl never.
Arguments at_ : simpl never.
Arguments upd : simpl never.

Section arrays.
Context {A : Type} `{Inhabited A}.
Implicit Types (l : list A) (i j : Z) (x : A).

Lemma rd_ok l i : 0 <= i < zlen l -> rd l i = Ok (at_ l i).
Proof using Type.
  intros Hi. unfold rd, at_. rewrite decide_False by lia.
  destruct (lookup_lt_is_Some_2 l (Z.to_nat i)) as [x Hx]; [lia|].
  rewrite Hx. by rewrite (list_lookup_total_correct _ _ _ Hx).
Qed.

Lemma rd_fault l i : i < 0 \/ zlen l <= i -> rd l i = Fault.
Proof using Type.
  intros Hi. unfold rd. case_decide; [done|].
  rewrite lookup_ge_None_2 by lia. done.
Qed.

Lemma rd_inv l i x : rd l i = Ok x -> 0 <= i < zlen l /\ x = at_ l i.
Proof using Type.
  unfold rd, at_. case_decide; [done|].
  destruct (l !! Z.to_nat i) eqn:E; [|done]. intros [= ->].
  split; [apply lookup_lt_Some in E; lia|].
  by rewrite (list_lookup_total_correct _ _ _ E).
Qed.

Lemma wr_ok l i x : 0 <= i < zlen l -> wr l i x = Ok (upd l i x).
Proof using Type. intros. unfold wr. by rewrite decide_True. Qed.

Lemma wr_fault l i x : ~ (0 <= i < zlen l) -> wr l i x = Fault.
Proof using Type. intros. unfold wr. by rewrite decide_False. Qed.

Lemma length_upd l i x : length (upd l i x) = length l.
Proof using Type. apply length_insert. Qed.

Lemma at_upd_eq l i x : 0 <= i < zlen l -> at_ (upd l i x) i = x.
Proof using Type.
  intros. unfold at_, upd. apply list_lookup_total_insert_eq. lia.
Qed.

Lemma at_upd_ne l i j x : 0 <= i -> 0 <= j -> i <> j -> at_ (upd l i x) j = at_ l j.
Proof using Type.
  intros. unfold at_, upd. apply list_lookup_total_insert_ne. lia.
Qed.

Lemma at_upd l i j x : 0 <= i < zlen l -> 0 <= j ->
  at_ (upd l i x) j = if decide (i = j) then x else at_ l j.
Proof using Type.
  intros. case_decide; [subst; by apply at_upd_eq|apply at_upd_ne; lia].
Qed.

Lemma at_ext l l' : length l = length l' ->
  (forall i, 0 <= i < zlen l -> at_ l i = at_ l' i) -> l = l'.
Proof using Type.
  intros Hlen Hat. apply (list_eq_same_length _ _ (length l)); [done|done|].
  intros k x y Hk Hx Hy.
  specialize (Hat (Z.of_nat k)). unfold at_ in Hat. rewrite Nat2Z.id in Hat.
  rewrite (list_lookup_total_correct _ _ _ Hx), (list_lookup_total_correct _ _ _ Hy) in Hat.
  apply Hat. lia.
Qed.

Lemma at_app l l' i : 0 <= i ->
  at_ (l ++ l') i = if decide (i < zlen l) then at_ l i else at_ l' (i - zlen l).
Proof using Type.
  intros Hi. unfold at_. case_decide.
  - rewrite lookup_total_app_l; [done|lia].
  - rewrite lookup_total_app_r by lia. f_equal. lia.
Qed.

Lemma at_take l n i : 0 <= i < Z.of_nat n -> at_ (take n l) i = at_ l i.
Proof using Type. intros. unfold at_. rewrite lookup_total_take_lt; [done|lia]. Qed.

Lemma at_drop l n i : 0 <= i -> at_ (drop n l) i = at_ l (Z.of_nat n + i).
Proof using Type. intros. unfold at_. rewrite lookup_total_drop. f_equal. lia. Qed.

Lemma at_replicate n x i : 0 <= i < Z.of_nat n -> at_ (replicate n x) i = x.
Proof using Type. intros. unfold at_. rewrite lookup_total_replicate_2; [done|lia]. Qed.

Lemma at_oob l i : zlen l <= i -> at_ l i = inhabitant.
Proof using Type.
  intros. unfold at_. rewrite list_lookup_total_alt, lookup_ge_None_2; [done|lia].
Qed.

Lemma Forall_at (P : A -> Prop) l i : Forall P l -> 0 <= i < zlen l -> P (at_ l i).
Proof using Type.
  intros HF Hi. destruct (lookup_lt_is_Some_2 l (Z.to_nat i)) as [x Hx]; [lia|].
  unfold at_. rewrite (list_lookup_total_correct _ _ _ Hx).
  by eapply Forall_lookup_1.
Qed.

Lemma Forall_upd (P : A -> Prop) l i x : Forall P l -> P x -> Forall P (upd l i x).
Proof using Type. intros. by apply Forall_insert. Qed.

Lemma upd_upd l i x y : upd (upd l i x) i y = upd l i y.
Proof using Type. apply list_insert_insert_eq. Qed.

Lemma upd_comm l i j x y : 0 <= i -> 0 <= j -> i <> j ->
  upd (upd l i x) j y = upd (upd l j y) i x.
Proof using Type. intros. symmetry. apply list_insert_insert_ne. lia. Qed.

Lemma upd_app_r l l' i x : zlen l <= i -> upd (l ++ l') i x = l ++ upd l' (i - zlen l) x.
Proof using Type.
  intros. unfold upd. replace (Z.to_nat i) with (length l + Z.to_nat (i - zlen l))%nat by lia.
  by rewrite insert_app_r.
Qed.

Lemma upd_id l i : 0 <= i < zlen l -> upd l i (at_ l i) = l.
Proof using Type.
  intros Hi. apply list_insert_id.
  destruct (lookup_lt_is_Some_2 l (Z.to_nat i)) as [x Hx]; [lia|].
  unfold at_. by rewrite (list_lookup_total_correct _ _ _ Hx).
Qed.
End arrays.

(** A statement about small numbers, by evaluation. *)
Lemma forall_small (n : Z) (P : Z -> Prop) {Hdec : forall v, Decision (P v)} :
  forallb (fun v => bool_decide (P v)) (seqZ 0 n) = true -> forall v, 0 <= v < n -> P v.
Proof.
  intros Hb v Hv. rewrite forallb_forall in Hb.
  apply (bool_decide_eq_true (P v)), Hb, list_elem_of_In, elem_of_seqZ. lia.
Qed.

Create Rewrite HintDb clen.
#[export] Hint Rewrite @length_upd @length_app @length_take @length_drop @length_replicate
  @length_map @length_fmap @length_insert @length_reverse : clen.

(** * Proof automation

    [wp_step] runs one step of the C code of a [wp] goal; array accesses are
    discharged by the length lemmas of the [clen] database and [lia]. *)
Ltac clen := autorewrite with clen in *.
Ltac clia := clen; lia.

Ltac wp_step :=
  lazymatch goal with
  | |- wp (mbind _ _) _ => apply wp_bind
  | |- wp (mret _) _ => apply wp_ret
  | |- wp (Ok _) _ => apply wp_ret
  | |- wp (rd _ _) _ => rewrite rd_ok by clia; apply wp_ret
  | |- wp (wr _ _ _) _ => rewrite wr_ok by clia; apply wp_ret
  | |- wp (if decide ?P then _ else _) _ => destruct_decide (decide P)
  | |- wp (let '(_, _) := ?x in _) _ => destruct x as [? ?] eqn:?
  end; cbv beta iota.
Ltac wp_steps := repeat wp_step.

(** Read an [Ok] equation backwards through the binds of the code. *)
Lemma bind_ok {A B} (m : outcome A) (f : A -> outcome B) b :
  m ≫= f = Ok b -> exists a, m = Ok a /\ f a = Ok b.
Proof. destruct m; simpl; naive_solver. Qed.

Lemma ok_bind {A B} (m : outcome A) (f : A -> outcome B) a :
  m = Ok a -> m ≫= f = f a.
Proof. by intros ->. Qed.

Ltac ok_inv :=
  repeat match goal with
  | H : _ ≫= _ = Ok _ |- _ =>
      let a := fresh "a" in let E := fresh "E" in
      apply bind_ok in H as (a & E & H)
  | H : Ok _ = Ok _ |- _ => injection H as H; subst
  | H : mret _ = Ok _ |- _ => injection H as H; subst
  | H : Fault = Ok _ |- _ => discriminate H
  | H : NoFuel = Ok _ |- _ => discriminate H
  end.

(** Boolean conditions of C as [0]/[1]. *)
Definition cbool (P : Prop) `{Decision P} : Z := if decide P then 1 else 0.

Lemma land_255 z : Z.land z 255 = z mod 2 ^ 8.
Proof. change 255 with (Z.ones 8). by apply Z.land_ones. Qed.

Lemma land_disjoint a b n : 0 <= n -> a mod 2 ^ n = 0 -> 0 <= b < 2 ^ n -> Z.land a b = 0.
Proof.
  intros Hn Ha Hb. apply Z.bits_inj'. intros k Hk. rewrite Z.land_spec, Z.bits_0.
  destruct (decide (k < n)).
  - rewrite <- (Z.mod_pow2_bits_low a n k), Ha, Z.bits_0 by lia. done.
  - rewrite <- (Z.mod_small b (2 ^ n)), Z.mod_pow2_bits_high by lia.
    by rewrite andb_false_r.
Qed.

Lemma lor_add a b n : 0 <= n -> a mod 2 ^ n = 0 -> 0 <= b < 2 ^ n -> Z.lor a b = a + b.
Proof.
  intros Hn Ha Hb. pose proof (land_disjoint a b n Hn Ha Hb) as H.
  by rewrite Z.add_nocarry_lxor, Z.lxor_lor.
Qed.

(** * Strings

    Bytes of a C string literal, terminating NUL included; [litln s] is the
    literal ["s\n"]. *)
Definition chars (s : String.string) : list Z :=
  map (fun a => Z.of_N (Ascii.N_of_ascii a)) (String.list_ascii_of_string s).
Definition lit (s : String.string) : list Z := chars s ++ [0].
Definition litln (s : String.string) : list Z := chars s ++ [10; 0].
Arguments chars s%_string.
Arguments lit s%_string.
Arguments litln s%_string.

(** The C string at the start of an array: the bytes before the first NUL
    (the whole array when there is none). *)
Fixpoint cstr (s : list Z) : list Z :=
  match s with
  | [] => []
  | c :: s' => if decide (c = 0) then [] else c :: cstr s'
  end.

Lemma length_cstr s : (length (cstr s) <= length s)%nat.
Proof. induction s; simpl; [lia|]. case_decide; simpl; lia. Qed.

Lemma length_cstr_lt s : 0 ∈ s -> (length (cstr s) < length s)%nat.
Proof.
  induction s as [|c s IH]; simpl; [by intros ?%not_elem_of_nil|].
  intros [<-|H]%elem_of_cons; [rewrite decide_True by done; simpl; lia|].
  case_decide; simpl; [lia|].
  specialize (IH H). lia.
Qed.

Lemma at_cons {A} `{Inhabited A} (x : A) l i : 0 <= i ->
  at_ (x :: l) i = if decide (i = 0) then x else at_ l (i - 1).
Proof.
  intros. unfold at_. case_decide; [by subst|].
  by replace (Z.to_nat i) with (Datatypes.S (Z.to_nat (i - 1))) by lia.
Qed.

Lemma cstr_nonzero s i : 0 <= i < zlen (cstr s) -> at_ s i <> 0.
Proof.
  revert i. induction s as [|c s IH]; simpl; intros i Hi; [lia|].
  case_decide; simpl in *; [lia|]. rewrite at_cons by lia.
  case_decide; [done|]. apply IH. lia.
Qed.

Lemma cstr_nul s : 0 ∈ s -> at_ s (zlen (cstr s)) = 0.
Proof.
  induction s as [|c s IH]; simpl; [by intros ?%not_elem_of_nil|].
  intros Hin. case_decide; [by subst|]. simpl. rewrite at_cons by lia.
  rewrite decide_False by lia.
  replace (Z.of_nat (Datatypes.S (length (cstr s))) - 1) with (zlen (cstr s)) by lia.
  apply IH. apply elem_of_cons in Hin as [?|?]; [congruence|done].
Qed.

Lemma cstr_prefix s : cstr s = take (length (cstr s)) s.
Proof. induction s; simpl; [done|]. case_decide; simpl; congruence. Qed.

Lemma cstr_app s t : 0 ∉ s -> cstr (s ++ 0 :: t) = s.
Proof.
  induction s as [|c s IH]; simpl; intros H; [done|].
  apply not_elem_of_cons in H as [H1 H2]. rewrite decide_False by done.
  by rewrite IH.
Qed.

Lemma cstr_idem s : 0 ∉ cstr s.
Proof.
  induction s as [|c s IH]; simpl; [apply not_elem_of_nil|].
  case_decide; [apply not_elem_of_nil|]. apply not_elem_of_cons. split; [congruence|done].
Qed.

(** An array whose start was overwritten with [t]. *)
Definition over {A} (t l : list A) : list A := t ++ drop (length t) l.

Section over.
Context {A : Type} `{Inhabited A}.
Implicit Types (t l : list A) (x : A).

Lemma length_over t l : (length t <= length l)%nat -> length (over t l) = length l.
Proof using Type. intros. unfold over. rewrite length_app, length_drop. lia. Qed.

Lemma over_nil l : over [] l = l.
Proof using Type. done. Qed.

Lemma upd_over t l x : (length t < length l)%nat -> upd (over t l) (zlen t) x = over (t ++ [x]) l.
Proof using Type.
  intros Hl. unfold over. rewrite upd_app_r by lia. rewrite <- app_assoc. f_equal.
  unfold upd. replace (Z.to_nat (zlen t - zlen t)) with O by lia.
  rewrite length_app. simpl. rewrite <- drop_drop.
  destruct (drop (length t) l) as [|y r] eqn:E; [|done].
  apply (f_equal length) in E. rewrite length_drop in E. simpl in E. lia.
Qed.

(** Writing the next element. *)
Lemma wr_over t l i x : i = zlen t -> (length t < length l)%nat ->
  wr (over t l) i x = Ok (over (t ++ [x]) l).
Proof using Type.
  intros -> Hl. rewrite wr_ok by (rewrite length_over; lia). by rewrite upd_over.
Qed.

Lemma take_snoc l i : 0 <= i < zlen l ->
  take (Z.to_nat (i + 1)) l = take (Z.to_nat i) l ++ [at_ l i].
Proof using Type.
  intros Hi. replace (Z.to_nat (i + 1)) with (Datatypes.S (Z.to_nat i)) by lia.
  apply take_S_r. unfold at_. apply list_lookup_lookup_total_lt. lia.
Qed.

Lemma at_over t l i : 0 <= i -> at_ (over t l) i = if decide (i < zlen t) then at_ t i else at_ l i.
Proof using Type.
  intros Hi. unfold over. rewrite at_app by done. case_decide; [done|].
  rewrite at_drop by lia. f_equal. lia.
Qed.
End over.
