(* ===== verification/CLib.v ===== *)
(** The string routines of [student-distrib/lib.c]: [strlen], [strncmp],
    [strcpy], [strncpy], [strrev] and [itoa], on char arrays given as lists of
    bytes.  A pointer into the middle of an array ([&conv_buf[8]]) is the
    suffix of the array from that index. *)

From S2P Require Import Prelude.
(** ** lib.c: strlen *)
Definition strlen (s : list Z) : outcome Z :=
  loop (Datatypes.S (length s))
    (fun len =>
       c ← rd s len;
       mret (if decide (c <> 0) then inl (u32 (len + 1)) else inr len)) 0.

(** ** lib.c: strncmp, [char] is signed *)
Definition strncmp (s1 s2 : list Z) (n : Z) : outcome Z :=
  loop (Datatypes.S (length s1))
    (fun i =>
       if decide (u32 i < n) then
         a ← rd s1 i; b ← rd s2 i;
         mret (if decide (i8 a <> i8 b \/ i8 a = 0)
               then inr (i8 a - i8 b)
               else inl (i32 (i + 1)))
       else mret (inr 0)) 0.

(** ** lib.c: strcpy *)
Definition strcpy (dest src : list Z) : outcome (list Z) :=
  loop (Datatypes.S (length src))
    (fun '(i, dest) =>
       c ← rd src i;
       if decide (c <> 0) then
         dest ← wr dest i c; mret (inl (i32 (i + 1), dest))
       else
         dest ← wr dest i 0; mret (inr dest)) (0, dest).

(** ** lib.c: strncpy *)
Definition strncpy (dest src : list Z) (n : Z) : outcome (list Z) :=
  '(i, dest) ← loop (Datatypes.S (length src))
    (fun '(i, dest) =>
       c ← rd src i;
       if decide (c <> 0 /\ u32 i < n) then
         dest ← wr dest i c; mret (inl (i32 (i + 1), dest))
       else mret (inr (i, dest))) (0, dest);
  loop (Datatypes.S (length dest))
    (fun '(i, dest) =>
       if decide (u32 i < n) then
         dest ← wr dest i 0; mret (inl (i32 (i + 1), dest))
       else mret (inr dest)) (i, dest).

(** ** lib.c: strrev *)
Definition strrev (s : list Z) : outcome (list Z) :=
  len ← strlen s;
  loop (Datatypes.S (length s))
    (fun '(s, beg, en) =>
       if decide (beg < en) then
         tmp ← rd s en; c ← rd s beg;
         s ← wr s en c; s ← wr s beg tmp;
         mret (inl (s, beg + 1, en - 1))
       else mret (inr s)) (s, 0, i32 (len - 1)).

(** ** lib.c: itoa *)
Definition lookup : list Z := lit "0123456789ABCDEFGHIJKLMNOPQRSTUVWXYZ".

Definition itoa (value : Z) (buf : list Z) (radix : Z) : outcome (list Z) :=
  if decide (value = 0) then
    buf ← wr buf 0 48; wr buf 1 0
  else
    '(newbuf, buf) ← loop (33 + length buf)
      (fun '(newval, newbuf, buf) =>
         if decide (newval > 0) then
           if decide (u32 radix = 0) then Fault else
           let i := i32 (newval mod u32 radix) in
           c ← rd lookup i;
           buf ← wr buf newbuf c;
           mret (inl (newval / u32 radix, newbuf + 1, buf))
         else mret (inr (newbuf, buf))) (value, 0, buf);
    buf ← wr buf newbuf 0;
    strrev buf.

(** [f(&buf[k])]: run [f] on the part of [buf] from index [k]. *)
Definition at_ptr (k : nat) (f : list Z -> outcome (list Z)) (buf : list Z) : outcome (list Z) :=
  tl ← f (drop k buf); mret (take k buf ++ tl).

Example itoa_ex : itoa 391 (replicate 8 7) 10 = Ok [51; 57; 49; 0; 7; 7; 7; 7].
Proof. reflexivity. Qed.

(** ** Specifications *)

Lemma strlen_spec s : 0 ∈ s -> zlen s < 2 ^ 31 -> strlen s = Ok (zlen (cstr s)).
Proof.
  intros H0 Hlen. pose proof (length_cstr_lt s H0) as Hc. apply wp_eq. unfold strlen.
  apply (wp_loop (fun i => 0 <= i <= zlen (cstr s))
                 (fun i => Z.to_nat (zlen (cstr s) - i))); [lia|lia|].
  intros i Hi. wp_step. wp_step. wp_step. pose proof (cstr_nul s H0).
  case_decide as Hd.
  - assert (i <> zlen (cstr s)) by congruence. rewrite u32_id by lia. lia.
  - destruct (decide (i = zlen (cstr s))); [done|].
    by destruct (cstr_nonzero s i); [lia|].
Qed.

Lemma at_skip (l : list Z) i k : 0 <= i -> 0 <= k -> at_ (drop (Z.to_nat i) l) k = at_ l (i + k).
Proof. intros. rewrite at_drop by lia. f_equal. lia. Qed.

(** Two arrays agree as C strings on their first [n] characters. *)
Definition same_prefix (n : Z) (s1 s2 : list Z) : Prop :=
  forall j, 0 <= j < n -> (forall k, 0 <= k < j -> at_ s1 k <> 0) -> at_ s1 j = at_ s2 j.

(** [s] can be read as a string of at most [n] characters. *)
Definition readable (n : Z) (s : list Z) : Prop := 0 ∈ s \/ n <= zlen s.

Lemma readable_bound n s i :
  readable n s -> 0 <= i < n -> (forall k, 0 <= k < i -> at_ s k <> 0) -> i < zlen s.
Proof.
  intros [H0|Hn] Hi Hk; [|lia].
  destruct (decide (zlen (cstr s) < i)).
  - by destruct (Hk (zlen (cstr s))); [lia|apply cstr_nul].
  - pose proof (length_cstr_lt s H0). lia.
Qed.

Lemma strncmp_spec s1 s2 n :
  Forall byte s1 -> Forall byte s2 -> zlen s1 < 2 ^ 31 ->
  readable n s1 -> readable n s2 -> 0 <= n < 2 ^ 32 ->
  wp (strncmp s1 s2 n) (fun r => r = 0 <-> same_prefix n s1 s2).
Proof.
  intros B1 B2 Hl R1 R2 Hn. unfold strncmp.
  apply (wp_loop (fun i => 0 <= i <= n /\ i <= zlen s1 /\
      forall j, 0 <= j < i -> at_ s1 j = at_ s2 j /\ at_ s1 j <> 0)
    (fun i => Z.to_nat (zlen s1 - i))); [repeat split; lia|lia|].
  intros i (Hi & Hi1 & Heq). rewrite u32_id by lia. wp_step.
  - assert (i < zlen s1) by (eapply readable_bound; [done|lia|naive_solver]).
    assert (i < zlen s2).
    { eapply readable_bound; [done|lia|]. intros k Hk. destruct (Heq k) as [<- ?]; [lia|done]. }
    wp_steps. pose proof (Forall_at byte s1 i B1) as Hb1.
    pose proof (Forall_at byte s2 i B2) as Hb2.
    case_decide as Hd.
    + assert (Hpre : forall k, 0 <= k < i -> at_ s1 k <> 0) by naive_solver.
      split.
      * intros Hr. assert (He : i8 (at_ s1 i) = i8 (at_ s2 i)) by lia.
        destruct Hd as [Hd|Hd]; [done|]. apply i8_inj in He; [|apply Hb1; lia|apply Hb2; lia].
        assert (at_ s1 i = 0) by (apply i8_inj; [apply Hb1; lia|unfold byte; lia|exact Hd]).
        intros j Hj Hjk. destruct (decide (j < i)); [apply Heq; lia|].
        destruct (decide (j = i)); [congruence|]. destruct (Hjk i); [lia|done].
      * intros HS. rewrite (HS i) by (lia || done). lia.
    + assert (He : i8 (at_ s1 i) = i8 (at_ s2 i)) by (destruct (decide (i8 (at_ s1 i) = i8 (at_ s2 i))); naive_solver).
      assert (i8 (at_ s1 i) <> 0) by naive_solver.
      apply i8_inj in He; [|apply Hb1; lia|apply Hb2; lia].
      rewrite i32_id by lia. split; [|lia]. split; [lia|]. split; [lia|].
      intros j Hj. destruct (decide (j = i)) as [->|]; [|apply Heq; lia].
      split; [done|]. intros E. by rewrite E in *.
  - wp_steps. split; [|done]. intros _ j Hj _. apply Heq. lia.
Qed.

(** strcpy copies the C string of [src], NUL included, over the start of [dest]. *)
Lemma strcpy_spec dest src :
  0 ∈ src -> zlen src < 2 ^ 31 -> zlen (cstr src) < zlen dest ->
  strcpy dest src = Ok (cstr src ++ 0 :: drop (Datatypes.S (length (cstr src))) dest).
Proof.
  intros H0 Hs Hd. pose proof (length_cstr_lt src H0) as Hc. apply wp_eq. unfold strcpy.
  set (n := length (cstr src)) in *.
  apply (wp_loop (fun '(i, d) => 0 <= i <= Z.of_nat n /\
           d = take (Z.to_nat i) (cstr src) ++ drop (Z.to_nat i) dest)
    (fun '(i, _) => Z.to_nat (Z.of_nat n - i))); [split; [lia|done]|lia|].
  intros [i d] [Hi ->]. wp_step. wp_step.
  assert (Hlen : zlen (take (Z.to_nat i) (cstr src) ++ drop (Z.to_nat i) dest) = zlen dest)
    by (rewrite length_app, length_take, length_drop; lia).
  assert (Hupd : forall x, upd (take (Z.to_nat i) (cstr src) ++ drop (Z.to_nat i) dest) i x
     = take (Z.to_nat i) (cstr src) ++ x :: drop (Datatypes.S (Z.to_nat i)) dest).
  { intros x. rewrite upd_app_r by (rewrite length_take; lia).
    f_equal. unfold upd. rewrite length_take. replace (Z.to_nat _) with O by lia.
    destruct (drop (Z.to_nat i) dest) as [|y l] eqn:E.
    - apply (f_equal length) in E. rewrite length_drop in E. simpl in E. lia.
    - simpl. f_equal. replace (Datatypes.S (Z.to_nat i)) with (Z.to_nat i + 1)%nat by lia.
      by rewrite <- drop_drop, E. }
  pose proof (cstr_nul src H0) as Hnul. fold n in Hnul.
  wp_step; rewrite wr_ok by lia; do 3 wp_step; rewrite Hupd.
  - assert (i <> Z.of_nat n) by congruence. rewrite i32_id by lia. split; [split; [lia|]|lia].
    assert (Hat : take (Z.to_nat (i + 1)) (cstr src)
                  = take (Z.to_nat i) (cstr src) ++ [at_ src i]).
    { replace (Z.to_nat (i + 1)) with (Datatypes.S (Z.to_nat i)) by lia.
      apply take_S_r. rewrite cstr_prefix, lookup_take_lt by lia.
      unfold at_. apply list_lookup_lookup_total_lt. lia. }
    rewrite Hat, <- app_assoc. simpl. by replace (Z.to_nat (i + 1)) with (Datatypes.S (Z.to_nat i)) by lia.
  - destruct (decide (i = Z.of_nat n)); [subst i|by destruct (cstr_nonzero src i); [lia|]].
    rewrite Nat2Z.id, take_ge by done. done.
Qed.

(** strrev reverses the C string of [s] in place and keeps what follows. *)
Lemma at_reverse (l : list Z) i : 0 <= i < zlen l -> at_ (reverse l) i = at_ l (zlen l - 1 - i).
Proof.
  intros Hi. unfold at_. rewrite !list_lookup_total_alt, reverse_lookup by lia.
  do 3 f_equal. lia.
Qed.

Lemma strrev_spec s :
  0 ∈ s -> zlen s < 2 ^ 31 ->
  strrev s = Ok (reverse (cstr s) ++ drop (length (cstr s)) s).
Proof.
  intros H0 Hs. pose proof (length_cstr_lt s H0) as Hc. apply wp_eq.
  unfold strrev. rewrite strlen_spec by done. wp_step. wp_step.
  set (n := length (cstr s)) in *. rewrite i32_id by lia.
  assert (Hcs : forall j, 0 <= j < Z.of_nat n -> at_ (cstr s) j = at_ s j).
  { intros j Hj. rewrite cstr_prefix. apply at_take. fold n. lia. }
  apply (wp_loop (fun '(t, b, e) => length t = length s /\ 0 <= b /\ b <= e + 1 /\ b + e = Z.of_nat n - 1 /\
      forall j, 0 <= j < zlen s -> at_ t j =
        if decide (j < b \/ e < j < Z.of_nat n) then at_ s (Z.of_nat n - 1 - j) else at_ s j)
    (fun '(_, b, e) => Z.to_nat (e - b))).
  - repeat split; try lia. intros j Hj. case_decide; [lia|done].
  - lia.
  - intros [[t b] e] (Hl & Hb & Hbe & Hsum & Ht). wp_step.
    + wp_step. rewrite rd_ok by lia. do 2 wp_step. rewrite rd_ok by lia. do 2 wp_step.
      rewrite wr_ok by lia. do 2 wp_step. rewrite wr_ok by clia. do 2 wp_step.
      rewrite !length_upd. repeat split; try lia. intros j Hj.
      rewrite !at_upd by clia. rewrite !Ht by lia.
      repeat (case_decide; try lia); try (f_equal; lia).
    + wp_step. apply at_ext; [clia|]. intros j Hj. rewrite Hl in Hj. rewrite Ht by lia.
      rewrite at_app by lia. rewrite length_reverse. fold n.
      case_decide as Hd; case_decide as Hd2; try lia.
      * rewrite at_reverse by (fold n; lia). fold n. by rewrite Hcs by lia.
      * rewrite at_reverse by (fold n; lia). fold n. rewrite Hcs by lia. f_equal. lia.
      * rewrite at_drop by lia. f_equal. lia.
Qed.

(** *** itoa against positional notation *)

(** Digits of [v] in base [r], least significant first, at most [n] of them. *)
Fixpoint digits_le (n : nat) (r v : Z) : list Z :=
  match n with
  | O => []
  | Datatypes.S n' => if decide (v = 0) then [] else v mod r :: digits_le n' r (v / r)
  end.
Definition digit_char (d : Z) : Z := at_ lookup d.

(** The text of [v] in base [r], most significant digit first. *)
Definition numeral (r v : Z) : list Z :=
  if decide (v = 0) then [48] else digit_char <$> reverse (digits_le 32 r v).

Definition char_value (c : Z) : Z := if decide (c <= 57) then c - 48 else c - 55.
Definition parse_numeral (r : Z) (s : list Z) : Z :=
  foldl (fun acc c => acc * r + char_value c) 0 s.

Lemma digits_le_length n r v k :
  2 <= r -> 0 <= v < r ^ Z.of_nat k -> (length (digits_le n r v) <= k)%nat.
Proof.
  intros Hr. revert v k. induction n as [|n IH]; intros v k Hv; simpl; [lia|].
  case_decide; simpl; [lia|]. destruct k as [|k]; [simpl in Hv; lia|].
  rewrite Nat2Z.inj_succ, Z.pow_succ_r in Hv by lia.
  enough (length (digits_le n r (v / r)) <= k)%nat by lia.
  apply IH. split; [apply Z.div_pos; lia|]. apply Z.div_lt_upper_bound; lia.
Qed.

Lemma digits_le_range n r v : 2 <= r -> 0 <= v -> Forall (fun d => 0 <= d < r) (digits_le n r v).
Proof.
  intros Hr. revert v. induction n as [|n IH]; intros v Hv; simpl; [constructor|].
  case_decide; constructor; [apply Z.mod_pos_bound; lia|apply IH, Z.div_pos; lia].
Qed.

Lemma digits_le_value n r v : 2 <= r -> 0 <= v < 2 ^ Z.of_nat n ->
  foldr (fun d acc => acc * r + d) 0 (digits_le n r v) = v.
Proof.
  intros Hr. revert v. induction n as [|n IH]; intros v Hv; [simpl in *; lia|].
  cbn [digits_le]. rewrite Nat2Z.inj_succ, Z.pow_succ_r in Hv by lia.
  case_decide; simpl; [lia|]. rewrite IH.
  - pose proof (Z.div_mod v r). lia.
  - split; [apply Z.div_pos; lia|]. apply Z.div_lt_upper_bound; [lia|].
    pose proof (Z.pow_pos_nonneg 2 (Z.of_nat n)). nia.
Qed.

Lemma lookup_digit d : 0 <= d < 36 -> char_value (digit_char d) = d /\ 48 <= digit_char d < 91.
Proof.
  intros Hd. assert (Hall : forallb (fun d => bool_decide
    (char_value (digit_char d) = d /\ 48 <= digit_char d < 91)) (seqZ 0 36) = true)
    by (vm_compute; reflexivity).
  rewrite forallb_forall in Hall. specialize (Hall d).
  apply (bool_decide_eq_true_1 _ (Hall (proj1 (list_elem_of_In _ _) (proj2 (elem_of_seqZ _ _ _) Hd)))).
Qed.

Lemma parse_numeral_spec r v : 2 <= r <= 36 -> uint32 v -> parse_numeral r (numeral r v) = v.
Proof.
  intros Hr Hv. unfold uint32 in Hv. unfold numeral. case_decide; [by subst|].
  unfold parse_numeral. rewrite fmap_reverse, foldl_reverse, foldr_fmap || idtac.
  rewrite <- (digits_le_value 32 r v) at 2 by (simpl; lia).
  pose proof (digits_le_range 32 r v) as HF. specialize (HF ltac:(lia) ltac:(lia)).
  induction HF as [|d l Hd HF IH]; [done|].
  rewrite reverse_cons, fmap_app, foldl_app, IH. simpl.
  by rewrite (proj1 (lookup_digit d ltac:(lia))).
Qed.

Lemma upd_app_cons (pre rest : list Z) (x y : Z) :
  upd (pre ++ y :: rest) (zlen pre) x = (pre ++ [x]) ++ rest.
Proof. rewrite upd_app_r, Z.sub_diag by lia. by rewrite <- app_assoc. Qed.

Section itoa.
Variable r : Z.
Hypothesis Hr : 2 <= r <= 36.

(** The loop of itoa from a state where the characters [pre] are written. *)
Lemma itoa_loop n v pre rest :
  0 <= v < 2 ^ Z.of_nat n -> v < 2 ^ 32 ->
  (length (digits_le n r v) <= length rest)%nat ->
  loop (Datatypes.S n)
    (fun '(newval, newbuf, buf) =>
       if decide (newval > 0) then
         if decide (u32 r = 0) then Fault else
         let i := i32 (newval mod u32 r) in
         c ← rd lookup i;
         buf ← wr buf newbuf c;
         mret (inl (newval / u32 r, newbuf + 1, buf))
       else mret (inr (newbuf, buf))) (v, zlen pre, pre ++ rest)
  = Ok (zlen pre + zlen (digits_le n r v),
        pre ++ (digit_char <$> digits_le n r v) ++ drop (length (digits_le n r v)) rest).
Proof using Hr.
  rewrite (u32_id r) by lia.
  revert v pre rest. induction n as [|n IH]; intros v pre rest Hv Hv32 Hlen.
  - simpl in Hv. assert (v = 0) as -> by lia. rewrite loop_S. simpl. by rewrite Z.add_0_r.
  - cbn [digits_le] in *. rewrite loop_S. destruct (decide (v > 0)) as [Hd|Hd].
    + rewrite (decide_False (P := v = 0)) in * by lia. rewrite (decide_False (P := r = 0)) by lia.
      simpl in Hlen. cbv zeta.
      assert (Hm : 0 <= v mod r < r) by (apply Z.mod_pos_bound; lia).
      rewrite i32_id by lia.
      change (Z.of_nat (length lookup)) with 37 in *.
      rewrite rd_ok by (change (zlen lookup) with 37; lia). simpl.
      destruct rest as [|y rest]; [simpl in Hlen; lia|].
      rewrite wr_ok by (rewrite length_app; simpl; lia). simpl.
      rewrite upd_app_cons. change (at_ lookup (v mod r)) with (digit_char (v mod r)).
      replace (zlen pre + 1) with (zlen (pre ++ [digit_char (v mod r)]))
        by (rewrite length_app; simpl; lia).
      rewrite IH.
      * rewrite length_app. simpl. f_equal. f_equal; [lia|]. by rewrite <- app_assoc.
      * rewrite Nat2Z.inj_succ, Z.pow_succ_r in Hv by lia.
        split; [apply Z.div_pos; lia|]. apply Z.div_lt_upper_bound; [lia|].
        pose proof (Z.pow_pos_nonneg 2 (Z.of_nat n)). nia.
      * apply Z.div_lt_upper_bound; lia.
      * simpl in Hlen. lia.
    + assert (v = 0) as -> by lia. rewrite decide_True by done. simpl.
      by rewrite Z.add_0_r.
Qed.

Lemma digits_nonzero n v : 0 <= v -> 0 ∉ digit_char <$> digits_le n r v.
Proof using Hr.
  intros Hv [d [Hd Hin]]%list_elem_of_fmap.
  pose proof (digits_le_range n r v ltac:(lia) Hv) as HF. rewrite Forall_forall in HF.
  specialize (HF d Hin). pose proof (lookup_digit d). lia.
Qed.

(** itoa writes the numeral and a NUL at the start of [buf] and leaves the rest. *)
Lemma itoa_spec v buf :
  uint32 v -> zlen buf < 2 ^ 31 -> zlen (numeral r v) < zlen buf ->
  itoa v buf r = Ok (numeral r v ++ 0 :: drop (Datatypes.S (length (numeral r v))) buf).
Proof using Hr.
  intros Hv Hb Hlen. unfold uint32 in Hv. unfold itoa, numeral in *. case_decide as Hd.
  - destruct buf as [|a [|b buf]]; [simpl in Hlen; lia|simpl in Hlen; lia|]. rewrite wr_ok by (simpl; lia). simpl.
    change (upd (a :: b :: buf) 0 48) with (48 :: b :: buf).
    rewrite wr_ok by (simpl; lia). done.
  - pose proof (itoa_loop 32 v [] buf) as HL. cbn [app] in HL.
    change (zlen (@nil Z)) with 0 in HL.
    assert (Hnz := digits_nonzero 32 v ltac:(lia)).
    set (D := digits_le 32 r v) in *. clearbody D.
    assert (HlD : length (digit_char <$> reverse D) = length D)
      by (by rewrite length_fmap, length_reverse).
    rewrite HlD in *.
    rewrite Z.add_0_l in HL. specialize (HL ltac:(lia) ltac:(lia) ltac:(lia)).
    apply (loop_fuel_mono _ _ (33 + length buf)) in HL; [|lia]. rewrite HL. clear HL. cbn [mbind outcome_bind].
    rewrite wr_ok by (rewrite length_app, length_fmap, length_drop; lia).
    cbn [mbind outcome_bind]. destruct (drop (length D) buf) as [|y rest] eqn:E.
    { apply (f_equal length) in E. rewrite length_drop in E. simpl in E. lia. }
    replace (zlen D) with (zlen (digit_char <$> D)) by (by rewrite length_fmap).
    rewrite upd_app_cons.
    assert (Hrest : rest = drop (Datatypes.S (length D)) buf).
    { replace (Datatypes.S (length D)) with (length D + 1)%nat by lia.
      by rewrite <- drop_drop, E. }
    subst rest. rewrite <- app_assoc. simpl. rewrite strrev_spec.
    + rewrite cstr_app by done.
      rewrite drop_app_length. by rewrite fmap_reverse.
    + rewrite elem_of_app. right. left.
    + rewrite length_app, length_fmap. simpl. rewrite length_drop. lia.
Qed.
End itoa.

(** Without a radix the conversion traps; with radix 1 the value never gets
    smaller and the digits run over the end of the buffer. *)
Lemma itoa_bad_radix v buf r : 0 < v -> u32 r <= 1 -> itoa v buf r = Fault.
Proof.
  intros Hv Hr. pose proof (u32_range r) as Hr0. unfold itoa. rewrite decide_False by lia.
  destruct (decide (u32 r = 0)) as [E|].
  { replace (33 + length buf)%nat with (Datatypes.S (32 + length buf)) by lia.
    rewrite loop_S, decide_True by lia. done. }
  assert (E : u32 r = 1) by lia. rewrite E. clear E Hr Hr0.
  assert (L : forall fuel j b, length b = length buf -> 0 <= j -> (length buf < fuel + Z.to_nat j)%nat -> j <= zlen b ->
    loop fuel (fun '(newval, newbuf, buf) =>
       if decide (newval > 0) then
         if decide (1 = 0) then Fault else
         let i := i32 (newval mod 1) in
         c ← rd lookup i;
         buf ← wr buf newbuf c;
         mret (inl (newval / 1, newbuf + 1, buf))
       else mret (inr (newbuf, buf))) (v, j, b) = Fault).
  { induction fuel as [|fuel IH]; intros j b Hb Hj Hf Hjb; [lia|]. rewrite loop_S.
    rewrite decide_True, decide_False by lia. cbv zeta. rewrite Z.mod_1_r, Z.div_1_r.
    change (rd lookup (i32 0)) with (Ok 48). cbn [mbind outcome_bind].
    destruct_decide (decide (j = zlen b)) as Hjl.
    - unfold wr. by rewrite decide_False by lia.
    - rewrite wr_ok by lia. cbn [mbind outcome_bind]. simpl. apply IH; [by rewrite length_upd|lia|lia|].
      rewrite length_upd. lia. }
  by rewrite L by lia.
Qed.

Lemma numeral_length r v k :
  2 <= r -> uint32 v -> (0 < k)%nat -> v < r ^ Z.of_nat k -> (length (numeral r v) <= k)%nat.
Proof.
  unfold uint32, numeral. intros. case_decide; [simpl; lia|].
  rewrite length_fmap, length_reverse. apply digits_le_length; lia.
Qed.

Lemma numeral_bytes r v : 2 <= r <= 36 -> uint32 v -> Forall (fun c => 48 <= c < 91) (numeral r v).
Proof.
  unfold uint32, numeral. intros Hr Hv. case_decide; [repeat constructor; lia|].
  apply Forall_fmap, Forall_reverse.
  eapply Forall_impl; [apply (digits_le_range 32 r v); lia|].
  intros d Hd. simpl in *. apply lookup_digit. lia.
Qed.

Lemma numeral_no_nul r v : 2 <= r <= 36 -> uint32 v -> 0 ∉ numeral r v.
Proof.
  intros Hr Hv H. pose proof (numeral_bytes r v Hr Hv) as HF.
  rewrite Forall_forall in HF. specialize (HF _ H). lia.
Qed.

Lemma digits_le_S n r v :
  digits_le (Datatypes.S n) r v = if decide (v = 0) then [] else v mod r :: digits_le n r (v / r).
Proof. done. Qed.
Arguments digits_le : simpl never.
Arguments numeral : simpl never.

(** strncpy copies at most [n] characters of the C string of [src] and pads
    with NULs up to [n]. *)
Lemma cstr_full s : 0 ∉ s -> cstr s = s.
Proof.
  induction s as [|c s IH]; simpl; [done|]. intros [H1 H2]%not_elem_of_cons.
  rewrite decide_False by done. by rewrite IH.
Qed.

Lemma at_cstr s i : 0 <= i < zlen (cstr s) -> at_ (cstr s) i = at_ s i.
Proof. intros Hi. rewrite cstr_prefix. apply at_take. lia. Qed.

Lemma cstr_next s i :
  0 <= i <= zlen (cstr s) -> i < zlen s -> (at_ s i = 0 <-> i = zlen (cstr s)).
Proof.
  intros Hi Hs. split.
  - intros H0. destruct (decide (i = zlen (cstr s))); [done|].
    by destruct (cstr_nonzero s i); [lia|].
  - intros ->. apply cstr_nul. destruct (decide (0 ∈ s)) as [|Hn]; [done|].
    rewrite (cstr_full s Hn) in Hs. lia.
Qed.

Definition strncpy_result (dest src : list Z) (n : nat) : list Z :=
  let c := take n (cstr src) in c ++ replicate (n - length c) 0 ++ drop n dest.

Lemma strncpy_spec dest src n :
  0 ∈ src \/ n < zlen src -> 0 <= n <= zlen dest -> zlen dest < 2 ^ 31 ->
  strncpy dest src n = Ok (strncpy_result dest src (Z.to_nat n)).
Proof.
  intros Hsrc Hn Hd. apply wp_eq. unfold strncpy. apply wp_bind.
  set (k := Z.min n (zlen (cstr src))).
  assert (Hk : k < zlen src).
  { destruct Hsrc as [H0|]; [pose proof (length_cstr_lt src H0); lia|lia]. }
  pose (Mid := fun i d => length d = length dest /\ forall j, 0 <= j < zlen dest ->
      at_ d j = if decide (j < i) then (if decide (j < k) then at_ src j else 0) else at_ dest j).
  eapply (wp_mono _ (fun '(i, d) => i = k /\ Mid k d)).
  { apply (wp_loop (fun '(i, d) => 0 <= i <= k /\ Mid i d) (fun '(i, _) => Z.to_nat (k - i))).
    - split; [lia|]. split; [done|]. intros j Hj. by case_decide; [lia|].
    - lia.
    - intros [i d] [Hi [Hl Hat]]. wp_step. rewrite rd_ok by lia. wp_step.
      pose proof (cstr_next src i) as Hz. rewrite u32_id by lia.
      case_decide as Hc.
      + assert (i < k) by naive_solver lia.
        rewrite wr_ok by lia. wp_step. wp_step. wp_step. rewrite i32_id by lia.
        split; [|lia]. split; [lia|]. split; [by rewrite length_upd|].
        intros j Hj. rewrite at_upd, Hat by lia.
        repeat (case_decide; try lia); subst; done.
      + assert (i = k) by naive_solver lia. subst i. wp_step. done. }
  intros [i d] [-> [Hl Hat]].
  apply (wp_loop (fun '(i, d) => k <= i <= n /\ Mid i d) (fun '(i, _) => Z.to_nat (n - i))).
  - split; [lia|]. done.
  - lia.
  - intros [i d'] [Hi [Hl' Hat']]. rewrite u32_id by lia. wp_step.
    + rewrite wr_ok by lia. do 3 wp_step. rewrite i32_id by lia.
      split; [|lia]. split; [lia|]. split; [by rewrite length_upd|].
      intros j Hj. rewrite at_upd, Hat' by lia.
      repeat (case_decide; try lia); subst; done.
    + wp_step. assert (i = n) as -> by lia. unfold strncpy_result.
      assert (Hck : length (take (Z.to_nat n) (cstr src)) = Z.to_nat k)
        by (rewrite length_take; lia).
      apply at_ext; [rewrite Hl', !length_app, Hck, length_replicate, length_drop; lia|].
      intros j Hj. rewrite Hat' by lia.
      rewrite at_app, Hck by lia. case_decide as Hjn.
      * case_decide as Hjk; [rewrite decide_True by lia; rewrite at_take, at_cstr by lia; done|].
        rewrite decide_False by lia. rewrite at_app, length_replicate by lia.
        rewrite decide_True by lia. by rewrite at_replicate by lia.
      * rewrite decide_False by lia. rewrite at_app, length_replicate by lia.
        rewrite decide_False by lia. rewrite at_drop by lia. f_equal. lia.
Qed.

(** *** The number printed is the number given *)
(** C31: itoa and numeral parsing are inverse: for every 32-bit value and
    every radix from 2 to 36 the buffer itoa leaves is a NUL-terminated
    numeral that reads back as the value. *)
Lemma itoa_parses r v buf :
  2 <= r <= 36 -> uint32 v -> zlen buf < 2 ^ 31 -> 33 <= zlen buf ->
  exists buf', itoa v buf r = Ok buf' /\ parse_numeral r (cstr buf') = v.
Proof.
  intros Hr Hv Hb Hlen.
  assert ((length (numeral r v) <= 32)%nat).
  { apply numeral_length; [lia|done|lia|]. unfold uint32 in Hv.
    eapply Z.lt_le_trans; [apply Hv|]. apply (Z.pow_le_mono_l 2 r 32). lia. }
  rewrite itoa_spec by (done || lia). eexists. split; [done|].
  rewrite cstr_app by (by apply numeral_no_nul). by apply parse_numeral_spec.
Qed.
