(* ===== verification/Hardware.v ===== *)
(** What the kernel reaches outside its own variables: port I/O, the
    interrupt flag and byte-addressed memory ([student-distrib/lib.h]).

    A port read answers with the next value of an arbitrary input stream, so
    a theorem about a driver holds whatever the device answers.  Every port
    access is recorded with the interrupt flag it ran under. *)

From S2P Require Import Prelude.

(** * Port I/O and the interrupt flag *)

Inductive io_event : Type :=
| Out (data port : Z) (enabled : bool)
| In (data port : Z) (enabled : bool).

#[export] Instance io_event_eq_dec : EqDecision io_event.
Proof. solve_decision. Defined.

Record io_state : Type := mkIO {
  if_flag : bool;                (* EFLAGS.IF *)
  io_trace : list io_event;      (* newest first *)
  inputs : nat -> Z;             (* what the devices answer *)
  in_pos : nat;                  (* how many answers were consumed *)
}.

Definition set_if (b : bool) (s : io_state) : io_state :=
  mkIO b (io_trace s) (inputs s) (in_pos s).

(** ** lib.h: outb, inb *)
Definition outb (data port : Z) (s : io_state) : io_state :=
  mkIO (if_flag s) (Out (u8 data) (u16 port) (if_flag s) :: io_trace s) (inputs s) (in_pos s).

Definition inb (port : Z) (s : io_state) : Z * io_state :=
  let v := u8 (inputs s (in_pos s)) in
  (v, mkIO (if_flag s) (In v (u16 port) (if_flag s) :: io_trace s)
           (inputs s) (Datatypes.S (in_pos s))).

(** ** lib.h: inw, inl, outw, outl

    The bytes of two or four consecutive ports, little-endian ([inl] is a
    constructor of Rocq's sums: [inl'] here). *)
Definition inw (port : Z) (s : io_state) : Z * io_state :=
  let '(lo, s) := inb port s in
  let '(hi, s) := inb (port + 1) s in
  (Z.lor lo (Z.shiftl hi 8), s).

Definition inl' (port : Z) (s : io_state) : Z * io_state :=
  let '(lo, s) := inw port s in
  let '(hi, s) := inw (port + 2) s in
  (Z.lor lo (Z.shiftl hi 16), s).

Definition outw (data port : Z) (s : io_state) : io_state :=
  outb (Z.shiftr data 8) (port + 1) (outb data port s).

Definition outl (data port : Z) (s : io_state) : io_state :=
  outw (Z.shiftr data 16) (port + 2) (outw data port s).

(** ** lib.h: cli, sti, cli_and_save, restore_flags *)
Definition cli : io_state -> io_state := set_if false.
Definition sti : io_state -> io_state := set_if true.
Definition cli_and_save (s : io_state) : bool * io_state := (if_flag s, cli s).
Definition restore_flags (flags : bool) : io_state -> io_state := set_if flags.

(** [s'] is [s] after the events [evs] (newest first): flag restored, devices
    answering as before. *)
Record io_step (evs : list io_event) (s s' : io_state) : Prop := {
  step_if : if_flag s' = if_flag s;
  step_trace : io_trace s' = evs ++ io_trace s;
  step_inputs : inputs s' = inputs s;
}.

Lemma io_step_refl s : io_step [] s s.
Proof. by constructor. Qed.

Lemma io_step_trans e1 e2 s1 s2 s3 :
  io_step e1 s1 s2 -> io_step e2 s2 s3 -> io_step (e2 ++ e1) s1 s3.
Proof.
  intros [I1 T1 N1] [I2 T2 N2]. constructor; [congruence| |congruence].
  by rewrite T2, T1, app_assoc.
Qed.

(** * Memory *)

Abbreviation mem := (gmap Z Z).
Definition get (m : mem) (a : Z) : Z := default 0 (m !! a).
Definition put (m : mem) (a v : Z) : mem := <[a := v]> m.

Lemma get_put m a b v : get (put m a v) b = if decide (a = b) then v else get m b.
Proof.
  unfold get, put. case_decide; subst.
  - by rewrite lookup_insert_eq.
  - by rewrite lookup_insert_ne.
Qed.
Lemma get_put_eq m a v : get (put m a v) a = v.
Proof. rewrite get_put. by rewrite decide_True. Qed.
Lemma get_put_ne m a b v : a <> b -> get (put m a v) b = get m b.
Proof. intros. rewrite get_put. by rewrite decide_False. Qed.

(** [m'] and [m] hold the same bytes outside [lo, hi). *)
Definition same_outside (lo hi : Z) (m m' : mem) : Prop :=
  forall a, ~ (lo <= a < hi) -> get m' a = get m a.

#[export] Instance same_outside_preorder lo hi : PreOrder (same_outside lo hi).
Proof.
  split; [by intros m a|]. intros m1 m2 m3 H1 H2 a Ha. by rewrite H2, H1.
Qed.

Lemma same_outside_put lo hi m a v : lo <= a < hi -> same_outside lo hi m (put m a v).
Proof. intros Ha b Hb. apply get_put_ne. naive_solver lia. Qed.

(** Memories with the same bytes: coarser than equality of maps. *)
Definition mem_eq (m1 m2 : mem) : Prop := forall a, get m1 a = get m2 a.
#[export] Instance mem_eq_equiv : Equivalence mem_eq.
Proof.
  split; [by intros m a|by intros m1 m2 H a|].
  intros m1 m2 m3 H1 H2 a. by rewrite H1.
Qed.
#[export] Instance get_proper : Proper (mem_eq ==> eq ==> eq) get.
Proof. intros m1 m2 H a ? <-. apply H. Qed.
#[export] Instance put_proper : Proper (mem_eq ==> eq ==> eq ==> mem_eq) put.
Proof. intros m1 m2 H a ? <- v ? <- b. rewrite !get_put. by case_decide. Qed.

#[global] Typeclasses Opaque get put.
Arguments get : simpl never.
Arguments put : simpl never.
