(* ===== verification/Screen.v ===== *)
(** The text console of [student-distrib/lib.c]: cursor, [putc], [puts],
    [printf], [scroll], [backspace], [clear].  Each terminal has its cursor;
    the text on screen is the 25x80 cells of video memory, a character byte
    and an attribute byte each. *)

From S2P Require Import Prelude Hardware CLib.

Definition VIDEO := 0xB8000.
Definition MAX_TERMINAL := 3.
Definition NUM_COLS := 80.
Definition NUM_ROWS := 25.
Definition ATTRIB := 0x7.
Definition BLUE := 0x16.
Definition LOW_VGA := 0x0F.
Definition HIGH_VGA := 0x0E.
Definition VGA_SELECT := 0x3D4.
Definition VGA_DATA := 0x3D5.

(** The state of lib.c, with the memory and the ports it drives. *)
Record lib_state : Type := mkLib {
  screen_x : list Z;      (* [MAX_TERMINAL] *)
  screen_y : list Z;      (* [MAX_TERMINAL] *)
  curr_terminal : Z;
  old_terminal : Z;
  lib_mem : mem;
  lib_io : io_state;
}.

Definition set_x (x : Z) (s : lib_state) : lib_state :=
  mkLib (upd (screen_x s) (curr_terminal s) x) (screen_y s) (curr_terminal s)
        (old_terminal s) (lib_mem s) (lib_io s).
Definition set_y (y : Z) (s : lib_state) : lib_state :=
  mkLib (screen_x s) (upd (screen_y s) (curr_terminal s) y) (curr_terminal s)
        (old_terminal s) (lib_mem s) (lib_io s).
Definition set_mem (m : mem) (s : lib_state) : lib_state :=
  mkLib (screen_x s) (screen_y s) (curr_terminal s) (old_terminal s) m (lib_io s).
Definition set_io (io : io_state) (s : lib_state) : lib_state :=
  mkLib (screen_x s) (screen_y s) (curr_terminal s) (old_terminal s) (lib_mem s) io.
Definition set_terms (curr old : Z) (s : lib_state) : lib_state :=
  mkLib (screen_x s) (screen_y s) curr old (lib_mem s) (lib_io s).

(** [screen_x[curr_terminal]], [screen_y[curr_terminal]]. *)
Definition cur_x (s : lib_state) : Z := at_ (screen_x s) (curr_terminal s).
Definition cur_y (s : lib_state) : Z := at_ (screen_y s) (curr_terminal s).

(** Address of the character byte of a cell; its attribute is the next byte. *)
Definition cell (y x : Z) : Z := VIDEO + Z.shiftl (NUM_COLS * y + x) 1.

Definition write_cell (y x c attr : Z) (m : mem) : mem :=
  put (put m (cell y x) (u8 c)) (cell y x + 1) attr.

(** ** lib.c: update_cursor *)
Definition update_cursor (s : lib_state) : lib_state :=
  let '(flags, io) := cli_and_save (lib_io s) in
  let position := u16 (cur_y s * NUM_COLS + cur_x s) in
  let io := outb LOW_VGA VGA_SELECT io in
  let io := outb (Z.land position 0xFF) VGA_DATA io in
  let io := outb HIGH_VGA VGA_SELECT io in
  let io := outb (Z.land (Z.shiftr position 8) 0xFF) VGA_DATA io in
  set_io (restore_flags flags io) s.

(** ** lib.c: clear *)
Definition clear_mem (m : mem) : mem :=
  for_ 0 (NUM_ROWS * NUM_COLS) (fun i m =>
    put (put m (VIDEO + Z.shiftl i 1) 32) (VIDEO + Z.shiftl i 1 + 1) ATTRIB) m.

Definition clear (s : lib_state) : lib_state :=
  update_cursor (set_y 0 (set_x 0 (set_mem (clear_mem (lib_mem s)) s))).

(** ** lib.c: scroll, the row copy and the blanking of the last row *)
Definition copy_up (j i : Z) (m : mem) : mem :=
  let m := put m (cell j i) (get m (cell (j + 1) i)) in
  put m (cell j i + 1) (get m (cell (j + 1) i + 1)).

Definition scroll_copy (m : mem) : mem :=
  for_ 0 NUM_COLS (fun i m => for_ 0 (NUM_ROWS - 1) (fun j m => copy_up j i m) m) m.

Definition blank_last_row (m : mem) : mem :=
  for_ 0 NUM_COLS (fun i m => write_cell (NUM_ROWS - 1) i 32 ATTRIB m) m.

(** ** lib.c: putc and scroll

    The two functions call each other; the fuel bounds the depth of the
    calls ([putc_total], [scroll_total]: three is always enough). *)
Fixpoint putc_f (fuel : nat) (c : Z) (s : lib_state) {struct fuel} : outcome lib_state :=
  match fuel with
  | O => NoFuel
  | Datatypes.S fuel =>
      s ← if decide (c = 10 \/ c = 13) then
            let s := set_y (cur_y s + 1) s in
            let s := set_x 0 s in
            if decide (cur_y s >= NUM_ROWS)
            then scroll_f fuel (set_y (cur_y s - 1) s)
            else mret s
          else
            s ← if decide (cur_x s >= NUM_COLS) then
                  let s := set_x 0 s in
                  let s := set_y (cur_y s + 1) s in
                  if decide (cur_y s >= NUM_ROWS)
                  then scroll_f fuel (set_y (cur_y s - 1) s)
                  else mret s
                else mret s;
            let s := set_mem (write_cell (cur_y s) (cur_x s) c ATTRIB (lib_mem s)) s in
            mret (set_x (cur_x s + 1) s);
      mret (update_cursor s)
  end
with scroll_f (fuel : nat) (s : lib_state) {struct fuel} : outcome lib_state :=
  match fuel with
  | O => NoFuel
  | Datatypes.S fuel =>
      if decide (cur_y s >= NUM_ROWS - 1) then
        let s := set_mem (scroll_copy (lib_mem s)) s in
        let s := set_mem (blank_last_row (lib_mem s)) s in
        mret (update_cursor (set_x 0 s))
      else
        s ← putc_f fuel 10 s;
        mret (update_cursor s)
  end.

Definition putc (c : Z) (s : lib_state) : outcome lib_state := putc_f 3 c s.
Definition scroll (s : lib_state) : outcome lib_state := scroll_f 3 s.

(** ** lib.c: puts *)
Definition puts (str : list Z) (s : lib_state) : outcome (Z * lib_state) :=
  loop (Datatypes.S (length str))
    (fun '(index, s) =>
       c ← rd str index;
       if decide (c <> 0) then
         s ← putc (u8 c) s; mret (inl (index + 1, s))
       else mret (inr (index, s))) (0, s).

(** ** lib.c: backspace *)
Definition backspace (s : lib_state) : lib_state :=
  let fill s :=
    update_cursor (set_mem (write_cell (cur_y s) (cur_x s) 32 ATTRIB (lib_mem s)) s) in
  if decide (cur_x s = 0 /\ cur_y s > 0) then
    fill (set_x (NUM_COLS - 1) (set_y (cur_y s - 1) s))
  else if decide (cur_x s = 0 /\ cur_y s = 0) then s
  else fill (set_x (cur_x s - 1) s).

(** ** lib.c: test_interrupts, show_blue_screen *)
Definition test_interrupts (s : lib_state) : lib_state :=
  set_mem (for_ 0 (NUM_ROWS * NUM_COLS) (fun i m =>
    put m (VIDEO + Z.shiftl i 1) (u8 (get m (VIDEO + Z.shiftl i 1) + 1))) (lib_mem s)) s.

Definition show_blue_screen (s : lib_state) : lib_state :=
  set_mem (for_ 0 (NUM_ROWS * NUM_COLS) (fun i m =>
    put m (VIDEO + Z.shiftl i 1 + 1) BLUE) (lib_mem s)) s.

(** * The console a client sees

    A cursor and a grid of 25 rows of 80 (character, attribute) cells. *)
Record text : Type := mkText { tx : Z; ty : Z; rows : list (list (Z * Z)) }.

Definition glyph (m : mem) (r c : Z) : Z * Z := (get m (cell r c), get m (cell r c + 1)).
Definition row_of (m : mem) (r : Z) : list (Z * Z) := map (glyph m r) (seqZ 0 NUM_COLS).
Definition grid (m : mem) : list (list (Z * Z)) := map (row_of m) (seqZ 0 NUM_ROWS).
Definition view (s : lib_state) : text := mkText (cur_x s) (cur_y s) (grid (lib_mem s)).

Definition blank : Z * Z := (32, ATTRIB).
Definition blank_row : list (Z * Z) := replicate (Z.to_nat NUM_COLS) blank.
Definition scroll_rows (g : list (list (Z * Z))) : list (list (Z * Z)) := tail g ++ [blank_row].
Definition put_glyph (g : list (list (Z * Z))) (y x : Z) (v : Z * Z) : list (list (Z * Z)) :=
  upd g y (upd (at_ g y) x v).

Definition t_newline (t : text) : text :=
  if decide (ty t + 1 >= NUM_ROWS) then mkText 0 (ty t) (scroll_rows (rows t))
  else mkText 0 (ty t + 1) (rows t).
Definition t_putc (c : Z) (t : text) : text :=
  if decide (c = 10 \/ c = 13) then t_newline t
  else
    let t := if decide (tx t >= NUM_COLS) then t_newline t else t in
    mkText (tx t + 1) (ty t) (put_glyph (rows t) (ty t) (tx t) (u8 c, ATTRIB)).
Definition t_puts (str : list Z) (t : text) : text := foldl (fun t c => t_putc (u8 c) t) t str.
Definition t_clear : text := mkText 0 0 (replicate (Z.to_nat NUM_ROWS) blank_row).
Definition t_backspace (t : text) : text :=
  let erase y x := mkText x y (put_glyph (rows t) y x blank) in
  if decide (tx t = 0) then
    if decide (ty t > 0) then erase (ty t - 1) (NUM_COLS - 1) else t
  else erase (ty t) (tx t - 1).

(** ** Well-formed consoles, and what a console operation may change *)
Record con_wf (s : lib_state) : Prop := {
  wf_curr : 0 <= curr_terminal s < MAX_TERMINAL;
  wf_lenx : length (screen_x s) = Z.to_nat MAX_TERMINAL;
  wf_leny : length (screen_y s) = Z.to_nat MAX_TERMINAL;
  wf_x : Forall (fun x => 0 <= x <= NUM_COLS) (screen_x s);
  wf_y : Forall (fun y => 0 <= y < NUM_ROWS) (screen_y s);
}.

(** Events on the cursor registers, with interrupts off. *)
Definition vga_event (e : io_event) : Prop :=
  match e with
  | Out _ port enabled => (port = VGA_SELECT \/ port = VGA_DATA) /\ enabled = false
  | In _ _ _ => False
  end.

Record io_ext (P : io_event -> Prop) (s s' : io_state) : Prop := {
  ext_if : if_flag s' = if_flag s;
  ext_inputs : inputs s' = inputs s;
  ext_pos : in_pos s' = in_pos s;
  ext_trace : exists evs, io_trace s' = evs ++ io_trace s /\ Forall P evs;
}.

#[export] Instance io_ext_preorder P : PreOrder (io_ext P).
Proof.
  split.
  - intros s. constructor; try done. by exists [].
  - intros s1 s2 s3 [I1 N1 P1 [e1 [T1 F1]]] [I2 N2 P2 [e2 [T2 F2]]].
    constructor; try congruence. exists (e2 ++ e1). rewrite T2, T1, app_assoc.
    split; [done|]. by apply Forall_app.
Qed.

Record con_frame (s s' : lib_state) : Prop := {
  fr_curr : curr_terminal s' = curr_terminal s;
  fr_old : old_terminal s' = old_terminal s;
  fr_x : forall t, 0 <= t -> t <> curr_terminal s -> at_ (screen_x s') t = at_ (screen_x s) t;
  fr_y : forall t, 0 <= t -> t <> curr_terminal s -> at_ (screen_y s') t = at_ (screen_y s) t;
  fr_mem : same_outside VIDEO (VIDEO + 2 * NUM_ROWS * NUM_COLS) (lib_mem s) (lib_mem s');
  fr_io : io_ext vga_event (lib_io s) (lib_io s');
}.

#[export] Instance con_frame_preorder : PreOrder con_frame.
Proof.
  split.
  - intros s. by constructor.
  - intros s1 s2 s3 [C1 O1 X1 Y1 M1 I1] [C2 O2 X2 Y2 M2 I2]. constructor.
    + congruence.
    + congruence.
    + intros t H0 Ht. rewrite X2, X1; [done|done|done|done|congruence].
    + intros t H0 Ht. rewrite Y2, Y1; [done|done|done|done|congruence].
    + by transitivity (lib_mem s2).
    + by transitivity (lib_io s2).
Qed.

(** The same without the ports: the other terminals' cursors, and memory but
    for the screen, are as before. *)
Record screen_frame (s s' : lib_state) : Prop := {
  sf_old : old_terminal s' = old_terminal s;
  sf_curr : curr_terminal s' = curr_terminal s;
  sf_cursors : forall t, 0 <= t -> t <> curr_terminal s ->
    at_ (screen_x s') t = at_ (screen_x s) t /\ at_ (screen_y s') t = at_ (screen_y s) t;
  sf_mem : same_outside VIDEO (VIDEO + 2 * NUM_ROWS * NUM_COLS) (lib_mem s) (lib_mem s');
}.
#[export] Instance screen_frame_preorder : PreOrder screen_frame.
Proof.
  split; [by intros s; constructor|]. intros s1 s2 s3 [O1 C1 X1 M1] [O2 C2 X2 M2]. constructor; [congruence|congruence| |].
  - intros t H0 Ht. destruct (X1 t H0 Ht), (X2 t H0 ltac:(congruence)). split; congruence.
  - by transitivity (lib_mem s2).
Qed.
Lemma con_frame_screen s s' : con_frame s s' -> screen_frame s s'.
Proof. intros [C O X Y M _]. constructor; auto. Qed.
Lemma screen_frame_io s io : screen_frame s (set_io io s).
Proof. by constructor. Qed.

(** [con_spec s s' t]: from [s] the console went to a well-formed [s'] that
    shows [t] and touched nothing else. *)
Record con_spec (s s' : lib_state) (t : text) : Prop := {
  sp_wf : con_wf s';
  sp_frame : con_frame s s';
  sp_view : view s' = t;
}.

Lemma con_spec_trans s1 s2 s3 t2 t3 :
  con_spec s1 s2 t2 -> con_spec s2 s3 t3 -> con_spec s1 s3 t3.
Proof. intros [] []. constructor; [done| |done]. by transitivity s2. Qed.

(** ** Cells and grids *)
Lemma cell_eq y x : cell y x = VIDEO + 2 * (NUM_COLS * y + x).
Proof. unfold cell. rewrite Z.shiftl_mul_pow2 by lia. lia. Qed.

Lemma row_of_length m r : length (row_of m r) = Z.to_nat NUM_COLS.
Proof. unfold row_of. by rewrite length_map, length_seqZ. Qed.
Lemma grid_length m : length (grid m) = Z.to_nat NUM_ROWS.
Proof. unfold grid. by rewrite length_map, length_seqZ. Qed.

Lemma at_map_seqZ {A} `{Inhabited A} (f : Z -> A) n i :
  0 <= i < n -> at_ (map f (seqZ 0 n)) i = f i.
Proof.
  intros Hi. unfold at_. apply list_lookup_total_correct.
  rewrite list_lookup_fmap, lookup_seqZ_lt by lia. simpl. f_equal. f_equal. lia.
Qed.

Lemma at_row_of m r c : 0 <= c < NUM_COLS -> at_ (row_of m r) c = glyph m r c.
Proof. intros. unfold row_of. by rewrite at_map_seqZ. Qed.
Lemma at_grid m r : 0 <= r < NUM_ROWS -> at_ (grid m) r = row_of m r.
Proof. intros. unfold grid. by rewrite at_map_seqZ. Qed.

Lemma row_of_ext m r l : length l = Z.to_nat NUM_COLS ->
  (forall c, 0 <= c < NUM_COLS -> glyph m r c = at_ l c) ->
  row_of m r = l.
Proof.
  intros Hl Hc. apply at_ext; [by rewrite row_of_length|]. rewrite row_of_length.
  intros i Hi. rewrite at_row_of by (unfold NUM_COLS in *; lia). apply Hc.
  unfold NUM_COLS in *. lia.
Qed.

Lemma grid_ext m g : length g = Z.to_nat NUM_ROWS ->
  (forall r, 0 <= r < NUM_ROWS -> row_of m r = at_ g r) -> grid m = g.
Proof.
  intros Hl Hr. apply at_ext; [by rewrite grid_length|]. rewrite grid_length.
  intros i Hi. unfold NUM_ROWS in *. rewrite at_grid by (unfold NUM_ROWS; lia). apply Hr. lia.
Qed.

Section glyphs.
Implicit Types (m : mem) (r c y x : Z).

Lemma glyph_write_cell m y x v a r c :
  0 <= x < NUM_COLS -> 0 <= c < NUM_COLS ->
  glyph (write_cell y x v a m) r c =
  if decide (y = r /\ x = c) then (u8 v, a) else glyph m r c.
Proof using Type.
  unfold NUM_COLS. intros Hx Hc. unfold glyph, write_cell.
  rewrite !get_put, !cell_eq. unfold NUM_COLS.
  repeat (case_decide; try lia); done.
Qed.

Lemma glyph_copy_up m j i r c :
  0 <= i < NUM_COLS -> 0 <= c < NUM_COLS ->
  glyph (copy_up j i m) r c =
  if decide (j = r /\ i = c) then glyph m (j + 1) i else glyph m r c.
Proof using Type.
  unfold NUM_COLS. intros Hi Hc. unfold glyph, copy_up.
  rewrite !get_put, !cell_eq. unfold NUM_COLS.
  repeat (case_decide; try lia); done.
Qed.

Lemma grid_write_cell m y x v a :
  0 <= y < NUM_ROWS -> 0 <= x < NUM_COLS ->
  grid (write_cell y x v a m) = put_glyph (grid m) y x (u8 v, a).
Proof using Type.
  intros Hy Hx. assert (Hlg := grid_length m). assert (Hlr := row_of_length m y).
  unfold NUM_ROWS, NUM_COLS in *. apply grid_ext.
  - unfold put_glyph. by rewrite length_upd.
  - intros r Hr. unfold NUM_ROWS in Hr. unfold put_glyph. rewrite at_upd by lia.
    rewrite at_grid by (unfold NUM_ROWS; lia).
    apply row_of_ext; [|intros c Hc; unfold NUM_COLS in Hc;
      rewrite glyph_write_cell by (unfold NUM_COLS; lia)]; case_decide as Hd.
    + by rewrite length_upd.
    + rewrite at_grid by (unfold NUM_ROWS; lia). apply row_of_length.
    + destruct Hd as [<- <-]. rewrite decide_True by done. by rewrite at_upd_eq by lia.
    + case_decide; subst.
      * rewrite at_upd_ne by lia. by rewrite at_row_of by (unfold NUM_COLS; lia).
      * rewrite at_grid by (unfold NUM_ROWS; lia). by rewrite at_row_of by (unfold NUM_COLS; lia).
Qed.

Lemma scroll_copy_glyph m r c :
  0 <= r < NUM_ROWS -> 0 <= c < NUM_COLS ->
  glyph (scroll_copy m) r c = if decide (r < NUM_ROWS - 1) then glyph m (r + 1) c else glyph m r c.
Proof using Type.
  unfold NUM_ROWS, NUM_COLS. intros Hr0 Hc0. unfold scroll_copy, NUM_COLS, NUM_ROWS.
  pose (old r c := glyph m r c).
  pose (Out := fun i m' => forall r c, 0 <= r < 25 -> 0 <= c < 80 ->
    glyph m' r c = if decide (c < i /\ r < 24) then old (r + 1) c else old r c).
  assert (H : Out 80 (for_ 0 80 (fun i m => for_ 0 (25 - 1) (fun j m => copy_up j i m) m) m)).
  { apply (for_ind Out); [lia|intros ????; by case_decide; [lia|]|].
    intros i m1 Hi HO r' c' Hr' Hc'.
    pose (Inn := fun j m' => forall r c, 0 <= r < 25 -> 0 <= c < 80 ->
      glyph m' r c = if decide ((c < i /\ r < 24) \/ (c = i /\ r < j)) then old (r + 1) c else old r c).
    assert (HI : Inn (25 - 1) (for_ 0 (25 - 1) (fun j m => copy_up j i m) m1)).
    { apply (for_ind Inn); [lia| |].
      - intros r2 c2 Hr2 Hc2. rewrite HO by lia. repeat (case_decide; try lia); done.
      - intros j m2 Hj HIj r2 c2 Hr2 Hc2. rewrite glyph_copy_up by (unfold NUM_COLS; lia).
        rewrite !HIj by lia. repeat (case_decide; try lia); try done.
        naive_solver. }
    rewrite HI by lia. repeat (case_decide; try lia); done. }
  rewrite H by lia. repeat (case_decide; try lia); done.
Qed.

Lemma blank_last_row_glyph m r c :
  0 <= r < NUM_ROWS -> 0 <= c < NUM_COLS ->
  glyph (blank_last_row m) r c = if decide (r = NUM_ROWS - 1) then blank else glyph m r c.
Proof using Type.
  unfold NUM_ROWS, NUM_COLS. intros Hr Hc. unfold blank_last_row, NUM_COLS, NUM_ROWS.
  pose (Inv := fun i m' => forall r c, 0 <= r < 25 -> 0 <= c < 80 ->
    glyph m' r c = if decide (r = 24 /\ c < i) then blank else glyph m r c).
  assert (H : Inv 80 (for_ 0 80 (fun i m => write_cell (25 - 1) i 32 ATTRIB m) m)).
  { apply (for_ind Inv); [lia|intros ????; by case_decide; [lia|]|].
    intros i m1 Hi HI r2 c2 Hr2 Hc2. rewrite glyph_write_cell by (unfold NUM_COLS; lia).
    rewrite HI by lia. repeat (case_decide; try lia); done. }
  rewrite H by lia. repeat (case_decide; try lia); done.
Qed.

(** Scrolling drops the first row and adds a blank one at the bottom. *)
Lemma grid_scroll m : grid (blank_last_row (scroll_copy m)) = scroll_rows (grid m).
Proof using Type.
  assert (Hlg := grid_length m). unfold NUM_ROWS in Hlg.
  assert (Hg : forall r, 0 <= r < 24 -> at_ (tail (grid m)) r = row_of m (r + 1)).
  { intros r Hr. destruct (grid m) as [|x g] eqn:E; [simpl in Hlg; lia|].
    rewrite <- (at_grid m (r + 1)) by (unfold NUM_ROWS; lia). rewrite E, at_cons by lia.
    rewrite decide_False by lia. simpl. f_equal. lia. }
  assert (Ht : length (tail (grid m)) = 24%nat).
  { destruct (grid m); simpl in *; lia. }
  unfold scroll_rows. apply grid_ext; [rewrite length_app, Ht; done|].
  intros r Hr. unfold NUM_ROWS in Hr. rewrite at_app by lia. rewrite Ht.
  case_decide.
  - rewrite Hg by lia. apply row_of_ext; [apply row_of_length|].
    intros c Hc. rewrite at_row_of by done.
    rewrite blank_last_row_glyph, scroll_copy_glyph by (unfold NUM_ROWS; lia).
    unfold NUM_ROWS. by repeat (case_decide; try lia).
  - replace (r - Z.of_nat 24) with 0 by lia.
    apply row_of_ext; [done|]. intros c Hc.
    rewrite blank_last_row_glyph by (unfold NUM_ROWS; lia).
    rewrite decide_True by (unfold NUM_ROWS; lia).
    change (blank = at_ blank_row c). unfold blank_row. unfold NUM_COLS in *.
    by rewrite at_replicate by lia.
Qed.

Lemma clear_mem_grid m : grid (clear_mem m) = rows t_clear.
Proof using Type.
  pose (Inv := fun i m' => forall k, 0 <= k < i ->
    get m' (VIDEO + 2 * k) = 32 /\ get m' (VIDEO + 2 * k + 1) = ATTRIB).
  assert (H : Inv 2000 (clear_mem m)).
  { unfold clear_mem. change (NUM_ROWS * NUM_COLS) with 2000.
    apply (for_ind Inv); [lia|intros k Hk; lia|].
    intros i m1 Hi HI k Hk. rewrite !get_put. rewrite !Z.shiftl_mul_pow2 by lia.
    change (2 ^ 1) with 2.
    destruct (decide (k = i)) as [->|]; [repeat (case_decide; try lia); done|].
    repeat (case_decide; try lia). apply HI. lia. }
  change (rows t_clear) with (replicate (Z.to_nat NUM_ROWS) blank_row).
  apply grid_ext; [done|]. intros r Hr.
  rewrite at_replicate by (unfold NUM_ROWS in *; lia).
  apply row_of_ext; [done|]. intros c Hc. unfold NUM_ROWS, NUM_COLS in *.
  unfold blank_row. rewrite at_replicate by (unfold NUM_COLS; lia).
  unfold glyph. rewrite !cell_eq. unfold NUM_COLS.
  destruct (H (80 * r + c)) as [H1 H2]; [lia|]. by rewrite H1, H2.
Qed.
End glyphs.

(** ** Memory touched by the console operations *)
Abbreviation vram_frame := (same_outside VIDEO (VIDEO + 2 * NUM_ROWS * NUM_COLS)).

Lemma for_preorder {S} (R : S -> S -> Prop) `{!PreOrder R} lo hi f (s : S) :
  lo <= hi -> (forall i s, lo <= i < hi -> R s (f i s)) -> R s (for_ lo hi f s).
Proof.
  intros Hle Hf. apply (for_ind (fun _ s' => R s s')); [done|reflexivity|].
  intros i s' Hi HR. transitivity s'; [done|by apply Hf].
Qed.

Lemma vram_put m y x d v :
  0 <= y < NUM_ROWS -> 0 <= x < NUM_COLS -> 0 <= d <= 1 -> vram_frame m (put m (cell y x + d) v).
Proof.
  unfold NUM_ROWS, NUM_COLS. intros. apply same_outside_put. rewrite cell_eq.
  unfold NUM_COLS. lia.
Qed.

Lemma vram_write_cell m y x c a :
  0 <= y < NUM_ROWS -> 0 <= x < NUM_COLS -> vram_frame m (write_cell y x c a m).
Proof.
  intros. unfold write_cell. etransitivity; [|by apply vram_put].
  rewrite <- (Z.add_0_r (cell y x)) at 1. by apply vram_put.
Qed.

Lemma vram_copy_up m j i :
  0 <= j < NUM_ROWS -> 0 <= i < NUM_COLS -> vram_frame m (copy_up j i m).
Proof.
  intros. unfold copy_up. etransitivity; [|by apply vram_put].
  rewrite <- (Z.add_0_r (cell j i)) at 1. by apply vram_put.
Qed.

Lemma vram_scroll m : vram_frame m (blank_last_row (scroll_copy m)).
Proof.
  transitivity (scroll_copy m).
  - apply (for_preorder _); [done|]. intros i m1 Hi. apply (for_preorder _); [done|].
    intros j m2 Hj. apply vram_copy_up; [unfold NUM_ROWS in *; lia|done].
  - apply (for_preorder _); [done|]. intros i m1 Hi. by apply vram_write_cell.
Qed.

Lemma vram_linear m i d v :
  0 <= i < NUM_ROWS * NUM_COLS -> 0 <= d <= 1 -> vram_frame m (put m (VIDEO + Z.shiftl i 1 + d) v).
Proof.
  unfold NUM_ROWS, NUM_COLS. intros. apply same_outside_put.
  rewrite Z.shiftl_mul_pow2 by lia. lia.
Qed.

Lemma vram_linear0 m i v :
  0 <= i < NUM_ROWS * NUM_COLS -> vram_frame m (put m (VIDEO + Z.shiftl i 1) v).
Proof. intros. pose proof (vram_linear m i 0 v) as H0. rewrite Z.add_0_r in H0. by apply H0. Qed.

Lemma vram_clear m : vram_frame m (clear_mem m).
Proof.
  apply (for_preorder _); [done|]. intros i m1 Hi.
  etransitivity; [by apply vram_linear0|by apply vram_linear].
Qed.

#[global] Strategy 1000 [scroll_copy blank_last_row clear_mem].

(** ** State accessors *)
Section accessors.
Variable s : lib_state.
Hypothesis W : con_wf s.

Lemma cur_x_set_x v : cur_x (set_x v s) = v.
Proof using W.
  destruct W as [Hc Hx _ _ _]. unfold cur_x, set_x, MAX_TERMINAL in *. simpl.
  apply at_upd_eq. lia.
Qed.
Lemma cur_y_set_y v : cur_y (set_y v s) = v.
Proof using W.
  destruct W as [Hc _ Hy _ _]. unfold cur_y, set_y, MAX_TERMINAL in *. simpl.
  apply at_upd_eq. lia.
Qed.
Lemma cur_x_range : 0 <= cur_x s <= NUM_COLS.
Proof using W.
  destruct W as [Hc Hx _ HF _]. unfold MAX_TERMINAL in *.
  apply (Forall_at (fun x => 0 <= x <= NUM_COLS)); [done|]. lia.
Qed.
Lemma cur_y_range : 0 <= cur_y s < NUM_ROWS.
Proof using W.
  destruct W as [Hc _ Hy _ HF]. unfold MAX_TERMINAL in *.
  apply (Forall_at (fun y => 0 <= y < NUM_ROWS)); [done|]. lia.
Qed.

Lemma wf_set_x v : 0 <= v <= NUM_COLS -> con_wf (set_x v s).
Proof using W.
  intros. destruct W. constructor; simpl; try done.
  - by rewrite length_upd.
  - by apply Forall_upd.
Qed.
Lemma wf_set_y v : 0 <= v < NUM_ROWS -> con_wf (set_y v s).
Proof using W.
  intros. destruct W. constructor; simpl; try done.
  - by rewrite length_upd.
  - by apply Forall_upd.
Qed.
Lemma wf_set_mem m : con_wf (set_mem m s).
Proof using W. destruct W. by constructor. Qed.
Lemma wf_set_io io : con_wf (set_io io s).
Proof using W. destruct W. by constructor. Qed.

Lemma frame_set_x v : con_frame s (set_x v s).
Proof using W.
  destruct W. constructor; simpl; try done. intros. apply at_upd_ne; lia.
Qed.
Lemma frame_set_y v : con_frame s (set_y v s).
Proof using W.
  destruct W. constructor; simpl; try done. intros. apply at_upd_ne; lia.
Qed.
Lemma frame_set_mem m : vram_frame (lib_mem s) m -> con_frame s (set_mem m s).
Proof using Type. by constructor. Qed.
End accessors.

(** update_cursor leaves the text alone, restores the interrupt flag and only
    touches the VGA ports, with interrupts off. *)
Lemma update_cursor_spec s : con_wf s -> con_spec s (update_cursor s) (view s).
Proof.
  intros W. constructor; [by apply wf_set_io| |done].
  unfold update_cursor, cli_and_save. constructor; simpl; try done.
  constructor; simpl; try done. eexists [_; _; _; _]. split; [done|].
  repeat constructor; by (left + right).
Qed.

(** What the cursor registers hold after a trace of port writes: the index
    register selects which half of the position a data write sets. *)
Definition vga_step (e : io_event) (r : Z * Z * Z) : Z * Z * Z :=
  let '(sel, lo, hi) := r in
  match e with
  | Out d p _ =>
      if decide (p = VGA_SELECT) then (d, lo, hi)
      else if decide (p = VGA_DATA) then
        if decide (sel = LOW_VGA) then (sel, d, hi)
        else if decide (sel = HIGH_VGA) then (sel, lo, d)
        else r
      else r
  | In _ _ _ => r
  end.
Definition vga_registers (trace : list io_event) : Z * Z * Z := foldr vga_step (0, 0, 0) trace.
Definition vga_position (trace : list io_event) : Z :=
  let '(_, lo, hi) := vga_registers trace in lo + 256 * hi.

(** update_cursor leaves the VGA cursor registers at 80 y + x of the
    current terminal. *)
Lemma update_cursor_position s :
  con_wf s -> vga_position (io_trace (lib_io (update_cursor s))) = cur_y s * NUM_COLS + cur_x s.
Proof.
  intros W. pose proof (cur_x_range s W). pose proof (cur_y_range s W).
  unfold NUM_COLS, NUM_ROWS in *.
  unfold vga_position, vga_registers, update_cursor, cli_and_save. simpl foldr.
  set (p := u16 (cur_y s * NUM_COLS + cur_x s)).
  assert (Hp : p = cur_y s * 80 + cur_x s) by (apply u16_id; unfold NUM_COLS; lia).
  destruct (foldr vga_step (0, 0, 0) (io_trace (lib_io s))) as [[sel lo] hi].
  change (u8 (Z.land p 255) + 256 * u8 (Z.land (Z.shiftr p 8) 255) = cur_y s * 80 + cur_x s).
  rewrite !land_255, Z.shiftr_div_pow2 by lia. unfold u8. rewrite !Z.mod_mod by lia.
  rewrite (Z.mod_small (p / 2 ^ 8)).
  - pose proof (Z.div_mod p (2 ^ 8)). lia.
  - split; [apply Z.div_pos; lia|]. apply Z.div_lt_upper_bound; lia.
Qed.

(** ** putc and scroll against the client's view *)
Lemma cur_y_set_x v s : cur_y (set_x v s) = cur_y s.
Proof. done. Qed.
Lemma cur_x_set_y v s : cur_x (set_y v s) = cur_x s.
Proof. done. Qed.
Lemma cur_y_set_mem m s : cur_y (set_mem m s) = cur_y s.
Proof. done. Qed.
Lemma cur_x_set_mem m s : cur_x (set_mem m s) = cur_x s.
Proof. done. Qed.

(** Move the cursor and rewrite video memory. *)
Lemma con_spec_move s x y m g :
  con_wf s -> 0 <= x <= NUM_COLS -> 0 <= y < NUM_ROWS ->
  vram_frame (lib_mem s) m -> grid m = g ->
  con_spec s (set_mem m (set_y y (set_x x s))) (mkText x y g).
Proof.
  intros W Hx Hy Hm Hg. pose proof (wf_set_x s W x Hx) as W1.
  pose proof (wf_set_y _ W1 y Hy) as W2. constructor.
  - by apply wf_set_mem.
  - transitivity (set_x x s); [by apply frame_set_x|].
    transitivity (set_y y (set_x x s)); [by apply frame_set_y|]. by apply frame_set_mem.
  - unfold view. rewrite cur_x_set_mem, cur_y_set_mem, cur_y_set_y, cur_x_set_y, cur_x_set_x by done.
    by rewrite <- Hg.
Qed.

Lemma con_spec_goto s x y :
  con_wf s -> 0 <= x <= NUM_COLS -> 0 <= y < NUM_ROWS ->
  con_spec s (set_y y (set_x x s)) (mkText x y (grid (lib_mem s))).
Proof.
  intros W Hx Hy. apply (con_spec_move s x y (lib_mem s) _ W Hx Hy); [reflexivity|done].
Qed.

Lemma con_spec_cursor s s' t : con_spec s s' t -> con_spec s (update_cursor s') t.
Proof.
  intros H. eapply con_spec_trans; [exact H|]. destruct H as [W _ <-].
  by apply update_cursor_spec.
Qed.

Lemma set_y_x v w s : set_y v (set_x w s) = set_x w (set_y v s).
Proof. done. Qed.

Lemma lib_mem_set_mem m s : lib_mem (set_mem m s) = m.
Proof. done. Qed.
Lemma set_mem_set_mem m m' s : set_mem m (set_mem m' s) = set_mem m s.
Proof. done. Qed.
Lemma set_x_set_mem v m s : set_x v (set_mem m s) = set_mem m (set_x v s).
Proof. done. Qed.

Lemma tx_view s : tx (view s) = cur_x s.
Proof. done. Qed.
Lemma ty_view s : ty (view s) = cur_y s.
Proof. done. Qed.
Lemma rows_view s : rows (view s) = grid (lib_mem s).
Proof. done. Qed.

Lemma set_y_id s : con_wf s -> set_y (cur_y s) s = s.
Proof.
  intros W. destruct s as [xs ys c o m io], W as [Hc Hx Hy _ _]. unfold set_y, cur_y, MAX_TERMINAL in *.
  simpl in *. f_equal. apply upd_id. lia.
Qed.
Lemma set_x_id s : con_wf s -> set_x (cur_x s) s = s.
Proof.
  intros W. destruct s as [xs ys c o m io], W as [Hc Hx Hy _ _]. unfold set_x, cur_x, MAX_TERMINAL in *.
  simpl in *. f_equal. apply upd_id. lia.
Qed.
Lemma set_y_set_y v w s : set_y v (set_y w s) = set_y v s.
Proof. unfold set_y. simpl. by rewrite upd_upd. Qed.
Lemma set_x_set_x v w s : set_x v (set_x w s) = set_x v s.
Proof. unfold set_x. simpl. by rewrite upd_upd. Qed.

(** Move the cursor within its row. *)
Lemma con_spec_move_x s x m g :
  con_wf s -> 0 <= x <= NUM_COLS -> vram_frame (lib_mem s) m -> grid m = g ->
  con_spec s (set_mem m (set_x x s)) (mkText x (cur_y s) g).
Proof.
  intros W Hx Hm Hg. rewrite <- (set_y_id s W) at 2. rewrite <- set_y_x.
  apply con_spec_move; try done. by apply cur_y_range.
Qed.

Lemma scroll_bottom n s :
  con_wf s -> cur_y s = NUM_ROWS - 1 ->
  wp (scroll_f (Datatypes.S n) s) (fun s' =>
    con_spec s s' (mkText 0 (cur_y s) (scroll_rows (grid (lib_mem s))))).
Proof.
  intros W Hy. cbn [scroll_f]. rewrite decide_True by lia. wp_step.
  apply con_spec_cursor. rewrite <- grid_scroll, lib_mem_set_mem, set_mem_set_mem.
  pose proof (vram_scroll (lib_mem s)) as Hm.
  generalize dependent (blank_last_row (scroll_copy (lib_mem s))). intros m Hm.
  rewrite set_x_set_mem. by apply con_spec_move_x.
Qed.

(** The newline part of putc, from the state [s] it starts in. *)
Lemma line_feed n s :
  con_wf s ->
  wp (let s1 := set_y (cur_y s + 1) (set_x 0 s) in
      if decide (cur_y s + 1 >= NUM_ROWS)
      then scroll_f (Datatypes.S n) (set_y (cur_y s) (set_x 0 s)) else mret s1)
    (fun s' => con_spec s s' (t_newline (view s))).
Proof.
  intros W. pose proof (cur_y_range s W) as Hr. cbv zeta. unfold t_newline.
  rewrite ?ty_view, ?rows_view.
  pose proof (con_spec_goto s 0 (cur_y s) W) as H0.
  specialize (H0 ltac:(unfold NUM_COLS; lia) Hr).
  assert (Hy : cur_y (set_y (cur_y s) (set_x 0 s)) = cur_y s)
    by (apply cur_y_set_y, wf_set_x; done).
  case_decide.
  - eapply wp_mono; [apply scroll_bottom; [apply H0|rewrite Hy; lia]|].
    intros s' H1. eapply con_spec_trans; [exact H0|]. by rewrite Hy in H1.
  - wp_step. apply con_spec_goto; [done|unfold NUM_COLS; lia|lia].
Qed.

Lemma putc_f_spec n c s :
  con_wf s -> wp (putc_f (Datatypes.S (Datatypes.S n)) c s) (fun s' => con_spec s s' (t_putc c (view s))).
Proof.
  intros W. remember (Datatypes.S n) as n1. cbn [putc_f]. subst n1. unfold t_putc.
  apply wp_bind. case_decide as Hc.
  - cbv zeta. rewrite <- !set_y_x, set_y_set_y, !cur_y_set_y by (by apply wf_set_x).
    replace (cur_y s + 1 - 1) with (cur_y s) by lia.
    eapply wp_mono; [apply (line_feed n s W)|].
    intros s' Hs'. by apply con_spec_cursor.
  - apply wp_bind. rewrite tx_view.
    eapply (wp_mono _ (fun s' => con_spec s s' (if decide (cur_x s >= NUM_COLS) then t_newline (view s) else view s))).
    { case_decide.
      - cbv zeta. rewrite cur_y_set_x, set_y_set_y, cur_y_set_y by (by apply wf_set_x).
        replace (cur_y s + 1 - 1) with (cur_y s) by lia. apply (line_feed n s W).
      - wp_step. constructor; [done|reflexivity|done]. }
    intros s1 H1. wp_step. wp_step. apply con_spec_cursor.
    assert (Hx1 : cur_x s1 < NUM_COLS).
    { destruct H1 as [_ _ Hv]. change (cur_x s1) with (tx (view s1)). rewrite Hv.
      unfold t_newline, NUM_COLS in *. repeat case_decide; simpl; lia. }
    eapply con_spec_trans; [exact H1|]. destruct H1 as [W1 _ Hv].
    pose proof (cur_x_range s1 W1). pose proof (cur_y_range s1 W1).
    rewrite <- Hv. rewrite cur_x_set_mem.
    rewrite set_x_set_mem.
    rewrite tx_view, ty_view, rows_view. apply con_spec_move_x; [done|lia|apply vram_write_cell; lia|].
    by apply grid_write_cell; lia.
Qed.

(** putc never runs out of call depth, and shows what the client's console
    shows. *)
Lemma putc_spec c s :
  con_wf s -> wp (putc c s) (fun s' => con_spec s s' (t_putc c (view s))).
Proof. apply putc_f_spec. Qed.

Lemma scroll_spec s :
  con_wf s -> wp (scroll s) (fun s' => con_spec s s' (t_newline (view s))).
Proof.
  intros W. pose proof (cur_y_range s W) as Hr. unfold t_newline.
  rewrite ?ty_view, ?rows_view.
  case_decide.
  - apply scroll_bottom; [done|lia].
  - unfold scroll. remember 2%nat as n. cbn [scroll_f]. subst n. rewrite decide_False by lia.
    apply wp_bind. eapply wp_mono; [by apply putc_f_spec|]. intros s1 H1. wp_step.
    apply con_spec_cursor. unfold t_putc, t_newline in H1. rewrite decide_True in H1 by lia.
    rewrite ?ty_view in H1. by rewrite decide_False in H1 by lia.
Qed.

Lemma backspace_spec s : con_wf s -> con_spec s (backspace s) (t_backspace (view s)).
Proof.
  intros W. pose proof (cur_x_range s W). pose proof (cur_y_range s W).
  unfold backspace, t_backspace. cbv zeta.
  rewrite ?tx_view, ?ty_view, ?rows_view.
  destruct (decide (cur_x s = 0)) as [Hx|Hx];
    [destruct (decide (cur_y s > 0)) as [Hy|Hy]|].
  - rewrite decide_True by done. apply con_spec_cursor.
    rewrite <- set_y_x. rewrite cur_y_set_y, cur_x_set_y, cur_x_set_x by (by try apply wf_set_x).
    apply con_spec_move; [done|unfold NUM_COLS; lia|lia| |].
    + apply vram_write_cell; unfold NUM_COLS; lia.
    + apply grid_write_cell; unfold NUM_COLS; lia.
  - rewrite decide_False by naive_solver. rewrite decide_True by lia.
    constructor; [done|reflexivity|done].
  - rewrite decide_False by naive_solver. rewrite decide_False by naive_solver.
    apply con_spec_cursor. rewrite cur_x_set_x, cur_y_set_x by done.
    apply con_spec_move_x; [done|lia| |].
    + apply vram_write_cell; lia.
    + apply grid_write_cell; lia.
Qed.

Lemma clear_spec s : con_wf s -> con_spec s (clear s) t_clear.
Proof.
  intros W. unfold clear. apply con_spec_cursor.
  rewrite set_x_set_mem. change (set_y 0 (set_mem ?m ?s)) with (set_mem m (set_y 0 s)).
  apply con_spec_move; [done|unfold NUM_COLS; lia|unfold NUM_ROWS; lia|apply vram_clear|].
  apply clear_mem_grid.
Qed.

(** puts writes the characters of the C string one after the other. *)
Lemma puts_spec str s :
  con_wf s -> 0 ∈ str ->
  wp (puts str s) (fun '(n, s') =>
    n = zlen (cstr str) /\ con_spec s s' (t_puts (cstr str) (view s))).
Proof.
  intros W H0. pose proof (length_cstr_lt str H0) as Hlt. unfold puts.
  apply (wp_loop (fun '(i, s') => 0 <= i <= zlen (cstr str) /\
             con_spec s s' (t_puts (take (Z.to_nat i) (cstr str)) (view s)))
           (fun '(i, _) => Z.to_nat (zlen (cstr str) - i))).
  - split; [lia|]. constructor; [done|reflexivity|done].
  - lia.
  - intros [i s1] [Hi Hs1]. wp_step. wp_step.
    pose proof (cstr_nul str H0) as Hnul.
    assert (Hat : i < zlen (cstr str) -> cstr str !! Z.to_nat i = Some (at_ str i)).
    { intros Hlt'. rewrite cstr_prefix, lookup_take_lt by lia.
      unfold at_. apply list_lookup_lookup_total_lt. lia. }
    case_decide as Hc.
    + apply wp_bind. eapply wp_mono; [apply putc_spec, Hs1|]. intros s2 Hs2. wp_step.
      assert (i <> zlen (cstr str)) by congruence.
      split; [split; [lia|]|lia].
      replace (Z.to_nat (i + 1)) with (Datatypes.S (Z.to_nat i)) by lia.
      erewrite take_S_r by (apply Hat; lia). unfold t_puts in *. rewrite foldl_app. simpl.
      eapply con_spec_trans; [exact Hs1|]. destruct Hs1 as [_ _ Hv]. by rewrite Hv in Hs2.
    + wp_step. destruct (decide (i = zlen (cstr str))) as [->|].
      * rewrite take_ge in Hs1 by lia. done.
      * by destruct (cstr_nonzero str i); [lia|].
Qed.
