(* ===== verification/Printf.v ===== *)
(** [printf] of [student-distrib/lib.c], against a rendering function. *)

From S2P Require Import Prelude Hardware CLib Screen.

(** A stack slot of the variadic call: a 32-bit integer or a [char*]. *)
Inductive arg : Type :=
| AInt (z : Z)
| AStr (s : list Z).

Definition pop_int (esp : list arg) : outcome (Z * list arg) :=
  match esp with AInt z :: esp => Ok (z, esp) | _ => Fault end.
Definition pop_str (esp : list arg) : outcome (list Z * list arg) :=
  match esp with AStr z :: esp => Ok (z, esp) | _ => Fault end.

(** ** lib.c: printf

    [conv64] and [conv36] are the uninitialised local buffers [conv_buf]. *)
Section printf.
Variables conv64 conv36 : list Z.

(** [%x] and [%#x] *)
Definition print_hex (alternate : bool) (v : Z) (s : lib_state) : outcome lib_state :=
  if alternate then
    conv_buf ← at_ptr 8 (fun p => itoa (u32 v) p 16) conv64;
    starting_index ← strlen (drop 8 conv_buf);
    conv_buf ← loop 9 (fun '(i, conv_buf) =>
        if decide (i < 8) then
          conv_buf ← wr conv_buf i 48; mret (inl (i + 1, conv_buf))
        else mret (inr conv_buf)) (starting_index, conv_buf);
    snd <$> puts (drop (Z.to_nat starting_index) conv_buf) s
  else
    conv_buf ← itoa (u32 v) conv64 16;
    snd <$> puts conv_buf s.

(** [%u] *)
Definition print_unsigned (v : Z) (s : lib_state) : outcome lib_state :=
  conv_buf ← itoa (u32 v) conv36 10; snd <$> puts conv_buf s.

(** [%d] *)
Definition print_signed (v : Z) (s : lib_state) : outcome lib_state :=
  let value := i32 v in
  conv_buf ← if decide (value < 0) then
               conv_buf ← wr conv36 0 45;
               at_ptr 1 (fun p => itoa (u32 (i32 (- value))) p 10) conv_buf
             else itoa (u32 value) conv36 10;
  snd <$> puts conv_buf s.

(** The conversion after a [%]: the loop is the [goto] of the [#] flag. *)
Definition conversion (format : list Z) (i : Z) (esp : list arg) (s : lib_state)
    : outcome (Z * list arg * lib_state) :=
  loop (Datatypes.S (length format))
    (fun '(i, alternate) =>
       c ← rd format i;
       if decide (c = 37) then s ← putc 37 s; mret (inr (i, esp, s))
       else if decide (c = 35) then mret (inl (i + 1, true))
       else if decide (c = 120) then
         '(v, esp) ← pop_int esp; s ← print_hex alternate v s; mret (inr (i, esp, s))
       else if decide (c = 117) then
         '(v, esp) ← pop_int esp; s ← print_unsigned v s; mret (inr (i, esp, s))
       else if decide (c = 100) then
         '(v, esp) ← pop_int esp; s ← print_signed v s; mret (inr (i, esp, s))
       else if decide (c = 99) then
         '(v, esp) ← pop_int esp; s ← putc (u8 v) s; mret (inr (i, esp, s))
       else if decide (c = 115) then
         '(v, esp) ← pop_str esp; '(_, s) ← puts v s; mret (inr (i, esp, s))
       else mret (inr (i, esp, s))) (i, false).

Definition printf_with (format : list Z) (esp : list arg) (s : lib_state)
    : outcome (Z * lib_state) :=
  loop (Datatypes.S (length format))
    (fun '(i, esp, s) =>
       c ← rd format i;
       if decide (c <> 0) then
         if decide (c = 37) then
           '(i, esp, s) ← conversion format (i + 1) esp s;
           mret (inl (i + 1, esp, s))
         else
           s ← putc (u8 c) s; mret (inl (i + 1, esp, s))
       else mret (inr (i, s))) (0, esp, s).
End printf.

Definition printf (format : list Z) (esp : list arg) (s : lib_state) : outcome (Z * lib_state) :=
  printf_with (replicate 64 0) (replicate 36 0) format esp s.

(** * Rendering *)
Definition pad8 (t : list Z) : list Z := replicate (8 - length t) 48 ++ t.

Definition render_conv (alt : bool) (c : Z) (args : list arg) : option (list Z * list arg) :=
  if decide (c = 120) then
    match args with
    | AInt v :: args =>
        Some (if alt then pad8 (numeral 16 (u32 v)) else numeral 16 (u32 v), args)
    | _ => None end
  else if decide (c = 117) then
    match args with AInt v :: args => Some (numeral 10 (u32 v), args) | _ => None end
  else if decide (c = 100) then
    match args with
    | AInt v :: args =>
        Some (if decide (i32 v < 0) then 45 :: numeral 10 (- i32 v) else numeral 10 (i32 v), args)
    | _ => None end
  else if decide (c = 99) then
    match args with AInt v :: args => Some ([u8 v], args) | _ => None end
  else if decide (c = 115) then
    match args with
    | AStr t :: args => if decide (0 ∈ t) then Some (cstr t, args) else None
    | _ => None end
  else Some ([], args).

(** [render mode fmt args]: the text of the format [fmt] (no NUL); [mode] is
    [Some alt] just after a [%], with [alt] when a [#] was seen.  [None]: the
    call reads past its format or its arguments. *)
Fixpoint render (mode : option bool) (fmt : list Z) (args : list arg) : option (list Z) :=
  match fmt with
  | [] => match mode with None => Some [] | Some _ => None end
  | c :: rest =>
      match mode with
      | None =>
          if decide (c = 37) then render (Some false) rest args
          else cons (u8 c) <$> render None rest args
      | Some alt =>
          if decide (c = 37) then cons 37 <$> render None rest args
          else if decide (c = 35) then render (Some true) rest args
          else '(t, args) ← render_conv alt c args; app t <$> render None rest args
      end
  end.

Lemma t_puts_app a b t : t_puts (a ++ b) t = t_puts b (t_puts a t).
Proof. apply foldl_app. Qed.

Lemma t_puts_u8 l t : t_puts (u8 <$> l) t = t_puts l t.
Proof.
  unfold t_puts. revert t. induction l as [|c l IH]; intros t; [done|].
  rewrite fmap_cons. simpl. by rewrite u8_idem, IH.
Qed.

Lemma u8_byte_map l : Forall byte l -> u8 <$> l = l.
Proof.
  induction 1 as [|c l Hc HF IH]; [done|]. rewrite fmap_cons, IH. f_equal. by apply u8_id.
Qed.

Lemma puts_terminated t rest s :
  con_wf s -> 0 ∉ t ->
  wp (snd <$> puts (t ++ 0 :: rest) s) (fun s' => con_spec s s' (t_puts t (view s))).
Proof.
  intros W Ht. pose proof (puts_spec (t ++ 0 :: rest) s W) as H.
  rewrite cstr_app in H by done. specialize (H ltac:(set_solver)).
  destruct (puts _ s) as [[n s']| |]; simpl in *; [|done|done]. apply H.
Qed.

Lemma numeral10_length v : uint32 v -> (length (numeral 10 v) <= 10)%nat.
Proof. unfold uint32. intros. apply numeral_length; unfold uint32; lia. Qed.
Lemma numeral16_length v : uint32 v -> (length (numeral 16 v) <= 8)%nat.
Proof. unfold uint32. intros. apply numeral_length; unfold uint32; lia. Qed.

Section printf_spec.
Variables conv64 conv36 : list Z.
Hypothesis H36 : length conv36 = 36%nat.

Lemma print_unsigned_spec v s :
  con_wf s ->
  wp (print_unsigned conv36 v s) (fun s' => con_spec s s' (t_puts (numeral 10 (u32 v)) (view s))).
Proof using H36.
  intros W. pose proof (u32_range v) as Hv. pose proof (numeral10_length (u32 v) Hv).
  unfold print_unsigned. rewrite itoa_spec by (lia || done). wp_step. wp_step.
  apply puts_terminated; [done|]. apply numeral_no_nul; [lia|done].
Qed.

Lemma print_signed_spec v s :
  con_wf s ->
  wp (print_signed conv36 v s) (fun s' => con_spec s s' (t_puts
    (if decide (i32 v < 0) then 45 :: numeral 10 (- i32 v) else numeral 10 (i32 v)) (view s))).
Proof using H36.
  intros W. pose proof (i32_range v) as Hv. unfold print_signed. cbv zeta.
  destruct (decide (i32 v < 0)).
  - assert (Hn : u32 (i32 (- i32 v)) = - i32 v).
    { destruct (decide (i32 v = - 2 ^ 31)) as [->|]; [done|].
      rewrite i32_id by lia. apply u32_id. lia. }
    rewrite Hn. assert (Hu : uint32 (- i32 v)) by (unfold uint32; lia).
    pose proof (numeral10_length _ Hu). rewrite wr_ok by lia. unfold at_ptr.
    destruct conv36 as [|a buf] eqn:E; [done|]. simpl in H36. do 3 wp_step.
    change (drop 1 (upd (a :: buf) 0 45)) with (drop 0 buf). rewrite drop_0.
    rewrite itoa_spec by (lia || done). do 3 wp_step.
    change (take 1 (upd (a :: buf) 0 45)) with ([45]). cbn [app].
    rewrite app_comm_cons. apply puts_terminated; [done|].
    apply not_elem_of_cons. split; [done|]. apply numeral_no_nul; [lia|done].
  - assert (Hu : u32 (i32 v) = i32 v) by (apply u32_id; lia). rewrite Hu.
    assert (Hu2 : uint32 (i32 v)) by (unfold uint32; lia).
    pose proof (numeral10_length _ Hu2). rewrite itoa_spec by (lia || done). wp_step. wp_step.
    apply puts_terminated; [done|]. apply numeral_no_nul; [lia|done].
Qed.
End printf_spec.

Lemma numeral_nonempty r v : 2 <= r -> uint32 v -> (0 < length (numeral r v))%nat.
Proof.
  unfold uint32, numeral. intros Hr Hv. case_decide; [simpl; lia|].
  rewrite length_fmap, length_reverse, (digits_le_S 31), decide_False by done.
  rewrite length_cons. lia.
Qed.

Lemma print_hex_spec conv64 alt v s :
  length conv64 = 64%nat -> con_wf s ->
  wp (print_hex conv64 alt v s) (fun s' => con_spec s s' (t_puts
    (if alt then pad8 (numeral 16 (u32 v)) else numeral 16 (u32 v)) (view s))).
Proof.
  intros H64 W. pose proof (u32_range v) as Hv. pose proof (numeral16_length (u32 v) Hv) as Hl.
  pose proof (numeral_nonempty 16 (u32 v) ltac:(lia) Hv) as Hne.
  pose proof (numeral_no_nul 16 (u32 v) ltac:(lia) Hv) as Hnn.
  unfold print_hex. destruct alt.
  2: { rewrite itoa_spec by (lia || done). do 2 wp_step. by apply puts_terminated. }
  unfold at_ptr. assert (H56 : length (drop 8 conv64) = 56%nat) by (rewrite length_drop; lia).
  rewrite itoa_spec by (lia || done). do 4 wp_step.
  set (nu := numeral 16 (u32 v)) in *.
  set (rest := drop (Datatypes.S (length nu)) (drop 8 conv64)).
  assert (Hrest : (length rest <= 55)%nat) by (unfold rest; rewrite length_drop; lia).
  assert (Ht8 : length (take 8 conv64) = 8%nat) by (rewrite length_take; lia).
  assert (Hd : drop 8 (take 8 conv64 ++ nu ++ 0 :: rest) = nu ++ 0 :: rest)
    by (by rewrite <- Ht8 at 1; rewrite drop_app_length).
  rewrite Hd. apply wp_bind.
  rewrite strlen_spec; [|set_solver|rewrite length_app; simpl; lia].
  rewrite cstr_app by done. wp_step. apply wp_bind.
  set (b0 := take 8 conv64 ++ nu ++ 0 :: rest).
  assert (Hb0 : length b0 = (8 + length nu + 1 + length rest)%nat)
    by (unfold b0; rewrite !length_app; simpl; lia).
  eapply (wp_mono _ (fun b => length b = length b0 /\ forall j, 0 <= j < zlen b0 ->
      at_ b j = if decide (zlen nu <= j < 8) then 48 else at_ b0 j)).
  - apply (wp_loop (fun '(i, b) => zlen nu <= i <= 8 /\ length b = length b0 /\
        forall j, 0 <= j < zlen b0 -> at_ b j = if decide (zlen nu <= j < i) then 48 else at_ b0 j)
      (fun '(i, _) => Z.to_nat (8 - i))).
    + split; [lia|]. split; [done|]. intros j Hj. by case_decide; [lia|].
    + lia.
    + intros [i b] (Hi & Hb & Hat). wp_step.
      * rewrite wr_ok by lia. do 2 wp_step. split; [|lia]. split; [lia|].
        rewrite length_upd. split; [done|]. intros j Hj.
        rewrite at_upd by lia. rewrite Hat by lia. repeat (case_decide; try lia); done.
      * wp_step. split; [done|]. intros j Hj. rewrite Hat by lia.
        repeat (case_decide; try lia); done.
  - intros b [Hb Hat].
    assert (Hdrop : drop (Z.to_nat (zlen nu)) b = pad8 nu ++ 0 :: rest).
    { rewrite Nat2Z.id. apply at_ext.
      - rewrite length_drop, Hb, Hb0. unfold pad8. rewrite !length_app, length_replicate. simpl. lia.
      - intros j Hj. rewrite length_drop, Hb in Hj. rewrite at_drop, Hat by lia.
        unfold pad8. rewrite at_app by lia. rewrite length_app, length_replicate.
        unfold b0. rewrite at_app by lia. rewrite Ht8.
        repeat (case_decide; try lia).
        + rewrite at_app by lia. rewrite decide_True by (rewrite length_replicate; lia).
          by rewrite at_replicate by lia.
        + rewrite !at_app by lia. rewrite length_replicate.
          repeat (case_decide; try lia). f_equal. lia.
        + rewrite at_app by lia. case_decide; [lia|]. f_equal. lia. }
    rewrite Hdrop. apply puts_terminated; [done|].
    unfold pad8. rewrite elem_of_app, elem_of_replicate. naive_solver.
Qed.

(** ** The format walk *)
Section walk.
Variables conv64 conv36 : list Z.
Hypothesis H64 : length conv64 = 64%nat.
Hypothesis H36 : length conv36 = 36%nat.

(** One conversion character. *)
Definition convert (alternate : bool) (c i : Z) (esp : list arg) (s : lib_state) :
    outcome (Z * bool + Z * list arg * lib_state) :=
  if decide (c = 37) then s ← putc 37 s; mret (inr (i, esp, s))
  else if decide (c = 35) then mret (inl (i + 1, true))
  else if decide (c = 120) then
    '(v, esp) ← pop_int esp; s ← print_hex conv64 alternate v s; mret (inr (i, esp, s))
  else if decide (c = 117) then
    '(v, esp) ← pop_int esp; s ← print_unsigned conv36 v s; mret (inr (i, esp, s))
  else if decide (c = 100) then
    '(v, esp) ← pop_int esp; s ← print_signed conv36 v s; mret (inr (i, esp, s))
  else if decide (c = 99) then
    '(v, esp) ← pop_int esp; s ← putc (u8 v) s; mret (inr (i, esp, s))
  else if decide (c = 115) then
    '(v, esp) ← pop_str esp; '(_, s) ← puts v s; mret (inr (i, esp, s))
  else mret (inr (i, esp, s)).

Ltac pop_slot := apply wp_bind; cbn [pop_int pop_str]; apply wp_ret; cbv beta iota.

Lemma convert_spec alt c i esp s t esp' :
  con_wf s -> c <> 37 -> c <> 35 -> render_conv alt c esp = Some (t, esp') ->
  wp (convert alt c i esp s) (fun r => exists s', r = inr (i, esp', s') /\
      con_spec s s' (t_puts (u8 <$> t) (view s))).
Proof using H64 H36.
  intros W Hc1 Hc2 Hr. unfold convert. do 2 rewrite decide_False by done.
  assert (Hnum : forall r v, 2 <= r <= 36 -> uint32 v -> u8 <$> numeral r v = numeral r v).
  { intros r v Hr0 Hv0. apply u8_byte_map. eapply Forall_impl; [by apply numeral_bytes|].
    intros x Hx. unfold byte. simpl in Hx. lia. }
  assert (Hdone : forall t0 m, u8 <$> t0 = t0 ->
     wp m (fun s' => con_spec s s' (t_puts t0 (view s))) ->
     wp (s0 ← m; Ok (inr (A:=Z*bool) (i, esp', s0))) (fun r => exists s', r = inr (i, esp', s') /\
        con_spec s s' (t_puts (u8 <$> t0) (view s)))).
  { intros t0 m E Hm. apply wp_bind. eapply wp_mono; [exact Hm|].
    intros s' Hs'. wp_step. exists s'. split; [done|]. by rewrite E. }
  unfold render_conv in Hr. repeat case_decide; try done.
  - destruct esp as [|[v|] esp]; [done| |done]. injection Hr as <- <-. pop_slot.
    apply Hdone; [|by apply print_hex_spec].
    destruct alt; [|apply Hnum; [lia|apply u32_range]].
    unfold pad8. rewrite fmap_app, Hnum by (lia || apply u32_range). f_equal.
    generalize (8 - length (numeral 16 (u32 v)))%nat. intros k. induction k; simpl; [done|].
    by f_equal.
  - destruct esp as [|[v|] esp]; [done| |done]. injection Hr as <- <-. pop_slot.
    apply Hdone; [apply Hnum; [lia|apply u32_range]|by apply print_unsigned_spec].
  - destruct esp as [|[v|] esp]; [done| |done]. injection Hr as <- <-. pop_slot.
    pose proof (i32_range v).
    apply Hdone; [|by apply print_signed_spec].
    case_decide; [rewrite fmap_cons; f_equal|]; apply Hnum; unfold uint32; lia.
  - destruct esp as [|[v|] esp]; [done| |done]. injection Hr as <- <-. pop_slot.
    apply Hdone; [by rewrite fmap_cons, u8_idem|].
    eapply wp_mono; [by apply putc_spec|]. intros s' Hs'. unfold t_puts. simpl.
    by rewrite u8_idem.
  - destruct esp as [|[|v] esp]; [done|done|]. case_decide; [|done]. injection Hr as <- <-.
    pop_slot. wp_step. eapply wp_mono; [by apply puts_spec|].
    intros [n s'] [_ Hs']. wp_step. exists s'. split; [done|].
    by rewrite t_puts_u8.
  - injection Hr as <- <-. wp_step. exists s. split; [done|]. constructor; [done|reflexivity|done].
Qed.

Variable format : list Z.
Hypothesis Hnul : 0 ∈ format.

Abbreviation inner esp s := (fun '(i, alternate) =>
   c ← rd format i; convert alternate c i esp s).
Abbreviation outer := (fun '(i, esp, s) =>
   c ← rd format i;
   if decide (c <> 0) then
     if decide (c = 37) then
       '(i, esp, s) ← conversion conv64 conv36 format (i + 1) esp s;
       mret (inl (i + 1, esp, s))
     else
       s ← putc (u8 c) s; mret (inl (i + 1, esp, s))
   else mret (inr (i, s))).

Lemma rd_suffix i c l :
  0 <= i -> drop (Z.to_nat i) (cstr format) = c :: l ->
  rd format i = Ok c /\ c <> 0 /\ drop (Z.to_nat (i + 1)) (cstr format) = l /\
  i + 1 <= zlen (cstr format).
Proof using H64 H36 Hnul.
  intros Hi Hd. pose proof (length_cstr_lt format Hnul) as Hlt.
  assert (Hlen : length (c :: l) = (length (cstr format) - Z.to_nat i)%nat)
    by (by rewrite <- Hd, length_drop). simpl in Hlen.
  assert (Hat : at_ format i = c).
  { rewrite <- (Z.add_0_r i). rewrite <- at_skip by lia.
    rewrite (cstr_prefix format) in Hd. rewrite <- (take_drop (length (cstr format)) format) at 1.
    rewrite drop_app_le, Hd by (rewrite length_take; lia). done. }
  repeat split.
  - by rewrite rd_ok, Hat by lia.
  - intros ->. by apply (cstr_nonzero format i); [lia|].
  - replace (Z.to_nat (i + 1)) with (Z.to_nat i + 1)%nat by lia.
    by rewrite <- drop_drop, Hd.
  - lia.
Qed.

Lemma rd_end i : 0 <= i <= zlen (cstr format) ->
  drop (Z.to_nat i) (cstr format) = [] -> i = zlen (cstr format) /\ rd format i = Ok 0.
Proof using H64 H36 Hnul.
  intros Hi Hd. apply (f_equal length) in Hd. rewrite length_drop in Hd. simpl in Hd.
  pose proof (length_cstr_lt format Hnul). assert (i = zlen (cstr format)) as -> by lia.
  split; [done|]. rewrite rd_ok by lia. by rewrite cstr_nul.
Qed.

Definition post (s : lib_state) (out : list Z) (r : Z * lib_state) : Prop :=
  fst r = zlen (cstr format) /\ con_spec s (snd r) (t_puts out (view s)).

Lemma post_trans s s1 t out r :
  con_spec s s1 (t_puts t (view s)) -> post s1 out r -> post s (t ++ out) r.
Proof using Type.
  intros H1 [Hn H2]. split; [done|]. rewrite t_puts_app.
  eapply con_spec_trans; [exact H1|]. destruct H1 as [_ _ Hv]. by rewrite Hv in H2.
Qed.

Lemma walk l :
  (forall i esp s out fuel, con_wf s -> 0 <= i <= zlen (cstr format) ->
     drop (Z.to_nat i) (cstr format) = l -> render None l esp = Some out ->
     (length l < fuel)%nat -> wp (loop fuel outer (i, esp, s)) (post s out)) /\
  (forall i alt esp s out fuel fuel', con_wf s -> 0 <= i <= zlen (cstr format) ->
     drop (Z.to_nat i) (cstr format) = l -> render (Some alt) l esp = Some out ->
     (length l < fuel)%nat -> (length l <= fuel')%nat ->
     wp ('(i, esp, s) ← loop fuel (inner esp s) (i, alt); loop fuel' outer (i + 1, esp, s))
        (post s out)).
Proof using H64 H36 Hnul.
  induction l as [|c l [IHo IHi]].
  - split.
    + intros i esp s out [|fuel] W Hi Hd Hr Hf; [lia|]. rewrite loop_S.
      destruct (rd_end i Hi Hd) as [-> ->]. simpl. injection Hr as <-.
      split; [done|]. constructor; [done|reflexivity|done].
    + intros i alt esp s out fuel fuel' W Hi Hd Hr. done.
  - split.
    + intros i esp s out [|fuel] W Hi Hd Hr Hf; [lia|]. rewrite loop_S. simpl in Hf.
      destruct (rd_suffix i c l) as (Hc & Hc0 & Hd' & Hi'); [lia|done|].
      rewrite Hc. cbn [mbind outcome_bind]. rewrite decide_True by done. simpl in Hr.
      destruct (decide (c = 37)) as [->|H37].
      * pose proof (IHi (i + 1) false esp s out (Datatypes.S (length format)) fuel W
          ltac:(lia) Hd' Hr) as H.
        pose proof (length_cstr_lt format Hnul).
        assert (length l <= length format)%nat.
        { rewrite <- Hd', length_drop. lia. }
        specialize (H ltac:(lia) ltac:(lia)). apply wp_bind. apply wp_bind_inv in H.
        apply wp_bind. eapply wp_mono; [exact H|]. intros [[i2 esp2] s2] H2. by wp_step.
      * destruct (render None l esp) as [out'|] eqn:E; [|done]. injection Hr as <-.
        do 2 apply wp_bind. eapply wp_mono; [by apply putc_spec|]. intros s1 H1. wp_step.
        eapply wp_mono; [apply (IHo (i + 1) esp s1 out' fuel); try done; try lia; apply H1|].
        intros r Hpost. apply (post_trans s s1 [u8 c]); [|done].
        unfold t_puts. simpl. by rewrite u8_idem.
    + intros i alt esp s out [|fuel] fuel' W Hi Hd Hr Hf Hf'; [lia|]. rewrite loop_S.
      destruct (rd_suffix i c l) as (Hc & Hc0 & Hd' & Hi'); [lia|done|]. simpl in Hf, Hf'.
      rewrite Hc. cbn [mbind outcome_bind]. cbn [render] in Hr.
      destruct (decide (c = 37)) as [->|H37]; [|destruct (decide (c = 35)) as [->|H35]].
      * destruct (render None l esp) as [out'|] eqn:E; [|done]. injection Hr as <-.
        unfold convert. rewrite decide_True by done. do 3 apply wp_bind.
        eapply wp_mono; [by apply putc_spec|]. intros s1 H1. do 2 wp_step.
        eapply wp_mono; [apply (IHo (i + 1) esp s1 out' fuel'); try done; try lia; apply H1|].
        intros r Hpost. by apply (post_trans s s1 [37]).
      * unfold convert. rewrite decide_False, decide_True by done. simpl.
        apply IHi; try done; lia.
      * destruct (render_conv alt c esp) as [[t esp']|] eqn:Ec; [|done]. simpl in Hr.
        destruct (render None l esp') as [out'|] eqn:E; [|done]. injection Hr as <-.
        do 2 apply wp_bind. eapply wp_mono; [by apply convert_spec|].
        intros ? (s1 & -> & H1). do 1 wp_step. rewrite t_puts_u8 in H1.
        eapply wp_mono; [apply (IHo (i + 1) esp' s1 out' fuel'); try done; try lia; apply H1|].
        intros r Hpost. by apply (post_trans s s1 t).
Qed.
End walk.

(** printf shows the rendering of its format and returns the format's length. *)
Lemma printf_with_spec conv64 conv36 format esp s out :
  length conv64 = 64%nat -> length conv36 = 36%nat -> con_wf s -> 0 ∈ format ->
  render None (cstr format) esp = Some out ->
  wp (printf_with conv64 conv36 format esp s) (fun '(n, s') =>
    n = zlen (cstr format) /\ con_spec s s' (t_puts out (view s))).
Proof.
  intros H64 H36 W Hnul Hr. pose proof (length_cstr_lt format Hnul).
  eapply wp_mono; [apply (proj1 (walk conv64 conv36 H64 H36 format Hnul (cstr format))
    0 esp s out (Datatypes.S (length format))); try done; lia|].
  by intros [n s'].
Qed.

Lemma printf_spec format esp s out :
  con_wf s -> 0 ∈ format -> render None (cstr format) esp = Some out ->
  wp (printf format esp s) (fun '(n, s') =>
    n = zlen (cstr format) /\ con_spec s s' (t_puts out (view s))).
Proof. by apply printf_with_spec. Qed.
