(* ===== verification/FileSystem.v ===== *)
(** The read-only file system of [student-distrib/filesystem.c], over the
    bytes of the image the boot loader leaves in memory.

    The image is the list of its 4096-byte blocks: the boot block, the
    inodes, the data blocks.  The pointers [boot_block], [entries], [inodes],
    [data_blocks] are byte offsets from the start of the image, and the
    fields of the overlaid structs are read from the bytes at their offsets;
    a read outside the image is a [Fault]. *)

From S2P Require Import Prelude CLib.

Definition INODE_OFFSET := 1.
Definition MAX_NAME_CHARACTERS := 32.
Definition MAX_ENTRIES := 63.
Definition DENTRY_SIZE := 64.
Definition MAX_INODE_DATA_BLOCKS := 1023.
Definition MAX_CHARS_IN_DATA := 4096.
(** [sizeof] of boot_block_t, inode_t and data_block_t, and the offset of
    [dir_entries] in boot_block_t. *)
Definition BLOCK := 4096.
Definition DIR_ENTRIES := 64.

Record fs_state : Type := mkFs {
  image : list (list Z);
  boot_block : Z;
  entries : Z;
  inodes : Z;
  data_blocks : Z;
  num_entries : Z;
  num_inodes : Z;
  num_data_blocks : Z;
  character_count : list Z;   (* [MAX_ENTRIES] *)
}.

(** A directory entry in kernel memory (the reserved words are not used). *)
Record dentry_t : Type := mkDentry { file_name : list Z; file_type : Z; inode_idx : Z }.

(** ** Reading the image *)
Definition img_byte (img : list (list Z)) (a : Z) : outcome Z :=
  blk ← rd img (a / BLOCK); rd blk (a mod BLOCK).
Definition img_word (img : list (list Z)) (a : Z) : outcome Z :=
  b0 ← img_byte img a; b1 ← img_byte img (a + 1);
  b2 ← img_byte img (a + 2); b3 ← img_byte img (a + 3);
  mret (b0 + 2 ^ 8 * b1 + 2 ^ 16 * b2 + 2 ^ 24 * b3).

(** filesystem.h: dentry_t, fields of [entries[i]] *)
Definition entry_name_char (fs : fs_state) (i j : Z) : outcome Z :=
  img_byte (image fs) (entries fs + DENTRY_SIZE * i + j).
Definition entry_file_type (fs : fs_state) (i : Z) : outcome Z :=
  img_word (image fs) (entries fs + DENTRY_SIZE * i + 32).
Definition entry_inode_idx (fs : fs_state) (i : Z) : outcome Z :=
  img_word (image fs) (entries fs + DENTRY_SIZE * i + 36).
(** The bytes of [entries[i]] from its name on, as strncmp and strncpy see them. *)
Definition entry_name (fs : fs_state) (i : Z) : outcome (list Z) :=
  mapM (entry_name_char fs i) (seqZ 0 DENTRY_SIZE).

(** filesystem.h: inode_t, fields of [inodes[i]] *)
Definition inode_file_size (fs : fs_state) (i : Z) : outcome Z :=
  img_word (image fs) (inodes fs + BLOCK * i).
Definition inode_datablock_idx (fs : fs_state) (i j : Z) : outcome Z :=
  img_word (image fs) (inodes fs + BLOCK * i + 4 + 4 * j).
(** filesystem.h: data_block_t, [data_blocks[b].data[j]] *)
Definition data_block_byte (fs : fs_state) (b j : Z) : outcome Z :=
  img_byte (image fs) (data_blocks fs + BLOCK * b + j).

(** ** filesystem.c: create_char_count *)
Definition count_name (fs : fs_state) (i : Z) : outcome Z :=
  loop 34 (fun len =>
    c ← entry_name_char fs i len;
    mret (if decide (c <> 0 /\ len < MAX_NAME_CHARACTERS) then inl (len + 1) else inr len)) 0.

Definition set_character_count (cc : list Z) (fs : fs_state) : fs_state :=
  mkFs (image fs) (boot_block fs) (entries fs) (inodes fs) (data_blocks fs)
       (num_entries fs) (num_inodes fs) (num_data_blocks fs) cc.

Definition create_char_count (fs : fs_state) : outcome fs_state :=
  loop 64 (fun '(i, fs) =>
    if decide (i < MAX_ENTRIES) then
      len ← count_name fs i;
      cc ← wr (character_count fs) i len;
      mret (inl (i + 1, set_character_count cc fs))
    else mret (inr fs)) (0, fs).

(** ** filesystem.c: filesystem_init, the overlay (the driver tables are
    filled by [fops_table_init]) *)
Definition filesystem_init_overlay (img : list (list Z)) : outcome fs_state :=
  let boot_block := 0 in
  num_entries ← img_word img boot_block;
  num_inodes ← img_word img (boot_block + 4);
  num_data_blocks ← img_word img (boot_block + 8);
  let entries := boot_block + DIR_ENTRIES in
  let inodes := boot_block + BLOCK * INODE_OFFSET in
  let data_blocks := inodes + BLOCK * num_inodes in
  create_char_count (mkFs img boot_block entries inodes data_blocks
    num_entries num_inodes num_data_blocks (replicate (Z.to_nat MAX_ENTRIES) 0)).

(** ** filesystem.c: read_dentry_by_name *)
Definition given_name_length (fname : list Z) : outcome Z :=
  loop 34 (fun n =>
    c ← rd fname n;
    mret (if decide (c <> 32 /\ c <> 0 /\ n < MAX_NAME_CHARACTERS) then inl (n + 1) else inr n)) 0.

Definition read_dentry_by_name (fs : fs_state) (fname : list Z) (dentry : dentry_t)
    : outcome (Z * dentry_t) :=
  given_name_len ← given_name_length fname;
  if decide (given_name_len = 0) then mret (-1, dentry) else
  let given_name_len :=
    if decide (given_name_len > MAX_NAME_CHARACTERS) then MAX_NAME_CHARACTERS else given_name_len in
  loop 64 (fun dentry_loop =>
    if decide (dentry_loop < MAX_ENTRIES) then
      entry_name_len ← rd (character_count fs) dentry_loop;
      if decide (given_name_len = entry_name_len) then
        ename ← entry_name fs dentry_loop;
        cmp ← strncmp fname ename (u32 entry_name_len);
        if decide (cmp = 0) then
          dname ← strncpy (file_name dentry) ename (u32 entry_name_len);
          dtype ← entry_file_type fs dentry_loop;
          dinode ← entry_inode_idx fs dentry_loop;
          mret (inr (0, mkDentry dname dtype dinode))
        else mret (inl (dentry_loop + 1))
      else mret (inl (dentry_loop + 1))
    else mret (inr (-1, dentry))) 0.

(** ** filesystem.c: read_dentry_by_index *)
Definition read_dentry_by_index (fs : fs_state) (index : Z) (dentry : dentry_t)
    : outcome (Z * dentry_t) :=
  if decide (index > MAX_ENTRIES) then mret (-1, dentry) else
  n ← rd (character_count fs) index;
  ename ← entry_name fs index;
  dname ← strncpy (file_name dentry) ename (u32 n);
  dtype ← entry_file_type fs index;
  dinode ← entry_inode_idx fs index;
  mret (0, mkDentry dname dtype dinode).

(** ** filesystem.c: get_num_entries, get_entry_name *)
Definition get_num_entries (fs : fs_state) : Z := num_entries fs.
Definition get_entry_name (fs : fs_state) (index : Z) : outcome (list Z) := entry_name fs index.

(** ** filesystem.c: read_data *)
Definition copy_block (fs : fs_state) (curr_data_block end_of_block_byte : Z)
    (chars_read curr_byte : Z) (buf : list Z) : outcome (Z * list Z) :=
  loop (Z.to_nat (MAX_CHARS_IN_DATA + 1)) (fun '(chars_read, curr_byte, buf) =>
    if decide (curr_byte < end_of_block_byte) then
      c ← data_block_byte fs curr_data_block curr_byte;
      buf ← wr buf chars_read c;
      mret (inl (u32 (chars_read + 1), u32 (curr_byte + 1), buf))
    else mret (inr (chars_read, buf))) (chars_read, curr_byte, buf).

Definition read_data (fs : fs_state) (inode offset : Z) (buf : list Z) (length : Z)
    : outcome (Z * list Z) :=
  if decide (inode >= num_inodes fs) then mret (-1, buf) else
  this_file_size ← inode_file_size fs inode;
  if decide (offset >= this_file_size \/ length = 0) then mret (0, buf) else
  let start_block := offset / MAX_CHARS_IN_DATA in
  let start_offset := offset mod MAX_CHARS_IN_DATA in
  let end_search := u32 (offset + length) in
  let end_search := if decide (end_search > this_file_size) then this_file_size else end_search in
  let end_block := end_search / MAX_CHARS_IN_DATA in
  let end_offset := end_search mod MAX_CHARS_IN_DATA in
  loop (Datatypes.S (Z.to_nat (end_block - start_block + 1)))
    (fun '(block_loop, chars_read, curr_byte, end_of_block_byte, buf) =>
      if decide (block_loop <= end_block) then
        curr_data_block ← inode_datablock_idx fs inode block_loop;
        if decide (curr_data_block > num_data_blocks fs) then
          if decide (chars_read = 0) then mret (inr (-1, buf))
          else mret (inr (i32 chars_read, buf))
        else
          let end_of_block_byte :=
            if decide (block_loop = end_block) then end_offset else end_of_block_byte in
          '(chars_read, buf) ← copy_block fs curr_data_block end_of_block_byte
                                 chars_read curr_byte buf;
          mret (inl (block_loop + 1, chars_read, 0, end_of_block_byte, buf))
      else mret (inr (i32 chars_read, buf)))
    (start_block, 0, start_offset, MAX_CHARS_IN_DATA, buf).

(** ** A small image

    Two inodes and three data blocks; the directory itself, the RTC device
    and a 4100-byte file ["frame0.txt"] whose blocks are 2 then 0. *)
Definition word_bytes (w : Z) : list Z :=
  [w mod 256; (w / 2 ^ 8) mod 256; (w / 2 ^ 16) mod 256; (w / 2 ^ 24) mod 256].
Definition pad (n : nat) (l : list Z) : list Z := l ++ replicate (n - length l) 0.
Definition dentry_bytes (name : list Z) (ftype inode : Z) : list Z :=
  pad 64 (pad 32 name ++ word_bytes ftype ++ word_bytes inode).

Definition sample_image : list (list Z) :=
  [ pad 4096 (pad 64 (word_bytes 3 ++ word_bytes 2 ++ word_bytes 3)
      ++ dentry_bytes (chars ".") 1 0 ++ dentry_bytes (chars "rtc") 0 0
      ++ dentry_bytes (chars "frame0.txt") 2 1);
    pad 4096 (word_bytes 0);
    pad 4096 (word_bytes 4100 ++ word_bytes 2 ++ word_bytes 0);
    replicate 4096 65; replicate 4096 66; replicate 4096 67 ].

Definition sample_fs : fs_state :=
  match filesystem_init_overlay sample_image with
  | Ok fs => fs
  | _ => mkFs [] 0 0 0 0 0 0 0 []
  end.

Example sample_lookup :
  read_dentry_by_name sample_fs (lit "frame0.txt arg") (mkDentry (replicate 32 7) 9 9)
  = Ok (0, mkDentry (chars "frame0.txt" ++ replicate 22 7) 2 1).
Proof. vm_compute. reflexivity. Qed.

Example sample_read :
  read_data sample_fs 1 4094 (replicate 8 0) 8 = Ok (6, [67; 67; 65; 65; 65; 65; 0; 0]).
Proof. vm_compute. reflexivity. Qed.

(** * Well-formed images *)
Definition img_at (img : list (list Z)) (a : Z) : Z := at_ (at_ img (a / BLOCK)) (a mod BLOCK).
Definition word_at (img : list (list Z)) (a : Z) : Z :=
  img_at img a + 2 ^ 8 * img_at img (a + 1) + 2 ^ 16 * img_at img (a + 2) + 2 ^ 24 * img_at img (a + 3).

Definition img_ok (img : list (list Z)) : Prop :=
  Forall (fun blk => length blk = Z.to_nat BLOCK /\ Forall byte blk) img.

Section image.
Variable img : list (list Z).
Hypothesis OK : img_ok img.
Implicit Types a : Z.

Lemma img_block a : 0 <= a < BLOCK * zlen img ->
  0 <= a / BLOCK < zlen img /\ 0 <= a mod BLOCK < zlen (at_ img (a / BLOCK)) /\
  Forall byte (at_ img (a / BLOCK)).
Proof using OK.
  unfold BLOCK in *. intros Ha.
  assert (Hd : 0 <= a / 4096 < zlen img)
    by (split; [apply Z.div_pos; lia|apply Z.div_lt_upper_bound; lia]).
  destruct (Forall_at _ img (a / 4096) OK Hd) as [Hl HF].
  pose proof (Z.mod_pos_bound a 4096). repeat split; try lia; [|done].
  rewrite Hl. unfold BLOCK. lia.
Qed.

Lemma img_byte_ok a : 0 <= a < BLOCK * zlen img -> img_byte img a = Ok (img_at img a).
Proof using OK.
  intros Ha. destruct (img_block a Ha) as (H1 & H2 & _). unfold img_byte.
  rewrite rd_ok by done. simpl. by rewrite rd_ok.
Qed.

Lemma img_at_byte a : 0 <= a < BLOCK * zlen img -> byte (img_at img a).
Proof using OK.
  intros Ha. destruct (img_block a Ha) as (_ & H2 & HF). unfold img_at. by apply (Forall_at byte).
Qed.

Lemma img_word_ok a : 0 <= a -> a + 3 < BLOCK * zlen img -> img_word img a = Ok (word_at img a).
Proof using OK.
  intros H0 Ha. unfold img_word. by rewrite !img_byte_ok by lia.
Qed.

Lemma word_at_range a : 0 <= a -> a + 3 < BLOCK * zlen img -> uint32 (word_at img a).
Proof using OK.
  intros H0 Ha. unfold word_at, uint32.
  pose proof (img_at_byte a). pose proof (img_at_byte (a + 1)).
  pose proof (img_at_byte (a + 2)). pose proof (img_at_byte (a + 3)).
  unfold byte in *. lia.
Qed.
End image.

(** What the image holds *)
Definition entry_bytes (fs : fs_state) (i : Z) : list Z :=
  map (fun j => img_at (image fs) (entries fs + DENTRY_SIZE * i + j)) (seqZ 0 DENTRY_SIZE).
(** The name of entry [i]: at most 32 characters, cut at the first NUL. *)
Definition entry_text (fs : fs_state) (i : Z) : list Z := cstr (take 32 (entry_bytes fs i)).
Definition type_of (fs : fs_state) (i : Z) : Z :=
  word_at (image fs) (entries fs + DENTRY_SIZE * i + 32).
Definition inode_of (fs : fs_state) (i : Z) : Z :=
  word_at (image fs) (entries fs + DENTRY_SIZE * i + 36).
Definition size_of (fs : fs_state) (k : Z) : Z := word_at (image fs) (inodes fs + BLOCK * k).
Definition block_of (fs : fs_state) (k j : Z) : Z :=
  word_at (image fs) (inodes fs + BLOCK * k + 4 + 4 * j).
(** Byte [p] of file [k], and the whole file. *)
Definition file_byte (fs : fs_state) (k p : Z) : Z :=
  img_at (image fs) (data_blocks fs + BLOCK * block_of fs k (p / BLOCK) + p mod BLOCK).
Definition contents (fs : fs_state) (k : Z) : list Z :=
  map (file_byte fs k) (seqZ 0 (size_of fs k)).

(** The layout of a loaded image.  [layout] is what [filesystem_init] sets up;
    the inodes of a good image only name data blocks that exist. *)
Record layout (fs : fs_state) : Prop := {
  ly_img : img_ok (image fs);
  ly_boot : boot_block fs = 0;
  ly_entries : entries fs = DIR_ENTRIES;
  ly_inodes : inodes fs = BLOCK * INODE_OFFSET;
  ly_data : data_blocks fs = inodes fs + BLOCK * num_inodes fs;
  ly_counts : 0 <= num_inodes fs /\ 0 <= num_data_blocks fs;
  ly_len : zlen (image fs) = 1 + num_inodes fs + num_data_blocks fs;
}.

Record fs_wf (fs : fs_state) : Prop := {
  wf_layout : layout fs;
  wf_nentries : 0 <= num_entries fs <= MAX_ENTRIES;
  wf_cc_len : length (character_count fs) = Z.to_nat MAX_ENTRIES;
  wf_cc : forall i, 0 <= i < MAX_ENTRIES -> at_ (character_count fs) i = zlen (entry_text fs i);
  wf_size : forall k, 0 <= k < num_inodes fs -> size_of fs k <= BLOCK * MAX_INODE_DATA_BLOCKS;
  wf_blocks : forall k j, 0 <= k < num_inodes fs -> 0 <= j -> BLOCK * j < size_of fs k ->
    block_of fs k j < num_data_blocks fs;
}.

(** A raw image a file system can be loaded from. *)
Record image_wf (img : list (list Z)) : Prop := {
  iw_img : img_ok img;
  iw_len : zlen img = 1 + word_at img 4 + word_at img 8;
  iw_entries : word_at img 0 <= MAX_ENTRIES;
  iw_size : forall k, 0 <= k < word_at img 4 -> word_at img (BLOCK * (1 + k)) <= BLOCK * MAX_INODE_DATA_BLOCKS;
  iw_blocks : forall k j, 0 <= k < word_at img 4 -> 0 <= j -> BLOCK * j < word_at img (BLOCK * (1 + k)) ->
    word_at img (BLOCK * (1 + k) + 4 + 4 * j) < word_at img 8;
}.

Section directory.
Variable fs : fs_state.
Hypothesis L : layout fs.

Lemma entry_in_image i j : 0 <= i < MAX_ENTRIES -> 0 <= j < DENTRY_SIZE ->
  0 <= entries fs + DENTRY_SIZE * i + j < BLOCK * zlen (image fs).
Proof using L.
  destruct L as [_ _ He _ _ [? ?] Hl]. rewrite He, Hl.
  unfold MAX_ENTRIES, DENTRY_SIZE, BLOCK, DIR_ENTRIES. lia.
Qed.

Lemma entry_bytes_length i : length (entry_bytes fs i) = Z.to_nat DENTRY_SIZE.
Proof using Type. unfold entry_bytes. by rewrite length_map, length_seqZ. Qed.

Lemma at_entry_bytes i j : 0 <= j < DENTRY_SIZE ->
  at_ (entry_bytes fs i) j = img_at (image fs) (entries fs + DENTRY_SIZE * i + j).
Proof using Type.
  intros Hj. unfold entry_bytes, at_. apply list_lookup_total_correct.
  rewrite list_lookup_fmap, lookup_seqZ_lt by lia. simpl. do 2 f_equal. lia.
Qed.

Lemma entry_name_char_ok i j : 0 <= i < MAX_ENTRIES -> 0 <= j < DENTRY_SIZE ->
  entry_name_char fs i j = Ok (at_ (entry_bytes fs i) j).
Proof using L.
  intros Hi Hj. unfold entry_name_char. rewrite at_entry_bytes by done.
  apply img_byte_ok; [apply L|by apply entry_in_image].
Qed.

Lemma mapM_ok {A B} (f : A -> outcome B) (g : A -> B) (l : list A) :
  (forall x, x ∈ l -> f x = Ok (g x)) -> mapM f l = Ok (map g l).
Proof using Type.
  induction l as [|x l IH]; intros Hf; [done|]. simpl.
  rewrite (Hf x) by left. simpl. by rewrite IH by (intros; apply Hf; by right).
Qed.

Lemma entry_name_ok i : 0 <= i < MAX_ENTRIES -> entry_name fs i = Ok (entry_bytes fs i).
Proof using L.
  intros Hi. unfold entry_name, entry_bytes. apply mapM_ok. intros j Hj%elem_of_seqZ.
  rewrite entry_name_char_ok by (done || lia). by rewrite at_entry_bytes by lia.
Qed.

Lemma entry_bytes_bytes i : 0 <= i < MAX_ENTRIES -> Forall byte (entry_bytes fs i).
Proof using L.
  intros Hi. unfold entry_bytes. apply Forall_fmap, Forall_forall.
  intros j Hj%elem_of_seqZ. simpl. apply img_at_byte; [apply L|apply entry_in_image; lia].
Qed.

Lemma entry_text_length i : (length (entry_text fs i) <= 32)%nat.
Proof using Type.
  unfold entry_text. etransitivity; [apply length_cstr|]. rewrite length_take. lia.
Qed.

Lemma at_entry_text i j : 0 <= j < zlen (entry_text fs i) ->
  at_ (entry_text fs i) j = at_ (entry_bytes fs i) j /\ at_ (entry_bytes fs i) j <> 0.
Proof using Type.
  intros Hj. pose proof (entry_text_length i). unfold entry_text in *.
  rewrite at_cstr by done. pose proof (cstr_nonzero _ j Hj) as Hnz.
  rewrite at_take in Hnz by lia. by rewrite at_take by lia.
Qed.

Lemma count_name_ok i : 0 <= i < MAX_ENTRIES -> count_name fs i = Ok (zlen (entry_text fs i)).
Proof using L.
  intros Hi. pose proof (entry_text_length i) as Hl. apply wp_eq. unfold count_name.
  apply (wp_loop (fun n => 0 <= n <= zlen (entry_text fs i))
           (fun n => Z.to_nat (zlen (entry_text fs i) - n))); [lia|lia|].
  intros n Hn. wp_step. rewrite entry_name_char_ok by (unfold DENTRY_SIZE; lia). do 2 wp_step.
  assert (Hnx : n < 32 -> (at_ (entry_bytes fs i) n = 0 <-> n = zlen (entry_text fs i))).
  { intros Hlt. pose proof (cstr_next (take 32 (entry_bytes fs i)) n Hn) as Hc.
    rewrite at_take, length_take, entry_bytes_length in Hc by lia. apply Hc.
    unfold DENTRY_SIZE. lia. }
  unfold MAX_NAME_CHARACTERS. case_decide; [|naive_solver lia]. naive_solver lia.
Qed.
End directory.

(** * Lookup by name *)

(** The word the caller gives: up to a space, a NUL or 32 characters. *)
Fixpoint cut_word (s : list Z) : list Z :=
  match s with
  | [] => []
  | c :: s' => if decide (c = 32 \/ c = 0) then [] else c :: cut_word s'
  end.
Definition given_word (fname : list Z) : list Z := take 32 (cut_word fname).

(** The first entry with that name. *)
Definition first_entry (fs : fs_state) (w : list Z) : option Z :=
  snd <$> list_find (fun i => entry_text fs i = w) (seqZ 0 MAX_ENTRIES).

(** [dentry] after the fields of entry [i] were copied into it: the name is
    copied without a terminating NUL. *)
Definition filled_dentry (fs : fs_state) (i : Z) (dentry : dentry_t) : dentry_t :=
  mkDentry (entry_text fs i ++ drop (length (entry_text fs i)) (file_name dentry))
           (type_of fs i) (inode_of fs i).

Lemma cut_word_at s j : 0 <= j < zlen (cut_word s) ->
  at_ (cut_word s) j = at_ s j /\ at_ s j <> 32 /\ at_ s j <> 0.
Proof.
  revert j. induction s as [|c s IH]; simpl; intros j Hj; [lia|].
  case_decide as Hc; simpl in *; [lia|]. rewrite !at_cons by lia. case_decide; [naive_solver|].
  apply IH. lia.
Qed.

Lemma cut_word_stop s : zlen (cut_word s) < zlen s ->
  at_ s (zlen (cut_word s)) = 32 \/ at_ s (zlen (cut_word s)) = 0.
Proof.
  induction s as [|c s IH]; simpl; intros Hl; [lia|].
  case_decide as Hc; simpl in *; [done|]. rewrite at_cons by lia. rewrite decide_False by lia.
  replace (Z.of_nat (Datatypes.S (length (cut_word s))) - 1) with (zlen (cut_word s)) by lia.
  apply IH. lia.
Qed.

Lemma given_name_length_ok fname :
  zlen (given_word fname) < zlen fname ->
  given_name_length fname = Ok (zlen (given_word fname)).
Proof.
  intros Hl. unfold given_word in *. rewrite length_take in *.
  set (k := zlen (cut_word fname)). apply wp_eq. unfold given_name_length.
  apply (wp_loop (fun n => 0 <= n <= Z.min 32 k) (fun n => Z.to_nat (32 - n))); [lia|lia|].
  intros n Hn. wp_step. rewrite rd_ok by lia. do 2 wp_step. unfold MAX_NAME_CHARACTERS.
  case_decide as Hd.
  - split; [|lia]. destruct (decide (n = k)) as [->|]; [|lia].
    destruct (cut_word_stop fname); unfold k in *; [lia|naive_solver|naive_solver].
  - destruct (decide (n < k)); [|lia]. destruct (cut_word_at fname n) as (_ & H1 & H2); [lia|].
    destruct (decide (n < 32)); [naive_solver|lia].
Qed.

Lemma cstr_take n s : cstr (take n s) = take n (cstr s).
Proof.
  revert n. induction s as [|c s IH]; intros [|n]; simpl; try done.
  case_decide; [done|]. simpl. by rewrite IH.
Qed.

Section lookup.
Variable fs : fs_state.
Hypothesis W : fs_wf fs.

Lemma entry_text_take i : take (length (entry_text fs i)) (cstr (entry_bytes fs i)) = entry_text fs i.
Proof using Type.
  unfold entry_text. rewrite cstr_take. rewrite length_take.
  destruct (decide (length (cstr (entry_bytes fs i)) <= 32)%nat).
  - rewrite Nat.min_r by lia. by rewrite !take_ge by lia.
  - by rewrite Nat.min_l by lia.
Qed.

Lemma copy_name i dname :
  0 <= i < MAX_ENTRIES -> zlen (entry_text fs i) <= zlen dname -> zlen dname < 2 ^ 31 ->
  strncpy dname (entry_bytes fs i) (zlen (entry_text fs i))
  = Ok (entry_text fs i ++ drop (length (entry_text fs i)) dname).
Proof using Type.
  intros Hi Hd Hd2. pose proof (entry_text_length fs i) as Hl.
  rewrite strncpy_spec.
  - unfold strncpy_result. rewrite Nat2Z.id, entry_text_take. by rewrite Nat.sub_diag.
  - right. rewrite entry_bytes_length. unfold DENTRY_SIZE. lia.
  - lia.
  - done.
Qed.

Lemma same_name fname i :
  length (given_word fname) = length (entry_text fs i) ->
  same_prefix (zlen (entry_text fs i)) fname (entry_bytes fs i)
  <-> entry_text fs i = given_word fname.
Proof using Type.
  intros Hl.
  assert (Hw : forall j, 0 <= j < zlen (entry_text fs i) ->
            at_ (given_word fname) j = at_ fname j /\ at_ fname j <> 0).
  { intros j Hj. unfold given_word in *. rewrite length_take in Hl.
    destruct (cut_word_at fname j) as (H1 & _ & H2); [lia|].
    by rewrite at_take, H1 by lia. }
  split.
  - intros HS. apply at_ext; [done|]. intros j Hj. destruct (at_entry_text fs i j Hj) as [-> _].
    destruct (Hw j Hj) as [-> _]. symmetry. apply HS; [lia|]. intros k Hk. apply Hw. lia.
  - intros HE j Hj _. destruct (at_entry_text fs i j Hj) as [<- _].
    destruct (Hw j Hj) as [<- _]. by rewrite HE.
Qed.

Lemma dentry_words i : 0 <= i < MAX_ENTRIES ->
  entry_file_type fs i = Ok (type_of fs i) /\ entry_inode_idx fs i = Ok (inode_of fs i).
Proof using W.
  intros Hi. pose proof (entry_in_image fs (wf_layout fs W) i) as HI.
  unfold DENTRY_SIZE in HI. pose proof (HI 32 Hi ltac:(lia)).
  pose proof (HI 36 Hi ltac:(lia)). pose proof (HI 63 Hi ltac:(lia)).
  split; (apply img_word_ok; [apply W| |]); unfold DENTRY_SIZE; lia.
Qed.

(** read_dentry_by_name finds the first entry whose name is the given word
    and fills [dentry] from it; with no such entry, or an empty word, it
    returns -1 and leaves [dentry] alone. *)
Lemma read_dentry_by_name_spec fname dentry :
  Forall byte fname -> zlen (given_word fname) < zlen fname < 2 ^ 31 ->
  length (file_name dentry) = 32%nat ->
  read_dentry_by_name fs fname dentry = Ok (
    if decide (given_word fname = []) then (-1, dentry)
    else match first_entry fs (given_word fname) with
         | Some i => (0, filled_dentry fs i dentry)
         | None => (-1, dentry)
         end).
Proof using W.
  intros HB Hf Hd. unfold read_dentry_by_name. rewrite given_name_length_ok by lia. simpl.
  assert (Hg32 : zlen (given_word fname) <= 32)
    by (unfold given_word; rewrite length_take; lia).
  destruct (given_word fname) as [|c w0] eqn:Ew; [done|].
  rewrite decide_False by (simpl; lia). rewrite (decide_False (P := c :: w0 = [])) by done.
  rewrite <- Ew in *. clear Ew c w0. set (w := given_word fname) in *.
  rewrite decide_False by (unfold MAX_NAME_CHARACTERS; lia).
  apply wp_eq. apply (wp_loop (fun i => 0 <= i <= MAX_ENTRIES /\
      forall j, 0 <= j < i -> entry_text fs j <> w) (fun i => Z.to_nat (MAX_ENTRIES - i))).
  { unfold MAX_ENTRIES. split; [lia|]. intros; lia. }
  { unfold MAX_ENTRIES. lia. }
  intros i [Hi Hprev]. wp_step.
  2: { wp_step. unfold first_entry.
    destruct (list_find _ _) as [[k x]|] eqn:E; [|done]. exfalso.
    apply list_find_Some in E as (E1 & E2 & _).
    apply lookup_seqZ in E1. apply (Hprev x); [lia|done]. }
  assert (Hi' : 0 <= i < MAX_ENTRIES) by lia.
  assert (Hskip : entry_text fs i <> w -> wp (mret (inl (i + 1)) : outcome (Z + (Z * dentry_t)))
    (fun r => match r with
      | inl s' => (0 <= s' <= MAX_ENTRIES /\ forall j, 0 <= j < s' -> entry_text fs j <> w) /\
          (Z.to_nat (MAX_ENTRIES - s') < Z.to_nat (MAX_ENTRIES - i))%nat
      | inr r => r = match first_entry fs w with
           | Some i => (0, filled_dentry fs i dentry) | None => (-1, dentry) end end)).
  { intros Hne. wp_step. split; [|lia]. split; [lia|]. intros j Hj.
    destruct (decide (j = i)) as [->|]; [done|]. apply Hprev. lia. }
  pose proof (entry_text_length fs i) as Hl.
  assert (Hfound : entry_text fs i = w -> first_entry fs w = Some i).
  { intros HE. unfold first_entry.
    assert (E : list_find (fun i => entry_text fs i = w) (seqZ 0 MAX_ENTRIES) = Some (Z.to_nat i, i)).
    { apply list_find_Some. split; [apply lookup_seqZ; lia|]. split; [done|].
      intros k y Hk Hlt. apply lookup_seqZ in Hk. apply Hprev. lia. }
    by rewrite E. }
  wp_step. rewrite rd_ok by (rewrite (wf_cc_len fs W); unfold MAX_ENTRIES in *; lia).
  rewrite (wf_cc fs W) by done. wp_step. wp_step; [|apply Hskip; congruence].
  rewrite entry_name_ok by (done || apply W). do 2 wp_step. wp_step.
  rewrite u32_id by lia. eapply wp_mono.
  { apply strncmp_spec; try done; try lia.
    - apply entry_bytes_bytes; [apply W|done].
    - right. unfold w in *. lia.
    - right. rewrite entry_bytes_length. unfold DENTRY_SIZE. lia. }
  intros r Hr. cbv beta in Hr. rewrite (same_name fname i) in Hr by (fold w; lia). fold w in Hr.
  wp_step; [|apply Hskip; naive_solver].
  rewrite copy_name by (done || lia). destruct (dentry_words i Hi') as [-> ->].
  do 7 wp_step. rewrite Hfound by naive_solver. done.
Qed.

(** read_dentry_by_index below 63 fills the dentry with the entry's name,
    type and inode and returns 0. *)
Lemma read_dentry_by_index_spec index dentry :
  0 <= index < MAX_ENTRIES -> length (file_name dentry) = 32%nat ->
  read_dentry_by_index fs index dentry = Ok (0, filled_dentry fs index dentry).
Proof using W.
  intros Hi Hd. pose proof (entry_text_length fs index) as Hl. unfold read_dentry_by_index.
  rewrite decide_False by lia.
  rewrite rd_ok by (rewrite (wf_cc_len fs W); unfold MAX_ENTRIES in *; lia).
  rewrite (wf_cc fs W) by done. simpl. rewrite entry_name_ok by (done || apply W). simpl.
  rewrite u32_id, copy_name by (done || lia).
  by destruct (dentry_words index Hi) as [-> ->].
Qed.

(** ... and outside it: 63 passes the bound check and overruns the length
    table. *)
(** C30: The bound check of read_dentry_by_index is off by one: index 63
    passes it and reads character_count past its end, only larger indices
    return -1. *)
Lemma read_dentry_by_index_beyond index dentry :
  MAX_ENTRIES <= index ->
  read_dentry_by_index fs index dentry =
  if decide (index = MAX_ENTRIES) then Fault else Ok (-1, dentry).
Proof using W.
  intros Hi. unfold read_dentry_by_index. case_decide; case_decide; try lia; [done|].
  rewrite rd_fault; [done|]. rewrite (wf_cc_len fs W). unfold MAX_ENTRIES in *. lia.
Qed.
End lookup.

(** * Loading an image *)
Lemma create_char_count_ok fs :
  layout fs -> length (character_count fs) = Z.to_nat MAX_ENTRIES ->
  wp (create_char_count fs) (fun fs' => exists cc, fs' = set_character_count cc fs /\
    length cc = Z.to_nat MAX_ENTRIES /\
    forall i, 0 <= i < MAX_ENTRIES -> at_ cc i = zlen (entry_text fs i)).
Proof.
  intros L Hcc. unfold create_char_count.
  apply (wp_loop (fun '(i, fs') => 0 <= i <= MAX_ENTRIES /\ exists cc, fs' = set_character_count cc fs /\
      length cc = Z.to_nat MAX_ENTRIES /\ forall j, 0 <= j < i -> at_ cc j = zlen (entry_text fs j))
    (fun '(i, _) => Z.to_nat (MAX_ENTRIES - i))).
  - split; [unfold MAX_ENTRIES; lia|]. exists (character_count fs). destruct fs.
    split; [done|]. split; [done|]. intros; lia.
  - unfold MAX_ENTRIES. lia.
  - intros [i fs'] [Hi (cc & -> & Hl & Hat)]. wp_step.
    + apply wp_bind. change (count_name (set_character_count cc fs) i) with (count_name fs i).
      rewrite count_name_ok by (done || lia). do 2 wp_step. simpl character_count.
      rewrite wr_ok by lia. do 2 wp_step. split; [|lia]. split; [lia|].
      eexists. split; [done|]. split; [by rewrite length_upd|].
      intros j Hj. rewrite at_upd by lia. case_decide; [by subst|]. apply Hat. lia.
    + wp_step. exists cc. split; [done|]. split; [done|]. intros j Hj. apply Hat. lia.
Qed.

Lemma filesystem_init_ok img :
  image_wf img ->
  wp (filesystem_init_overlay img) (fun fs => fs_wf fs /\ image fs = img /\
    num_entries fs = word_at img 0 /\ num_inodes fs = word_at img 4 /\
    num_data_blocks fs = word_at img 8).
Proof.
  intros [OK Hlen He Hs Hb].
  assert (H1 : 1 <= zlen img).
  { destruct img; [|simpl; lia]. exfalso. vm_compute in Hlen. done. }
  assert (Hw : forall a, 0 <= a <= 8 -> img_word img a = Ok (word_at img a) /\ uint32 (word_at img a)).
  { intros a Ha. split; [apply img_word_ok|apply word_at_range]; unfold BLOCK; done || lia. }
  unfold filesystem_init_overlay.
  destruct (Hw 0 ltac:(lia)) as [E0 U0]. destruct (Hw 4 ltac:(lia)) as [E4 U4].
  destruct (Hw 8 ltac:(lia)) as [E8 U8]. unfold uint32 in *.
  cbv zeta. change (0 + 4) with 4. change (0 + 8) with 8.
  rewrite E0. cbn [mbind outcome_bind]. rewrite E4. cbn [mbind outcome_bind].
  rewrite E8. cbn [mbind outcome_bind].
  eapply wp_mono; [apply create_char_count_ok; [|done]|].
  - constructor; simpl; unfold BLOCK, INODE_OFFSET in *; try done; lia.
  - intros fs (cc & -> & Hl & Hat). split; [|done].
    assert (Hk1 : forall k, BLOCK * INODE_OFFSET + BLOCK * k = BLOCK * (1 + k))
      by (intros; unfold INODE_OFFSET; lia).
    constructor; simpl.
    + constructor; simpl; unfold BLOCK, INODE_OFFSET in *; try done; lia.
    + lia.
    + done.
    + done.
    + intros k Hk. change (word_at img (BLOCK * INODE_OFFSET + BLOCK * k) <= BLOCK * MAX_INODE_DATA_BLOCKS).
      rewrite Hk1. by apply Hs.
    + intros k j Hk Hj. change (BLOCK * j < word_at img (BLOCK * INODE_OFFSET + BLOCK * k) ->
        word_at img (BLOCK * INODE_OFFSET + BLOCK * k + 4 + 4 * j) < word_at img 8).
      rewrite Hk1. by apply Hb.
Qed.

(** * Reading file data *)
Section read_data.
Variable fs : fs_state.
Hypothesis W : fs_wf fs.

Lemma layout_eqs : inodes fs = 4096 /\ data_blocks fs = 4096 + 4096 * num_inodes fs /\
  zlen (image fs) = 1 + num_inodes fs + num_data_blocks fs /\
  0 <= num_inodes fs /\ 0 <= num_data_blocks fs.
Proof using W. destruct (wf_layout fs W) as [_ _ _ Hi Hd [? ?] Hl]. rewrite Hd, Hi. done. Qed.

Lemma copy_block_ok b endb chars curr buf :
  0 <= b -> 0 <= curr -> 0 <= endb <= BLOCK ->
  (curr < endb -> b < num_data_blocks fs) ->
  0 <= chars -> chars + Z.max 0 (endb - curr) <= zlen buf -> zlen buf < 2 ^ 32 ->
  wp (copy_block fs b endb chars curr buf) (fun '(ch, buf') =>
    ch = chars + Z.max 0 (endb - curr) /\ length buf' = length buf /\
    forall j, 0 <= j < zlen buf -> at_ buf' j =
      if decide (chars <= j < ch)
      then img_at (image fs) (data_blocks fs + BLOCK * b + (curr + (j - chars)))
      else at_ buf j).
Proof using W.
  intros Hb Hcurr Hend Hvalid Hch Hcap Hbuf. unfold copy_block.
  apply (wp_loop (fun '(ch, cu, buf') => ch - chars = cu - curr /\ curr <= cu <= Z.max curr endb /\
      length buf' = length buf /\ forall j, 0 <= j < zlen buf -> at_ buf' j =
        if decide (chars <= j < ch)
        then img_at (image fs) (data_blocks fs + BLOCK * b + (curr + (j - chars)))
        else at_ buf j)
    (fun '(_, cu, _) => Z.to_nat (endb - cu))).
  - split; [lia|]. split; [lia|]. split; [done|]. intros j Hj. by case_decide; [lia|].
  - unfold BLOCK, MAX_CHARS_IN_DATA in *. lia.
  - intros [[ch cu] buf'] (Hd & Hcu & Hl & Hat). wp_step.
    + wp_step. unfold data_block_byte. rewrite img_byte_ok.
      * wp_step. wp_step. rewrite wr_ok by lia. do 2 wp_step. unfold BLOCK in *.
        rewrite !u32_id by lia. rewrite length_upd.
        split; [|lia]. split; [lia|]. split; [lia|]. split; [done|].
        intros j Hj. rewrite at_upd, Hat by lia.
        repeat (case_decide; try lia); [|done..]. f_equal. lia.
      * apply W.
      * pose proof layout_eqs. unfold BLOCK in *. lia.
    + wp_step. split; [lia|]. split; [done|]. intros j Hj. rewrite Hat by lia.
      repeat (case_decide; try lia); done.
Qed.

(** How many bytes a read of [len] bytes at [off] gives: up to the end of
    the file; [off + len] wraps at 2^32. *)
Definition read_count (inode off len : Z) : Z :=
  Z.max 0 (Z.min (u32 (off + len)) (size_of fs inode) - off).

Lemma inode_words inode j :
  0 <= inode < num_inodes fs -> 0 <= j <= MAX_INODE_DATA_BLOCKS -> 0 < num_data_blocks fs ->
  inode_datablock_idx fs inode j = Ok (block_of fs inode j) /\ 0 <= block_of fs inode j.
Proof using W.
  intros Hi Hj HD. unfold inode_datablock_idx, block_of.
  assert (Ha : 0 <= inodes fs + BLOCK * inode + 4 + 4 * j /\
               inodes fs + BLOCK * inode + 4 + 4 * j + 3 < BLOCK * zlen (image fs)).
  { pose proof layout_eqs. unfold BLOCK, MAX_INODE_DATA_BLOCKS in *. lia. }
  split; [apply img_word_ok; [apply W|lia..]|].
  apply word_at_range; [apply W|lia..].
Qed.

Lemma inode_size inode :
  0 <= inode < num_inodes fs ->
  inode_file_size fs inode = Ok (size_of fs inode) /\ 0 <= size_of fs inode.
Proof using W.
  intros Hi. unfold inode_file_size, size_of.
  assert (Ha : 0 <= inodes fs + BLOCK * inode /\
               inodes fs + BLOCK * inode + 3 < BLOCK * zlen (image fs)).
  { pose proof layout_eqs. unfold BLOCK in *. lia. }
  split; [apply img_word_ok; [apply W|lia..]|].
  apply word_at_range; [apply W|lia..].
Qed.

Lemma has_blocks inode :
  0 <= inode < num_inodes fs -> 0 < size_of fs inode -> 0 < num_data_blocks fs.
Proof using W.
  intros Hi Hs. pose proof (wf_blocks fs W inode 0 Hi ltac:(lia) ltac:(lia)).
  assert (Ha : uint32 (block_of fs inode 0)).
  { pose proof layout_eqs. apply word_at_range; [apply W|unfold BLOCK in *; lia..]. }
  unfold uint32 in Ha. lia.
Qed.

Lemma contents_bytes inode : 0 <= inode < num_inodes fs -> Forall byte (contents fs inode).
Proof using W.
  intros Hi. unfold contents. apply Forall_fmap, Forall_forall. intros q Hq%elem_of_seqZ. simpl.
  pose proof (has_blocks inode Hi ltac:(lia)) as HD.
  pose proof (wf_size fs W inode Hi) as Hs.
  pose proof (Z.div_mod q 4096). pose proof (Z.mod_pos_bound q 4096).
  unfold BLOCK, MAX_INODE_DATA_BLOCKS in *.
  destruct (inode_words inode (q / 4096) Hi) as [_ Hb0];
    [unfold MAX_INODE_DATA_BLOCKS; lia|done|].
  pose proof (wf_blocks fs W inode (q / 4096) Hi ltac:(lia)) as Hb. unfold BLOCK in Hb.
  specialize (Hb ltac:(lia)). pose proof layout_eqs.
  unfold file_byte, BLOCK. apply img_at_byte; [apply W|]. unfold BLOCK. lia.
Qed.

Lemma contents_length inode : length (contents fs inode) = Z.to_nat (size_of fs inode).
Proof using Type. unfold contents. by rewrite length_map, length_seqZ. Qed.

Lemma at_contents inode p : 0 <= p < size_of fs inode ->
  at_ (contents fs inode) p = file_byte fs inode p.
Proof using Type.
  intros Hp. unfold contents, at_. apply list_lookup_total_correct.
  rewrite list_lookup_fmap, lookup_seqZ_lt by lia. simpl. do 2 f_equal. lia.
Qed.

Lemma read_result inode off buf n b :
  0 <= off -> 0 <= n -> off + n <= size_of fs inode -> n <= zlen buf ->
  length b = length buf ->
  (forall j, 0 <= j < zlen buf ->
     at_ b j = if decide (j < n) then file_byte fs inode (off + j) else at_ buf j) ->
  b = take (Z.to_nat n) (drop (Z.to_nat off) (contents fs inode)) ++ drop (Z.to_nat n) buf.
Proof using Type.
  intros Ho Hn Hs Hb Hl Hat. pose proof (contents_length inode) as Hc. apply at_ext.
  - rewrite length_app, length_take, !length_drop, Hc. lia.
  - intros j Hj. rewrite Hat by lia. rewrite at_app by lia.
    rewrite length_take, length_drop, Hc.
    destruct (decide (j < n)).
    + rewrite decide_True by lia. rewrite at_take, at_drop, at_contents by lia. f_equal. lia.
    + rewrite decide_False by lia. rewrite at_drop by lia. f_equal. lia.
Qed.

(** *** The block loop

    [off = 4096 * st + so] is where the read starts, [E = 4096 * en + eo]
    where it ends. *)
  Section block_loop.
Variables (inode off E st so en eo : Z) (buf : list Z).
Hypothesis Hi : 0 <= inode < num_inodes fs.
Hypothesis Hoff : 0 <= off < size_of fs inode.
Hypothesis Hst : off = 4096 * st + so /\ 0 <= so < 4096.
Hypothesis Hen : E = 4096 * en + eo /\ 0 <= eo < 4096.
Hypothesis HE : 0 <= E <= size_of fs inode.
Hypothesis Hcap : Z.max 0 (E - off) <= zlen buf < 2 ^ 31.

Definition done_at (bl : Z) : Z := Z.max 0 (Z.min (4096 * bl) E - off).
Definition first_byte (bl : Z) : Z := if decide (bl = st) then so else 0.
Definition last_byte (bl : Z) : Z := if decide (bl = en) then eo else 4096.

Record block_inv (bl ch cu eb : Z) (b : list Z) : Prop := {
  bi_bl : st <= bl <= Z.max st (en + 1);
  bi_ch : ch = done_at bl;
  bi_cu : cu = first_byte bl;
  bi_eb : bl <= en -> eb = 4096;
  bi_len : length b = length buf;
  bi_at : forall j, 0 <= j < zlen buf ->
    at_ b j = if decide (j < ch) then file_byte fs inode (off + j) else at_ buf j;
}.

Lemma advance bl : st <= bl <= en ->
  done_at bl + Z.max 0 (last_byte bl - first_byte bl) = done_at (bl + 1) /\
  0 <= first_byte bl /\ 0 <= last_byte bl <= 4096 /\
  (first_byte bl < last_byte bl -> 4096 * bl < E) /\
  (forall j, done_at bl <= j < done_at (bl + 1) ->
     off + j = 4096 * bl + (first_byte bl + (j - done_at bl)) /\
     0 <= first_byte bl + (j - done_at bl) < 4096).
Proof using Hst Hen Hoff HE.
  clear Hcap Hi. intros Hbl. unfold done_at, first_byte, last_byte.
  repeat case_decide; (split; [lia|]); (split; [lia|]); (split; [lia|]);
    (split; [lia|]); intros j Hj; lia.
Qed.

Lemma file_byte_at bl j p : 0 <= p < 4096 -> off + j = 4096 * bl + p ->
  file_byte fs inode (off + j)
  = img_at (image fs) (data_blocks fs + BLOCK * block_of fs inode bl + p).
Proof using Type.
  clear. intros Hp ->. unfold file_byte, BLOCK.
  assert (Hq : (4096 * bl + p) / 4096 = bl) by (symmetry; apply (Z.div_unique _ _ _ p); lia).
  assert (Hm : (4096 * bl + p) mod 4096 = p) by (symmetry; apply (Z.mod_unique _ _ bl); lia).
  by rewrite Hq, Hm.
Qed.

(** Copying one block keeps the invariant. *)
Lemma copy_step bl ch cu eb b :
  block_inv bl ch cu eb b -> bl <= en -> block_of fs inode bl <= num_data_blocks fs ->
  0 <= block_of fs inode bl ->
  wp (copy_block fs (block_of fs inode bl) (last_byte bl) ch cu b)
    (fun '(ch', b') => block_inv (bl + 1) ch' 0 (last_byte bl) b').
Proof using W Hst Hen Hoff HE Hcap Hi.
  intros [Hbl -> -> _ Hl Hat] Hle Hblk H0.
  destruct (advance bl ltac:(lia)) as (Hadd & Hf & Hlb & Hlt & Hpos).
  assert (Hd : done_at (bl + 1) <= zlen buf) by (unfold done_at; clear -Hcap; lia).
  assert (Hd0 : 0 <= done_at bl) by (unfold done_at; clear; lia).
  eapply wp_mono.
  { apply copy_block_ok; rewrite ?Hl; [done|lia|done| |done|lia|lia].
    intros Hlt'. apply (wf_blocks fs W); [done|lia|].
    unfold BLOCK. pose proof (Hlt Hlt'). lia. }
  intros [ch' b'] (Hch1 & Hl' & Hat'). rewrite Hadd in Hch1. subst ch'.
  constructor.
  - lia.
  - done.
  - unfold first_byte. by rewrite decide_False by lia.
  - intros. unfold last_byte. by rewrite decide_False by lia.
  - congruence.
  - intros j Hj. rewrite Hat' by (rewrite Hl; lia). rewrite Hat by lia.
    destruct (decide (done_at bl <= j < done_at (bl + 1))) as [Hin|Hout].
    + rewrite decide_True by lia. destruct (Hpos j Hin) as [Hp Hp']. symmetry.
      by apply file_byte_at.
    + repeat (case_decide; try lia); done.
Qed.

Lemma block_inv_end bl ch cu eb b :
  block_inv bl ch cu eb b -> ch = Z.max 0 (E - off) ->
  b = take (Z.to_nat ch) (drop (Z.to_nat off) (contents fs inode)) ++ drop (Z.to_nat ch) buf.
Proof using Hst Hen Hoff HE Hcap.
  intros [Hbl _ _ _ Hl Hat] Hch. apply (read_result inode off); [lia..|done|done].
Qed.

Lemma block_loop_ok :
  wp (loop (Datatypes.S (Z.to_nat (en - st + 1)))
    (fun '(block_loop, chars_read, curr_byte, end_of_block_byte, buf) =>
      if decide (block_loop <= en) then
        curr_data_block ← inode_datablock_idx fs inode block_loop;
        if decide (curr_data_block > num_data_blocks fs) then
          if decide (chars_read = 0) then mret (inr (-1, buf))
          else mret (inr (i32 chars_read, buf))
        else
          let end_of_block_byte :=
            if decide (block_loop = en) then eo else end_of_block_byte in
          '(chars_read, buf) ← copy_block fs curr_data_block end_of_block_byte
                                 chars_read curr_byte buf;
          mret (inl (block_loop + 1, chars_read, 0, end_of_block_byte, buf))
      else mret (inr (i32 chars_read, buf)))
    (st, 0, so, 4096, buf))
  (fun r => let n := Z.max 0 (E - off) in
     r = (n, take (Z.to_nat n) (drop (Z.to_nat off) (contents fs inode)) ++ drop (Z.to_nat n) buf)).
Proof using W Hst Hen Hoff HE Hcap Hi.
  pose proof (wf_size fs W inode Hi) as Hmax. unfold BLOCK, MAX_INODE_DATA_BLOCKS in Hmax.
  apply (wp_loop (fun '(bl, ch, cu, eb, b) => block_inv bl ch cu eb b)
           (fun '(bl, _, _, _, _) => Z.to_nat (en + 1 - bl))).
  - constructor; try lia.
    + unfold done_at. lia.
    + unfold first_byte. by rewrite decide_True.
    + intros j Hj. by rewrite decide_False by lia.
  - lia.
  - intros [[[[bl ch] cu] eb] b] I. pose proof (bi_bl _ _ _ _ _ I) as Hbl.
    pose proof (bi_ch _ _ _ _ _ I) as Hch.
    assert (Hexit : ch = Z.max 0 (E - off) -> i32 ch = ch /\ b =
      take (Z.to_nat ch) (drop (Z.to_nat off) (contents fs inode)) ++ drop (Z.to_nat ch) buf).
    { intros Hc. split; [apply i32_id; lia|by eapply block_inv_end]. }
    unfold done_at in Hch. wp_step.
    2: { wp_step. assert (ch = Z.max 0 (E - off)) as Hc by lia.
         destruct (Hexit Hc). cbv zeta. rewrite <- Hc. congruence. }
    assert (HD : 0 < num_data_blocks fs) by (apply (has_blocks inode); [done|lia]).
    destruct (inode_words inode bl Hi) as [Ew Hb0]; [unfold MAX_INODE_DATA_BLOCKS; lia|done|].
    wp_step. rewrite Ew. wp_step. wp_step.
    { (* past the end of a file that fills its last block *)
      assert (size_of fs inode <= 4096 * bl).
      { destruct (decide (size_of fs inode <= 4096 * bl)); [done|].
        pose proof (wf_blocks fs W inode bl Hi) as Hv. unfold BLOCK in Hv. lia. }
      rewrite decide_False by lia. wp_step. assert (ch = Z.max 0 (E - off)) as Hc by lia.
      destruct (Hexit Hc). cbv zeta. rewrite <- Hc. congruence. }
    rewrite (bi_eb _ _ _ _ _ I) by done. cbv zeta. fold (last_byte bl).
    wp_step. eapply wp_mono; [apply (copy_step bl ch cu eb b); [done|done|lia|done]|].
    intros [ch' b'] I'. wp_step. split; [done|lia].
Qed.
  End block_loop.

(** read_data on a well-formed image *)
Lemma read_data_spec inode off buf len :
  0 <= inode < num_inodes fs -> uint32 off -> uint32 len ->
  read_count inode off len <= zlen buf -> zlen buf < 2 ^ 31 ->
  read_data fs inode off buf len =
    Ok (if decide (len = 0) then (0, buf) else
        (read_count inode off len,
         take (Z.to_nat (read_count inode off len)) (drop (Z.to_nat off) (contents fs inode))
         ++ drop (Z.to_nat (read_count inode off len)) buf)).
Proof using W.
  intros Hi Ho Hlen Hcap Hbuf. unfold uint32, read_count in *.
  destruct (inode_size inode Hi) as [Es Hs0]. pose proof (u32_range (off + len)) as He0.
  unfold read_data. rewrite decide_False by lia. rewrite Es. cbn [mbind outcome_bind].
  destruct (decide (off >= size_of fs inode \/ len = 0)) as [Hd|Hd].
  { destruct (decide (len = 0)); [done|].
    replace (Z.max 0 (Z.min (u32 (off + len)) (size_of fs inode) - off)) with 0 by lia. done. }
  rewrite (decide_False (P := len = 0)) by lia. cbv zeta.
  replace (if decide (u32 (off + len) > size_of fs inode) then size_of fs inode else u32 (off + len))
    with (Z.min (u32 (off + len)) (size_of fs inode)) by (case_decide; lia).
  set (E := Z.min (u32 (off + len)) (size_of fs inode)) in *.
  assert (HE : 0 <= E <= size_of fs inode) by lia. clearbody E.
  apply wp_eq. unfold MAX_CHARS_IN_DATA.
  apply (block_loop_ok inode off E (off / 4096) (off mod 4096) (E / 4096) (E mod 4096) buf);
    [done|lia| | |done|lia]; (split; [apply Z.div_mod; lia|apply Z.mod_pos_bound; lia]).
Qed.

(** An inode number past the last inode is refused. *)
Lemma read_data_bad_inode inode off buf len :
  num_inodes fs <= inode -> read_data fs inode off buf len = Ok (-1, buf).
Proof using Type. intros. unfold read_data. by rewrite decide_True by lia. Qed.
End read_data.
