(* ===== verification/Pic.v ===== *)
(** The two cascaded 8259 interrupt controllers ([student-distrib/i8259.c]):
    the mask bytes the kernel keeps and the commands it sends. *)

From S2P Require Import Prelude Hardware.

Definition MASTER_8259_PORT := 0x20.
Definition SLAVE_8259_PORT := 0xA0.
Definition MASTER_MD := MASTER_8259_PORT + 1.
Definition SLAVE_MD := SLAVE_8259_PORT + 1.
Definition ICW1 := 0x11.
Definition ICW2_MASTER := 0x20.
Definition ICW2_SLAVE := 0x28.
Definition ICW3_MASTER := 0x04.
Definition ICW3_SLAVE := 0x02.
Definition ICW4 := 0x01.
Definition EOI := 0x60.
Definition BYTE_MASK := 0xFF.
Definition SLAVE_IRQ := 2.

Record pic_state : Type := mkPic {
  master_mask : Z;   (* IRQs 0-7 *)
  slave_mask : Z;    (* IRQs 8-15 *)
  pic_io : io_state;
}.

Definition pic_out (data port : Z) (p : pic_state) : pic_state :=
  mkPic (master_mask p) (slave_mask p) (outb data port (pic_io p)).
Definition set_master (m : Z) (p : pic_state) : pic_state :=
  mkPic (u8 m) (slave_mask p) (pic_io p).
Definition set_slave (m : Z) (p : pic_state) : pic_state :=
  mkPic (master_mask p) (u8 m) (pic_io p).
Definition pic_with_io (io : io_state) (p : pic_state) : pic_state :=
  mkPic (master_mask p) (slave_mask p) io.

(** ** i8259.c: enable_irq *)
Definition enable_irq (irq_num : Z) (p : pic_state) : pic_state :=
  if decide (irq_num < 8) then
    let p := set_master (Z.land (master_mask p) (Z.lnot (Z.shiftl 1 irq_num))) p in
    pic_out (master_mask p) MASTER_MD p
  else
    let irq_num := irq_num - 8 in
    let p := set_slave (Z.land (slave_mask p) (Z.lnot (Z.shiftl 1 irq_num))) p in
    pic_out (slave_mask p) SLAVE_MD p.

(** ** i8259.c: disable_irq *)
Definition disable_irq (irq_num : Z) (p : pic_state) : pic_state :=
  if decide (irq_num < 8) then
    let p := set_master (Z.lor (master_mask p) (Z.shiftl 1 irq_num)) p in
    pic_out (master_mask p) MASTER_MD p
  else
    let irq_num := irq_num - 8 in
    let p := set_slave (Z.lor (slave_mask p) (Z.shiftl 1 irq_num)) p in
    pic_out (slave_mask p) SLAVE_MD p.

(** ** i8259.c: send_eoi *)
Definition send_eoi (irq_num : Z) (io : io_state) : io_state :=
  if decide (irq_num >= 8) then
    let io := outb (Z.lor EOI SLAVE_IRQ) MASTER_8259_PORT io in
    outb (Z.lor EOI (irq_num - 8)) SLAVE_8259_PORT io
  else outb (Z.lor EOI irq_num) MASTER_8259_PORT io.

(** ** i8259.c: i8259_init *)
Definition i8259_init (p : pic_state) : pic_state :=
  let '(flags, io) := cli_and_save (pic_io p) in
  let p := pic_with_io io p in
  let p := pic_out ICW1 MASTER_8259_PORT p in
  let p := pic_out ICW2_MASTER MASTER_MD p in
  let p := pic_out ICW3_MASTER MASTER_MD p in
  let p := pic_out ICW4 MASTER_MD p in
  let p := pic_out ICW1 SLAVE_8259_PORT p in
  let p := pic_out ICW2_SLAVE SLAVE_MD p in
  let p := pic_out ICW3_SLAVE SLAVE_MD p in
  let p := pic_out ICW4 SLAVE_MD p in
  let p := set_slave BYTE_MASK (set_master BYTE_MASK p) in
  let p := pic_out BYTE_MASK MASTER_MD p in
  let p := pic_out BYTE_MASK SLAVE_MD p in
  let p := enable_irq SLAVE_IRQ p in
  pic_with_io (restore_flags flags (pic_io p)) p.

(** * What the controllers hold *)

(** The last byte written to a port. *)
Fixpoint last_out (port : Z) (trace : list io_event) : option Z :=
  match trace with
  | [] => None
  | Out d p _ :: t => if decide (p = port) then Some d else last_out port t
  | In _ _ _ :: t => last_out port t
  end.

(** The mask registers of the chips hold the kernel's mask bytes. *)
Definition masks_synced (p : pic_state) : Prop :=
  last_out MASTER_MD (io_trace (pic_io p)) = Some (master_mask p) /\
  last_out SLAVE_MD (io_trace (pic_io p)) = Some (slave_mask p).

(** IRQ line [n] of the pair is unmasked. *)
Definition irq_on (p : pic_state) (n : Z) : bool :=
  if decide (n < 8) then negb (Z.testbit (master_mask p) n)
  else negb (Z.testbit (slave_mask p) (n - 8)).

Lemma u8_testbit m i : 0 <= i < 8 -> Z.testbit (u8 m) i = Z.testbit m i.
Proof. intros. unfold u8. by rewrite Z.mod_pow2_bits_low by lia. Qed.

Lemma bit_test i j : 0 <= i -> 0 <= j -> Z.testbit (Z.shiftl 1 i) j = bool_decide (i = j).
Proof.
  intros. rewrite Z.shiftl_1_l. case_bool_decide.
  - subst. by apply Z.pow2_bits_true.
  - by apply Z.pow2_bits_false.
Qed.

(** enable_irq unmasks the line it is given and leaves the fifteen others
    as they were. *)
Lemma enable_irq_on p i n :
  0 <= i < 16 -> 0 <= n < 16 ->
  irq_on (enable_irq i p) n = if decide (n = i) then true else irq_on p n.
Proof.
  intros Hi Hn. unfold irq_on, enable_irq, pic_out, set_master, set_slave.
  repeat case_decide; simpl; try lia; subst;
    try rewrite u8_testbit by lia;
    try (rewrite Z.land_spec, Z.lnot_spec, bit_test by lia);
    try (rewrite bool_decide_eq_true_2 by lia);
    try (rewrite bool_decide_eq_false_2 by lia); simpl;
    by rewrite ?andb_false_r, ?andb_true_r.
Qed.

Lemma disable_irq_on p i n :
  0 <= i < 16 -> 0 <= n < 16 ->
  irq_on (disable_irq i p) n = if decide (n = i) then false else irq_on p n.
Proof.
  intros Hi Hn. unfold irq_on, disable_irq, pic_out, set_master, set_slave.
  repeat case_decide; simpl; try lia; subst;
    try rewrite u8_testbit by lia;
    try (rewrite Z.lor_spec, bit_test by lia);
    try (rewrite bool_decide_eq_true_2 by lia);
    try (rewrite bool_decide_eq_false_2 by lia); simpl;
    by rewrite ?orb_true_r, ?orb_false_r.
Qed.

Lemma enable_irq_synced i p : masks_synced p -> masks_synced (enable_irq i p).
Proof.
  unfold masks_synced, enable_irq, pic_out, set_master, set_slave, outb. intros [H1 H2].
  case_decide; simpl; rewrite ?u8_idem; split; try done.
Qed.
Lemma disable_irq_synced i p : masks_synced p -> masks_synced (disable_irq i p).
Proof.
  unfold masks_synced, disable_irq, pic_out, set_master, set_slave, outb. intros [H1 H2].
  case_decide; simpl; rewrite ?u8_idem; split; try done.
Qed.

(** C35: i8259_init leaves every interrupt line but the cascade masked, with
    the two mask registers holding what the variables say and the interrupt
    flag as it was. *)
Lemma i8259_init_spec p :
  let p' := i8259_init p in
  masks_synced p' /\ if_flag (pic_io p') = if_flag (pic_io p) /\
  forall n, 0 <= n < 16 -> irq_on p' n = bool_decide (n = SLAVE_IRQ).
Proof.
  cbv zeta. split; [done|]. split; [done|]. intros n Hn.
  assert (Hall : forallb (fun n => Bool.eqb (irq_on (i8259_init p) n) (bool_decide (n = SLAVE_IRQ)))
                   (seqZ 0 16) = true) by (vm_compute; reflexivity).
  rewrite forallb_forall in Hall. apply Bool.eqb_prop, Hall.
  apply list_elem_of_In, elem_of_seqZ. lia.
Qed.

(** An EOI command names one of eight interrupt levels. *)
Lemma eoi_level k : 0 <= k < 8 -> u8 (Z.lor EOI k) = 0x60 + k.
Proof.
  intros. unfold EOI. rewrite (lor_add 0x60 k 5) by (done || lia). apply u8_id. lia.
Qed.

(** send_eoi names the interrupt to the chip that raised it, and the cascade
    line to the master when that chip is the slave. *)
Lemma send_eoi_trace irq io :
  0 <= irq < 16 ->
  io_trace (send_eoi irq io) =
    (if decide (irq < 8) then [Out (0x60 + irq) MASTER_8259_PORT (if_flag io)]
     else [Out (0x60 + (irq - 8)) SLAVE_8259_PORT (if_flag io);
           Out (0x60 + SLAVE_IRQ) MASTER_8259_PORT (if_flag io)]) ++ io_trace io.
Proof.
  intros Hi. unfold send_eoi. repeat case_decide; try lia; unfold outb; simpl.
  - by rewrite (eoi_level (irq - 8)) by lia.
  - by rewrite eoi_level by lia.
Qed.
