(* ===== verification/Idt.v ===== *)
(** The interrupt descriptor table ([student-distrib/idt.c], the descriptor
    union of [x86_desc.h]): which vectors the kernel answers, and who may
    raise them. *)

From S2P Require Import Prelude.

Definition NUM_EXCEPTIONS := 32.
Definition IDT_SIZE := 256.
Definition RTC_VECTOR_NUM := 40.
Definition KBD_VECTOR_NUM := 33.
Definition PIT_VECTOR_NUM := 32.
Definition SYSCALL_VECTOR_NUM := 128.
Definition KERNEL_CS := 0x0010.

(** ** x86_desc.h: idt_desc_t *)
Record idt_desc : Type := mkDesc {
  offset_15_00 : Z;
  seg_selector : Z;
  reserved4 : Z;
  reserved3 : Z;
  reserved2 : Z;
  reserved1 : Z;
  size : Z;
  reserved0 : Z;
  dpl : Z;
  present : Z;
  offset_31_16 : Z;
}.
#[export] Instance idt_desc_inhabited : Inhabited idt_desc :=
  populate (mkDesc 0 0 0 0 0 0 0 0 0 0 0).

(** ** x86_desc.h: SET_IDT_ENTRY *)
Definition SET_IDT_ENTRY (handler : Z) (d : idt_desc) : idt_desc :=
  mkDesc (Z.land (u32 handler) 0xFFFF) (seg_selector d) (reserved4 d) (reserved3 d)
    (reserved2 d) (reserved1 d) (size d) (reserved0 d) (dpl d) (present d)
    (u16 (Z.shiftr (Z.land (u32 handler) 0xFFFF0000) 16)).

Definition set_present (v : Z) (d : idt_desc) : idt_desc :=
  mkDesc (offset_15_00 d) (seg_selector d) (reserved4 d) (reserved3 d)
    (reserved2 d) (reserved1 d) (size d) (reserved0 d) (dpl d) v (offset_31_16 d).

(** The nine field assignments of idt_init's loops. *)
Definition set_gate (present_bit : Z) (d : idt_desc) : idt_desc :=
  mkDesc (offset_15_00 d) KERNEL_CS 0 0 1 1 1 0 0 present_bit (offset_31_16 d).

Definition on_vector (v : Z) (f : idt_desc -> idt_desc) (idt : list idt_desc) : list idt_desc :=
  upd idt v (f (at_ idt v)).

Section idt.
(* Where the linker put the handlers. *)
Variable exception_addr : Z -> Z.
Variable syscall_handler_wrapper : Z.

(** ** idt.c: idt_init *)
Definition idt_init (idt : list idt_desc) : list idt_desc :=
  let idt := for_ 0 NUM_EXCEPTIONS (fun i => on_vector i (set_gate 1)) idt in
  let idt := for_ 0 NUM_EXCEPTIONS
               (fun i => on_vector i (SET_IDT_ENTRY (exception_addr i))) idt in
  let idt := for_ NUM_EXCEPTIONS IDT_SIZE
               (fun i => on_vector i (fun d => SET_IDT_ENTRY 0 (set_gate 0 d))) idt in
  on_vector SYSCALL_VECTOR_NUM (fun d =>
    SET_IDT_ENTRY syscall_handler_wrapper
      (mkDesc (offset_15_00 d) (seg_selector d) (reserved4 d) 1 (reserved2 d) (reserved1 d)
         (size d) (reserved0 d) 3 1 (offset_31_16 d))) idt.

(** * What the processor reads in a descriptor *)

Inductive gate : Type :=
| NotPresent (g : gate)
| InterruptGate (selector target privilege : Z)   (* clears IF *)
| TrapGate (selector target privilege : Z)        (* leaves IF *)
| Malformed.

Definition target_of (d : idt_desc) : Z := offset_31_16 d * 2 ^ 16 + offset_15_00 d.

Definition gate_shape (d : idt_desc) : gate :=
  if decide (reserved0 d = 0 /\ size d = 1 /\ reserved1 d = 1 /\ reserved2 d = 1 /\ reserved4 d = 0) then
    if decide (reserved3 d = 0) then InterruptGate (seg_selector d) (target_of d) (dpl d)
    else TrapGate (seg_selector d) (target_of d) (dpl d)
  else Malformed.

(** A gate that is not present may still hold something. *)
Definition gate_of (d : idt_desc) : gate :=
  if decide (present d = 0) then NotPresent (gate_shape d) else gate_shape d.

(** What the vectors should be. *)
Definition vector_spec (v : Z) : gate :=
  if decide (v < NUM_EXCEPTIONS) then InterruptGate KERNEL_CS (u32 (exception_addr v)) 0
  else if decide (v = SYSCALL_VECTOR_NUM) then TrapGate KERNEL_CS (u32 syscall_handler_wrapper) 3
  else NotPresent (InterruptGate KERNEL_CS 0 0).

Lemma length_on_vector v f idt : length (on_vector v f idt) = length idt.
Proof using Type. apply length_upd. Qed.

Lemma at_on_vector v f idt i : 0 <= v < zlen idt -> 0 <= i ->
  at_ (on_vector v f idt) i = if decide (v = i) then f (at_ idt i) else at_ idt i.
Proof using Type.
  intros. unfold on_vector. rewrite at_upd by done. by case_decide; subst.
Qed.

Lemma target_set h d : target_of (SET_IDT_ENTRY h d) = u32 h.
Proof using Type.
  unfold target_of, SET_IDT_ENTRY. cbn [offset_31_16 offset_15_00].
  change 0xFFFF with (Z.ones 16). rewrite Z.land_ones by lia.
  change 0xFFFF0000 with (Z.shiftl (Z.ones 16) 16).
  rewrite Z.shiftr_land, Z.shiftr_shiftl_l, Z.sub_diag, Z.shiftl_0_r, Z.land_ones by lia.
  pose proof (u32_range h). rewrite Z.shiftr_div_pow2 by lia.
  rewrite (Z.mod_small (u32 h / 2 ^ 16)); [|split; [apply Z.div_pos; lia|]].
  - rewrite u16_id; [pose proof (Z.div_mod (u32 h) (2 ^ 16)); lia|].
    split; [apply Z.div_pos; lia|apply Z.div_lt_upper_bound; lia].
  - apply Z.div_lt_upper_bound; lia.
Qed.

(** A loop that rewrites each vector of a range once. *)
Lemma vectors_loop lo hi (f : Z -> idt_desc -> idt_desc) idt :
  0 <= lo <= hi -> hi <= zlen idt ->
  let idt' := for_ lo hi (fun i => on_vector i (f i)) idt in
  length idt' = length idt /\
  forall i, 0 <= i -> at_ idt' i = if decide (lo <= i < hi) then f i (at_ idt i) else at_ idt i.
Proof using Type.
  intros Hlo Hhi. cbv zeta.
  pose proof (for_ind (fun j idt' => length idt' = length idt /\
    forall i, 0 <= i -> at_ idt' i = if decide (lo <= i < j) then f i (at_ idt i) else at_ idt i)
    lo hi (fun i => on_vector i (f i)) idt) as H.
  apply H; [lia| |].
  - split; [done|]. intros. by rewrite decide_False by lia.
  - intros j s Hj [Hlen Hs]. rewrite length_on_vector. split; [done|]. intros i Hi.
    rewrite at_on_vector by lia. rewrite Hs by done.
    repeat case_decide; subst; try lia; done.
Qed.

(** The table after [idt_init]. *)
Definition idt_entry (v : Z) (d : idt_desc) : idt_desc :=
  if decide (v < NUM_EXCEPTIONS) then SET_IDT_ENTRY (exception_addr v) (set_gate 1 d)
  else let d := SET_IDT_ENTRY 0 (set_gate 0 d) in
    if decide (v = SYSCALL_VECTOR_NUM) then
      SET_IDT_ENTRY syscall_handler_wrapper
        (mkDesc (offset_15_00 d) (seg_selector d) (reserved4 d) 1 (reserved2 d) (reserved1 d)
           (size d) (reserved0 d) 3 1 (offset_31_16 d))
    else d.

Lemma idt_init_at idt : length idt = Z.to_nat IDT_SIZE -> length (idt_init idt) = length idt /\
  forall v, 0 <= v < IDT_SIZE -> at_ (idt_init idt) v = idt_entry v (at_ idt v).
Proof using Type.
  unfold IDT_SIZE. intros Hlen. unfold idt_init.
  destruct (vectors_loop 0 NUM_EXCEPTIONS (fun _ => set_gate 1) idt) as [L1 A1];
    [unfold NUM_EXCEPTIONS; lia..|].
  set (i1 := for_ 0 _ _ idt) in *.
  destruct (vectors_loop 0 NUM_EXCEPTIONS (fun i => SET_IDT_ENTRY (exception_addr i)) i1)
    as [L2 A2]; [unfold NUM_EXCEPTIONS; lia..|].
  set (i2 := for_ 0 _ _ i1) in *.
  destruct (vectors_loop NUM_EXCEPTIONS IDT_SIZE (fun i d => SET_IDT_ENTRY 0 (set_gate 0 d)) i2)
    as [L3 A3]; [unfold NUM_EXCEPTIONS, IDT_SIZE; lia..|].
  set (i3 := for_ _ _ _ i2) in *. split; [rewrite length_on_vector; lia|]. intros v Hv.
  rewrite at_on_vector by (unfold SYSCALL_VECTOR_NUM; lia).
  unfold idt_entry, SYSCALL_VECTOR_NUM, NUM_EXCEPTIONS, IDT_SIZE in *. rewrite A3, A2, A1 by lia.
  repeat case_decide; try lia; done.
Qed.

(** C36: idt_init makes each exception's vector an interrupt gate of the
    kernel to its handler, makes vector 0x80 a trap gate with user privilege
    to the system-call wrapper, and every other vector a gate that is not
    present yet: an interrupt gate with the kernel's selector and privilege
    and no handler. *)
Lemma idt_init_gates idt v : length idt = Z.to_nat IDT_SIZE -> 0 <= v < IDT_SIZE ->
  gate_of (at_ (idt_init idt) v) = vector_spec v.
Proof using Type.
  intros Hlen Hv. rewrite (proj2 (idt_init_at idt Hlen)) by done. unfold idt_entry, vector_spec.
  repeat case_decide; unfold gate_of, gate_shape, SYSCALL_VECTOR_NUM, NUM_EXCEPTIONS in *; try lia;
    cbn [present reserved0 size reserved1 reserved2 reserved3 reserved4 seg_selector dpl SET_IDT_ENTRY set_gate];
    simpl; by rewrite ?target_set.
Qed.
End idt.
