(* ===== verification/Segments.v ===== *)
(** Segment descriptors ([student-distrib/x86_desc.h], [x86_desc.S]) and the
    two entries [kernel.c] fills in: the local descriptor table and the task
    state. *)

From S2P Require Import Prelude Idt.

Definition KERNEL_DS := 0x0018.
Definition USER_CS := 0x0023.
Definition USER_DS := 0x002B.
Definition KERNEL_TSS := 0x0030.
Definition KERNEL_LDT := 0x0038.
Definition TSS_SIZE := 104.

(** ** x86_desc.h: seg_desc_t *)
Record seg_desc_t : Type := mkSeg {
  seg_lim_15_00 : Z;    (* 16 bits *)
  base_15_00 : Z;       (* 16 *)
  base_23_16 : Z;       (* 8 *)
  seg_type : Z;         (* 4 *)
  seg_sys : Z;          (* 1 *)
  seg_dpl : Z;          (* 2 *)
  seg_present : Z;      (* 1 *)
  seg_lim_19_16 : Z;    (* 4 *)
  avail : Z;            (* 1 *)
  reserved : Z;         (* 1 *)
  opsize : Z;           (* 1 *)
  granularity : Z;      (* 1 *)
  base_31_24 : Z;       (* 8 *)
}.

(** The eight bytes of the packed struct, the first field lowest. *)
Definition seg_val (d : seg_desc_t) : Z :=
  seg_lim_15_00 d + base_15_00 d * 2 ^ 16 + base_23_16 d * 2 ^ 32 + seg_type d * 2 ^ 40 + seg_sys d * 2 ^ 44
  + seg_dpl d * 2 ^ 45 + seg_present d * 2 ^ 47 + seg_lim_19_16 d * 2 ^ 48 + avail d * 2 ^ 52
  + reserved d * 2 ^ 53 + opsize d * 2 ^ 54 + granularity d * 2 ^ 55 + base_31_24 d * 2 ^ 56.

(** ** x86_desc.h: SET_LDT_PARAMS, SET_TSS_PARAMS *)
Definition SET_LDT_PARAMS (addr lim : Z) (d : seg_desc_t) : seg_desc_t :=
  mkSeg (Z.land lim 0x0000FFFF) (Z.land (u32 addr) 0x0000FFFF)
    (Z.shiftr (Z.land (u32 addr) 0x00FF0000) 16) (seg_type d) (seg_sys d) (seg_dpl d) (seg_present d)
    (Z.shiftr (Z.land lim 0x000F0000) 16) (avail d) (reserved d) (opsize d) (granularity d)
    (Z.shiftr (Z.land (u32 addr) 0xFF000000) 24).
Definition SET_TSS_PARAMS (addr lim : Z) (d : seg_desc_t) : seg_desc_t :=
  mkSeg (Z.land lim 0x0000FFFF) (Z.land (u32 addr) 0x0000FFFF)
    (Z.shiftr (Z.land (u32 addr) 0x00FF0000) 16) (seg_type d) (seg_sys d) (seg_dpl d) (seg_present d)
    (Z.shiftr (Z.land lim 0x000F0000) 16) (avail d) (reserved d) (opsize d) (granularity d)
    (Z.shiftr (Z.land (u32 addr) 0xFF000000) 24).

(** ** kernel.c: the two descriptors

    [d] is the uninitialised local. *)
Definition the_ldt_desc (ldt ldt_size : Z) (d : seg_desc_t) : seg_desc_t :=
  SET_LDT_PARAMS ldt ldt_size
    (mkSeg (seg_lim_15_00 d) (base_15_00 d) (base_23_16 d) 0x2 0 0x0 1 (seg_lim_19_16 d) 0 0 1 0 (base_31_24 d)).
Definition the_tss_desc (tss tss_size : Z) (d : seg_desc_t) : seg_desc_t :=
  SET_TSS_PARAMS tss tss_size
    (mkSeg (Z.land TSS_SIZE 0x0000FFFF) (base_15_00 d) (base_23_16 d) 0x9 0 0x0 1
       (Z.land TSS_SIZE 0x000F0000) 0 0 0 0 (base_31_24 d)).

(** ** x86_desc.S: gdt, ldt_size, tss_size *)
Definition static_gdt : list Z :=
  [0; 0; 0x00CF9A000000FFFF; 0x00CF92000000FFFF; 0x00CFFA000000FFFF; 0x00CFF2000000FFFF; 0; 0].
Definition tss_desc_ptr := 6.
Definition ldt_desc_ptr := 7.
Definition ldt_size := 32 - 1.
Definition tss_size := 104 - 1.

(** The table and the registers that select from it; the LDT selector of the
    task state. *)
Record segments : Type := mkSegs {
  gdt : list Z;
  ldtr : Z;
  tr : Z;
  tss_ldt : Z;
}.

Definition construct_ldt (ldt : Z) (d : seg_desc_t) (s : segments) : segments :=
  mkSegs (upd (gdt s) ldt_desc_ptr (seg_val (the_ldt_desc ldt ldt_size d))) KERNEL_LDT (tr s) (tss_ldt s).
Definition construct_tss (tss : Z) (d : seg_desc_t) (s : segments) : segments :=
  mkSegs (upd (gdt s) tss_desc_ptr (seg_val (the_tss_desc tss tss_size d))) (ldtr s) KERNEL_TSS KERNEL_LDT.

(** * What the processor reads *)

(** A descriptor as the manual draws it. *)
Record segment : Type := mkSegment {
  sg_base : Z;
  sg_last : Z;          (* last valid offset *)
  sg_type : Z;          (* S and type *)
  sg_dpl : Z;
  sg_present : bool;
  sg_32bit : bool;
}.
#[export] Instance segment_eq_dec : EqDecision segment.
Proof. solve_decision. Defined.

Definition field (q lo width : Z) : Z := q / 2 ^ lo mod 2 ^ width.
Definition segment_of (q : Z) : segment :=
  let limit := field q 0 16 + field q 48 4 * 2 ^ 16 in
  mkSegment (field q 16 16 + field q 32 8 * 2 ^ 16 + field q 56 8 * 2 ^ 24)
    (if decide (field q 55 1 = 1) then limit * 2 ^ 12 + (2 ^ 12 - 1) else limit)
    (field q 40 5) (field q 45 2) (bool_decide (field q 47 1 = 1)) (bool_decide (field q 54 1 = 1)).
(** A selector: the index above the table bit and two privilege bits. *)
Definition selected (g : list Z) (sel : Z) : segment := segment_of (at_ g (sel / 8)).

(** All four gigabytes. *)
Definition flat (type dpl : Z) : segment := mkSegment 0 (2 ^ 32 - 1) type dpl true true.

(** * The fields of a descriptor are read back *)
Record seg_wf (d : seg_desc_t) : Prop := {
  sw_lim : 0 <= seg_lim_15_00 d < 2 ^ 16 /\ 0 <= seg_lim_19_16 d < 2 ^ 4;
  sw_base : 0 <= base_15_00 d < 2 ^ 16 /\ 0 <= base_23_16 d < 2 ^ 8 /\ 0 <= base_31_24 d < 2 ^ 8;
  sw_type : 0 <= seg_type d < 2 ^ 4 /\ 0 <= seg_sys d < 2 /\ 0 <= seg_dpl d < 2 ^ 2 /\ 0 <= seg_present d < 2;
  sw_flags : 0 <= avail d < 2 /\ 0 <= reserved d < 2 /\ 0 <= opsize d < 2 /\ 0 <= granularity d < 2;
}.

Lemma field_at q lo width hi high x low : 0 <= lo -> 0 <= width -> hi = lo + width ->
  q = high * 2 ^ hi + x * 2 ^ lo + low -> 0 <= x < 2 ^ width -> 0 <= low < 2 ^ lo -> field q lo width = x.
Proof.
  intros Hlo Hw -> -> Hx Hlow. unfold field. rewrite Z.pow_add_r by lia.
  replace (high * (2 ^ lo * 2 ^ width) + x * 2 ^ lo + low) with (low + (high * 2 ^ width + x) * 2 ^ lo) by ring.
  rewrite Z.div_add, (Z.div_small low), Z.add_0_l by lia.
  rewrite Z.add_comm, Z.mod_add by lia. by apply Z.mod_small.
Qed.

Lemma segment_seg_val d : seg_wf d ->
  segment_of (seg_val d) =
  mkSegment (base_15_00 d + base_23_16 d * 2 ^ 16 + base_31_24 d * 2 ^ 24)
    (let limit := seg_lim_15_00 d + seg_lim_19_16 d * 2 ^ 16 in
     if decide (granularity d = 1) then limit * 2 ^ 12 + (2 ^ 12 - 1) else limit)
    (seg_type d + seg_sys d * 2 ^ 4) (seg_dpl d) (bool_decide (seg_present d = 1)) (bool_decide (opsize d = 1)).
Proof.
  intros [[? ?] (? & ? & ?) (? & ? & ? & ?) (? & ? & ? & ?)]. set (q := seg_val d).
  (* the part of [q] from each bit on, and the part below *)
  set (h55 := granularity d + base_31_24 d * 2). set (h54 := opsize d + h55 * 2).
  set (h52 := avail d + (reserved d + h54 * 2) * 2). set (h48 := seg_lim_19_16 d + h52 * 2 ^ 4).
  set (h47 := seg_present d + h48 * 2). set (h45 := seg_dpl d + h47 * 2 ^ 2).
  set (h40 := seg_type d + seg_sys d * 2 ^ 4 + h45 * 2 ^ 5). set (h32 := base_23_16 d + h40 * 2 ^ 8).
  set (h16 := base_15_00 d + h32 * 2 ^ 16).
  assert (E0 : field q 0 16 = seg_lim_15_00 d) by (apply (field_at q 0 16 16 h16 _ 0); unfold q, seg_val; lia).
  assert (E16 : field q 16 16 = base_15_00 d)
    by (apply (field_at q 16 16 32 h32 _ (seg_lim_15_00 d)); unfold q, seg_val; lia).
  assert (E32 : field q 32 8 = base_23_16 d)
    by (apply (field_at q 32 8 40 h40 _ (q - h32 * 2 ^ 32)); unfold q, seg_val; lia).
  assert (E40 : field q 40 5 = seg_type d + seg_sys d * 2 ^ 4)
    by (apply (field_at q 40 5 45 h45 _ (q - h40 * 2 ^ 40)); unfold q, seg_val; lia).
  assert (E45 : field q 45 2 = seg_dpl d)
    by (apply (field_at q 45 2 47 h47 _ (q - h45 * 2 ^ 45)); unfold q, seg_val; lia).
  assert (E47 : field q 47 1 = seg_present d)
    by (apply (field_at q 47 1 48 h48 _ (q - h47 * 2 ^ 47)); unfold q, seg_val; lia).
  assert (E48 : field q 48 4 = seg_lim_19_16 d)
    by (apply (field_at q 48 4 52 h52 _ (q - h48 * 2 ^ 48)); unfold q, seg_val; lia).
  assert (E54 : field q 54 1 = opsize d)
    by (apply (field_at q 54 1 55 h55 _ (q - h54 * 2 ^ 54)); unfold q, seg_val; lia).
  assert (E55 : field q 55 1 = granularity d)
    by (apply (field_at q 55 1 56 (base_31_24 d) _ (q - h55 * 2 ^ 55)); unfold q, seg_val; lia).
  assert (E56 : field q 56 8 = base_31_24 d)
    by (apply (field_at q 56 8 64 0 _ (q - base_31_24 d * 2 ^ 56)); unfold q, seg_val; lia).
  unfold segment_of. by rewrite E0, E16, E32, E40, E45, E47, E48, E54, E55, E56.
Qed.

(** The parts of an address. *)
Lemma address_parts a : let u := u32 a in
  let p0 := Z.land u 0x0000FFFF in let p1 := Z.shiftr (Z.land u 0x00FF0000) 16 in
  let p2 := Z.shiftr (Z.land u 0xFF000000) 24 in
  (0 <= p0 < 2 ^ 16 /\ 0 <= p1 < 2 ^ 8 /\ 0 <= p2 < 2 ^ 8) /\ p0 + p1 * 2 ^ 16 + p2 * 2 ^ 24 = u.
Proof.
  cbv zeta. change 0x0000FFFF with (Z.ones 16).
  change 0x00FF0000 with (Z.shiftl (Z.ones 8) 16). change 0xFF000000 with (Z.shiftl (Z.ones 8) 24).
  rewrite !Z.shiftr_land, !Z.shiftr_shiftl_l, !Z.sub_diag, !Z.shiftl_0_r, !Z.land_ones, !Z.shiftr_div_pow2 by lia.
  pose proof (u32_range a) as Hu. set (u := u32 a) in *.
  pose proof (Z.mod_pos_bound u (2 ^ 16) ltac:(lia)). pose proof (Z.mod_pos_bound (u / 2 ^ 16) (2 ^ 8) ltac:(lia)).
  pose proof (Z.mod_pos_bound (u / 2 ^ 24) (2 ^ 8) ltac:(lia)). split; [lia|].
  assert (H24 : u / 2 ^ 24 = u / 2 ^ 16 / 2 ^ 8) by (rewrite Z.div_div by lia; f_equal; lia).
  rewrite H24 in *. Z.div_mod_to_equations. lia.
Qed.

(** * The tables of the kernel *)

(** The code and data segments are flat, with the privilege their selectors
    ask for; after [entry]'s two blocks the task register selects an available
    32-bit task state at [tss] of [TSS_SIZE] bytes and the LDT register the
    32-byte table at [ldt], whatever the two locals held. *)
Lemma segments_constructed tss ldt d d' s0 : gdt s0 = static_gdt ->
  let s := construct_tss tss d' (construct_ldt ldt d s0) in
  selected (gdt s) KERNEL_CS = flat 0x1A 0 /\ selected (gdt s) KERNEL_DS = flat 0x12 0 /\
  selected (gdt s) USER_CS = flat 0x1A 3 /\ selected (gdt s) USER_DS = flat 0x12 3 /\
  selected (gdt s) (tr s) = mkSegment (u32 tss) (TSS_SIZE - 1) 0x9 0 true false /\
  selected (gdt s) (ldtr s) = mkSegment (u32 ldt) 31 0x2 0 true true /\ tss_ldt s = ldtr s.
Proof.
  destruct s0 as [g l0 r0 tl]. cbn [gdt]. intros ->.
  destruct (address_parts tss) as ((T0 & T1 & T2) & ET). destruct (address_parts ldt) as ((L0 & L1 & L2) & EL).
  set (l := the_ldt_desc ldt ldt_size d). set (t := the_tss_desc tss tss_size d'). cbv zeta.
  split_and!; [reflexivity..| | |reflexivity].
  - change (segment_of (seg_val t) = mkSegment (u32 tss) (TSS_SIZE - 1) 0x9 0 true false).
    rewrite segment_seg_val by (unfold t; constructor; cbn -[Z.land Z.shiftr Z.pow]; lia || done).
    rewrite <- ET. reflexivity.
  - change (segment_of (seg_val l) = mkSegment (u32 ldt) 31 0x2 0 true true).
    rewrite segment_seg_val by (unfold l; constructor; cbn -[Z.land Z.shiftr Z.pow]; lia || done).
    rewrite <- EL. reflexivity.
Qed.
