(* ===== verification/Rtc.v ===== *)
(** The real-time clock of [student-distrib/rtc.c]: the periodic rate, the
    interrupt flag a reader waits on, and the time of day. *)

From S2P Require Import Prelude Hardware Pic.

Definition SELECT_REG := 0x70.
Definition CMOS_RTC_PORT := 0x71.
Definition RTC_IRQ := 8.
Definition REG_A := 0x0A.
Definition REG_B := 0x0B.
Definition REG_C := 0x0C.
Definition DISABLE_NMI := 0x80.
Definition PERIODIC := 0x40.
Definition HOUR_BIT := 0x02.
Definition BINARY_MODE_BIT := 0x04.
Definition CURRENT_YEAR := 2017.
Definition SEC_REG := 0x00.
Definition MIN_REG := 0x02.
Definition HOUR_REG := 0x04.
Definition DAY_REG := 0x07.
Definition MONTH_REG := 0x08.
Definition YEAR_REG := 0x09.
Definition NIBBLE_MASK := 0x0F.
Definition CENTURY := 100.
Definition TENS := 10.
Definition SHIFT4 := 16.
Definition DEFAULT_FREQ := 2.
Definition MAX_RATE := 6.
Definition MIN_RATE := 15.
Definition NUM_FREQ := 14.

Record time_of_day : Type := mkTime {
  second : Z; minute : Z; hour : Z; day : Z; month : Z; year : Z }.

Record rtc_state : Type := mkRtc {
  interrupt_flag : Z;
  curr_rate : Z;
  curr_frequency : Z;
  rtc_time : time_of_day;
}.

Definition frequencies : list Z :=
  [32768; 16384; 8192; 4096; 2048; 1024; 512; 256; 128; 64; 32; 16; 8; 4].

Definition set_interrupt_flag (v : Z) (r : rtc_state) : rtc_state :=
  mkRtc v (curr_rate r) (curr_frequency r) (rtc_time r).
Definition set_rate (rate freq : Z) (r : rtc_state) : rtc_state :=
  mkRtc (interrupt_flag r) rate freq (rtc_time r).
Definition set_time (t : time_of_day) (r : rtc_state) : rtc_state :=
  mkRtc (interrupt_flag r) (curr_rate r) (curr_frequency r) t.

(** ** rtc.c: set_frequency

    The rate is the position in the table plus one, kept between 6 and 15.
    [beyond] is what memory holds after the table: the table is then read at
    the rate itself. *)
Definition find_rate (frequency : Z) : outcome Z :=
  loop 15 (fun rate =>
    if decide (rate < NUM_FREQ) then
      f ← rd frequencies rate;
      mret (if decide (frequency = f) then inr rate else inl (u8 (rate + 1)))
    else mret (inr rate)) 0.

Definition clamp_rate (rate : Z) : Z :=
  let rate := u8 (rate + 1) in
  let rate := if decide (rate > MIN_RATE) then MIN_RATE else rate in
  if decide (rate < MAX_RATE) then MAX_RATE else rate.

Definition program_rate (rate : Z) (io : io_state) : io_state :=
  let '(flags, io) := cli_and_save io in
  let io := outb (Z.lor DISABLE_NMI REG_A) SELECT_REG io in
  let '(prev_data, io) := inb CMOS_RTC_PORT io in
  let io := outb (Z.lor DISABLE_NMI REG_A) SELECT_REG io in
  let io := outb (Z.lor (Z.land (i8 prev_data) 0xF0) rate) CMOS_RTC_PORT io in
  restore_flags flags io.

Definition table_at (beyond : Z -> Z) (i : Z) : Z :=
  if decide (0 <= i < NUM_FREQ) then at_ frequencies i else beyond i.

Definition set_frequency (beyond : Z -> Z) (frequency : Z) (r : rtc_state) (io : io_state)
    : outcome (rtc_state * io_state) :=
  rate ← find_rate frequency;
  let rate := clamp_rate rate in
  mret (set_rate rate (table_at beyond rate) r, program_rate rate io).

(** ** rtc.c: rtc_handler *)
Definition rtc_handler (r : rtc_state) (io : io_state) : rtc_state * io_state :=
  let io := send_eoi RTC_IRQ io in
  let r := set_interrupt_flag 1 r in
  let io := outb REG_C SELECT_REG io in
  let '(_, io) := inb CMOS_RTC_PORT io in
  (r, io).

(** ** rtc.c: get_update_flag, get_RTC_reg, update_time *)
Definition get_update_flag (io : io_state) : Z * io_state :=
  let io := outb REG_A SELECT_REG io in
  let '(v, io) := inb CMOS_RTC_PORT io in (Z.land v DISABLE_NMI, io).

Definition get_RTC_reg (reg : Z) (io : io_state) : Z * io_state :=
  inb CMOS_RTC_PORT (outb reg SELECT_REG io).

Definition update_time (io : io_state) : time_of_day * io_state :=
  let '(s, io) := get_RTC_reg SEC_REG io in
  let '(mi, io) := get_RTC_reg MIN_REG io in
  let '(h, io) := get_RTC_reg HOUR_REG io in
  let '(d, io) := get_RTC_reg DAY_REG io in
  let '(mo, io) := get_RTC_reg MONTH_REG io in
  let '(y, io) := get_RTC_reg YEAR_REG io in
  (mkTime s mi h d mo y, io).

(** ** rtc.c: binary_to_real_time

    [fuel] bounds the reads of the update flag and the re-reads of the
    registers; [last] is what the uninitialised [last_*] variables hold. *)
Definition wait_update (fuel : nat) (io : io_state) : outcome io_state :=
  loop fuel (fun io =>
    let '(v, io) := get_update_flag io in
    Ok (if decide (v <> 0) then inl io else inr io)) io.

Definition same_time (a b : time_of_day) : Prop :=
  second a = second b /\ minute a = minute b /\ hour a = hour b /\
  day a = day b /\ month a = month b /\ year a = year b.
#[export] Instance same_time_dec a b : Decision (same_time a b).
Proof. unfold same_time. solve_decision. Defined.

Definition from_bcd (v : Z) : Z := Z.land v NIBBLE_MASK + v / SHIFT4 * TENS.

Definition decode_bcd (t : time_of_day) : time_of_day :=
  mkTime (u8 (from_bcd (second t))) (u8 (from_bcd (minute t)))
    (u8 (Z.lor (Z.land (hour t) NIBBLE_MASK + Z.land (hour t) 0x70 / SHIFT4 * TENS)
               (Z.land (hour t) 0x80)))
    (u8 (from_bcd (day t))) (u8 (from_bcd (month t))) (u32 (from_bcd (year t))).

Definition to_24_hours (registerB : Z) (t : time_of_day) : time_of_day :=
  if decide (Z.land registerB HOUR_BIT = 0 /\ Z.land (hour t) 0x80 <> 0) then
    mkTime (second t) (minute t) (u8 ((Z.land (hour t) 0x7F + 12) mod 24))
           (day t) (month t) (year t)
  else t.

Definition full_year (t : time_of_day) : time_of_day :=
  let y := u32 (year t + CURRENT_YEAR / CENTURY * CENTURY) in
  let y := if decide (y < CURRENT_YEAR) then u32 (y + CENTURY) else y in
  mkTime (second t) (minute t) (hour t) (day t) (month t) y.

Definition convert_time (registerB : Z) (t : time_of_day) : time_of_day :=
  let t := if decide (Z.land registerB BINARY_MODE_BIT = 0) then decode_bcd t else t in
  full_year (to_24_hours registerB t).

Definition binary_to_real_time (fuel : nat) (last : time_of_day) (r : rtc_state) (io : io_state)
    : outcome (rtc_state * io_state) :=
  io ← wait_update fuel io;
  let '(t, io) := update_time io in
  '(t, io) ← loop fuel (fun '(last, t, io) =>
      if decide (same_time last t) then mret (inr (t, io))
      else
        let last := mkTime (second t) (minute t) (hour t) (day t) (month t) (u8 (year t)) in
        io ← wait_update fuel io;
        let '(t, io) := update_time io in
        mret (inl (last, t, io))) (last, t, io);
  let '(registerB, io) := get_RTC_reg REG_B io in
  mret (set_time (convert_time registerB t) r, io).

(** * The periodic rate *)

(** Frequencies above 1024 Hz are held to it; a frequency that is not in the
    table gives 2 Hz. *)
Definition effective_frequency (f : Z) : Z :=
  if decide (f ∈ frequencies) then Z.min f 1024 else 2.

(** What a rate written to register A makes the chip do. *)
Definition rate_frequency (rate : Z) : Z := Z.shiftr 32768 (rate - 1).

(** Position of a frequency in the table (14 when it is not there). *)
Fixpoint index_of (f : Z) (l : list Z) : Z :=
  match l with
  | [] => 0
  | x :: l => if decide (f = x) then 0 else 1 + index_of f l
  end.

Lemma index_of_range f l : 0 <= index_of f l <= zlen l.
Proof. induction l; simpl; [lia|]. case_decide; lia. Qed.

Lemma index_of_at f l i : 0 <= i < zlen l ->
  (forall j, 0 <= j < i -> at_ l j <> f) -> at_ l i = f -> index_of f l = i.
Proof.
  revert i. induction l as [|x l IH]; intros i Hi Hprev Hat; simpl in *; [lia|].
  destruct_decide (decide (f = x)) as Hd.
  - destruct_decide (decide (i = 0)); [lia|]. destruct (Hprev 0); [lia|].
    by rewrite at_cons by lia.
  - rewrite at_cons in Hat by lia. destruct_decide (decide (i = 0)); [congruence|].
    rewrite (IH (i - 1)); [lia|lia| |done].
    intros j Hj. specialize (Hprev (j + 1)). rewrite at_cons in Hprev by lia.
    rewrite decide_False in Hprev by lia. replace (j + 1 - 1) with j in Hprev by lia.
    apply Hprev. lia.
Qed.

Lemma index_of_none f l : (forall j, 0 <= j < zlen l -> at_ l j <> f) -> index_of f l = zlen l.
Proof.
  induction l as [|x l IH]; intros H; simpl; [done|].
  pose proof (H 0) as H0. rewrite at_cons in H0 by lia. simpl in H0.
  rewrite decide_False by (intros ->; apply H0; lia).
  rewrite IH; [lia|]. intros j Hj. specialize (H (j + 1)). rewrite at_cons in H by lia.
  rewrite decide_False in H by lia. replace (j + 1 - 1) with j in H by lia.
  apply H. simpl. lia.
Qed.

Lemma find_rate_ok f : find_rate f = Ok (index_of f frequencies).
Proof.
  apply wp_eq. unfold find_rate, NUM_FREQ.
  apply (wp_loop (fun r => 0 <= r <= 14 /\ forall j, 0 <= j < r -> at_ frequencies j <> f)
           (fun r => Z.to_nat (14 - r))); [split; [lia|intros; lia]|lia|].
  intros r [Hr Hp]. wp_step.
  - wp_step. rewrite rd_ok by (simpl; lia). do 2 wp_step.
    destruct_decide (decide (f = at_ frequencies r)) as Hd.
    + symmetry. apply index_of_at; [simpl; lia|done|done].
    + rewrite u8_id by lia. split; [|lia]. split; [lia|]. intros j Hj.
      destruct (decide (j = r)) as [->|]; [congruence|]. apply Hp. lia.
  - wp_step. symmetry. rewrite index_of_none; [simpl; lia|]. intros j Hj. apply Hp. simpl in Hj. lia.
Qed.

(** The rate chosen for a frequency gives the effective frequency. *)
Lemma clamp_rate_spec f :
  let rate := clamp_rate (index_of f frequencies) in
  MAX_RATE <= rate <= MIN_RATE /\ rate_frequency rate = effective_frequency f.
Proof.
  cbv zeta. destruct (decide (f ∈ frequencies)) as [Hin|Hout].
  - assert (Hall : forallb (fun f =>
      let rate := clamp_rate (index_of f frequencies) in
      bool_decide (MAX_RATE <= rate <= MIN_RATE /\ rate_frequency rate = Z.min f 1024))
      frequencies = true) by (vm_compute; reflexivity).
    rewrite forallb_forall in Hall. unfold effective_frequency. rewrite decide_True by done.
    apply list_elem_of_In in Hin. specialize (Hall f Hin). cbv zeta in Hall.
    by apply bool_decide_eq_true in Hall.
  - assert (H14 : index_of f frequencies = 14).
    { rewrite index_of_none; [done|]. intros j Hj E. apply Hout. rewrite <- E.
      unfold at_. apply list_elem_of_lookup_total_2. lia. }
    rewrite H14. unfold effective_frequency. rewrite decide_False by done. by vm_compute.
Qed.

(** Register A keeps its high nibble and gets the rate. *)
Lemma register_a_byte p rate : byte p -> 0 <= rate < 16 ->
  u8 (Z.lor (Z.land (i8 p) 0xF0) rate) = Z.land p 0xF0 + rate.
Proof.
  intros Hp Hr. revert rate Hr. apply (forall_small _ _). revert p Hp.
  apply (forall_small 256 (fun p => forallb (fun v => bool_decide
    (u8 (Z.lor (Z.land (i8 p) 0xF0) v) = Z.land p 0xF0 + v)) (seqZ 0 16) = true)).
  by vm_compute.
Qed.

(** What set_frequency sends to the chip. *)
Definition rate_events (prev rate : Z) : list io_event :=
  [Out (Z.land prev 0xF0 + rate) CMOS_RTC_PORT false; Out 0x8A SELECT_REG false;
   In prev CMOS_RTC_PORT false; Out 0x8A SELECT_REG false].

Lemma program_rate_spec rate io : 0 <= rate < 16 ->
  io_step (rate_events (u8 (inputs io (in_pos io))) rate) io (program_rate rate io).
Proof.
  intros Hr. constructor; [done| |done].
  unfold program_rate, rate_events, cli_and_save, cli, restore_flags, outb, inb, set_if. cbn.
  do 2 f_equal. apply register_a_byte; [apply u8_range|done].
Qed.

Lemma set_frequency_eq beyond f r io :
  let rate := clamp_rate (index_of f frequencies) in
  set_frequency beyond f r io = Ok (set_rate rate (table_at beyond rate) r, program_rate rate io).
Proof. unfold set_frequency. by rewrite find_rate_ok. Qed.

(** The frequency that ends up in [curr_frequency]: half the one the chip
    runs at, or what follows the table. *)
Lemma table_at_rate beyond rate : MAX_RATE <= rate <= MIN_RATE ->
  table_at beyond rate = if decide (rate_frequency rate <= 4) then beyond rate else rate_frequency rate / 2.
Proof.
  unfold MAX_RATE, MIN_RATE. intros Hr.
  assert (rate = 6 \/ rate = 7 \/ rate = 8 \/ rate = 9 \/ rate = 10 \/ rate = 11 \/ rate = 12 \/ rate = 13 \/
    rate = 14 \/ rate = 15) as [->|[->|[->|[->|[->|[->|[->|[->|[->| ->]]]]]]]]] by lia; done.
Qed.

(** C37: For every requested frequency set_frequency programs, by exactly the
    accesses to register A, a rate between 6 and 15 that makes the chip run at
    the requested frequency held to 1024 Hz (2 Hz when it is no power of two
    from the table), and records half the frequency the chip runs at, or what
    lies past the end of the table when the chip runs at 4 or 2 Hz. *)
Theorem set_frequency_ok beyond f r io :
  exists rate io', set_frequency beyond f r io = Ok (set_rate rate
      (if decide (effective_frequency f <= 4) then beyond rate else effective_frequency f / 2) r, io') /\
    6 <= rate <= 15 /\ Z.shiftr 32768 (rate - 1) = effective_frequency f /\
    io_step (rate_events (u8 (inputs io (in_pos io))) rate) io io'.
Proof.
  destruct (clamp_rate_spec f) as [Hr He]. unfold MAX_RATE, MIN_RATE in Hr.
  exists (clamp_rate (index_of f frequencies)), (program_rate (clamp_rate (index_of f frequencies)) io).
  split; [|split; [lia|split; [done|apply program_rate_spec; lia]]].
  rewrite set_frequency_eq. cbv zeta. rewrite (table_at_rate beyond _) by (unfold MAX_RATE, MIN_RATE; lia).
  by rewrite He.
Qed.

(** * The time of day *)

(** How the chip presents a time: two decimal digits per byte, the year
    without its century. *)
Definition bcd (v : Z) : Z := 16 * (v / 10) + v mod 10.
Definition cmos_time (t : time_of_day) : time_of_day :=
  mkTime (bcd (second t)) (bcd (minute t)) (bcd (hour t)) (bcd (day t)) (bcd (month t))
         (bcd (year t mod 100)).
(** The same with a 12-hour clock: the top bit says afternoon. *)
Definition cmos_time_12 (t : time_of_day) : time_of_day :=
  let h := (hour t + 11) mod 12 + 1 in
  let h := bcd h + (if decide (hour t < 12) then 0 else 0x80) in
  mkTime (bcd (second t)) (bcd (minute t)) h (bcd (day t)) (bcd (month t))
         (bcd (year t mod 100)).

Record time_wf (t : time_of_day) : Prop := {
  wf_second : 0 <= second t < 60;
  wf_minute : 0 <= minute t < 60;
  wf_hour : 0 <= hour t < 24;
  wf_day : 1 <= day t <= 31;
  wf_month : 1 <= month t <= 12;
  wf_year : CURRENT_YEAR <= year t < CURRENT_YEAR + CENTURY;
}.

Lemma from_bcd_bcd v : 0 <= v < 100 -> u8 (from_bcd (bcd v)) = v /\ 0 <= from_bcd (bcd v) < 256.
Proof. revert v. apply (forall_small _ _). by vm_compute. Qed.

Lemma bcd_hour h : 0 <= h < 24 ->
  u8 (Z.lor (Z.land (bcd h) NIBBLE_MASK + Z.land (bcd h) 0x70 / SHIFT4 * TENS) (Z.land (bcd h) 0x80)) = h
  /\ Z.land h 0x80 = 0.
Proof. revert h. apply (forall_small _ _). by vm_compute. Qed.

(** Hour byte of a 12-hour clock, as it is decoded. *)
Definition hour_12 (h : Z) : Z := bcd ((h + 11) mod 12 + 1) + (if decide (h < 12) then 0 else 0x80).
Definition decoded_12 (h : Z) : Z :=
  let b := hour_12 h in
  let b := u8 (Z.lor (Z.land b NIBBLE_MASK + Z.land b 0x70 / SHIFT4 * TENS) (Z.land b 0x80)) in
  if decide (Z.land b 0x80 <> 0) then u8 ((Z.land b 0x7F + 12) mod 24) else b.

(** Midnight decodes as 12 and noon as 0; every other hour is right. *)
Lemma decoded_12_spec h : 0 <= h < 24 ->
  decoded_12 h = if decide (h = 0) then 12 else if decide (h = 12) then 0 else h.
Proof. revert h. apply (forall_small _ _). by vm_compute. Qed.

Lemma full_year_of y : CURRENT_YEAR <= y < CURRENT_YEAR + CENTURY ->
  let z := u32 (y mod 100 + CURRENT_YEAR / CENTURY * CENTURY) in
  (if decide (z < CURRENT_YEAR) then u32 (z + CENTURY) else z) = y.
Proof.
  unfold CURRENT_YEAR, CENTURY. intros Hy.
  replace (2017 / 100 * 100) with 2000 by reflexivity. cbv zeta.
  pose proof (Z.div_mod y 100). pose proof (Z.mod_pos_bound y 100).
  assert (y / 100 = 20 \/ y / 100 = 21) by lia.
  rewrite (u32_id (_ + 2000)) by lia. case_decide; [rewrite u32_id by lia|]; lia.
Qed.

Lemma u32_from_bcd v : 0 <= v < 100 -> u32 (from_bcd (bcd v)) = v.
Proof.
  intros H. destruct (from_bcd_bcd v H) as [E R]. rewrite u32_id by lia.
  by rewrite u8_id in E by lia.
Qed.

(** C38: Decoding the registers of a BCD 24-hour clock gives back the time
    they encode, for every valid time of the century. *)
Lemma convert_cmos_time regB t :
  Z.land regB BINARY_MODE_BIT = 0 -> Z.land regB HOUR_BIT <> 0 -> time_wf t ->
  convert_time regB (cmos_time t) = t.
Proof.
  intros Hb Hh [? ? ? ? ? Hy]. unfold convert_time. rewrite decide_True by done.
  unfold to_24_hours. rewrite decide_False by naive_solver.
  pose proof (Z.mod_pos_bound (year t) 100).
  unfold full_year, decode_bcd, cmos_time. cbn [second minute hour day month year].
  rewrite u32_from_bcd by lia. rewrite full_year_of by done.
  rewrite (proj1 (bcd_hour _ wf_hour0)).
  rewrite !(fun v H => proj1 (from_bcd_bcd v H)) by lia. by destruct t.
Qed.

(** C39: On a 12-hour clock the decoding is right except at noon and midnight,
    which come out swapped: noon as hour 0 and midnight as hour 12. *)
Lemma convert_cmos_time_12 regB t :
  Z.land regB BINARY_MODE_BIT = 0 -> Z.land regB HOUR_BIT = 0 -> time_wf t ->
  convert_time regB (cmos_time_12 t) =
  mkTime (second t) (minute t)
    (if decide (hour t = 0) then 12 else if decide (hour t = 12) then 0 else hour t)
    (day t) (month t) (year t).
Proof.
  intros Hb Hh [? ? ? ? ? Hy]. unfold convert_time. rewrite decide_True by done.
  pose proof (Z.mod_pos_bound (year t) 100).
  rewrite <- (decoded_12_spec (hour t)) by done. unfold decoded_12, hour_12.
  unfold full_year, to_24_hours, decode_bcd, cmos_time_12. cbn [second minute hour day month year].
  set (h := u8 _). rewrite Hh. cbv zeta.
  destruct_decide (decide (Z.land h 0x80 <> 0));
    [rewrite decide_True by done|rewrite decide_False by naive_solver];
    cbn [second minute hour day month year];
    rewrite u32_from_bcd by lia; rewrite full_year_of by done;
    by rewrite !(fun v H => proj1 (from_bcd_bcd v H)) by lia.
Qed.
