(* ===== verification/MemOps.v ===== *)
(** The block operations of [student-distrib/lib.c]: memset, memset_word,
    memset_dword, memcpy and memmove, as their instruction sequences run on
    memory. *)

From S2P Require Import Prelude Hardware.

(** * The string instructions, direction flag clear *)

Definition put_dword (a v : Z) (m : mem) : mem :=
  put (put (put (put m a (u8 v)) (a + 1) (u8 (Z.shiftr v 8)))
           (a + 2) (u8 (Z.shiftr v 16))) (a + 3) (u8 (Z.shiftr v 24)).
Definition put_word (a v : Z) (m : mem) : mem :=
  put (put m a (u8 v)) (a + 1) (u8 (Z.shiftr v 8)).

Fixpoint rep_stosl (ecx : nat) (eax edi : Z) (m : mem) : Z * mem :=
  match ecx with
  | O => (edi, m)
  | Datatypes.S ecx => rep_stosl ecx eax (edi + 4) (put_dword edi eax m)
  end.
Fixpoint rep_stosw (ecx : nat) (eax edi : Z) (m : mem) : mem :=
  match ecx with
  | O => m
  | Datatypes.S ecx => rep_stosw ecx eax (edi + 2) (put_word edi eax m)
  end.
(** A doubleword is read whole before it is written. *)
Definition move4 (esi edi : Z) (m : mem) : mem :=
  put (put (put (put m edi (get m esi)) (edi + 1) (get m (esi + 1)))
           (edi + 2) (get m (esi + 2))) (edi + 3) (get m (esi + 3)).
Fixpoint rep_movsl (ecx : nat) (esi edi : Z) (m : mem) : Z * Z * mem :=
  match ecx with
  | O => (esi, edi, m)
  | Datatypes.S ecx => rep_movsl ecx (esi + 4) (edi + 4) (move4 esi edi m)
  end.
(** [step] is 1, or -1 when the direction flag is set. *)
Fixpoint rep_movsb (step : Z) (ecx : nat) (esi edi : Z) (m : mem) : mem :=
  match ecx with
  | O => m
  | Datatypes.S ecx =>
      rep_movsb step ecx (esi + step) (edi + step) (put m edi (get m esi))
  end.

(** * The routines

    The byte loops before the aligned part and after it run at most three
    times: fuel 4 is enough. *)

(** ** lib.c: memset *)
Definition set_bytes (eax : Z) (stop : Z -> bool) : Z * Z * mem -> outcome (Z * Z * mem) :=
  loop 4 (fun '(edi, n, m) =>
    Ok (if decide (n = 0) then inr (edi, n, m)
        else if stop edi then inr (edi, n, m)
        else inl (edi + 1, n - 1, put m edi (u8 eax)))).

Definition aligned (edi : Z) : bool := bool_decide (Z.land edi 3 = 0).

Definition memset (s c n : Z) (m : mem) : outcome mem :=
  let c := Z.land c 0xFF in
  let eax := u32 (Z.lor (Z.lor (Z.lor (Z.shiftl c 24) (Z.shiftl c 16)) (Z.shiftl c 8)) c) in
  '(edi, ecx, m) ← set_bytes eax aligned (s, n, m);
  if decide (ecx = 0) then mret m else
  let edx := Z.land ecx 3 in
  let '(edi, m) := rep_stosl (Z.to_nat (Z.shiftr ecx 2)) eax edi m in
  '(_, _, m) ← set_bytes eax (fun _ => false) (edi, edx, m);
  mret m.

(** ** lib.c: memset_word, memset_dword *)
Definition memset_word (s c n : Z) (m : mem) : mem := rep_stosw (Z.to_nat n) (u32 c) s m.
Definition memset_dword (s c n : Z) (m : mem) : mem := (rep_stosl (Z.to_nat n) (u32 c) s m).2.

(** ** lib.c: memcpy *)
Definition copy_bytes (stop : Z -> bool) : Z * Z * Z * mem -> outcome (Z * Z * Z * mem) :=
  loop 4 (fun '(esi, edi, n, m) =>
    Ok (if decide (n = 0) then inr (esi, edi, n, m)
        else if stop edi then inr (esi, edi, n, m)
        else inl (esi + 1, edi + 1, n - 1, put m edi (get m esi)))).

Definition memcpy (dest src n : Z) (m : mem) : outcome mem :=
  '(esi, edi, ecx, m) ← copy_bytes aligned (src, dest, n, m);
  if decide (ecx = 0) then mret m else
  let edx := Z.land ecx 3 in
  let '(esi, edi, m) := rep_movsl (Z.to_nat (Z.shiftr ecx 2)) esi edi m in
  '(_, _, _, m) ← copy_bytes (fun _ => false) (esi, edi, edx, m);
  mret m.

(** ** lib.c: memmove

    Also the direction flag it leaves behind. *)
Definition memmove (dest src n : Z) (m : mem) : mem * bool :=
  if decide (src >= dest) then (rep_movsb 1 (Z.to_nat n) src dest m, false)
  else (rep_movsb (-1) (Z.to_nat n) (src + n - 1) (dest + n - 1) m, true).

(** * What they promise *)

(** [m'] is [m] with [f i] at each [lo + i], [0 <= i < n]. *)
Definition filled (lo n : Z) (f : Z -> Z) (m m' : mem) : Prop :=
  forall a, get m' a = if decide (lo <= a < lo + n) then f (a - lo) else get m a.

#[export] Instance filled_proper lo n : Proper (pointwise_relation Z eq ==> mem_eq ==> mem_eq ==> iff) (filled lo n).
Proof.
  intros f g Hf m1 m2 H m1' m2' H'. unfold filled. split; intros HF a; specialize (HF a).
  - rewrite <- (H' a), HF. by case_decide; [apply Hf|apply H].
  - rewrite (H' a), HF. by case_decide; [symmetry; apply Hf|symmetry; apply H].
Qed.

Lemma filled_0 lo f m : filled lo 0 f m m.
Proof. intros a. by rewrite decide_False by lia. Qed.

Lemma filled_snoc lo n f m m' a v :
  0 <= n -> filled lo n f m m' -> a = lo + n -> v = f n -> filled lo (n + 1) f m (put m' a v).
Proof.
  intros Hn HF -> -> b. rewrite get_put, HF.
  repeat case_decide; subst; try lia; try done. f_equal. lia.
Qed.

(** Copies that go upwards: the source byte of the next step is still the
    original one. *)
Definition forward (dest src n : Z) : Prop := dest <= src \/ src + n <= dest.

Section upwards.
Variables (dest src n : Z) (m0 : mem).
Hypothesis (Hdir : forward dest src n).

Abbreviation copied k m := (filled dest k (fun i => get m0 (src + i)) m0 m).

Lemma copied_src k m j : copied k m -> 0 <= j < n -> k <= j -> get m (src + j) = get m0 (src + j).
Proof using Hdir.
  intros HF Hj Hk. rewrite HF. unfold forward in Hdir. by rewrite decide_False by lia.
Qed.

Lemma copied_byte k m : copied k m -> 0 <= k < n ->
  copied (k + 1) (put m (dest + k) (get m (src + k))).
Proof using Hdir.
  intros HF Hk. apply filled_snoc; [lia|done|done|]. by apply (copied_src k).
Qed.

Lemma copied_dword k m : copied k m -> 0 <= k -> k + 4 <= n ->
  copied (k + 4) (move4 (src + k) (dest + k) m).
Proof using Hdir.
  intros HF Hk Hn. unfold move4. rewrite <- !Z.add_assoc.
  rewrite !(copied_src k m _ HF) by lia.
  replace (k + 4) with (k + 1 + 1 + 1 + 1) by lia.
  repeat (apply filled_snoc; [lia| |lia|cbv beta; f_equal; lia]). done.
Qed.

Lemma copied_dwords c k m : copied k m -> 0 <= k -> k + 4 * Z.of_nat c <= n ->
  exists m', rep_movsl c (src + k) (dest + k) m =
    (src + (k + 4 * Z.of_nat c), dest + (k + 4 * Z.of_nat c), m') /\
    copied (k + 4 * Z.of_nat c) m'.
Proof using Hdir.
  revert k m. induction c as [|c IH]; intros k m HF Hk Hn; simpl.
  - exists m. replace (k + 4 * Z.of_nat 0) with k by lia. done.
  - rewrite <- !Z.add_assoc.
    destruct (IH (k + 4) (move4 (src + k) (dest + k) m)) as (m' & E & HF');
      [apply copied_dword; (done || lia)|lia|lia|].
    exists m'. rewrite E.
    by replace (k + 4 + 4 * Z.of_nat c) with (k + 4 * Z.of_nat (Datatypes.S c)) in * by lia.
Qed.

Lemma copied_rep c k m : copied k m -> 0 <= k -> k + Z.of_nat c <= n ->
  copied (k + Z.of_nat c) (rep_movsb 1 c (src + k) (dest + k) m).
Proof using Hdir.
  revert k m. induction c as [|c IH]; intros k m HF Hk Hn; simpl.
  - by replace (k + Z.of_nat 0) with k by lia.
  - rewrite <- !Z.add_assoc. replace (k + Z.of_nat (Datatypes.S c)) with (k + 1 + Z.of_nat c) by lia.
    apply IH; [|lia|lia]. apply copied_byte; [done|lia].
Qed.

(** The byte loop: it stops at the end of the block or where [stop] says,
    which happens within three bytes. *)
Lemma copied_bytes stop k m r :
  copied k m -> 0 <= k -> 0 <= r -> k + r <= n ->
  (r <= 3 \/ exists j, 0 <= j <= 3 /\ stop (dest + k + j) = true) ->
  wp (copy_bytes stop (src + k, dest + k, r, m)) (fun '(esi, edi, r', m') =>
    exists k', esi = src + k' /\ edi = dest + k' /\ r' = k + r - k' /\ k <= k' <= k + r /\
      copied k' m' /\ (r' = 0 \/ stop edi = true)).
Proof using Hdir.
  intros HF Hk Hr Hn Hstop.
  assert (Hlim : exists j, 0 <= j <= 3 /\ (r = j \/ stop (dest + k + j) = true)).
  { destruct Hstop as [?|(j & Hj & Hs)]; [exists r; lia|exists j; auto]. }
  destruct Hlim as (j & Hj & Hlim). unfold copy_bytes.
  apply (wp_loop (fun '(esi, edi, r', m') =>
      exists k', esi = src + k' /\ edi = dest + k' /\ r' = k + r - k' /\
        k <= k' <= k + r /\ k' <= k + j /\ copied k' m')
    (fun '(esi, edi, r', m') => Z.to_nat (k + j - (edi - dest)))).
  - exists k. repeat split; (done || lia).
  - lia.
  - intros [[[esi edi] r'] m'] (k' & -> & -> & -> & Hk' & Hj' & HF'). wp_step.
    case_decide; [exists k'; repeat split; (done || lia || auto)|].
    destruct (stop (dest + k')) eqn:Hs; [exists k'; repeat split; (done || lia || auto)|].
    assert (k' <> k + j).
    { intros ->. destruct Hlim as [->|Hst]; [lia|].
      rewrite <- Z.add_assoc in Hst. congruence. }
    split; [|lia]. exists (k' + 1).
    repeat split; try lia. apply copied_byte; [done|lia].
Qed.
End upwards.

Lemma aligned_within a : exists j, 0 <= j <= 3 /\ aligned (a + j) = true.
Proof.
  exists ((- a) mod 4). pose proof (Z.mod_pos_bound (- a) 4). split; [lia|].
  unfold aligned. apply bool_decide_eq_true. change 3 with (Z.ones 2).
  rewrite Z.land_ones by lia. rewrite Z.add_mod_idemp_r by lia.
  by replace (a + - a) with 0 by lia.
Qed.

Lemma split_dwords n : 0 <= n -> n = 4 * Z.of_nat (Z.to_nat (Z.shiftr n 2)) + Z.land n 3.
Proof.
  intros. rewrite Z.shiftr_div_pow2 by lia. change 3 with (Z.ones 2).
  rewrite Z.land_ones by lia. rewrite Z2Nat.id by (apply Z.div_pos; lia).
  apply Z.div_mod. lia.
Qed.

Lemma memcpy_ok dest src n m : 0 <= n -> forward dest src n ->
  wp (memcpy dest src n m) (filled dest n (fun i => get m (src + i)) m).
Proof.
  intros Hn Hdir. unfold memcpy. wp_step.
  pose proof (copied_bytes dest src n m Hdir aligned 0 m n (filled_0 _ _ _)) as H.
  rewrite !Z.add_0_r in H.
  eapply wp_mono; [apply H; try lia; right; apply aligned_within|].
  intros [[[esi edi] r] m1] (k & -> & -> & -> & Hk & HF & _).
  wp_step; [wp_step; by replace k with n in HF by lia|].
  replace (0 + n - k) with (n - k) by lia.
  pose proof (split_dwords (n - k)) as Hsplit.
  pose proof (Z.land_nonneg (n - k) 3). pose proof (Z.mod_pos_bound (n - k) 4).
  assert (Z.land (n - k) 3 = (n - k) mod 4) as Hl.
  { change 3 with (Z.ones 2). by rewrite Z.land_ones. }
  set (c := Z.to_nat (Z.shiftr (n - k) 2)) in *.
  destruct (copied_dwords dest src n m Hdir c k m1 HF) as (m2 & -> & HF2); [lia|lia|].
  wp_step. eapply wp_mono; [apply (copied_bytes dest src n m Hdir _ _ _ _ HF2); lia|].
  intros [[[esi' edi'] r'] m3] (k' & -> & -> & -> & Hk' & HF3 & [Hr|?]); [|done].
  wp_step. by replace k' with n in HF3 by lia.
Qed.

(** memmove copies downwards when the destination is above the source. *)
Lemma filled_cons lo n f m m' v :
  0 <= n -> filled (lo + 1) n (fun i => f (i + 1)) m m' -> v = f 0 ->
  filled lo (n + 1) f m (put m' lo v).
Proof.
  intros Hn HF -> b. rewrite get_put, HF.
  repeat case_decide; subst; try lia; try done; f_equal; lia.
Qed.

Lemma filled_ext lo n f g m m' :
  (forall i, 0 <= i < n -> f i = g i) -> filled lo n f m m' -> filled lo n g m m'.
Proof. intros Hfg HF a. rewrite HF. case_decide; [apply Hfg; lia|done]. Qed.

Lemma copied_down dest src n m0 c k m :
  src < dest -> 0 <= k -> k = Z.of_nat c ->
  filled (dest + k) (n - k) (fun i => get m0 (src + k + i)) m0 m -> k <= n ->
  filled dest n (fun i => get m0 (src + i)) m0
    (rep_movsb (-1) c (src + k - 1) (dest + k - 1) m).
Proof.
  intros Hlt Hk0. revert k m Hk0. induction c as [|c IH]; intros k m Hk0 Hk HF Hn; simpl.
  - subst k. simpl in HF. rewrite Z.sub_0_r, !Z.add_0_r in HF. done.
  - replace (src + k - 1 + -1) with (src + (k - 1) - 1) by lia.
    replace (dest + k - 1 + -1) with (dest + (k - 1) - 1) by lia.
    apply IH; [lia|lia| |lia].
    replace (n - (k - 1)) with (n - k + 1) by lia.
    replace (dest + k - 1) with (dest + (k - 1)) by lia.
    replace (src + k - 1) with (src + (k - 1)) by lia.
    apply filled_cons; [lia| |].
    + replace (dest + (k - 1) + 1) with (dest + k) by lia.
      eapply filled_ext; [|exact HF]. intros. cbv beta. f_equal. lia.
    + rewrite HF, decide_False by lia. f_equal. lia.
Qed.

(** C34: memmove leaves the destination with the bytes the source had before
    the call, also when the ranges overlap in either direction. *)
Lemma memmove_ok dest src n m : 0 <= n ->
  filled dest n (fun i => get m (src + i)) m (memmove dest src n m).1.
Proof.
  intros Hn. unfold memmove. case_decide.
  - pose proof (copied_rep dest src n m (or_introl (Z.ge_le _ _ H)) (Z.to_nat n) 0 m
      (filled_0 _ _ _)) as HF. rewrite !Z.add_0_r, !Z2Nat.id in HF by lia. apply HF; lia.
  - apply copied_down; [lia..| |lia]. rewrite Z.sub_diag. apply filled_0.
Qed.

(** memset: the repeated byte, whatever the alignment. *)
Definition repeat_byte (c : Z) : Z :=
  u32 (Z.lor (Z.lor (Z.lor (Z.shiftl c 24) (Z.shiftl c 16)) (Z.shiftl c 8)) c).

Lemma repeat_byte_bytes c : 0 <= c < 256 ->
  u8 (repeat_byte c) = c /\ u8 (Z.shiftr (repeat_byte c) 8) = c /\
  u8 (Z.shiftr (repeat_byte c) 16) = c /\ u8 (Z.shiftr (repeat_byte c) 24) = c.
Proof. revert c. apply (forall_small _ _). by vm_compute. Qed.

Lemma set_dwords s c k eax m0 m :
  (forall j, u8 eax = j -> u8 (Z.shiftr eax 8) = j /\ u8 (Z.shiftr eax 16) = j /\
                           u8 (Z.shiftr eax 24) = j) ->
  filled s k (fun _ => u8 eax) m0 m -> 0 <= k ->
  exists m', rep_stosl c eax (s + k) m = (s + (k + 4 * Z.of_nat c), m') /\
             filled s (k + 4 * Z.of_nat c) (fun _ => u8 eax) m0 m'.
Proof.
  intros Hb. destruct (Hb _ eq_refl) as (H8 & H16 & H24). clear Hb.
  revert k m. induction c as [|c IH]; intros k m HF Hk; simpl.
  - exists m. by replace (k + 4 * Z.of_nat 0) with k by lia.
  - replace (s + k + 4) with (s + (k + 4)) by lia.
    destruct (IH (k + 4) (put_dword (s + k) eax m)) as (m' & E & HF'); [|lia|].
    + unfold put_dword. rewrite H8, H16, H24, <- !Z.add_assoc.
      replace (k + 4) with (k + 1 + 1 + 1 + 1) by lia.
      repeat (apply filled_snoc; [lia| |lia|done]). done.
    + exists m'. rewrite E.
      by replace (k + 4 + 4 * Z.of_nat c) with (k + 4 * Z.of_nat (Datatypes.S c)) in * by lia.
Qed.

Lemma set_bytes_ok s eax m0 stop k m r :
  filled s k (fun _ => u8 eax) m0 m -> 0 <= k -> 0 <= r ->
  (r <= 3 \/ exists j, 0 <= j <= 3 /\ stop (s + k + j) = true) ->
  wp (set_bytes eax stop (s + k, r, m)) (fun '(edi, r', m') =>
    exists k', edi = s + k' /\ r' = k + r - k' /\ k <= k' <= k + r /\
      filled s k' (fun _ => u8 eax) m0 m' /\ (r' = 0 \/ stop edi = true)).
Proof.
  intros HF Hk Hr Hstop.
  assert (Hlim : exists j, 0 <= j <= 3 /\ (r = j \/ stop (s + k + j) = true)).
  { destruct Hstop as [?|(j & Hj & Hs)]; [exists r; lia|exists j; auto]. }
  destruct Hlim as (j & Hj & Hlim). unfold set_bytes.
  apply (wp_loop (fun '(edi, r', m') =>
      exists k', edi = s + k' /\ r' = k + r - k' /\
        k <= k' <= k + r /\ k' <= k + j /\ filled s k' (fun _ => u8 eax) m0 m')
    (fun '(edi, r', m') => Z.to_nat (k + j - (edi - s)))).
  - exists k. repeat split; (done || lia).
  - lia.
  - intros [[edi r'] m'] (k' & -> & -> & Hk' & Hj' & HF'). wp_step.
    case_decide; [exists k'; repeat split; (done || lia || auto)|].
    destruct (stop (s + k')) eqn:Hs; [exists k'; repeat split; (done || lia || auto)|].
    assert (k' <> k + j).
    { intros ->. destruct Hlim as [->|Hst]; [lia|]. rewrite <- Z.add_assoc in Hst. congruence. }
    split; [|lia]. exists (k' + 1).
    repeat split; try lia. by apply filled_snoc; [lia|..].
Qed.

(** C33: memset fills exactly n bytes with the low byte of c, whatever the
    alignment of the address and the length: the head, dword and tail loops
    together cover the range and nothing else. *)
Lemma memset_ok s c n m : 0 <= n -> wp (memset s c n m) (filled s n (fun _ => u8 c) m).
Proof.
  intros Hn. unfold memset. fold (repeat_byte (Z.land c 0xFF)). wp_step.
  assert (Hc : Z.land c 0xFF = u8 c) by apply land_255. rewrite Hc.
  destruct (repeat_byte_bytes (u8 c) (u8_range c)) as (B0 & B8 & B16 & B24).
  set (eax := repeat_byte (u8 c)) in *. rewrite <- B0.
  pose proof (set_bytes_ok s eax m aligned 0 m n (filled_0 _ _ _)) as H.
  rewrite !Z.add_0_r in H.
  eapply wp_mono; [apply H; try lia; right; apply aligned_within|].
  intros [[edi r] m1] (k & -> & -> & Hk & HF & _).
  wp_step; [wp_step; by replace k with n in HF by lia|].
  replace (0 + n - k) with (n - k) by lia.
  pose proof (split_dwords (n - k)) as Hsplit.
  assert (Z.land (n - k) 3 = (n - k) mod 4) as Hl.
  { change 3 with (Z.ones 2). by rewrite Z.land_ones. }
  pose proof (Z.mod_pos_bound (n - k) 4).
  set (q := Z.to_nat (Z.shiftr (n - k) 2)) in *.
  destruct (set_dwords s q k eax m m1) as (m2 & -> & HF2); [|done|lia|].
  { intros j Hj. rewrite B8, B16, B24. naive_solver congruence. }
  wp_step. eapply wp_mono; [apply (set_bytes_ok s eax m _ _ _ _ HF2); lia|].
  intros [[edi' r'] m3] (k' & -> & -> & Hk' & HF3 & [Hr|?]); [|done].
  wp_step. by replace k' with n in HF3 by lia.
Qed.

Lemma memset_dword_ok s c n m : 0 <= n ->
  filled s (4 * n) (fun i => u8 (Z.shiftr (u32 c) (8 * (i mod 4)))) m (memset_dword s c n m).
Proof.
  intros Hn. unfold memset_dword. rewrite <- (Z2Nat.id n) at 1 by done.
  generalize (Z.to_nat n) as k. clear n Hn. intros k.
  assert (Hgen : forall k j m', filled s (4 * Z.of_nat j) (fun i => u8 (Z.shiftr (u32 c) (8 * (i mod 4)))) m m' ->
    filled s (4 * Z.of_nat (j + k)) (fun i => u8 (Z.shiftr (u32 c) (8 * (i mod 4)))) m
      (rep_stosl k (u32 c) (s + 4 * Z.of_nat j) m').2).
  { clear k. induction k as [|k IH]; intros j m' HF; simpl; [by rewrite Nat.add_0_r|].
    replace (j + Datatypes.S k)%nat with (Datatypes.S j + k)%nat by lia.
    replace (s + 4 * Z.of_nat j + 4) with (s + 4 * Z.of_nat (Datatypes.S j)) by lia.
    apply IH. unfold put_dword. rewrite <- !Z.add_assoc.
    replace (4 * Z.of_nat (Datatypes.S j)) with (4 * Z.of_nat j + 1 + 1 + 1 + 1) by lia.
    assert (Hm : forall d, 0 <= d < 4 -> (4 * Z.of_nat j + d) mod 4 = d).
    { intros d Hd. rewrite Z.mul_comm, Z.add_comm, Z.mod_add by lia. by apply Z.mod_small. }
    repeat (apply filled_snoc; [lia| |lia|]); [done|..]; rewrite <- ?Z.add_assoc;
      rewrite <- (Z.add_0_r (4 * Z.of_nat j)) || idtac; rewrite <- ?Z.add_assoc;
      rewrite Hm by lia; done. }
  specialize (Hgen k 0%nat m). rewrite Z.mul_0_r, Z.add_0_r in Hgen. apply Hgen, filled_0.
Qed.
