(* ===== verification/Paging.v ===== *)
(** Paging ([student-distrib/paging.c]): the three tables, the control
    registers, and what the processor translates with them. *)

From S2P Require Import Prelude.

Definition PAGE_SIZE := 1024.
Definition DIR_IDX_SHIFT := 22.
Definition TABLE_IDX_SHIFT := 12.
Definition CLEAR_DIR_IDX := 0x003FFFFF.
Definition VIDEO_PAGE := 0xB8000.
Definition VIRT_VID_TERM1 := 0x10000000.
Definition VIRT_VID_TERM2 := 0x10001000.
Definition VIRT_VID_TERM3 := 0x10002000.
Definition BACKUP_VID1 := 0xB9000.
Definition BACKUP_VID2 := 0xBA000.
Definition BACKUP_VID3 := 0xBB000.
Definition KERNEL_MEM := 0x00400000.
Definition RW_SET_ONLY := 0x2.
Definition RW_P_SET := Z.lor RW_SET_ONLY 0x1.
Definition RW_P_SIZE_SET := Z.lor RW_P_SET 0x80.
Definition PROCESS_SET := 0x87.
Definition USER_MASK := 0x7.
Definition USER_VIDEO_ := Z.lor VIDEO_PAGE USER_MASK.
Definition USER_BACK1 := Z.lor BACKUP_VID1 USER_MASK.
Definition USER_SPACE := 0x00800000.
Definition PROCESS_SIZE_ := 0x00400000.
Definition PROCESS_IDX := 32.

(** The tables as the processor may have cached them. *)
Record tables : Type := mkTables {
  page_directory : list Z;
  page_table : list Z;
  user_page_table : list Z;
}.

Record paging_state : Type := mkPaging {
  in_memory : tables;
  in_tlb : tables;        (* the tables at the last flush *)
  cr0 : Z;
  cr3 : Z;
  cr4 : Z;
}.

Definition set_tables (t : tables) (p : paging_state) : paging_state :=
  mkPaging t (in_tlb p) (cr0 p) (cr3 p) (cr4 p).
Definition set_dir (i v : Z) (p : paging_state) : paging_state :=
  let t := in_memory p in
  set_tables (mkTables (upd (page_directory t) i (u32 v)) (page_table t) (user_page_table t)) p.
Definition set_pte (i v : Z) (p : paging_state) : paging_state :=
  let t := in_memory p in
  set_tables (mkTables (page_directory t) (upd (page_table t) i (u32 v)) (user_page_table t)) p.
Definition set_user_pte (i v : Z) (p : paging_state) : paging_state :=
  let t := in_memory p in
  set_tables (mkTables (page_directory t) (page_table t) (upd (user_page_table t) i (u32 v))) p.

(** The compound assignments [page_directory[i] |= v], [page_table[i] |= v]. *)
Definition or_dir (i v : Z) (p : paging_state) : paging_state :=
  set_dir i (Z.lor (at_ (page_directory (in_memory p)) i) v) p.
Definition or_pte (i v : Z) (p : paging_state) : paging_state :=
  set_pte i (Z.lor (at_ (page_table (in_memory p)) i) v) p.

Section paging.
(* Where the linker put the tables. *)
Variables page_directory_at page_table_at user_page_table_at : Z.

(** ** paging.c: flush_tlb *)
Definition flush_tlb (p : paging_state) : paging_state :=
  mkPaging (in_memory p) (in_memory p) (cr0 p) (cr3 p) (cr4 p).

(** ** paging.c: add_process *)
Definition add_process (process_id : Z) (p : paging_state) : paging_state :=
  flush_tlb (set_dir PROCESS_IDX
    (Z.lor (u32 (USER_SPACE + u32 process_id * PROCESS_SIZE_)) PROCESS_SET) p).

(** ** paging.c: map_virt_to_phys *)
Definition map_virt_to_phys (virtual_address PHYS : Z) (p : paging_state) : paging_state :=
  let p := set_dir (Z.shiftr virtual_address DIR_IDX_SHIFT)
             (Z.lor user_page_table_at USER_MASK) p in
  let p := set_user_pte (Z.shiftr (Z.land virtual_address CLEAR_DIR_IDX) TABLE_IDX_SHIFT)
             (Z.lor PHYS RW_P_SET) p in
  flush_tlb p.

(** ** paging.c: enablePaging *)
Definition enablePaging (p : paging_state) : paging_state :=
  let p := mkPaging (in_memory p) (in_memory p) (cr0 p) page_directory_at (cr4 p) in
  let p := mkPaging (in_memory p) (in_tlb p) (cr0 p) (cr3 p) (Z.lor (cr4 p) 0x10) in
  mkPaging (in_memory p) (in_tlb p) (Z.lor (cr0 p) 0x80000000) (cr3 p) (cr4 p).

(** ** paging.c: paging_init *)
Definition paging_init (p : paging_state) : paging_state :=
  let p := for_ 0 PAGE_SIZE (fun i => set_dir i RW_SET_ONLY) p in
  let p := set_dir 1 KERNEL_MEM p in
  let p := or_dir 1 RW_P_SIZE_SET p in
  let p := set_dir 0 page_table_at p in
  let p := or_dir 0 RW_P_SET p in
  let p := for_ 0 PAGE_SIZE (fun i => set_pte i RW_SET_ONLY) p in
  let video := Z.shiftr VIDEO_PAGE TABLE_IDX_SHIFT in
  let p := set_pte video VIDEO_PAGE p in
  let p := or_pte video RW_P_SET p in
  let p := map_virt_to_phys VIRT_VID_TERM1 BACKUP_VID1 p in
  let p := map_virt_to_phys VIRT_VID_TERM2 BACKUP_VID2 p in
  let p := map_virt_to_phys VIRT_VID_TERM3 BACKUP_VID3 p in
  enablePaging p.

(** * The processor's address translation *)

(** Where an address goes, and whether user code may use it. *)
Record mapping : Type := Mapped { phys : Z; user : bool }.

Definition bit (v n : Z) : bool := Z.testbit v n.

Definition walk_table (t : list Z) (pde v : Z) : option mapping :=
  let pte := at_ t (v / 2 ^ 12 mod 2 ^ 10) in
  if bit pte 0 then
    Some (Mapped (pte / 2 ^ 12 * 2 ^ 12 + v mod 2 ^ 12) (bit pde 2 && bit pte 2))
  else None.

(** [pse]: 4 MB pages are on (bit 4 of CR4); without them bit 7 of a
    directory entry means nothing. *)
Definition walk (pse : bool) (t : tables) (v : Z) : option mapping :=
  let pde := at_ (page_directory t) (v / 2 ^ 22) in
  if negb (bit pde 0) then None
  else if pse && bit pde 7 then Some (Mapped (pde / 2 ^ 22 * 2 ^ 22 + v mod 2 ^ 22) (bit pde 2))
  else
    let base := pde / 2 ^ 12 * 2 ^ 12 in
    if decide (base = page_table_at) then walk_table (page_table t) pde v
    else if decide (base = user_page_table_at) then walk_table (user_page_table t) pde v
    else None.

(** CR3 selects the directory: only [page_directory] is known. *)
Definition translate (p : paging_state) (v : Z) : option mapping :=
  if bit (cr0 p) 31 then
    if decide (cr3 p / 2 ^ 12 * 2 ^ 12 = page_directory_at) then walk (bit (cr4 p) 4) (in_tlb p) v
    else None
  else Some (Mapped v true).

(** * Well-formedness *)

Record tables_wf (t : tables) : Prop := {
  wf_dir : length (page_directory t) = Z.to_nat PAGE_SIZE;
  wf_pt : length (page_table t) = Z.to_nat PAGE_SIZE;
  wf_upt : length (user_page_table t) = Z.to_nat PAGE_SIZE;
}.
(** Nothing stale is cached, paging and 4 MB pages are on, and CR3 points at
    the directory. *)
Record paging_wf (p : paging_state) : Prop := {
  wf_tables : tables_wf (in_memory p);
  wf_fresh : in_tlb p = in_memory p;
  wf_on : bit (cr0 p) 31 = true;
  wf_root : cr3 p / 2 ^ 12 * 2 ^ 12 = page_directory_at;
  wf_pse : bit (cr4 p) 4 = true;
}.

(** * Arithmetic of entries: a page-aligned base and flag bits below it *)

Lemma low_bit a b n i : 0 <= i < n -> 0 <= b < 2 ^ n -> bit (a * 2 ^ n + b) i = bit b i.
Proof using Type.
  intros Hi Hb. unfold bit. rewrite <- (Z.mod_pow2_bits_low _ n i) by lia.
  by rewrite Z.add_comm, Z.mod_add, Z.mod_small by lia.
Qed.
Lemma high_part a b n : 0 <= n -> 0 <= b < 2 ^ n -> (a * 2 ^ n + b) / 2 ^ n * 2 ^ n = a * 2 ^ n.
Proof using Type. intros. rewrite Z.div_add_l, (Z.div_small b) by lia. lia. Qed.
Lemma lor_flags a b n : 0 <= n -> 0 <= b < 2 ^ n -> Z.lor (a * 2 ^ n) b = a * 2 ^ n + b.
Proof using Type. intros. apply lor_add with n; [done| |done]. apply Z.mod_mul. lia. Qed.

(** * The state after each operation *)

Lemma set_dir_wf i v p : tables_wf (in_memory p) -> tables_wf (in_memory (set_dir i v p)).
Proof using Type. intros []. constructor; simpl; by rewrite ?length_upd. Qed.
Lemma set_user_pte_wf i v p : tables_wf (in_memory p) -> tables_wf (in_memory (set_user_pte i v p)).
Proof using Type. intros []. constructor; simpl; by rewrite ?length_upd. Qed.

Lemma add_process_wf pid p : paging_wf p -> paging_wf (add_process pid p).
Proof using Type. intros []. constructor; [|done..]. by apply set_dir_wf. Qed.
Lemma map_virt_to_phys_wf v a p : paging_wf p -> paging_wf (map_virt_to_phys v a p).
Proof using Type.
  intros []. constructor; [|done..]. by apply set_user_pte_wf, set_dir_wf.
Qed.

(** Where add_process puts a process: one 4 MB page each, from 8 MB. *)
Definition process_base (pid : Z) : Z := USER_SPACE + pid * PROCESS_SIZE_.
Definition in_program_page (v : Z) : Prop := 0x08000000 <= v < 0x08400000.
#[export] Instance in_program_page_dec v : Decision (in_program_page v).
Proof using Type. unfold in_program_page. apply _. Defined.

Lemma translate_walk p v : paging_wf p -> translate p v = walk true (in_memory p) v.
Proof using Type. intros [_ E On Root Pse]. unfold translate. by rewrite On, E, Pse, decide_True. Qed.

Lemma translate_add_process pid p v :
  paging_wf p -> 0 <= pid < 1000 -> 0 <= v < 2 ^ 32 ->
  translate (add_process pid p) v =
  if decide (in_program_page v) then Some (Mapped (process_base pid + (v - 0x08000000)) true)
  else translate p v.
Proof using Type.
  intros Hwf Hpid Hv. rewrite !translate_walk by (done || by apply add_process_wf).
  destruct Hwf as [[Hd _ _] _ _]. unfold walk, add_process, flush_tlb, set_dir, set_tables.
  cbn [in_memory page_directory page_table user_page_table].
  unfold PAGE_SIZE, PROCESS_IDX, in_program_page in *.
  assert (0 <= v / 2 ^ 22) by (apply Z.div_pos; lia).
  rewrite at_upd by lia.
  pose proof (Z.div_mod v (2 ^ 22)). pose proof (Z.mod_pos_bound v (2 ^ 22)).
  rewrite (u32_id pid) by lia. unfold process_base, USER_SPACE, PROCESS_SIZE_, PROCESS_SET.
  rewrite (u32_id (0x800000 + _)) by lia.
  replace (0x800000 + pid * 0x400000) with ((2 + pid) * 2 ^ 22) by lia.
  rewrite lor_flags by lia. rewrite u32_id by lia.
  destruct_decide (decide (32 = v / 2 ^ 22));
    destruct_decide (decide (0x08000000 <= v < 0x08400000)); try lia; [|done].
  rewrite !low_bit by lia. change (bit 135 0) with true. change (bit 135 7) with true.
  change (bit 135 2) with true. cbn [negb].
  rewrite high_part by lia. do 2 f_equal. lia.
Qed.

Lemma table_index a : a / 2 ^ 12 mod 2 ^ 10 = a mod 2 ^ 22 / 2 ^ 12.
Proof using Type.
  change (2 ^ 22) with (2 ^ 12 * 2 ^ 10). rewrite Z.rem_mul_r by lia.
  rewrite Z.add_comm, (Z.mul_comm (2 ^ 12)), Z.div_add_l by lia.
  rewrite (Z.div_small (a mod 2 ^ 12)); [lia|]. by apply Z.mod_pos_bound.
Qed.

Lemma lor_range a : 0 <= a < 2 ^ 32 -> 0 <= Z.lor a RW_P_SET < 2 ^ 32.
Proof using Type.
  intros Ha. change RW_P_SET with 3.
  assert (H0 : 0 <= Z.lor a 3) by (apply Z.lor_nonneg; lia).
  split; [done|]. destruct_decide (decide (Z.lor a 3 = 0)); [lia|].
  apply Z.log2_lt_pow2; [lia|]. rewrite Z.log2_lor by lia.
  apply Z.max_lub_lt; [|done]. destruct_decide (decide (a = 0)); [by subst|].
  apply Z.log2_lt_pow2; lia.
Qed.

(** * The kernel's address space

    The linker aligns the tables to pages and puts them apart. *)
Record linked : Prop := {
  pd_aligned : page_directory_at = page_directory_at / 2 ^ 12 * 2 ^ 12;
  pt_aligned : page_table_at = page_table_at / 2 ^ 12 * 2 ^ 12;
  upt_aligned : user_page_table_at = user_page_table_at / 2 ^ 12 * 2 ^ 12;
  pt_range : 0 <= page_table_at < 2 ^ 32;
  upt_range : 0 <= user_page_table_at < 2 ^ 32;
  apart : page_table_at <> user_page_table_at;
}.

Definition boot_page_table : list Z :=
  upd (replicate (Z.to_nat PAGE_SIZE) RW_SET_ONLY) 0xB8 (VIDEO_PAGE + 3).
Definition boot_entry (i : Z) : Z :=
  if decide (i = 0) then page_table_at + 3
  else if decide (i = 1) then KERNEL_MEM + 0x83
  else if decide (i = 64) then user_page_table_at + 7
  else RW_SET_ONLY.

(** What stays true of the tables once paging_init has run: only the
    program page and the three video pages change. *)
Record paging_inv (p : paging_state) : Prop := {
  inv_wf : paging_wf p;
  inv_pt : page_table (in_memory p) = boot_page_table;
  inv_dir : forall i, 0 <= i < PAGE_SIZE -> i <> PROCESS_IDX ->
    at_ (page_directory (in_memory p)) i = boot_entry i;
  inv_program : let e := at_ (page_directory (in_memory p)) PROCESS_IDX in
    e = RW_SET_ONLY \/ exists frame, e = frame * 2 ^ 22 + PROCESS_SET;
}.

Lemma add_process_inv pid p : paging_inv p -> paging_inv (add_process pid p).
Proof using Type.
  intros [Hwf Hpt Hdir Hprog]. constructor; [by apply add_process_wf|done| |];
    destruct Hwf as [[Hlen _ _] _ _];
    unfold add_process, flush_tlb, set_dir, set_tables; cbn [in_memory page_directory];
    unfold PAGE_SIZE, PROCESS_IDX in *.
  - intros i Hi Hne. rewrite at_upd_ne by lia. by apply Hdir.
  - rewrite at_upd_eq by lia. right.
    unfold USER_SPACE, PROCESS_SIZE_, PROCESS_SET.
    assert (Hm : u32 (0x800000 + u32 pid * 0x400000) = (2 + u32 pid) mod 2 ^ 10 * 2 ^ 22).
    { unfold u32 at 1. replace (0x800000 + u32 pid * 0x400000) with ((2 + u32 pid) * 2 ^ 22) by lia.
      change (2 ^ 32) with (2 ^ 10 * 2 ^ 22). by rewrite Z.mul_mod_distr_r by lia. }
    rewrite Hm, lor_flags by lia. pose proof (Z.mod_pos_bound (2 + u32 pid) (2 ^ 10)).
    rewrite u32_id by lia. eauto.
Qed.

(** An entry that points at an aligned table. *)
Lemma table_entry base b : base = base / 2 ^ 12 * 2 ^ 12 -> 0 <= b < 2 ^ 12 ->
  (base + b) / 2 ^ 12 * 2 ^ 12 = base /\ forall i, 0 <= i < 12 -> bit (base + b) i = bit b i.
Proof using Type.
  intros Hb Hf. split.
  - rewrite Hb. by rewrite high_part by lia.
  - intros i Hi. rewrite Hb. by apply low_bit.
Qed.

Lemma walk_boot t v :
  linked -> 0 <= v < 2 ^ 32 ->
  let i := v / 2 ^ 22 in
  i <> PROCESS_IDX -> at_ (page_directory t) i = boot_entry i ->
  walk true t v =
    if decide (i = 0) then walk_table (page_table t) 3 v
    else if decide (i = 1) then Some (Mapped v false)
    else if decide (i = 64) then walk_table (user_page_table t) 7 v
    else None.
Proof using Type.
  intros [_ Hpt Hupt ? ? Hne] Hv i Hi He. unfold walk. fold i. rewrite He. unfold boot_entry.
  pose proof (Z.div_mod v (2 ^ 22)). pose proof (Z.mod_pos_bound v (2 ^ 22)).
  destruct_decide (decide (i = 0)).
  { destruct (table_entry page_table_at 3 Hpt) as [Hhi Hlo]; [lia|].
    unfold walk_table. rewrite !Hlo, Hhi by lia.
    change (bit 3 0) with true. change (bit 3 7) with false. cbn [negb].
    by rewrite decide_True by done. }
  destruct_decide (decide (i = 1)).
  { unfold KERNEL_MEM. change (bit (0x400000 + 0x83) 0) with true.
    change (bit (0x400000 + 0x83) 7) with true. change (bit (0x400000 + 0x83) 2) with false.
    cbn [negb]. change ((0x400000 + 0x83) / 2 ^ 22 * 2 ^ 22) with 0x400000.
    do 2 f_equal. unfold i in *. lia. }
  destruct_decide (decide (i = 64)); [|done].
  destruct (table_entry user_page_table_at 7 Hupt) as [Hhi Hlo]; [lia|].
  unfold walk_table. rewrite !Hlo, Hhi by lia.
  change (bit 7 0) with true. change (bit 7 7) with false. cbn [negb].
  by rewrite decide_False, decide_True by done.
Qed.

(** One video page is remapped and nothing else moves. *)
Definition page_of (v : Z) : Z := v / 2 ^ 12.

Lemma map_virt_to_phys_inv v0 PHYS p :
  linked -> 64 = v0 / 2 ^ 22 -> paging_inv p -> paging_inv (map_virt_to_phys v0 PHYS p).
Proof using Type.
  intros Hl Hv0 [Hwf Hpt Hdir Hprog]. constructor; [by apply map_virt_to_phys_wf|done| |];
    destruct Hwf as [[Hlen _ _] _ _];
    unfold map_virt_to_phys, flush_tlb, set_user_pte, set_dir, set_tables;
    cbn [in_memory page_directory]; rewrite Z.shiftr_div_pow2 by done;
    change (2 ^ DIR_IDX_SHIFT) with (2 ^ 22); rewrite <- Hv0; unfold PAGE_SIZE, PROCESS_IDX in *.
  - intros i Hi Hne. rewrite at_upd by lia. case_decide; [subst i|by apply Hdir].
    destruct Hl. unfold boot_entry, USER_MASK. simpl.
    rewrite upt_aligned0, lor_flags, <- upt_aligned0 by lia. apply u32_id. lia.
  - by rewrite at_upd_ne by lia.
Qed.

Lemma translate_map_virt_to_phys v0 PHYS p v :
  linked -> 64 = v0 / 2 ^ 22 -> paging_inv p -> 0 <= PHYS < 2 ^ 32 ->
  0 <= v < 2 ^ 32 ->
  translate (map_virt_to_phys v0 PHYS p) v =
  if decide (page_of v = page_of v0) then
    Some (Mapped (page_of PHYS * 2 ^ 12 + v mod 2 ^ 12) (bit PHYS 2))
  else translate p v.
Proof using Type.
  intros Hl Hv0 Hinv HP Hv. pose proof (map_virt_to_phys_inv v0 PHYS p Hl Hv0 Hinv) as Hinv'.
  rewrite !translate_walk by (apply inv_wf; done). unfold page_of.
  pose proof (Z.div_mod v (2 ^ 22)). pose proof (Z.mod_pos_bound v (2 ^ 22)).
  pose proof (Z.div_mod v (2 ^ 12)). pose proof (Z.mod_pos_bound v (2 ^ 12)).
  pose proof (Z.div_mod v0 (2 ^ 12)). pose proof (Z.mod_pos_bound v0 (2 ^ 12)).
  pose proof (Z.div_mod v0 (2 ^ 22)). pose proof (Z.mod_pos_bound v0 (2 ^ 22)).
  destruct_decide (decide (v / 2 ^ 22 = PROCESS_IDX)) as Hprog.
  - rewrite decide_False by (unfold PROCESS_IDX in *; lia).
    destruct Hinv as [Hwf _ _ Hp]. cbv zeta in Hp.
    unfold walk. rewrite Hprog.
    replace (at_ (page_directory (in_memory (map_virt_to_phys v0 PHYS p))) PROCESS_IDX)
      with (at_ (page_directory (in_memory p)) PROCESS_IDX).
    2: { symmetry. unfold map_virt_to_phys, flush_tlb, set_user_pte, set_dir, set_tables.
         cbn [in_memory page_directory]. rewrite Z.shiftr_div_pow2 by done.
         change (2 ^ DIR_IDX_SHIFT) with (2 ^ 22). rewrite <- Hv0.
         unfold PROCESS_IDX. by rewrite at_upd_ne by lia. }
    unfold PROCESS_SET in Hp. destruct Hp as [->|[frame ->]]; [done|].
    rewrite !low_bit by lia. done.
  - assert (0 <= v / 2 ^ 22) by (apply Z.div_pos; lia).
    rewrite !walk_boot by (done || (apply inv_dir; [done|unfold PAGE_SIZE; lia|done])).
    destruct_decide (decide (v / 2 ^ 22 = 0)).
    { rewrite decide_False by lia. by rewrite (inv_pt _ Hinv), (inv_pt _ Hinv'). }
    destruct_decide (decide (v / 2 ^ 22 = 1)); [by rewrite decide_False by lia|].
    destruct_decide (decide (v / 2 ^ 22 = 64)); [|by rewrite decide_False by lia].
    unfold walk_table.
    replace (user_page_table (in_memory (map_virt_to_phys v0 PHYS p))) with
      (upd (user_page_table (in_memory p)) (v0 / 2 ^ 12 mod 2 ^ 10) (Z.lor PHYS RW_P_SET)).
    2: { unfold map_virt_to_phys, flush_tlb, set_user_pte, set_dir, set_tables.
         cbn [in_memory user_page_table]. unfold CLEAR_DIR_IDX, TABLE_IDX_SHIFT.
         change 0x3FFFFF with (Z.ones 22). rewrite Z.land_ones, Z.shiftr_div_pow2 by lia.
         f_equal; [|symmetry; by apply u32_id, lor_range].
         apply table_index. }
    destruct Hinv as [[[_ _ Hlen] _ _] _ _ _]. unfold PAGE_SIZE in Hlen.
    pose proof (Z.mod_pos_bound (v / 2 ^ 12) (2 ^ 10)).
    pose proof (Z.mod_pos_bound (v0 / 2 ^ 12) (2 ^ 10)).
    rewrite at_upd by lia.
    pose proof (Z.div_div v (2 ^ 12) (2 ^ 10)) as Hq. pose proof (Z.div_div v0 (2 ^ 12) (2 ^ 10)) as Hq0.
    pose proof (Z.div_mod (v / 2 ^ 12) (2 ^ 10)). pose proof (Z.div_mod (v0 / 2 ^ 12) (2 ^ 10)).
    change (2 ^ 12 * 2 ^ 10) with (2 ^ 22) in *.
    destruct_decide (decide (v / 2 ^ 12 = v0 / 2 ^ 12)) as Hpage.
    + rewrite decide_True by congruence. unfold bit. unfold RW_P_SET, RW_SET_ONLY.
      rewrite !Z.lor_spec. simpl. rewrite !orb_true_r, orb_false_r. do 3 f_equal.
      rewrite <- !Z.shiftr_div_pow2, Z.shiftr_lor by lia. simpl. by rewrite Z.lor_0_r.
    + by rewrite decide_False by lia.
Qed.

(** * paging_init establishes it *)

Opaque for_.

Lemma fill_loop {S} (get : S -> list Z) (f : Z -> S -> S) v n s :
  0 <= n -> length (get s) = Z.to_nat n ->
  (forall i s, get (f i s) = upd (get s) i v) ->
  get (for_ 0 n f s) = replicate (Z.to_nat n) v.
Proof using Type.
  intros Hn Hlen Hf.
  pose proof (for_ind (fun j s' => length (get s') = Z.to_nat n /\
    forall i, 0 <= i < j -> at_ (get s') i = v) 0 n f s) as H.
  destruct H as [Hl Hall]; [done|split; [done|lia]| |].
  - intros j s' Hj [Hl Hi]. rewrite Hf, length_upd. split; [done|]. intros i Hi'.
    rewrite at_upd by lia. case_decide; [done|]. apply Hi. lia.
  - apply at_ext; [by rewrite length_replicate|]. intros i Hi. rewrite Hall by lia.
    by rewrite at_replicate by lia.
Qed.

(** A loop that leaves a component alone. *)
Lemma for_const {S A} (get : S -> A) (f : Z -> S -> S) lo hi s :
  lo <= hi -> (forall i s, get (f i s) = get s) -> get (for_ lo hi f s) = get s.
Proof using Type.
  intros Hle Hf. apply (for_ind (fun _ s' => get s' = get s)); [done|done|].
  intros j s' _ H. by rewrite Hf.
Qed.

Abbreviation dir p := (page_directory (in_memory p)).
Abbreviation pt p := (page_table (in_memory p)).
Abbreviation upt p := (user_page_table (in_memory p)).

Lemma dir_set_dir i v p : dir (set_dir i v p) = upd (dir p) i (u32 v). Proof using Type. done. Qed.
Lemma pt_set_dir i v p : pt (set_dir i v p) = pt p. Proof using Type. done. Qed.
Lemma upt_set_dir i v p : upt (set_dir i v p) = upt p. Proof using Type. done. Qed.
Lemma dir_set_pte i v p : dir (set_pte i v p) = dir p. Proof using Type. done. Qed.
Lemma pt_set_pte i v p : pt (set_pte i v p) = upd (pt p) i (u32 v). Proof using Type. done. Qed.
Lemma upt_set_pte i v p : upt (set_pte i v p) = upt p. Proof using Type. done. Qed.
Lemma dir_map v a p : dir (map_virt_to_phys v a p) =
  upd (dir p) (Z.shiftr v DIR_IDX_SHIFT) (u32 (Z.lor user_page_table_at USER_MASK)).
Proof using Type. done. Qed.
Lemma dir_or_dir i v p : dir (or_dir i v p) = upd (dir p) i (u32 (Z.lor (at_ (dir p) i) v)).
Proof using Type. done. Qed.
Lemma pt_or_dir i v p : pt (or_dir i v p) = pt p. Proof using Type. done. Qed.
Lemma upt_or_dir i v p : upt (or_dir i v p) = upt p. Proof using Type. done. Qed.
Lemma dir_or_pte i v p : dir (or_pte i v p) = dir p. Proof using Type. done. Qed.
Lemma pt_or_pte i v p : pt (or_pte i v p) = upd (pt p) i (u32 (Z.lor (at_ (pt p) i) v)).
Proof using Type. done. Qed.
Lemma upt_or_pte i v p : upt (or_pte i v p) = upt p. Proof using Type. done. Qed.
Lemma in_memory_enable p : in_memory (enablePaging p) = in_memory p. Proof using Type. done. Qed.
Lemma enable_fresh p : in_tlb (enablePaging p) = in_memory (enablePaging p).
Proof using Type. done. Qed.
Lemma enable_on p : bit (cr0 (enablePaging p)) 31 = true.
Proof using Type.
  change (cr0 (enablePaging p)) with (Z.lor (cr0 p) 0x80000000).
  unfold bit. by rewrite Z.lor_spec, orb_true_r.
Qed.
Lemma enable_root p : page_directory_at = page_directory_at / 2 ^ 12 * 2 ^ 12 ->
  cr3 (enablePaging p) / 2 ^ 12 * 2 ^ 12 = page_directory_at.
Proof using Type. by intros E. Qed.
Lemma enable_pse p : bit (cr4 (enablePaging p)) 4 = true.
Proof using Type.
  change (cr4 (enablePaging p)) with (Z.lor (cr4 p) 0x10). unfold bit. by rewrite Z.lor_spec, orb_true_r.
Qed.
Lemma pt_map v a p : pt (map_virt_to_phys v a p) = pt p. Proof using Type. done. Qed.
Lemma upt_map v a p : upt (map_virt_to_phys v a p) =
  upd (upt p) (Z.shiftr (Z.land v CLEAR_DIR_IDX) TABLE_IDX_SHIFT) (u32 (Z.lor a RW_P_SET)).
Proof using Type. done. Qed.

Lemma u32_flags base b : base = base / 2 ^ 12 * 2 ^ 12 -> 0 <= base < 2 ^ 32 -> 0 <= b < 2 ^ 12 ->
  u32 (Z.lor base b) = base + b.
Proof using Type. intros E Hb Hf. rewrite E, lor_flags by lia. apply u32_id. lia. Qed.

Lemma paging_init_dir p : linked -> tables_wf (in_memory p) ->
  dir (paging_init p) =
    upd (upd (upd (replicate (Z.to_nat PAGE_SIZE) RW_SET_ONLY) 1 (KERNEL_MEM + 0x83))
              0 (page_table_at + 3)) 64 (user_page_table_at + 7).
Proof using Type.
  intros [] [Hd _ _]. unfold paging_init.
  rewrite in_memory_enable, !dir_map, dir_or_pte, dir_set_pte.
  rewrite (for_const (fun s => page_directory (in_memory s))) by done.
  rewrite !dir_or_dir, !dir_set_dir, !dir_or_dir, !dir_set_dir.
  rewrite (fill_loop (fun s => page_directory (in_memory s)) _ RW_SET_ONLY) by done.
  assert (HL : length (replicate (Z.to_nat PAGE_SIZE) RW_SET_ONLY) = Z.to_nat PAGE_SIZE)
    by apply length_replicate.
  revert HL. generalize (replicate (Z.to_nat PAGE_SIZE) RW_SET_ONLY). intros L HL.
  unfold PAGE_SIZE in HL.
  assert (E1 : Z.shiftr VIRT_VID_TERM1 DIR_IDX_SHIFT = 64) by reflexivity.
  assert (E2 : Z.shiftr VIRT_VID_TERM2 DIR_IDX_SHIFT = 64) by reflexivity.
  assert (E3 : Z.shiftr VIRT_VID_TERM3 DIR_IDX_SHIFT = 64) by reflexivity.
  assert (E4 : u32 (Z.lor (u32 KERNEL_MEM) RW_P_SIZE_SET) = KERNEL_MEM + 0x83) by reflexivity.
  rewrite !at_upd_eq by (rewrite ?length_upd; lia). rewrite E1, E2, E3, E4, !upd_upd.
  unfold USER_MASK. change RW_P_SET with 3.
  rewrite (u32_id page_table_at) by done. rewrite !u32_flags by (done || lia). reflexivity.
Qed.

Lemma paging_init_pt p : tables_wf (in_memory p) -> pt (paging_init p) = boot_page_table.
Proof using Type.
  intros [_ Hp _]. unfold paging_init.
  rewrite in_memory_enable, !pt_map, pt_or_pte, pt_set_pte.
  rewrite (fill_loop (fun s => page_table (in_memory s)) _ RW_SET_ONLY); [|done| |done].
  - assert (HL : length (replicate (Z.to_nat PAGE_SIZE) RW_SET_ONLY) = Z.to_nat PAGE_SIZE)
      by apply length_replicate.
    unfold boot_page_table.
    revert HL. generalize (replicate (Z.to_nat PAGE_SIZE) RW_SET_ONLY). intros L HL.
    unfold PAGE_SIZE in HL.
    assert (E : Z.shiftr VIDEO_PAGE TABLE_IDX_SHIFT = 0xB8) by reflexivity. rewrite E.
    rewrite at_upd_eq, upd_upd by lia. reflexivity.
  - rewrite pt_or_dir, pt_set_dir, pt_or_dir, pt_set_dir. by rewrite (for_const (fun s => page_table (in_memory s))) by done.
Qed.

Lemma paging_init_upt p :
  upt (paging_init p) =
    upd (upd (upd (upt p) 0 (BACKUP_VID1 + 3)) 1 (BACKUP_VID2 + 3)) 2 (BACKUP_VID3 + 3).
Proof using Type.
  unfold paging_init.
  rewrite in_memory_enable, !upt_map, upt_or_pte, upt_set_pte.
  rewrite (for_const (fun s => user_page_table (in_memory s))) by done.
  rewrite upt_or_dir, upt_set_dir, upt_or_dir, upt_set_dir.
  by rewrite (for_const (fun s => user_page_table (in_memory s))) by done.
Qed.

Lemma paging_init_inv p : linked -> tables_wf (in_memory p) ->
  paging_inv (paging_init p).
Proof using Type.
  intros Hl Hwf. pose proof (paging_init_dir p Hl Hwf) as D.
  constructor.
  - constructor; [constructor|..].
    + rewrite D. by rewrite !length_upd, length_replicate.
    + rewrite paging_init_pt by done. unfold boot_page_table.
      by rewrite length_upd, length_replicate.
    + rewrite paging_init_upt, !length_upd. by destruct Hwf.
    + unfold paging_init. apply enable_fresh.
    + unfold paging_init. apply enable_on.
    + unfold paging_init. apply enable_root, Hl.
    + unfold paging_init. apply enable_pse.
  - by apply paging_init_pt.
  - intros i Hi Hne. rewrite D. unfold PAGE_SIZE in *.
    unfold boot_entry. rewrite at_upd by (rewrite ?length_upd, ?length_replicate; lia).
    rewrite at_upd by (rewrite ?length_upd, ?length_replicate; lia).
    rewrite at_upd by (rewrite ?length_replicate; lia).
    repeat case_decide; try lia; try done. by rewrite at_replicate by lia.
  - left. rewrite D. unfold PROCESS_IDX, PAGE_SIZE.
    rewrite !at_upd_ne by lia. by rewrite at_replicate by lia.
Qed.

(** The address space the kernel boots with. *)
Definition boot_mapping (v : Z) : option mapping :=
  if decide (page_of v = 0xB8) then Some (Mapped v false)
  else if decide (KERNEL_MEM <= v < 2 * KERNEL_MEM) then Some (Mapped v false)
  else if decide (VIRT_VID_TERM1 <= v < VIRT_VID_TERM1 + 3 * 2 ^ 12) then
    Some (Mapped (BACKUP_VID1 + (v - VIRT_VID_TERM1)) false)
  else None.

Lemma boot_translation p v : linked -> tables_wf (in_memory p) ->
  (forall i, 0 <= i < PAGE_SIZE -> at_ (upt p) i = 0) -> 0 <= v < 2 ^ 32 ->
  translate (paging_init p) v = boot_mapping v.
Proof using Type.
  intros Hl Hwf Hz Hv. pose proof (paging_init_inv p Hl Hwf) as Hinv.
  rewrite translate_walk by apply Hinv. unfold boot_mapping, page_of, KERNEL_MEM, VIRT_VID_TERM1.
  pose proof (Z.div_mod v (2 ^ 22)). pose proof (Z.mod_pos_bound v (2 ^ 22)).
  pose proof (Z.div_mod v (2 ^ 12)). pose proof (Z.mod_pos_bound v (2 ^ 12)).
  assert (0 <= v / 2 ^ 22) by (apply Z.div_pos; lia).
  destruct_decide (decide (v / 2 ^ 22 = PROCESS_IDX)) as Hprog.
  { unfold PROCESS_IDX in *. rewrite !decide_False by lia. unfold walk.
    rewrite Hprog, paging_init_dir by done. unfold PAGE_SIZE.
    rewrite !at_upd_ne by lia. by rewrite at_replicate by lia. }
  rewrite walk_boot by (done || (apply inv_dir; [done|unfold PAGE_SIZE; lia|done])).
  unfold walk_table. rewrite paging_init_pt, paging_init_upt by done.
  assert (Hix : 0 <= v / 2 ^ 12 mod 2 ^ 10 < 1024) by (by apply Z.mod_pos_bound).
  rewrite table_index in Hix |- *.
  pose proof (Z.div_mod (v mod 2 ^ 22) (2 ^ 12)). pose proof (Z.mod_pos_bound (v mod 2 ^ 22) (2 ^ 12)).
  assert (Hmm : v mod 2 ^ 22 mod 2 ^ 12 = v mod 2 ^ 12).
  { change (2 ^ 22) with (2 ^ 12 * 2 ^ 10).
    rewrite Z.rem_mul_r, (Z.mul_comm (2 ^ 12)), Z.mod_add, Z.mod_mod by lia. done. }
  rewrite Hmm in *.
  destruct_decide (decide (v / 2 ^ 22 = 0)).
  { unfold boot_page_table. rewrite at_upd by (rewrite ?length_replicate; unfold PAGE_SIZE; lia).
    destruct_decide (decide (0xB8 = v mod 2 ^ 22 / 2 ^ 12)).
    - change (bit (VIDEO_PAGE + 3) 0) with true. rewrite decide_True by lia.
      change (bit 3 2) with false. change ((VIDEO_PAGE + 3) / 2 ^ 12 * 2 ^ 12) with 0xB8000.
      cbn [andb]. do 2 f_equal. lia.
    - rewrite at_replicate by (unfold PAGE_SIZE; lia). by rewrite !decide_False by lia. }
  destruct_decide (decide (v / 2 ^ 22 = 1)).
  { rewrite decide_False, decide_True by lia. done. }
  destruct_decide (decide (v / 2 ^ 22 = 64)); [|by rewrite !decide_False by lia].
  rewrite (decide_False (P := v / 2 ^ 12 = _)), (decide_False (P := 0x400000 <= v < _)) by lia.
  destruct Hwf as [_ _ Hlen]. unfold PAGE_SIZE in *.
  rewrite !at_upd by (rewrite ?length_upd; lia). rewrite (Hz (v mod 2 ^ 22 / 2 ^ 12)) by lia.
  unfold BACKUP_VID1, BACKUP_VID2, BACKUP_VID3.
  set (ix := v mod 2 ^ 22 / 2 ^ 12) in *.
  destruct_decide (decide (2 = ix)).
  { rewrite decide_True by lia. change (bit (0xBB000 + 3) 0) with true.
    change ((0xBB000 + 3) / 2 ^ 12 * 2 ^ 12) with 0xBB000. do 2 f_equal. lia. }
  destruct_decide (decide (1 = ix)).
  { rewrite decide_True by lia. change (bit (0xBA000 + 3) 0) with true.
    change ((0xBA000 + 3) / 2 ^ 12 * 2 ^ 12) with 0xBA000. do 2 f_equal. lia. }
  destruct_decide (decide (0 = ix)).
  { rewrite decide_True by lia. change (bit (0xB9000 + 3) 0) with true.
    change ((0xB9000 + 3) / 2 ^ 12 * 2 ^ 12) with 0xB9000. do 2 f_equal. lia. }
  by rewrite decide_False by lia.
Qed.

(** C40: After paging_init the machine, which walks the directory CR3 points
    to and takes 4 MB pages only when CR4 allows them, translates exactly the
    video page, the kernel's four megabytes (identity) and the three backup
    windows, all supervisor only, and nothing else. *)
Lemma translate_paging_init p v : linked -> tables_wf (in_memory p) ->
  (forall i, 0 <= i < PAGE_SIZE -> at_ (upt p) i = 0) -> 0 <= v < 2 ^ 32 ->
  translate (paging_init p) v = boot_mapping v.
Proof using Type. exact (boot_translation p v). Qed.

(** The kernel's own view of video memory never moves. *)
Lemma translate_video p : linked -> paging_inv p ->
  translate p VIDEO_PAGE = Some (Mapped VIDEO_PAGE false).
Proof using Type.
  intros Hl Hinv. rewrite translate_walk by apply Hinv.
  rewrite walk_boot; [|done|unfold VIDEO_PAGE; lia|done|by apply (inv_dir p Hinv)].
  rewrite decide_True by done. unfold walk_table. rewrite (inv_pt p Hinv). unfold boot_page_table.
  change (VIDEO_PAGE / 2 ^ 12 mod 2 ^ 10) with 0xB8.
  rewrite at_upd_eq by (rewrite length_replicate; unfold PAGE_SIZE; lia). done.
Qed.
End paging.
