(* ===== verification/Kernel.v ===== *)
(** The kernel's global state, gathered from the files that declare it, and
    the monad its code runs in.

    A kernel function returns, or it hands the processor over (to user code,
    to the parent's [execute], to another terminal's stack) and does not
    return: [Jump].  Variables the C code shares between files ([curr_terminal]
    of lib.h, [current_process] of terminal.h, [in_use] and [process_array] of
    syscall.h) are one field here, read and written by every component. *)

From S2P Require Import Prelude Hardware Screen FileSystem Pic Idt Segments Rtc Paging.

(** * Data *)

(** ** fd_table.h: the jump tables and the descriptors *)
Inductive ops_table : Type := rtc_ops_table | filesys_ops_table | dir_ops_table
  | kybd_ops_table | term_ops_table.
#[export] Instance ops_table_eq_dec : EqDecision ops_table.
Proof. solve_decision. Defined.

(** The driver whose four functions a jump table holds. *)
Inductive driver : Type := rtc_driver | file_driver | dir_driver | kybd_driver | term_driver.
#[export] Instance driver_eq_dec : EqDecision driver.
Proof. solve_decision. Defined.

Record fd_op_table_t : Type := mkOps {
  op_open : option driver;
  op_read : option driver;
  op_write : option driver;
  op_close : option driver;
}.

Record fd_t : Type := mkFd {
  fd_jump : option ops_table;   (* [None] is NULL *)
  inode_ptr : Z;
  file_position : Z;
  flags : Z;
}.
#[export] Instance fd_eq_dec : EqDecision fd_t.
Proof. solve_decision. Defined.
#[export] Instance fd_inhabited : Inhabited fd_t := populate (mkFd None (-1) 0 0).

(** ** syscall.h: process_control_block *)
Record pcb : Type := mkPcb {
  process_id : Z;
  parent_id : Z;
  current_esp : Z;
  current_ebp : Z;
  return_esp : Z;
  return_ebp : Z;
  args : list Z;
  fd_table : list fd_t;
}.

Definition K_STACK_BOTTOM := 0x00800000.
Definition PROCESS_SIZE := 0x00002000.
Definition MAX_PROCESSES := 8.
Definition FD_TABLE_SIZE := 8.
Definition TERM_BUFF_SIZE := 128.
Definition BUFFER_SIZE := 128.

Record proc_state : Type := mkProcs {
  process_array : list (option Z);     (* pointers, [MAX_PROCESSES] *)
  in_use : list Z;                     (* [MAX_PROCESSES] *)
  current_process : list Z;            (* [MAX_TERMINAL] *)
  pcbs : gmap Z pcb;                   (* the control blocks in memory *)
  cmd_args : list (list Z);            (* [MAX_TERMINAL][TERM_BUFF_SIZE] *)
}.

(** ** keyboard.c: static variables *)
Record kbd_state : Type := mkKbd {
  CTR4 : Z;
  CTR3 : Z;
  caps_shift_flag : list Z;
  ctrl_flag : Z;
  alt_flag : Z;
  buffer_index : list Z;
  buffer : list (list Z);
  kbdr_flag : Z;
}.

(** The TSS fields the kernel uses, the segments, and syscall.c's exit
    status. *)
Record cpu_state : Type := mkCpu {
  tss_esp0 : Z;
  tss_ss0 : Z;
  extended_status : Z;
  exception_flag : Z;
  segs : segments;
}.

(** Addresses the linker chose. *)
Record link_map : Type := mkLink {
  page_directory_at : Z;
  page_table_at : Z;
  user_page_table_at : Z;
  ldt_at : Z;
  tss_at : Z;
  exception_addr : Z -> Z;
  syscall_handler_at : Z;
  keyboard_handler_at : Z;
  rtc_handler_at : Z;
  pit_handler_at : Z;
}.

Record kernel : Type := mkKernel {
  link : link_map;
  lib : lib_state;
  fs : fs_state;
  procs : proc_state;
  ops : ops_table -> fd_op_table_t;
  rtc : rtc_state;
  kbd : kbd_state;
  save_buff : list (list Z);    (* terminal.c, [MAX_TERMINAL][TERM_BUFF_SIZE] *)
  paging : paging_state;
  cpu : cpu_state;
  masks : Z * Z;                (* i8259.c: master_mask, slave_mask *)
  idt : list idt_desc;
}.

Definition with_lib x k := mkKernel (link k) x (fs k) (procs k) (ops k) (rtc k) (kbd k)
  (save_buff k) (paging k) (cpu k) (masks k) (idt k).
Definition with_fs x k := mkKernel (link k) (lib k) x (procs k) (ops k) (rtc k) (kbd k)
  (save_buff k) (paging k) (cpu k) (masks k) (idt k).
Definition with_procs x k := mkKernel (link k) (lib k) (fs k) x (ops k) (rtc k) (kbd k)
  (save_buff k) (paging k) (cpu k) (masks k) (idt k).
Definition with_ops x k := mkKernel (link k) (lib k) (fs k) (procs k) x (rtc k) (kbd k)
  (save_buff k) (paging k) (cpu k) (masks k) (idt k).
Definition with_rtc x k := mkKernel (link k) (lib k) (fs k) (procs k) (ops k) x (kbd k)
  (save_buff k) (paging k) (cpu k) (masks k) (idt k).
Definition with_kbd x k := mkKernel (link k) (lib k) (fs k) (procs k) (ops k) (rtc k) x
  (save_buff k) (paging k) (cpu k) (masks k) (idt k).
Definition with_save_buff x k := mkKernel (link k) (lib k) (fs k) (procs k) (ops k) (rtc k) (kbd k)
  x (paging k) (cpu k) (masks k) (idt k).
Definition with_paging x k := mkKernel (link k) (lib k) (fs k) (procs k) (ops k) (rtc k) (kbd k)
  (save_buff k) x (cpu k) (masks k) (idt k).
Definition with_cpu x k := mkKernel (link k) (lib k) (fs k) (procs k) (ops k) (rtc k) (kbd k)
  (save_buff k) (paging k) x (masks k) (idt k).
Definition with_masks x k := mkKernel (link k) (lib k) (fs k) (procs k) (ops k) (rtc k) (kbd k)
  (save_buff k) (paging k) (cpu k) x (idt k).
Definition with_idt x k := mkKernel (link k) (lib k) (fs k) (procs k) (ops k) (rtc k) (kbd k)
  (save_buff k) (paging k) (cpu k) (masks k) x.

(** * The monad *)

(** Where the processor goes when a function does not return. *)
Inductive transfer : Type :=
| ToUser (eip esp : Z)                (* user_context_switch: IRET *)
| ToExecuteReturn (esp ebp eax : Z)   (* halt: jmp execute_return *)
| ToStack (esp ebp : Z).              (* terminal_switch: return on that stack *)

Inductive result (A : Type) : Type :=
| Returned (a : A)
| Jump (t : transfer).
Arguments Returned {A} a.
Arguments Jump {A} t.

Definition K (A : Type) : Type := kernel -> outcome (result A * kernel).

#[export] Instance K_ret : MRet K := fun A a k => Ok (Returned a, k).
#[export] Instance K_bind : MBind K := fun A B f m k =>
  match m k with
  | Ok (Returned a, k') => f a k'
  | Ok (Jump t, k') => Ok (Jump t, k')
  | Fault => Fault
  | NoFuel => NoFuel
  end.

Definition gets {A} (f : kernel -> A) : K A := fun k => Ok (Returned (f k), k).
Definition modify (f : kernel -> kernel) : K unit := fun k => Ok (Returned tt, f k).
Definition lift {A} (o : outcome A) : K A := fun k => a ← o; Ok (Returned a, k).
Definition jump {A} (t : transfer) : K A := fun k => Ok (Jump t, k).
Definition fault {A} : K A := fun _ => Fault.

(** Console code ([lib.c]) inside the kernel. *)
Definition on_lib (f : lib_state -> lib_state) : K unit := modify (fun k => with_lib (f (lib k)) k).
Definition console {A} (f : lib_state -> outcome (A * lib_state)) : K A := fun k =>
  '(a, s) ← f (lib k); Ok (Returned a, with_lib s k).
Definition console' (f : lib_state -> outcome lib_state) : K unit :=
  console (fun s => s ← f s; Ok (tt, s)).
Definition on_io (f : io_state -> io_state) : K unit :=
  on_lib (fun s => set_io (f (lib_io s)) s).
Definition port {A} (f : io_state -> A * io_state) : K A :=
  console (fun s => let '(a, io) := f (lib_io s) in Ok (a, set_io io s)).
(** Interrupt-controller code: the masks and the ports. *)
Definition on_pic (f : pic_state -> pic_state) : K unit := modify (fun k =>
  let p := f (mkPic (masks k).1 (masks k).2 (lib_io (lib k))) in
  with_masks (master_mask p, slave_mask p) (with_lib (set_io (pic_io p) (lib k)) k)).

(** A loop in the monad; a body that jumps leaves it. *)
Fixpoint kloop {S R} (fuel : nat) (body : S -> K (S + R)) (s : S) : K R :=
  match fuel with
  | O => fun _ => NoFuel
  | Datatypes.S fuel =>
      r ← body s; match r with inl s' => kloop fuel body s' | inr r => mret r end
  end.

(** [kwp m Q J k]: from [k], [m] does not fault, and it returns in a state
    where [Q] holds or jumps in one where [J] does. *)
Definition kwp {A} (m : K A) (Q : A -> kernel -> Prop) (J : transfer -> kernel -> Prop)
    (k : kernel) : Prop :=
  wp (m k) (fun '(r, k') => match r with Returned a => Q a k' | Jump t => J t k' end).

Definition nojump : transfer -> kernel -> Prop := fun _ _ => False.

Section kwp.
Context {A B : Type}.
Implicit Types (Q : A -> kernel -> Prop) (J : transfer -> kernel -> Prop).

Lemma kwp_ret (a : A) Q J k : Q a k -> kwp (mret a) Q J k.
Proof using Type. done. Qed.

Lemma kwp_bind (m : K A) (f : A -> K B) (Q : B -> kernel -> Prop) J k :
  kwp m (fun a => kwp (f a) Q J) J k -> kwp (m ≫= f) Q J k.
Proof using Type.
  unfold kwp, mbind, K_bind. destruct (m k) as [[[a|t] k']| |]; done.
Qed.

Lemma kwp_mono (m : K A) Q Q' J J' k :
  kwp m Q J k -> (forall a k, Q a k -> Q' a k) -> (forall t k, J t k -> J' t k) -> kwp m Q' J' k.
Proof using Type.
  unfold kwp. destruct (m k) as [[[a|t] k']| |]; simpl; naive_solver.
Qed.

Lemma kwp_gets (f : kernel -> A) Q J k : Q (f k) k -> kwp (gets f) Q J k.
Proof using Type. done. Qed.
Lemma kwp_modify f (Q : unit -> kernel -> Prop) J k : Q tt (f k) -> kwp (modify f) Q J k.
Proof using Type. done. Qed.
Lemma kwp_lift (o : outcome A) Q J k : wp o (fun a => Q a k) -> kwp (lift o) Q J k.
Proof using Type. unfold kwp, lift. by destruct o. Qed.
Lemma kwp_jump t Q J k : J t k -> kwp (jump t) Q J k.
Proof using Type. done. Qed.
Lemma kwp_console (f : lib_state -> outcome (A * lib_state)) Q J k :
  wp (f (lib k)) (fun '(a, s) => Q a (with_lib s k)) -> kwp (console f) Q J k.
Proof using Type. unfold kwp, console. by destruct (f (lib k)) as [[a s]| |]. Qed.
Lemma kwp_console' f (Q : unit -> kernel -> Prop) J k :
  wp (f (lib k)) (fun s => Q tt (with_lib s k)) -> kwp (console' f) Q J k.
Proof using Type. unfold kwp, console', console. by destruct (f (lib k)). Qed.
Lemma kwp_port (f : io_state -> A * io_state) Q J k :
  Q (f (lib_io (lib k))).1 (with_lib (set_io (f (lib_io (lib k))).2 (lib k)) k) -> kwp (port f) Q J k.
Proof using Type. unfold port. intros H. apply kwp_console. by destruct (f _). Qed.
Lemma kwp_on_io f (Q : unit -> kernel -> Prop) J k :
  Q tt (with_lib (set_io (f (lib_io (lib k))) (lib k)) k) -> kwp (on_io f) Q J k.
Proof using Type. done. Qed.
Lemma kwp_eq (m : K A) r k k' (Q : A -> kernel -> Prop) J :
  m k = Ok (Returned r, k') -> Q r k' -> kwp m Q J k.
Proof using Type. unfold kwp. by intros ->. Qed.
Lemma kwp_ok (m : K A) k a k' :
  kwp m (fun a' k2 => a' = a /\ k2 = k') nojump k -> m k = Ok (Returned a, k').
Proof using Type.
  unfold kwp. destruct (m k) as [[[x|t] k2]| |]; simpl; [intros [-> ->]; done|done..].
Qed.
Lemma kbind_eq (m : K A) (f : A -> K B) k a k' :
  m k = Ok (Returned a, k') -> (m ≫= f) k = f a k'.
Proof using Type. intros E. unfold mbind, K_bind. by rewrite E. Qed.
Lemma gets_ok (f : kernel -> A) k : gets f k = Ok (Returned (f k), k).
Proof using Type. done. Qed.
Lemma lift_ok (o : outcome A) a k : o = Ok a -> lift o k = Ok (Returned a, k).
Proof using Type. by intros ->. Qed.
Lemma modify_ok (f : kernel -> kernel) k : modify f k = Ok (Returned tt, f k).
Proof using Type. done. Qed.
End kwp.

Lemma kloop_S {S R} fuel (body : S -> K (S + R)) s :
  kloop (Datatypes.S fuel) body s =
  r ← body s; match r with inl s' => kloop fuel body s' | inr r => mret r end.
Proof. done. Qed.

Lemma kwp_kloop {S R} (Inv : S -> kernel -> Prop) (measure : S -> nat) (body : S -> K (S + R))
    (Q : R -> kernel -> Prop) J fuel s k :
  Inv s k -> (measure s < fuel)%nat ->
  (forall s k, Inv s k -> kwp (body s) (fun r k' => match r with
     | inl s' => Inv s' k' /\ (measure s' < measure s)%nat
     | inr r => Q r k' end) J k) ->
  kwp (kloop fuel body s) Q J k.
Proof.
  intros HI Hf Hb. revert s k HI Hf.
  induction fuel as [|fuel IH]; intros s k HI Hf; [lia|]. cbn [kloop].
  apply kwp_bind. eapply kwp_mono; [apply Hb, HI| |done].
  intros [s'|r] k'; [|done]. intros [HI' Hm]. apply IH; [done|lia].
Qed.
Arguments kloop : simpl never.

(** * The running process *)

Definition slot_addr (i : Z) : Z := K_STACK_BOTTOM - PROCESS_SIZE * (1 + i).

(** [process_array[i]->...]: a NULL or wild pointer faults. *)
Definition pcb_of (i : Z) : K (Z * pcb) := fun k =>
  ptr ← rd (process_array (procs k)) i;
  match ptr with
  | None => Fault
  | Some a => match pcbs (procs k) !! a with
              | None => Fault
              | Some p => Ok (Returned (a, p), k)
              end
  end.
Definition curr_term : K Z := gets (fun k => curr_terminal (lib k)).
(** [current_process[curr_terminal]] *)
Definition curr_pid : K Z := fun k =>
  i ← rd (current_process (procs k)) (curr_terminal (lib k)); Ok (Returned i, k).
(** [process_array[current_process[curr_terminal]]] *)
Definition curr_pcb : K (Z * pcb) := i ← curr_pid; pcb_of i.

Definition set_pcbs (m : gmap Z pcb) (s : proc_state) : proc_state :=
  mkProcs (process_array s) (in_use s) (current_process s) m (cmd_args s).
Definition store_pcb (a : Z) (p : pcb) : K unit :=
  modify (fun k => with_procs (set_pcbs (<[a := p]> (pcbs (procs k))) (procs k)) k).

Definition set_fd_table (t : list fd_t) (p : pcb) : pcb :=
  mkPcb (process_id p) (parent_id p) (current_esp p) (current_ebp p)
        (return_esp p) (return_ebp p) (args p) t.

(** The process of the current terminal: slot [i], control block [p]. *)
Record running (k : kernel) (i : Z) (p : pcb) : Prop := {
  run_term : 0 <= curr_terminal (lib k) < zlen (current_process (procs k));
  run_pid : at_ (current_process (procs k)) (curr_terminal (lib k)) = i;
  run_slot : 0 <= i < zlen (process_array (procs k));
  run_ptr : at_ (process_array (procs k)) i = Some (slot_addr i);
  run_pcb : pcbs (procs k) !! slot_addr i = Some p;
}.

Lemma pcb_of_ok k i p : 0 <= i < zlen (process_array (procs k)) ->
  at_ (process_array (procs k)) i = Some (slot_addr i) -> pcbs (procs k) !! slot_addr i = Some p ->
  pcb_of i k = Ok (Returned (slot_addr i, p), k).
Proof. intros Hi Hp Hl. unfold pcb_of. rewrite rd_ok by done. simpl. by rewrite Hp, Hl. Qed.

Lemma curr_pid_ok k i p : running k i p -> curr_pid k = Ok (Returned i, k).
Proof. intros []. unfold curr_pid. rewrite rd_ok by done. simpl. by rewrite run_pid0. Qed.

Lemma curr_pcb_ok k i p : running k i p -> curr_pcb k = Ok (Returned (slot_addr i, p), k).
Proof.
  intros H. unfold curr_pcb. rewrite (kbind_eq _ _ _ _ _ (curr_pid_ok _ _ _ H)).
  destruct H. by apply pcb_of_ok.
Qed.

(** The kernel with the running control block replaced. *)
Definition put_running (i : Z) (p : pcb) (k : kernel) : kernel :=
  with_procs (set_pcbs (<[slot_addr i := p]> (pcbs (procs k))) (procs k)) k.

Lemma store_pcb_ok i p k : store_pcb (slot_addr i) p k = Ok (Returned tt, put_running i p k).
Proof. done. Qed.

Lemma running_put k i p p' : running k i p -> running (put_running i p' k) i p'.
Proof. intros []. constructor; try done. simpl. by rewrite lookup_insert_eq. Qed.

Lemma put_running_twice i p p' k : put_running i p (put_running i p' k) = put_running i p k.
Proof. unfold put_running, with_procs, set_pcbs. simpl. by rewrite insert_insert_eq. Qed.

Lemma put_running_id i p k : running k i p -> put_running i p k = k.
Proof.
  intros []. unfold put_running, with_procs, set_pcbs. rewrite insert_id by done.
  by destruct k as [? ? ? [] ? ? ? ? ? ? ? ?].
Qed.

Lemma running_unique k i p i' p' : running k i p -> running k i' p' -> i = i' /\ p = p'.
Proof. intros [] []. subst. split; [done|congruence]. Qed.

(** * Automation: one step of kernel code *)

(** By an equation for the first statement ... *)
Ltac kstep E := rewrite (kbind_eq _ _ _ _ _ E); cbv beta iota.
(** ... and for a weakest precondition. *)
Ltac kwp_step :=
  lazymatch goal with
  | |- kwp (mbind _ _) _ _ _ => apply kwp_bind
  | |- kwp (mret _) _ _ _ => apply kwp_ret
  | |- kwp (gets _) _ _ _ => apply kwp_gets
  | |- kwp (modify _) _ _ _ => apply kwp_modify
  | |- kwp (port _) _ _ _ => apply kwp_port
  | |- kwp (on_io _) _ _ _ => apply kwp_on_io
  | |- kwp (jump _) _ _ _ => apply kwp_jump
  | |- kwp (lift _) _ _ _ => apply kwp_lift
  | |- kwp (console' _) _ _ _ => apply kwp_console'
  | |- kwp (console _) _ _ _ => apply kwp_console
  | |- kwp (store_pcb _ _) _ _ _ => apply kwp_modify
  | |- kwp (if decide ?P then _ else _) _ _ _ => destruct_decide (decide P)
  | |- wp _ _ => wp_step
  end; cbv beta iota.
Ltac kwp_steps := repeat kwp_step.
