(* ===== verification/FdTable.v ===== *)
(** File descriptors ([student-distrib/fd_table.c]): each process has eight,
    0 and 1 being the keyboard and the terminal. *)

From S2P Require Import Prelude Kernel.

Definition MAX_OPEN_FILES := 8.
Definition FIRST_VALID_INDEX := 2.
Definition FD_OFF := 0.
Definition FD_ON := 1.
Definition STDIN_ := 0.
Definition STDOUT_ := 1.

(** ** fd_table.c: fops_table_init *)
Definition driver_ops (d : driver) : fd_op_table_t := mkOps (Some d) (Some d) (Some d) (Some d).
Definition set_ops (t : ops_table) (d : driver) (ops : ops_table -> fd_op_table_t)
    : ops_table -> fd_op_table_t :=
  fun t' => if decide (t' = t) then driver_ops d else ops t'.
Definition fops_table_init : K unit := modify (fun k => with_ops
  (set_ops kybd_ops_table kybd_driver (set_ops term_ops_table term_driver
    (set_ops dir_ops_table dir_driver (set_ops filesys_ops_table file_driver
      (set_ops rtc_ops_table rtc_driver (ops k)))))) k).

(** ** fd_table.c: fd_table_init *)
Definition closed_fd : fd_t := mkFd None (-1) 0 FD_OFF.
Definition set_flags (v : Z) (f : fd_t) : fd_t := mkFd (fd_jump f) (inode_ptr f) (file_position f) v.
Definition set_jump (v : option ops_table) (f : fd_t) : fd_t :=
  mkFd v (inode_ptr f) (file_position f) (flags f).
Definition fd_table_init (new_table : list fd_t) : outcome (list fd_t) :=
  new_table ← loop 9 (fun '(table_loop, t) =>
    if decide (table_loop < MAX_OPEN_FILES) then
      t ← wr t table_loop closed_fd; mret (inl (table_loop + 1, t))
    else mret (inr t)) (0, new_table);
  out ← rd new_table STDOUT_;
  new_table ← wr new_table STDOUT_ (set_jump (Some term_ops_table) (set_flags FD_ON out));
  inp ← rd new_table STDIN_;
  wr new_table STDIN_ (set_jump (Some kybd_ops_table) (set_flags FD_ON inp)).

(** The running process's descriptor [index], read and updated. *)
Definition curr_fd (index : Z) : K fd_t :=
  '(_, p) ← curr_pcb; lift (rd (fd_table p) index).
Definition update_fd (index : Z) (f : fd_t -> fd_t) : K unit :=
  '(a, p) ← curr_pcb;
  fd ← lift (rd (fd_table p) index);
  t ← lift (wr (fd_table p) index (f fd));
  store_pcb a (set_fd_table t p).

(** ** fd_table.c: close_all_fd *)
Definition close_all_fd : K unit :=
  kloop 9 (fun halt_cnt =>
    if decide (halt_cnt < MAX_OPEN_FILES) then
      _ ← update_fd halt_cnt (fun _ => closed_fd); mret (inl (halt_cnt + 1))
    else mret (inr tt)) 0.

(** ** fd_table.c: get_fd_index *)
Definition get_fd_index : K Z :=
  kloop 7 (fun table_loop =>
    if decide (table_loop < MAX_OPEN_FILES) then
      fd ← curr_fd table_loop;
      mret (if decide (flags fd = FD_OFF) then inr table_loop else inl (table_loop + 1))
    else mret (inr (-1))) FIRST_VALID_INDEX.

(** ** fd_table.c: set_fd_info *)
Definition set_fd_info (index : Z) (file_info : fd_t) : K Z :=
  if decide (index < 0 \/ index >= MAX_OPEN_FILES) then mret (-1) else
  _ ← update_fd index (fun _ => file_info); mret 0.

(** ** fd_table.c: get_inode_ptr, close_fd *)
Definition get_inode_ptr (index : Z) : K Z :=
  if decide (index < 0 \/ index >= MAX_OPEN_FILES) then mret (-1) else
  fd ← curr_fd index; mret (inode_ptr fd).
Definition close_fd (index : Z) : K unit :=
  if decide (index < 0 \/ index >= MAX_OPEN_FILES) then mret tt else
  update_fd index (fun _ => closed_fd).

(** ** fd_table.c: get_file_position, add_offset *)
Definition get_file_position (index : Z) : K Z :=
  fd ← curr_fd index; mret (file_position fd).
Definition add_offset (index amt : Z) : K unit :=
  if decide (index < 0 \/ index >= MAX_OPEN_FILES) then mret tt else
  update_fd index (fun fd =>
    mkFd (fd_jump fd) (inode_ptr fd) (u32 (file_position fd + amt)) (flags fd)).

(** ** fd_table.c: check_valid_fd *)
Definition check_valid_fd (index : Z) : K Z :=
  if decide (index < 0 \/ index >= MAX_OPEN_FILES) then mret 0 else
  fd ← curr_fd index; mret (flags fd).

(** * Descriptor tables *)

(** The table of a live process: the terminal's two descriptors are always
    open, an open descriptor has a driver, a closed one is empty. *)
Record fd_table_wf (t : list fd_t) : Prop := {
  ft_len : length t = Z.to_nat MAX_OPEN_FILES;
  ft_flags : forall i, 0 <= i < MAX_OPEN_FILES -> flags (at_ t i) = FD_OFF \/ flags (at_ t i) = FD_ON;
  ft_jump : forall i, 0 <= i < MAX_OPEN_FILES -> flags (at_ t i) = FD_ON -> is_Some (fd_jump (at_ t i));
  ft_pos : forall i, 0 <= i < MAX_OPEN_FILES -> uint32 (file_position (at_ t i));
}.

Definition initial_fds : list fd_t :=
  [mkFd (Some kybd_ops_table) (-1) 0 FD_ON; mkFd (Some term_ops_table) (-1) 0 FD_ON]
  ++ replicate 6 closed_fd.

Lemma fd_table_init_ok t : length t = Z.to_nat MAX_OPEN_FILES -> fd_table_init t = Ok initial_fds.
Proof.
  intros Hl. destruct t as [|f0 [|f1 [|f2 [|f3 [|f4 [|f5 [|f6 [|f7 [|]]]]]]]]]; try done.
Qed.

Lemma initial_fds_wf : fd_table_wf initial_fds.
Proof.
  constructor; [done| | |]; unfold MAX_OPEN_FILES; intros i Hi;
    assert (i = 0 \/ i = 1 \/ i = 2 \/ i = 3 \/ i = 4 \/ i = 5 \/ i = 6 \/ i = 7) as Hc by lia;
    destruct Hc as [->|[->|[->|[->|[->|[->|[->| ->]]]]]]]; try done; auto; try (by eexists).
Qed.

(** The lowest free descriptor from 2 on. *)
Definition first_free (t : list fd_t) : option Z :=
  snd <$> list_find (fun i => flags (at_ t i) = FD_OFF) (seqZ 2 6).

Section operations.
Variables (k : kernel) (i : Z) (p : pcb).
Hypothesis (R : running k i p) (Hlen : length (fd_table p) = Z.to_nat MAX_OPEN_FILES).
Implicit Types index : Z.

Lemma curr_fd_ok index : 0 <= index < MAX_OPEN_FILES ->
  curr_fd index k = Ok (Returned (at_ (fd_table p) index), k).
Proof using R Hlen.
  intros Hi. unfold curr_fd. rewrite (kbind_eq _ _ _ _ _ (curr_pcb_ok _ _ _ R)).
  unfold lift. by rewrite rd_ok by (unfold MAX_OPEN_FILES in *; lia).
Qed.

Lemma update_fd_ok index f : 0 <= index < MAX_OPEN_FILES ->
  update_fd index f k = Ok (Returned tt,
    put_running i (set_fd_table (upd (fd_table p) index (f (at_ (fd_table p) index))) p) k).
Proof using R Hlen.
  intros Hi. unfold update_fd. rewrite (kbind_eq _ _ _ _ _ (curr_pcb_ok _ _ _ R)).
  unfold MAX_OPEN_FILES in *. unfold lift, mbind, K_bind.
  rewrite rd_ok by lia. simpl. by rewrite wr_ok by lia.
Qed.

Lemma get_fd_index_ok :
  get_fd_index k = Ok (Returned (default (-1) (first_free (fd_table p))), k).
Proof using R Hlen.
  apply kwp_ok. unfold get_fd_index, FIRST_VALID_INDEX.
  set (P := fun j => flags (at_ (fd_table p) j) = FD_OFF).
  apply (kwp_kloop (fun j k' => k' = k /\ 2 <= j <= 8 /\ forall m, 2 <= m < j -> ~ P m)
           (fun j => Z.to_nat (8 - j))); [split; [done|split; [lia|intros; lia]]|lia|].
  intros j k' (-> & Hj & Hprev). unfold first_free. fold P.
  kwp_step.
  - kwp_step. unfold MAX_OPEN_FILES in *. eapply kwp_eq; [apply curr_fd_ok; unfold MAX_OPEN_FILES; lia|].
    kwp_step. fold (P j). destruct_decide (decide (P j)) as HP.
    + split; [|done]. symmetry.
      assert (E : list_find P (seqZ 2 6) = Some (Z.to_nat (j - 2), j)).
      { apply list_find_Some. split; [rewrite lookup_seqZ_lt by lia; f_equal; lia|].
        split; [done|]. intros n y Hy Hn. apply lookup_seqZ in Hy as [-> ?]. apply Hprev. lia. }
      by rewrite E.
    + split; [|lia]. split; [done|]. split; [lia|]. intros m Hm.
      destruct_decide (decide (m = j)); [by subst|apply Hprev; lia].
  - kwp_step. split; [|done].
    assert (E : list_find P (seqZ 2 6) = None).
    { apply list_find_None, Forall_forall. intros m Hm%elem_of_seqZ. apply Hprev.
      unfold MAX_OPEN_FILES in *. lia. }
    by rewrite E.
Qed.

Lemma set_fd_info_ok index fd : 0 <= index < MAX_OPEN_FILES ->
  set_fd_info index fd k = Ok (Returned 0,
    put_running i (set_fd_table (upd (fd_table p) index fd) p) k).
Proof using R Hlen.
  intros Hi. unfold set_fd_info. rewrite decide_False by lia.
  by rewrite (kbind_eq _ _ _ _ _ (update_fd_ok index _ Hi)).
Qed.

Lemma close_fd_ok index : 0 <= index < MAX_OPEN_FILES ->
  close_fd index k = Ok (Returned tt,
    put_running i (set_fd_table (upd (fd_table p) index closed_fd) p) k).
Proof using R Hlen.
  intros Hi. unfold close_fd. rewrite decide_False by lia. by apply update_fd_ok.
Qed.

Lemma get_inode_ptr_ok index : 0 <= index < MAX_OPEN_FILES ->
  get_inode_ptr index k = Ok (Returned (inode_ptr (at_ (fd_table p) index)), k).
Proof using R Hlen.
  intros Hi. unfold get_inode_ptr. rewrite decide_False by lia.
  by rewrite (kbind_eq _ _ _ _ _ (curr_fd_ok index Hi)).
Qed.

Lemma get_file_position_ok index : 0 <= index < MAX_OPEN_FILES ->
  get_file_position index k = Ok (Returned (file_position (at_ (fd_table p) index)), k).
Proof using R Hlen.
  intros Hi. unfold get_file_position. by rewrite (kbind_eq _ _ _ _ _ (curr_fd_ok index Hi)).
Qed.

Definition advance (amt : Z) (fd : fd_t) : fd_t :=
  mkFd (fd_jump fd) (inode_ptr fd) (u32 (file_position fd + amt)) (flags fd).

Lemma add_offset_ok index amt : 0 <= index < MAX_OPEN_FILES ->
  add_offset index amt k = Ok (Returned tt,
    put_running i (set_fd_table (upd (fd_table p) index
      (advance amt (at_ (fd_table p) index))) p) k).
Proof using R Hlen.
  intros Hi. unfold add_offset. rewrite decide_False by lia. by apply update_fd_ok.
Qed.

Lemma check_valid_fd_ok index :
  check_valid_fd index k = Ok (Returned
    (if decide (0 <= index < MAX_OPEN_FILES) then flags (at_ (fd_table p) index) else 0), k).
Proof using R Hlen.
  unfold check_valid_fd. case_decide; [by rewrite decide_False by lia|].
  rewrite decide_True by lia. by rewrite (kbind_eq _ _ _ _ _ (curr_fd_ok index ltac:(lia))).
Qed.
End operations.

(** close_all_fd closes the eight descriptors of the running process. *)
Lemma close_all_fd_ok k i p : running k i p -> length (fd_table p) = Z.to_nat MAX_OPEN_FILES ->
  close_all_fd k = Ok (Returned tt, put_running i (set_fd_table (replicate 8 closed_fd) p) k).
Proof.
  intros R Hlen. apply kwp_ok. unfold close_all_fd.
  apply (kwp_kloop (fun j k' => 0 <= j <= 8 /\ exists t, k' = put_running i (set_fd_table t p) k /\
      length t = Z.to_nat MAX_OPEN_FILES /\ forall m, 0 <= m < j -> at_ t m = closed_fd)
    (fun j => Z.to_nat (8 - j))); [|lia|].
  - split; [lia|]. exists (fd_table p). rewrite (put_running_id i); [split; [done|split; [done|lia]]|].
    by destruct p.
  - intros j k' (Hj & t & -> & Ht & Hall). kwp_step; unfold MAX_OPEN_FILES in *.
    + kwp_step. eapply kwp_eq.
      { apply (update_fd_ok _ i (set_fd_table t p)); [by eapply running_put|done|unfold MAX_OPEN_FILES; lia]. }
      kwp_step. split; [|lia]. split; [lia|]. exists (upd t j closed_fd).
      rewrite put_running_twice, length_upd. split; [done|]. split; [done|].
      intros m Hm. rewrite at_upd by lia. case_decide; [done|]. apply Hall. lia.
    + kwp_step. split; [done|]. do 2 f_equal. apply at_ext; [done|].
      intros m Hm. rewrite Hall by lia. by rewrite at_replicate by (simpl; lia).
Qed.

(** Opening and closing keep a table well formed. *)
Lemma fd_table_wf_upd t index fd :
  fd_table_wf t -> 0 <= index < MAX_OPEN_FILES ->
  flags fd = FD_OFF \/ (flags fd = FD_ON /\ is_Some (fd_jump fd)) -> uint32 (file_position fd) ->
  fd_table_wf (upd t index fd).
Proof.
  unfold MAX_OPEN_FILES. intros [Hl Hf Hj Hp] Hi Hfd Hpos. unfold MAX_OPEN_FILES in *.
  constructor; rewrite ?length_upd; [done|..]; unfold MAX_OPEN_FILES; intros j Hj';
    rewrite at_upd by lia; case_decide; auto.
  - destruct Hfd as [|[? _]]; auto.
  - unfold FD_OFF, FD_ON in *. destruct Hfd as [|[_ ?]]; [lia|auto].
Qed.

Lemma first_free_range t j : first_free t = Some j -> 2 <= j < MAX_OPEN_FILES /\ flags (at_ t j) = FD_OFF.
Proof.
  unfold first_free, MAX_OPEN_FILES. destruct (list_find _ _) as [[n x]|] eqn:E; [|done].
  intros [= <-]. apply list_find_Some in E as (Hl & HP & _).
  apply lookup_seqZ in Hl as [-> ?]. simpl. split; [lia|done].
Qed.

(** Opening then closing a descriptor gives the table back. *)
Lemma open_close_table t j fd : fd_table_wf t -> first_free t = Some j ->
  at_ t j = closed_fd -> upd (upd t j fd) j closed_fd = t.
Proof.
  intros [Hl _ _ _] Hj Hc. apply first_free_range in Hj as [Hr _]. unfold MAX_OPEN_FILES in *.
  rewrite upd_upd, <- Hc. apply upd_id. lia.
Qed.
