(* ===== verification/Drivers.v ===== *)
(** The drivers behind the jump tables: the directory and file drivers of
    [student-distrib/filesystem.c], the RTC driver of [rtc.c] and the terminal
    driver of [terminal.c].

    A user buffer is the array of bytes the caller passed; [None] is NULL.
    The drivers that wait for an interrupt are in [Waiting.v]. *)

From S2P Require Import Prelude Hardware CLib Screen Printf FileSystem Pic Rtc Kernel FdTable.

Definition NUM_SPACES := 34.

Definition kprintf (format : list Z) (args : list arg) : K unit :=
  _ ← console (printf format args); mret tt.
Definition kputc (c : Z) : K unit := console' (putc c).
Definition kclear : K unit := on_lib clear.

(** * Directories *)

(** ** filesystem.c: dir_open *)
Definition dir_open : K Z :=
  fd_index ← get_fd_index;
  if decide (fd_index = -1) then
    _ ← kprintf (litln "No Available FD, dir_open") []; mret (-1)
  else
    _ ← set_fd_info fd_index (mkFd (Some dir_ops_table) (-1) 0 FD_ON);
    mret fd_index.

(** ** filesystem.c: dir_read *)
Definition copy_name (fs : fs_state) (dent_index : Z) (buf : list Z) (nbytes : Z)
    : outcome (Z * list Z) :=
  loop 34 (fun '(bytes_read, buf) =>
    c ← entry_name_char fs dent_index bytes_read;
    if decide (c <> 0 /\ bytes_read < nbytes /\ bytes_read < MAX_NAME_CHARACTERS) then
      c ← entry_name_char fs dent_index bytes_read;
      buf ← wr buf bytes_read c;
      mret (inl (bytes_read + 1, buf))
    else mret (inr (bytes_read, buf))) (0, buf).

Definition dir_read (fd : Z) (buf : list Z) (nbytes : Z) : K (Z * list Z) :=
  position ← get_file_position fd;
  let dent_index := i32 position in
  k ← gets fs;
  if decide (u32 dent_index >= num_entries k) then mret (0, buf) else
  '(bytes_read, buf) ← lift (copy_name k dent_index buf nbytes);
  _ ← add_offset fd 1;
  mret (bytes_read, buf).

(** ** filesystem.c: dir_write, dir_close *)
Definition dir_write (fd : Z) : K Z :=
  _ ← kprintf (litln "READ ONLY DIRECTORY") []; mret (-1).
Definition dir_close (fd : Z) : K Z := _ ← close_fd fd; mret 0.

(** * Files *)

(** ** filesystem.c: file_open

    [my_dentry] is the uninitialised local, which stays as it is when the
    name does not exist. *)
Definition file_open (my_dentry : dentry_t) (filename : list Z) : K Z :=
  k ← gets fs;
  '(_, my_dentry) ← lift (read_dentry_by_name k filename my_dentry);
  fd_index ← get_fd_index;
  if decide (fd_index = -1) then
    _ ← kprintf (litln "No Available FD, file_open") []; mret (-1)
  else
    _ ← set_fd_info fd_index (mkFd (Some filesys_ops_table) (i32 (inode_idx my_dentry)) 0 FD_ON);
    mret fd_index.

(** ** filesystem.c: file_read *)
Definition file_read (fd : Z) (buf : list Z) (nbytes : Z) : K (Z * list Z) :=
  inode ← get_inode_ptr fd;
  position ← get_file_position fd;
  k ← gets fs;
  '(read_amt, buf) ← lift (read_data k (u32 inode) position buf (u32 nbytes));
  let read_amt := u32 read_amt in
  _ ← (if decide (read_amt > 0) then add_offset fd read_amt else mret tt);
  mret (i32 read_amt, buf).

(** ** filesystem.c: file_write, file_close *)
Definition file_write (fd : Z) : K Z :=
  _ ← kprintf (litln "READ ONLY FILES") []; mret (-1).
Definition file_close (fd : Z) : K Z := _ ← close_fd fd; mret 0.

(** * The RTC *)

(** ** rtc.c: set_frequency on the kernel's state; [beyond] is the memory
    after the table of frequencies. *)
Definition kset_frequency (beyond : Z -> Z) (frequency : Z) : K unit := fun k =>
  '(r, io) ← set_frequency beyond frequency (rtc k) (lib_io (lib k));
  Ok (Returned tt, with_rtc r (with_lib (set_io io (lib k)) k)).

(** ** rtc.c: rtc_open, rtc_write, rtc_close *)
Definition rtc_open (beyond : Z -> Z) : K Z :=
  _ ← kset_frequency beyond 2;
  fd_index ← get_fd_index;
  if decide (fd_index = -1) then
    _ ← kprintf (litln "No Available FD, rtc_open") []; mret (-1)
  else
    _ ← set_fd_info fd_index (mkFd (Some rtc_ops_table) (-1) 0 1);
    mret fd_index.

(** The 4-byte frequency at the buffer. *)
Definition word_of (buf : list Z) : outcome Z :=
  b0 ← rd buf 0; b1 ← rd buf 1; b2 ← rd buf 2; b3 ← rd buf 3;
  mret (b0 + 2 ^ 8 * b1 + 2 ^ 16 * b2 + 2 ^ 24 * b3).

Definition rtc_write (beyond : Z -> Z) (buf : list Z) : K Z :=
  speed ← lift (word_of buf);
  _ ← kset_frequency beyond speed;
  mret 0.

Definition rtc_close (fd : Z) : K Z :=
  if decide (fd < FIRST_VALID_INDEX \/ fd > MAX_OPEN_FILES) then
    _ ← kprintf (litln "Invalid FD, rtc_close") []; mret (-1)
  else _ ← close_fd fd; mret 0.

(** * The terminal *)

(** ** terminal.c: terminal_open, terminal_close *)
Definition terminal_open : K Z := mret (-1).
Definition terminal_close (fd : Z) : K Z := mret (-1).

(** ** terminal.c: terminal_read *)
Definition clean_row (row : list Z) : outcome (list Z) :=
  loop 129 (fun '(i, row) =>
    if decide (i < TERM_BUFF_SIZE) then row ← wr row i 0; mret (inl (i + 1, row))
    else mret (inr row)) (0, row).
Definition fill_row (row buf : list Z) (nbytes : Z) : outcome (list Z) :=
  loop 129 (fun '(i, row) =>
    if decide (i < TERM_BUFF_SIZE /\ i < nbytes) then
      c ← rd buf i; row ← wr row i c; mret (inl (i + 1, row))
    else mret (inr row)) (0, row).

Definition terminal_read (buf : option (list Z)) (nbytes : Z) : K Z :=
  match buf with
  | None => mret (-1)
  | Some buf =>
      t ← curr_term;
      saved ← gets save_buff;
      row ← lift (rd saved t);
      row ← lift (clean_row row);
      row ← lift (fill_row row buf nbytes);
      saved ← lift (wr saved t row);
      _ ← modify (with_save_buff saved);
      mret (-1)
  end.

(** ** terminal.c: terminal_write *)
Definition put_bytes (buffer : list Z) (nbytes : Z) (s : lib_state) : outcome (Z * lib_state) :=
  loop (Datatypes.S (length buffer)) (fun '(i, s) =>
    if decide (i < nbytes) then
      c ← rd buffer i; s ← putc (u8 c) s; mret (inl (i + 1, s))
    else mret (inr (i, s))) (0, s).

Definition terminal_write (buf : option (list Z)) (nbytes : Z) : K Z :=
  match buf with
  | None => mret (-1)
  | Some buffer => console (put_bytes buffer nbytes)
  end.

(** ** terminal.c: terminal_retrieve

    Both loops read an element of the saved line before they test the
    index. *)
Definition skip_spaces (row : list Z) (nbytes : Z) : outcome Z :=
  loop 130 (fun i =>
    c ← rd row i;
    mret (if decide (c = 32 /\ i < nbytes /\ i < TERM_BUFF_SIZE) then inl (i + 1) else inr i)) 0.
Definition retrieve_line (row : list Z) (start : Z) (buf : list Z) (nbytes : Z)
    : outcome (Z * list Z) :=
  loop 130 (fun '(i, cmd_cnt, buf) =>
    if decide (cmd_cnt < nbytes /\ i < TERM_BUFF_SIZE) then
      c ← rd row i;
      buf ← wr buf cmd_cnt c;
      if decide (c = 0) then mret (inr (cmd_cnt, buf))
      else mret (inl (i + 1, cmd_cnt + 1, buf))
    else mret (inr (cmd_cnt, buf))) (start, 0, buf).

Definition terminal_retrieve (buf : list Z) (nbytes : Z) : K (Z * list Z) :=
  t ← curr_term;
  saved ← gets save_buff;
  row ← lift (rd saved t);
  i ← lift (skip_spaces row nbytes);
  lift (retrieve_line row i buf nbytes).

(** * Printing files and directories *)

(** ** filesystem.c: print_name *)
Definition print_name (buf : list Z) (max_char : Z) : K Z :=
  console (fun s => loop (Datatypes.S (length buf)) (fun '(i, s) =>
    c ← rd buf i;
    if decide (c <> 0 /\ i < max_char) then s ← putc (u8 c) s; mret (inl (i + 1, s))
    else mret (inr (i, s))) (0, s)).

(** ** filesystem.c: print_file_info

    [file_dent] is the uninitialised local; the fuel bounds the number of
    directory entries. *)
Definition put_spaces (from : Z) : K unit :=
  kloop 35 (fun char_loop =>
    if decide (char_loop < NUM_SPACES) then _ ← kputc 32; mret (inl (char_loop + 1))
    else mret (inr tt)) from.

Definition print_entry (buffer : list Z) (cnt : Z) (file_dent : dentry_t) : K unit :=
  _ ← kprintf (lit "file name: ") [];
  _ ← terminal_write (Some buffer) cnt;
  _ ← put_spaces cnt;
  _ ← kprintf (lit "file type: %d ") [AInt (file_type file_dent)];
  k ← gets fs;
  size ← lift (inode_file_size k (inode_idx file_dent));
  kprintf (litln "file size: %d") [AInt size].

Definition print_file_info (file_dent : dentry_t) : K unit :=
  _ ← kclear;
  dir_fd ← dir_open;
  failed ← kloop (R := bool) 65 (fun '(d_loop, buffer, file_dent) =>
    '(cnt, buffer) ← dir_read dir_fd buffer 32;
    if decide (cnt = 0) then mret (inr false) else
    k ← gets fs;
    '(_, file_dent) ← lift (read_dentry_by_index k d_loop file_dent);
    if decide (cnt = -1) then
      _ ← dir_close dir_fd;
      _ ← kprintf (litln "directory entry read failed") [];
      mret (inr true)
    else
      _ ← print_entry buffer cnt file_dent;
      mret (inl (d_loop + 1, buffer, file_dent))) (0, replicate 33 0, file_dent);
  if (failed : bool) then mret tt else
  _ ← dir_close dir_fd;
  mret tt.
