(* ===== verification/Streams.v ===== *)
(** What a readable descriptor promises, and that the file and the directory
    drivers keep it.

    [Stream] is the interface between the drivers of [filesystem.c] and the
    code that reads descriptors to the end ([cat], [ls], [print_file_text]):
    each read returns the next bytes and moves the descriptor, and the bytes
    run out.  [copy_out] is proved against the interface alone. *)

From S2P Require Import Prelude Hardware CLib Screen Printf FileSystem Kernel FdTable Drivers.

(** The result of a read of [out] into [buf]. *)
Definition received (out buf : list Z) : Z * list Z := (zlen out, out ++ drop (length out) buf).

(** Descriptor [fd] of the running process replaced. *)
Definition put_fd (i : Z) (p : pcb) (fd : Z) (d : fd_t) (k : kernel) : kernel :=
  put_running i (set_fd_table (upd (fd_table p) fd d) p) k.

Class Stream : Type := {
  st_read : Z -> list Z -> Z -> K (Z * list Z);
  (** descriptors this driver serves *)
  st_ok : fs_state -> fd_t -> Prop;
  (** the bytes a read of [n] returns, and the descriptor after it *)
  st_next : fs_state -> fd_t -> Z -> list Z;
  st_step : fs_state -> fd_t -> Z -> fd_t;
  (** a bound on what is left *)
  st_left : fs_state -> fd_t -> nat;
  st_read_spec k i p fd buf n :
    running k i p -> length (fd_table p) = Z.to_nat MAX_OPEN_FILES -> 0 <= fd < MAX_OPEN_FILES ->
    st_ok (fs k) (at_ (fd_table p) fd) -> 0 < n <= zlen buf -> zlen buf < 2 ^ 31 ->
    let d := at_ (fd_table p) fd in
    st_read fd buf n k =
      Ok (Returned (received (st_next (fs k) d n) buf), put_fd i p fd (st_step (fs k) d n) k);
  st_step_ok f d n : 0 < n < 2 ^ 31 -> st_ok f d -> st_ok f (st_step f d n);
  st_next_bytes f d n : 0 < n < 2 ^ 31 -> st_ok f d -> Forall byte (st_next f d n);
  st_next_length f d n : 0 < n < 2 ^ 31 -> st_ok f d -> zlen (st_next f d n) <= n;
  st_progress f d n : 0 < n < 2 ^ 31 -> st_ok f d ->
    st_next f d n = [] \/ (st_left f (st_step f d n) < st_left f d)%nat;
}.

(** Everything successive reads of [n] return. *)
Fixpoint st_rest `{Stream} (fuel : nat) (f : fs_state) (d : fd_t) (n : Z) : list Z :=
  match fuel with
  | O => []
  | S fuel =>
      match st_next f d n with
      | [] => []
      | out => out ++ st_rest fuel f (st_step f d n) n
      end
  end.
Definition st_all `{Stream} (f : fs_state) (d : fd_t) (n : Z) : list Z :=
  st_rest (S (st_left f d)) f d n.

Lemma st_rest_enough `{Stream} f n fuel fuel' d :
  0 < n < 2 ^ 31 -> st_ok f d -> (st_left f d < fuel)%nat -> (st_left f d < fuel')%nat ->
  st_rest fuel f d n = st_rest fuel' f d n.
Proof.
  intros Hn. revert fuel' d. induction fuel as [|fuel IH]; intros fuel' d Hok Hf Hf'; [lia|].
  destruct fuel' as [|fuel']; [lia|]. simpl. pose proof (st_progress f d n Hn Hok) as Hp.
  destruct (st_next f d n) eqn:E; [done|]. destruct Hp as [|Hp]; [done|].
  f_equal. f_equal. apply IH; [by apply st_step_ok|lia|lia].
Qed.

Lemma st_all_step `{Stream} f d n : 0 < n < 2 ^ 31 -> st_ok f d -> st_next f d n <> [] ->
  st_all f d n = st_next f d n ++ st_all f (st_step f d n) n.
Proof.
  intros Hn Hok Hne. destruct (st_progress f d n Hn Hok) as [|Hp]; [done|].
  unfold st_all. cbn [st_rest]. destruct (st_next f d n) as [|b l] eqn:E; [done|].
  f_equal. change (st_rest (st_left f d) f (st_step f d n) n = st_all f (st_step f d n) n).
  apply st_rest_enough; [done|by apply st_step_ok|done|lia].
Qed.

(** * The file driver *)

Definition file_next (f : fs_state) (d : fd_t) (n : Z) : list Z :=
  take (Z.to_nat (read_count f (inode_ptr d) (file_position d) n))
    (drop (Z.to_nat (file_position d)) (contents f (inode_ptr d))).
Definition file_step (f : fs_state) (d : fd_t) (n : Z) : fd_t :=
  advance (zlen (file_next f d n)) d.

Record file_ok (f : fs_state) (d : fd_t) : Prop := {
  fok_fs : fs_wf f;
  fok_inode : 0 <= inode_ptr d < num_inodes f;
  fok_int32 : inode_ptr d < 2 ^ 31;
  fok_pos : 0 <= file_position d <= size_of f (inode_ptr d);
}.

Lemma size_bound f inode : fs_wf f -> 0 <= inode < num_inodes f ->
  0 <= size_of f inode <= 4096 * 1023.
Proof.
  intros W Hi. pose proof (wf_size f W inode Hi) as Hs. destruct (inode_size f W inode Hi) as [_ ?].
  unfold BLOCK, MAX_INODE_DATA_BLOCKS in Hs. lia.
Qed.

Section file_stream.
Variables (f : fs_state) (d : fd_t) (n : Z).
Hypothesis (D : file_ok f d) (Hn : 0 < n < 2 ^ 31).
Abbreviation ino := (inode_ptr d).
Abbreviation pos := (file_position d).

Lemma file_count : read_count f ino pos n = Z.min n (size_of f ino - pos).
Proof using D Hn.
  destruct D as [W Hi Hi32 Hp]. pose proof (size_bound f ino W Hi). unfold read_count.
  rewrite u32_id by lia. lia.
Qed.

Lemma file_next_length : zlen (file_next f d n) = Z.min n (size_of f ino - pos).
Proof using D Hn.
  destruct D as [W Hi Hi32 Hp]. pose proof (size_bound f ino W Hi).
  unfold file_next. rewrite file_count, length_take, length_drop, contents_length. lia.
Qed.

Lemma file_step_pos : file_position (file_step f d n) = pos + Z.min n (size_of f ino - pos).
Proof using D Hn.
  destruct D as [W Hi Hi32 Hp]. pose proof (size_bound f ino W Hi).
  unfold file_step, advance. simpl. rewrite file_next_length, u32_id; lia.
Qed.
End file_stream.

Lemma file_read_spec k i p fd buf n :
  running k i p -> length (fd_table p) = Z.to_nat MAX_OPEN_FILES -> 0 <= fd < MAX_OPEN_FILES ->
  file_ok (fs k) (at_ (fd_table p) fd) -> 0 < n <= zlen buf -> zlen buf < 2 ^ 31 ->
  let d := at_ (fd_table p) fd in
  file_read fd buf n k =
    Ok (Returned (received (file_next (fs k) d n) buf), put_fd i p fd (file_step (fs k) d n) k).
Proof.
  intros R Hl Hfd D Hn Hbuf. cbv zeta. set (d := at_ (fd_table p) fd) in *.
  pose proof (file_count (fs k) d n D ltac:(lia)) as Hc.
  pose proof (file_next_length (fs k) d n D ltac:(lia)) as Hnl.
  destruct D as [W Hi Hi32 Hp]. pose proof (size_bound (fs k) (inode_ptr d) W Hi).
  unfold file_read. rewrite (kbind_eq _ _ _ _ _ (get_inode_ptr_ok _ _ _ R Hl fd Hfd)).
  rewrite (kbind_eq _ _ _ _ _ (get_file_position_ok _ _ _ R Hl fd Hfd)). fold d.
  rewrite (kbind_eq _ _ _ _ _ (gets_ok fs k)), u32_id, (u32_id n) by lia.
  assert (E : read_data (fs k) (inode_ptr d) (file_position d) buf n =
              Ok (received (file_next (fs k) d n) buf)).
  { rewrite read_data_spec by (done || unfold uint32; lia).
    rewrite decide_False by lia. unfold received.
    replace (length (file_next (fs k) d n)) with (Z.to_nat (read_count (fs k) (inode_ptr d) (file_position d) n)) by lia.
    rewrite Z2Nat.id by lia. done. }
  rewrite (kbind_eq _ _ _ _ _ (lift_ok _ _ _ E)). unfold received at 1. cbv iota beta.
  rewrite u32_id, Hnl by lia. unfold put_fd, file_step. rewrite Hnl.
  destruct_decide (decide (Z.min n (size_of (fs k) (inode_ptr d) - file_position d) > 0)).
  - rewrite (kbind_eq _ _ _ _ _ (add_offset_ok _ _ _ R Hl fd _ Hfd)). fold d.
    unfold received. rewrite Hnl, i32_id by lia. done.
  - replace (Z.min n (size_of (fs k) (inode_ptr d) - file_position d)) with 0 by lia.
    unfold advance. rewrite Z.add_0_r, u32_id by lia.
    replace (mkFd _ _ _ _) with d by (by destruct d). unfold d. rewrite upd_id by (unfold MAX_OPEN_FILES in *; lia).
    rewrite (put_running_id i) by (destruct p; done).
    rewrite (kbind_eq _ _ k tt k) by done. unfold received. fold d. rewrite Hnl.
    replace (Z.min n (size_of (fs k) (inode_ptr d) - file_position d)) with 0 by lia. done.
Qed.

#[export] Program Instance file_stream : Stream := {|
  st_read := file_read;
  st_ok := file_ok;
  st_next := file_next;
  st_step := file_step;
  st_left f d := Z.to_nat (size_of f (inode_ptr d) - file_position d);
|}.
Next Obligation. intros. by apply file_read_spec. Qed.
Next Obligation.
  intros f d n Hn D. pose proof (file_step_pos f d n D ltac:(lia)) as Hp.
  destruct D as [W Hi Hi32 Hpos]. constructor; [done|done|done|].
  rewrite Hp. simpl. lia.
Qed.
Next Obligation.
  intros f d n Hn [W Hi _ _]. unfold file_next. by apply Forall_take, Forall_drop, contents_bytes.
Qed.
Next Obligation. intros f d n Hn D. rewrite file_next_length by (done || lia). lia. Qed.
Next Obligation.
  intros f d n Hn D. pose proof (file_step_pos f d n D ltac:(lia)) as Hp.
  pose proof (file_next_length f d n D ltac:(lia)) as Hl.
  destruct D as [W Hi Hi32 Hpos]. pose proof (size_bound f (inode_ptr d) W Hi).
  destruct (file_next f d n) as [|b l]; [by left|right]. simpl length in Hl.
  rewrite Hp. simpl. lia.
Qed.

(** Reading a file to its end returns the rest of its bytes. *)
Lemma file_rest f n fuel d : file_ok f d -> 0 < n < 2 ^ 31 -> (st_left (Stream := file_stream) f d < fuel)%nat ->
  st_rest (H := file_stream) fuel f d n = drop (Z.to_nat (file_position d)) (contents f (inode_ptr d)).
Proof.
  intros D Hn. revert d D. induction fuel as [|fuel IH]; intros d D Hf; simpl in Hf; [lia|]. simpl.
  pose proof (file_step_pos f d n D Hn) as Hp. pose proof (file_next_length f d n D Hn) as Hl.
  pose proof (file_count f d n D Hn) as Hc.
  pose proof D as [W Hr _ Hpos]. pose proof (size_bound f (inode_ptr d) W Hr).
  destruct (file_next f d n) as [|b l] eqn:E.
  { simpl in Hl. rewrite drop_ge; [done|]. rewrite contents_length by done. lia. }
  rewrite IH; [|by apply (st_step_ok (Stream := file_stream))|].
  - change (inode_ptr (file_step f d n)) with (inode_ptr d).
    rewrite app_comm_cons, <- E, Hp. unfold file_next. rewrite Hc.
    rewrite <- (take_drop (Z.to_nat (Z.min n (size_of f (inode_ptr d) - file_position d)))
                  (drop (Z.to_nat (file_position d)) (contents f (inode_ptr d)))) at 2.
    f_equal. rewrite drop_drop. f_equal. lia.
  - simpl in *. change (inode_ptr (file_step f d n)) with (inode_ptr d). rewrite Hp. lia.
Qed.

(** A file read to its end in chunks of [n]: what the reads returned. *)
Definition read_file_all (fuel : nat) (fd : Z) (buf : list Z) (n : Z) : K (list Z) :=
  kloop fuel (fun '(got, buf) =>
    '(r, buf) ← file_read fd buf n;
    if decide (r > 0) then mret (inl (got ++ take (Z.to_nat r) buf, buf)) else mret (inr got)) ([], buf).

Section file_all.
Variables (k : kernel) (i : Z) (p : pcb) (fd n : Z).
Hypothesis (R : running k i p) (Hl : length (fd_table p) = Z.to_nat MAX_OPEN_FILES)
  (Hfd : 0 <= fd < MAX_OPEN_FILES) (Hn : 0 < n < 2 ^ 31).

(** The descriptor of another state of the same process. *)
Lemma file_read_put d buf : file_ok (fs k) d -> n <= zlen buf < 2 ^ 31 ->
  file_read fd buf n (put_fd i p fd d k) =
    Ok (Returned (received (file_next (fs k) d n) buf), put_fd i p fd (file_step (fs k) d n) k).
Proof using All.
  intros D Hb. set (p1 := set_fd_table (upd (fd_table p) fd d) p).
  assert (Hl1 : length (fd_table p1) = Z.to_nat MAX_OPEN_FILES) by (by simpl; rewrite length_upd).
  assert (Hd1 : at_ (fd_table p1) fd = d) by (apply at_upd_eq; unfold MAX_OPEN_FILES in *; lia).
  pose proof (file_read_spec (put_fd i p fd d k) i p1 fd buf n) as H. rewrite Hd1 in H.
  rewrite H; [|by eapply running_put|done|done|done|lia|lia]. do 2 f_equal.
  unfold put_fd at 1. unfold put_fd, p1. rewrite put_running_twice. f_equal.
  unfold set_fd_table. simpl. by rewrite upd_upd.
Qed.

(** At the end of the file. *)
Definition at_end (f : fs_state) (d : fd_t) : fd_t :=
  mkFd (fd_jump d) (inode_ptr d) (size_of f (inode_ptr d)) (flags d).

Lemma read_loop_ok fuel : forall d got buf, file_ok (fs k) d -> n <= zlen buf < 2 ^ 31 ->
  (Z.to_nat (size_of (fs k) (inode_ptr d) - file_position d) < fuel)%nat ->
  kwp (kloop fuel (fun '(got, buf) =>
    '(r, buf) ← file_read fd buf n;
    if decide (r > 0) then mret (inl (got ++ take (Z.to_nat r) buf, buf)) else mret (inr got)) (got, buf))
  (fun out k' => out = got ++ drop (Z.to_nat (file_position d)) (contents (fs k) (inode_ptr d)) /\
    k' = put_fd i p fd (at_end (fs k) d) k) nojump (put_fd i p fd d k).
Proof using All.
  induction fuel as [|fuel IH]; intros d got buf D Hb Hf; [lia|]. rewrite kloop_S. do 2 kwp_step.
  pose proof (file_step_pos (fs k) d n D Hn) as Hp. pose proof (file_next_length (fs k) d n D Hn) as Hnl.
  pose proof (file_count (fs k) d n D Hn) as Hc.
  pose proof D as [W Hr _ Hpos]. pose proof (size_bound (fs k) (inode_ptr d) W Hr).
  eapply kwp_eq; [by apply file_read_put|]. unfold received. cbv iota beta. kwp_step.
  - kwp_step. rewrite Nat2Z.id, take_app_length.
    eapply kwp_mono; [apply IH| |done].
    + by apply (st_step_ok (Stream := file_stream)).
    + rewrite length_app, length_drop. lia.
    + change (inode_ptr (file_step (fs k) d n)) with (inode_ptr d). lia.
    + change (inode_ptr (file_step (fs k) d n)) with (inode_ptr d). intros out k' [-> ->].
      split; [|done]. rewrite <- app_assoc. f_equal. rewrite Hp. unfold file_next. rewrite Hc.
      rewrite <- (take_drop (Z.to_nat (Z.min n (size_of (fs k) (inode_ptr d) - file_position d)))
        (drop (Z.to_nat (file_position d)) (contents (fs k) (inode_ptr d)))) at 2.
      f_equal. rewrite drop_drop. f_equal. lia.
  - kwp_step. kwp_step. assert (E : file_position d = size_of (fs k) (inode_ptr d)) by lia. split.
    + rewrite drop_ge, app_nil_r; [done|]. rewrite contents_length by done. lia.
    + f_equal. unfold file_step, at_end, advance. rewrite Hnl, <- E. f_equal.
      rewrite Z.sub_diag, Z.min_r, Z.add_0_r by lia. apply u32_id. lia.
Qed.

(** C19: Calling file_read on an open file with any chunk size n until it
    returns 0 yields exactly the rest of the file's contents from the
    descriptor's position, in order, and leaves the kernel as it was but for
    the descriptor's position, which is at the end of the file. *)
Theorem file_all buf fuel : let d := at_ (fd_table p) fd in
  file_ok (fs k) d -> n <= zlen buf < 2 ^ 31 -> size_of (fs k) (inode_ptr d) - file_position d < Z.of_nat fuel ->
  read_file_all fuel fd buf n k =
    Ok (Returned (drop (Z.to_nat (file_position d)) (contents (fs k) (inode_ptr d))),
        put_fd i p fd (at_end (fs k) d) k).
Proof using All.
  intros d D Hb Hf. pose proof (fok_pos _ _ D) as Hp. apply kwp_ok. pose proof (read_loop_ok fuel d [] buf D Hb ltac:(lia)) as H.
  replace (put_fd i p fd d k) with k in H; [exact H|].
  unfold put_fd, d. rewrite upd_id by (unfold MAX_OPEN_FILES in *; lia).
  rewrite (put_running_id i); [done|]. by destruct p.
Qed.
End file_all.

(** * The directory driver: one name per read *)

Record dir_ok (f : fs_state) (d : fd_t) : Prop := {
  dok_fs : fs_wf f;
  dok_pos : 0 <= file_position d <= num_entries f;
}.
Definition dir_next (f : fs_state) (d : fd_t) (n : Z) : list Z :=
  if decide (file_position d < num_entries f) then take (Z.to_nat n) (entry_text f (file_position d))
  else [].
Definition dir_step (f : fs_state) (d : fd_t) (n : Z) : fd_t :=
  if decide (file_position d < num_entries f) then advance 1 d else d.

Lemma copy_name_ok f i buf n :
  fs_wf f -> 0 <= i < MAX_ENTRIES -> 0 <= n <= zlen buf ->
  copy_name f i buf n = Ok (received (take (Z.to_nat n) (entry_text f i)) buf).
Proof.
  intros W Hi Hn. pose proof (entry_text_length f i) as Hl. apply wp_eq. unfold copy_name.
  set (t := entry_text f i) in *. set (m := Z.min n (zlen t)).
  assert (Hm : zlen (take (Z.to_nat n) t) = m) by (rewrite length_take; lia).
  apply (wp_loop (fun '(j, b) => 0 <= j <= m /\ length b = length buf /\
      forall q, 0 <= q -> at_ b q = if decide (q < j) then at_ t q else at_ buf q)
    (fun '(j, _) => Z.to_nat (m - j))).
  - split; [lia|]. split; [done|]. intros q Hq. by rewrite decide_False by lia.
  - lia.
  - intros [j b] (Hj & Hb & Hat). wp_step.
    rewrite entry_name_char_ok by (apply W || unfold DENTRY_SIZE; lia). wp_step.
    pose proof (cstr_next (take 32 (entry_bytes f i)) j) as Hnx.
    rewrite length_take, entry_bytes_length in Hnx. fold (entry_text f i) in Hnx. fold t in Hnx.
    unfold DENTRY_SIZE in Hnx. unfold MAX_NAME_CHARACTERS.
    wp_step.
    + destruct_decide (decide (j < 32)); [|lia]. rewrite at_take in Hnx by lia.
      assert (j <> zlen t) by (intros E; apply Hnx in E; [tauto|lia|lia]).
      do 2 wp_step.
      rewrite wr_ok by lia. do 2 wp_step. split; [|lia]. split; [lia|].
      split; [by rewrite length_upd|]. intros q Hq. rewrite at_upd by lia.
      destruct_decide (decide (j = q)) as E.
      * subst q. rewrite decide_True by lia. unfold t.
        by destruct (at_entry_text f i j ltac:(unfold t in *; lia)) as [-> _].
      * rewrite Hat by done. repeat case_decide; try lia; done.
    + wp_step. assert (j = m) as ->.
      { destruct_decide (decide (j = m)); [done|]. exfalso.
        destruct (at_entry_text f i j) as [_ Hnz]; [unfold m, t in *; lia|].
        unfold m in *. tauto || lia. }
      unfold received. rewrite Hm. f_equal. apply at_ext.
      * rewrite length_app, length_drop. lia.
      * intros q Hq. rewrite Hat by lia. rewrite at_app by lia. rewrite Hm.
        case_decide; [by rewrite at_take by lia|]. rewrite at_drop by lia. f_equal. lia.
Qed.

Lemma dir_read_spec k i p fd buf n :
  running k i p -> length (fd_table p) = Z.to_nat MAX_OPEN_FILES -> 0 <= fd < MAX_OPEN_FILES ->
  dir_ok (fs k) (at_ (fd_table p) fd) -> 0 < n <= zlen buf -> zlen buf < 2 ^ 31 ->
  let d := at_ (fd_table p) fd in
  dir_read fd buf n k =
    Ok (Returned (received (dir_next (fs k) d n) buf), put_fd i p fd (dir_step (fs k) d n) k).
Proof.
  intros R Hl Hfd [W Hp] Hn Hbuf. cbv zeta. set (d := at_ (fd_table p) fd) in *.
  pose proof (wf_nentries _ W) as Hne. unfold MAX_ENTRIES in Hne.
  unfold dir_read. rewrite (kbind_eq _ _ _ _ _ (get_file_position_ok _ _ _ R Hl fd Hfd)). fold d.
  rewrite (kbind_eq _ _ _ _ _ (gets_ok fs k)). rewrite i32_id, u32_id by lia.
  unfold dir_next, dir_step, put_fd.
  destruct_decide (decide (file_position d < num_entries (fs k))).
  - rewrite decide_False by lia.
    rewrite (kbind_eq _ _ _ _ _ (lift_ok _ _ _ (copy_name_ok (fs k) (file_position d) buf n W
      ltac:(unfold MAX_ENTRIES; lia) ltac:(lia)))).
    unfold received at 1. cbv iota beta.
    by rewrite (kbind_eq _ _ _ _ _ (add_offset_ok _ _ _ R Hl fd _ Hfd)).
  - rewrite decide_True by lia. unfold d. rewrite upd_id by (unfold MAX_OPEN_FILES in *; lia).
    rewrite (put_running_id i) by (destruct p; done). done.
Qed.

Lemma entry_text_bytes f i : fs_wf f -> 0 <= i < MAX_ENTRIES -> Forall byte (entry_text f i).
Proof.
  intros W Hi. unfold entry_text. rewrite cstr_prefix. apply Forall_take, Forall_take.
  apply entry_bytes_bytes; [apply W|done].
Qed.

#[export] Program Instance dir_stream : Stream := {|
  st_read := dir_read;
  st_ok := dir_ok;
  st_next := dir_next;
  st_step := dir_step;
  st_left f d := Z.to_nat (num_entries f - file_position d);
|}.
Next Obligation. intros. by apply dir_read_spec. Qed.
Next Obligation.
  intros f d n Hn [W Hp]. pose proof (wf_nentries _ W) as Hne. unfold MAX_ENTRIES in Hne.
  unfold dir_step. case_decide; [|done]. constructor; [done|]. unfold advance. simpl.
  rewrite u32_id; lia.
Qed.
Next Obligation.
  intros f d n Hn [W Hp]. unfold dir_next. case_decide; [|done].
  apply Forall_take, entry_text_bytes; [done|]. pose proof (wf_nentries _ W). lia.
Qed.
Next Obligation.
  intros f d n Hn [W Hp]. unfold dir_next. case_decide; [|simpl; lia]. rewrite length_take. lia.
Qed.
Next Obligation.
  intros f d n Hn [W Hp]. pose proof (wf_nentries _ W) as Hne. unfold MAX_ENTRIES in Hne.
  unfold dir_next, dir_step. case_decide; [right|by left]. unfold advance. simpl.
  rewrite u32_id; lia.
Qed.

(** * Reading a descriptor to its end, onto the screen *)

(** ** testcases3_2.c: print_file_text, the loop over [file_read]; the same
    loop is the main loop of [cat] over [read]. *)
Definition copy_out `{Stream} (fuel : nat) (fd : Z) (buffer : list Z) (nbytes : Z) : K unit :=
  kloop fuel (fun buffer =>
    '(retval, buffer) ← st_read fd buffer nbytes;
    if decide (retval > 0) then
      _ ← terminal_write (Some buffer) retval; mret (inl buffer)
    else mret (inr tt)) buffer.

(** Kernel code that only used the console. *)
Definition shows (t : text) (k k' : kernel) : Prop :=
  exists s, k' = with_lib s k /\ con_spec (lib k) s t.

Lemma put_bytes_spec buffer n s :
  con_wf s -> 0 <= n <= zlen buffer ->
  wp (put_bytes buffer n s) (fun '(m, s') =>
    m = n /\ con_spec s s' (t_puts (take (Z.to_nat n) buffer) (view s))).
Proof.
  intros W Hn. unfold put_bytes.
  apply (wp_loop (fun '(i, s') => 0 <= i <= n /\
             con_spec s s' (t_puts (take (Z.to_nat i) buffer) (view s)))
           (fun '(i, _) => Z.to_nat (n - i))).
  - split; [lia|]. constructor; [done|reflexivity|done].
  - lia.
  - intros [i s1] [Hi Hs1]. wp_step.
    + do 2 wp_step. wp_step. eapply wp_mono; [apply putc_spec, Hs1|]. intros s2 Hs2. wp_step.
      split; [|lia]. split; [lia|].
      replace (Z.to_nat (i + 1)) with (Datatypes.S (Z.to_nat i)) by lia.
      rewrite (take_S_r _ _ (at_ buffer i)) by (unfold at_; apply list_lookup_lookup_total_lt; lia).
      unfold t_puts in *. rewrite foldl_app. simpl.
      eapply con_spec_trans; [exact Hs1|]. destruct Hs1 as [_ _ Hv]. by rewrite Hv in Hs2.
    + wp_step. replace i with n in * by lia. done.
Qed.

Lemma terminal_write_spec buffer n k :
  con_wf (lib k) -> 0 <= n <= zlen buffer ->
  kwp (terminal_write (Some buffer) n) (fun m k' =>
    m = n /\ shows (t_puts (take (Z.to_nat n) buffer) (view (lib k))) k k') nojump k.
Proof.
  intros W Hn. apply kwp_console. eapply wp_mono; [by apply put_bytes_spec|].
  intros [m s] [-> Hs]. split; [done|]. by exists s.
Qed.

Lemma running_with_lib k i p s : curr_terminal s = curr_terminal (lib k) ->
  running k i p -> running (with_lib s k) i p.
Proof. intros E []. constructor; simpl; by rewrite ?E. Qed.

Lemma fr_running k i p s t : con_spec (lib k) s t -> running k i p -> running (with_lib s k) i p.
Proof. intros Hs. apply running_with_lib, Hs. Qed.

Section copy_out.
Context `{Stream}.
Variables (k : kernel) (i : Z) (p : pcb) (fd n : Z).
Hypothesis (R : running k i p) (Hl : length (fd_table p) = Z.to_nat MAX_OPEN_FILES)
  (Hfd : 0 <= fd < MAX_OPEN_FILES) (Hn : 0 < n < 2 ^ 31) (W : con_wf (lib k)).
Abbreviation d0 := (at_ (fd_table p) fd).
Hypothesis (Hok : st_ok (fs k) d0).

(** The screen shows every byte the descriptor had left; nothing else of
    the kernel changes but that descriptor. *)
Lemma copy_out_spec fuel buf :
  n <= zlen buf < 2 ^ 31 -> (st_left (fs k) d0 < fuel)%nat ->
  kwp (copy_out fuel fd buf n) (fun _ k' => exists d s,
    st_ok (fs k) d /\ k' = put_fd i p fd d (with_lib s k) /\
    con_spec (lib k) s (t_puts (st_all (fs k) d0 n) (view (lib k)))) nojump k.
Proof using R Hl Hfd Hn W Hok.
  intros Hbuf Hfuel.
  assert (Hgen : forall fuel buf d s shown,
    st_ok (fs k) d -> con_spec (lib k) s (t_puts shown (view (lib k))) ->
    n <= zlen buf < 2 ^ 31 -> (st_left (fs k) d < fuel)%nat ->
    kwp (copy_out fuel fd buf n) (fun _ k' => exists d' s',
      st_ok (fs k) d' /\ k' = put_fd i p fd d' (with_lib s' k) /\
      con_spec (lib k) s' (t_puts (shown ++ st_all (fs k) d n) (view (lib k)))) nojump
      (put_fd i p fd d (with_lib s k))).
  2: { specialize (Hgen fuel buf d0 (lib k) [] Hok). simpl in Hgen.
       assert (E : put_fd i p fd d0 (with_lib (lib k) k) = k).
       { unfold put_fd. rewrite upd_id by (unfold MAX_OPEN_FILES in *; lia).
         replace (with_lib (lib k) k) with k by (by destruct k).
         rewrite (put_running_id i); [done|]. by destruct p. }
       rewrite E in Hgen. apply Hgen; [|done|done]. constructor; [done|reflexivity|done]. }
  clear Hok fuel buf Hbuf Hfuel.
  induction fuel as [|fuel IH]; intros buf d s shown Hok Hs Hbuf Hf; [lia|].
  unfold copy_out. rewrite kloop_S. kwp_step. kwp_step.
  set (k1 := put_fd i p fd d (with_lib s k)).
  set (p1 := set_fd_table (upd (fd_table p) fd d) p).
  assert (R1 : running k1 i p1) by (eapply running_put, (fr_running k i p s); [exact Hs|done]).
  assert (Hl1 : length (fd_table p1) = Z.to_nat MAX_OPEN_FILES) by (by simpl; rewrite length_upd).
  assert (Hd1 : at_ (fd_table p1) fd = d) by (apply at_upd_eq; unfold MAX_OPEN_FILES in *; lia).
  pose proof (st_read_spec k1 i p1 fd buf n R1 Hl1 Hfd) as Hread. rewrite Hd1 in Hread.
  change (fs k1) with (fs k) in Hread. cbv zeta in Hread.
  eapply kwp_eq; [apply Hread; [done|lia|lia]|]. unfold received. cbv beta iota.
  pose proof (st_next_length (fs k) d n Hn Hok) as Hnl.
  pose proof (st_progress (fs k) d n Hn Hok) as Hprog.
  assert (Hput : forall d', put_fd i p1 fd d' k1 = put_fd i p fd d' (with_lib s k)).
  { intros d'. unfold k1, put_fd, p1. rewrite put_running_twice. f_equal.
    unfold set_fd_table. simpl. by rewrite upd_upd. }
  rewrite Hput.
  kwp_step.
  - (* some bytes *)
    assert (Hne : st_next (fs k) d n <> []) by (intros E; rewrite E in *; simpl in *; lia).
    destruct Hprog as [|Hprog]; [done|].
    kwp_step.
    set (d' := st_step (fs k) d n).
    eapply kwp_mono.
    + apply terminal_write_spec; [apply Hs|].
      split; [lia|]. rewrite length_app, length_drop. lia.
    + intros _ k2 (_ & s2 & -> & Hs2). kwp_step.
      rewrite Nat2Z.id, take_app_length in Hs2.
      change (with_lib s2 (put_fd i p fd d' (with_lib s k)))
        with (put_fd i p fd d' (with_lib s2 k)).
      change (lib (put_fd i p fd d' (with_lib s k))) with s in Hs2.
      eapply kwp_mono; [apply (IH _ d' s2 (shown ++ st_next (fs k) d n))| |done].
      * by apply st_step_ok.
      * eapply con_spec_trans; [exact Hs|]. destruct Hs as [_ _ Hv]. rewrite Hv in Hs2.
        by rewrite t_puts_app.
      * rewrite length_app, length_drop. lia.
      * unfold d'; lia.
      * intros [] k3 (d3 & s3 & ? & -> & H3). exists d3, s3. split; [done|]. split; [done|].
        by rewrite (st_all_step (fs k) d n Hn Hok Hne), app_assoc.
    + done.
  - kwp_step. kwp_step. assert (E : st_next (fs k) d n = []).
    { destruct (st_next (fs k) d n); [done|simpl in *; lia]. }
    exists (st_step (fs k) d n), s. split; [by apply st_step_ok|]. split; [done|].
    unfold st_all. simpl. rewrite E. by rewrite app_nil_r.
Qed.
End copy_out.
