(* ===== verification/Process.v ===== *)
(** Processes and terminals: [student-distrib/syscall.c] from [pc_init] to
    [execute], and [terminal_switch] of [terminal.c].

    [halt], [execute] and [terminal_switch] hand the processor over: their
    [Jump] says where.  The uninitialised locals and the stack registers a
    call runs with are its [frame]. *)

From S2P Require Import Prelude Segments Hardware CLib Screen Printf FileSystem Paging MemOps Kernel.
From S2P Require Import FdTable Drivers.

Definition STATUS_BYTEMASK := 0x000000FF.
Definition FILE_NAME_LENGTH := 32.
Definition BYTES_TO_READ := 28.
Definition ENTRY_POINT_START := 24.
Definition MAGIC_NUMBER_SIZE := 4.
Definition BYTE_SIZE := 8.
Definition PROGRAM_START := 0x08048000.
Definition PROGRAM_PAGE := 0x08000000.
Definition USER_PAGE_SIZE := 0x00400000.
Definition FOURKiB := 0x1000.
Definition magic_numbers : list Z := [0x7f; 0x45; 0x4c; 0x46].

(** What a call of execute finds on its stack. *)
Record frame : Type := mkFrame {
  u_command : list Z;       (* command[TERM_BUFF_SIZE] *)
  u_file_name : list Z;     (* file_name[FILE_NAME_LENGTH] *)
  u_file_dentry : dentry_t;
  u_buf : list Z;           (* buf[BYTES_TO_READ] *)
  u_dentry : dentry_t;
  r_esp : Z;
  r_ebp : Z;
}.

(** * Fields *)
Definition set_in_use (i v : Z) : K unit := fun k =>
  let p := procs k in
  l ← wr (in_use p) i v;
  Ok (Returned tt, with_procs (mkProcs (process_array p) l (current_process p) (pcbs p) (cmd_args p)) k).
Definition get_in_use (i : Z) : K Z := fun k => v ← rd (in_use (procs k)) i; Ok (Returned v, k).
Definition set_process_array (i : Z) (v : option Z) : K unit := fun k =>
  let p := procs k in
  l ← wr (process_array p) i v;
  Ok (Returned tt, with_procs (mkProcs l (in_use p) (current_process p) (pcbs p) (cmd_args p)) k).
Definition set_current_process (t v : Z) : K unit := fun k =>
  let p := procs k in
  l ← wr (current_process p) t v;
  Ok (Returned tt, with_procs (mkProcs (process_array p) (in_use p) l (pcbs p) (cmd_args p)) k).
Definition set_cmd_args (l : list (list Z)) : K unit := modify (fun k =>
  let p := procs k in
  with_procs (mkProcs (process_array p) (in_use p) (current_process p) (pcbs p) l) k).

(** A field of the control block at an address. *)
Definition update_pcb (a : Z) (f : pcb -> pcb) : K unit := fun k =>
  match pcbs (procs k) !! a with
  | None => Fault
  | Some p => store_pcb a (f p) k
  end.
Definition read_pcb (a : Z) : K pcb := fun k =>
  match pcbs (procs k) !! a with None => Fault | Some p => Ok (Returned p, k) end.

Definition set_process_id (v : Z) (p : pcb) : pcb :=
  mkPcb (u8 v) (parent_id p) (current_esp p) (current_ebp p) (return_esp p) (return_ebp p) (args p) (fd_table p).
Definition set_parent_id (v : Z) (p : pcb) : pcb :=
  mkPcb (process_id p) v (current_esp p) (current_ebp p) (return_esp p) (return_ebp p) (args p) (fd_table p).
Definition set_current_stack (esp ebp : Z) (p : pcb) : pcb :=
  mkPcb (process_id p) (parent_id p) esp ebp (return_esp p) (return_ebp p) (args p) (fd_table p).
Definition set_return_stack (esp ebp : Z) (p : pcb) : pcb :=
  mkPcb (process_id p) (parent_id p) (current_esp p) (current_ebp p) esp ebp (args p) (fd_table p).
Definition set_args (l : list Z) (p : pcb) : pcb :=
  mkPcb (process_id p) (parent_id p) (current_esp p) (current_ebp p) (return_esp p) (return_ebp p) l (fd_table p).

Definition set_tss (esp0 ss0 : Z) : K unit := modify (fun k =>
  with_cpu (mkCpu (u32 esp0) ss0 (extended_status (cpu k)) (exception_flag (cpu k)) (segs (cpu k))) k).
Definition set_status (ext flag : Z) : K unit := modify (fun k =>
  with_cpu (mkCpu (tss_esp0 (cpu k)) (tss_ss0 (cpu k)) ext flag (segs (cpu k))) k).
Definition set_curr_old (curr old : Z) : K unit := on_lib (set_terms curr old).
Definition kadd_process (pid : Z) : K unit := modify (fun k =>
  with_paging (add_process pid (paging k)) k).
Definition kmap_virt_to_phys (v a : Z) : K unit := modify (fun k =>
  with_paging (map_virt_to_phys (user_page_table_at (link k)) v a (paging k)) k).

(** ** syscall.c: pc_init *)
Definition pc_init : K unit :=
  k ← gets lib;
  _ ← set_curr_old 0 (old_terminal k);
  _ ← kloop 4 (fun cnt =>
    if decide (cnt < MAX_TERMINAL) then _ ← set_current_process cnt (-1); mret (inl (cnt + 1))
    else mret (inr tt)) 0;
  kloop 9 (fun cnt =>
    if decide (cnt < MAX_PROCESSES) then
      _ ← set_process_array cnt None; _ ← set_in_use cnt 0; mret (inl (cnt + 1))
    else mret (inr tt)) 0.

(** ** terminal.c: terminal_init *)
Definition terminal_init : K Z :=
  _ ← set_in_use 0 0; _ ← set_in_use 1 1; _ ← set_in_use 2 1; mret 0.

(** ** syscall.c: parse_cmd_args

    Also the new row of [cmd_args] for the current terminal. *)
Definition take_word (comm buf : list Z) : outcome (Z * list Z) :=
  loop 130 (fun '(i, buf) =>
    c ← rd comm i;
    if decide (c <> 32 /\ c <> 0 /\ i < TERM_BUFF_SIZE) then
      buf ← wr buf i c; mret (inl (i + 1, buf))
    else mret (inr (i, buf))) (0, buf).
Definition skip_word_spaces (comm : list Z) (i : Z) : outcome Z :=
  loop 130 (fun i =>
    c ← rd comm i;
    mret (if decide (c = 32 /\ c <> 0 /\ i < TERM_BUFF_SIZE) then inl (i + 1) else inr i)) i.
Definition take_args (comm row : list Z) (i : Z) : outcome (list Z) :=
  '(arg_cnt, row) ← loop 130 (fun '(arg_cnt, row) =>
    c ← rd comm arg_cnt;
    if decide (c <> 0 /\ arg_cnt <> TERM_BUFF_SIZE) then
      row ← wr row (arg_cnt - i) c; mret (inl (arg_cnt + 1, row))
    else mret (inr (arg_cnt, row))) (i, row);
  wr row (arg_cnt - i) 0.

Definition parse_cmd_args (buf comm row : list Z) : outcome (list Z * list Z) :=
  '(i, buf) ← take_word comm buf;
  buf ← wr buf i 0;
  i ← skip_word_spaces comm i;
  row ← take_args comm row i;
  mret (buf, row).

(** * The program image in memory *)
Definition load_bytes (a n : Z) (m : mem) : list Z := map (get m) (seqZ a n).
Definition store_bytes (a : Z) (l : list Z) (m : mem) : mem :=
  for_ 0 (zlen l) (fun j m => put m (a + j) (at_ l j)) m.

(** Where the bytes [v, v + n) of the program page are: a page fault when
    they leave it. *)
Definition program_phys (v n : Z) : K Z := fun k =>
  if decide (PROGRAM_PAGE <= v /\ v + n <= PROGRAM_PAGE + USER_PAGE_SIZE) then
    match translate (page_directory_at (link k)) (page_table_at (link k)) (user_page_table_at (link k)) (paging k) v with
    | Some m => Ok (Returned (phys m), k)
    | None => Fault
    end
  else Fault.

(** [read_data] into the program page. *)
Definition read_program (inode address length : Z) : K Z :=
  a ← program_phys address length;
  k ← gets (fun k => k);
  '(r, buf) ← lift (read_data (fs k) inode 0 (load_bytes a length (lib_mem (lib k))) length);
  _ ← on_lib (fun s => set_mem (store_bytes a buf (lib_mem s)) s);
  mret r.

(** ** wrapper.S: user_context_switch *)
Definition user_context_switch (eip : Z) : K unit :=
  _ ← on_io (set_if true);
  jump (ToUser eip 0x83FFFFC).

(** * syscall.c: execute *)

(** The file name: the first word of the command, at most 31 characters. *)
Definition command_name (command file_name : list Z) : outcome (option (list Z)) :=
  r ← loop 130 (fun '(i, file_name) =>
    c ← rd command i;
    if decide (c <> 32 /\ c <> 0 /\ c <> 10) then
      if decide (i >= FILE_NAME_LENGTH - 1) then mret (inr None) else
      file_name ← wr file_name i c; mret (inl (i + 1, file_name))
    else mret (inr (Some (i, file_name)))) (0, file_name);
  match r with
  | None => mret None
  | Some (i, file_name) => file_name ← wr file_name i 0; mret (Some file_name)
  end.

(** The first free process slot, taken. *)
Definition take_slot : K Z :=
  kloop 9 (fun i =>
    if decide (i < MAX_PROCESSES) then
      v ← get_in_use i;
      if decide (v = 0) then _ ← set_in_use i 1; mret (inr i) else mret (inl (i + 1))
    else mret (inr i)) 0.

(** Create the control block of slot [i] and make it current. *)
Definition new_process (i : Z) : K unit :=
  let a := u32 (K_STACK_BOTTOM - PROCESS_SIZE * (1 + i)) in
  _ ← set_process_array i (Some a);
  _ ← update_pcb a (set_process_id i);
  t ← curr_term;
  parent ← (if decide (i < 3) then mret (-1) else curr_pid);
  _ ← update_pcb a (set_parent_id parent);
  _ ← set_current_process t i;
  '(a', p) ← curr_pcb;
  rows ← gets (fun k => cmd_args (procs k));
  row ← lift (rd rows t);
  l ← lift (strcpy (args p) row);
  _ ← update_pcb a' (set_args l);
  p ← read_pcb a;
  tbl ← lift (fd_table_init (fd_table p));
  update_pcb a (set_fd_table tbl).

Definition check_magic (buf : list Z) : outcome bool :=
  loop 5 (fun j =>
    if decide (j < MAGIC_NUMBER_SIZE) then
      b ← rd buf j; m ← rd magic_numbers j;
      mret (if decide (b <> m) then inr false else inl (j + 1))
    else mret (inr true)) 0.

Definition read_entry_point (buf : list Z) : outcome Z :=
  loop 5 (fun '(j, entry_point) =>
    if decide (j < BYTES_TO_READ) then
      b ← rd buf j;
      mret (inl (j + 1, Z.lor entry_point (u32 (Z.shiftl b (BYTE_SIZE * (j - ENTRY_POINT_START))))))
    else mret (inr entry_point)) (ENTRY_POINT_START, 0).

(** From the control block to user mode. *)
Definition launch (fr : frame) (file_name buf : list Z) (i : Z) : K Z :=
  ok ← lift (check_magic buf);
  if decide (ok = false) then mret (-1) else
  entry_point ← lift (read_entry_point buf);
  p ← read_pcb (u32 (K_STACK_BOTTOM - PROCESS_SIZE * (1 + i)));
  _ ← kadd_process (process_id p);
  f ← gets fs;
  '(r, dentry) ← lift (read_dentry_by_name f file_name (u_dentry fr));
  if decide (r = -1) then mret (-1) else
  size ← lift (inode_file_size f (inode_idx dentry));
  r ← read_program (inode_idx dentry) PROGRAM_START size;
  if decide (r = -1) then mret (-1) else
  pid ← curr_pid;
  _ ← set_tss (K_STACK_BOTTOM - PROCESS_SIZE * pid - BYTE_SIZE / 2) KERNEL_DS;
  '(a, _) ← curr_pcb;
  _ ← update_pcb a (set_current_stack (r_esp fr) (r_ebp fr));
  _ ← user_context_switch entry_point;
  mret 0.

Definition execute (fr : frame) (comm : option (list Z)) : K Z :=
  match comm with
  | None => mret (-1)
  | Some comm =>
      t ← curr_term;
      rows ← gets (fun k => cmd_args (procs k));
      row ← lift (rd rows t);
      '(command, row) ← lift (parse_cmd_args (u_command fr) comm row);
      rows ← lift (wr rows t row);
      _ ← set_cmd_args rows;
      name ← lift (command_name command (u_file_name fr));
      match name with
      | None => mret (-1)
      | Some file_name =>
          f ← gets fs;
          '(r, dentry) ← lift (read_dentry_by_name f file_name (u_file_dentry fr));
          if decide (r = -1) then mret (-1) else
          if decide (file_type dentry <> 2) then mret (-1) else
          '(r, buf) ← lift (read_data f (inode_idx dentry) 0 (u_buf fr) BYTES_TO_READ);
          if decide (r = -1) then mret (-1) else
          i ← take_slot;
          if decide (i >= MAX_PROCESSES) then
            _ ← kprintf (litln "Maximum Possible Processes. Stop and Reconsider.") [];
            mret (-1)
          else
            _ ← new_process i;
            launch fr file_name buf i
      end
  end.

(** * syscall.c: halt *)
Definition halt (fr : frame) (status : Z) : K Z :=
  _ ← close_all_fd;
  '(_, p) ← curr_pcb;
  _ ← (if decide (process_id p < 3) then
         _ ← set_in_use (process_id p) 0;
         _ ← execute fr (Some (lit "shell")); mret tt
       else mret tt);
  flag ← gets (fun k => exception_flag (cpu k));
  let ext := u32 (Z.land STATUS_BYTEMASK status + flag) in
  _ ← set_status ext 0;
  '(_, p) ← curr_pcb;
  let esp := current_esp p in
  let ebp := current_ebp p in
  pid ← curr_pid;
  _ ← set_in_use pid 0;
  t ← curr_term;
  _ ← set_current_process t (parent_id p);
  pid ← curr_pid;
  _ ← kadd_process pid;
  '(_, p) ← curr_pcb;
  _ ← set_tss (current_esp p) KERNEL_DS;
  jump (ToExecuteReturn esp ebp ext).

(** * terminal.c: terminal_switch *)

(** memcpy between two pages, through their mappings. *)
Definition kmemcpy (dest src n : Z) : K unit := fun k =>
  let tr := translate (page_directory_at (link k)) (page_table_at (link k)) (user_page_table_at (link k)) (paging k) in
  match tr dest, tr src with
  | Some d, Some s =>
      if decide (dest mod FOURKiB + n <= FOURKiB /\ src mod FOURKiB + n <= FOURKiB) then
        m ← memcpy (phys d) (phys s) n (lib_mem (lib k));
        Ok (Returned tt, with_lib (set_mem m (lib k)) k)
      else Fault
  | _, _ => Fault
  end.

Definition terminal_switch (fr : frame) (new_terminal : Z) : K Z :=
  curr ← curr_term;
  if decide (new_terminal = curr) then mret 0 else
  if decide (new_terminal >= MAX_TERMINAL \/ new_terminal < 0) then mret (-1) else
  _ ← on_io cli;
  '(a, _) ← curr_pcb;
  _ ← update_pcb a (set_return_stack (r_esp fr) (r_ebp fr));
  _ ← set_curr_old new_terminal curr;
  let old := curr in
  let curr := new_terminal in
  _ ← kmap_virt_to_phys (VIRT_VID_TERM1 + old * FOURKiB) (USER_BACK1 + old * FOURKiB);
  _ ← kmemcpy (VIRT_VID_TERM1 + old * FOURKiB) VIDEO FOURKiB;
  _ ← kmemcpy VIDEO (VIRT_VID_TERM1 + curr * FOURKiB) FOURKiB;
  _ ← kmap_virt_to_phys (VIRT_VID_TERM1 + curr * FOURKiB) USER_VIDEO_;
  _ ← on_lib update_cursor;
  pid ← curr_pid;
  _ ← (if decide (pid = -1) then
         _ ← set_in_use curr 0;
         _ ← on_io sti;
         _ ← execute fr (Some (lit "shell")); mret tt
       else mret tt);
  pid ← curr_pid;
  _ ← kadd_process pid;
  _ ← set_tss (K_STACK_BOTTOM - PROCESS_SIZE * pid - BYTE_SIZE / 2) KERNEL_DS;
  '(_, p) ← curr_pcb;
  _ ← on_io sti;
  jump (ToStack (return_esp p) (return_ebp p)).
