(* ===== verification/CmdLine.v ===== *)
(** What the command parser of [student-distrib/syscall.c] promises: the
    first word, the arguments without their leading spaces, the file name. *)

From S2P Require Import Prelude CLib FileSystem Kernel Process.

(** Number of leading spaces. *)
Fixpoint spaces (s : list Z) : nat :=
  match s with
  | c :: s => if decide (c = 32) then Datatypes.S (spaces s) else O
  | [] => O
  end.

(** The command word and the arguments of a command line. *)
Definition word_of_line (comm : list Z) : list Z := cut_word comm.
Definition after_word (comm : list Z) : nat :=
  (length (cut_word comm) + spaces (drop (length (cut_word comm)) comm))%nat.
Definition args_of_line (comm : list Z) : list Z := cstr (drop (after_word comm) comm).

Lemma spaces_at s i : 0 <= i < Z.of_nat (spaces s) -> at_ s i = 32.
Proof.
  revert i. induction s as [|c s IH]; simpl; intros i Hi; [lia|].
  case_decide; [|lia]. rewrite at_cons by lia. case_decide; [done|]. apply IH. lia.
Qed.
Lemma spaces_stop s : (spaces s < length s)%nat -> at_ s (Z.of_nat (spaces s)) <> 32.
Proof.
  induction s as [|c s IH]; simpl; intros Hl; [lia|].
  case_decide; [|by rewrite at_cons by lia]. rewrite at_cons by lia. rewrite decide_False by lia.
  replace (Z.of_nat (Datatypes.S (spaces s)) - 1) with (Z.of_nat (spaces s)) by lia. apply IH. lia.
Qed.
Lemma spaces_cstr s : 0 ∈ s -> (spaces s <= length (cstr s))%nat.
Proof.
  induction s as [|c s IH]; simpl; [lia|]. intros Hin. case_decide; [|lia].
  rewrite decide_False by lia. simpl. apply elem_of_cons in Hin as [|Hin]; [lia|].
  specialize (IH Hin). lia.
Qed.
Lemma cut_word_cstr s : (length (cut_word s) <= length (cstr s))%nat.
Proof.
  induction s as [|c s IH]; simpl; [lia|]. repeat case_decide; simpl; try lia.
Qed.
Lemma cstr_drop n s : (n <= length (cstr s))%nat -> cstr (drop n s) = drop n (cstr s).
Proof.
  revert s. induction n as [|n IH]; intros s Hn; [done|].
  destruct s as [|c s]; simpl in *; [done|]. case_decide; simpl in *; [lia|]. apply IH. lia.
Qed.
Lemma nul_drop n s : 0 ∈ s -> (n <= length (cstr s))%nat -> 0 ∈ drop n s.
Proof.
  revert s. induction n as [|n IH]; intros s Hin Hn; [done|].
  destruct s as [|c s]; simpl in *; [done|]. case_decide; simpl in *; [lia|].
  apply IH; [|lia]. apply elem_of_cons in Hin as [|]; [congruence|done].
Qed.

Lemma after_word_cstr comm : 0 ∈ comm -> (after_word comm <= length (cstr comm))%nat.
Proof.
  intros H0. unfold after_word. pose proof (cut_word_cstr comm) as Hw.
  pose proof (spaces_cstr _ (nul_drop _ _ H0 Hw)) as Hs. rewrite cstr_drop, length_drop in Hs by done. lia.
Qed.

Section parse.
Variable comm : list Z.
Hypothesis (H0 : 0 ∈ comm) (Hlen : zlen (cstr comm) < 128).

Lemma cut_word_next i : 0 <= i <= zlen (cut_word comm) ->
  ((at_ comm i <> 32 /\ at_ comm i <> 0) <-> i <> zlen (cut_word comm)).
Proof using H0.
  intros Hi. split.
  - intros [H1 H2] ->. pose proof (length_cstr_lt comm H0). pose proof (cut_word_cstr comm).
    destruct (cut_word_stop comm); [lia|done|done].
  - intros Hne. destruct (cut_word_at comm i) as (_ & ? & ?); [lia|done].
Qed.

Lemma take_word_ok buf : length buf = 128%nat ->
  take_word comm buf = Ok (zlen (cut_word comm), over (cut_word comm) buf).
Proof using H0 Hlen.
  intros Hb. pose proof (length_cstr_lt comm H0). pose proof (cut_word_cstr comm) as Hw.
  apply wp_eq. unfold take_word. set (w := cut_word comm) in *.
  apply (wp_loop (fun '(i, b) => 0 <= i <= zlen w /\ b = over (take (Z.to_nat i) w) buf)
           (fun '(i, _) => Z.to_nat (zlen w - i))); [split; [lia|done]|lia|].
  intros [i b] [Hi ->]. pose proof (cut_word_next i Hi) as Hn. fold w in Hn.
  wp_step. wp_step. unfold TERM_BUFF_SIZE. wp_step.
  - assert (i <> zlen w) by tauto.
    wp_step. rewrite wr_over by (rewrite ?length_take; lia). do 2 wp_step.
    split; [|lia]. split; [lia|]. rewrite take_snoc by lia.
    destruct (cut_word_at comm i ltac:(fold w; lia)) as [E _]. fold w in E. by rewrite E.
  - wp_step. assert (i = zlen w) as -> by (destruct (decide (i = zlen w)); [done|tauto || lia]).
    by rewrite Nat2Z.id, take_ge by done.
Qed.

Lemma skip_word_spaces_ok :
  skip_word_spaces comm (zlen (cut_word comm)) = Ok (Z.of_nat (after_word comm)).
Proof using H0 Hlen.
  pose proof (length_cstr_lt comm H0). pose proof (cut_word_cstr comm) as Hw.
  pose proof (after_word_cstr comm H0) as Ha.
  apply wp_eq. unfold skip_word_spaces. unfold after_word in *. set (w := cut_word comm) in *.
  set (r := drop (length w) comm) in *.
  assert (Hr : length r = (length comm - length w)%nat) by apply length_drop.
  apply (wp_loop (fun i => zlen w <= i <= zlen w + Z.of_nat (spaces r))
           (fun i => Z.to_nat (zlen w + Z.of_nat (spaces r) - i))); [lia|lia|].
  intros i Hi. wp_step. wp_step. wp_step. unfold TERM_BUFF_SIZE.
  assert (Hat : at_ comm i = at_ r (i - zlen w)) by (unfold r; rewrite at_drop by lia; f_equal; lia).
  destruct_decide (decide (i = zlen w + Z.of_nat (spaces r))) as E.
  - rewrite decide_False; [lia|]. intros [H32 _]. apply (spaces_stop r); [lia|].
    rewrite <- H32, Hat. f_equal. lia.
  - assert (at_ comm i = 32) by (rewrite Hat; apply spaces_at; lia).
    rewrite decide_True by lia. lia.
Qed.

Lemma take_args_ok row : length row = 128%nat ->
  take_args comm row (Z.of_nat (after_word comm)) = Ok (over (args_of_line comm ++ [0]) row).
Proof using H0 Hlen.
  intros Hr. pose proof (length_cstr_lt comm H0). pose proof (after_word_cstr comm H0) as Ha.
  unfold take_args, args_of_line. set (a := after_word comm) in *.
  assert (Hargs : length (cstr (drop a comm)) = (length (cstr comm) - a)%nat)
    by (rewrite cstr_drop, length_drop by done; done).
  pose proof (nul_drop a comm H0 Ha) as Hnul.
  set (t := cstr (drop a comm)) in *.
  apply wp_eq. wp_step.
  eapply (wp_mono _ (fun r => r = (Z.of_nat a + zlen t, over t row))).
  - apply (wp_loop (fun '(j, b) => Z.of_nat a <= j <= Z.of_nat a + zlen t /\
        b = over (take (Z.to_nat (j - Z.of_nat a)) t) row)
      (fun '(j, _) => Z.to_nat (Z.of_nat a + zlen t - j))).
    + split; [lia|]. by rewrite Z.sub_diag.
    + lia.
    + intros [j b] [Hj ->]. wp_step. wp_step.
      assert (Hnx : at_ comm j = 0 <-> j = Z.of_nat a + zlen t).
      { pose proof (cstr_next (drop a comm) (j - Z.of_nat a)) as Hn. fold t in Hn.
        rewrite at_drop, length_drop in Hn by lia.
        replace (Z.of_nat a + (j - Z.of_nat a)) with j in Hn by lia. rewrite Hn by lia. lia. }
      unfold TERM_BUFF_SIZE. wp_step.
      * assert (j <> Z.of_nat a + zlen t) by tauto.
        wp_step. rewrite wr_over by (rewrite ?length_take; lia). do 2 wp_step.
        split; [|lia]. split; [lia|].
        replace (j + 1 - Z.of_nat a) with (j - Z.of_nat a + 1) by lia.
        rewrite take_snoc by lia.
        assert (E : at_ t (j - Z.of_nat a) = at_ comm j).
        { unfold t. rewrite at_cstr, at_drop by (fold t; lia). f_equal. lia. }
        by rewrite E.
      * wp_step. assert (j = Z.of_nat a + zlen t) as -> by (destruct (decide (j = Z.of_nat a + zlen t)); [done|tauto || lia]).
        f_equal. f_equal. apply take_ge. lia.
  - intros r ->. cbv beta iota. rewrite wr_over by lia. done.
Qed.

(** The parser cuts the line at its first space. *)
Lemma parse_cmd_args_ok buf row : length buf = 128%nat -> length row = 128%nat ->
  parse_cmd_args buf comm row =
    Ok (over (word_of_line comm ++ [0]) buf, over (args_of_line comm ++ [0]) row).
Proof using H0 Hlen.
  intros Hb Hr. unfold parse_cmd_args.
  rewrite (ok_bind _ _ _ (take_word_ok buf Hb)). cbv beta iota.
  pose proof (cut_word_cstr comm).
  rewrite wr_over by lia. cbn [mbind outcome_bind].
  rewrite (ok_bind _ _ _ skip_word_spaces_ok). by rewrite (ok_bind _ _ _ (take_args_ok row Hr)).
Qed.
End parse.
