(* ===== verification/Lifecycle.v ===== *)
(** The life of a process: what [execute] builds and what [halt] takes down
    ([student-distrib/syscall.c]). *)

From S2P Require Import Prelude Segments Hardware CLib Screen Printf FileSystem Paging MemOps Kernel.
From S2P Require Import FdTable Drivers Process CmdLine.

(** * The process table *)
Record procs_wf (k : kernel) : Prop := {
  pw_term : 0 <= curr_terminal (lib k) < MAX_TERMINAL;
  pw_array : length (process_array (procs k)) = Z.to_nat MAX_PROCESSES;
  pw_use : length (in_use (procs k)) = Z.to_nat MAX_PROCESSES;
  pw_current : length (current_process (procs k)) = Z.to_nat MAX_TERMINAL;
  pw_cmd : length (cmd_args (procs k)) = Z.to_nat MAX_TERMINAL /\
           Forall (fun row => length row = Z.to_nat TERM_BUFF_SIZE) (cmd_args (procs k));
  pw_blocks : forall i, 0 <= i < MAX_PROCESSES -> exists p,
    pcbs (procs k) !! slot_addr i = Some p /\ length (args p) = Z.to_nat TERM_BUFF_SIZE /\
    length (fd_table p) = Z.to_nat FD_TABLE_SIZE;
  pw_ptrs : forall i, 0 <= i < MAX_PROCESSES ->
    at_ (process_array (procs k)) i = None \/ at_ (process_array (procs k)) i = Some (slot_addr i);
}.

Lemma slot_addr_u32 i : 0 <= i < MAX_PROCESSES -> u32 (K_STACK_BOTTOM - PROCESS_SIZE * (1 + i)) = slot_addr i.
Proof. unfold MAX_PROCESSES, slot_addr, K_STACK_BOTTOM, PROCESS_SIZE. intros. apply u32_id. lia. Qed.

Lemma slot_addr_inj i j : slot_addr i = slot_addr j -> i = j.
Proof. unfold slot_addr, PROCESS_SIZE. lia. Qed.

(** * Slots *)
Definition first_slot (use : list Z) : Z :=
  match list_find (fun v => v = 0) use with Some (n, _) => Z.of_nat n | None => zlen use end.

Lemma first_slot_free use i : first_slot use = i -> 0 <= i < zlen use ->
  at_ use i = 0 /\ forall j, 0 <= j < i -> at_ use j <> 0.
Proof.
  unfold first_slot. destruct (list_find _ _) as [[n v]|] eqn:E; [|lia]. intros <- Hi.
  apply list_find_Some in E as (Hl & -> & Hprev).
  unfold at_. rewrite Nat2Z.id, (list_lookup_total_correct _ _ _ Hl). split; [done|].
  intros j Hj. destruct (lookup_lt_is_Some_2 use (Z.to_nat j)) as [x Hx]; [lia|].
  rewrite (list_lookup_total_correct _ _ _ Hx). apply (Hprev (Z.to_nat j)); [done|lia].
Qed.

Lemma first_slot_unique use i : 0 <= i < zlen use -> at_ use i = 0 ->
  (forall j, 0 <= j < i -> at_ use j <> 0) -> first_slot use = i.
Proof.
  intros Hi H0 Hprev. unfold first_slot.
  assert (E : list_find (fun v => v = 0) use = Some (Z.to_nat i, 0)).
  { apply list_find_Some. split; [|split; [done|]].
    - rewrite <- H0. unfold at_. apply list_lookup_lookup_total_lt. lia.
    - intros j y Hj Hlt ->. apply (Hprev (Z.of_nat j)); [lia|].
      unfold at_. rewrite Nat2Z.id. by apply list_lookup_total_correct. }
  rewrite E. lia.
Qed.

Lemma first_slot_full use : (forall j, 0 <= j < zlen use -> at_ use j <> 0) -> first_slot use = zlen use.
Proof.
  intros H. unfold first_slot. destruct (list_find _ _) as [[n v]|] eqn:E; [|done].
  apply list_find_Some in E as (Hl & -> & _). apply lookup_lt_Some in Hl as Hlt.
  destruct (H (Z.of_nat n)); [lia|]. unfold at_. rewrite Nat2Z.id. by apply list_lookup_total_correct.
Qed.

Definition with_use (use : list Z) (k : kernel) : kernel :=
  let p := procs k in
  with_procs (mkProcs (process_array p) use (current_process p) (pcbs p) (cmd_args p)) k.

Lemma set_in_use_ok i v k : 0 <= i < zlen (in_use (procs k)) ->
  set_in_use i v k = Ok (Returned tt, with_use (upd (in_use (procs k)) i v) k).
Proof. intros Hi. unfold set_in_use. by rewrite wr_ok. Qed.

(** take_slot takes the lowest free slot; with none it returns 8. *)
Lemma take_slot_ok k : length (in_use (procs k)) = Z.to_nat MAX_PROCESSES ->
  let i := first_slot (in_use (procs k)) in
  take_slot k = Ok (Returned i,
    if decide (i < MAX_PROCESSES) then with_use (upd (in_use (procs k)) i 1) k else k).
Proof.
  intros Hl. cbv zeta. unfold MAX_PROCESSES in *. apply kwp_ok. unfold take_slot.
  apply (kwp_kloop (fun i k' => k' = k /\ 0 <= i <= 8 /\ forall j, 0 <= j < i -> at_ (in_use (procs k)) j <> 0)
           (fun i => Z.to_nat (8 - i))); [split; [done|split; [lia|intros; lia]]|lia|].
  intros i k' (-> & Hi & Hprev). unfold MAX_PROCESSES. kwp_step.
  - kwp_step. eapply kwp_eq; [unfold get_in_use; by rewrite rd_ok by lia|].
    kwp_step.
    + kwp_step. eapply kwp_eq; [apply set_in_use_ok; lia|]. kwp_step.
      assert (E : first_slot (in_use (procs k)) = i) by (apply first_slot_unique; [lia|done|done]).
      rewrite E. split; [done|]. by rewrite decide_True by lia.
    + kwp_step. split; [|lia]. split; [done|]. split; [lia|]. intros j Hj.
      destruct_decide (decide (j = i)); [by subst|]. apply Hprev. lia.
  - kwp_step. assert (E : first_slot (in_use (procs k)) = 8).
    { rewrite first_slot_full; [lia|]. intros j Hj. apply Hprev. lia. }
    rewrite E. split; [lia|]. by rewrite decide_False by lia.
Qed.

(** * Control blocks *)
Definition with_pcb (a : Z) (p : pcb) (k : kernel) : kernel :=
  with_procs (set_pcbs (<[a := p]> (pcbs (procs k))) (procs k)) k.

Lemma update_pcb_ok a f p k : pcbs (procs k) !! a = Some p ->
  update_pcb a f k = Ok (Returned tt, with_pcb a (f p) k).
Proof. intros H. unfold update_pcb. by rewrite H. Qed.
Lemma read_pcb_ok a p k : pcbs (procs k) !! a = Some p -> read_pcb a k = Ok (Returned p, k).
Proof. intros H. unfold read_pcb. by rewrite H. Qed.
Lemma with_pcb_lookup a p k : pcbs (procs (with_pcb a p k)) !! a = Some p.
Proof. simpl. apply lookup_insert_eq. Qed.
Lemma with_pcb_twice a p p' k : with_pcb a p (with_pcb a p' k) = with_pcb a p k.
Proof. unfold with_pcb, with_procs, set_pcbs. simpl. by rewrite insert_insert_eq. Qed.

(** The control block of a fresh process. *)
Definition fresh_pcb (i parent : Z) (args : list Z) (p : pcb) : pcb :=
  mkPcb i parent (current_esp p) (current_ebp p) (return_esp p) (return_ebp p) args initial_fds.

(** The kernel once slot [i] holds a new process of the current terminal. *)
Definition started (i : Z) (p : pcb) (k : kernel) : kernel :=
  let ps := procs k in
  with_procs (mkProcs (upd (process_array ps) i (Some (slot_addr i))) (in_use ps)
    (upd (current_process ps) (curr_terminal (lib k)) i)
    (<[slot_addr i := p]> (pcbs ps)) (cmd_args ps)) k.

Definition parent_of (i : Z) (k : kernel) : Z :=
  if decide (i < 3) then -1 else at_ (current_process (procs k)) (curr_terminal (lib k)).

Lemma new_process_ok i k p row :
  procs_wf k -> 0 <= i < MAX_PROCESSES -> pcbs (procs k) !! slot_addr i = Some p ->
  length (args p) = 128%nat -> length (fd_table p) = 8%nat ->
  at_ (cmd_args (procs k)) (curr_terminal (lib k)) = row -> 0 ∈ row -> length row = 128%nat ->
  new_process i k = Ok (Returned tt,
    started i (fresh_pcb i (parent_of i k)
      (cstr row ++ 0 :: drop (Datatypes.S (length (cstr row))) (args p)) p) k).
Proof.
  intros W Hi Hp Hargs Hfds Hrow Hnul Hlen. pose proof (length_cstr_lt row Hnul) as Hc.
  destruct W as [Ht Ha Hu Hcur [Hcmd _] _ _]. unfold MAX_PROCESSES, MAX_TERMINAL in *.
  unfold new_process. cbv zeta. rewrite slot_addr_u32 by (unfold MAX_PROCESSES; lia).
  set (a := slot_addr i) in *.
  set (k1 := with_procs (mkProcs (upd (process_array (procs k)) i (Some a)) (in_use (procs k))
    (current_process (procs k)) (pcbs (procs k)) (cmd_args (procs k))) k).
  assert (E1 : set_process_array i (Some a) k = Ok (Returned tt, k1))
    by (unfold set_process_array; by rewrite wr_ok by lia).
  kstep E1. kstep (update_pcb_ok a (set_process_id i) p k1 Hp).
  set (k2 := with_pcb a (set_process_id i p) k1).
  kstep (gets_ok (fun k => curr_terminal (lib k)) k2).
  change (curr_terminal (lib k2)) with (curr_terminal (lib k)). set (t := curr_terminal (lib k)) in *.
  assert (E2 : (if decide (i < 3) then mret (-1) else curr_pid) k2 = Ok (Returned (parent_of i k), k2)).
  { unfold parent_of. case_decide; [done|]. unfold curr_pid. simpl. rewrite rd_ok by (fold t; lia). done. }
  kstep E2. kstep (update_pcb_ok a (set_parent_id (parent_of i k)) _ k2 (with_pcb_lookup _ _ _)).
  unfold k2. rewrite with_pcb_twice. set (p3 := set_parent_id _ _). set (k3 := with_pcb a p3 k1).
  set (k4 := with_procs (mkProcs (process_array (procs k3)) (in_use (procs k3))
    (upd (current_process (procs k3)) t i) (pcbs (procs k3)) (cmd_args (procs k3))) k3).
  assert (E3 : set_current_process t i k3 = Ok (Returned tt, k4))
    by (unfold set_current_process; by rewrite wr_ok by (simpl; lia)).
  kstep E3.
  assert (R : running k4 i p3).
  { constructor; simpl; rewrite ?length_upd; fold t; try lia.
    - by rewrite at_upd_eq by lia.
    - by rewrite at_upd_eq by lia.
    - apply lookup_insert_eq. }
  kstep (curr_pcb_ok _ _ _ R). kstep (gets_ok (fun k => cmd_args (procs k)) k4).
  change (cmd_args (procs k4)) with (cmd_args (procs k)).
  assert (E4 : rd (cmd_args (procs k)) t = Ok row) by (rewrite rd_ok by lia; by rewrite Hrow).
  kstep (lift_ok _ _ k4 E4).
  assert (E5 : strcpy (args p3) row =
    Ok (cstr row ++ 0 :: drop (Datatypes.S (length (cstr row))) (args p)))
    by (rewrite strcpy_spec; [done|done|lia|simpl; lia]).
  kstep (lift_ok _ _ k4 E5). fold a.
  assert (L4 : pcbs (procs k4) !! a = Some p3) by apply lookup_insert_eq.
  kstep (update_pcb_ok a (set_args (cstr row ++ 0 :: drop (Datatypes.S (length (cstr row))) (args p))) _ k4 L4).
  set (p5 := set_args _ p3). set (k5 := with_pcb a p5 k4).
  kstep (read_pcb_ok a p5 k5 (with_pcb_lookup _ _ _)).
  kstep (lift_ok _ _ k5 (fd_table_init_ok (fd_table p5) Hfds)).
  rewrite (update_pcb_ok a _ p5 k5) by apply with_pcb_lookup.
  do 2 f_equal. unfold k5. rewrite with_pcb_twice. unfold started, k4, k3, k1, with_pcb, with_procs, set_pcbs.
  simpl. rewrite !insert_insert_eq. f_equal. f_equal. f_equal.
  unfold p5, p3, set_fd_table, set_args, set_parent_id, set_process_id, fresh_pcb. simpl.
  rewrite u8_id by lia. done.
Qed.

(** * The name of the program *)
Fixpoint cut_name (s : list Z) : list Z :=
  match s with
  | [] => []
  | c :: s => if decide (c = 32 \/ c = 0 \/ c = 10) then [] else c :: cut_name s
  end.

Lemma cut_name_at s j : 0 <= j < zlen (cut_name s) ->
  at_ (cut_name s) j = at_ s j /\ at_ s j <> 32 /\ at_ s j <> 0 /\ at_ s j <> 10.
Proof.
  revert j. induction s as [|c s IH]; simpl; intros j Hj; [lia|].
  case_decide as Hc; simpl in *; [lia|]. rewrite !at_cons by lia. case_decide; [naive_solver|].
  apply IH. lia.
Qed.
Lemma cut_name_stop s : zlen (cut_name s) < zlen s ->
  let c := at_ s (zlen (cut_name s)) in c = 32 \/ c = 0 \/ c = 10.
Proof.
  cbv zeta. induction s as [|c s IH]; simpl; intros Hl; [lia|].
  case_decide as Hc; simpl in *; [done|]. rewrite at_cons by lia. rewrite decide_False by lia.
  replace (Z.of_nat (Datatypes.S (length (cut_name s))) - 1) with (zlen (cut_name s)) by lia.
  apply IH. lia.
Qed.
Lemma cut_name_app s t : 0 ∉ s -> cut_name (s ++ 0 :: t) = cut_name s.
Proof.
  induction s as [|c s IH]; simpl; intros Hn; [done|].
  apply not_elem_of_cons in Hn as [? Hn]. by rewrite IH.
Qed.
Lemma cut_name_short s : (length (cut_name s) <= length s)%nat.
Proof. induction s; simpl; [lia|]. case_decide; simpl; lia. Qed.
Lemma cut_name_chars s : Forall (fun c => c <> 32 /\ c <> 0 /\ c <> 10) (cut_name s).
Proof. induction s; simpl; [done|]. case_decide; [done|]. constructor; [naive_solver|done]. Qed.
Lemma cut_word_exact s t : Forall (fun c => c <> 32 /\ c <> 0 /\ c <> 10) s ->
  cut_word (s ++ 0 :: t) = s.
Proof.
  induction 1 as [|c s Hc HF IH]; simpl; [done|]. rewrite decide_False by naive_solver. by rewrite IH.
Qed.
Lemma cut_word_no_nul s : 0 ∉ cut_word s.
Proof.
  induction s as [|c s IH]; simpl; [apply not_elem_of_nil|]. case_decide; [apply not_elem_of_nil|].
  apply not_elem_of_cons. split; [naive_solver|done].
Qed.

(** The name of the program a command line asks for. *)
Definition program_name (comm : list Z) : list Z := cut_name (word_of_line comm).

Lemma command_name_ok command file_name :
  zlen (cut_name command) < zlen command < 130 -> length file_name = 32%nat ->
  command_name command file_name = Ok
    (if decide (zlen (cut_name command) < 32) then Some (over (cut_name command ++ [0]) file_name)
     else None).
Proof.
  intros Hc Hf. unfold command_name. set (n := cut_name command) in *. apply wp_eq. wp_step.
  eapply (wp_mono _ (fun r => r = if decide (zlen n < 32) then Some (zlen n, over n file_name) else None)).
  - apply (wp_loop (fun '(i, b) => 0 <= i <= zlen n /\ i <= 31 /\ b = over (take (Z.to_nat i) n) file_name)
             (fun '(i, _) => Z.to_nat (zlen n - i))); [split; [lia|split; [lia|done]]|lia|].
    intros [i b] (Hi & H31 & ->). wp_step. wp_step. unfold FILE_NAME_LENGTH. wp_step.
    + assert (i <> zlen n).
      { intros ->. pose proof (cut_name_stop command ltac:(fold n; lia)) as Hs. fold n in Hs.
        cbv zeta in Hs. tauto. }
      destruct (cut_name_at command i ltac:(fold n; lia)) as [E _]. fold n in E.
      wp_step; [wp_step; by rewrite decide_False by lia|]. wp_step.
      rewrite wr_over by (rewrite ?length_take; lia). do 2 wp_step.
      split; [|lia]. split; [lia|]. split; [lia|]. rewrite take_snoc by lia. by rewrite E.
    + wp_step. assert (i = zlen n) as ->.
      { destruct (decide (i = zlen n)); [done|].
        destruct (cut_name_at command i ltac:(fold n; lia)) as [_ ?]. tauto. }
      rewrite decide_True by lia. by rewrite Nat2Z.id, take_ge by done.
  - intros r ->. case_decide; [|done]. wp_step. rewrite wr_over by lia. done.
Qed.

(** * The program image *)
Lemma store_bytes_filled a l m : filled a (zlen l) (at_ l) m (store_bytes a l m).
Proof.
  unfold store_bytes. apply (for_ind (fun j m' => 0 <= j /\ filled a j (at_ l) m m') 0 (zlen l)); [lia| |].
  - split; [done|apply filled_0].
  - intros j m' Hj [_ HF]. split; [lia|].
    by apply (filled_snoc a j (at_ l) m); [lia| | |].
Qed.

Lemma load_bytes_length a n m : length (load_bytes a n m) = Z.to_nat n.
Proof. unfold load_bytes. by rewrite length_map, length_seqZ. Qed.

(** The entry point: the little-endian word at byte 24. *)
Definition entry_of (c : list Z) : Z :=
  at_ c 24 + 2 ^ 8 * at_ c 25 + 2 ^ 16 * at_ c 26 + 2 ^ 24 * at_ c 27.

Lemma read_entry_point_ok buf : length buf = 28%nat -> Forall byte buf ->
  read_entry_point buf = Ok (entry_of buf).
Proof.
  intros Hl HB. unfold read_entry_point, BYTES_TO_READ, ENTRY_POINT_START, BYTE_SIZE.
  assert (Hb : forall j, 0 <= j < 28 -> 0 <= at_ buf j < 2 ^ 8)
    by (intros j Hj; apply (Forall_at byte); [done|lia]).
  match goal with |- loop _ ?b _ = _ => set (body := b) end.
  assert (Hbody : forall j e, 24 <= j < 28 ->
    body (j, e) = Ok (inl (j + 1, Z.lor e (u32 (Z.shiftl (at_ buf j) (8 * (j - 24))))))).
  { intros j e Hj. unfold body. rewrite decide_True by lia. by rewrite rd_ok by lia. }
  assert (Hstep : forall n j e, 24 <= j < 28 ->
    loop (Datatypes.S n) body (j, e) =
    loop n body (j + 1, Z.lor e (u32 (Z.shiftl (at_ buf j) (8 * (j - 24)))))).
  { intros n j e Hj. by rewrite loop_S, Hbody. }
  assert (Hsh : forall j, 24 <= j < 28 ->
    u32 (Z.shiftl (at_ buf j) (8 * (j - 24))) = at_ buf j * 2 ^ (8 * (j - 24))).
  { intros j Hj. rewrite Z.shiftl_mul_pow2 by lia. apply u32_id. pose proof (Hb j ltac:(lia)).
    assert (j = 24 \/ j = 25 \/ j = 26 \/ j = 27) as [->|[->|[->| ->]]] by lia; simpl; lia. }
  rewrite !Hstep, !Hsh by lia. rewrite loop_S.
  assert (Hend : forall e, body (24 + 1 + 1 + 1 + 1, e) = Ok (inr e)) by done.
  rewrite Hend. cbn [mbind outcome_bind mret outcome_ret]. f_equal. unfold entry_of.
  pose proof (Hb 24 ltac:(lia)). pose proof (Hb 25 ltac:(lia)). pose proof (Hb 26 ltac:(lia)).
  change (24 + 1 + 1 + 1) with 27. change (24 + 1 + 1) with 26. change (24 + 1) with 25.
  change (8 * (24 - 24)) with 0. change (8 * (25 - 24)) with 8.
  change (8 * (26 - 24)) with 16. change (8 * (27 - 24)) with 24.
  rewrite Z.lor_0_l, Z.pow_0_r, Z.mul_1_r.
  rewrite (Z.lor_comm (at_ buf 24)), (lor_add (at_ buf 25 * 2 ^ 8) _ 8); [|lia|by apply Z.mod_mul|lia].
  rewrite (Z.lor_comm _ (at_ buf 26 * _)), (lor_add (at_ buf 26 * _) _ 16); [|lia|by apply Z.mod_mul|lia].
  rewrite (Z.lor_comm _ (at_ buf 27 * _)), (lor_add (at_ buf 27 * _) _ 24); [|lia|by apply Z.mod_mul|lia].
  lia.
Qed.

Lemma check_magic_ok buf : 4 <= zlen buf ->
  check_magic buf = Ok (bool_decide (take 4 buf = magic_numbers)).
Proof.
  intros Hl. apply wp_eq. unfold check_magic, MAGIC_NUMBER_SIZE.
  apply (wp_loop (fun j => 0 <= j <= 4 /\ forall m, 0 <= m < j -> at_ buf m = at_ magic_numbers m)
           (fun j => Z.to_nat (4 - j))); [split; [lia|intros; lia]|lia|].
  intros j [Hj Hall]. assert (Hm4 : length magic_numbers = 4%nat) by done.
  wp_step.
  - do 5 wp_step. destruct_decide (decide (at_ buf j <> at_ magic_numbers j)) as Hne.
    + symmetry. apply bool_decide_eq_false. intros E. apply Hne. rewrite <- E.
      by rewrite at_take by lia.
    + split; [|lia]. split; [lia|]. intros m Hm. destruct_decide (decide (m = j)) as Hmj; [subst m|apply Hall; lia].
      destruct_decide (decide (at_ buf j = at_ magic_numbers j)); [done|tauto].
  - wp_step. symmetry. apply bool_decide_eq_true. apply at_ext; [rewrite length_take, Hm4; lia|].
    intros m Hm. rewrite length_take in Hm. rewrite at_take by lia. apply Hall. lia.
Qed.

(** * execute *)

(** The locals have their C sizes. *)
Record frame_wf (fr : frame) : Prop := {
  fw_command : length (u_command fr) = 128%nat;
  fw_file_name : length (u_file_name fr) = 32%nat;
  fw_file_name_bytes : Forall byte (u_file_name fr);
  fw_file_dentry : length (file_name (u_file_dentry fr)) = 32%nat;
  fw_buf : length (u_buf fr) = 28%nat;
  fw_dentry : length (file_name (u_dentry fr)) = 32%nat;
}.

(** Directory entry [e] is a program that fits its page. *)
Record program (f : fs_state) (name : list Z) (e : Z) : Prop := {
  pg_name : first_entry f name = Some e;
  pg_type : type_of f e = 2;
  pg_inode : 0 <= inode_of f e < num_inodes f;
  pg_size : 28 <= size_of f (inode_of f e) <= PROGRAM_PAGE + USER_PAGE_SIZE - PROGRAM_START;
  pg_magic : take 4 (contents f (inode_of f e)) = magic_numbers;
}.

(** A command line with a program name. *)
Record command_line (comm : list Z) : Prop := {
  cl_nul : 0 ∈ comm;
  cl_length : zlen (cstr comm) < 128;
  cl_bytes : Forall byte comm;
  cl_name : 0 < zlen (program_name comm) < 32;
}.

Definition with_cmd_row (row : list Z) (k : kernel) : kernel :=
  let p := procs k in
  with_procs (mkProcs (process_array p) (in_use p) (current_process p) (pcbs p)
    (upd (cmd_args p) (curr_terminal (lib k)) row)) k.

(** The kernel when user code starts: process [i] with control block [p] in
    its page, the program's bytes [c] at their address. *)
Definition entered (fr : frame) (i : Z) (c : list Z) (p : pcb) (k : kernel) : kernel :=
  let s := lib k in
  with_pcb (slot_addr i) (set_current_stack (r_esp fr) (r_ebp fr) p)
  (with_cpu (mkCpu (slot_addr (i - 1) - 4) KERNEL_DS (extended_status (cpu k)) (exception_flag (cpu k)) (segs (cpu k)))
  (with_paging (add_process i (paging k))
  (with_lib (set_io (set_if true (lib_io s))
     (set_mem (store_bytes (process_base i + (PROGRAM_START - PROGRAM_PAGE)) c (lib_mem s)) s)) k))).

Section launch.
Variables (k : kernel) (fr : frame) (name : list Z) (e i : Z) (p : pcb).
Hypothesis (Wfs : fs_wf (fs k)) (Wpg : paging_wf (page_directory_at (link k)) (paging k)) (Wfr : frame_wf fr)
  (Hpg : program (fs k) name e) (Hi : 0 <= i < MAX_PROCESSES) (R : running k i p)
  (Hid : process_id p = i) (Hname : given_word (over (name ++ [0]) (u_file_name fr)) = name)
  (Hlen : 0 < zlen name < 32) (Hbytes : Forall byte name).
Abbreviation c := (contents (fs k) (inode_of (fs k) e)).
Abbreviation fname := (over (name ++ [0]) (u_file_name fr)).

Lemma fname_bytes : Forall byte fname /\ length fname = 32%nat.
Proof using Wfr Hlen Hbytes.
  destruct Wfr. split.
  - unfold over. apply Forall_app. split; [apply Forall_app; split; [done|by repeat constructor]|].
    by apply Forall_drop.
  - rewrite length_over; [done|]. rewrite length_app. simpl. lia.
Qed.

Lemma lookup_name d : length (file_name d) = 32%nat ->
  read_dentry_by_name (fs k) fname d = Ok (0, filled_dentry (fs k) e d).
Proof using Wfs Wfr Hpg Hname Hlen Hbytes.
  intros Hd. destruct fname_bytes as [HB HL]. rewrite read_dentry_by_name_spec by (rewrite ?Hname; done || lia).
  rewrite Hname, decide_False by (intros ->; simpl in *; lia). by rewrite (pg_name _ _ _ Hpg).
Qed.

Lemma read_program_ok pid (k' : kernel) :
  fs k' = fs k -> link k' = link k -> paging k' = add_process pid (paging k) -> 0 <= pid < 1000 ->
  read_program (inode_of (fs k) e) PROGRAM_START (size_of (fs k) (inode_of (fs k) e)) k' =
    Ok (Returned (size_of (fs k) (inode_of (fs k) e)),
        with_lib (set_mem (store_bytes (process_base pid + (PROGRAM_START - PROGRAM_PAGE)) c
                             (lib_mem (lib k'))) (lib k')) k').
Proof using Wfs Wpg Hpg.
  intros Ef El Ep Hpid. destruct Hpg as [_ _ Hino Hsz _].
  unfold PROGRAM_PAGE, USER_PAGE_SIZE, PROGRAM_START in *.
  set (a := process_base pid + (0x08048000 - 0x08000000)).
  assert (E1 : program_phys 0x08048000 (size_of (fs k) (inode_of (fs k) e)) k' = Ok (Returned a, k')).
  { unfold program_phys, PROGRAM_PAGE, USER_PAGE_SIZE. rewrite decide_True by lia.
    rewrite El, Ep, translate_add_process by (done || lia).
    rewrite decide_True by (unfold in_program_page; lia). done. }
  unfold read_program. kstep E1. kstep (gets_ok (fun k => k) k').
  assert (E2 : read_data (fs k') (inode_of (fs k) e) 0
      (load_bytes a (size_of (fs k) (inode_of (fs k) e)) (lib_mem (lib k')))
      (size_of (fs k) (inode_of (fs k) e)) = Ok (size_of (fs k) (inode_of (fs k) e), c)).
  { rewrite Ef. rewrite read_data_spec; try done.
    - rewrite decide_False by lia. unfold read_count. rewrite u32_id by lia.
      replace (Z.max 0 _) with (size_of (fs k) (inode_of (fs k) e)) by lia.
      change (Z.to_nat 0) with O. rewrite drop_0, take_ge by (rewrite contents_length; lia).
      by rewrite drop_ge, app_nil_r by (rewrite load_bytes_length; lia).
    - unfold uint32. lia.
    - rewrite load_bytes_length. unfold read_count. rewrite u32_id by lia. lia.
    - rewrite load_bytes_length. lia. }
  kstep (lift_ok _ _ k' E2). done.
Qed.

Lemma launch_ok buf :
  length buf = 28%nat -> Forall byte buf -> take 4 buf = magic_numbers ->
  launch fr fname buf i k =
    Ok (Jump (ToUser (entry_of buf) 0x83FFFFC), entered fr i c p k).
Proof using Type*.
  intros Hbl HB Hmag. pose proof (run_pcb _ _ _ R) as Hp. unfold MAX_PROCESSES in Hi.
  assert (E1 : check_magic buf = Ok true).
  { rewrite check_magic_ok by lia. f_equal. by apply bool_decide_eq_true. }
  unfold launch. kstep (lift_ok _ _ k E1). rewrite decide_False by done.
  kstep (lift_ok _ _ k (read_entry_point_ok buf Hbl HB)).
  rewrite slot_addr_u32 by done. kstep (read_pcb_ok _ _ k Hp).
  unfold kadd_process. rewrite Hid. set (k1 := with_paging (add_process i (paging k)) k).
  kstep (modify_ok (fun k => with_paging (add_process i (paging k)) k) k). fold k1.
  kstep (gets_ok fs k1). change (fs k1) with (fs k).
  kstep (lift_ok _ _ k1 (lookup_name (u_dentry fr) (fw_dentry _ Wfr))).
  rewrite decide_False by done.
  assert (E3 : inode_file_size (fs k) (inode_of (fs k) e) = Ok (size_of (fs k) (inode_of (fs k) e)))
    by (apply (inode_size (fs k) Wfs), Hpg).
  change (inode_idx (filled_dentry (fs k) e (u_dentry fr))) with (inode_of (fs k) e).
  kstep (lift_ok _ _ k1 E3).
  pose proof (read_program_ok i k1 eq_refl eq_refl eq_refl ltac:(lia)) as E4. kstep E4.
  destruct Hpg as [_ _ _ Hsz _]. rewrite decide_False by lia.
  set (k2 := with_lib _ k1).
  assert (R2 : running k2 i p) by (constructor; apply R).
  kstep (curr_pid_ok _ _ _ R2).
  unfold set_tss.
  kstep (modify_ok (fun k => with_cpu (mkCpu (u32 (K_STACK_BOTTOM - PROCESS_SIZE * i - BYTE_SIZE / 2))
    KERNEL_DS (extended_status (cpu k)) (exception_flag (cpu k)) (segs (cpu k))) k) k2).
  set (k3 := with_cpu _ k2).
  assert (R3 : running k3 i p) by (constructor; apply R).
  kstep (curr_pcb_ok _ _ _ R3). kstep (update_pcb_ok _ (set_current_stack (r_esp fr) (r_ebp fr)) p k3 (run_pcb _ _ _ R3)).
  unfold user_context_switch, on_io, on_lib, modify, jump, mbind, K_bind. cbv beta iota.
  do 2 f_equal. unfold entered, k3, k2, k1.
  replace (u32 (K_STACK_BOTTOM - PROCESS_SIZE * i - BYTE_SIZE / 2)) with (slot_addr (i - 1) - 4).
  - reflexivity.
  - unfold slot_addr, K_STACK_BOTTOM, PROCESS_SIZE, BYTE_SIZE. rewrite u32_id; [|].
    all: change (8 / 2) with 4; lia.
Qed.
End launch.

(** The first byte of the name is not a separator, so the lookup sees it all. *)
Lemma given_word_name name l : Forall (fun c => c <> 32 /\ c <> 0 /\ c <> 10) name -> zlen name < 32 ->
  given_word (over (name ++ [0]) l) = name.
Proof.
  intros HF Hl. unfold given_word, over. rewrite <- app_assoc. simpl.
  rewrite cut_word_exact by done. apply take_ge. lia.
Qed.

Lemma cut_word_bytes s : Forall byte s -> Forall byte (cut_word s).
Proof. induction 1; simpl; [done|]. case_decide; [done|]. by constructor. Qed.
Lemma cut_name_bytes s : Forall byte s -> Forall byte (cut_name s).
Proof. induction 1; simpl; [done|]. case_decide; [done|]. by constructor. Qed.

(** The state after the arguments were parsed and slot [i] was given to a
    fresh process. *)
Definition parsed_row (comm : list Z) (k : kernel) : list Z :=
  over (args_of_line comm ++ [0]) (at_ (cmd_args (procs k)) (curr_terminal (lib k))).
Definition child_args (comm : list Z) (p : pcb) : list Z := over (args_of_line comm ++ [0]) (args p).
Definition spawned (comm : list Z) (i : Z) (p : pcb) (k : kernel) : kernel :=
  started i (fresh_pcb i (parent_of i k) (child_args comm p) p)
    (with_use (upd (in_use (procs k)) i 1) (with_cmd_row (parsed_row comm k) k)).

Section execute.
Variables (k : kernel) (fr : frame) (comm : list Z).
Hypothesis (Wk : procs_wf k) (Wfs : fs_wf (fs k)) (Wfr : frame_wf fr) (CL : command_line comm).
Abbreviation name := (program_name comm).
Abbreviation fname := (over (name ++ [0]) (u_file_name fr)).
Abbreviation t := (curr_terminal (lib k)).

Lemma command_line_facts :
  length (at_ (cmd_args (procs k)) t) = 128%nat /\ t < zlen (cmd_args (procs k)) /\ 0 <= t /\
  zlen (args_of_line comm) < 128 /\ 0 ∉ args_of_line comm.
Proof using Wk CL.
  destruct Wk as [Ht _ _ _ [Hc1 Hc2] _ _]. destruct CL as [Hn Hl _ _]. unfold MAX_TERMINAL in *.
  pose proof (after_word_cstr comm Hn) as Ha.
  repeat split; try lia.
  - apply (Forall_at (fun row => length row = 128%nat)); [done|lia].
  - unfold args_of_line. rewrite cstr_drop, length_drop by done. lia.
  - apply cstr_idem.
Qed.

(** Parsing, up to the file name. *)
Lemma execute_parsed (rest : option (list Z) -> K Z) :
  (row ← lift (rd (cmd_args (procs k)) t);
   '(command, row) ← lift (parse_cmd_args (u_command fr) comm row);
   rows ← lift (wr (cmd_args (procs k)) t row);
   _ ← set_cmd_args rows;
   name ← lift (command_name command (u_file_name fr));
   rest name) k = rest (Some fname) (with_cmd_row (parsed_row comm k) k).
Proof using Wk Wfr CL.
  destruct command_line_facts as (Hrow & Ht & Ht0 & _). destruct CL as [Hn Hl _ Hname].
  pose proof (cut_word_cstr comm) as Hw.
  assert (E1 : rd (cmd_args (procs k)) t = Ok (at_ (cmd_args (procs k)) t)) by (apply rd_ok; lia).
  kstep (lift_ok _ _ k E1).
  kstep (lift_ok _ _ k (parse_cmd_args_ok comm Hn Hl _ _ (fw_command _ Wfr) Hrow)).
  fold (parsed_row comm k).
  assert (E2 : wr (cmd_args (procs k)) t (parsed_row comm k) =
    Ok (upd (cmd_args (procs k)) t (parsed_row comm k))) by (apply wr_ok; lia).
  kstep (lift_ok _ _ k E2).
  assert (E3 : command_name (over (word_of_line comm ++ [0]) (u_command fr)) (u_file_name fr) = Ok (Some fname)).
  { assert (Ecut : cut_name (over (word_of_line comm ++ [0]) (u_command fr)) = name).
    { unfold over. rewrite <- app_assoc. simpl. apply cut_name_app, cut_word_no_nul. }
    unfold word_of_line in *. pose proof (cut_name_short (cut_word comm)).
    rewrite command_name_ok.
    - by rewrite Ecut, decide_True by lia.
    - rewrite Ecut, length_over by (rewrite length_app, (fw_command _ Wfr); simpl; lia).
      rewrite (fw_command _ Wfr). unfold program_name, word_of_line in *. lia.
    - apply Wfr. }
  unfold set_cmd_args, modify. unfold mbind at 1, K_bind at 1. by kstep (lift_ok _ _ (with_cmd_row (parsed_row comm k) k) E3).
Qed.

(** execute before a slot is taken: what the file lookup answers decides. *)
Lemma execute_lookup :
  execute fr (Some comm) k =
  (let k1 := with_cmd_row (parsed_row comm k) k in
   match first_entry (fs k) name with
   | None => mret (-1)
   | Some e =>
       let d := filled_dentry (fs k) e (u_file_dentry fr) in
       if decide (file_type d <> 2) then mret (-1) else
       '(r, buf) ← lift (read_data (fs k) (inode_idx d) 0 (u_buf fr) BYTES_TO_READ);
       if decide (r = -1) then mret (-1) else
       i ← take_slot;
       if decide (i >= MAX_PROCESSES) then
         _ ← kprintf (litln "Maximum Possible Processes. Stop and Reconsider.") [];
         mret (-1)
       else _ ← new_process i; launch fr fname buf i
   end) (with_cmd_row (parsed_row comm k) k).
Proof using Wk Wfs Wfr CL.
  unfold execute. kstep (gets_ok (fun k => curr_terminal (lib k)) k).
  kstep (gets_ok (fun k => cmd_args (procs k)) k).
  rewrite execute_parsed. cbv beta iota zeta.
  set (k1 := with_cmd_row (parsed_row comm k) k). kstep (gets_ok fs k1).
  change (fs k1) with (fs k). destruct CL as [_ _ HB Hlen].
  assert (Hn : given_word fname = name) by (apply given_word_name; [apply cut_name_chars|lia]).
  assert (HBn : Forall byte name) by (by apply cut_name_bytes, cut_word_bytes).
  destruct (fname_bytes fr name Wfr ltac:(lia) HBn) as [HBf HLf].
  assert (E : read_dentry_by_name (fs k) fname (u_file_dentry fr) = Ok
    match first_entry (fs k) name with
    | Some e => (0, filled_dentry (fs k) e (u_file_dentry fr))
    | None => (-1, u_file_dentry fr) end).
  { rewrite read_dentry_by_name_spec by (rewrite ?Hn; done || lia || apply Wfr).
    rewrite Hn, decide_False by (intros E; rewrite E in Hlen; simpl in Hlen; lia). done. }
  kstep (lift_ok _ _ k1 E). by destruct (first_entry (fs k) name).
Qed.

Lemma spawn_wf i : 0 <= i < MAX_PROCESSES ->
  procs_wf (with_use (upd (in_use (procs k)) i 1) (with_cmd_row (parsed_row comm k) k)).
Proof using All.
  intros Hi. destruct command_line_facts as (Hrow & Ht & Ht0 & Ha & _).
  destruct Wk as [? ? ? ? [? Hc] ? ?]. constructor; simpl; rewrite ?length_upd; try done.
  split; [done|]. apply Forall_upd; [done|]. unfold parsed_row.
  rewrite length_over; [done|]. rewrite length_app. simpl. lia.
Qed.

(** A new process in slot [i]. *)
Lemma spawn_ok i p : 0 <= i < MAX_PROCESSES -> pcbs (procs k) !! slot_addr i = Some p ->
  let k' := with_use (upd (in_use (procs k)) i 1) (with_cmd_row (parsed_row comm k) k) in
  new_process i k' = Ok (Returned tt, spawned comm i p k).
Proof using All.
  intros Hi Hp. cbv zeta. destruct command_line_facts as (Hrow & Ht & Ht0 & Ha & Hnul).
  pose proof (spawn_wf i Hi) as W'.
  destruct (pw_blocks _ Wk i Hi) as (p' & Hp' & Hargs & Hfds). replace p' with p in * by congruence.
  assert (Hpr : parsed_row comm k = args_of_line comm ++ 0 :: drop (length (args_of_line comm ++ [0]))
      (at_ (cmd_args (procs k)) t)) by (unfold parsed_row, over; by rewrite <- app_assoc).
  assert (Hcs : cstr (parsed_row comm k) = args_of_line comm) by (rewrite Hpr; by apply cstr_app).
  rewrite (new_process_ok i _ p (parsed_row comm k)); try done.
  - do 2 f_equal. unfold spawned, child_args, over. rewrite Hcs. do 2 f_equal.
    rewrite <- app_assoc, length_app. simpl. by rewrite Nat.add_1_r.
  - simpl. by rewrite at_upd_eq by lia.
  - rewrite Hpr. set_solver.
  - unfold parsed_row. rewrite length_over; [done|]. rewrite length_app. simpl. lia.
Qed.

Lemma spawned_running i p : 0 <= i < MAX_PROCESSES ->
  running (spawned comm i p k) i (fresh_pcb i (parent_of i k) (child_args comm p) p).
Proof using All.
  intros Hi. destruct Wk. unfold MAX_PROCESSES, MAX_TERMINAL in *.
  constructor; simpl; rewrite ?length_upd; try lia.
  - by rewrite at_upd_eq by lia.
  - by rewrite at_upd_eq by lia.
  - apply lookup_insert_eq.
Qed.

(** The first 28 bytes of a program that has that many. *)
Lemma read_header e : program (fs k) name e ->
  read_data (fs k) (inode_of (fs k) e) 0 (u_buf fr) BYTES_TO_READ =
    Ok (28, take 28 (contents (fs k) (inode_of (fs k) e))).
Proof using All.
  intros [_ _ Hino Hsz _]. unfold BYTES_TO_READ, PROGRAM_PAGE, USER_PAGE_SIZE, PROGRAM_START in *.
  assert (Hrc : read_count (fs k) (inode_of (fs k) e) 0 28 = 28).
  { unfold read_count. rewrite u32_id by lia. lia. }
  rewrite read_data_spec; try done.
  - rewrite decide_False, Hrc by lia. change (Z.to_nat 28) with 28%nat. change (Z.to_nat 0) with O.
    rewrite drop_0, drop_ge, app_nil_r by (rewrite (fw_buf _ Wfr); lia). done.
  - rewrite Hrc, (fw_buf _ Wfr). lia.
  - rewrite (fw_buf _ Wfr). lia.
Qed.

(** A program and a free slot: the program runs. *)
Lemma execute_program e i p :
  paging_wf (page_directory_at (link k)) (paging k) -> program (fs k) name e ->
  first_slot (in_use (procs k)) = i -> i < MAX_PROCESSES -> pcbs (procs k) !! slot_addr i = Some p ->
  execute fr (Some comm) k =
    Ok (Jump (ToUser (entry_of (contents (fs k) (inode_of (fs k) e))) 0x83FFFFC),
        entered fr i (contents (fs k) (inode_of (fs k) e))
          (fresh_pcb i (parent_of i k) (child_args comm p) p) (spawned comm i p k)).
Proof using All.
  intros Wpg Hpg Hslot Hi8 Hp.
  assert (Hi : 0 <= i < MAX_PROCESSES).
  { split; [|done]. rewrite <- Hslot. unfold first_slot. destruct (list_find _ _) as [[? ?]|]; lia. }
  rewrite execute_lookup. cbv zeta. rewrite (pg_name _ _ _ Hpg).
  set (k1 := with_cmd_row (parsed_row comm k) k).
  set (d := filled_dentry (fs k) e (u_file_dentry fr)).
  change (file_type d) with (type_of (fs k) e). change (inode_idx d) with (inode_of (fs k) e).
  rewrite decide_False by (rewrite (pg_type _ _ _ Hpg); lia).
  kstep (lift_ok _ _ k1 (read_header e Hpg)). rewrite decide_False by lia.
  assert (Hul : length (in_use (procs k1)) = Z.to_nat MAX_PROCESSES) by apply Wk.
  pose proof (take_slot_ok k1 Hul) as E1. cbv zeta in E1. kstep E1.
  change (in_use (procs k1)) with (in_use (procs k)). rewrite Hslot.
  rewrite (decide_False (P := i >= _)) by lia. rewrite (decide_True (P := i < _)) by lia.
  kstep (spawn_ok i p Hi Hp).
  set (c := contents (fs k) (inode_of (fs k) e)).
  assert (Hclen : (28 <= length c)%nat).
  { unfold c. rewrite contents_length. pose proof (pg_size _ _ _ Hpg). lia. }
  destruct CL as [_ _ HB Hlen].
  rewrite (launch_ok (spawned comm i p k) fr name e i (fresh_pcb i (parent_of i k) (child_args comm p) p));
    try done.
  - do 4 f_equal. unfold entry_of. by rewrite !at_take by lia.
  - by apply spawned_running.
  - apply given_word_name; [apply cut_name_chars|lia].
  - by apply cut_name_bytes, cut_word_bytes.
  - rewrite length_take. lia.
  - apply Forall_take, contents_bytes; [done|apply Hpg].
  - rewrite take_take. apply (pg_magic _ _ _ Hpg).
Qed.
End execute.

Section refused.
Variables (k : kernel) (fr : frame) (comm : list Z).
Hypothesis (Wk : procs_wf k) (Wfs : fs_wf (fs k)) (Wfr : frame_wf fr) (CL : command_line comm).
Abbreviation name := (program_name comm).
Abbreviation k1 := (with_cmd_row (parsed_row comm k) k).

(** No such file, or not a regular file. *)
Lemma execute_not_found :
  (forall e, first_entry (fs k) name = Some e -> type_of (fs k) e <> 2) ->
  execute fr (Some comm) k = Ok (Returned (-1), k1).
Proof using All.
  intros Hno. rewrite (execute_lookup k fr comm Wk Wfs Wfr CL). cbv zeta.
  destruct (first_entry (fs k) name) as [e|]; [|done].
  set (d := filled_dentry (fs k) e (u_file_dentry fr)).
  change (file_type d) with (type_of (fs k) e). by rewrite decide_True by auto.
Qed.

(** The 28 bytes execute looks at: the start of the file, then, when the file
    is shorter, what the array held. *)
Definition header_read (e : Z) : list Z :=
  over (take 28 (contents (fs k) (inode_of (fs k) e))) (u_buf fr).

(** C23: execute of a regular file whose first four bytes (continued, for a
    shorter file, by what the uninitialised array held) are not the ELF magic
    returns -1, but only after it has taken a process slot, stored a fresh
    control block and made the process current: the state it leaves is that of
    a started process. *)
Lemma execute_bad_magic e i p :
  first_entry (fs k) name = Some e -> type_of (fs k) e = 2 ->
  0 <= inode_of (fs k) e < num_inodes (fs k) ->
  take 4 (header_read e) <> magic_numbers ->
  first_slot (in_use (procs k)) = i -> i < MAX_PROCESSES -> pcbs (procs k) !! slot_addr i = Some p ->
  execute fr (Some comm) k = Ok (Returned (-1), spawned comm i p k).
Proof using All.
  intros He Ht Hino Hmag Hslot Hi8 Hp.
  assert (Hi : 0 <= i < MAX_PROCESSES).
  { split; [|done]. rewrite <- Hslot. unfold first_slot. destruct (list_find _ _) as [[? ?]|]; lia. }
  rewrite (execute_lookup k fr comm Wk Wfs Wfr CL). cbv zeta. rewrite He.
  set (d := filled_dentry (fs k) e (u_file_dentry fr)).
  change (file_type d) with (type_of (fs k) e). change (inode_idx d) with (inode_of (fs k) e).
  rewrite decide_False by lia.
  assert (E0 : exists r, r <> -1 /\ read_data (fs k) (inode_of (fs k) e) 0 (u_buf fr) BYTES_TO_READ = Ok (r, header_read e)).
  { unfold BYTES_TO_READ.
    pose proof (wf_size _ Wfs _ Hino) as Hmax. unfold BLOCK, MAX_INODE_DATA_BLOCKS in Hmax.
    pose proof (inode_size _ Wfs _ Hino) as [_ Hsz0].
    assert (Hrc : read_count (fs k) (inode_of (fs k) e) 0 28 = Z.min 28 (size_of (fs k) (inode_of (fs k) e))).
    { unfold read_count. rewrite u32_id by lia. lia. }
    eexists. split; [|rewrite read_data_spec; try done]; cycle 1.
    - rewrite decide_False, Hrc by lia. change (Z.to_nat 0) with O. rewrite drop_0.
      set (c := contents (fs k) (inode_of (fs k) e)).
      assert (Hc : zlen c = size_of (fs k) (inode_of (fs k) e)) by (unfold c; rewrite contents_length; lia).
      assert (E : take (Z.to_nat (Z.min 28 (size_of (fs k) (inode_of (fs k) e)))) c = take 28 c).
      { destruct (decide (28 <= length c)%nat); [f_equal; lia|]. by rewrite !take_ge by lia. }
      rewrite E. unfold header_read, over. fold c. do 4 f_equal. rewrite length_take. lia.
    - rewrite Hrc, (fw_buf _ Wfr). lia.
    - rewrite (fw_buf _ Wfr). lia.
    - lia. }
  destruct E0 as (r & Hr & E0).
  kstep (lift_ok _ _ k1 E0). rewrite decide_False by lia.
  assert (Hul : length (in_use (procs k1)) = Z.to_nat MAX_PROCESSES) by apply Wk.
  pose proof (take_slot_ok k1 Hul) as E1. cbv zeta in E1. kstep E1.
  change (in_use (procs k1)) with (in_use (procs k)). rewrite Hslot.
  rewrite (decide_False (P := i >= _)) by lia. rewrite (decide_True (P := i < _)) by lia.
  kstep (spawn_ok k fr comm Wk Wfs Wfr CL i p Hi Hp).
  unfold launch.
  assert (E2 : check_magic (header_read e) = Ok false).
  { rewrite check_magic_ok; [f_equal; by apply bool_decide_eq_false|].
    unfold header_read. rewrite length_over; rewrite ?length_take, (fw_buf _ Wfr); lia. }
  kstep (lift_ok _ _ (spawned comm i p k) E2). done.
Qed.
End refused.

(** * halt *)

(** The kernel after process [i] (block [p]) gave way to its parent [q]
    (block [pq]). *)
Definition halted (i q : Z) (p pq : pcb) (status : Z) (k : kernel) : kernel :=
  let ps := procs k in
  with_cpu (mkCpu (u32 (current_esp pq)) KERNEL_DS status 0 (segs (cpu k)))
  (with_paging (add_process q (paging k))
  (with_procs (mkProcs (process_array ps) (upd (in_use ps) i 0)
    (upd (current_process ps) (curr_terminal (lib k)) q)
    (<[slot_addr i := set_fd_table (replicate 8 closed_fd) p]> (pcbs ps)) (cmd_args ps)) k)).

Definition exit_status (status flag : Z) : Z := u32 (Z.land STATUS_BYTEMASK status + flag).

Lemma halt_child fr k i p q pq status :
  running k i p -> length (fd_table p) = Z.to_nat MAX_OPEN_FILES -> process_id p >= 3 ->
  parent_id p = q -> q <> i -> 0 <= i < zlen (in_use (procs k)) ->
  0 <= q < zlen (process_array (procs k)) -> at_ (process_array (procs k)) q = Some (slot_addr q) ->
  pcbs (procs k) !! slot_addr q = Some pq ->
  let ext := exit_status status (exception_flag (cpu k)) in
  halt fr status k =
    Ok (Jump (ToExecuteReturn (current_esp p) (current_ebp p) ext), halted i q p pq ext k).
Proof.
  intros R Hl Hid Hq Hne Hi Hqr Hqa Hpq. cbv zeta. unfold halt.
  kstep (close_all_fd_ok k i p R Hl). set (p1 := set_fd_table (replicate 8 closed_fd) p).
  set (k1 := put_running i p1 k).
  assert (R1 : running k1 i p1) by (by eapply running_put).
  kstep (curr_pcb_ok _ _ _ R1). change (process_id p1) with (process_id p).
  rewrite (decide_False (P := process_id p < 3)) by lia.
  assert (E0 : (mret tt : K unit) k1 = Ok (Returned tt, k1)) by done. kstep E0.
  kstep (gets_ok (fun k => exception_flag (cpu k)) k1).
  change (exception_flag (cpu k1)) with (exception_flag (cpu k)). fold (exit_status status (exception_flag (cpu k))).
  set (ext := exit_status status (exception_flag (cpu k))). unfold set_status.
  kstep (modify_ok (fun k => with_cpu (mkCpu (tss_esp0 (cpu k)) (tss_ss0 (cpu k)) ext 0 (segs (cpu k))) k) k1).
  set (k2 := with_cpu _ k1).
  assert (R2 : running k2 i p1) by (constructor; apply R1).
  kstep (curr_pcb_ok _ _ _ R2). kstep (curr_pid_ok _ _ _ R2).
  change (current_esp p1) with (current_esp p). change (current_ebp p1) with (current_ebp p).
  change (parent_id p1) with (parent_id p). rewrite Hq.
  kstep (set_in_use_ok i 0 k2 Hi).
  set (k3 := with_use _ k2). kstep (gets_ok (fun k => curr_terminal (lib k)) k3).
  change (curr_terminal (lib k3)) with (curr_terminal (lib k)).
  pose proof (run_term _ _ _ R) as Ht. set (t := curr_terminal (lib k)) in *.
  set (k4 := with_procs (mkProcs (process_array (procs k3)) (in_use (procs k3))
    (upd (current_process (procs k3)) t q) (pcbs (procs k3)) (cmd_args (procs k3))) k3).
  assert (E3 : set_current_process t q k3 = Ok (Returned tt, k4))
    by (unfold set_current_process; by rewrite wr_ok by done).
  kstep E3.
  assert (R4 : running k4 q pq).
  { constructor; simpl; fold t; rewrite ?length_upd; try done.
    - by rewrite at_upd_eq by lia.
    - rewrite lookup_insert_ne; [done|]. intros E%slot_addr_inj. congruence. }
  kstep (curr_pid_ok _ _ _ R4). unfold kadd_process.
  kstep (modify_ok (fun k => with_paging (add_process q (paging k)) k) k4).
  set (k5 := with_paging _ k4). assert (R5 : running k5 q pq) by (constructor; apply R4).
  kstep (curr_pcb_ok _ _ _ R5). done.
Qed.

(** A program runs and halts: the slot is free again and the terminal's
    current process is the parent, in its own page. *)
(** C3: Running a program and halting it is a round trip: for a command line
    naming an executable whose slot is free, execute jumps to the entry point
    stored at bytes 24 to 27 of the file, and a later halt jumps back to the
    frame of that execute with the exit status (256 after an exception),
    leaving the table of used slots, the current processes and the parent's
    control block as they were and the parent's program page mapped again. *)
Lemma execute_halt k fr fr' comm e i p q pq status :
  procs_wf k -> fs_wf (fs k) -> frame_wf fr -> command_line comm -> paging_wf (page_directory_at (link k)) (paging k) ->
  program (fs k) (program_name comm) e ->
  first_slot (in_use (procs k)) = i -> 3 <= i < MAX_PROCESSES ->
  pcbs (procs k) !! slot_addr i = Some p -> running k q pq -> q <> i -> 0 <= q ->
  exists k1 k2, execute fr (Some comm) k =
      Ok (Jump (ToUser (entry_of (contents (fs k) (inode_of (fs k) e))) 0x83FFFFC), k1) /\
    halt fr' status k1 = Ok (Jump (ToExecuteReturn (r_esp fr) (r_ebp fr)
                                     (exit_status status (exception_flag (cpu k)))), k2) /\
    in_use (procs k2) = in_use (procs k) /\
    current_process (procs k2) = current_process (procs k) /\
    running k2 q pq /\
    forall pt upt v, 0 <= v < 2 ^ 32 ->
      translate (page_directory_at (link k)) pt upt (paging k2) v =
      translate (page_directory_at (link k)) pt upt (add_process q (paging k)) v.
Proof.
  intros Wk Wfs Wfr CL Wpg Hpg Hslot Hi Hp R Hqi Hq0.
  pose proof (execute_program k fr comm Wk Wfs Wfr CL e i p Wpg Hpg Hslot ltac:(lia) Hp) as E1.
  set (c := contents _ _) in *. set (fp := fresh_pcb _ _ _ _) in *.
  pose proof Wk as [Ht Ha Hu Hcur _ _ _]. unfold MAX_PROCESSES, MAX_TERMINAL in *.
  pose proof (run_slot _ _ _ R) as Hqs.
  assert (Hpar : parent_of i k = q) by (unfold parent_of; rewrite decide_False by lia; apply R).
  assert (Hsa : slot_addr i <> slot_addr q) by (intros E%slot_addr_inj; congruence).
  set (k1 := entered fr i c fp (spawned comm i p k)) in *.
  set (fp' := set_current_stack (r_esp fr) (r_ebp fr) fp).
  assert (R1 : running k1 i fp').
  { pose proof (spawned_running k fr comm Wk Wfs Wfr CL i p ltac:(unfold MAX_PROCESSES; lia)) as [].
    constructor; try done. apply lookup_insert_eq. }
  assert (Hq1 : pcbs (procs k1) !! slot_addr q = Some pq).
  { simpl. rewrite !lookup_insert_ne by done. apply R. }
  assert (Harr : at_ (process_array (procs k1)) q = Some (slot_addr q)).
  { simpl. rewrite at_upd_ne by lia. apply R. }
  pose proof (halt_child fr' k1 i fp' q pq status R1 eq_refl) as E2.
  exists k1, (halted i q fp' pq (exit_status status (exception_flag (cpu k))) k1).
  split; [done|]. split; [|split; [|split; [|split]]].
  - apply E2; try done; simpl; rewrite ?length_upd; lia.
  - simpl. rewrite upd_upd. destruct (first_slot_free _ _ Hslot ltac:(lia)) as [H0 _].
    rewrite <- H0. apply upd_id. lia.
  - simpl. rewrite upd_upd. rewrite <- (run_pid _ _ _ R). apply upd_id. apply R.
  - constructor; simpl; rewrite ?length_upd; try (by apply R).
    + rewrite at_upd_eq by (rewrite ?length_upd; apply R). done.
    + rewrite at_upd_ne by lia. apply R.
    + rewrite !lookup_insert_ne by done. apply R.
  - intros pt upt v Hv. simpl.
    rewrite translate_add_process by (done || lia || by apply add_process_wf).
    rewrite translate_add_process by (done || lia). rewrite translate_add_process by (done || lia).
    by repeat case_decide.
Qed.
