(* ===== verification/Terminals.v ===== *)
(** Switching terminals ([student-distrib/terminal.c]): one terminal is on the
    screen, the others are in their backup pages, and a switch moves them
    without losing a byte. *)

From S2P Require Import Prelude Segments Hardware CLib Screen FileSystem Paging MemOps Kernel FdTable.
From S2P Require Import Drivers Process Lifecycle.

Definition backup (t : Z) : Z := BACKUP_VID1 + t * FOURKiB.
Definition video_window (t : Z) : Z := VIRT_VID_TERM1 + t * FOURKiB.

(** Where the text of terminal [t] is. *)
Definition screen_base (k : kernel) (t : Z) : Z :=
  if decide (t = curr_terminal (lib k)) then VIDEO else backup t.
(** Byte [o] of the screen of terminal [t]. *)
Definition screen_byte (k : kernel) (t o : Z) : Z := get (lib_mem (lib k)) (screen_base k t + o).

Definition kernel_linked (k : kernel) : Prop := linked (page_directory_at (link k)) (page_table_at (link k)) (user_page_table_at (link k)).
Definition ktranslate (k : kernel) (v : Z) : option mapping :=
  translate (page_directory_at (link k)) (page_table_at (link k)) (user_page_table_at (link k)) (paging k) v.

(** The video pages: every terminal that is not on the screen has its window
    on its backup page. *)
Record video_wf (k : kernel) : Prop := {
  vw_linked : kernel_linked k;
  vw_paging : paging_inv (page_directory_at (link k)) (page_table_at (link k)) (user_page_table_at (link k)) (paging k);
  vw_windows : forall t, 0 <= t < MAX_TERMINAL -> t <> curr_terminal (lib k) ->
    exists u, ktranslate k (video_window t) = Some (Mapped (backup t) u);
}.

Lemma window_dir t : 0 <= t < MAX_TERMINAL -> 64 = video_window t / 2 ^ 22.
Proof.
  unfold MAX_TERMINAL, video_window, VIRT_VID_TERM1, FOURKiB. intros Ht.
  assert (t = 0 \/ t = 1 \/ t = 2) as [->|[->| ->]] by lia; reflexivity.
Qed.
Lemma window_page t v : 0 <= t < MAX_TERMINAL -> 0 <= v < MAX_TERMINAL ->
  page_of (video_window t) = page_of (video_window v) -> t = v.
Proof.
  unfold MAX_TERMINAL, video_window, VIRT_VID_TERM1, FOURKiB, page_of. intros Ht Hv.
  assert (t = 0 \/ t = 1 \/ t = 2) as [->|[->| ->]] by lia;
  assert (v = 0 \/ v = 1 \/ v = 2) as [->|[->| ->]] by lia; try done; cbv; discriminate.
Qed.
Lemma window_offset t : 0 <= t < MAX_TERMINAL -> video_window t mod 2 ^ 12 = 0 /\ 0 <= video_window t < 2 ^ 32.
Proof.
  unfold MAX_TERMINAL, video_window, VIRT_VID_TERM1, FOURKiB. intros Ht.
  assert (t = 0 \/ t = 1 \/ t = 2) as [->|[->| ->]] by lia; done.
Qed.
Lemma back_page t : 0 <= t < MAX_TERMINAL ->
  page_of (USER_BACK1 + t * FOURKiB) * 2 ^ 12 = backup t /\ 0 <= USER_BACK1 + t * FOURKiB < 2 ^ 32.
Proof.
  unfold MAX_TERMINAL. intros Ht.
  assert (t = 0 \/ t = 1 \/ t = 2) as [->|[->| ->]] by lia; done.
Qed.

Lemma pages_apart t v : 0 <= t < MAX_TERMINAL -> 0 <= v < MAX_TERMINAL -> t <> v ->
  VIDEO + FOURKiB <= backup t /\ (backup t + FOURKiB <= backup v \/ backup v + FOURKiB <= backup t).
Proof.
  unfold MAX_TERMINAL, VIDEO, backup, BACKUP_VID1, FOURKiB. lia.
Qed.

Section copy.
Variable k : kernel.

(** memcpy between whole pages. *)
Lemma kmemcpy_page dest src d s u u' :
  ktranslate k dest = Some (Mapped d u) -> ktranslate k src = Some (Mapped s u') ->
  dest mod FOURKiB = 0 -> src mod FOURKiB = 0 -> d + FOURKiB <= s \/ s + FOURKiB <= d ->
  exists m, kmemcpy dest src FOURKiB k = Ok (Returned tt, with_lib (set_mem m (lib k)) k) /\
    filled d FOURKiB (fun i => get (lib_mem (lib k)) (s + i)) (lib_mem (lib k)) m.
Proof using Type.
  intros Hd Hs Hda Hsa Hdis. unfold kmemcpy, ktranslate in *. rewrite Hd, Hs.
  rewrite decide_True by lia. cbn [phys].
  pose proof (memcpy_ok d s FOURKiB (lib_mem (lib k))) as Hm. unfold FOURKiB in *.
  specialize (Hm ltac:(lia) ltac:(unfold forward; lia)).
  apply wp_ok in Hm as (m & -> & HF). by exists m.
Qed.
End copy.

(** The kernel after a switch to terminal [n] whose process is [pid]. *)
Section switch.
Variables (k : kernel) (fr : frame) (i n pid : Z) (p pn : pcb).
Hypothesis (V : video_wf k) (R : running k i p)
  (Hc : 0 <= curr_terminal (lib k) < MAX_TERMINAL)
  (Hlen : length (current_process (procs k)) = Z.to_nat MAX_TERMINAL)
  (Hn : 0 <= n < MAX_TERMINAL) (Hne : n <> curr_terminal (lib k))
  (Hpid : at_ (current_process (procs k)) n = pid)
  (Hpid0 : 0 <= pid < zlen (process_array (procs k))) (Hpid8 : pid < MAX_PROCESSES)
  (Hptr : at_ (process_array (procs k)) pid = Some (slot_addr pid))
  (Hpn : pcbs (procs k) !! slot_addr pid = Some pn) (Hdiff : pid <> i).
Abbreviation old := (curr_terminal (lib k)).
Abbreviation pd := (page_directory_at (link k)).
Abbreviation pt := (page_table_at (link k)).
Abbreviation upt := (user_page_table_at (link k)).
Abbreviation P1 := (map_virt_to_phys upt (video_window old) (USER_BACK1 + old * FOURKiB) (paging k)).
Abbreviation P2 := (map_virt_to_phys upt (video_window n) USER_VIDEO_ P1).

Lemma P1_inv : paging_inv pd pt upt P1.
Proof using All. destruct V. apply map_virt_to_phys_inv; [done|by apply window_dir|done]. Qed.
Lemma P2_inv : paging_inv pd pt upt P2.
Proof using All. destruct V. apply map_virt_to_phys_inv; [done|by apply window_dir|by apply P1_inv]. Qed.

(** Both windows are on the backup pages while the text is copied. *)
Lemma P1_old : translate pd pt upt P1 (video_window old) = Some (Mapped (backup old) true).
Proof using All.
  destruct V. destruct (back_page old Hc) as [Hb Hr]. destruct (window_offset old Hc) as [Ho Hv].
  rewrite translate_map_virt_to_phys by (done || by apply window_dir).
  rewrite decide_True, Hb, Ho, Z.add_0_r by done. do 2 f_equal.
  unfold MAX_TERMINAL in Hc. assert (old = 0 \/ old = 1 \/ old = 2) as [->|[->| ->]] by lia; done.
Qed.
Lemma P1_other t : 0 <= t < MAX_TERMINAL -> t <> old ->
  exists u, translate pd pt upt P1 (video_window t) = Some (Mapped (backup t) u).
Proof using All.
  intros Ht Hto. destruct V as [Hl Hi Hw]. destruct (Hw t Ht Hto) as [u Hu]. exists u.
  destruct (back_page old Hc) as [_ Hr]. destruct (window_offset t Ht) as [_ Hv].
  rewrite translate_map_virt_to_phys by (done || by apply window_dir).
  rewrite decide_False; [done|]. intros E%window_page; [done|done|done].
Qed.
(** Afterwards the new terminal's window is on the screen. *)
Lemma P2_new : translate pd pt upt P2 (video_window n) = Some (Mapped VIDEO true).
Proof using All.
  destruct V. destruct (window_offset n Hn) as [Ho Hv].
  rewrite translate_map_virt_to_phys by (done || by apply window_dir || by apply P1_inv).
  rewrite decide_True, Ho by done. done.
Qed.
Lemma P2_other t : 0 <= t < MAX_TERMINAL -> t <> n ->
  translate pd pt upt P2 (video_window t) = translate pd pt upt P1 (video_window t).
Proof using All.
  intros Ht Htn. destruct V. destruct (window_offset t Ht) as [_ Hv].
  rewrite translate_map_virt_to_phys by (done || by apply window_dir || by apply P1_inv).
  rewrite decide_False; [done|]. intros E%window_page; done.
Qed.

(** The text moves: the screen goes to the old terminal's backup page, the
    new terminal's backup page to the screen. *)
Definition moved (m m' : mem) : Prop := forall a, get m' a =
  if decide (VIDEO <= a < VIDEO + FOURKiB) then get m (backup n + (a - VIDEO))
  else if decide (backup old <= a < backup old + FOURKiB) then get m (VIDEO + (a - backup old))
  else get m a.

Lemma moved_screens m m' t o : moved m m' -> 0 <= t < MAX_TERMINAL -> 0 <= o < FOURKiB ->
  get m' ((if decide (t = n) then VIDEO else backup t) + o) =
  get m ((if decide (t = old) then VIDEO else backup t) + o).
Proof using All.
  intros Hm Ht Ho. rewrite Hm. pose proof (pages_apart n old Hn Hc Hne) as [H1 H2].
  unfold FOURKiB in *.
  destruct_decide (decide (t = n)) as Htn.
  - subst t. rewrite decide_True by lia. rewrite decide_False by done. f_equal. lia.
  - destruct (pages_apart t n Ht Hn Htn) as [H3 H4]. unfold FOURKiB in *. rewrite (decide_False (P := VIDEO <= _ < _)) by lia.
    destruct_decide (decide (t = old)) as Hto.
    + rewrite Hto, decide_True by lia. f_equal. lia.
    + destruct (pages_apart t old Ht Hc Hto) as [H5 H6]. unfold FOURKiB in *. rewrite decide_False by lia. done.
Qed.

Lemma terminal_switch_ok :
  exists m, moved (lib_mem (lib k)) m /\
    let s := set_io (set_if true (lib_io (update_cursor
               (set_mem m (set_terms n old (set_io (set_if false (lib_io (lib k))) (lib k)))))))
               (set_mem m (set_terms n old (lib k))) in
    terminal_switch fr n k = Ok (Jump (ToStack (return_esp pn) (return_ebp pn)),
      with_lib s (with_cpu (mkCpu (slot_addr (pid - 1) - 4) KERNEL_DS (extended_status (cpu k)) (exception_flag (cpu k)) (segs (cpu k)))
        (with_paging (add_process pid P2)
          (with_pcb (slot_addr i) (set_return_stack (r_esp fr) (r_ebp fr) p) k)))).
Proof using All.
  pose proof V as [Hl Hi _].
  assert (Hpr : process_id p = process_id p) by done.
  set (k1 := with_lib (set_io (cli (lib_io (lib k))) (lib k)) k).
  set (k2 := with_pcb (slot_addr i) (set_return_stack (r_esp fr) (r_ebp fr) p) k1).
  set (k3 := with_lib (set_terms n old (lib k2)) k2).
  set (k4 := with_paging P1 k3).
  assert (R1 : running k1 i p) by (constructor; apply R).
  destruct (kmemcpy_page k4 (video_window old) VIDEO (backup old) VIDEO true false) as (m1 & E1 & F1).
  { apply P1_old. }
  { apply translate_video; [done|by apply P1_inv]. }
  { apply window_offset, Hc. }
  { done. }
  { destruct (pages_apart n old Hn Hc Hne) as [_ _]. unfold backup, VIDEO, BACKUP_VID1, FOURKiB, MAX_TERMINAL in *. lia. }
  set (k5 := with_lib (set_mem m1 (lib k4)) k4) in *.
  destruct (P1_other n Hn Hne) as [u Hu].
  destruct (kmemcpy_page k5 VIDEO (video_window n) VIDEO (backup n) false u) as (m2 & E2 & F2).
  { apply translate_video; [done|by apply P1_inv]. }
  { done. }
  { done. }
  { apply window_offset, Hn. }
  { destruct (pages_apart n old Hn Hc Hne) as [? _]. lia. }
  set (k6 := with_lib (set_mem m2 (lib k5)) k5) in *.
  exists m2. split.
  { intros a. specialize (F2 a). simpl in F2. rewrite F2.
    pose proof (F1 (backup n + (a - VIDEO))) as G1. pose proof (F1 a) as G2. simpl in G1, G2.
    rewrite G1, G2. destruct (pages_apart n old Hn Hc Hne) as [? ?]. unfold FOURKiB in *.
    destruct_decide (decide (VIDEO <= a < VIDEO + 0x1000)); [by rewrite decide_False by lia|done]. }
  cbv zeta. unfold terminal_switch.
  kstep (gets_ok (fun k => curr_terminal (lib k)) k). rewrite (decide_False (P := n = _)) by done.
  rewrite (decide_False (P := _ \/ _)) by lia.
  unfold on_io at 1, on_lib at 1.
  kstep (modify_ok (fun k => with_lib (set_io (cli (lib_io (lib k))) (lib k)) k) k). fold k1.
  kstep (curr_pcb_ok _ _ _ R1). kstep (update_pcb_ok _ (set_return_stack (r_esp fr) (r_ebp fr)) p k1 (run_pcb _ _ _ R1)).
  fold k2. unfold set_curr_old, on_lib at 1.
  kstep (modify_ok (fun k' => with_lib (set_terms n old (lib k')) k') k2). fold k3.
  unfold kmap_virt_to_phys.
  kstep (modify_ok (fun k' => with_paging (map_virt_to_phys (user_page_table_at (link k'))
    (video_window old) (USER_BACK1 + old * FOURKiB) (paging k')) k') k3).
  fold k4. kstep E1. fold k5. kstep E2. fold k6. unfold kmap_virt_to_phys.
  kstep (modify_ok (fun k' => with_paging (map_virt_to_phys (user_page_table_at (link k'))
    (video_window n) USER_VIDEO_ (paging k')) k') k6).
  set (k7 := with_paging _ k6).
  kstep (modify_ok (fun k => with_lib (update_cursor (lib k)) k) k7).
  set (k8 := with_lib _ k7).
  assert (R8 : running k8 pid pn).
  { constructor; simpl; try done.
    - rewrite Hlen. unfold MAX_TERMINAL in *. lia.
    - rewrite lookup_insert_ne; [done|]. intros E%slot_addr_inj. congruence. }
  kstep (curr_pid_ok _ _ _ R8). rewrite (decide_False (P := pid = -1)) by lia.
  assert (E0 : (mret tt : K unit) k8 = Ok (Returned tt, k8)) by done. kstep E0.
  kstep (curr_pid_ok _ _ _ R8). unfold kadd_process.
  kstep (modify_ok (fun k => with_paging (add_process pid (paging k)) k) k8).
  set (k9 := with_paging _ k8). unfold set_tss.
  kstep (modify_ok (fun k => with_cpu (mkCpu (u32 (K_STACK_BOTTOM - PROCESS_SIZE * pid - BYTE_SIZE / 2))
    KERNEL_DS (extended_status (cpu k)) (exception_flag (cpu k)) (segs (cpu k))) k) k9).
  set (k10 := with_cpu _ k9). assert (R10 : running k10 pid pn) by (constructor; apply R8).
  kstep (curr_pcb_ok _ _ _ R10). unfold on_io, on_lib.
  kstep (modify_ok (fun k => with_lib (set_io (sti (lib_io (lib k))) (lib k)) k) k10).
  unfold jump. do 2 f_equal.
  replace (slot_addr (pid - 1) - 4) with (u32 (K_STACK_BOTTOM - PROCESS_SIZE * pid - BYTE_SIZE / 2)); [reflexivity|].
  unfold slot_addr, K_STACK_BOTTOM, PROCESS_SIZE, BYTE_SIZE, MAX_PROCESSES in *.
  change (8 / 2) with 4. rewrite u32_id; lia.
Qed.
End switch.

(** A switch to terminal [n] is possible: [i] runs in the current terminal
    and [pid] in the other one. *)
Record switchable (k : kernel) (n i pid : Z) (p pn : pcb) : Prop := {
  sw_video : video_wf k;
  sw_running : running k i p;
  sw_term : 0 <= curr_terminal (lib k) < MAX_TERMINAL;
  sw_current : length (current_process (procs k)) = Z.to_nat MAX_TERMINAL;
  sw_range : 0 <= n < MAX_TERMINAL;
  sw_other : n <> curr_terminal (lib k);
  sw_pid : at_ (current_process (procs k)) n = pid;
  sw_slot : 0 <= pid < zlen (process_array (procs k)) /\ pid < MAX_PROCESSES;
  sw_ptr : at_ (process_array (procs k)) pid = Some (slot_addr pid);
  sw_pcb : pcbs (procs k) !! slot_addr pid = Some pn;
  sw_apart : pid <> i;
}.

Lemma window_outside_program t : 0 <= t < MAX_TERMINAL -> ~ in_program_page (video_window t).
Proof.
  unfold MAX_TERMINAL, in_program_page, video_window, VIRT_VID_TERM1, FOURKiB.
  intros Ht. unfold PROCESS_IDX in *. lia.
Qed.

(** After the switch: the new terminal is current, its process's page is
    mapped, and every terminal still shows its own text. *)
Record switched (fr : frame) (n i pid : Z) (p : pcb) (k k' : kernel) : Prop := {
  sd_curr : curr_terminal (lib k') = n /\ old_terminal (lib k') = curr_terminal (lib k);
  sd_screens : forall t o, 0 <= t < MAX_TERMINAL -> 0 <= o < FOURKiB -> screen_byte k' t o = screen_byte k t o;
  sd_video : video_wf k';
  sd_window : ktranslate k' (video_window n) = Some (Mapped VIDEO true);
  sd_program : forall v, 0 <= v < 2 ^ 32 -> in_program_page v ->
    ktranslate k' v = Some (Mapped (process_base pid + (v - 0x08000000)) true);
  sd_stack : tss_esp0 (cpu k') = slot_addr (pid - 1) - 4;
  sd_procs : procs k' = procs (with_pcb (slot_addr i) (set_return_stack (r_esp fr) (r_ebp fr) p) k);
  sd_cursor : screen_x (lib k') = screen_x (lib k) /\ screen_y (lib k') = screen_y (lib k);
  sd_if : if_flag (lib_io (lib k')) = true;
}.

(** C6: terminal_switch to another terminal with a process hands over to that
    process's saved stack; every terminal keeps its own text byte for byte
    (the outgoing screen goes to its backup page, the incoming backup page to
    video memory), the video windows stay well formed with the new terminal's
    window on the screen, the new process's program page is mapped, and
    interrupts end up enabled. *)
Theorem terminal_switch_switches fr k n i pid p pn : switchable k n i pid p pn ->
  exists k', terminal_switch fr n k = Ok (Jump (ToStack (return_esp pn) (return_ebp pn)), k') /\
    switched fr n i pid p k k'.
Proof.
  intros [V R Hc Hlen Hn Hne Hpid [Hp0 Hp8] Hptr Hpn Hd].
  destruct (terminal_switch_ok k fr i n pid p pn V R Hc Hlen Hn Hne Hpid Hp0 Hp8 Hptr Hpn Hd) as (m & Hm & E).
  cbv zeta in E. eexists. split; [exact E|].
  assert (HP2 := P2_inv k fr i n pid p pn V R Hc Hlen Hn Hne Hpid Hp0 Hp8 Hptr Hpn Hd).
  assert (Hpid1000 : 0 <= pid < 1000) by (unfold MAX_PROCESSES in *; lia).
  assert (Htr : forall t, 0 <= t < MAX_TERMINAL -> 0 <= video_window t < 2 ^ 32) by apply window_offset.
  constructor; simpl; try done.
  - intros t o Ht Ho. unfold screen_byte, screen_base. simpl.
    by apply (moved_screens k fr i n pid p pn V R Hc Hlen Hn Hne Hpid Hp0 Hp8 Hptr Hpn Hd).
  - constructor; simpl; [apply V|by apply add_process_inv|]. intros t Ht Htn. unfold ktranslate. simpl.
    rewrite translate_add_process by (apply HP2 || done || by apply Htr).
    rewrite decide_False by (by apply window_outside_program).
    rewrite (P2_other k fr i n pid p pn) by done.
    destruct_decide (decide (t = curr_terminal (lib k))) as Hto.
    + subst t. exists true. by apply (P1_old k fr i n pid p pn).
    + by apply (P1_other k fr i n pid p pn).
  - unfold ktranslate. simpl.
    rewrite translate_add_process by (apply HP2 || done || by apply Htr).
    rewrite decide_False by (by apply window_outside_program). by apply (P2_new k fr i n pid p pn).
  - intros v Hv Hin. unfold ktranslate. simpl. rewrite translate_add_process by (apply HP2 || done).
    by rewrite decide_True.
Qed.
