(* ===== verification/Testcases.v ===== *)
(** The checkpoint routines behind the ctrl keys
    ([student-distrib/testcases3_2.c]): show a file, set the RTC rate. *)

From S2P Require Import Prelude Hardware CLib Screen Printf FileSystem Rtc Kernel FdTable.
From S2P Require Import Drivers Streams.

Definition HIGHEST_FREQ := 32768.

(** ** testcases3_2.c: print_file_text

    The loop is [copy_out] over [file_read]; the fuel bounds the number of
    blocks a file can have. *)
Definition print_file_text (my_dentry : dentry_t) (name buffer : list Z) (nbytes : Z) : K unit :=
  myfd ← file_open my_dentry name;
  if decide (myfd <> -1) then
    _ ← copy_out (H := file_stream) (Z.to_nat (MAX_CHARS_IN_DATA * MAX_INODE_DATA_BLOCKS + 1))
          myfd buffer nbytes;
    _ ← file_close myfd;
    _ ← kprintf (10 :: lit "file name: ") [];
    _ ← print_name name MAX_NAME_CHARACTERS;
    mret tt
  else kprintf (litln "file doesn't exist.") [].

(** ** testcases3_2.c: test_file_data

    [buffer] is the uninitialised local of 500 bytes. *)
Definition test_file_data (my_dentry : dentry_t) (buffer : list Z) (index : Z) : K unit :=
  f ← gets fs;
  fname ← lift (get_entry_name f (u32 index));
  print_file_text my_dentry fname buffer 500.

(** ** testcases3_2.c: print_freq *)
Definition print_freq (beyond : Z -> Z) (rate : Z) : K unit :=
  filed ← rtc_open beyond;
  if decide (filed <> -1) then
    _ ← kclear;
    let curr_freq := Z.shiftr HIGHEST_FREQ rate in
    _ ← kprintf (litln "Frequency at: %d") [AInt curr_freq];
    _ ← rtc_write beyond (word_bytes curr_freq);
    _ ← rtc_close filed;
    mret tt
  else kprintf (litln "couldn't open") [].
