(* ===== verification/Keyboard.v ===== *)
(** The keyboard ([student-distrib/keyboard.c]): modifier state, the line
    being edited on each terminal, and the interrupt handler. *)

From S2P Require Import Prelude Hardware CLib Screen Printf FileSystem Pic Idt Rtc Kernel.
From S2P Require Import FdTable Drivers Process Testcases.

Definition KBD_DATA_PORT := 0x60.
Definition KBD_IRQ := 1.
Definition MAKE := 0.
Definition BREAK := 1.
Definition ABC_LOW_SCANS := 0x02.
Definition ABC_HIGH_SCANS := 0x58.
Definition TOTAL_SCANCODES := 128.
Definition L_SHIFT_MAKE := 0x2A.
Definition L_SHIFT_BREAK := 0xAA.
Definition R_SHIFT_MAKE := 0x36.
Definition R_SHIFT_BREAK := 0xB6.
Definition CTRL_MAKE := 0x1D.
Definition CTRL_BREAK := 0x9D.
Definition L_MAKE := 0x26.
Definition CAPS := 0x3A.
Definition BKSP := 0x0E.
Definition ENTER := 0x1C.
Definition ALT := 0x38.
Definition FOUR_SCAN := 0x05.
Definition THREE_SCAN := 0x04.
Definition ONE_SCAN := 0x02.
Definition fn1 := 0x3B.
Definition fn2 := 0x3C.
Definition fn3 := 0x3D.
Definition NONE_MODE := 0.
Definition SHIFT_MODE := 1.
Definition CAPS_MODE := 2.
Definition SHIFT_CAPS_MODE := 3.

(** ** keyboard.c: kbd_ascii_key_map

    A row per mode; the scancodes after the last initialiser are NUL. *)
Definition key_row (digits upper_row home_row bottom_row : list Z) : list Z :=
  pad 128 ([0; 0] ++ digits ++ [0; 0] ++ upper_row ++ [10; 0] ++ home_row ++ [0] ++ bottom_row
    ++ [0; 42; 0; 32; 0] ++ replicate 15 0 ++ [45; 0; 0; 0; 43]).
Definition kbd_ascii_key_map : list (list Z) :=
  [ key_row (chars "1234567890-=") (chars "qwertyuiop[]") (chars "asdfghjkl;'`") (chars "\zxcvbnm,./");
    key_row (chars "!@#$%^&*()_+") (chars "QWERTYUIOP{}") (chars "ASDFGHJKL:" ++ [34; 126]) (chars "|ZXCVBNM<>?");
    key_row (chars "1234567890-=") (chars "QWERTYUIOP[]") (chars "ASDFGHJKL;'`") (chars "\ZXCVBNM,./");
    key_row (chars "!@#$%^&*()_+") (chars "qwertyuiop[]") (chars "asdfghjkl:" ++ [34; 126]) (chars "|zxcvbnm<>?") ].

(** * Fields *)
Definition set_kbd (f : kbd_state -> kbd_state) : K unit := modify (fun k => with_kbd (f (kbd k)) k).
Definition kb_modes (l : list Z) (s : kbd_state) : kbd_state :=
  mkKbd (CTR4 s) (CTR3 s) l (ctrl_flag s) (alt_flag s) (buffer_index s) (buffer s) (kbdr_flag s).
Definition kb_ctrl (v : Z) (s : kbd_state) : kbd_state :=
  mkKbd (CTR4 s) (CTR3 s) (caps_shift_flag s) v (alt_flag s) (buffer_index s) (buffer s) (kbdr_flag s).
Definition kb_alt (v : Z) (s : kbd_state) : kbd_state :=
  mkKbd (CTR4 s) (CTR3 s) (caps_shift_flag s) (ctrl_flag s) v (buffer_index s) (buffer s) (kbdr_flag s).
Definition kb_line (ix : list Z) (b : list (list Z)) (s : kbd_state) : kbd_state :=
  mkKbd (CTR4 s) (CTR3 s) (caps_shift_flag s) (ctrl_flag s) (alt_flag s) ix b (kbdr_flag s).
Definition kb_ready (v : Z) (s : kbd_state) : kbd_state :=
  mkKbd (CTR4 s) (CTR3 s) (caps_shift_flag s) (ctrl_flag s) (alt_flag s) (buffer_index s) (buffer s) v.
Definition kb_counters (c4 c3 : Z) (s : kbd_state) : kbd_state :=
  mkKbd c4 c3 (caps_shift_flag s) (ctrl_flag s) (alt_flag s) (buffer_index s) (buffer s) (kbdr_flag s).

(** [caps_shift_flag[curr_terminal]], [buffer_index[curr_terminal]],
    [buffer[curr_terminal]]. *)
Definition curr_mode : K Z :=
  t ← curr_term; s ← gets kbd; lift (rd (caps_shift_flag s) t).
Definition set_mode (v : Z) : K unit :=
  t ← curr_term; s ← gets kbd; l ← lift (wr (caps_shift_flag s) t v); set_kbd (kb_modes l).
Definition curr_index : K Z :=
  t ← curr_term; s ← gets kbd; lift (rd (buffer_index s) t).
Definition curr_row : K (list Z) :=
  t ← curr_term; s ← gets kbd; lift (rd (buffer s) t).
Definition set_line (index : Z) (row : list Z) : K unit :=
  t ← curr_term; s ← gets kbd;
  ix ← lift (wr (buffer_index s) t index);
  b ← lift (wr (buffer s) t row);
  set_kbd (kb_line ix b).

(** ** keyboard.c: toggle_caps, toggle_shift, toggle_ctrl, toggle_alt *)
Definition toggle_caps : K unit :=
  m ← curr_mode;
  if decide (m = NONE_MODE) then set_mode CAPS_MODE
  else if decide (m = SHIFT_MODE) then set_mode SHIFT_CAPS_MODE
  else if decide (m = CAPS_MODE) then set_mode NONE_MODE
  else set_mode SHIFT_MODE.
Definition toggle_shift (type : Z) : K unit :=
  m ← curr_mode;
  if decide (type = MAKE) then
    if decide (m = NONE_MODE) then set_mode SHIFT_MODE
    else if decide (m = CAPS_MODE) then set_mode SHIFT_CAPS_MODE else mret tt
  else
    if decide (m = SHIFT_MODE) then set_mode NONE_MODE
    else if decide (m = SHIFT_CAPS_MODE) then set_mode CAPS_MODE else mret tt.
Definition toggle_ctrl (type : Z) : K unit := set_kbd (kb_ctrl (if decide (type = MAKE) then 1 else 0)).
Definition toggle_alt (type : Z) : K unit := set_kbd (kb_alt (if decide (type = MAKE) then 1 else 0)).

(** ** keyboard.c: clear_buffer *)
Definition clear_row (row : list Z) : outcome (list Z) :=
  loop 129 (fun '(i, row) =>
    if decide (i < BUFFER_SIZE) then row ← wr row i 0; mret (inl (i + 1, row))
    else mret (inr row)) (0, row).
Definition clear_buffer : K unit :=
  row ← curr_row; row ← lift (clear_row row); set_line 0 row.

(** ** keyboard.c: handle_backspace *)
Definition handle_backspace : K unit :=
  i ← curr_index;
  if decide (i - 1 >= 0) then
    _ ← on_lib backspace;
    row ← curr_row;
    row ← lift (wr row (i - 1) 0);
    set_line (i - 1) row
  else mret tt.

(** ** keyboard.c: handle_enter *)
Definition handle_enter : K unit :=
  _ ← set_kbd (kb_ready 1);
  _ ← console' scroll;
  row ← curr_row;
  i ← curr_index;
  _ ← terminal_read (Some row) i;
  clear_buffer.

(** What the handler's callees find on the stack. *)
Record junk : Type := mkJunk {
  j_frame : frame;
  j_dentry : dentry_t;
  j_buffer : list Z;
  j_beyond : Z -> Z;
}.

(** ** keyboard.c: process_key *)
Definition redraw_row (row : list Z) (s : lib_state) : outcome lib_state :=
  loop 129 (fun '(i, s) =>
    c ← rd row i;
    if decide (c <> 0 /\ i < BUFFER_SIZE) then s ← putc (u8 c) s; mret (inl (i + 1, s))
    else mret (inr s)) (0, s).

Definition type_char (key : Z) : K unit :=
  i ← curr_index;
  if decide (i + 1 < BUFFER_SIZE) then
    m ← curr_mode;
    modes ← lift (rd kbd_ascii_key_map m);
    c ← lift (rd modes key);
    _ ← kputc c;
    row ← curr_row;
    row ← lift (wr row i c);
    set_line (i + 1) row
  else mret tt.

Definition process_key (j : junk) (key : Z) : K unit :=
  if decide (key >= ABC_LOW_SCANS /\ key <= ABC_HIGH_SCANS) then
    s ← gets kbd;
    if decide (key = L_MAKE /\ ctrl_flag s <> 0) then
      _ ← kclear;
      _ ← kprintf (lit "391OS> ") [];
      row ← curr_row;
      console' (redraw_row row)
    else if decide (key = fn1 /\ alt_flag s <> 0) then _ ← terminal_switch (j_frame j) 0; mret tt
    else if decide (key = fn2 /\ alt_flag s <> 0) then _ ← terminal_switch (j_frame j) 1; mret tt
    else if decide (key = fn3 /\ alt_flag s <> 0) then _ ← terminal_switch (j_frame j) 2; mret tt
    else if decide (key = THREE_SCAN /\ ctrl_flag s <> 0) then
      _ ← kclear;
      _ ← test_file_data (j_dentry j) (j_buffer j) (CTR3 s);
      f ← gets fs;
      let n := get_num_entries f in
      if decide (n = 0) then fault else
      set_kbd (fun s => kb_counters (CTR4 s) (i32 (u32 (i32 (CTR3 s + 1)) mod n)) s)
    else if decide (key = FOUR_SCAN /\ ctrl_flag s <> 0) then
      _ ← kclear;
      if decide (CTR4 s = MAX_RATE - 2) then
        _ ← set_kbd (fun s => kb_counters NUM_FREQ (CTR3 s) s);
        print_freq (j_beyond j) NUM_FREQ
      else
        _ ← print_freq (j_beyond j) (CTR4 s);
        set_kbd (fun s => kb_counters (CTR4 s - 1) (CTR3 s) s)
    else if decide (key = ONE_SCAN /\ ctrl_flag s <> 0) then
      _ ← kclear;
      print_file_info (j_dentry j)
    else type_char key
  else mret tt.

(** ** keyboard.c: keyboard_handler *)
Definition dispatch_key (j : junk) (key : Z) : K unit :=
  if decide (key = CAPS) then toggle_caps
  else if decide (key = L_SHIFT_MAKE) then toggle_shift MAKE
  else if decide (key = R_SHIFT_MAKE) then toggle_shift MAKE
  else if decide (key = L_SHIFT_BREAK) then toggle_shift BREAK
  else if decide (key = R_SHIFT_BREAK) then toggle_shift BREAK
  else if decide (key = CTRL_MAKE) then toggle_ctrl MAKE
  else if decide (key = CTRL_BREAK) then toggle_ctrl BREAK
  else if decide (key = BKSP) then handle_backspace
  else if decide (key = ENTER) then handle_enter
  else if decide (key = ALT) then toggle_alt MAKE
  else process_key j key.

Definition keyboard_handler (j : junk) : K unit :=
  _ ← on_io (send_eoi KBD_IRQ);
  flags ← port cli_and_save;
  key ← port (inb KBD_DATA_PORT);
  _ ← dispatch_key j key;
  on_io (restore_flags flags).

(** ** keyboard.c: keyboard_init *)
Definition keyboard_init : K unit :=
  flags ← port cli_and_save;
  _ ← modify (fun k => with_idt (on_vector KBD_VECTOR_NUM
        (fun d => SET_IDT_ENTRY (keyboard_handler_at (link k)) (set_present 1 d)) (idt k)) k);
  s ← gets kbd;
  b ← lift (mapM clear_row (buffer s));
  _ ← set_kbd (fun s => kb_modes (replicate (Z.to_nat MAX_TERMINAL) NONE_MODE)
        (kb_line (replicate (Z.to_nat MAX_TERMINAL) 0) b s));
  _ ← on_pic (enable_irq KBD_IRQ);
  on_io (restore_flags flags).

(** ** keyboard.c: keyboard_open, keyboard_write, keyboard_close *)
Definition keyboard_open : K Z := mret (-1).
Definition keyboard_write (fd : Z) : K Z := mret (-1).
Definition keyboard_close (fd : Z) : K Z := mret (-1).
