(* ===== verification/KeyboardSpec.v ===== *)
(** What the keyboard promises ([student-distrib/keyboard.c]): the modifiers
    are two booleans per terminal, the buffer is the line being edited, and
    the handler edits it. *)

From S2P Require Import Prelude Hardware CLib Screen Printf FileSystem Pic Kernel FdTable.
From S2P Require Import Drivers Streams Process Keyboard.

(** * The key table *)

(** A mode is a shift and a caps-lock state. *)
Definition mode_of (shift caps : bool) : Z := (if shift then 1 else 0) + (if caps then 2 else 0).

(** The keys of a US keyboard by their scan codes (set 1).  Letters in
    alphabetical order, the digits from 0, then the other symbols with what
    they give together with shift, and the keys no modifier acts on. *)
Definition letter_codes : list Z :=
  [0x1E; 0x30; 0x2E; 0x20; 0x12; 0x21; 0x22; 0x23; 0x17; 0x24; 0x25; 0x26; 0x32;
   0x31; 0x18; 0x19; 0x10; 0x13; 0x1F; 0x14; 0x16; 0x2F; 0x11; 0x2D; 0x15; 0x2C].
Definition digit_codes : list Z := [0x0B; 0x02; 0x03; 0x04; 0x05; 0x06; 0x07; 0x08; 0x09; 0x0A].
Definition shifted_digits : list Z := chars ")!@#$%^&*(".
Definition symbol_keys : list (Z * (Z * Z)) :=
  [ (0x0C, (45, 95));   (* - _ *)
    (0x0D, (61, 43));   (* = + *)
    (0x1A, (91, 123));  (* [ { *)
    (0x1B, (93, 125));  (* ] } *)
    (0x27, (59, 58));   (* ; : *)
    (0x28, (39, 34));   (* quote, double quote *)
    (0x29, (96, 126));  (* ` ~ *)
    (0x2B, (92, 124));  (* \ | *)
    (0x33, (44, 60));   (* , < *)
    (0x34, (46, 62));   (* . > *)
    (0x35, (47, 63)) ]. (* / ? *)
Definition fixed_keys : list (Z * Z) :=
  [ (0x1C, 10);         (* enter *)
    (0x37, 42);         (* keypad * *)
    (0x39, 32);         (* space *)
    (0x4A, 45);         (* keypad - *)
    (0x4E, 43) ].       (* keypad + *)

Definition position_in (l : list Z) (key : Z) : option Z :=
  (fun '(i, _) => Z.of_nat i) <$> list_find (fun c => c = key) l.
Definition key_in {A} (l : list (Z * A)) (key : Z) : option A :=
  (fun '(_, (_, a)) => a) <$> list_find (fun '(c, _) => c = key) l.

(** Shift acts on digits and symbols; letters are capital when exactly one of
    shift and caps lock is on.  Every other key has no character. *)
Definition us_key (shift caps : bool) (key : Z) : Z :=
  match position_in letter_codes key with
  | Some i => (if xorb shift caps then 65 else 97) + i
  | None =>
    match position_in digit_codes key with
    | Some i => if shift then at_ shifted_digits i else 48 + i
    | None =>
      match key_in symbol_keys key with
      | Some (c, s) => if shift then s else c
      | None => default 0 (key_in fixed_keys key)
      end
    end
  end.

Lemma forall_bool (P : bool -> Prop) : P true -> P false -> forall b, P b.
Proof. by intros ? ? []. Qed.

(** The table is the US layout, but for the brackets with shift and caps lock. *)
(** C32: The scan-code table is the US layout: for every scan code and every
    combination of shift and caps lock the character is that of an independent
    description of the keyboard (the scan codes of the letters and digits in
    alphabetical and numerical order, the symbol keys with both their
    characters), but for the two bracket keys with shift and caps lock. *)
Lemma key_map_us shift caps key : 0 <= key < TOTAL_SCANCODES ->
  (shift && caps && bool_decide (key = 0x1A \/ key = 0x1B)) = false ->
  at_ (at_ kbd_ascii_key_map (mode_of shift caps)) key = us_key shift caps key.
Proof.
  revert key. destruct shift, caps;
    match goal with |- forall key, _ -> @?P key => refine (forall_small 128 P _) end;
    by vm_compute.
Qed.

(** With shift and caps lock the bracket keys give [ and ] where the
    layout has { and }. *)
Lemma key_map_brackets :
  (at_ (at_ kbd_ascii_key_map (mode_of true true)) 0x1A, us_key true true 0x1A) = (91, 123) /\
  (at_ (at_ kbd_ascii_key_map (mode_of true true)) 0x1B, us_key true true 0x1B) = (93, 125).
Proof. done. Qed.

(** * The line editor

    What one terminal's keyboard state means: modifiers, the line being
    edited, the last line entered. *)
Record edit : Type := mkEdit {
  e_shift : bool;
  e_caps : bool;
  e_ctrl : bool;
  e_alt : bool;
  e_line : list Z;
  e_saved : list Z;
  e_ready : bool;
}.

Definition key_char (e : edit) (key : Z) : Z :=
  at_ (at_ kbd_ascii_key_map (mode_of (e_shift e) (e_caps e))) key.

Definition set_shift_caps (s c : bool) (e : edit) : edit :=
  mkEdit s c (e_ctrl e) (e_alt e) (e_line e) (e_saved e) (e_ready e).
Definition set_ctrl (v : bool) (e : edit) : edit :=
  mkEdit (e_shift e) (e_caps e) v (e_alt e) (e_line e) (e_saved e) (e_ready e).
Definition set_alt (v : bool) (e : edit) : edit :=
  mkEdit (e_shift e) (e_caps e) (e_ctrl e) v (e_line e) (e_saved e) (e_ready e).
Definition edit_line (l : list Z) (e : edit) : edit :=
  mkEdit (e_shift e) (e_caps e) (e_ctrl e) (e_alt e) l (e_saved e) (e_ready e).

Inductive key_class : Type := Caps | ShiftMake | ShiftBreak | CtrlMake | CtrlBreak | AltMake
  | Backspace | Enter | Char | Ignored.
Definition classify (key : Z) : key_class :=
  if decide (key = CAPS) then Caps
  else if decide (key = L_SHIFT_MAKE \/ key = R_SHIFT_MAKE) then ShiftMake
  else if decide (key = L_SHIFT_BREAK \/ key = R_SHIFT_BREAK) then ShiftBreak
  else if decide (key = CTRL_MAKE) then CtrlMake
  else if decide (key = CTRL_BREAK) then CtrlBreak
  else if decide (key = ALT) then AltMake
  else if decide (key = BKSP) then Backspace
  else if decide (key = ENTER) then Enter
  else if decide (ABC_LOW_SCANS <= key <= ABC_HIGH_SCANS) then Char
  else Ignored.

(** The edit a key makes, and what it does to the screen. *)
Definition edit_step (key : Z) (e : edit) : edit :=
  match classify key with
  | Caps => set_shift_caps (e_shift e) (negb (e_caps e)) e
  | ShiftMake => set_shift_caps true (e_caps e) e
  | ShiftBreak => set_shift_caps false (e_caps e) e
  | CtrlMake => set_ctrl true e
  | CtrlBreak => set_ctrl false e
  | AltMake => set_alt true e
  | Backspace => edit_line (take (length (e_line e) - 1) (e_line e)) e
  | Enter => mkEdit (e_shift e) (e_caps e) (e_ctrl e) (e_alt e) [] (e_line e) true
  | Char => if decide (zlen (e_line e) < 127) then edit_line (e_line e ++ [key_char e key]) e else e
  | Ignored => e
  end.
Definition text_step (key : Z) (e : edit) (t : text) : text :=
  match classify key with
  | Backspace => if decide (e_line e = []) then t else t_backspace t
  | Enter => t_newline t
  | Char => if decide (zlen (e_line e) < 127) then t_putc (key_char e key) t else t
  | _ => t
  end.

(** Keys that are not commands of the modifiers that are down. *)
Definition plain_key (e : edit) (key : Z) : Prop :=
  (e_ctrl e = true -> key <> L_MAKE /\ key <> ONE_SCAN /\ key <> THREE_SCAN /\ key <> FOUR_SCAN) /\
  (e_alt e = true -> key <> fn1 /\ key <> fn2 /\ key <> fn3).

Definition row_of_line (l : list Z) : list Z := over l (replicate 128 0).
Definition flag (b : bool) : Z := if b then 1 else 0.

(** The kernel's variables hold the edit state [e] of the current terminal. *)
Record kbd_rep (k : kernel) (e : edit) : Prop := {
  kr_term : 0 <= curr_terminal (lib k) < MAX_TERMINAL;
  kr_modes : length (caps_shift_flag (kbd k)) = Z.to_nat MAX_TERMINAL;
  kr_indexes : length (buffer_index (kbd k)) = Z.to_nat MAX_TERMINAL;
  kr_rows : length (buffer (kbd k)) = Z.to_nat MAX_TERMINAL;
  kr_saves : length (save_buff k) = Z.to_nat MAX_TERMINAL;
  kr_mode : at_ (caps_shift_flag (kbd k)) (curr_terminal (lib k)) = mode_of (e_shift e) (e_caps e);
  kr_ctrl : ctrl_flag (kbd k) = flag (e_ctrl e);
  kr_alt : alt_flag (kbd k) = flag (e_alt e);
  kr_ready : kbdr_flag (kbd k) = flag (e_ready e);
  kr_index : at_ (buffer_index (kbd k)) (curr_terminal (lib k)) = zlen (e_line e);
  kr_row : at_ (buffer (kbd k)) (curr_terminal (lib k)) = row_of_line (e_line e);
  kr_short : zlen (e_line e) <= 127;
  kr_save : at_ (save_buff k) (curr_terminal (lib k)) = row_of_line (e_saved e);
  kr_saved_short : zlen (e_saved e) <= 127;
}.

(** What a key does not touch: the other terminals' lines and modes, and the
    rest of the kernel. *)
Record kbd_frame (k k' : kernel) : Prop := {
  kf_rest : k' = with_kbd (kbd k') (with_save_buff (save_buff k') (with_lib (lib k') k));
  kf_term : curr_terminal (lib k') = curr_terminal (lib k);
  kf_others : forall u, 0 <= u < MAX_TERMINAL -> u <> curr_terminal (lib k) ->
    at_ (caps_shift_flag (kbd k')) u = at_ (caps_shift_flag (kbd k)) u /\
    at_ (buffer_index (kbd k')) u = at_ (buffer_index (kbd k)) u /\
    at_ (buffer (kbd k')) u = at_ (buffer (kbd k)) u /\
    at_ (save_buff k') u = at_ (save_buff k) u;
}.

Lemma row_of_line_length l : zlen l <= 127 -> length (row_of_line l) = 128%nat.
Proof. intros. unfold row_of_line. apply length_over. simpl. lia. Qed.

Lemma row_of_line_at l j : zlen l <= 127 -> 0 <= j < 128 ->
  at_ (row_of_line l) j = if decide (j < zlen l) then at_ l j else 0.
Proof.
  intros Hl Hj. unfold row_of_line. rewrite at_over by lia. case_decide; [done|].
  by apply at_replicate.
Qed.

Lemma row_ext r l : length r = 128%nat -> zlen l <= 127 ->
  (forall j, 0 <= j < 128 -> at_ r j = if decide (j < zlen l) then at_ l j else 0) -> r = row_of_line l.
Proof.
  intros Hr Hl Hat. apply at_ext; [by rewrite row_of_line_length|]. intros j Hj.
  rewrite Hat, row_of_line_at by lia. done.
Qed.

Lemma row_append l c : zlen l < 127 -> upd (row_of_line l) (zlen l) c = row_of_line (l ++ [c]).
Proof. intros Hl. unfold row_of_line. apply upd_over. simpl. lia. Qed.

Lemma row_erase l : 0 < zlen l <= 127 ->
  upd (row_of_line l) (zlen l - 1) 0 = row_of_line (take (length l - 1) l).
Proof.
  intros Hl. apply row_ext.
  - by rewrite length_upd, row_of_line_length by lia.
  - rewrite length_take. lia.
  - intros j Hj. rewrite at_upd by (rewrite ?row_of_line_length; lia).
    rewrite row_of_line_at, length_take by lia.
    repeat case_decide; try lia; try done. by rewrite at_take by lia.
Qed.

(** The loops that blank a row. *)
Lemma blank_row_loop (body : Z * list Z -> outcome (Z * list Z + list Z)) row :
  length row = 128%nat ->
  (forall i r, body (i, r) = if decide (i < 128) then r ← wr r i 0; mret (inl (i + 1, r)) else mret (inr r)) ->
  loop 129 body (0, row) = Ok (row_of_line []).
Proof.
  intros Hr Hb. apply wp_eq.
  apply (wp_loop (fun '(i, r) => 0 <= i <= 128 /\ length r = 128%nat /\ forall j, 0 <= j < i -> at_ r j = 0)
           (fun '(i, _) => Z.to_nat (128 - i))); [split; [lia|split; [done|intros; lia]]|lia|].
  intros [i r] (Hi & Hl & Hz). rewrite Hb. wp_step.
  - do 3 wp_step. split; [|lia]. split; [lia|].
    split; [by rewrite length_upd|]. intros j Hj. rewrite at_upd by lia.
    case_decide; [done|]. apply Hz. lia.
  - wp_step. apply row_ext; [done|simpl; lia|]. intros j Hj. rewrite Hz by lia. simpl.
    by rewrite decide_False by lia.
Qed.
Lemma clear_row_ok row : length row = 128%nat -> clear_row row = Ok (row_of_line []).
Proof. intros. by apply blank_row_loop. Qed.
Lemma clean_row_ok row : length row = 128%nat -> clean_row row = Ok (row_of_line []).
Proof. intros. by apply blank_row_loop. Qed.

Lemma fill_row_ok l n : zlen l <= 127 -> n = zlen l ->
  fill_row (row_of_line []) (row_of_line l) n = Ok (row_of_line l).
Proof.
  intros Hl ->. apply wp_eq. unfold fill_row, TERM_BUFF_SIZE.
  apply (wp_loop (fun '(i, r) => 0 <= i <= zlen l /\ r = row_of_line (take (Z.to_nat i) l))
           (fun '(i, _) => Z.to_nat (zlen l - i))); [split; [lia|done]|lia|].
  intros [i r] [Hi ->]. wp_step.
  - wp_step. rewrite rd_ok by (rewrite row_of_line_length; lia). wp_step. wp_step.
    rewrite row_of_line_at, decide_True by lia.
    rewrite wr_ok by (rewrite row_of_line_length; rewrite ?length_take; lia). do 2 wp_step.
    split; [|lia]. split; [lia|]. rewrite take_snoc by lia.
    rewrite <- row_append by (rewrite length_take; lia). f_equal. rewrite length_take. lia.
  - wp_step. by rewrite take_ge by lia.
Qed.

Lemma frame_refl k : kbd_frame k k.
Proof. constructor; [by destruct k|done|done]. Qed.
Lemma frame_lib s k : curr_terminal s = curr_terminal (lib k) -> kbd_frame k (with_lib s k).
Proof. intros. constructor; [by destruct k|done|done]. Qed.
Lemma rest_kbd x k : with_kbd x k = with_kbd x (with_save_buff (save_buff k) (with_lib (lib k) k)).
Proof. by destruct k. Qed.

(** * Reading and writing the current terminal's fields *)
Section fields.
Variables (k : kernel) (e : edit).
Hypothesis Rep : kbd_rep k e.
Abbreviation t := (curr_terminal (lib k)).

Lemma kget {A} (f : kbd_state -> list A) `{Inhabited A} : length (f (kbd k)) = Z.to_nat MAX_TERMINAL ->
  (t ← curr_term; s ← gets kbd; lift (rd (f s) t)) k = Ok (Returned (at_ (f (kbd k)) t), k).
Proof using All.
  intros Hl. destruct Rep. unfold MAX_TERMINAL in *.
  kstep (gets_ok (fun k => curr_terminal (lib k)) k). kstep (gets_ok kbd k).
  unfold lift. by rewrite rd_ok by lia.
Qed.

Lemma curr_mode_ok : curr_mode k = Ok (Returned (mode_of (e_shift e) (e_caps e)), k).
Proof using All. unfold curr_mode. rewrite (kget caps_shift_flag) by apply Rep. by rewrite (kr_mode _ _ Rep). Qed.
Lemma curr_index_ok : curr_index k = Ok (Returned (zlen (e_line e)), k).
Proof using All. unfold curr_index. rewrite (kget buffer_index) by apply Rep. by rewrite (kr_index _ _ Rep). Qed.
Lemma curr_row_ok : curr_row k = Ok (Returned (row_of_line (e_line e)), k).
Proof using All. unfold curr_row. rewrite (kget buffer) by apply Rep. by rewrite (kr_row _ _ Rep). Qed.

Definition put_mode (v : Z) : kernel :=
  with_kbd (kb_modes (upd (caps_shift_flag (kbd k)) t v) (kbd k)) k.
Lemma set_mode_ok v : set_mode v k = Ok (Returned tt, put_mode v).
Proof using All.
  destruct Rep. unfold MAX_TERMINAL in *. unfold set_mode.
  kstep (gets_ok (fun k => curr_terminal (lib k)) k). kstep (gets_ok kbd k).
  assert (E : wr (caps_shift_flag (kbd k)) t v = Ok (upd (caps_shift_flag (kbd k)) t v)) by (apply wr_ok; lia).
  by kstep (lift_ok _ _ k E).
Qed.

Definition put_line (l : list Z) : kernel :=
  with_kbd (kb_line (upd (buffer_index (kbd k)) t (zlen l)) (upd (buffer (kbd k)) t (row_of_line l)) (kbd k)) k.
Lemma set_line_ok l n row : n = zlen l -> row = row_of_line l ->
  set_line n row k = Ok (Returned tt, put_line l).
Proof using All.
  intros -> ->. destruct Rep. unfold MAX_TERMINAL in *. unfold set_line.
  kstep (gets_ok (fun k => curr_terminal (lib k)) k). kstep (gets_ok kbd k).
  assert (E1 : wr (buffer_index (kbd k)) t (zlen l) = Ok (upd (buffer_index (kbd k)) t (zlen l))) by (apply wr_ok; lia).
  kstep (lift_ok _ _ k E1).
  assert (E2 : wr (buffer (kbd k)) t (row_of_line l) = Ok (upd (buffer (kbd k)) t (row_of_line l))) by (apply wr_ok; lia).
  by kstep (lift_ok _ _ k E2).
Qed.


Lemma rep_mode s c : kbd_rep (put_mode (mode_of s c)) (set_shift_caps s c e) /\ kbd_frame k (put_mode (mode_of s c)).
Proof using All.
  destruct Rep. unfold MAX_TERMINAL in *. split.
  - constructor; simpl; rewrite ?length_upd; try done. by rewrite at_upd_eq by lia.
  - constructor; [refine (rest_kbd _ k)|done|]. unfold MAX_TERMINAL. intros u Hu Hne. simpl.
    by rewrite at_upd_ne by lia.
Qed.

Lemma rep_line l : zlen l <= 127 -> kbd_rep (put_line l) (edit_line l e) /\ kbd_frame k (put_line l).
Proof using All.
  intros Hl. destruct Rep. unfold MAX_TERMINAL in *. split.
  - constructor; simpl; rewrite ?length_upd; try done; by rewrite at_upd_eq by lia.
  - constructor; [refine (rest_kbd _ k)|done|]. unfold MAX_TERMINAL. intros u Hu Hne. simpl.
    by rewrite !at_upd_ne by lia.
Qed.
End fields.

(** The console does not disturb the keyboard. *)
Lemma rep_with_lib k e s x : con_spec (lib k) s x -> kbd_rep k e ->
  kbd_rep (with_lib s k) e /\ kbd_frame k (with_lib s k).
Proof.
  intros [_ Hf _] Rep. pose proof (fr_curr _ _ Hf) as Hc. destruct Rep. split.
  - constructor; simpl; rewrite ?Hc; done.
  - constructor; [by destruct k|done|done].
Qed.

Lemma kbd_frame_trans k1 k2 k3 : kbd_frame k1 k2 -> kbd_frame k2 k3 -> kbd_frame k1 k3.
Proof.
  intros [R1 T1 O1] [R2 T2 O2]. constructor; [|congruence|].
  - rewrite R2, R1. by destruct k3.
  - intros u Hu Hne. destruct (O1 u Hu Hne) as (A & B & C & D).
    destruct (O2 u Hu ltac:(congruence)) as (A' & B' & C' & D').
    rewrite A', B', C', D'. done.
Qed.

(** What handling a key should do. *)
Definition key_spec (key : Z) (e : edit) (k k' : kernel) : Prop :=
  kbd_rep k' (edit_step key e) /\ kbd_frame k k' /\
  con_spec (lib k) (lib k') (text_step key e (view (lib k))).

Section keys.
Variables (k : kernel) (e : edit).
Hypothesis (Rep : kbd_rep k e) (W : con_wf (lib k)).
Abbreviation t := (curr_terminal (lib k)).

Lemma con_same : con_spec (lib k) (lib k) (view (lib k)).
Proof using All. by constructor; [|reflexivity|]. Qed.

Lemma toggle_caps_ok :
  kwp toggle_caps (fun _ k' => kbd_rep k' (set_shift_caps (e_shift e) (negb (e_caps e)) e) /\
    kbd_frame k k' /\ lib k' = lib k) nojump k.
Proof using All.
  unfold toggle_caps. kwp_step. eapply kwp_eq; [by apply curr_mode_ok|].
  pose proof (fun s c => rep_mode k e Rep s c) as Hm. pose proof (set_mode_ok k e Rep) as Hs.
  destruct (e_shift e), (e_caps e); (eapply kwp_eq; [apply Hs|]);
    [destruct (Hm true false)|destruct (Hm true true)|destruct (Hm false false)|destruct (Hm false true)]; done.
Qed.

Lemma toggle_shift_ok (make : bool) :
  kwp (toggle_shift (if make then MAKE else BREAK))
    (fun _ k' => kbd_rep k' (set_shift_caps make (e_caps e) e) /\ kbd_frame k k' /\ lib k' = lib k) nojump k.
Proof using All.
  unfold toggle_shift. kwp_step. eapply kwp_eq; [by apply curr_mode_ok|].
  pose proof (fun s c => rep_mode k e Rep s c) as Hm. pose proof (set_mode_ok k e Rep) as Hs.
  assert (Hsame : make = e_shift e -> kbd_rep k (set_shift_caps make (e_caps e) e) /\ kbd_frame k k /\ lib k = lib k).
  { intros ->. replace (set_shift_caps _ _ e) with e by (by destruct e).
    split; [done|]. split; [apply frame_refl|done]. }
  destruct make, (e_shift e), (e_caps e); try (apply kwp_ret; by apply Hsame);
    (eapply kwp_eq; [apply Hs|]);
    [destruct (Hm true true)|destruct (Hm true false)|destruct (Hm false true)|destruct (Hm false false)]; done.
Qed.

Lemma set_flag_ok f e' : kbd_rep (with_kbd (f (kbd k)) k) e' ->
  caps_shift_flag (f (kbd k)) = caps_shift_flag (kbd k) ->
  buffer_index (f (kbd k)) = buffer_index (kbd k) -> buffer (f (kbd k)) = buffer (kbd k) ->
  kwp (set_kbd f) (fun _ k' => kbd_rep k' e' /\ kbd_frame k k' /\ lib k' = lib k) nojump k.
Proof using All.
  intros HR H1 H2 H3. apply kwp_modify. split; [done|]. split; [|done].
  constructor; [refine (rest_kbd _ k)|done|]. intros u _ _. simpl. by rewrite H1, H2, H3.
Qed.

Lemma toggle_ctrl_ok (make : bool) :
  kwp (toggle_ctrl (if make then MAKE else BREAK))
    (fun _ k' => kbd_rep k' (set_ctrl make e) /\ kbd_frame k k' /\ lib k' = lib k) nojump k.
Proof using All.
  unfold toggle_ctrl. apply set_flag_ok; [|done..]. destruct Rep. constructor; try done. by destruct make.
Qed.
Lemma toggle_alt_ok (make : bool) :
  kwp (toggle_alt (if make then MAKE else BREAK))
    (fun _ k' => kbd_rep k' (set_alt make e) /\ kbd_frame k k' /\ lib k' = lib k) nojump k.
Proof using All.
  unfold toggle_alt. apply set_flag_ok; [|done..]. destruct Rep. constructor; try done. by destruct make.
Qed.

Lemma handle_backspace_ok :
  kwp handle_backspace (fun _ k' => kbd_rep k' (edit_line (take (length (e_line e) - 1) (e_line e)) e) /\
    kbd_frame k k' /\
    con_spec (lib k) (lib k') (if decide (e_line e = []) then view (lib k) else t_backspace (view (lib k)))) nojump k.
Proof using All.
  unfold handle_backspace. kwp_step. eapply kwp_eq; [by apply curr_index_ok|].
  pose proof (kr_short _ _ Rep) as Hs.
  kwp_step.
  - assert (Hne : e_line e <> []) by (intros E; rewrite E in *; simpl in *; lia).
    kwp_step. unfold on_lib. kwp_step.
    pose proof (backspace_spec (lib k) W) as Hb. set (s := backspace (lib k)) in *.
    destruct (rep_with_lib k e s _ Hb Rep) as [Rep1 F1].
    kwp_step. eapply kwp_eq; [by apply curr_row_ok|]. kwp_step. kwp_step.
    rewrite wr_ok by (rewrite row_of_line_length; lia). kwp_step.
    eapply kwp_eq; [apply (set_line_ok _ e Rep1 (take (length (e_line e) - 1) (e_line e)))|].
    + rewrite length_take. lia.
    + apply row_erase. lia.
    + destruct (rep_line _ e Rep1 (take (length (e_line e) - 1) (e_line e))) as [Rep2 F2];
        [rewrite length_take; lia|].
      split; [done|]. split; [by eapply kbd_frame_trans|]. by rewrite decide_False by done.
  - kwp_step. assert (E : e_line e = []) by (destruct (e_line e); [done|simpl in *; lia]).
    rewrite decide_True by done. replace (edit_line _ e) with e by (destruct e; simpl in *; by subst).
    split; [done|]. split; [apply frame_refl|apply con_same].
Qed.

Lemma type_char_ok key : 0 <= key < TOTAL_SCANCODES ->
  kwp (type_char key) (fun _ k' =>
    kbd_rep k' (if decide (zlen (e_line e) < 127) then edit_line (e_line e ++ [key_char e key]) e else e) /\
    kbd_frame k k' /\
    con_spec (lib k) (lib k') (if decide (zlen (e_line e) < 127) then t_putc (key_char e key) (view (lib k))
                               else view (lib k))) nojump k.
Proof using All.
  intros Hk. unfold type_char. kwp_step. eapply kwp_eq; [by apply curr_index_ok|]. unfold BUFFER_SIZE.
  kwp_step.
  - rewrite !decide_True by lia. kwp_step. eapply kwp_eq; [by apply curr_mode_ok|].
    assert (Hm : 0 <= mode_of (e_shift e) (e_caps e) < zlen kbd_ascii_key_map)
      by (destruct (e_shift e), (e_caps e); done).
    kwp_step. kwp_step. rewrite rd_ok by done. kwp_step. kwp_step. kwp_step.
    assert (Hrow : length (at_ kbd_ascii_key_map (mode_of (e_shift e) (e_caps e))) = 128%nat)
      by (destruct (e_shift e), (e_caps e); done).
    rewrite rd_ok by (rewrite Hrow; done). kwp_step. fold (key_char e key).
    kwp_step. unfold kputc. kwp_step. eapply wp_mono; [by apply putc_spec|]. intros s Hs.
    destruct (rep_with_lib k e s _ Hs Rep) as [Rep1 F1].
    kwp_step. eapply kwp_eq; [by apply curr_row_ok|]. kwp_step. kwp_step.
    rewrite wr_ok by (rewrite row_of_line_length; lia). kwp_step.
    eapply kwp_eq; [apply (set_line_ok _ e Rep1 (e_line e ++ [key_char e key]))|].
    + rewrite length_app. simpl. lia.
    + apply row_append. lia.
    + destruct (rep_line _ e Rep1 (e_line e ++ [key_char e key])) as [Rep2 F2];
        [rewrite length_app; simpl; lia|].
      split; [done|]. split; [by eapply kbd_frame_trans|done].
  - kwp_step. rewrite !decide_False by lia. split; [done|]. split; [apply frame_refl|apply con_same].
Qed.
End keys.

(** ** Enter *)
Definition set_ready (e : edit) : edit :=
  mkEdit (e_shift e) (e_caps e) (e_ctrl e) (e_alt e) (e_line e) (e_saved e) true.
Definition set_saved (e : edit) : edit :=
  mkEdit (e_shift e) (e_caps e) (e_ctrl e) (e_alt e) (e_line e) (e_line e) (e_ready e).

Lemma save_line_ok k e : kbd_rep k e ->
  kwp (terminal_read (Some (row_of_line (e_line e))) (zlen (e_line e)))
    (fun _ k' => kbd_rep k' (set_saved e) /\ kbd_frame k k' /\ lib k' = lib k) nojump k.
Proof.
  intros Rep. pose proof Rep as []. unfold MAX_TERMINAL in *.
  unfold terminal_read, curr_term. kwp_step. kwp_step. kwp_step. kwp_step.
  kwp_step. kwp_step. rewrite rd_ok by lia. kwp_step. rewrite kr_save0.
  kwp_step. kwp_step. rewrite clean_row_ok by (by apply row_of_line_length). kwp_step.
  kwp_step. kwp_step. rewrite fill_row_ok by done. kwp_step.
  kwp_step. kwp_step. rewrite wr_ok by lia. kwp_step. kwp_step. kwp_step. kwp_step.
  split; [|split; [|done]].
  - constructor; simpl; rewrite ?length_upd; try done. by rewrite at_upd_eq by lia.
  - constructor; [by destruct k|done|]. unfold MAX_TERMINAL. intros u Hu Hne. simpl.
    by rewrite at_upd_ne by lia.
Qed.

Lemma clear_buffer_ok k e : kbd_rep k e ->
  kwp clear_buffer (fun _ k' => kbd_rep k' (edit_line [] e) /\ kbd_frame k k' /\ lib k' = lib k) nojump k.
Proof.
  intros Rep. unfold clear_buffer. kwp_step. eapply kwp_eq; [by apply curr_row_ok|].
  kwp_step. kwp_step. rewrite clear_row_ok by (apply row_of_line_length, Rep). kwp_step.
  eapply kwp_eq; [by apply (set_line_ok k e Rep [])|].
  destruct (rep_line k e Rep []) as [R F]; [done|]. done.
Qed.

Lemma handle_enter_ok k e : kbd_rep k e -> con_wf (lib k) ->
  kwp handle_enter (fun _ k' => kbd_rep k' (mkEdit (e_shift e) (e_caps e) (e_ctrl e) (e_alt e) [] (e_line e) true) /\
    kbd_frame k k' /\ con_spec (lib k) (lib k') (t_newline (view (lib k)))) nojump k.
Proof.
  intros Rep W. unfold handle_enter. kwp_step.
  eapply kwp_mono; [apply (set_flag_ok k e Rep W _ (set_ready e)); [|done..]| |done].
  { destruct Rep. by constructor. }
  intros _ k1 (R1 & F1 & L1). kwp_step. kwp_step. rewrite L1. eapply wp_mono; [by apply scroll_spec|].
  intros s Hs. rewrite <- L1 in Hs. destruct (rep_with_lib k1 _ s _ Hs R1) as [R2 F2].
  kwp_step. eapply kwp_eq; [by apply (curr_row_ok _ _ R2)|].
  kwp_step. eapply kwp_eq; [by apply (curr_index_ok _ _ R2)|].
  kwp_step. eapply kwp_mono; [by apply (save_line_ok _ _ R2)| |done].
  intros _ k3 (R3 & F3 & L3). eapply kwp_mono; [by apply (clear_buffer_ok _ _ R3)| |done].
  intros _ k4 (R4 & F4 & L4). split; [exact R4|]. split.
  - eapply kbd_frame_trans; [exact F1|]. eapply kbd_frame_trans; [exact F2|]. by eapply kbd_frame_trans.
  - rewrite L4, L3. simpl. by rewrite <- L1.
Qed.

(** ** Characters *)
Lemma flag_zero b : flag b <> 0 <-> b = true.
Proof. by destruct b. Qed.

Lemma process_key_ok k e j key : kbd_rep k e -> con_wf (lib k) -> plain_key e key ->
  classify key = Char -> kwp (process_key j key) (fun _ => key_spec key e k) nojump k.
Proof.
  intros Rep W [Hc Ha] Hk. unfold key_spec, edit_step, text_step. rewrite Hk.
  assert (Hr : ABC_LOW_SCANS <= key <= ABC_HIGH_SCANS).
  { unfold classify in Hk. repeat case_decide; done || (subst; done). }
  unfold process_key. rewrite decide_True by lia. kwp_step. kwp_step.
  pose proof (kr_ctrl _ _ Rep) as Ec. pose proof (kr_alt _ _ Rep) as Ea.
  assert (Nc : ctrl_flag (kbd k) <> 0 -> e_ctrl e = true) by (rewrite Ec; apply flag_zero).
  assert (Na : alt_flag (kbd k) <> 0 -> e_alt e = true) by (rewrite Ea; apply flag_zero).
  do 7 (rewrite decide_False by (intros [-> Hz];
    first [destruct (Hc (Nc Hz)) as (? & ? & ? & ?) | destruct (Ha (Na Hz)) as (? & ? & ?)]; done)).
  eapply kwp_mono; [by apply type_char_ok; [..|unfold ABC_LOW_SCANS, ABC_HIGH_SCANS, TOTAL_SCANCODES in *; lia]| |done].
  by intros _ k' (? & ? & ?).
Qed.

Lemma process_key_ignored k e j key : kbd_rep k e -> con_wf (lib k) -> classify key = Ignored ->
  kwp (process_key j key) (fun _ => key_spec key e k) nojump k.
Proof.
  intros Rep W Hk. unfold key_spec, edit_step, text_step. rewrite Hk.
  assert (Hr : ~ (ABC_LOW_SCANS <= key <= ABC_HIGH_SCANS)).
  { intros Hr. unfold classify in Hk. repeat case_decide; done. }
  unfold process_key. kwp_step.
  - by destruct Hr; lia.
  - kwp_step. split; [done|]. split; [apply frame_refl|by apply con_same with (e := e)].
Qed.

(** Every plain key makes its edit. *)
Lemma dispatch_key_ok k e j key : kbd_rep k e -> con_wf (lib k) -> plain_key e key ->
  kwp (dispatch_key j key) (fun _ => key_spec key e k) nojump k.
Proof.
  intros Rep W Hp. unfold dispatch_key.
  assert (Modifier : forall e' (m : K unit),
    kwp m (fun _ k' => kbd_rep k' e' /\ kbd_frame k k' /\ lib k' = lib k) nojump k ->
    edit_step key e = e' -> text_step key e (view (lib k)) = view (lib k) ->
    kwp m (fun _ => key_spec key e k) nojump k).
  { intros e' m Hm He Ht. eapply kwp_mono; [exact Hm| |done]. intros _ k' (R & F & L).
    unfold key_spec. rewrite He, Ht, L. split; [done|]. split; [done|]. by apply con_same with (e := e). }
  destruct_decide (decide (key = CAPS)); [subst; by eapply Modifier; [apply toggle_caps_ok|..]|].
  destruct_decide (decide (key = L_SHIFT_MAKE)); [subst; by eapply Modifier; [apply (toggle_shift_ok k e Rep W true)|..]|].
  destruct_decide (decide (key = R_SHIFT_MAKE)); [subst; by eapply Modifier; [apply (toggle_shift_ok k e Rep W true)|..]|].
  destruct_decide (decide (key = L_SHIFT_BREAK)); [subst; by eapply Modifier; [apply (toggle_shift_ok k e Rep W false)|..]|].
  destruct_decide (decide (key = R_SHIFT_BREAK)); [subst; by eapply Modifier; [apply (toggle_shift_ok k e Rep W false)|..]|].
  destruct_decide (decide (key = CTRL_MAKE)); [subst; by eapply Modifier; [apply (toggle_ctrl_ok k e Rep W true)|..]|].
  destruct_decide (decide (key = CTRL_BREAK)); [subst; by eapply Modifier; [apply (toggle_ctrl_ok k e Rep W false)|..]|].
  destruct_decide (decide (key = BKSP)); [subst; by apply handle_backspace_ok|].
  destruct_decide (decide (key = ENTER)); [subst; by apply handle_enter_ok|].
  destruct_decide (decide (key = ALT)); [subst; by eapply Modifier; [apply (toggle_alt_ok k e Rep W true)|..]|].
  destruct (decide (ABC_LOW_SCANS <= key <= ABC_HIGH_SCANS)).
  - apply process_key_ok; try done. unfold classify. rewrite !decide_False by tauto. by rewrite decide_True.
  - apply process_key_ignored; try done. unfold classify. by rewrite !decide_False by tauto.
Qed.

(** ** The interrupt handler *)
(** The scancode the controller answers. *)
Definition scancode (k : kernel) : Z := u8 (inputs (lib_io (lib k)) (in_pos (lib_io (lib k)))).

(** The handler acknowledges the interrupt, reads one scancode and makes its
    edit, with interrupts off until it restores the flag. *)
Record handled (key : Z) (e : edit) (k k' : kernel) : Prop := {
  h_rep : kbd_rep k' (edit_step key e);
  h_frame : kbd_frame k k';
  h_wf : con_wf (lib k');
  h_view : view (lib k') = text_step key e (view (lib k));
  h_if : if_flag (lib_io (lib k')) = if_flag (lib_io (lib k));
  h_inputs : inputs (lib_io (lib k')) = inputs (lib_io (lib k));
  h_pos : in_pos (lib_io (lib k')) = Datatypes.S (in_pos (lib_io (lib k)));
  h_screen : screen_frame (lib k) (lib k');
  h_trace : exists cursor, Forall vga_event cursor /\
    io_trace (lib_io (lib k')) = cursor ++
      [In key KBD_DATA_PORT false;
       Out (Z.lor EOI KBD_IRQ) MASTER_8259_PORT (if_flag (lib_io (lib k)))] ++ io_trace (lib_io (lib k));
}.

Lemma con_wf_io s io : con_wf s -> con_wf (set_io io s).
Proof. intros W. by apply wf_set_io. Qed.
Lemma view_io s io : view (set_io io s) = view s.
Proof. done. Qed.

Lemma rep_io k e io : kbd_rep k e -> kbd_rep (with_lib (set_io io (lib k)) k) e.
Proof. intros []. by constructor. Qed.

Lemma keyboard_handler_ok k e j : kbd_rep k e -> con_wf (lib k) -> plain_key e (scancode k) ->
  kwp (keyboard_handler j) (fun _ => handled (scancode k) e k) nojump k.
Proof.
  intros Rep W Hp. unfold keyboard_handler. do 6 kwp_step.
  match goal with |- kwp _ _ _ ?k1 => set (k2 := k1) end.
  change ((inb _ _).1) with (scancode k).
  assert (R2 : kbd_rep k2 e) by (destruct Rep; by constructor).
  assert (W2 : con_wf (lib k2)) by (destruct W; by constructor).
  kwp_step. eapply kwp_mono; [by apply (dispatch_key_ok k2 e)| |done].
  intros _ k3 (R3 & F3 & [W3 Fr3 V3]). kwp_step.
  destruct (fr_io _ _ Fr3) as [I3 N3 P3 (evs & T3 & E3)]. constructor.
  - by apply rep_io.
  - assert (F2 : kbd_frame k k2) by exact (frame_lib (lib k2) k eq_refl).
    eapply kbd_frame_trans; [exact F2|]. eapply kbd_frame_trans; [exact F3|]. by apply frame_lib.
  - by apply con_wf_io.
  - simpl. by rewrite view_io, V3.
  - done.
  - simpl. by rewrite N3.
  - simpl. by rewrite P3.
  - apply con_frame_screen in Fr3. destruct Fr3. by constructor.
  - exists evs. split; [done|]. simpl. by rewrite T3.
Qed.
