(* ===== verification/Waiting.v ===== *)
(** Interrupts as the processor delivers them, and the two system calls that
    wait for one: [keyboard_read] of [student-distrib/keyboard.c] and
    [rtc_read] of [rtc.c]; [pit_init] and [pit_handler] of [sched.c].

    The kernel waits by polling a variable.  What arrives meanwhile is a
    list of interrupt requests: a request is answered when interrupts are on
    and its line is not masked, through a gate that turns them off until the
    handler returns.  When the list runs out the reader is still waiting,
    which is [NoFuel]. *)

From S2P Require Import Prelude Hardware CLib Screen Printf FileSystem Pic Idt Rtc Kernel.
From S2P Require Import FdTable Drivers Process Testcases Keyboard.

Definition PIT_IRQ := 0.
Definition TIME_SLICE := 30.
Definition MAX_PIT_FREQ := 1193182.
Definition LOW_BYTE := 0x00FF.
Definition CHANNEL0 := 0x40.
Definition EXIT_LEN := 4.

(** ** sched.c: pit_init, pit_handler *)
Definition pit_init : K unit :=
  flags ← port cli_and_save;
  _ ← modify (fun k => with_idt (on_vector PIT_VECTOR_NUM
        (fun d => SET_IDT_ENTRY (pit_handler_at (link k)) (set_present 1 d)) (idt k)) k);
  let output := u16 (MAX_PIT_FREQ / TIME_SLICE) in
  let lower := u8 (Z.land output LOW_BYTE) in
  let higher := u8 (Z.shiftr output 8) in
  _ ← on_io (outb lower CHANNEL0);
  _ ← on_io (outb higher CHANNEL0);
  _ ← on_pic (enable_irq PIT_IRQ);
  on_io (restore_flags flags).

Definition pit_handler : K unit := on_io (send_eoi PIT_IRQ).

(** ** rtc.c: rtc_init, rtc_handler *)
Definition set_rtc (f : rtc_state -> rtc_state) : K unit := modify (fun k => with_rtc (f (rtc k)) k).

Definition rtc_init (beyond : Z -> Z) : K unit :=
  flags ← port cli_and_save;
  _ ← modify (fun k => with_idt (on_vector RTC_VECTOR_NUM
        (fun d => SET_IDT_ENTRY (rtc_handler_at (link k)) (set_present 1 d)) (idt k)) k);
  _ ← on_io (outb (Z.lor DISABLE_NMI REG_B) SELECT_REG);
  prev_data ← port (inb CMOS_RTC_PORT);
  _ ← on_io (outb (Z.lor DISABLE_NMI REG_B) SELECT_REG);
  _ ← on_io (outb (Z.lor (i8 prev_data) PERIODIC) CMOS_RTC_PORT);
  _ ← kset_frequency beyond DEFAULT_FREQ;
  _ ← set_rtc (set_interrupt_flag 1);
  _ ← on_pic (enable_irq RTC_IRQ);
  on_io (restore_flags flags).

Definition krtc_handler : K unit := fun k =>
  let '(r, io) := rtc_handler (rtc k) (lib_io (lib k)) in
  Ok (Returned tt, with_rtc r (with_lib (set_io io (lib k)) k)).

(** ** rtc.c: print_time *)
Definition print_time (fuel : nat) (last : time_of_day) : K unit :=
  _ ← (fun k => '(r, io) ← binary_to_real_time fuel last (rtc k) (lib_io (lib k));
                Ok (Returned tt, with_rtc r (with_lib (set_io io (lib k)) k)));
  t ← gets (fun k => rtc_time (rtc k));
  _ ← kprintf (lit "second: %d ") [AInt (second t)];
  _ ← kprintf (lit "minute: %d ") [AInt (minute t)];
  _ ← kprintf (lit "hour: %d ") [AInt (hour t)];
  _ ← kprintf (lit "day: %d ") [AInt (day t)];
  _ ← kprintf (lit "month: %d ") [AInt (month t)];
  kprintf (litln "year: %d") [AInt (year t)].

(** * Interrupt delivery *)

Inductive irq : Type := Timer | Key (j : junk) | Clock.

Definition line_of (i : irq) : Z :=
  match i with Timer => PIT_IRQ | Key _ => KBD_IRQ | Clock => RTC_IRQ end.
Definition handler_of (i : irq) : K unit :=
  match i with Timer => pit_handler | Key j => keyboard_handler j | Clock => krtc_handler end.

(** The line is unmasked in the kernel's mask bytes, and the cascade with it. *)
Definition unmasked (k : kernel) (n : Z) : bool :=
  let p := mkPic (masks k).1 (masks k).2 (lib_io (lib k)) in
  irq_on p n && (bool_decide (n < 8) || irq_on p SLAVE_IRQ).

Definition deliver (i : irq) : K unit :=
  accepted ← gets (fun k => if_flag (lib_io (lib k)) && unmasked k (line_of i));
  if (accepted : bool) then
    _ ← on_io cli;
    _ ← handler_of i;
    on_io (set_if true)
  else mret tt.

Definition poll (ready : kernel -> bool) (answer next : K unit) : K unit :=
  b ← gets ready;
  if (b : bool) then mret tt else _ ← answer; next.

Fixpoint wait_until (ready : kernel -> bool) (arriving : list irq) : K unit :=
  match arriving with
  | [] => poll ready (fun _ => NoFuel) (mret tt)
  | i :: arriving => poll ready (deliver i) (wait_until ready arriving)
  end.

(** ** keyboard.c: keyboard_read *)
Definition keyboard_read (arriving : list irq) (buf : option (list Z)) (nbytes : Z)
    : K (Z * option (list Z)) :=
  _ ← set_kbd (kb_ready 0);
  match buf with
  | None => mret (-1, None)
  | Some buf =>
      _ ← wait_until (fun k => bool_decide (kbdr_flag (kbd k) = 1)) arriving;
      '(count, buf) ← terminal_retrieve buf nbytes;
      r ← lift (strncmp buf (lit "exit") EXIT_LEN);
      if decide (r <> 0) then
        buf ← lift (wr buf count 10);
        mret (count + 1, Some buf)
      else mret (count, Some buf)
  end.

(** ** rtc.c: rtc_read *)
Definition rtc_read (arriving : list irq) : K Z :=
  _ ← set_rtc (set_interrupt_flag 0);
  _ ← wait_until (fun k => bool_decide (interrupt_flag (rtc k) <> 0)) arriving;
  mret 0.
