(* ===== verification/WaitingSpec.v ===== *)
(** What waiting for an interrupt gives: a line of the keyboard, a tick of
    the clock. *)

From S2P Require Import Prelude Hardware CLib Screen Printf FileSystem Pic Idt Rtc Kernel.
From S2P Require Import FdTable Drivers Streams Process CmdLine Testcases Keyboard.
From S2P Require Import KeyboardSpec Waiting.

(** * Delivery *)

(** The kernel a waiting system call runs in: the three interrupt lines are
    open, the keyboard's variables hold the edit state [e]. *)
Record idle (k : kernel) (e : edit) : Prop := {
  id_rep : kbd_rep k e;
  id_wf : con_wf (lib k);
  id_if : if_flag (lib_io (lib k)) = true;
  id_masks : forall i, unmasked k (line_of i) = true;
}.

(** Waiting system calls leave the rest of the kernel alone: the other
    terminals' lines too. *)
Record quiet (k k' : kernel) : Prop := {
  qt_rest : k' = with_rtc (rtc k') (with_kbd (kbd k') (with_save_buff (save_buff k') (with_lib (lib k') k)));
  qt_term : curr_terminal (lib k') = curr_terminal (lib k);
  qt_others : forall u, 0 <= u < MAX_TERMINAL -> u <> curr_terminal (lib k) ->
    at_ (caps_shift_flag (kbd k')) u = at_ (caps_shift_flag (kbd k)) u /\
    at_ (buffer_index (kbd k')) u = at_ (buffer_index (kbd k)) u /\
    at_ (buffer (kbd k')) u = at_ (buffer (kbd k)) u /\
    at_ (save_buff k') u = at_ (save_buff k) u;
  qt_screen : screen_frame (lib k) (lib k');
}.
#[export] Instance quiet_preorder : PreOrder quiet.
Proof.
  split.
  - intros k. constructor; [by destruct k|done|done|reflexivity].
  - intros k1 k2 k3 [R1 T1 O1 S1] [R2 T2 O2 S2]. constructor; [| | |by etransitivity].
    + rewrite R2, R1. by destruct k3.
    + congruence.
    + intros u Hu Hne. destruct (O1 u Hu Hne) as (? & ? & ? & ?).
      destruct (O2 u Hu ltac:(congruence)) as (? & ? & ? & ?). repeat split; congruence.
Qed.

(** What a handler changes, and how it moves the devices' answers on. *)
Definition consumed (i : irq) : nat := match i with Timer => 0 | _ => 1 end.

Record answered (i : irq) (e : edit) (k k' : kernel) : Prop := {
  an_idle : idle k' (match i with Key _ => edit_step (scancode k) e | _ => e end);
  an_view : view (lib k') = match i with Key _ => text_step (scancode k) e (view (lib k)) | _ => view (lib k) end;
  an_inputs : inputs (lib_io (lib k')) = inputs (lib_io (lib k));
  an_pos : in_pos (lib_io (lib k')) = (in_pos (lib_io (lib k)) + consumed i)%nat;
  an_flag : interrupt_flag (rtc k') = match i with Clock => 1 | _ => interrupt_flag (rtc k) end;
  an_quiet : quiet k k';
}.

Lemma unmasked_masks k k' n : masks k' = masks k -> unmasked k' n = unmasked k n.
Proof. unfold unmasked. by intros ->. Qed.

Lemma idle_io k e io : idle k e -> if_flag io = true -> idle (with_lib (set_io io (lib k)) k) e.
Proof. intros []. constructor; [by apply rep_io|by apply con_wf_io|done|done]. Qed.

Lemma deliver_ok i k e : idle k e -> (forall j, i = Key j -> plain_key e (scancode k)) ->
  kwp (deliver i) (fun _ => answered i e k) nojump k.
Proof.
  intros Hi Hp. unfold deliver. kwp_step. kwp_step.
  rewrite (id_if _ _ Hi), (id_masks _ _ Hi). cbn [andb]. kwp_step. kwp_step. kwp_step.
  set (k1 := with_lib _ k). destruct i as [|j|].
  - unfold handler_of, pit_handler. kwp_step. kwp_step. constructor; try done.
    + by apply (idle_io k e).
  - assert (R1 : kbd_rep k1 e) by apply rep_io, Hi.
    eapply kwp_mono; [apply (keyboard_handler_ok k1 e j R1)| |done].
    + apply con_wf_io, Hi.
    + by apply (Hp j).
    + intros _ k2 [R2 F2 W2 V2 I2 N2 P2 Sf2 T2]. kwp_step. destruct F2 as [F2 C2 O2]. constructor.
      * constructor; [by apply rep_io|by apply con_wf_io|done|].
        intros i. rewrite <- (id_masks _ _ Hi i). apply unmasked_masks. simpl. by rewrite F2.
      * simpl. by rewrite view_io, V2.
      * simpl. by rewrite N2.
      * simpl. rewrite P2. simpl. lia.
      * simpl. by rewrite F2.
      * constructor; [|by apply C2|by apply O2|destruct Sf2; by constructor]. rewrite F2. by destruct k.
  - unfold handler_of, krtc_handler, kwp. simpl. constructor; try done.
    + destruct Hi as [[] [] ? Hm]. constructor; [by constructor|by constructor|done|].
      intros i. by rewrite <- (Hm i).
    + simpl. lia.
Qed.

(** * Typing *)

(** The scancodes that the arriving interrupts read. *)
Fixpoint typed (ins : nat -> Z) (pos : nat) (arriving : list irq) : list Z :=
  match arriving with
  | [] => []
  | Timer :: rest => typed ins pos rest
  | Key _ :: rest => u8 (ins pos) :: typed ins (Datatypes.S pos) rest
  | Clock :: rest => typed ins (Datatypes.S pos) rest
  end.
Definition typed_in (k : kernel) : list irq -> list Z :=
  typed (inputs (lib_io (lib k))) (in_pos (lib_io (lib k))).

Definition session_step (et : edit * text) (key : Z) : edit * text :=
  (edit_step key et.1, text_step key et.1 et.2).
Definition session (keys : list Z) (e : edit) (t : text) : edit * text := foldl session_step (e, t) keys.

(** No command keys: neither ctrl nor alt is down or pressed. *)
Definition no_commands (e : edit) (keys : list Z) : Prop :=
  e_ctrl e = false /\ e_alt e = false /\ CTRL_MAKE ∉ keys /\ ALT ∉ keys.

Lemma classify_enter key : classify key = Enter <-> key = ENTER.
Proof. unfold classify. split; [by repeat case_decide|by intros ->]. Qed.

Lemma no_commands_step e key keys : no_commands e (key :: keys) ->
  plain_key e key /\ no_commands (edit_step key e) keys.
Proof.
  unfold no_commands. rewrite !not_elem_of_cons. intros (Hc & Ha & [Nc Nc'] & [Na Na']).
  split; [split; congruence|].
  assert (E : e_ctrl (edit_step key e) = false /\ e_alt (edit_step key e) = false).
  { unfold edit_step, classify. repeat case_decide; done. }
  tauto.
Qed.

Lemma ready_step e key : key <> ENTER -> e_ready (edit_step key e) = e_ready e.
Proof.
  intros H. rewrite <- classify_enter in H. unfold edit_step. destruct (classify key); try done. by case_decide.
Qed.

(** ** Waiting for a variable *)
Lemma wait_ready ready arriving k : ready k = true -> wait_until ready arriving k = Ok (Returned tt, k).
Proof.
  intros H. destruct arriving; simpl; unfold poll;
    rewrite (kbind_eq _ _ _ _ _ (gets_ok ready k)), H; done.
Qed.

Lemma kwp_wait_step ready i arriving (Q : unit -> kernel -> Prop) J k : ready k = false ->
  kwp (deliver i) (fun _ => kwp (wait_until ready arriving) Q J) J k ->
  kwp (wait_until ready (i :: arriving)) Q J k.
Proof.
  intros H Hd. simpl. unfold poll. apply kwp_bind, kwp_gets. rewrite H. by apply kwp_bind.
Qed.

Definition line_ready (k : kernel) : bool := bool_decide (kbdr_flag (kbd k) = 1).

Lemma line_ready_flag k e : kbd_rep k e -> line_ready k = e_ready e.
Proof. intros []. unfold line_ready. rewrite kr_ready. by destruct (e_ready e). Qed.

Lemma wait_line_ok arriving : forall k e keys rest, idle k e -> e_ready e = false ->
  typed_in k arriving = keys ++ ENTER :: rest -> ENTER ∉ keys -> no_commands e keys ->
  kwp (wait_until line_ready arriving) (fun _ k' => exists e',
    idle k' e' /\ quiet k k' /\ session (keys ++ [ENTER]) e (view (lib k)) = (e', view (lib k'))) nojump k.
Proof.
  induction arriving as [|i arriving IH]; intros k e keys rest Hi Hr Ht Hk Hc.
  { unfold typed_in in Ht. simpl in Ht. by destruct keys. }
  apply kwp_wait_step; [by rewrite (line_ready_flag _ _ (id_rep _ _ Hi))|].
  unfold typed_in in Ht. destruct i as [|j|]; simpl in Ht.
  - eapply kwp_mono; [by apply (deliver_ok Timer)| |done]. intros _ k' [A V N P _ R]. simpl in *.
    rewrite <- V. eapply kwp_mono; [eapply (IH k' e keys rest); try done| |done].
    + unfold typed_in. rewrite N, P. by rewrite Nat.add_0_r.
    + intros _ k2 (e' & H1 & H2 & H3). exists e'. split; [done|]. split; [by etransitivity|done].
  - destruct keys as [|key keys]; simplify_eq/=.
    + eapply kwp_mono; [eapply (deliver_ok (Key j)); [done|]| |done].
      { intros. destruct Hc as (H1 & H2 & _). split; congruence. }
      intros _ k' [A V N P _ R]. unfold kwp. rewrite wait_ready.
      * simpl. unfold scancode in *. exists (edit_step ENTER e). rewrite H in *. split; [done|].
        split; [done|]. unfold session, session_step. simpl. by rewrite V.
      * rewrite (line_ready_flag _ _ (id_rep _ _ A)). unfold scancode. by rewrite H.
    + apply not_elem_of_cons in Hk as [Hne Hk]. destruct (no_commands_step _ _ _ Hc) as [Hp Hc'].
      eapply kwp_mono; [eapply (deliver_ok (Key j)); [done|done]| |done].
      intros _ k' [A V N P _ R]. change (u8 _) with (scancode k) in *. simpl in A, V.
      eapply kwp_mono; [eapply (IH k' _ keys rest A); try done| |done].
      * rewrite ready_step; [done|congruence].
      * unfold typed_in. rewrite N, P. simpl. by rewrite Nat.add_1_r.
      * intros _ k2 (e' & H1 & H2 & H3). exists e'. split; [done|]. split; [by etransitivity|].
        rewrite <- H3, V. done.
  - eapply kwp_mono; [by apply (deliver_ok Clock)| |done]. intros _ k' [A V N P _ R]. simpl in *.
    rewrite <- V. eapply kwp_mono; [eapply (IH k' e keys rest); try done| |done].
    + unfold typed_in. rewrite N, P. by rewrite Nat.add_1_r.
    + intros _ k2 (e' & H1 & H2 & H3). exists e'. split; [done|]. split; [by etransitivity|done].
Qed.

(** * The line the reader gets *)

Section retrieve.
Variables (row buf : list Z) (nbytes : Z).
Hypothesis (Hrow : length row = 128%nat) (Hz : 0 ∈ row) (Hn : 0 <= nbytes <= zlen buf).

(** Leading spaces are skipped, at most [nbytes] of them. *)
Definition line_start : nat := Nat.min (spaces row) (Z.to_nat nbytes).
Definition line_text : list Z := cstr (drop line_start row).

Lemma line_start_bound : (line_start <= spaces row /\ spaces row < 128)%nat.
Proof using All.
  pose proof (spaces_cstr row Hz). pose proof (length_cstr_lt row Hz). unfold line_start. lia.
Qed.

Lemma skip_spaces_ok : skip_spaces row nbytes = Ok (Z.of_nat line_start).
Proof using All.
  destruct line_start_bound as [Hs Hb]. apply wp_eq. unfold skip_spaces, TERM_BUFF_SIZE.
  apply (wp_loop (fun i => 0 <= i <= Z.of_nat line_start) (fun i => Z.to_nat (128 - i))); [lia|lia|].
  intros i Hi. unfold line_start in *. wp_step. rewrite rd_ok by lia. wp_step.
  destruct_decide (decide (i < Z.of_nat (line_start))) as Hd; unfold line_start in Hd.
  - rewrite decide_True; [simpl; lia|]. rewrite (spaces_at row i) by lia. lia.
  - rewrite decide_False; [simpl; lia|]. intros (E & H1 & H2).
    assert (i = Z.of_nat (spaces row)) as -> by lia. by apply (spaces_stop row); [lia|].
Qed.

Lemma zero_in_rest : 0 ∈ drop line_start row.
Proof using All.
  apply nul_drop; [done|]. pose proof (spaces_cstr row Hz). destruct line_start_bound. lia.
Qed.

Lemma line_text_length : zlen line_text < 128 - Z.of_nat line_start.
Proof using All.
  pose proof (length_cstr_lt _ zero_in_rest) as H. rewrite length_drop in H. unfold line_text. lia.
Qed.

Lemma rest_at j : 0 <= j < zlen line_text -> at_ row (Z.of_nat line_start + j) = at_ line_text j /\ at_ line_text j <> 0.
Proof using All.
  intros Hj. unfold line_text in *. split.
  - rewrite (cstr_prefix (drop line_start row)), at_take, at_drop by lia. f_equal; lia.
  - pose proof (cstr_nonzero (drop line_start row) j Hj) as H.
    by rewrite (cstr_prefix (drop line_start row)), at_take by lia.
Qed.
Lemma rest_nul : at_ row (Z.of_nat line_start + zlen line_text) = 0.
Proof using All.
  pose proof (cstr_nul _ zero_in_rest) as H. rewrite at_drop in H by lia.
  rewrite <- H. unfold line_text. f_equal; lia.
Qed.

Lemma retrieve_line_ok :
  retrieve_line row (Z.of_nat line_start) buf nbytes =
  Ok (if decide (zlen line_text < nbytes) then (zlen line_text, over (line_text ++ [0]) buf)
      else (nbytes, over (take (Z.to_nat nbytes) line_text) buf)).
Proof using All.
  pose proof line_text_length as HL. apply wp_eq. unfold retrieve_line, TERM_BUFF_SIZE.
  apply (wp_loop (fun '(i, c, b) => i = Z.of_nat line_start + c /\ 0 <= c <= zlen line_text /\ c <= nbytes /\
      b = over (take (Z.to_nat c) line_text) buf) (fun '(_, c, _) => Z.to_nat (128 - c)));
    [repeat split; lia || done|lia|].
  intros [[i c] b] (-> & Hc & Hcn & ->). wp_step.
  - wp_step. rewrite rd_ok by lia. wp_step. wp_step.
    assert (Hlo : length (over (take (Z.to_nat c) line_text) buf) = length buf)
      by (apply length_over; rewrite length_take; lia).
    rewrite wr_ok by (rewrite Hlo; lia). wp_step.
    assert (Hupd : forall v, upd (over (take (Z.to_nat c) line_text) buf) c v
               = over (take (Z.to_nat c) line_text ++ [v]) buf).
    { intros v. rewrite <- upd_over by (rewrite length_take; lia). f_equal. rewrite length_take. lia. }
    rewrite Hupd. destruct_decide (decide (c = zlen line_text)) as Hend.
    + subst c. rewrite rest_nul. wp_step; [|done]. wp_step.
      rewrite decide_True by lia. by rewrite take_ge by lia.
    + destruct (rest_at c) as [-> Hne]; [lia|]. rewrite decide_False by done. wp_step.
      split; [|lia]. split; [lia|]. split; [lia|]. split; [lia|].
      by rewrite take_snoc by lia.
  - wp_step. assert (c = nbytes) as -> by lia. by rewrite decide_False by lia.
Qed.
End retrieve.

(** What a reader sees of a line: no leading spaces, up to the first NUL. *)
Definition stripped (line : list Z) : list Z := cstr (drop (spaces line) line).

Lemma spaces_app_nul l t : spaces (l ++ 0 :: t) = spaces l.
Proof. induction l as [|c l IH]; simpl; [done|]. case_decide; [by rewrite IH|done]. Qed.
Lemma spaces_le l : (spaces l <= length l)%nat.
Proof. induction l as [|c l IH]; simpl; [lia|]. case_decide; lia. Qed.
Lemma cstr_app_nul l t : cstr (l ++ 0 :: t) = cstr l.
Proof. induction l as [|c l IH]; simpl; [done|]. case_decide; [done|by rewrite IH]. Qed.

Lemma row_app l : zlen l <= 127 -> exists t, row_of_line l = l ++ 0 :: t.
Proof.
  intros Hl. unfold row_of_line, over. rewrite drop_replicate.
  replace (128 - length l)%nat with (Datatypes.S (127 - length l)) by lia. simpl. by eexists.
Qed.

Lemma line_text_row l nbytes : zlen l <= 127 -> 128 <= nbytes ->
  line_text (row_of_line l) nbytes = stripped l.
Proof.
  intros Hl Hn. destruct (row_app l Hl) as [t ->]. unfold line_text, line_start, stripped.
  rewrite spaces_app_nul. pose proof (spaces_le l). rewrite Nat.min_l by lia.
  by rewrite drop_app_le, cstr_app_nul by lia.
Qed.

Lemma terminal_retrieve_ok k e buf nbytes : kbd_rep k e -> 128 <= nbytes <= zlen buf ->
  terminal_retrieve buf nbytes k =
  Ok (Returned (zlen (stripped (e_saved e)), over (stripped (e_saved e) ++ [0]) buf), k).
Proof.
  intros R Hn. pose proof R as []. unfold MAX_TERMINAL in *.
  assert (Hrow : length (row_of_line (e_saved e)) = 128%nat) by by apply row_of_line_length.
  assert (Hz : 0 ∈ row_of_line (e_saved e)).
  { destruct (row_app (e_saved e)) as [t ->]; [done|]. rewrite elem_of_app, elem_of_cons. auto. }
  unfold terminal_retrieve, curr_term.
  kstep (gets_ok (fun k => curr_terminal (lib k)) k). kstep (gets_ok save_buff k).
  kstep (lift_ok _ _ k (rd_ok (save_buff k) (curr_terminal (lib k)) ltac:(lia))). rewrite kr_save.
  kstep (lift_ok _ _ k (skip_spaces_ok _ buf nbytes Hrow Hz ltac:(lia))).
  rewrite (lift_ok _ _ k (retrieve_line_ok _ buf nbytes Hrow Hz ltac:(lia))).
  rewrite line_text_row by lia.
  assert (zlen (stripped (e_saved e)) <= 127).
  { unfold stripped. pose proof (length_cstr (drop (spaces (e_saved e)) (e_saved e))) as H.
    rewrite length_drop in H. lia. }
  by rewrite decide_True by lia.
Qed.

(** ** The test for "exit" *)
Definition is_exit (line : list Z) : bool := bool_decide (take 4 line = chars "exit").

Lemma same_exit line buf : 0 ∉ line ->
  same_prefix EXIT_LEN (over (line ++ [0]) buf) (lit "exit") <-> take 4 line = chars "exit".
Proof.
  intros H0. assert (Hat : forall j, 0 <= j <= zlen line ->
    at_ (over (line ++ [0]) buf) j = if decide (j < zlen line) then at_ line j else 0).
  { intros j Hj. rewrite at_over, length_app by lia. simpl. rewrite decide_True by lia.
    rewrite at_app by lia. case_decide; [done|]. by replace (j - zlen line) with 0 by lia. }
  assert (Hne : forall j, 0 <= j < zlen line -> at_ line j <> 0).
  { intros j Hj E. apply H0. rewrite <- E. apply list_elem_of_lookup_total_2. lia. }
  split.
  - intros S. unfold same_prefix, EXIT_LEN in S.
    assert (Hp : forall j, 0 <= j <= 4 -> j <= zlen line -> forall i, 0 <= i < j -> at_ (over (line ++ [0]) buf) i <> 0).
    { intros j Hj Hl i Hi. rewrite Hat, decide_True by lia. apply Hne. lia. }
    assert (Hlen : 4 <= zlen line).
    { destruct (decide (4 <= zlen line)); [done|]. exfalso.
      pose proof (S (zlen line) ltac:(lia) (Hp (zlen line) ltac:(lia) ltac:(lia))) as E.
      rewrite Hat, decide_False in E by lia.
      assert (zlen line = 0 \/ zlen line = 1 \/ zlen line = 2 \/ zlen line = 3) as Hc by lia.
      by destruct Hc as [Hc|[Hc|[Hc|Hc]]]; rewrite Hc in E. }
    apply at_ext; [rewrite length_take; change (length (chars "exit")) with 4%nat; lia|]. intros j Hj. rewrite length_take in Hj.
    rewrite at_take by lia. pose proof (S j ltac:(lia) (Hp j ltac:(lia) ltac:(lia))) as E.
    rewrite Hat, decide_True in E by lia. rewrite E.
    change (lit "exit") with (chars "exit" ++ [0]). rewrite at_app by lia. change (zlen (chars "exit")) with 4. by rewrite decide_True by lia.
  - intros E j Hj _. unfold EXIT_LEN in Hj. assert (Hlen : 4 <= zlen line).
    { apply (f_equal length) in E. rewrite length_take in E. change (length (chars "exit")) with 4%nat in E. lia. }
    rewrite Hat, decide_True by lia. change (lit "exit") with (chars "exit" ++ [0]).
    rewrite at_app by lia. change (zlen (chars "exit")) with 4. rewrite decide_True by lia.
    rewrite <- E. by rewrite at_take by lia.
Qed.

(** ** Lines are bytes *)
Lemma key_char_byte e key : 0 <= key < TOTAL_SCANCODES -> byte (key_char e key).
Proof.
  revert key. unfold key_char. generalize (e_shift e) (e_caps e). intros shift caps.
  assert (H : Forall (Forall byte) kbd_ascii_key_map).
  { apply (bool_decide_unpack _). by vm_compute. }
  intros key Hk. assert (Hm : 0 <= mode_of shift caps < 4) by by destruct shift, caps.
  apply (Forall_at (Forall byte) _ _ H) in Hm. apply (Forall_at byte _ _ Hm).
  by destruct shift, caps.
Qed.

Lemma classify_char key : classify key = Char -> 0 <= key < TOTAL_SCANCODES.
Proof.
  unfold classify, ABC_LOW_SCANS, ABC_HIGH_SCANS, TOTAL_SCANCODES. repeat case_decide; try done. lia.
Qed.

Definition edit_bytes (e : edit) : Prop := Forall byte (e_line e) /\ Forall byte (e_saved e).

Lemma edit_bytes_step key e : edit_bytes e -> edit_bytes (edit_step key e).
Proof.
  intros [Hl Hs]. unfold edit_step. destruct (classify key) eqn:C; try done.
  - split; [by apply Forall_take|done].
  - case_decide; [|done]. split; [|done]. apply Forall_app. split; [done|].
    apply Forall_singleton, key_char_byte. by apply classify_char.
Qed.

Lemma session_app keys1 keys2 e t :
  session (keys1 ++ keys2) e t = session keys2 (session keys1 e t).1 (session keys1 e t).2.
Proof. unfold session. rewrite foldl_app. by destruct (foldl _ _ keys1). Qed.

Lemma edit_bytes_session keys e t : edit_bytes e -> edit_bytes (session keys e t).1.
Proof.
  revert e t. induction keys as [|key keys IH]; intros e t H; [done|].
  apply (IH (edit_step key e)). by apply edit_bytes_step.
Qed.

Lemma stripped_bytes l : Forall byte l -> Forall byte (stripped l).
Proof. intros H. unfold stripped. rewrite cstr_prefix. by apply Forall_take, Forall_drop. Qed.
Lemma stripped_no_nul l : 0 ∉ stripped l.
Proof. apply cstr_idem. Qed.
Lemma stripped_short l : zlen l <= 127 -> zlen (stripped l) <= 127.
Proof.
  intros. unfold stripped. pose proof (length_cstr (drop (spaces l) l)) as H'. rewrite length_drop in H'. lia.
Qed.

(** ** keyboard_read *)
Definition unready (e : edit) : edit :=
  mkEdit (e_shift e) (e_caps e) (e_ctrl e) (e_alt e) (e_line e) (e_saved e) false.

Lemma idle_unready k e : idle k e -> idle (with_kbd (kb_ready 0 (kbd k)) k) (unready e).
Proof. intros [[] W I M]. by constructor. Qed.

(** The line and its end, as the reader's buffer gets them. *)
Definition line_read (line : list Z) : list Z := line ++ [if is_exit line then 0 else 10].
Definition count_read (line : list Z) : Z := if is_exit line then zlen line else zlen line + 1.

Lemma keyboard_read_session k e arriving keys rest buf nbytes e' t' :
  idle k e -> edit_bytes e -> typed_in k arriving = keys ++ ENTER :: rest -> ENTER ∉ keys ->
  no_commands e keys -> Forall byte buf -> 128 <= nbytes <= zlen buf -> zlen buf < 2 ^ 31 ->
  session (keys ++ [ENTER]) (unready e) (view (lib k)) = (e', t') ->
  let line := stripped (e_saved e') in
  kwp (keyboard_read arriving (Some buf) nbytes) (fun '(n, b) k' =>
    n = count_read line /\ b = Some (over (line_read line) buf) /\ (Forall byte line /\ 0 ∉ line /\ zlen line <= 127) /\
    idle k' e' /\ edit_bytes e' /\ quiet k k' /\ view (lib k') = t') nojump k.
Proof.
  intros Hi Hb Ht Hk Hc Bb Hn Hl Es line. pose proof (idle_unready k e Hi) as Hi0.
  unfold keyboard_read. kwp_step. unfold set_kbd. kwp_step.
  set (k0 := with_kbd _ k) in *. kwp_step. change (fun k => bool_decide _) with line_ready.
  eapply kwp_mono; [by apply (wait_line_ok arriving k0 (unready e) keys rest Hi0)| |done].
  intros _ k1 (e1 & H1 & Q1 & E1). change (view (lib k0)) with (view (lib k)) in E1.
  rewrite Es in E1. simplify_eq.
  assert (Be : edit_bytes e1).
  { pose proof (edit_bytes_session (keys ++ [ENTER]) (unready e) (view (lib k)) Hb) as B. by rewrite Es in B. }
  assert (Bl : Forall byte line /\ 0 ∉ line /\ zlen line <= 127)
    by (split; [by apply stripped_bytes, Be|split; [apply stripped_no_nul|apply stripped_short, H1]]).
  pose proof Bl as (Bl' & Zl & Ll).
  kwp_step. eapply kwp_eq; [by apply (terminal_retrieve_ok _ _ _ _ (id_rep _ _ H1))|]. fold line. cbv beta iota.
  assert (Hlo : length (over (line ++ [0]) buf) = length buf)
    by (apply length_over; rewrite length_app; simpl; lia).
  kwp_step. kwp_step. eapply wp_mono; [apply strncmp_spec|].
  - unfold over. apply Forall_app. split; [by apply Forall_app; split; [|apply Forall_singleton]|by apply Forall_drop].
  - apply (bool_decide_unpack _). by vm_compute.
  - by rewrite Hlo.
  - left. unfold over. rewrite !elem_of_app, elem_of_cons. auto.
  - by right.
  - done.
  - intros r Hr. cbv beta in Hr |- *. rewrite (same_exit line buf Zl) in Hr.
    assert (Hq : quiet k k1) by (etransitivity; [|exact Q1]; constructor; [by destruct k|done|done|reflexivity]).
    unfold count_read, line_read, is_exit.
    destruct_decide (decide (r = 0)) as Hr0.
    + rewrite decide_False by tauto. kwp_step. by rewrite bool_decide_eq_true_2 by tauto.
    + rewrite decide_True by tauto. kwp_step. kwp_step. rewrite wr_ok by lia. kwp_step. kwp_step.
      rewrite !bool_decide_eq_false_2 by tauto. split; [done|]. split; [|done]. f_equal.
      apply at_ext; [rewrite length_upd, !length_over; rewrite ?length_app; simpl; lia|].
      intros j Hj. rewrite length_upd, Hlo in Hj. rewrite at_upd by lia.
      rewrite !at_over, !length_app, !at_app by lia. simpl.
      repeat case_decide; subst; try lia; try done.
      * by rewrite Z.sub_diag.
Qed.

(** C20: keyboard_read with room for at least 128 bytes waits through any
    sequence of timer, clock and keyboard interrupts whose keys are no command
    keys (neither ctrl nor alt is down or pressed) until enter is typed and
    then gives the reader the line as edited (shift, caps lock and backspace
    applied), leading blanks stripped, with its newline (or the NUL the exit
    command gets), changing nothing but the keyboard, the clock and the
    console. *)
Lemma keyboard_read_ok k e arriving keys rest buf nbytes :
  idle k e -> edit_bytes e -> typed_in k arriving = keys ++ ENTER :: rest -> ENTER ∉ keys ->
  no_commands e keys -> Forall byte buf -> 128 <= nbytes <= zlen buf -> zlen buf < 2 ^ 31 ->
  let '(e', t') := session (keys ++ [ENTER]) (unready e) (view (lib k)) in
  let line := stripped (e_saved e') in
  kwp (keyboard_read arriving (Some buf) nbytes) (fun '(n, b) k' =>
    n = count_read line /\ b = Some (over (line_read line) buf) /\
    idle k' e' /\ quiet k k' /\ view (lib k') = t') nojump k.
Proof.
  intros Hi Hb Ht Hk Hc Bb Hn Hl. destruct (session _ _ _) as [e' t'] eqn:Es. intros line.
  eapply kwp_mono; [by apply (keyboard_read_session k e arriving keys rest buf nbytes e' t')| |done].
  intros [n b] k' (H1 & H2 & _ & H3 & _ & H4 & H5). done.
Qed.

(** * A tick of the clock *)
Definition ticked (k : kernel) : bool := bool_decide (interrupt_flag (rtc k) <> 0).

(** The interrupts answered before the first tick. *)
Lemma wait_tick_ok arriving : forall k e, idle k e -> interrupt_flag (rtc k) = 0 ->
  no_commands e (typed_in k arriving) -> Clock ∈ arriving ->
  kwp (wait_until ticked arriving) (fun _ k' => exists e', idle k' e' /\ quiet k k' /\
    interrupt_flag (rtc k') = 1) nojump k.
Proof.
  induction arriving as [|i arriving IH]; intros k e Hi Hf Hc Hin; [by apply not_elem_of_nil in Hin|].
  unfold typed_in in Hc. apply kwp_wait_step; [unfold ticked; by rewrite Hf|].
  apply elem_of_cons in Hin. destruct i as [|j|]; simpl in Hc.
  - eapply kwp_mono; [by apply (deliver_ok Timer)| |done]. intros _ k' [A V N P F R]. simpl in *.
    eapply kwp_mono; [apply (IH k' e A)| |done].
    + congruence.
    + unfold typed_in. rewrite N, P. by rewrite Nat.add_0_r.
    + by destruct Hin as [Hin|Hin].
    + intros _ k2 (e' & H1 & H2 & H3). exists e'. split; [done|]. split; [by etransitivity|done].
  - destruct (no_commands_step _ _ _ Hc) as [Hp Hc'].
    eapply kwp_mono; [by apply (deliver_ok (Key j))| |done]. intros _ k' [A V N P F R]. simpl in *.
    eapply kwp_mono; [apply (IH k' _ A)| |done].
    + congruence.
    + unfold typed_in. rewrite N, P. by rewrite Nat.add_1_r.
    + by destruct Hin as [Hin|Hin].
    + intros _ k2 (e' & H1 & H2 & H3). exists e'. split; [done|]. split; [by etransitivity|done].
  - eapply kwp_mono; [by apply (deliver_ok Clock)| |done]. intros _ k' [A V N P F R]. simpl in *.
    unfold kwp. rewrite wait_ready by (unfold ticked; by rewrite F). simpl. by exists e.
Qed.

(** C24: rtc_read returns 0 once a clock interrupt is among the arriving
    interrupts, whatever timer and keyboard interrupts come before it as long
    as no command keys (ctrl or alt) are typed, and leaves the kernel ready
    for more input. *)
Lemma rtc_read_ok k e arriving : idle k e -> no_commands e (typed_in k arriving) -> Clock ∈ arriving ->
  kwp (rtc_read arriving) (fun r k' => r = 0 /\ interrupt_flag (rtc k') = 1 /\ quiet k k' /\
    exists e', idle k' e') nojump k.
Proof.
  intros Hi Hc Hin. unfold rtc_read. kwp_step. unfold set_rtc. kwp_step. kwp_step.
  eapply kwp_mono; [eapply (wait_tick_ok arriving (with_rtc (set_interrupt_flag 0 (rtc k)) k) e)| |done]; try done.
  - destruct Hi as [[] [] ? ?]. constructor; [by constructor|by constructor|done|done].
  - intros _ k' (e' & H1 & H2 & H3). kwp_step. split; [done|]. split; [done|].
    split; [etransitivity; [|exact H2]; constructor; [by destruct k|done|done|reflexivity]|by exists e'].
Qed.

(** Without a tick the loop goes on. *)
Lemma wait_no_tick arriving : forall k e, idle k e -> interrupt_flag (rtc k) = 0 ->
  no_commands e (typed_in k arriving) -> Clock ∉ arriving -> wait_until ticked arriving k = NoFuel.
Proof.
  induction arriving as [|i arriving IH]; intros k e Hi Hf Hc Hin; simpl; unfold poll;
    rewrite (kbind_eq _ _ _ _ _ (gets_ok ticked k)); unfold ticked at 1; rewrite Hf; [done|].
  apply not_elem_of_cons in Hin as [Hne Hin]. simpl.
  assert (Hp : forall j, i = Key j -> plain_key e (scancode k)).
  { intros j ->. unfold typed_in in Hc. simpl in Hc. by destruct (no_commands_step _ _ _ Hc). }
  pose proof (deliver_ok i k e Hi Hp) as Hd. unfold kwp in Hd. unfold mbind, K_bind.
  destruct (deliver i k) as [[[[]|t] k']| |]; try done. destruct Hd as [A V N P F R].
  eapply (IH k'); [exact A|destruct i; try done; congruence| |done].
  unfold typed_in in *. rewrite N, P. destruct i; simpl in *; rewrite ?Nat.add_0_r, ?Nat.add_1_r; try done.
  by destruct (no_commands_step _ _ _ Hc).
Qed.

(** C25: rtc_read waits for a tick of its own: whatever the tick flag was
    before the call, when the timer and keyboard interrupts that arrive
    include no clock interrupt and no command keys (ctrl or alt), it has not
    returned after all of them. *)
Theorem rtc_read_waits k e arriving : idle k e -> no_commands e (typed_in k arriving) -> Clock ∉ arriving ->
  rtc_read arriving k = NoFuel.
Proof.
  intros Hi Hc Hin. unfold rtc_read, set_rtc.
  rewrite (kbind_eq _ _ _ _ _ (modify_ok _ k)).
  change (fun k0 : kernel => bool_decide (interrupt_flag (rtc k0) <> 0)) with ticked.
  unfold mbind at 1, K_bind at 1. rewrite (wait_no_tick arriving _ e); try done.
  destruct Hi as [[] [] ? ?]. constructor; [by constructor|by constructor|done|done].
Qed.
