(* ===== verification/Syscall.v ===== *)
(** The system calls of [student-distrib/syscall.c] over the jump tables, the
    dispatcher of [wrapper.S], and the exception handler of [exceptions.c].

    A pointer argument is the array it points to ([None] is NULL); vidmap,
    which checks and stores through its pointer, takes the address. *)

From S2P Require Import Prelude Hardware CLib Screen Printf FileSystem Paging Rtc Kernel.
From S2P Require Import FdTable Drivers Process Testcases Keyboard Waiting.

(** * Calls through a descriptor's jump table *)

(** What the callees find: uninitialised locals, the memory after the
    frequency table, the interrupts that arrive while they wait. *)
Record surroundings : Type := mkSurr {
  s_dentry : dentry_t;        (* open's dentry *)
  s_my_dentry : dentry_t;     (* file_open's my_dentry *)
  s_beyond : Z -> Z;
  s_arriving : list irq;
}.

(** [fd_table[fd].fd_jump->op]: a NULL table or a NULL entry faults. *)
Definition jump_through (op : fd_op_table_t -> option driver) (fd : Z) : K driver :=
  d ← curr_fd fd;
  match fd_jump d with
  | None => fault
  | Some t => o ← gets ops; match op (o t) with None => fault | Some d => mret d end
  end.

Definition driver_read (s : surroundings) (d : driver) (fd : Z) (buf : list Z) (nbytes : Z)
    : K (Z * option (list Z)) :=
  match d with
  | rtc_driver => r ← rtc_read (s_arriving s); mret (r, Some buf)
  | file_driver => '(r, buf) ← file_read fd buf nbytes; mret (r, Some buf)
  | dir_driver => '(r, buf) ← dir_read fd buf nbytes; mret (r, Some buf)
  | kybd_driver => keyboard_read (s_arriving s) (Some buf) nbytes
  | term_driver => r ← terminal_read (Some buf) nbytes; mret (r, Some buf)
  end.
Definition driver_write (s : surroundings) (d : driver) (fd : Z) (buf : list Z) (nbytes : Z) : K Z :=
  match d with
  | rtc_driver => rtc_write (s_beyond s) buf
  | file_driver => file_write fd
  | dir_driver => dir_write fd
  | kybd_driver => keyboard_write fd
  | term_driver => terminal_write (Some buf) nbytes
  end.
Definition driver_open (s : surroundings) (d : driver) (filename : list Z) : K Z :=
  match d with
  | rtc_driver => rtc_open (s_beyond s)
  | file_driver => file_open (s_my_dentry s) filename
  | dir_driver => dir_open
  | kybd_driver => keyboard_open
  | term_driver => terminal_open
  end.
Definition driver_close (d : driver) (fd : Z) : K Z :=
  match d with
  | rtc_driver => rtc_close fd
  | file_driver => file_close fd
  | dir_driver => dir_close fd
  | kybd_driver => keyboard_close fd
  | term_driver => terminal_close fd
  end.

(** ** syscall.c: read *)
Definition read (s : surroundings) (fd : Z) (buf : option (list Z)) (nbytes : Z)
    : K (Z * option (list Z)) :=
  valid ← check_valid_fd fd;
  if decide (valid = 0) then
    _ ← kprintf (litln "Invalid FD, sys_read") []; mret (-1, buf)
  else match buf with
  | None => mret (-1, None)
  | Some b => d ← jump_through op_read fd; driver_read s d fd b nbytes
  end.

(** ** syscall.c: write *)
Definition write (s : surroundings) (fd : Z) (buf : option (list Z)) (nbytes : Z) : K Z :=
  valid ← check_valid_fd fd;
  if decide (valid = 0) then
    _ ← kprintf (litln "Invalid FD, sys_write") []; mret (-1)
  else match buf with
  | None => mret (-1)
  | Some b => d ← jump_through op_write fd; driver_write s d fd b nbytes
  end.

(** ** syscall.c: open *)
Definition open_with (s : surroundings) (t : ops_table) (filename : list Z) : K Z :=
  o ← gets ops;
  match op_open (o t) with None => fault | Some d => driver_open s d filename end.

Definition open (s : surroundings) (filename : option (list Z)) : K Z :=
  match filename with
  | None => _ ← kprintf (litln "invalid pointer, sys_open") []; mret (-1)
  | Some filename =>
      f ← gets fs;
      '(r, dentry) ← lift (read_dentry_by_name f filename (s_dentry s));
      if decide (r = -1) then mret (-1) else
      if decide (file_type dentry = 0) then open_with s rtc_ops_table filename
      else if decide (file_type dentry = 1) then open_with s dir_ops_table filename
      else open_with s filesys_ops_table filename
  end.

(** ** syscall.c: close *)
Definition close (fd : Z) : K Z :=
  valid ← check_valid_fd fd;
  if decide (valid = 0) then
    _ ← kprintf (litln "Invalid FD, sys_close") []; mret (-1)
  else d ← jump_through op_close fd; driver_close d fd.

(** * The other calls *)

(** ** syscall.c: getargs

    [nbytes] is compared as an unsigned number; [backwards] wraps below 0. *)
Definition clean_args (buf : list Z) (nbytes : Z) : outcome (list Z) :=
  loop (Datatypes.S (length buf)) (fun '(clean, buf) =>
    if decide (clean < nbytes) then buf ← wr buf clean 0; mret (inl (clean + 1, buf))
    else mret (inr buf)) (0, buf).
Definition copy_args (args buf : list Z) (nbytes : Z) : outcome (Z * list Z) :=
  loop 129 (fun '(i, buf) =>
    if decide (i < nbytes /\ i < TERM_BUFF_SIZE) then
      c ← rd args i; buf ← wr buf i c; mret (inl (i + 1, buf))
    else mret (inr (i, buf))) (0, buf).
Definition trim_args (buf : list Z) (nbytes : Z) : outcome (list Z) :=
  loop (Datatypes.S (length buf)) (fun '(backwards, buf) =>
    c ← rd buf backwards;
    if decide (c = 32 \/ c = 0) then
      buf ← wr buf backwards 0; mret (inl (u32 (backwards - 1), buf))
    else mret (inr buf)) (u32 (nbytes - 1), buf).

Definition getargs (buf : option (list Z)) (nbytes : Z) : K (Z * option (list Z)) :=
  match buf with
  | None => mret (-1, None)
  | Some buf =>
      let n := u32 nbytes in
      buf ← lift (clean_args buf n);
      '(_, p) ← curr_pcb;
      '(i, buf) ← lift (copy_args (args p) buf n);
      if decide (i = n) then mret (-1, Some buf) else
      buf ← lift (trim_args buf n);
      c ← lift (rd buf 0);
      mret (if decide (c = 0) then -1 else 0, Some buf)
  end.

(** ** syscall.c: vidmap *)
Definition store_word (v w : Z) : K unit :=
  a ← program_phys v 4;
  on_lib (fun s => set_mem (store_bytes a (word_bytes (u32 w)) (lib_mem s)) s).
Definition load_word (v : Z) : K Z :=
  a ← program_phys v 4;
  m ← gets (fun k => lib_mem (lib k));
  lift (word_of (load_bytes a 4 m)).

Definition vidmap (screen_start : Z) : K Z :=
  if decide (screen_start = 0) then
    _ ← kprintf (litln "invalid pointer, vidmap") []; mret (-1)
  else if decide (screen_start < PROGRAM_PAGE \/ screen_start >= PROGRAM_PAGE + USER_PAGE_SIZE) then
    _ ← kprintf (litln "pointer out of range, vidmap") []; mret (-1)
  else
    t ← curr_term;
    _ ← (if decide (t = 0) then store_word screen_start VIRT_VID_TERM1
         else if decide (t = 1) then store_word screen_start VIRT_VID_TERM2
         else if decide (t = 2) then store_word screen_start VIRT_VID_TERM3
         else mret tt);
    v ← load_word screen_start;
    _ ← kmap_virt_to_phys v USER_VIDEO_;
    v ← load_word screen_start;
    mret (i32 v).

(** ** syscall.c: set_handler, sigreturn, def_cmd *)
Definition set_handler (signum handler_address : Z) : K Z := mret (-1).
Definition sigreturn : K Z := mret (-1).
Definition def_cmd : K Z := mret (-1).

(** * wrapper.S: syscall_handler_wrapper *)
Inductive syscall : Type := DefCmd | Halt | Execute | Read | Write | Open | Close
  | Getargs | Vidmap | Set_handler | Sigreturn.
#[export] Instance syscall_eq_dec : EqDecision syscall.
Proof. solve_decision. Defined.

Definition dispatcher : list syscall :=
  [DefCmd; Halt; Execute; Read; Write; Open; Close; Getargs; Vidmap; Set_handler; Sigreturn].
Definition dispatch (eax : Z) : option syscall :=
  if decide (u32 eax >= 10 \/ u32 eax <= 0) then None else dispatcher !! Z.to_nat (u32 eax).

(** The registers, with what their pointers point to. *)
Record registers : Type := mkRegs {
  ebx : Z; ecx : Z; edx : Z;
  ebx_array : option (list Z);
  ecx_array : option (list Z);
}.

Definition syscall_handler (s : surroundings) (fr : frame) (eax : Z) (r : registers)
    : K (Z * option (list Z)) :=
  let value (m : K Z) : K (Z * option (list Z)) := v ← m; mret (v, None) in
  match dispatch eax with
  | None => mret (-1, None)
  | Some DefCmd => value def_cmd
  | Some Halt => value (halt fr (u8 (ebx r)))
  | Some Execute => value (execute fr (ebx_array r))
  | Some Read => read s (i32 (ebx r)) (ecx_array r) (i32 (edx r))
  | Some Write => value (write s (i32 (ebx r)) (ecx_array r) (i32 (edx r)))
  | Some Open => value (open s (ebx_array r))
  | Some Close => value (close (i32 (ebx r)))
  | Some Getargs => getargs (ebx_array r) (i32 (ecx r))
  | Some Vidmap => value (vidmap (u32 (ebx r)))
  | Some Set_handler => value (set_handler (ebx r) (ecx r))
  | Some Sigreturn => value sigreturn
  end.
