(* ===== verification/SyscallSpec.v ===== *)
(** What the system calls promise: descriptors name streams of bytes, getargs
    gives the arguments back, vidmap shows the screen to the program. *)

From S2P Require Import Prelude Hardware CLib Screen Printf FileSystem Paging Rtc MemOps.
From S2P Require Import Kernel FdTable Drivers Streams Process Lifecycle Terminals Testcases.
From S2P Require Import Keyboard Waiting Syscall.

(** The jump tables after [fops_table_init]. *)
Record ops_ready (k : kernel) : Prop := {
  or_rtc : ops k rtc_ops_table = driver_ops rtc_driver;
  or_file : ops k filesys_ops_table = driver_ops file_driver;
  or_dir : ops k dir_ops_table = driver_ops dir_driver;
  or_kybd : ops k kybd_ops_table = driver_ops kybd_driver;
  or_term : ops k term_ops_table = driver_ops term_driver;
}.

Lemma fops_table_init_ok k : exists o, fops_table_init k = Ok (Returned tt, with_ops o k) /\ ops_ready (with_ops o k).
Proof. by eexists. Qed.

Definition table_driver (t : ops_table) : driver :=
  match t with
  | rtc_ops_table => rtc_driver | filesys_ops_table => file_driver | dir_ops_table => dir_driver
  | kybd_ops_table => kybd_driver | term_ops_table => term_driver
  end.
Lemma ops_ready_driver k t : ops_ready k -> ops k t = driver_ops (table_driver t).
Proof. intros []. by destruct t. Qed.

Lemma kprintf_ok k fmt args out : con_wf (lib k) -> 0 ∈ fmt -> render None (cstr fmt) args = Some out ->
  kwp (kprintf fmt args) (fun _ => shows (t_puts out (view (lib k))) k) nojump k.
Proof.
  intros W H0 Hr. unfold kprintf. kwp_step. kwp_step. eapply wp_mono; [by apply printf_spec|].
  intros [r s'] [_ Hs]. kwp_step. by exists s'.
Qed.

(** A constant message without conversions. *)
Ltac kprint := eapply kwp_mono; [eapply kprintf_ok; [done|
    by apply (bool_decide_unpack _); vm_compute|vm_compute; reflexivity]| |done].

Section calls.
Variables (k : kernel) (i : Z) (p : pcb) (s : surroundings).
Hypothesis (R : running k i p) (Hl : length (fd_table p) = Z.to_nat MAX_OPEN_FILES)
  (Op : ops_ready k).

Lemma jump_through_ok op fd t : (forall d, op (driver_ops d) = Some d) ->
  0 <= fd < MAX_OPEN_FILES -> fd_jump (at_ (fd_table p) fd) = Some t ->
  jump_through op fd k = Ok (Returned (table_driver t), k).
Proof using All.
  intros Hop Hfd Ht. unfold jump_through. kstep (curr_fd_ok k i p R Hl fd Hfd). rewrite Ht.
  kstep (gets_ok ops k). by rewrite (ops_ready_driver k t Op), Hop.
Qed.

(** An open descriptor of the table [t]. *)
Definition open_on (fd : Z) (t : ops_table) : Prop :=
  0 <= fd < MAX_OPEN_FILES /\ flags (at_ (fd_table p) fd) = FD_ON /\
  fd_jump (at_ (fd_table p) fd) = Some t.

Lemma read_calls fd t buf n : open_on fd t ->
  read s fd (Some buf) n k = driver_read s (table_driver t) fd buf n k.
Proof using All.
  intros (Hfd & Hf & Ht). unfold read. kstep (check_valid_fd_ok k i p R Hl fd).
  rewrite (decide_True (P := 0 <= fd < _)), Hf by done. rewrite decide_False by done.
  by kstep (jump_through_ok op_read fd t (fun d => eq_refl) Hfd Ht).
Qed.
Lemma write_calls fd t buf n : open_on fd t ->
  write s fd (Some buf) n k = driver_write s (table_driver t) fd buf n k.
Proof using All.
  intros (Hfd & Hf & Ht). unfold write. kstep (check_valid_fd_ok k i p R Hl fd).
  rewrite (decide_True (P := 0 <= fd < _)), Hf by done. rewrite decide_False by done.
  by kstep (jump_through_ok op_write fd t (fun d => eq_refl) Hfd Ht).
Qed.
Lemma close_calls fd t : open_on fd t -> close fd k = driver_close (table_driver t) fd k.
Proof using All.
  intros (Hfd & Hf & Ht). unfold close. kstep (check_valid_fd_ok k i p R Hl fd).
  rewrite (decide_True (P := 0 <= fd < _)), Hf by done. rewrite decide_False by done.
  by kstep (jump_through_ok op_close fd t (fun d => eq_refl) Hfd Ht).
Qed.

(** ** Errors *)
Definition bad_fd (fd : Z) : Prop :=
  ~ (0 <= fd < MAX_OPEN_FILES) \/ flags (at_ (fd_table p) fd) = FD_OFF.

Lemma bad_fd_invalid fd : bad_fd fd ->
  (if decide (0 <= fd < MAX_OPEN_FILES) then flags (at_ (fd_table p) fd) else 0) = 0.
Proof using All. unfold FD_OFF in *. intros [H|H]; by case_decide. Qed.


(** A closed or out-of-range descriptor: a message and -1. *)
Lemma read_bad_fd fd buf n : bad_fd fd -> con_wf (lib k) ->
  kwp (read s fd buf n) (fun r k' => r = (-1, buf) /\
    shows (t_puts (chars "Invalid FD, sys_read" ++ [10]) (view (lib k))) k k') nojump k.
Proof using All.
  intros Hb W. unfold read. kwp_step. eapply kwp_eq; [by apply (check_valid_fd_ok k i p R Hl)|].
  rewrite bad_fd_invalid by done. cbv beta. rewrite decide_True by done. kwp_step. kprint.
  intros [] k' Hs. by kwp_step.
Qed.
Lemma write_bad_fd fd buf n : bad_fd fd -> con_wf (lib k) ->
  kwp (write s fd buf n) (fun r k' => r = -1 /\
    shows (t_puts (chars "Invalid FD, sys_write" ++ [10]) (view (lib k))) k k') nojump k.
Proof using All.
  intros Hb W. unfold write. kwp_step. eapply kwp_eq; [by apply (check_valid_fd_ok k i p R Hl)|].
  rewrite bad_fd_invalid by done. cbv beta. rewrite decide_True by done. kwp_step. kprint.
  intros [] k' Hs. by kwp_step.
Qed.
Lemma close_bad_fd fd : bad_fd fd -> con_wf (lib k) ->
  kwp (close fd) (fun r k' => r = -1 /\
    shows (t_puts (chars "Invalid FD, sys_close" ++ [10]) (view (lib k))) k k') nojump k.
Proof using All.
  intros Hb W. unfold close. kwp_step. eapply kwp_eq; [by apply (check_valid_fd_ok k i p R Hl)|].
  rewrite bad_fd_invalid by done. cbv beta. rewrite decide_True by done. kwp_step. kprint.
  intros [] k' Hs. by kwp_step.
Qed.

(** The terminal's own descriptors cannot be closed. *)
Lemma close_terminal fd t : open_on fd t -> t = kybd_ops_table \/ t = term_ops_table ->
  close fd k = Ok (Returned (-1), k).
Proof using All. intros Ho Ht. rewrite (close_calls fd t Ho). by destruct Ht; subst. Qed.
End calls.

(** * open *)

(** The name a program passes. *)
Record file_name_arg (f : fs_state) (filename : list Z) : Prop := {
  fa_bytes : Forall byte filename;
  fa_length : zlen (given_word filename) < zlen filename < 2 ^ 31;
  fa_nonempty : given_word filename <> [];
}.

Definition surr_wf (s : surroundings) : Prop :=
  length (file_name (s_dentry s)) = 32%nat /\ length (file_name (s_my_dentry s)) = 32%nat.

Section open.
Variables (k : kernel) (i : Z) (p : pcb) (s : surroundings) (filename : list Z).
Hypothesis (R : running k i p) (Hl : length (fd_table p) = Z.to_nat MAX_OPEN_FILES)
  (Op : ops_ready k) (Wfs : fs_wf (fs k)) (Ws : surr_wf s) (A : file_name_arg (fs k) filename).
Abbreviation name := (given_word filename).

Lemma lookup_file d : length (file_name d) = 32%nat ->
  read_dentry_by_name (fs k) filename d = Ok (
    match first_entry (fs k) name with
    | Some e => (0, filled_dentry (fs k) e d)
    | None => (-1, d)
    end).
Proof using All.
  intros Hd. destruct A as [HB HL HN]. rewrite read_dentry_by_name_spec by done. by rewrite decide_False by done.
Qed.

(** open of a name the directory does not hold returns -1 and changes
    nothing. *)
Lemma open_missing : first_entry (fs k) name = None -> open s (Some filename) k = Ok (Returned (-1), k).
Proof using All.
  intros Hn. unfold open. kstep (gets_ok fs k). destruct Ws as [Hd _].
  kstep (lift_ok _ _ k (lookup_file _ Hd)). by rewrite Hn.
Qed.

(** The driver that [open] calls depends on the type of the file alone. *)
Definition driver_of_type (t : Z) : driver :=
  if decide (t = 0) then rtc_driver else if decide (t = 1) then dir_driver else file_driver.

Lemma open_calls e : first_entry (fs k) name = Some e ->
  open s (Some filename) k = driver_open s (driver_of_type (type_of (fs k) e)) filename k.
Proof using All.
  intros Hn. unfold open. kstep (gets_ok fs k). destruct Ws as [Hd _].
  kstep (lift_ok _ _ k (lookup_file _ Hd)). rewrite Hn. rewrite decide_False by done.
  change (file_type (filled_dentry (fs k) e (s_dentry s))) with (type_of (fs k) e).
  unfold driver_of_type, open_with. destruct Op as [H1 H2 H3 _ _].
  case_decide; [|case_decide]; (kstep (gets_ok ops k)); [by rewrite H1|by rewrite H3|by rewrite H2].
Qed.

Lemma file_open_ok e j : first_entry (fs k) name = Some e -> first_free (fd_table p) = Some j ->
  driver_open s file_driver filename k = Ok (Returned j,
    put_fd i p j (mkFd (Some filesys_ops_table) (i32 (inode_of (fs k) e)) 0 FD_ON) k).
Proof using All.
  intros Hn Hj. pose proof (first_free_range _ _ Hj) as [Hr _].
  unfold driver_open, file_open. kstep (gets_ok fs k). destruct Ws as [_ Hd].
  kstep (lift_ok _ _ k (lookup_file _ Hd)). rewrite Hn.
  kstep (get_fd_index_ok k i p R Hl). rewrite Hj. cbn [default from_option].
  rewrite (decide_False (P := j = -1)) by lia.
  change (inode_idx (filled_dentry (fs k) e (s_my_dentry s))) with (inode_of (fs k) e).
  by kstep (set_fd_info_ok k i p R Hl j (mkFd (Some filesys_ops_table) (i32 (inode_of (fs k) e)) 0 FD_ON) ltac:(lia)).
Qed.

Lemma dir_open_ok j : first_free (fd_table p) = Some j ->
  driver_open s dir_driver filename k = Ok (Returned j,
    put_fd i p j (mkFd (Some dir_ops_table) (-1) 0 FD_ON) k).
Proof using All.
  intros Hj. pose proof (first_free_range _ _ Hj) as [Hr _].
  unfold driver_open, dir_open. kstep (get_fd_index_ok k i p R Hl). rewrite Hj. cbn [default from_option].
  rewrite (decide_False (P := j = -1)) by lia.
  by kstep (set_fd_info_ok k i p R Hl j (mkFd (Some dir_ops_table) (-1) 0 FD_ON) ltac:(lia)).
Qed.

(** No free descriptor. *)
Lemma file_open_full e : first_entry (fs k) name = Some e -> first_free (fd_table p) = None ->
  con_wf (lib k) ->
  kwp (driver_open s file_driver filename) (fun r k' => r = -1 /\
    shows (t_puts (chars "No Available FD, file_open" ++ [10]) (view (lib k))) k k') nojump k.
Proof using All.
  intros Hn Hj W. unfold driver_open, file_open. kwp_step. kwp_step. kwp_step. kwp_step.
  destruct Ws as [_ Hd]. rewrite (lookup_file _ Hd), Hn. kwp_step. kwp_step.
  eapply kwp_eq; [by apply (get_fd_index_ok k i p R Hl)|]. rewrite Hj. cbn [default from_option].
  rewrite decide_True by done. kwp_step. kprint. intros [] k' Hs. by kwp_step.
Qed.
End open.

(** ** A file that was opened is read from its start *)
Section opened.
Variables (k : kernel) (i : Z) (p : pcb) (j : Z) (d : fd_t).
Hypothesis (R : running k i p) (Hl : length (fd_table p) = Z.to_nat MAX_OPEN_FILES)
  (Hj : 0 <= j < MAX_OPEN_FILES).

Lemma put_fd_running : running (put_fd i p j d k) i (set_fd_table (upd (fd_table p) j d) p).
Proof using All. by eapply running_put. Qed.
Lemma put_fd_length : length (fd_table (set_fd_table (upd (fd_table p) j d) p)) = Z.to_nat MAX_OPEN_FILES.
Proof using All. simpl. by rewrite length_upd. Qed.
Lemma put_fd_at : at_ (fd_table (set_fd_table (upd (fd_table p) j d) p)) j = d.
Proof using All. simpl. apply at_upd_eq. unfold MAX_OPEN_FILES in *. lia. Qed.
Lemma put_fd_ops : ops_ready k -> ops_ready (put_fd i p j d k).
Proof using All. by intros []. Qed.
Lemma put_fd_twice d' :
  put_fd i (set_fd_table (upd (fd_table p) j d) p) j d' (put_fd i p j d k) = put_fd i p j d' k.
Proof using All.
  unfold put_fd. rewrite put_running_twice. unfold set_fd_table. simpl. by rewrite upd_upd.
Qed.
Lemma put_fd_id : d = at_ (fd_table p) j -> put_fd i p j d k = k.
Proof using All.
  intros ->. unfold put_fd. rewrite upd_id by (unfold MAX_OPEN_FILES in *; lia).
  apply put_running_id. by destruct p.
Qed.
End opened.

(** Opening a regular file and reading [n] bytes gives its first bytes. *)
(** C4: open followed by read implements a file: open of a directory entry of
    file type returns the lowest free descriptor, bound to the entry's inode
    at position 0, and read on it returns min(n, size) and the first bytes of
    the file's contents as the block list of its inode spells them, advancing
    the position by what was read. *)
Lemma open_read_ok k i p s filename e j buf n :
  running k i p -> length (fd_table p) = Z.to_nat MAX_OPEN_FILES -> ops_ready k -> fs_wf (fs k) ->
  surr_wf s -> file_name_arg (fs k) filename ->
  first_entry (fs k) (given_word filename) = Some e -> 2 <= type_of (fs k) e ->
  0 <= inode_of (fs k) e < num_inodes (fs k) -> inode_of (fs k) e < 2 ^ 31 ->
  first_free (fd_table p) = Some j -> 0 < n <= zlen buf -> zlen buf < 2 ^ 31 ->
  let c := contents (fs k) (inode_of (fs k) e) in
  let d pos := mkFd (Some filesys_ops_table) (inode_of (fs k) e) pos FD_ON in
  open s (Some filename) k = Ok (Returned j, put_fd i p j (d 0) k) /\
  read s j (Some buf) n (put_fd i p j (d 0) k) =
    Ok (Returned (Z.min n (zlen c), Some (over (take (Z.to_nat n) c) buf)),
        put_fd i p j (d (Z.min n (zlen c))) k).
Proof.
  intros R Hl Op Wfs Ws A He Ht Hino Hi32 Hj Hn Hb c d.
  pose proof (first_free_range _ _ Hj) as [Hr _].
  assert (Hc : zlen c = size_of (fs k) (inode_of (fs k) e)).
  { unfold c. rewrite contents_length. pose proof (size_bound (fs k) _ Wfs Hino). lia. }
  split.
  - rewrite (open_calls k i p s filename R Hl Op Wfs Ws A e He).
    replace (driver_of_type _) with file_driver by (unfold driver_of_type; by rewrite !decide_False by lia).
    rewrite (file_open_ok k i p s filename R Hl Op Wfs Ws A e j He Hj). by rewrite i32_id by lia.
  - set (k1 := put_fd i p j (d 0) k). set (p1 := set_fd_table (upd (fd_table p) j (d 0)) p).
    assert (Hr' : 0 <= j < MAX_OPEN_FILES) by lia.
    assert (R1 : running k1 i p1) by exact (put_fd_running k i p j (d 0) R Hl Hr').
    assert (L1 : length (fd_table p1) = Z.to_nat MAX_OPEN_FILES) by exact (put_fd_length k i p j (d 0) R Hl Hr').
    assert (A1 : at_ (fd_table p1) j = d 0) by exact (put_fd_at k i p j (d 0) R Hl Hr').
    rewrite (read_calls k1 i p1 s R1 L1 (put_fd_ops k i p j (d 0) R Hl Hr' Op) j filesys_ops_table buf n).
    2: { split; [done|]. by rewrite A1. }
    assert (D : file_ok (fs k1) (at_ (fd_table p1) j)).
    { rewrite A1. change (fs k1) with (fs k). constructor; try done. simpl. pose proof (size_bound (fs k) _ Wfs Hino). lia. }
    pose proof (file_read_spec k1 i p1 j buf n R1 L1 Hr' D Hn Hb) as E. cbv zeta in E.
    cbn [table_driver driver_read]. kstep E. unfold received. rewrite A1.
    change (fs k1) with (fs k). rewrite A1 in D. change (fs k1) with (fs k) in D.
    pose proof (file_next_length (fs k) (d 0) n D ltac:(lia)) as HL. pose proof (file_count (fs k) (d 0) n D ltac:(lia)) as HC.
    simpl in HL, HC. rewrite Z.sub_0_r in HL, HC. rewrite <- Hc in HL, HC.
    assert (EN : file_next (fs k) (d 0) n = take (Z.to_nat n) c).
    { unfold file_next. simpl. rewrite HC. change (Z.to_nat 0) with 0%nat. rewrite drop_0. fold c.
      destruct (decide (n <= zlen c)); [by rewrite Z.min_l by lia|]. by rewrite Z.min_r, !take_ge by lia. }
    unfold file_step. rewrite EN in HL |- *. rewrite HL.
    unfold k1, p1. rewrite (put_fd_twice k i p j (d 0) R Hl Hr'). unfold advance. simpl.
    rewrite u32_id by (unfold c in *; lia). done.
Qed.

(** Closing it gives the descriptor table back. *)
Lemma close_file_ok k i p j :
  running k i p -> length (fd_table p) = Z.to_nat MAX_OPEN_FILES -> ops_ready k ->
  open_on p j filesys_ops_table \/ open_on p j dir_ops_table ->
  close j k = Ok (Returned 0, put_fd i p j closed_fd k).
Proof.
  intros R Hl Op Ho. destruct Ho as [Ho|Ho]; pose proof Ho as (Hj & _ & _).
  - rewrite (close_calls k i p (mkSurr (mkDentry [] 0 0) (mkDentry [] 0 0) id []) R Hl Op j _ Ho).
    cbn [table_driver driver_close]. unfold file_close. by kstep (close_fd_ok k i p R Hl j Hj).
  - rewrite (close_calls k i p (mkSurr (mkDentry [] 0 0) (mkDentry [] 0 0) id []) R Hl Op j _ Ho).
    cbn [table_driver driver_close]. unfold dir_close. by kstep (close_fd_ok k i p R Hl j Hj).
Qed.
