(* ===== verification/Getargs.v ===== *)
(** getargs ([student-distrib/syscall.c]): the arguments of the command line,
    without trailing blanks. *)

From S2P Require Import Prelude Kernel FdTable Drivers Process Syscall.

Definition blank_char (c : Z) : Prop := c = 32 \/ c = 0.
#[export] Instance blank_char_dec c : Decision (blank_char c).
Proof. unfold blank_char. solve_decision. Defined.
#[global] Typeclasses Opaque blank_char.

Fixpoint rtrim (l : list Z) : list Z :=
  match l with
  | [] => []
  | c :: l =>
      match rtrim l with
      | [] => if decide (blank_char c) then [] else [c]
      | t => c :: t
      end
  end.

Record trimmed (l r : list Z) : Prop := {
  tr_prefix : r = take (length r) l;
  tr_length : (length r <= length l)%nat;
  tr_blank : forall q, zlen r <= q < zlen l -> blank_char (at_ l q);
  tr_last : r <> [] -> ~ blank_char (at_ l (zlen r - 1));
}.

Lemma rtrim_trimmed l : trimmed l (rtrim l).
Proof.
  induction l as [|c l [Hp Hl Hb Ht]]; [constructor; done || (simpl; lia)|].
  cbn [rtrim]. destruct (rtrim l) as [|x t].
  - destruct_decide (decide (blank_char c)).
    + constructor; try done; [simpl; lia|]. intros q Hq. rewrite at_cons by (simpl in *; lia).
      case_decide; [done|]. apply Hb. simpl in *. lia.
    + constructor; try done; [simpl; lia|]. intros q Hq. rewrite at_cons by (simpl in *; lia).
      rewrite decide_False by (simpl in *; lia). apply Hb. simpl in *. lia.
  - constructor.
    + simpl in *. by f_equal.
    + simpl in *. lia.
    + intros q Hq. rewrite at_cons by (simpl in *; lia). rewrite decide_False by (simpl in *; lia).
      apply Hb. simpl in *. lia.
    + intros _. rewrite at_cons by (simpl; lia). rewrite decide_False by (simpl; lia).
      replace (zlen (c :: x :: t) - 1 - 1) with (zlen (x :: t) - 1) by (simpl; lia). by apply Ht.
Qed.

Section getargs.
Variables (args buf : list Z) (n : Z).
Hypothesis (Ha : length args = 128%nat) (Hn : 0 <= n <= zlen buf).

(** The bytes of the buffer after the cleaning loop. *)
Lemma clean_args_ok : clean_args buf n = Ok (over (replicate (Z.to_nat n) 0) buf).
Proof using All.
  apply wp_eq. unfold clean_args.
  apply (wp_loop (fun '(j, b) => 0 <= j <= n /\ b = over (replicate (Z.to_nat j) 0) buf)
           (fun '(j, _) => Z.to_nat (n - j))); [split; [lia|done]|lia|].
  intros [j b] [Hj ->]. wp_step.
  - wp_step. rewrite (wr_over (replicate (Z.to_nat j) 0) buf j 0) by (rewrite length_replicate; lia).
    wp_step. wp_step. split; [|lia]. split; [lia|].
    replace (Z.to_nat (j + 1)) with (Z.to_nat j + 1)%nat by lia. by rewrite replicate_add.
  - wp_step. by replace j with n by lia.
Qed.

Abbreviation m := (Z.min n 128).
Lemma copy_args_ok b : length b = length buf -> copy_args args b n = Ok (m, over (take (Z.to_nat m) args) b).
Proof using All.
  intros Hb. apply wp_eq. unfold copy_args, TERM_BUFF_SIZE.
  apply (wp_loop (fun '(j, b') => 0 <= j <= m /\ b' = over (take (Z.to_nat j) args) b)
           (fun '(j, _) => Z.to_nat (m - j))); [split; [lia|done]|lia|].
  intros [j b'] [Hj ->]. wp_step.
  - wp_step. rewrite rd_ok by lia. wp_step. wp_step.
    rewrite (wr_over (take (Z.to_nat j) args) b j) by (rewrite length_take; lia). wp_step. wp_step.
    split; [|lia]. split; [lia|]. by rewrite take_snoc by lia.
  - wp_step. by replace j with m by lia.
Qed.

(** What getargs leaves in the buffer. *)
Definition args_buffer : list Z :=
  over (rtrim args ++ replicate (Z.to_nat n - length (rtrim args)) 0) buf.

Lemma args_buffer_at q : 128 < n -> 0 <= q ->
  at_ args_buffer q = if decide (q < zlen (rtrim args)) then at_ args q
                      else if decide (q < n) then 0 else at_ buf q.
Proof using All.
  intros Hn' Hq. destruct (rtrim_trimmed args) as [Hp Hl _ _]. unfold args_buffer.
  rewrite at_over, length_app, length_replicate by done. rewrite at_app by done.
  destruct_decide (decide (q < zlen (rtrim args))).
  - rewrite decide_True by lia. rewrite Hp. by rewrite at_take by lia.
  - repeat case_decide; try lia; try done; by rewrite at_replicate by lia.
Qed.

Lemma trim_args_ok b : 128 < n -> n < 2 ^ 32 -> rtrim args <> [] -> length b = length buf ->
  (forall q, 0 <= q -> at_ b q = if decide (q < 128) then at_ args q
                      else if decide (q < n) then 0 else at_ buf q) ->
  trim_args b n = Ok args_buffer.
Proof using All.
  intros Hn' Hn32 Hne Hb Hat. destruct (rtrim_trimmed args) as [Hp Hl Hbl Hlast]. specialize (Hlast Hne).
  assert (Hr : 0 < zlen (rtrim args)) by (destruct (rtrim args); [done|simpl; lia]).
  apply wp_eq. unfold trim_args. rewrite u32_id by lia. set (r := zlen (rtrim args)) in *.
  apply (wp_loop (fun '(w, b) => r - 1 <= w < n /\ length b = length buf /\
      forall q, 0 <= q -> at_ b q = if decide (q <= w /\ q < 128) then at_ args q
                                    else if decide (q < n) then 0 else at_ buf q)
    (fun '(w, _) => Z.to_nat w)); [|lia|].
  - split; [lia|]. split; [done|]. intros q Hq. rewrite Hat by done.
    repeat case_decide; try lia; done.
  - intros [w c] (Hw & Hc & Hcat). wp_step. rewrite rd_ok by lia. wp_step.
    destruct_decide (decide (w = r - 1)) as Hend.
    + assert (E : at_ c w = at_ args w) by (rewrite Hcat by lia; by rewrite decide_True by lia).
      wp_step; [exfalso; apply Hlast; subst w; unfold blank_char; by rewrite <- E|]. wp_step.
      apply at_ext; [unfold args_buffer; rewrite length_over; rewrite ?length_app, ?length_replicate; lia|].
      intros q Hq. rewrite Hcat, args_buffer_at by lia. fold r. by repeat case_decide; try lia.
    + assert (Hz : blank_char (at_ c w)).
      { rewrite Hcat by lia. case_decide; [apply Hbl; lia|]. rewrite decide_True by lia. by right. }
      wp_step; [|exfalso; by apply H]. wp_step. rewrite wr_ok by lia. wp_step. wp_step.
      rewrite u32_id by lia. split; [|lia]. split; [lia|]. split; [by rewrite length_upd|].
      intros q Hq. rewrite at_upd by lia. rewrite Hcat by done.
      by repeat case_decide; try lia.
Qed.
End getargs.

(** getargs on a buffer that can hold a whole line. *)
Lemma getargs_ok k i p buf n :
  running k i p -> length (args p) = 128%nat -> 128 < n < 2 ^ 31 -> n <= zlen buf -> rtrim (args p) <> [] ->
  getargs (Some buf) n k =
    Ok (Returned (if decide (at_ (args p) 0 = 0) then -1 else 0, Some (args_buffer (args p) buf n)), k).
Proof.
  intros R Ha Hn Hb Hne. unfold getargs. rewrite u32_id by lia.
  kstep (lift_ok _ _ k (clean_args_ok (args p) buf n Ha ltac:(lia))). kstep (curr_pcb_ok _ _ _ R).
  set (b0 := over (replicate (Z.to_nat n) 0) buf).
  assert (L0 : length b0 = length buf) by (apply length_over; rewrite length_replicate; lia).
  kstep (lift_ok _ _ k (copy_args_ok (args p) buf n Ha ltac:(lia) b0 L0)).
  rewrite Z.min_r by lia. rewrite (decide_False (P := 128 = n)) by lia.
  rewrite take_ge by lia.
  assert (E : trim_args (over (args p) b0) n = Ok (args_buffer (args p) buf n)).
  { apply trim_args_ok; try done; try lia.
    - rewrite length_over; lia.
    - intros q Hq. rewrite at_over by done. replace (zlen (args p)) with 128 by lia.
      case_decide; [done|]. unfold b0. rewrite at_over, length_replicate by done.
      repeat case_decide; try lia; try done; by rewrite at_replicate by lia. }
  kstep (lift_ok _ _ k E). destruct (rtrim_trimmed (args p)) as [_ Hl _ _].
  assert (Hr : 0 < zlen (rtrim (args p))) by (destruct (rtrim (args p)); [done|simpl; lia]).
  assert (E0 : rd (args_buffer (args p) buf n) 0 = Ok (at_ (args p) 0)).
  { rewrite rd_ok.
    - rewrite args_buffer_at by (done || lia). by rewrite decide_True by lia.
    - unfold args_buffer. rewrite length_over; rewrite ?length_app, ?length_replicate; lia. }
  kstep (lift_ok _ _ k E0). done.
Qed.

(** A buffer of 128 bytes or less never fits: the copy stops at its end. *)
(** C26: getargs with at most 128 bytes always returns -1, even when the
    arguments would fit, having already overwritten the buffer. *)
Lemma getargs_short k i p buf n :
  running k i p -> length (args p) = 128%nat -> 0 <= n <= 128 -> n <= zlen buf ->
  getargs (Some buf) n k =
    Ok (Returned (-1, Some (over (take (Z.to_nat n) (args p)) (over (replicate (Z.to_nat n) 0) buf))), k).
Proof.
  intros R Ha Hn Hb. unfold getargs. rewrite u32_id by lia.
  kstep (lift_ok _ _ k (clean_args_ok (args p) buf n Ha ltac:(lia))). kstep (curr_pcb_ok _ _ _ R).
  set (b0 := over (replicate (Z.to_nat n) 0) buf).
  assert (L0 : length b0 = length buf) by (apply length_over; rewrite length_replicate; lia).
  kstep (lift_ok _ _ k (copy_args_ok (args p) buf n Ha ltac:(lia) b0 L0)).
  rewrite Z.min_l by lia. by rewrite (decide_True (P := n = n)) by lia.
Qed.

(** Without arguments the search for the last character runs off the front
    of the buffer. *)
Lemma trim_args_blank fuel b w : 0 <= w < zlen b -> zlen b < 2 ^ 32 ->
  (forall q, 0 <= q <= w -> blank_char (at_ b q)) -> (Z.to_nat w + 1 < fuel)%nat ->
  loop fuel (fun '(backwards, buf) =>
    c ← rd buf backwards;
    if decide (c = 32 \/ c = 0) then
      buf ← wr buf backwards 0; mret (inl (u32 (backwards - 1), buf))
    else mret (inr buf)) (w, b) = @Fault (list Z).
Proof.
  revert b w. induction fuel as [|fuel IH]; intros b w Hw Hb Hbl Hf; [lia|].
  rewrite loop_S. rewrite rd_ok by lia. cbn [mbind outcome_bind mret outcome_ret].
  rewrite decide_True by (apply Hbl; lia). rewrite wr_ok by lia. cbn [mbind outcome_bind mret outcome_ret].
  destruct_decide (decide (w = 0)) as H0.
  - subst w. destruct fuel as [|fuel]; [lia|]. rewrite loop_S. change (u32 (0 - 1)) with (2 ^ 32 - 1).
    rewrite rd_fault; [done|]. rewrite length_upd. lia.
  - rewrite u32_id by lia. apply IH.
    + rewrite length_upd. lia.
    + by rewrite length_upd.
    + intros q Hq. rewrite at_upd_ne by lia. apply Hbl. lia.
    + lia.
Qed.

(** C16: getargs in a process whose argument row is blank never finds the last
    character: its loop runs below the start of the buffer, a fault in C's
    terms. *)
Lemma getargs_blank k i p buf n :
  running k i p -> length (args p) = 128%nat -> 128 < n < 2 ^ 31 -> n <= zlen buf < 2 ^ 32 ->
  rtrim (args p) = [] -> getargs (Some buf) n k = Fault.
Proof.
  intros R Ha Hn Hb He. unfold getargs. rewrite u32_id by lia.
  kstep (lift_ok _ _ k (clean_args_ok (args p) buf n Ha ltac:(lia))). kstep (curr_pcb_ok _ _ _ R).
  set (b0 := over (replicate (Z.to_nat n) 0) buf).
  assert (L0 : length b0 = length buf) by (apply length_over; rewrite length_replicate; lia).
  kstep (lift_ok _ _ k (copy_args_ok (args p) buf n Ha ltac:(lia) b0 L0)).
  rewrite Z.min_r by lia. rewrite (decide_False (P := 128 = n)) by lia. rewrite take_ge by lia.
  assert (E : trim_args (over (args p) b0) n = Fault).
  { unfold trim_args. rewrite u32_id by lia. apply trim_args_blank.
    - rewrite length_over; lia.
    - rewrite length_over; lia.
    - intros q Hq. rewrite at_over by lia. destruct (rtrim_trimmed (args p)) as [_ _ Hbl _].
      case_decide; [apply Hbl; rewrite He; simpl; lia|].
      right. unfold b0. rewrite at_over, length_replicate by lia. rewrite decide_True by lia.
      by rewrite at_replicate by lia.
    - rewrite length_over; lia. }
  unfold lift, mbind, K_bind. by rewrite E.
Qed.

(** * Trimming a C string *)
Lemma rtrim_snoc_nul l t : rtrim (l ++ 0 :: t) =
  match rtrim t with [] => rtrim l | _ => l ++ 0 :: rtrim t end.
Proof.
  induction l as [|c l IH]; cbn [app rtrim].
  - destruct (rtrim t); [by rewrite decide_True by by right|done].
  - rewrite IH. destruct (rtrim t) as [|x t'] eqn:E; [done|]. by destruct l.
Qed.
Lemma rtrim_idem l : rtrim (rtrim l) = rtrim l.
Proof.
  induction l as [|c l IH]; [done|]. cbn [rtrim]. destruct (rtrim l) as [|x t] eqn:E.
  - case_decide; [done|]. cbn [rtrim]. by rewrite decide_False.
  - cbn [rtrim] in *. by rewrite IH.
Qed.
Lemma rtrim_no_nul l : 0 ∉ l -> 0 ∉ rtrim l.
Proof. intros H. destruct (rtrim_trimmed l) as [E _ _ _]. rewrite E. intros Hin. apply H. apply elem_of_take in Hin as (j & Hj & _). by eapply list_elem_of_lookup_2. Qed.

(** The string in the buffer is the argument string, up to trailing blanks. *)
Lemma args_buffer_text a t buf n : 0 ∉ a -> length (a ++ 0 :: t) = 128%nat -> 128 < n <= zlen buf ->
  rtrim (cstr (args_buffer (a ++ 0 :: t) buf n)) = rtrim a.
Proof.
  intros Ha Hl Hn. pose proof (rtrim_trimmed (a ++ 0 :: t)) as [_ Hlen _ _].
  assert (E : exists b, args_buffer (a ++ 0 :: t) buf n = rtrim (a ++ 0 :: t) ++ 0 :: b).
  { unfold args_buffer, over. destruct (Z.to_nat n - length (rtrim (a ++ 0%Z :: t)))%nat as [|m] eqn:Em; [lia|].
    cbn [replicate]. rewrite <- !app_assoc. cbn [app]. by eexists. }
  destruct E as [b ->]. rewrite rtrim_snoc_nul. destruct (rtrim t) as [|x r].
  - rewrite cstr_app by by apply rtrim_no_nul. apply rtrim_idem.
  - rewrite <- app_assoc. cbn [app]. by rewrite cstr_app.
Qed.
