(* ===== verification/Vidmap.v ===== *)
(** vidmap ([student-distrib/syscall.c]): the program gets a window on the
    screen of its terminal, and nothing else moves. *)

From S2P Require Import Prelude Hardware CLib Screen Printf FileSystem Paging MemOps Kernel.
From S2P Require Import FdTable Drivers Streams Process Lifecycle Terminals Syscall.
From S2P Require Import SyscallSpec.

Lemma load_word_bytes a m :
  load_bytes a 4 m = [get m a; get m (a + 1); get m (a + 2); get m (a + 3)].
Proof.
  unfold load_bytes, seqZ. simpl. repeat (f_equal; try lia).
Qed.

Lemma word_of_bytes w : uint32 w ->
  w mod 256 + 2 ^ 8 * ((w / 2 ^ 8) mod 256) + 2 ^ 16 * ((w / 2 ^ 16) mod 256)
    + 2 ^ 24 * ((w / 2 ^ 24) mod 256) = w.
Proof.
  unfold uint32. intros Hw.
  assert (H : forall n, 0 <= n -> w / 2 ^ (n + 8) = w / 2 ^ n / 256).
  { intros n Hn. by rewrite Z.pow_add_r, Zdiv.Zdiv_Zdiv by lia. }
  pose proof (H 0 ltac:(lia)) as H0. pose proof (H 8 ltac:(lia)) as H8. pose proof (H 16 ltac:(lia)) as H16.
  change (0 + 8) with 8 in H0. change (8 + 8) with 16 in H8. change (16 + 8) with 24 in H16.
  rewrite Z.pow_0_r, Z.div_1_r in H0.
  rewrite H16, H8, H0. Z.div_mod_to_equations. lia.
Qed.

Lemma word_round_trip a w m : uint32 w ->
  word_of (load_bytes a 4 (store_bytes a (word_bytes w) m)) = Ok w.
Proof.
  intros Hw. pose proof (store_bytes_filled a (word_bytes w) m) as HF.
  rewrite load_word_bytes. change (zlen (word_bytes w)) with 4 in HF. unfold filled in HF.
  rewrite !HF, !decide_True by lia.
  rewrite Z.sub_diag. replace (a + 1 - a) with 1 by lia.
  replace (a + 2 - a) with 2 by lia. replace (a + 3 - a) with 3 by lia.
  exact (f_equal Ok (word_of_bytes w Hw)).
Qed.

(** The program page holds no video window. *)
Lemma window_not_program t x : 0 <= t < MAX_TERMINAL -> in_program_page x -> page_of x <> page_of (video_window t).
Proof.
  unfold in_program_page, page_of, video_window, VIRT_VID_TERM1, FOURKiB, MAX_TERMINAL. intros Ht Hx E.
  replace (0x10000000 + t * 0x1000) with ((0x10000 + t) * 2 ^ 12) in E by lia. rewrite Z.div_mul in E by done.
  pose proof (Z.div_mod x (2 ^ 12) ltac:(lia)). pose proof (Z.mod_pos_bound x (2 ^ 12) ltac:(lia)). lia.
Qed.

Section vidmap.
Variables (k : kernel) (v a : Z) (u : bool).
Abbreviation t := (curr_terminal (lib k)).
Abbreviation w := (video_window t).
Hypothesis (Hl : kernel_linked k)
  (Hp : paging_inv (page_directory_at (link k)) (page_table_at (link k)) (user_page_table_at (link k)) (paging k))
  (Ht : 0 <= t < MAX_TERMINAL) (Hv : PROGRAM_PAGE <= v <= PROGRAM_PAGE + USER_PAGE_SIZE - 4)
  (Ha : ktranslate k v = Some (Mapped a u)).

Lemma window_word : uint32 w /\ i32 w = w.
Proof using All.
  unfold video_window, VIRT_VID_TERM1, FOURKiB, uint32, MAX_TERMINAL in *.
  split; [lia|]. apply i32_id. lia.
Qed.

Lemma program_phys_ok k' : link k' = link k -> ktranslate k' v = Some (Mapped a u) ->
  program_phys v 4 k' = Ok (Returned a, k').
Proof using All.
  intros El E. unfold program_phys, PROGRAM_PAGE, USER_PAGE_SIZE in *. rewrite decide_True by lia.
  unfold ktranslate in E. by rewrite E.
Qed.

Definition stored : kernel :=
  with_lib (set_mem (store_bytes a (word_bytes w) (lib_mem (lib k))) (lib k)) k.
Definition windowed : kernel :=
  with_paging (map_virt_to_phys (user_page_table_at (link k)) w USER_VIDEO_ (paging k)) stored.

Lemma windowed_translate x : 0 <= x < 2 ^ 32 ->
  ktranslate windowed x = if decide (page_of x = page_of w) then Some (Mapped (VIDEO + x mod FOURKiB) true)
                          else ktranslate k x.
Proof using All.
  intros Hx. unfold ktranslate. simpl.
  rewrite translate_map_virt_to_phys by (done || by apply window_dir). done.
Qed.

Lemma windowed_program : ktranslate windowed v = Some (Mapped a u).
Proof using All.
  unfold PROGRAM_PAGE, USER_PAGE_SIZE in *. rewrite windowed_translate by lia. rewrite decide_False; [done|].
  apply window_not_program; [done|]. unfold in_program_page. lia.
Qed.

(** The word at the pointer is the window from the store on. *)
Lemma load_window k' : link k' = link k -> ktranslate k' v = Some (Mapped a u) ->
  lib_mem (lib k') = lib_mem (lib stored) -> load_word v k' = Ok (Returned w, k').
Proof using All.
  intros Hk Htr Hm. destruct window_word as [Hw _]. unfold load_word. kstep (program_phys_ok k' Hk Htr).
  kstep (gets_ok (fun k => lib_mem (lib k)) k'). rewrite Hm. apply lift_ok. by apply word_round_trip.
Qed.

Lemma vidmap_returns : vidmap v k = Ok (Returned w, windowed).
Proof using All.
  destruct window_word as [Hw Hi]. unfold vidmap. unfold PROGRAM_PAGE, USER_PAGE_SIZE in *.
  rewrite (decide_False (P := v = 0)) by lia. rewrite (decide_False (P := _ \/ _)) by lia.
  kstep (gets_ok (fun k => curr_terminal (lib k)) k).
  assert (E1 : (if decide (t = 0) then store_word v VIRT_VID_TERM1
                else if decide (t = 1) then store_word v VIRT_VID_TERM2
                else if decide (t = 2) then store_word v VIRT_VID_TERM3 else mret tt) k =
               Ok (Returned tt, stored)).
  { assert (E : store_word v w k = Ok (Returned tt, stored)).
    { unfold store_word. kstep (program_phys_ok k eq_refl Ha). unfold stored.
      replace (u32 w) with w by (symmetry; apply u32_id, Hw). done. }
    unfold MAX_TERMINAL in Ht. rewrite <- E. unfold video_window, VIRT_VID_TERM1, FOURKiB.
    assert (t = 0 \/ t = 1 \/ t = 2) as [->|[->| ->]] by lia; done. }
  kstep E1. kstep (load_window stored eq_refl Ha eq_refl). unfold kmap_virt_to_phys.
  kstep (modify_ok (fun k' => with_paging (map_virt_to_phys (user_page_table_at (link k')) w USER_VIDEO_ (paging k')) k') stored).
  fold windowed. kstep (load_window windowed eq_refl windowed_program eq_refl). by rewrite Hi.
Qed.

(** C27: vidmap of an address in the program page stores the video window of
    the current terminal at the physical address the page tables give and
    returns that window. *)
Lemma vidmap_ok : vidmap v k = Ok (Returned w, windowed).
Proof using All. exact vidmap_returns. Qed.
End vidmap.

(** A pointer outside the program's page is refused. *)
Lemma vidmap_null k : con_wf (lib k) ->
  kwp (vidmap 0) (fun r k' => r = -1 /\
    shows (t_puts (chars "invalid pointer, vidmap" ++ [10]) (view (lib k))) k k') nojump k.
Proof.
  intros W. unfold vidmap. rewrite decide_True by done. kwp_step. kprint. intros [] k' Hs. by kwp_step.
Qed.
Lemma vidmap_out_of_range k v : con_wf (lib k) -> v <> 0 ->
  ~ (PROGRAM_PAGE <= v < PROGRAM_PAGE + USER_PAGE_SIZE) ->
  kwp (vidmap v) (fun r k' => r = -1 /\
    shows (t_puts (chars "pointer out of range, vidmap" ++ [10]) (view (lib k))) k k') nojump k.
Proof.
  intros W H0 Hv. unfold vidmap. rewrite (decide_False (P := v = 0)) by done.
  rewrite decide_True by lia. kwp_step. kprint. intros [] k' Hs. by kwp_step.
Qed.
Lemma vidmap_past k v : 0 <= curr_terminal (lib k) < MAX_TERMINAL ->
  PROGRAM_PAGE + USER_PAGE_SIZE - 4 < v < PROGRAM_PAGE + USER_PAGE_SIZE -> vidmap v k = Fault.
Proof.
  intros Ht Hv. unfold vidmap, PROGRAM_PAGE, USER_PAGE_SIZE, MAX_TERMINAL in *.
  rewrite (decide_False (P := v = 0)) by lia. rewrite decide_False by lia.
  kstep (gets_ok (fun k => curr_terminal (lib k)) k).
  assert (E : forall w, store_word v w k = Fault).
  { intros w. unfold store_word, mbind, K_bind, program_phys, PROGRAM_PAGE, USER_PAGE_SIZE.
    by rewrite decide_False by lia. }
  unfold mbind at 1, K_bind at 1. repeat case_decide; try lia; by rewrite E.
Qed.

(** C28: vidmap's range check lets the last three addresses of the program
    page through, and the four-byte store then runs past the page: the call
    faults. *)
Lemma vidmap_crosses k v : 0 <= curr_terminal (lib k) < MAX_TERMINAL ->
  PROGRAM_PAGE + USER_PAGE_SIZE - 4 < v < PROGRAM_PAGE + USER_PAGE_SIZE -> vidmap v k = Fault.
Proof. apply vidmap_past. Qed.
