(* ===== verification/Exceptions.v ===== *)
(** Exceptions ([student-distrib/exceptions.c]): a message, then the process
    that raised it is halted with a status its parent can tell apart. *)

From S2P Require Import Prelude Hardware CLib Screen Printf Kernel FdTable Drivers Process.

Definition exception_messages : list (list Z) := map chars
  ["Divide Error Exception"; "Debug Exception"; "NMI Interrupt"; "Breakpoint Exception";
   "Overflow Exception"; "BOUND Range Exceeded Exception"; "Invalid Opcode Exception";
   "Device Not Available Exception"; "Double Fault Exception"; "Coprocessor Segment Overrun";
   "Invalid TSS Exception"; "Segment Not Present"; "Stack Fault Exception";
   "General Protection Exception"; "Page-Fault Exception"; "Reserved";
   "x87 FPU Floating-Point Error"; "Alignment Check Exception"; "Machine-Check Exception";
   "SIMD Floating-Point Exception"; "Reserved"; "Reserved"; "Reserved"; "Reserved"; "Reserved";
   "Reserved"; "Reserved"; "Reserved"; "Reserved"; "Reserved"; "Reserved"; "Reserved"]%string.

(** ** exceptions.c: print_cr2; [cr2] is what the register holds *)
Definition print_cr2 (cr2 : Z) : K unit :=
  kprintf (litln "Suspected Address in CR2: %x") [AInt cr2].

(** ** exceptions.c: exception_handler *)
Definition PAGE_FAULT := 14.
Definition print_exception (cr2 i : Z) : K unit :=
  if decide (0 <= i < 32) then
    m ← lift (rd exception_messages i);
    _ ← kprintf (m ++ [10; 0]) [];
    if decide (i = PAGE_FAULT) then print_cr2 cr2 else mret tt
  else mret tt.

Definition exception_handler (fr : frame) (cr2 i : Z) : K Z :=
  _ ← kclear;
  _ ← print_exception cr2 i;
  ext ← gets (fun k => extended_status (cpu k));
  _ ← set_status ext 1;
  halt fr 255.

(** ** exceptions.c: exception_0 to exception_31 *)
Definition exception_n (n : nat) (fr : frame) (cr2 : Z) : K Z := exception_handler fr cr2 (Z.of_nat n).
