(* ===== verification/Boot.v ===== *)
(** From the boot loader to the first shell ([student-distrib/kernel.c]). *)

From S2P Require Import Prelude Hardware CLib Screen Printf FileSystem Pic Idt Segments Rtc Paging.
From S2P Require Import Kernel FdTable Drivers Process Testcases Keyboard Waiting.

Definition MULTIBOOT_BOOTLOADER_MAGIC := 0x2BADB002.
Definition filesys_name := lit "/filesys_img".
Definition filesys_name_length := 12.

(** ** kernel.c: CHECK_FLAG *)
Definition CHECK_FLAG (flags bit : Z) : bool := negb (bool_decide (Z.land flags (Z.shiftl 1 bit) = 0)).

(** ** multiboot.h: module_t, memory_map_t, multiboot_info_t

    A module comes with the blocks at its start address, the lists replace
    their counts. *)
Record module_t : Type := mkModule {
  mod_start : Z; mod_end : Z; mod_string : list Z; mod_image : list (list Z) }.
Record memory_map_t : Type := mkMap {
  mm_size : Z; base_addr_low : Z; base_addr_high : Z; length_low : Z; length_high : Z; mm_type : Z }.
Record elf_section_header_table_t : Type := mkElf { elf_num : Z; elf_size : Z; elf_addr : Z; elf_shndx : Z }.
Record multiboot_info_t : Type := mkMbi {
  mbi_flags : Z; mem_lower : Z; mem_upper : Z; boot_device : Z; cmdline : list Z;
  mods : list module_t; elf_sec : elf_section_header_table_t;
  mmap_length : Z; mmap_addr : Z; mmap : list memory_map_t }.

(** ** filesystem.c: filesystem_init *)
Definition filesystem_init (boot_addr : list (list Z)) : K unit :=
  flags ← port cli_and_save;
  f ← lift (filesystem_init_overlay boot_addr);
  _ ← modify (with_fs f);
  _ ← fops_table_init;
  on_io (restore_flags flags).

(** ** kernel.c: the multiboot information *)
Definition print_first_bytes (img : list (list Z)) : K unit :=
  kloop 17 (fun i =>
    if decide (i < 16) then
      c ← lift (img_byte img i);
      _ ← kprintf (lit "0x%x ") [AInt (i8 c)];
      mret (inl (i + 1))
    else mret (inr tt)) 0.

Definition load_module (mod_count : Z) (m : module_t) : K unit :=
  _ ← kprintf (litln "Module %d loaded at address: 0x%#x") [AInt mod_count; AInt (mod_start m)];
  _ ← kprintf (litln "Module %d ends at address: 0x%#x") [AInt mod_count; AInt (mod_end m)];
  _ ← kprintf (litln "First few bytes of module:") [];
  _ ← print_first_bytes (mod_image m);
  r ← lift (strncmp (mod_string m) filesys_name filesys_name_length);
  _ ← (if decide (r = 0) then filesystem_init (mod_image m) else mret tt);
  kprintf [10; 0] [].

Fixpoint load_modules (mod_count : Z) (l : list module_t) : K unit :=
  match l with
  | [] => mret tt
  | m :: l => @mbind K _ _ _ (fun _ => load_modules (mod_count + 1) l) (load_module mod_count m)
  end.

Definition print_map (m : memory_map_t) : K unit :=
  kprintf (chars " size = 0x%x,     base_addr = 0x%#x%#x" ++ [10]
           ++ litln "     type = 0x%x,  length    = 0x%#x%#x")
    [AInt (mm_size m); AInt (base_addr_high m); AInt (base_addr_low m);
     AInt (mm_type m); AInt (length_high m); AInt (length_low m)].
Fixpoint print_maps (l : list memory_map_t) : K unit :=
  match l with
  | [] => mret tt
  | m :: l => @mbind K _ _ _ (fun _ => print_maps l) (print_map m)
  end.

Definition when (b : bool) (m : K unit) : K unit := if b then m else mret tt.

(** False when [entry] returns: bits 4 and 5 are both set. *)
Definition read_multiboot (mbi : multiboot_info_t) : K bool :=
  let flag := CHECK_FLAG (mbi_flags mbi) in
  _ ← kprintf (litln "flags = 0x%#x") [AInt (mbi_flags mbi)];
  _ ← when (flag 0) (kprintf (litln "mem_lower = %uKB, mem_upper = %uKB")
                       [AInt (mem_lower mbi); AInt (mem_upper mbi)]);
  _ ← when (flag 1) (kprintf (litln "boot_device = 0x%#x") [AInt (boot_device mbi)]);
  _ ← when (flag 2) (kprintf (litln "cmdline = %s") [AStr (cmdline mbi)]);
  _ ← when (flag 3) (load_modules 0 (mods mbi));
  if (flag 4 && flag 5 : bool) then
    _ ← kprintf (litln "Both bits 4 and 5 are set.") []; mret false
  else
    let e := elf_sec mbi in
    _ ← when (flag 5) (kprintf (litln "elf_sec: num = %u, size = 0x%#x, addr = 0x%#x, shndx = 0x%#x")
                         [AInt (elf_num e); AInt (elf_size e); AInt (elf_addr e); AInt (elf_shndx e)]);
    _ ← when (flag 6)
          (_ ← kprintf (litln "mmap_addr = 0x%#x, mmap_length = 0x%x")
                 [AInt (mmap_addr mbi); AInt (mmap_length mbi)];
           print_maps (mmap mbi));
    mret true.

(** ** kernel.c: the LDT and TSS entries of the GDT

    [d] and [d'] are the uninitialised locals. *)
Definition set_segs (f : segments -> segments) : K unit := modify (fun k =>
  let c := cpu k in
  with_cpu (mkCpu (tss_esp0 c) (tss_ss0 c) (extended_status c) (exception_flag c) (f (segs c))) k).

Definition init_segments (d d' : seg_desc_t) : K unit :=
  _ ← (fun k => set_segs (construct_ldt (ldt_at (link k)) d) k);
  _ ← (fun k => set_segs (construct_tss (tss_at (link k)) d') k);
  set_tss 0x800000 KERNEL_DS.

(** ** kernel.c: all the inits *)
Definition init_all (beyond : Z -> Z) : K unit :=
  _ ← modify (fun k => with_idt (idt_init (exception_addr (link k)) (syscall_handler_at (link k)) (idt k)) k);
  _ ← on_pic i8259_init;
  _ ← keyboard_init;
  _ ← rtc_init beyond;
  _ ← modify (fun k => with_paging (paging_init (page_directory_at (link k)) (page_table_at (link k))
                                      (user_page_table_at (link k)) (paging k)) k);
  _ ← pc_init;
  _ ← terminal_init;
  pit_init.

(** ** kernel.c: entry

    When [execute] comes back the processor halts in a loop. *)
Definition entry (fr : frame) (d d' : seg_desc_t) (beyond : Z -> Z) (magic : Z) (mbi : multiboot_info_t) : K unit :=
  _ ← kclear;
  if decide (magic <> MULTIBOOT_BOOTLOADER_MAGIC) then
    kprintf (litln "Invalid magic number: 0x%#x") [AInt magic]
  else
    ok ← read_multiboot mbi;
    if (ok : bool) then
      _ ← init_segments d d';
      _ ← init_all beyond;
      _ ← kprintf (litln "Enabling Interrupts") [];
      _ ← kclear;
      _ ← on_io sti;
      _ ← execute fr (Some (lit "shell"));
      mret tt
    else mret tt.
