(* ===== verification/UserLib.v ===== *)
(** The library user programs are linked with: the system-call stubs of
    [syscalls/ece391syscall.S] and the string functions of
    [syscalls/ece391support.c] ([fish/ece391support.c] has a copy of five of
    them).

    A user array is the list of its bytes; a pointer into the middle of an
    array is the array and an offset. *)

From S2P Require Import Prelude Hardware CLib Screen Kernel FdTable Process Waiting Syscall.

Definition SYS_HALT := 1.
Definition SYS_EXECUTE := 2.
Definition SYS_READ := 3.
Definition SYS_WRITE := 4.
Definition SYS_OPEN := 5.
Definition SYS_CLOSE := 6.
Definition SYS_GETARGS := 7.
Definition SYS_VIDMAP := 8.
Definition SYS_SET_HANDLER := 9.
Definition SYS_SIGRETURN := 10.

(** * ece391support.c *)

Definition ece391_strlen (s : list Z) : outcome Z :=
  loop (Datatypes.S (length s)) (fun len =>
    c ← rd s len;
    mret (if decide (c <> 0) then inl (u32 (len + 1)) else inr len)) 0.

(** Copies the string at offset [src] to offset [dst] of one array: its only
    caller copies within a buffer. *)
Definition ece391_strcpy (a : list Z) (dst src : Z) : outcome (list Z) :=
  loop (Datatypes.S (length a)) (fun '(dst, src, a) =>
    c ← rd a src;
    a ← wr a dst c;
    mret (if decide (c <> 0) then inl (dst + 1, src + 1, a) else inr a)) (dst, src, a).

Definition ece391_strcmp (s1 s2 : list Z) : outcome Z :=
  loop (Datatypes.S (length s1)) (fun i =>
    c1 ← rd s1 i; c2 ← rd s2 i;
    mret (if decide (c1 = c2) then if decide (c1 = 0) then inr 0 else inl (i + 1)
          else inr (c1 - c2))) 0.

Definition ece391_strncmp (s1 s2 : list Z) (n : Z) : outcome Z :=
  if decide (n = 0) then mret 0 else
  loop (Datatypes.S (length s1)) (fun '(i, n) =>
    c1 ← rd s1 i; c2 ← rd s2 i;
    mret (if decide (c1 = c2) then
            if decide (c1 = 0 \/ u32 (n - 1) = 0) then inr 0 else inl (i + 1, u32 (n - 1))
          else inr (c1 - c2))) (0, n).

Definition ece391_strrev (s : list Z) : outcome (list Z) :=
  n ← ece391_strlen s;
  let en := i32 (n - 1) in
  if decide (en <= 0) then mret s else
  loop (Datatypes.S (length s)) (fun '(s, beg, en) =>
    if decide (beg < en) then
      tmp ← rd s en; c ← rd s beg;
      s ← wr s en c; s ← wr s beg tmp;
      mret (inl (s, beg + 1, en - 1))
    else mret (inr s)) (s, 0, en).

Definition ece391_itoa (value : Z) (buf : list Z) (radix : Z) : outcome (list Z) :=
  if decide (value = 0) then
    buf ← wr buf 0 48; wr buf 1 0
  else
    '(newbuf, buf) ← loop (33 + length buf) (fun '(newval, newbuf, buf) =>
      if decide (newval > 0) then
        if decide (u32 radix = 0) then Fault else
        let i := i32 (newval mod u32 radix) in
        c ← rd lookup i;
        buf ← wr buf newbuf c;
        mret (inl (newval / u32 radix, newbuf + 1, buf))
      else mret (inr (newbuf, buf))) (value, 0, buf);
    buf ← wr buf newbuf 0;
    ece391_strrev buf.

(** * ece391syscall.S

    INT 0x80 through a trap gate, which leaves the interrupt flag; the
    IRET at the end restores it. *)
Section calls.
Variables (s : surroundings) (fr : frame).

Definition int80 (eax : Z) (r : registers) : K (Z * option (list Z)) :=
  enabled ← gets (fun k => if_flag (lib_io (lib k)));
  v ← syscall_handler s fr eax r;
  _ ← on_io (set_if enabled);
  mret v.

Definition ece391_halt (status : Z) : K Z :=
  '(v, _) ← int80 SYS_HALT (mkRegs status 0 0 None None); mret v.
Definition ece391_read (fd : Z) (buf : list Z) (nbytes : Z) : K (Z * list Z) :=
  '(v, b) ← int80 SYS_READ (mkRegs fd 0 nbytes None (Some buf)); mret (v, default buf b).
Definition ece391_write (fd : Z) (buf : list Z) (nbytes : Z) : K Z :=
  '(v, _) ← int80 SYS_WRITE (mkRegs fd 0 nbytes None (Some buf)); mret v.
Definition ece391_open (filename : list Z) : K Z :=
  '(v, _) ← int80 SYS_OPEN (mkRegs 0 0 0 (Some filename) None); mret v.
Definition ece391_close (fd : Z) : K Z :=
  '(v, _) ← int80 SYS_CLOSE (mkRegs fd 0 0 None None); mret v.
Definition ece391_getargs (buf : list Z) (nbytes : Z) : K (Z * list Z) :=
  '(v, b) ← int80 SYS_GETARGS (mkRegs 0 nbytes 0 (Some buf) None); mret (v, default buf b).
Definition ece391_vidmap (screen_start : Z) : K Z :=
  '(v, _) ← int80 SYS_VIDMAP (mkRegs screen_start 0 0 None None); mret v.
Definition ece391_set_handler (signum handler : Z) : K Z :=
  '(v, _) ← int80 SYS_SET_HANDLER (mkRegs signum handler 0 None None); mret v.
Definition ece391_sigreturn : K Z :=
  '(v, _) ← int80 SYS_SIGRETURN (mkRegs 0 0 0 None None); mret v.

(** [code eip] is what the processor does from the entry point [eip] of the
    loaded program: its main and its return value, which [_start] hands to
    halt.  The halted child resumes in the frame [fr]. *)
Definition start (main : K Z) : K Z := v ← main; ece391_halt v.

Definition ece391_execute (code : Z -> K Z) (command : list Z) : K Z := fun k =>
  match int80 SYS_EXECUTE (mkRegs 0 0 0 (Some command) None) k with
  | Ok (Jump (ToUser eip _), k1) =>
      match start (code eip) k1 with
      | Ok (Jump (ToExecuteReturn esp ebp eax), k2) =>
          if decide (esp = r_esp fr /\ ebp = r_ebp fr)
          then (_ ← on_io (set_if (if_flag (lib_io (lib k)))); mret (i32 eax)) k2
          else Ok (Jump (ToExecuteReturn esp ebp eax), k2)
      | r => r
      end
  | Ok (Jump t, k1) => Ok (Jump t, k1)
  | Ok (Returned (v, _), k1) => Ok (Returned v, k1)
  | Fault => Fault
  | NoFuel => NoFuel
  end.

(** ** ece391support.c: ece391_fdputs *)
Definition ece391_fdputs (fd : Z) (str : list Z) : K unit :=
  n ← lift (ece391_strlen str);
  _ ← ece391_write fd str (i32 n);
  mret tt.
End calls.

(** * The string functions *)

Lemma ece391_strlen_ok s : 0 ∈ s -> zlen s < 2 ^ 31 -> ece391_strlen s = Ok (zlen (cstr s)).
Proof. apply strlen_spec. Qed.

(** The early exit of the user library's strrev changes nothing. *)
Lemma ece391_strrev_eq s : ece391_strrev s = strrev s.
Proof.
  unfold ece391_strrev, strrev. change (ece391_strlen s) with (strlen s).
  destruct (strlen s) as [n| |]; [|done..]. simpl. case_decide; [|done].
  rewrite loop_S. simpl. by rewrite decide_False by lia.
Qed.


(** strcmp compares C strings. *)
Lemma cstr_agree s1 s2 i : 0 ∈ s1 -> 0 ∈ s2 -> 0 <= i ->
  (forall j, 0 <= j < i -> at_ s1 j = at_ s2 j /\ at_ s1 j <> 0) ->
  i <= zlen (cstr s1) /\ i <= zlen (cstr s2).
Proof.
  intros H1 H2 Hi Heq. pose proof (cstr_nul s1 H1). pose proof (cstr_nul s2 H2). split.
  - destruct (decide (zlen (cstr s1) < i)); [|lia]. by destruct (Heq (zlen (cstr s1))); [lia|].
  - destruct (decide (zlen (cstr s2) < i)); [|lia].
    destruct (Heq (zlen (cstr s2))) as [E N]; [lia|]. congruence.
Qed.

Lemma ece391_strcmp_ok s1 s2 : 0 ∈ s1 -> 0 ∈ s2 ->
  wp (ece391_strcmp s1 s2) (fun r => r = 0 <-> cstr s1 = cstr s2).
Proof.
  intros H1 H2. pose proof (length_cstr_lt s1 H1). pose proof (length_cstr_lt s2 H2).
  apply (wp_loop (fun i => 0 <= i /\ forall j, 0 <= j < i -> at_ s1 j = at_ s2 j /\ at_ s1 j <> 0)
    (fun i => Z.to_nat (zlen s1 - i))); [split; lia|lia|].
  intros i [Hi Heq]. destruct (cstr_agree s1 s2 i H1 H2 Hi Heq) as [B1 B2].
  wp_steps. pose proof (cstr_next s1 i) as N1. pose proof (cstr_next s2 i) as N2.
  repeat case_decide.
  - split; [|done]. intros _. apply at_ext; [lia|]. intros j Hj. rewrite !at_cstr by lia. apply Heq. lia.
  - split; [|lia]. split; [lia|]. intros j Hj. destruct (decide (j = i)) as [->|]; [done|apply Heq; lia].
  - split; [lia|]. intros E. destruct (decide (i < zlen (cstr s1))).
    + destruct (decide (i < zlen (cstr s2))); [|rewrite E in *; lia].
      assert (at_ (cstr s1) i = at_ (cstr s2) i) by congruence. rewrite !at_cstr in * by lia. done.
    + assert (i = zlen (cstr s1)) by lia. assert (i = zlen (cstr s2)) by (rewrite E in *; lia).
      assert (at_ s1 i = 0) by (apply N1; lia). assert (at_ s2 i = 0) by (apply N2; lia). congruence.
Qed.

(** strcpy to the left within one array: the string moves down, the rest of
    the array stays. *)
Lemma ece391_strcpy_ok a n src : 0 <= src -> src + n < zlen a -> 0 <= n ->
  at_ a (src + n) = 0 -> (forall j, 0 <= j < n -> at_ a (src + j) <> 0) ->
  ece391_strcpy a 0 src = Ok (take (Z.to_nat (n + 1)) (drop (Z.to_nat src) a) ++ drop (Z.to_nat (n + 1)) a).
Proof.
  intros Hs Hn Hn0 Hz Hnz. apply wp_eq. unfold ece391_strcpy.
  apply (wp_loop (fun '(d, c, b) => 0 <= d <= n /\ c = src + d /\ length b = length a /\
      forall j, 0 <= j < zlen a -> at_ b j = if decide (j < d) then at_ a (src + j) else at_ a j)
    (fun '(d, _, _) => Z.to_nat (n - d))).
  - split; [lia|]. split; [lia|]. split; [done|]. intros j Hj. by rewrite decide_False by lia.
  - lia.
  - intros [[d c] b] (Hd & -> & Hl & Hb). wp_step. wp_step. rewrite Hb by lia.
    rewrite decide_False by lia. wp_step. rewrite wr_ok by lia. wp_step. wp_step.
    assert (Hupd : forall j, 0 <= j < zlen a -> at_ (upd b d (at_ a (src + d))) j =
      if decide (j < d + 1) then at_ a (src + j) else at_ a j).
    { intros j Hj. rewrite at_upd, Hb by lia. repeat case_decide; try lia; try done. by subst. }
    case_decide as Hc.
    + assert (d <> n) by (intros ->; done). split; [|lia]. split; [lia|]. split; [lia|].
      split; [by rewrite length_upd|done].
    + assert (d = n) as -> by (destruct (decide (d = n)); [done|]; by destruct (Hnz d); [lia|]).
      apply at_ext; [rewrite length_upd, length_app, length_take, !length_drop; lia|].
      intros j Hj. rewrite length_upd in Hj. rewrite Hupd by lia.
      rewrite at_app by lia. rewrite length_take, length_drop. case_decide.
      * rewrite decide_True, at_take, at_drop by lia. f_equal. lia.
      * rewrite decide_False, at_drop by lia. f_equal. lia.
Qed.
