(* ===== verification/Programs.v ===== *)
(** The user programs of [src/syscalls]: [cat], [ls], [hello], [testprint],
    [counter], [grep], [shell], [pingpong] and [sigtest]; [main] of program
    [p] is [p_main].

    A program runs over the stubs of [UserLib]; its uninitialised arrays are
    arguments.  [w i] is what happens around the kernel during its [i]-th
    waiting call.  A loop whose length the program does not bound takes its
    fuel as an argument. *)

From S2P Require Import Prelude Hardware CLib Screen Paging Kernel Process Exceptions Waiting Syscall UserLib.

Definition BUFSIZE := 1024.
Definition SBUFSIZE := 33.

Section programs.
Variables (w : nat -> surroundings) (fr : frame).
Abbreviation fdputs := (ece391_fdputs (w 0%nat) fr).
Abbreviation sys_read := (ece391_read (w 0%nat) fr).
Abbreviation sys_write := (ece391_write (w 0%nat) fr).
Abbreviation sys_open := (ece391_open (w 0%nat) fr).
Abbreviation sys_close := (ece391_close (w 0%nat) fr).
Abbreviation sys_getargs := (ece391_getargs (w 0%nat) fr).

(** * ece391cat.c *)
Definition cat_loop (fuel : nat) (fd : Z) (buf : list Z) : K Z :=
  kloop fuel (fun buf =>
    '(cnt, buf) ← sys_read fd buf 1024;
    if decide (cnt = 0) then mret (inr 0) else
    if decide (cnt = -1) then
      _ ← fdputs 1 (litln "file read failed"); mret (inr 3)
    else
      r ← sys_write 1 buf cnt;
      mret (if decide (r = -1) then inr 3 else inl buf)) buf.

Definition cat_main (fuel : nat) (buf : list Z) : K Z :=
  '(r, buf) ← sys_getargs buf 1024;
  if decide (r <> 0) then
    _ ← fdputs 1 (litln "could not read arguments"); mret 3
  else
    fd ← sys_open buf;
    if decide (fd = -1) then
      _ ← fdputs 1 (litln "file not found"); mret 2
    else cat_loop fuel fd buf.

(** * ece391ls.c *)
Definition ls_loop (fuel : nat) (fd : Z) (buf : list Z) : K Z :=
  kloop fuel (fun buf =>
    '(cnt, buf) ← sys_read fd buf (SBUFSIZE - 1);
    if decide (cnt = 0) then mret (inr 0) else
    if decide (cnt = -1) then
      _ ← fdputs 1 (litln "directory entry read failed"); mret (inr 3)
    else
      buf ← lift (wr buf cnt 10);
      r ← sys_write 1 buf (cnt + 1);
      mret (if decide (r = -1) then inr 3 else inl buf)) buf.

Definition ls_main (fuel : nat) (buf : list Z) : K Z :=
  fd ← sys_open (lit ".");
  if decide (fd = -1) then
    _ ← fdputs 1 (litln "directory open failed"); mret 2
  else ls_loop fuel fd buf.

(** * ece391hello.c, ece391testprint.c *)
Definition hello_main (buf : list Z) : K Z :=
  _ ← fdputs 1 (lit "Hi, what's your name? ");
  '(cnt, buf) ← sys_read 0 buf (BUFSIZE - 1);
  if decide (cnt = -1) then
    _ ← fdputs 1 (litln "Can't read name from keyboard."); mret 3
  else
    buf ← lift (wr buf cnt 0);
    _ ← fdputs 1 (lit "Hello, ");
    _ ← fdputs 1 buf;
    mret 0.

Definition testprint_main : K Z :=
  _ ← fdputs 1 (litln "Hello, if this ran, the program was correct. Yay!"); mret 0.

(** * ece391counter.c

    [cnt] is unsigned. *)
Definition counter_loop (max : Z) (buf : list Z) : K Z :=
  kloop (Datatypes.S (Z.to_nat max)) (fun '(i, buf) =>
    if decide (i < max) then
      buf ← lift (ece391_itoa (u32 (i + 1)) buf 10);
      _ ← fdputs 1 buf;
      _ ← fdputs 1 (litln "");
      mret (inl (u32 (i + 1), buf))
    else mret (inr 0)) (0, buf).

Definition counter_main (buf : list Z) : K Z :=
  _ ← fdputs 1 (litln "Enter the Test Number: (0): 100, (1): 10000, (2): 100000");
  '(cnt, buf) ← sys_read 0 buf (BUFSIZE - 1);
  let cnt := u32 cnt in
  if decide (cnt = u32 (-1)) then
    _ ← fdputs 1 (litln "Can't read the number from keyboard."); mret 3
  else
    buf ← lift (wr buf cnt 0);
    len ← lift (ece391_strlen buf);
    c ← lift (rd buf 0);
    if decide (len > 1 \/ (len = 1 /\ (c < 48 \/ c > 50))) then
      _ ← fdputs 1 (litln "Wrong Choice!"); mret 0
    else
      counter_loop (if decide (c = 48) then 100 else if decide (c = 49) then 10000
                    else if decide (c = 50) then 100000 else 0) buf.

(** * ece391grep.c *)

(** The first newline from [line_end] on, or [last]. *)
Definition find_newline (data : list Z) (line_end last : Z) : outcome Z :=
  loop (Datatypes.S (length data)) (fun line_end =>
    if decide (line_end < last) then
      c ← rd data line_end;
      mret (if decide (c <> 10) then inl (line_end + 1) else inr line_end)
    else mret (inr line_end)) line_end.

(** [&data[check]] as an array of its own. *)
Definition from (i : Z) (data : list Z) : list Z := drop (Z.to_nat i) data.

(** Prints the line from [line_start] if [str] is in it. *)
Definition search_line (str fname data : list Z) (s_len line_start line_end : Z) : K unit :=
  kloop (Datatypes.S (length data)) (fun check =>
    if decide (check < line_end) then
      s0 ← lift (rd str 0);
      c ← lift (rd data check);
      found ← lift (if decide (s0 = c) then
                      r ← ece391_strncmp (from check data) str (u32 s_len); mret (bool_decide (r = 0))
                    else mret false);
      if (found : bool) then
        _ ← fdputs 1 fname;
        _ ← fdputs 1 (lit ":");
        _ ← fdputs 1 (from line_start data);
        _ ← fdputs 1 (litln "");
        mret (inr tt)
      else mret (inl (check + 1))
    else mret (inr tt)) line_start.

(** The lines of the buffer; what is left of the last one moves to its
    front.  Returns the buffer and the new [last]. *)
Definition search_lines (str fname : list Z) (s_len cnt : Z) (data : list Z) (last : Z) : K (list Z * Z) :=
  kloop (Datatypes.S (length data)) (fun '(line_start, data) =>
    line_end ← lift (find_newline data line_start last);
    c ← lift (rd data line_end);
    if decide (c <> 10 /\ cnt <> 0 /\ line_start <> 0) then
      data ← lift (wr data line_end 0);
      data ← lift (ece391_strcpy data 0 line_start);
      mret (inr (data, last - line_start))
    else
      data ← lift (wr data line_end 0);
      _ ← search_line str fname data s_len line_start line_end;
      let line_start := line_end + 1 in
      mret (if decide (line_start >= last) then inr (data, 0) else inl (line_start, data)))
    (0, data).

(** Reads the file behind what is in the buffer, until its end. *)
Definition file_loop (s : surroundings) (fuel : nat) (str fname : list Z) (s_len fd : Z) : Z * list Z -> K Z :=
  kloop fuel (fun '(last, data) =>
    '(cnt, tail) ← ece391_read s fr fd (from last data) (BUFSIZE - last);
    let data := take (Z.to_nat last) data ++ tail in
    if decide (cnt = -1) then
      _ ← fdputs 1 (litln "file read failed"); mret (inr (-1))
    else
      '(data, last) ← search_lines str fname s_len cnt data (last + cnt);
      mret (if decide (cnt = 0) then inr 0 else inl (last, data))).

Definition do_one_file (s : surroundings) (fuel : nat) (str fname data : list Z) : K Z :=
  s_len ← lift (ece391_strlen str);
  let s_len := i32 s_len in
  fd ← sys_open fname;
  if decide (fd = -1) then
    _ ← fdputs 1 (litln "file open failed"); mret (-1)
  else
    r ← file_loop s fuel str fname s_len fd (0, data);
    if decide (r = -1) then mret (-1) else
    c ← sys_close fd;
    if decide (c = -1) then
      _ ← fdputs 1 (litln "file close failed"); mret (-1)
    else mret 0.

(** The files of the directory: [data i] is what the stack holds where the
    [i]-th file's array is, [n] bounds the reads of a file. *)
Definition grep_loop (n fuel : nat) (fd : Z) (search : list Z) (data : nat -> list Z) : nat * list Z -> K Z :=
  kloop fuel (fun '(i, buf) =>
    '(cnt, buf) ← sys_read fd buf (SBUFSIZE - 1);
    if decide (cnt = 0) then mret (inr 0) else
    if decide (cnt = -1) then
      _ ← fdputs 1 (litln "directory entry read failed"); mret (inr 3)
    else
      c ← lift (rd buf 0);
      if decide (c = 46) then mret (inl (i, buf)) else
      buf ← lift (wr buf cnt 0);
      r ← do_one_file (w i) n search buf (data i);
      mret (if decide (r <> 0) then inr 3 else inl (Datatypes.S i, buf))).

Definition grep_main (fuel : nat) (buf search : list Z) (data : nat -> list Z) : K Z :=
  '(r, search) ← sys_getargs search BUFSIZE;
  if decide (r <> 0) then
    _ ← fdputs 1 (litln "could not read argument"); mret 3
  else
    fd ← sys_open (lit ".");
    if decide (fd = -1) then
      _ ← fdputs 1 (litln "directory open failed"); mret 2
    else grep_loop fuel fuel fd search data (0%nat, buf).

(** * ece391shell.c *)
Section shell.
Variable code : Z -> K Z.

(** One line: [None] to go on, the shell's return value otherwise. *)
Definition shell_turn (i : nat) (buf : list Z) : K (option Z * list Z) :=
  _ ← fdputs 1 (lit "391OS> ");
  '(cnt, buf) ← ece391_read (w i) fr 0 buf (BUFSIZE - 1);
  if decide (cnt = -1) then
    _ ← fdputs 1 (litln "read from keyboard failed"); mret (Some 3, buf)
  else
    c ← lift (if decide (cnt > 0) then rd buf (cnt - 1) else mret 0);
    let cnt := if decide (cnt > 0 /\ c = 10) then cnt - 1 else cnt in
    buf ← lift (wr buf cnt 0);
    r ← lift (ece391_strcmp buf (lit "exit"));
    if decide (r = 0) then mret (Some 0, buf) else
    c ← lift (rd buf 0);
    if decide (c = 0) then mret (None, buf) else
    rval ← ece391_execute (w i) fr code buf;
    _ ← (if decide (rval = -1) then fdputs 1 (litln "no such command")
         else if decide (rval = 256) then fdputs 1 (litln "program terminated by exception")
         else if decide (rval <> 0) then fdputs 1 (litln "program terminated abnormally")
         else mret tt);
    mret (None, buf).

Definition shell_main (fuel : nat) (buf : list Z) : K Z :=
  _ ← fdputs 1 (litln "Starting 391 Shell");
  kloop fuel (fun '(i, buf) =>
    '(r, buf) ← shell_turn i buf;
    mret (match r with Some v => inr v | None => inl (Datatypes.S i, buf) end)) (0%nat, buf).
End shell.

(** * ece391pingpong.c *)
Definition SCREENWIDTH := 79.
Definition ENDING := 2.
Definition BUFMAX := SCREENWIDTH + ENDING.
Definition START := 1.
Definition STARTLOOP := START + 1.
Definition LOOPMAX := BUFMAX - ENDING - 1.
Definition STARTCHAR := 65.
Definition ENDCHAR := 90.

Definition fill_blank (lo hi : Z) (buf : list Z) : outcome (list Z) :=
  loop (Datatypes.S (length buf)) (fun '(i, buf) =>
    if decide (i < hi) then buf ← wr buf i 32; mret (inl (i + 1, buf)) else mret (inr buf)) (lo, buf).

Definition pingpong_walls (buf : list Z) : outcome (list Z) :=
  buf ← fill_blank 0 BUFMAX buf;
  buf ← wr buf (BUFMAX - 1) 0;
  buf ← wr buf (BUFMAX - 2) 10;
  buf ← wr buf (BUFMAX - 3) 124;
  wr buf START 124.

(** The ball at [j], then a wait for the clock. *)
Definition pingpong_draw (s : surroundings) (rtc_fd j curchar : Z) (buf : list Z) : K (list Z) :=
  buf ← lift (fill_blank STARTLOOP LOOPMAX buf);
  buf ← lift (wr buf j curchar);
  _ ← fdputs 1 buf;
  _ ← ece391_read s fr rtc_fd (replicate 4 0) 4;
  mret buf.

(** There and back: 76 draws each way, from the [i]-th wait on. *)
Definition pingpong_round (rtc_fd : Z) (i : nat) (curchar : Z) (buf : list Z) : K (list Z) :=
  buf ← kloop 77 (fun '(i, j, buf) =>
    if decide (j < LOOPMAX) then
      buf ← pingpong_draw (w i) rtc_fd j curchar buf; mret (inl (Datatypes.S i, j + 1, buf))
    else mret (inr buf)) (i, STARTLOOP, buf);
  kloop 77 (fun '(i, j, buf) =>
    if decide (j >= STARTLOOP) then
      buf ← pingpong_draw (w i) rtc_fd j curchar buf; mret (inl (Datatypes.S i, j - 1, buf))
    else mret (inr buf)) ((i + 76)%nat, LOOPMAX - 1, buf).

(** It never returns: the fuel counts rounds. *)
Definition pingpong_main (fuel : nat) (buf : list Z) : K Z :=
  buf ← lift (pingpong_walls buf);
  rtc_fd ← sys_open (lit "rtc");
  _ ← sys_write rtc_fd [32; 0; 0; 0] 4;
  kloop fuel (fun '(i, curchar, buf) =>
    buf ← pingpong_round rtc_fd i curchar buf;
    mret (inl ((i + 152)%nat, if decide (curchar = ENDCHAR) then STARTCHAR else u8 (curchar + 1), buf)))
    (0%nat, STARTCHAR, buf).

(** * ece391sigtest.c

    [badbuf] is NULL: the store is a page fault at address 0 unless that
    address is mapped for the user. *)
Definition SEGFAULT := 1.
Definition ALARM := 3.

Definition user_store (v b : Z) : K unit := fun k =>
  match translate (page_directory_at (link k)) (page_table_at (link k)) (user_page_table_at (link k)) (paging k) v with
  | Some (Mapped a true) => on_lib (fun s => set_mem (put (lib_mem s) a b) s) k
  | _ => (_ ← exception_n 14 fr v; mret tt) k
  end.

Definition print_signum (signum : Z) : K unit :=
  if decide (signum = 0) then fdputs 1 (litln "0")
  else if decide (signum = 1) then fdputs 1 (litln "1")
  else if decide (signum = 2) then fdputs 1 (litln "2")
  else if decide (signum = 3) then fdputs 1 (litln "3")
  else fdputs 1 (litln "invalid").

Definition alarm_sighandler (signum : Z) : K unit :=
  _ ← fdputs 1 (lit "Alarm signal handler called, signum: ");
  print_signum signum.

(** [stack] holds the words from [&signum] on: the handler overwrites the
    eighth, where the interrupted program's EAX was saved, with
    [charbuf_at], the address of [charbuf].  Returns the new [badbuf] too. *)
Definition segfault_sighandler (charbuf_at : Z) (buf stack : list Z) : K (Z * list Z) :=
  signum ← lift (rd stack 0);
  _ ← fdputs 1 (lit "Segfault signal handler called, signum: ");
  _ ← print_signum signum;
  _ ← fdputs 1 (litln "Press enter to continue...");
  _ ← sys_read 0 buf 1;
  stack ← lift (wr stack 7 charbuf_at);
  _ ← fdputs 1 (litln "Signal handler returning");
  mret (charbuf_at, stack).

(** [segv] and [alrm] are the addresses of the handlers, [charbuf] the
    global. *)
Definition sigtest_main (segv alrm charbuf : Z) (buf : list Z) : K Z :=
  '(r, buf) ← sys_getargs buf BUFSIZE;
  if decide (r <> 0) then
    _ ← fdputs 1 (litln "could not read argument"); mret 3
  else
    c ← lift (rd buf 0);
    _ ← (if decide (c = 49) then
           _ ← fdputs 1 (litln "Installing signal handlers");
           _ ← ece391_set_handler (w 0%nat) fr SEGFAULT segv;
           _ ← ece391_set_handler (w 0%nat) fr ALARM alrm;
           mret tt
         else mret tt);
    _ ← fdputs 1 (lit "Hi, what's your name? ");
    '(cnt, buf) ← sys_read 0 buf (BUFSIZE - 1);
    if decide (cnt = -1) then
      _ ← fdputs 1 (litln "Can't read name from keyboard."); mret 3
    else
      _ ← user_store 0 1;
      buf ← lift (wr buf cnt 0);
      _ ← fdputs 1 (lit "Hello, ");
      _ ← fdputs 1 buf;
      _ ← (if decide (charbuf = 1) then fdputs 1 (litln "success") else fdputs 1 (litln "failure"));
      mret 0.
End programs.
