(* ===== verification/Syserr.v ===== *)
(** The program that tests the system calls' error paths
    ([syscalls/ece391syserr.c]), and what it prints. *)

From S2P Require Import Prelude Hardware CLib Screen Kernel Process Waiting Syscall UserLib.

Definition NEG_FD := -1073741823.
Definition BIG_FD := 1073741823.
Definition BIG_NUM := 1073741823.
Definition NEG_NUM := -1073741823.

Section syserr.
Variables (w : nat -> surroundings) (fr : frame).
Abbreviation s := (w 0%nat).
Abbreviation fdputs := (ece391_fdputs s fr).

(** A call that has to fail: [fail] becomes 2, with a message, when its
    value is not -1. *)
Definition must_fail (v : Z) (message : string) (fail : Z) : K Z :=
  if decide (v <> -1) then _ ← fdputs 1 (litln message); mret 2 else mret fail.
Definition report (fail : Z) (name : string) : K Z :=
  _ ← (if decide (fail <> 0) then fdputs 1 (litln (name ++ ": FAIL"))
       else fdputs 1 (litln (name ++ ": PASS")));
  mret fail.

Definition call_sys (num : Z) : K Z :=
  '(v, _) ← int80 s fr num (mkRegs 0 0 0 None None); mret v.

(** [buf] is the uninitialised local of each test. *)
Definition bad_fd_calls (fd : Z) (name : string) (buf : list Z) : K Z :=
  '(v, buf) ← ece391_read s fr fd buf 31;
  fail ← must_fail v "read fail" 0;
  v ← ece391_write s fr fd buf 31;
  fail ← must_fail v "write fail" fail;
  v ← ece391_close s fr fd;
  fail ← must_fail v "close fail" fail;
  report fail name.
Definition err_neg_fd (buf : list Z) : K Z := bad_fd_calls NEG_FD "err_neg_fd" buf.
Definition err_big_fd (buf : list Z) : K Z := bad_fd_calls BIG_FD "err_big_fd" buf.

Definition err_open_lots : K Z :=
  cnt ← kloop 8 (fun '(i, cnt) =>
    if decide (i < 7) then
      fd ← ece391_open s fr (lit ".");
      mret (inl (i + 1, if decide (fd = -1) then cnt + 1 else cnt))
    else mret (inr cnt)) (0, 0);
  _ ← kloop 7 (fun i =>
    if decide (i < 8) then _ ← ece391_close s fr i; mret (inl (i + 1)) else mret (inr tt)) 2;
  if decide (cnt = 1) then _ ← fdputs 1 (litln "err_open_lots: PASS"); mret 0
  else _ ← fdputs 1 (litln "err_open_lots: FAIL"); mret 2.

Definition err_open : K Z :=
  v ← ece391_open s fr (lit "helloo");
  fail ← must_fail v "'helloo' fail" 0;
  v ← ece391_open s fr (lit "shel");
  fail ← must_fail v "'shel' fail" fail;
  v ← ece391_open s fr (lit "");
  fail ← must_fail v "empty string fail" fail;
  report fail "err_open".

(** for (i = lo; i < 8; i++) if (-1 != call(i, buf)) ... *)
Definition each_fd (lo : Z) (call : Z -> list Z -> K (Z * list Z)) (message : string)
    (fail : Z) (buf : list Z) : K (Z * list Z) :=
  kloop 9 (fun '(i, fail, buf) =>
    if decide (i < 8) then
      '(v, buf) ← call i buf;
      fail ← must_fail v message fail;
      mret (inl (i + 1, fail, buf))
    else mret (inr (fail, buf))) (lo, fail, buf).

Definition err_unopened (buf : list Z) : K Z :=
  '(fail, buf) ← each_fd 0 (fun i buf => v ← ece391_close s fr i; mret (v, buf))
                   "close unopened or invalid fd fail" 0 buf;
  '(fail, buf) ← each_fd 2 (fun i buf => ece391_read s fr i buf 31)
                   "read from unopened fd fail" fail buf;
  '(fail, buf) ← each_fd 2 (fun i buf => v ← ece391_write s fr i buf 31; mret (v, buf))
                   "write to unopened fd fail" fail buf;
  report fail "err_unopened".

Definition err_vidmap : K Z :=
  v ← ece391_vidmap s fr 0;
  fail ← must_fail v "Null pointer fail" 0;
  v ← ece391_vidmap s fr 0x400000;
  fail ← must_fail v "Kernel pointer fail fail" fail;
  report fail "err_vidmap".

Definition err_stdin_out (buf : list Z) : K Z :=
  v ← ece391_write s fr 0 buf 31;
  fail ← must_fail v "write to stdin fail" 0;
  '(v, _) ← ece391_read s fr 1 buf 31;
  fail ← must_fail v "read from stdout fail" fail;
  report fail "err_stdin_out".

Definition err_syscall_num : K Z :=
  v ← call_sys BIG_NUM;
  fail ← must_fail v "syscall 0 fail" 0;
  v ← call_sys NEG_NUM;
  fail ← must_fail v "big num syscall fail" fail;
  v ← call_sys 0;
  fail ← must_fail v "neg num syscall fail" fail;
  report fail "err_syscall_num".

Definition all_tests (b1 b2 b5 b7 : list Z) : K Z :=
  f1 ← err_neg_fd b1;
  f2 ← err_big_fd b2;
  f3 ← err_open_lots;
  f4 ← err_open;
  f5 ← err_unopened b5;
  f6 ← err_vidmap;
  f7 ← err_stdin_out b7;
  f8 ← err_syscall_num;
  let fail := f1 + f2 + f3 + f4 + f5 + f6 + f7 + f8 in
  _ ← (if decide (fail <> 0) then fdputs 1 (10 :: litln "Overall Tests: FAIL")
       else fdputs 1 (10 :: litln "Overall Tests: PASS"));
  mret fail.

Definition syserr_main (buf b1 b2 b5 b7 : list Z) : K Z :=
  _ ← fdputs 1 (lit "Choose from tests 1-8. 0 to run all: ");
  '(cnt, buf) ← ece391_read s fr 0 buf 127;
  if decide (cnt = -1) then
    _ ← fdputs 1 (litln "Can't read test #"); mret 2
  else
    c ← lift (rd buf 0);
    let select := c - 48 in
    if decide (select = 0) then all_tests b1 b2 b5 b7
    else if decide (select = 1) then err_neg_fd b1
    else if decide (select = 2) then err_big_fd b2
    else if decide (select = 3) then err_open_lots
    else if decide (select = 4) then err_open
    else if decide (select = 5) then err_unopened b5
    else if decide (select = 6) then err_vidmap
    else if decide (select = 7) then err_stdin_out b7
    else if decide (select = 8) then err_syscall_num
    else
      _ ← fdputs 1 (lit "Invalid test number. Choose from tests 1-8 or 0");
      mret 0.
End syserr.
