(* ===== verification/Emulate.v ===== *)
(** The system calls emulated on a Linux host ([syscalls/ece391emulate.c]),
    which lets the user programs be tried outside the kernel: how a command
    line becomes an argument vector, how getargs puts it together again, and
    directories read name by name.

    The host's calls are parameters. *)

From S2P Require Import Prelude CLib UserLib.

(** ece391_strcpy from the array [src] to offset [dst] of the array [a]. *)
Definition ece391_strcpy (a : list Z) (dst : Z) (src : list Z) : outcome (list Z) :=
  loop (Datatypes.S (length src)) (fun '(i, a) =>
    c ← rd src i;
    a ← wr a (dst + i) c;
    mret (if decide (c <> 0) then inl (i + 1, a) else inr a)) (0, a).

(** * ece391_execute *)

Definition ends_word (c : Z) : Prop := c = 0 \/ c = 32 \/ c = 10.
#[export] Instance ends_word_dec c : Decision (ends_word c) := _.

Definition skip_word (buf : list Z) (scan : Z) : outcome Z :=
  loop (Datatypes.S (length buf)) (fun scan =>
    c ← rd buf scan;
    mret (if decide (ends_word c) then inr scan else inl (scan + 1))) scan.
Definition skip_blanks (buf : list Z) (scan : Z) : outcome Z :=
  loop (Datatypes.S (length buf)) (fun scan =>
    c ← rd buf scan;
    mret (if decide (c = 32) then inl (scan + 1) else inr scan)) scan.

(** One round of the loop over the words after the first: [args] is the
    array of pointers into [buf]. *)
Definition next_argument : Z * list Z * list Z * Z ->
    outcome (Z * list Z * list Z * Z + Z * list Z * list Z) := fun '(n_arg, args, buf, scan) =>
  scan ← skip_blanks buf scan;
  c ← rd buf scan;
  if decide (c = 0 \/ c = 10) then
    buf ← wr buf scan 0; mret (inr (n_arg, args, buf))
  else
    args ← wr args n_arg scan;
    let n_arg := n_arg + 1 in
    scan ← skip_word buf scan;
    c ← rd buf scan;
    if decide (c <> 0) then
      buf ← wr buf scan 0; mret (inl (n_arg, args, buf, scan + 1))
    else mret (inl (n_arg, args, buf, scan)).
Definition parse_arguments (buf args : list Z) (n_arg scan : Z) : outcome (Z * list Z * list Z) :=
  loop (Datatypes.S (length buf)) next_argument (n_arg, args, buf, scan).

(** [buf], [args] are the uninitialised locals; the result is the argument
    vector's offsets and the buffer they point into. *)
Definition split_command (buf args command : list Z) : outcome (list Z * list Z) :=
  buf ← wr buf 0 46;
  buf ← wr buf 1 47;
  buf ← ece391_strcpy buf 2 command;
  scan ← skip_word buf 2;
  args ← wr args 0 0;
  c ← rd buf scan;
  '(n_arg, args, buf) ←
    (if decide (c <> 0) then
       buf ← wr buf scan 0;
       parse_arguments buf args 1 (scan + 1)
     else mret (1, args, buf));
  if decide (n_arg < zlen args) then mret (take (Z.to_nat n_arg) args, buf) else Fault.

(** How a process ends, as [wait] tells. *)
Inductive wait_status : Type := Exited (code : Z) | Signalled (signal : Z).

Definition wait_result (s : wait_status) : Z :=
  match s with
  | Exited code => code
  | Signalled s => if decide (s = 9) then -1 else 256
  end.

(** [run argv] is what becomes of a process with these arguments, of which
    the first is the file; one that cannot be executed kills itself. *)
Definition ece391_execute (run : list (list Z) -> wait_status) (buf args command : list Z) : outcome Z :=
  n ← ece391_strlen command;
  if decide (1023 < n) then mret (-1) else
  '(argv, buf) ← split_command buf args command;
  mret (wait_result (run ((fun a => cstr (drop (Z.to_nat a) buf)) <$> argv))).

(** * ece391_getargs *)
(** One round of the loop over the arguments: [at_b] is where [buf] has got
    to; [inl] is the error return. *)
Definition next_copy (argv : list (list Z)) : Z * Z * list Z * Z ->
    outcome (Z * Z * list Z * Z + (list Z + Z * list Z * Z)) := fun '(idx, at_b, buf, nbytes) =>
  if decide (idx < zlen argv) then
    s ← rd argv idx;
    len ← ece391_strlen s;
    if decide (i32 len > nbytes) then mret (inr (inl buf)) else
    buf ← ece391_strcpy buf at_b s;
    let at_b := at_b + i32 len in
    let nbytes := nbytes - i32 len in
    let idx := idx + 1 in
    if decide (idx >= zlen argv) then mret (inr (inr (at_b, buf, nbytes))) else
    if decide (nbytes < 1) then mret (inr (inl buf)) else
    buf ← wr buf at_b 32;
    mret (inl (idx, at_b + 1, buf, nbytes - 1))
  else mret (inr (inr (at_b, buf, nbytes))).

Definition ece391_getargs (argv : list (list Z)) (buf : list Z) (nbytes : Z) : outcome (Z * list Z) :=
  r ← loop (Datatypes.S (length argv)) (next_copy argv) (1, 0, buf, nbytes);
  match r with
  | inl buf => mret (-1, buf)
  | inr (at_b, buf, nbytes) =>
      if decide (nbytes < 1) then mret (-1, buf) else
      buf ← wr buf at_b 0; mret (0, buf)
  end.

(** * Directories, memory and the calls handed through *)

(** [dir] and [dir_fd]: the directory being read and the descriptor that
    stands for it; [mem_fd]: the descriptor of the host's memory device. *)
Record emulation {D : Type} : Type := mkEmulation {
  dir : option D;
  dir_fd : Z;
  mem_fd : Z;
}.
Arguments emulation : clear implicits.

Definition with_dir {D} (d : option D) (fd : Z) (e : emulation D) : emulation D :=
  mkEmulation _ d fd (mem_fd e).
Definition with_mem_fd {D} (fd : Z) (e : emulation D) : emulation D :=
  mkEmulation _ (dir e) (dir_fd e) fd.

Section host.
Context {D H : Type}.
(* the host's system calls (raw results) and C library; the flag of the
   library's open tells whether it is also for writing *)
Variable opendir : H -> option D * H.
Variable readdir : D -> H -> option (list Z) * D * H.
Variable closedir : D -> H -> H.
Variable libc_open : list Z -> bool -> H -> Z * H.
Variable host_open : list Z -> H -> Z * H.
Variable host_read : Z -> list Z -> Z -> H -> Z * list Z * H.
Variable host_write : Z -> list Z -> Z -> H -> Z * H.
Variable host_close : Z -> H -> Z * H.
Variable mmap : Z -> H -> option Z * H.
Variable perror : H -> H.

(** The host reports an error as one of the top 16 K values. *)
Definition host_result (v : Z) : Z := if decide (u32 v > 0xFFFFC000) then -1 else i32 v.

Definition ece391_open (filename : list Z) (e : emulation D) (h : H) : outcome (Z * emulation D * H) :=
  r ← ece391_strcmp filename (lit ".");
  if decide (r = 0) then
    let '(d, h) := opendir h in
    let '(fd, h) := libc_open (lit "/dev/null") false h in
    mret (fd, with_dir d fd e, h)
  else let '(v, h) := host_open filename h in mret (host_result v, e, h).

Definition own_dir (e : emulation D) (fd : Z) : option D :=
  match dir e with Some d => if decide (dir_fd e = fd) then Some d else None | None => None end.

(** The name, cut at 32 bytes and padded with NULs. *)
Definition copy_dirent (name buf : list Z) (nbytes : Z) : outcome (Z * list Z) :=
  r ← loop (Datatypes.S (length name)) (fun '(copied, buf) =>
    c ← rd name copied;
    if decide (c <> 0) then
      buf ← wr buf copied c;
      let copied := copied + 1 in
      if decide (copied = nbytes) then mret (inr (inr (nbytes, buf))) else
      if decide (copied = 32) then mret (inr (inr (32, buf))) else mret (inl (copied, buf))
    else mret (inr (inl (copied, buf)))) (0, buf);
  match r with
  | inr out => mret out
  | inl (copied, buf) =>
      loop 33 (fun '(copied, buf) =>
        if decide (nbytes > copied /\ 32 > copied) then
          buf ← wr buf copied 0; mret (inl (copied + 1, buf))
        else mret (inr (copied, buf))) (copied, buf)
  end.

Definition ece391_read (fd : Z) (buf : list Z) (nbytes : Z) (e : emulation D) (h : H)
    : outcome (Z * list Z * emulation D * H) :=
  match own_dir e fd with
  | None => let '(v, buf, h) := host_read fd buf nbytes h in mret (host_result v, buf, e, h)
  | Some d =>
      match readdir d h with
      | (None, d, h) => mret (0, buf, with_dir (Some d) (dir_fd e) e, h)
      | (Some name, d, h) =>
          '(n, buf) ← copy_dirent name buf nbytes;
          mret (n, buf, with_dir (Some d) (dir_fd e) e, h)
      end
  end.

Definition ece391_write (fd : Z) (buf : list Z) (nbytes : Z) (e : emulation D) (h : H) : Z * H :=
  match own_dir e fd with
  | None => let '(v, h) := host_write fd buf nbytes h in (host_result v, h)
  | Some _ => (-1, h)
  end.

Definition ece391_close (fd : Z) (e : emulation D) (h : H) : Z * emulation D * H :=
  match own_dir e fd with
  | None => let '(v, h) := host_close fd h in (host_result v, e, h)
  | Some d =>
      let h := closedir d h in
      let '(_, h) := host_close (dir_fd e) h in
      (0, with_dir None (-1) e, h)
  end.

(** The address stored in [screen_start], if any. *)
Definition ece391_vidmap (e : emulation D) (h : H) : Z * option Z * emulation D * H :=
  let '(e, h) :=
    if decide (mem_fd e = -1) then
      let '(fd, h) := libc_open (lit "/dev/mem") true h in (with_mem_fd fd e, h)
    else (e, h) in
  match mmap (mem_fd e) h with
  | (None, h) => (-1, None, e, perror h)
  | (Some mem_image, h) => (0, Some (mem_image + 0xb8000), e, h)
  end.
End host.
