(* ===== verification/UserSpec.v ===== *)
(** What the system-call stubs do for a program: the calls of [UserLib] seen
    from a process that has its terminal open. *)

From S2P Require Import Prelude Hardware CLib Screen Printf FileSystem Paging Kernel FdTable Drivers.
From S2P Require Import Streams Process Waiting Syscall SyscallSpec Vidmap UserLib.

(** Two computations that agree in the state at hand. *)
Lemma kwp_at {A} (m m' : K A) Q J k : m k = m' k -> kwp m' Q J k -> kwp m Q J k.
Proof. unfold kwp. by intros ->. Qed.

(** * Output *)

(** The console showed [out] and nothing else happened. *)
Definition prints (out : list Z) (k k' : kernel) : Prop := shows (t_puts out (view (lib k))) k k'.

Lemma with_lib_id k : with_lib (lib k) k = k.
Proof. by destruct k. Qed.

Lemma prints_nil k : con_wf (lib k) -> prints [] k k.
Proof. intros W. exists (lib k). split; [by rewrite with_lib_id|]. by constructor. Qed.

Lemma prints_app a b k k1 k2 : prints a k k1 -> prints b k1 k2 -> prints (a ++ b) k k2.
Proof.
  intros (s1 & -> & S1) (s2 & -> & S2). exists s2. split; [done|]. rewrite t_puts_app.
  simpl in S2. destruct S1 as [W1 F1 V1]. rewrite V1 in S2.
  eapply con_spec_trans; [|exact S2]. by constructor.
Qed.

Lemma prints_wf out k k' : prints out k k' -> con_wf (lib k').
Proof. intros (s & -> & []). done. Qed.
Lemma prints_if out k k' : prints out k k' -> if_flag (lib_io (lib k')) = if_flag (lib_io (lib k)).
Proof. intros (s & -> & [_ F _]). apply F. Qed.
Lemma prints_rest out k k' : prints out k k' -> k' = with_lib (lib k') k.
Proof. by intros (s & -> & _). Qed.
Lemma prints_fs out k k' : prints out k k' -> fs k' = fs k.
Proof. by intros (s & -> & _). Qed.

(** * A process with its terminal *)

(** The lines terminal.c saves. *)
Definition saved_wf (l : list (list Z)) : Prop :=
  length l = Z.to_nat MAX_TERMINAL /\ Forall (fun row => length row = Z.to_nat TERM_BUFF_SIZE) l.

Record user (k : kernel) (i : Z) (p : pcb) : Prop := {
  us_run : running k i p;
  us_fds : length (fd_table p) = Z.to_nat MAX_OPEN_FILES;
  us_ops : ops_ready k;
  us_con : con_wf (lib k);
  us_out : open_on p 1 term_ops_table;
  us_saved : saved_wf (save_buff k);
}.

Lemma user_prints k i p out k' : user k i p -> prints out k k' -> user k' i p.
Proof.
  intros [R Hl Op W Ho Sv] (s & -> & S). constructor; try done.
  - by eapply fr_running.
  - by destruct Op.
  - apply S.
Qed.

(** Descriptor [j] replaced in the control block. *)
Definition with_fd (j : Z) (d : fd_t) (p : pcb) : pcb := set_fd_table (upd (fd_table p) j d) p.

Lemma user_put_fd k i p j d : user k i p -> 0 <= j < MAX_OPEN_FILES -> j <> 1 ->
  user (put_fd i p j d k) i (with_fd j d p).
Proof.
  intros [R Hl Op W (Ho & Hf & Ht) Sv] Hj Hne. constructor; try done.
  - by apply put_fd_running.
  - simpl. by rewrite length_upd.
  - by apply (put_fd_ops k i p j d R Hl).
  - unfold MAX_OPEN_FILES in *. repeat split; simpl; rewrite ?at_upd_ne by lia; done.
Qed.

(** * The stubs *)
Section stubs.
Variables (s : surroundings) (fr : frame).

Lemma with_same_if k : set_io (set_if (if_flag (lib_io (lib k))) (lib_io (lib k))) (lib k) = lib k.
Proof using Type. by destruct k as [? [? ? ? ? ? []] ? ? ? ? ? ? ? ? ? ?]. Qed.

(** A call that leaves the interrupt flag as it was. *)
Lemma int80_wp eax r Q J k :
  kwp (syscall_handler s fr eax r) (fun v k' =>
    if_flag (lib_io (lib k')) = if_flag (lib_io (lib k)) /\ Q v k') J k ->
  kwp (int80 s fr eax r) Q J k.
Proof using Type.
  intros H. unfold int80. kwp_steps. eapply kwp_mono; [exact H| |done].
  intros v k' [E HQ]. kwp_steps. by rewrite <- E, with_same_if, with_lib_id.
Qed.
Lemma int80_eq eax r v k k' : syscall_handler s fr eax r k = Ok (Returned v, k') ->
  if_flag (lib_io (lib k')) = if_flag (lib_io (lib k)) ->
  int80 s fr eax r k = Ok (Returned v, k').
Proof using Type.
  intros E Hi. apply kwp_ok, int80_wp. eapply kwp_eq; [exact E|]. done.
Qed.

(** Each stub in terms of the kernel's function. *)
Definition keeps_if (k k' : kernel) : Prop := if_flag (lib_io (lib k')) = if_flag (lib_io (lib k)).

Ltac stub := kwp_step; apply int80_wp; unfold syscall_handler;
  match goal with |- context [dispatch ?n] => let d := eval vm_compute in (dispatch n) in
    change (dispatch n) with d end;
  cbn [ebx ecx edx ebx_array ecx_array].

Lemma read_wp fd buf n Q J k :
  kwp (read s (i32 fd) (Some buf) (i32 n)) (fun r k' => keeps_if k k' /\ Q (r.1, default buf r.2) k') J k ->
  kwp (ece391_read s fr fd buf n) Q J k.
Proof using Type.
  intros H. unfold ece391_read. stub. eapply kwp_mono; [exact H| |done].
  intros [v b] k' [E HQ]. split; [done|]. by kwp_step.
Qed.
Ltac value_stub H := stub; kwp_step; eapply kwp_mono; [exact H| |done];
  intros v k' [E HQ]; kwp_step; (split; [done|]); by kwp_step.
Lemma write_wp fd buf n Q J k :
  kwp (write s (i32 fd) (Some buf) (i32 n)) (fun v k' => keeps_if k k' /\ Q v k') J k ->
  kwp (ece391_write s fr fd buf n) Q J k.
Proof using Type. intros H. unfold ece391_write. value_stub H. Qed.
Lemma open_wp name Q J k :
  kwp (open s (Some name)) (fun v k' => keeps_if k k' /\ Q v k') J k ->
  kwp (ece391_open s fr name) Q J k.
Proof using Type. intros H. unfold ece391_open. value_stub H. Qed.
Lemma close_wp fd Q J k :
  kwp (close (i32 fd)) (fun v k' => keeps_if k k' /\ Q v k') J k -> kwp (ece391_close s fr fd) Q J k.
Proof using Type. intros H. unfold ece391_close. value_stub H. Qed.
Lemma vidmap_wp a Q J k :
  kwp (vidmap (u32 a)) (fun v k' => keeps_if k k' /\ Q v k') J k -> kwp (ece391_vidmap s fr a) Q J k.
Proof using Type. intros H. unfold ece391_vidmap. value_stub H. Qed.
Lemma getargs_wp buf n Q J k :
  kwp (getargs (Some buf) (i32 n)) (fun r k' => keeps_if k k' /\ Q (r.1, default buf r.2) k') J k ->
  kwp (ece391_getargs s fr buf n) Q J k.
Proof using Type.
  intros H. unfold ece391_getargs. stub. eapply kwp_mono; [exact H| |done].
  intros [v b] k' [E HQ]. split; [done|]. by kwp_step.
Qed.

Section process.
Variables (k : kernel) (i : Z) (p : pcb).
Hypothesis U : user k i p.

Lemma ece391_write_out buf n : 0 <= n <= zlen buf -> n < 2 ^ 31 ->
  kwp (ece391_write s fr 1 buf n) (fun r k' => r = n /\ prints (take (Z.to_nat n) buf) k k') nojump k.
Proof using U.
  intros Hn Hn31. destruct U as [R Hl Op W Ho _]. apply write_wp.
  change (i32 1) with 1. rewrite i32_id by lia.
  apply (kwp_at _ (terminal_write (Some buf) n));
    [exact (write_calls k i p s R Hl Op 1 term_ops_table buf n Ho)|].
  eapply kwp_mono; [by apply terminal_write_spec| |done].
  intros r k' [-> Hs]. split; [by eapply prints_if|done].
Qed.

Lemma ece391_fdputs_ok str : 0 ∈ str -> zlen str < 2 ^ 31 ->
  kwp (ece391_fdputs s fr 1 str) (fun _ => prints (cstr str) k) nojump k.
Proof using U.
  intros H0 Hlen. pose proof (length_cstr_lt str H0). unfold ece391_fdputs.
  do 2 kwp_step. rewrite ece391_strlen_ok by done. kwp_step. rewrite i32_id by lia. kwp_step.
  eapply kwp_mono; [apply ece391_write_out; lia| |done].
  intros r k' [_ Hp]. kwp_step. by rewrite Nat2Z.id, <- cstr_prefix in Hp.
Qed.

(** ** Calls that fail *)
Definition says (m : string) : list Z := chars m ++ [10].

Lemma ece391_read_bad fd buf n : bad_fd p (i32 fd) ->
  kwp (ece391_read s fr fd buf n) (fun r k' => r = (-1, buf) /\
    prints (says "Invalid FD, sys_read") k k') nojump k.
Proof using U.
  intros Hb. destruct U as [R Hl Op W Ho _]. apply read_wp.
  eapply kwp_mono; [by apply (read_bad_fd k i p s R Hl Op)| |done].
  intros r k' [-> Hs]. split; [by eapply prints_if|done].
Qed.
Lemma ece391_write_bad fd buf n : bad_fd p (i32 fd) ->
  kwp (ece391_write s fr fd buf n) (fun r k' => r = -1 /\
    prints (says "Invalid FD, sys_write") k k') nojump k.
Proof using U.
  intros Hb. destruct U as [R Hl Op W Ho _]. apply write_wp.
  eapply kwp_mono; [by apply (write_bad_fd k i p s R Hl Op)| |done].
  intros r k' [-> Hs]. split; [by eapply prints_if|done].
Qed.
Lemma ece391_close_bad fd : bad_fd p (i32 fd) ->
  kwp (ece391_close s fr fd) (fun r k' => r = -1 /\
    prints (says "Invalid FD, sys_close") k k') nojump k.
Proof using U.
  intros Hb. destruct U as [R Hl Op W Ho _]. apply close_wp.
  eapply kwp_mono; [by apply (close_bad_fd k i p s R Hl Op)| |done].
  intros r k' [-> Hs]. split; [by eapply prints_if|done].
Qed.

(** ** Calls that return at once *)
Lemma ece391_close_eq fd v k' : close (i32 fd) k = Ok (Returned v, k') -> keeps_if k k' ->
  ece391_close s fr fd k = Ok (Returned v, k').
Proof using Type. intros E F. apply kwp_ok, close_wp. eapply kwp_eq; [exact E|done]. Qed.
Lemma ece391_open_eq name v k' : open s (Some name) k = Ok (Returned v, k') -> keeps_if k k' ->
  ece391_open s fr name k = Ok (Returned v, k').
Proof using Type. intros E F. apply kwp_ok, open_wp. eapply kwp_eq; [exact E|done]. Qed.
End process.

(** ** Calls the dispatcher refuses *)
Lemma int80_refused eax r k : u32 eax = 0 \/ u32 eax >= 10 ->
  int80 s fr eax r k = Ok (Returned (-1, None), k).
Proof using Type.
  intros H. apply int80_eq; [|done]. unfold syscall_handler, dispatch.
  pose proof (u32_range eax). by rewrite decide_True by lia.
Qed.
End stubs.

(** * Sequences of calls *)

(** The process runs on and has shown [out] since [k0]; of the rest of the
    kernel only the lines saved for readers may have changed. *)
Record ran (k0 : kernel) (i : Z) (p : pcb) (out : list Z) (k : kernel) : Prop := {
  ran_user : user k i p;
  ran_prints : exists b, prints out (with_save_buff b k0) k;
}.

Lemma with_save_buff_id k : with_save_buff (save_buff k) k = k.
Proof. by destruct k. Qed.

Lemma ran_start k i p : user k i p -> ran k i p [] k.
Proof.
  intros U. constructor; [done|]. exists (save_buff k). rewrite with_save_buff_id. apply prints_nil, U.
Qed.

Lemma ran_more k0 i p a b k k' : ran k0 i p a k -> prints b k k' -> ran k0 i p (a ++ b) k'.
Proof.
  intros [U [bu P]] Pb. constructor; [by eapply user_prints|]. exists bu. by eapply prints_app.
Qed.

Lemma ran_saved k0 i p a k b : ran k0 i p a k -> saved_wf b -> ran k0 i p a (with_save_buff b k).
Proof.
  intros [[R Hl Op W Ho _] [b0 (s & -> & S)]] Hb. constructor.
  - constructor; try done; try (by destruct R); by destruct Op.
  - exists b, s. by split.
Qed.

Lemma ran_rest k0 i p out k : ran k0 i p out k ->
  fs k = fs k0 /\ link k = link k0 /\ paging k = paging k0 /\
  curr_terminal (lib k) = curr_terminal (lib k0) /\ if_flag (lib_io (lib k)) = if_flag (lib_io (lib k0)).
Proof. intros [_ [b (s & -> & [_ F _])]]. destruct F as [? ? ? ? ? []]. done. Qed.

(** A message of a program. *)
Record message (str out : list Z) : Prop := {
  msg_nul : 0 ∈ str;
  msg_short : zlen str < 2 ^ 31;
  msg_text : cstr str = out;
}.
Ltac message := constructor; [by apply (bool_decide_unpack _); vm_compute|by vm_compute|by vm_compute].

Lemma fdputs_ran s fr k0 i p a str out k : ran k0 i p a k -> message str out ->
  kwp (ece391_fdputs s fr 1 str) (fun _ => ran k0 i p (a ++ out)) nojump k.
Proof.
  intros Hr [H0 Hl <-]. eapply kwp_mono; [by apply (ece391_fdputs_ok s fr k i p (ran_user _ _ _ _ _ Hr))| |done].
  intros [] k' P. by eapply ran_more.
Qed.
