(* ===== verification/SyserrSpec.v ===== *)
(** The kernel passes every test of [syscalls/ece391syserr.c]. *)

From S2P Require Import Prelude Hardware CLib Screen Printf FileSystem Paging Kernel FdTable Drivers.
From S2P Require Import Streams Process Keyboard KeyboardSpec Waiting Syscall SyscallSpec Vidmap UserLib UserSpec Syserr.

(** Reading the terminal's own descriptor saves the buffer as the line of
    the current terminal. *)
Lemma fill_row_length row buf n : length row = 128%nat -> Z.min 128 n <= zlen buf ->
  wp (fill_row row buf n) (fun r => length r = 128%nat).
Proof.
  intros Hr Hb. unfold fill_row, TERM_BUFF_SIZE.
  apply (wp_loop (fun '(j, r) => 0 <= j <= 128 /\ length r = 128%nat) (fun '(j, _) => Z.to_nat (128 - j)));
    [split; [lia|done]|lia|].
  intros [j r] [Hj Hl]. wp_step; [|by wp_step].
  do 3 wp_step. rewrite wr_ok by lia. do 2 wp_step. rewrite length_upd. split; [split; [lia|done]|lia].
Qed.

Lemma terminal_read_saves k i p buf n : user k i p -> Z.min 128 n <= zlen buf ->
  exists b, saved_wf b /\ terminal_read (Some buf) n k = Ok (Returned (-1), with_save_buff b k).
Proof.
  intros [R Hl Op W Ho [Hs Hf]] Hb. unfold terminal_read.
  destruct W as [Ht _ _ _ _]. set (t := curr_terminal (lib k)) in *. unfold MAX_TERMINAL in *.
  kstep (gets_ok (fun k => curr_terminal (lib k)) k). kstep (gets_ok save_buff k). fold t.
  assert (Hr : rd (save_buff k) t = Ok (at_ (save_buff k) t)) by (apply rd_ok; lia).
  kstep (lift_ok _ _ k Hr).
  assert (Hrow : length (at_ (save_buff k) t) = 128%nat) by (apply (Forall_at _ _ t Hf); lia).
  kstep (lift_ok _ _ k (clean_row_ok _ Hrow)).
  pose proof (fill_row_length (row_of_line []) buf n eq_refl Hb) as HF.
  apply wp_ok in HF as (r & E & Hrl). kstep (lift_ok _ _ k E).
  assert (Hwr : wr (save_buff k) t r = Ok (upd (save_buff k) t r)) by (apply wr_ok; lia).
  kstep (lift_ok _ _ k Hwr).
  kstep (modify_ok (with_save_buff (upd (save_buff k) t r)) k).
  exists (upd (save_buff k) t r). split; [|done]. split; [by rewrite length_upd|]. by apply Forall_upd.
Qed.

Section syserr.
Variables (w : nat -> surroundings) (fr : frame) (k0 : kernel) (i : Z) (p : pcb).
Abbreviation s := (w 0%nat).
Abbreviation ran := (ran k0 i p).

(** The test [m] returns 0 and shows [out]; nothing else changes. *)
Definition passes (m : K Z) (out : list Z) : Prop :=
  forall a k, ran a k -> kwp m (fun r k' => r = 0 /\ ran (a ++ out) k') nojump k.

(** The call [m] returns -1 and shows [out]. *)
Definition refuses {A} (m : K A) (v : A -> Z) (out : list Z) : Prop :=
  forall a k, ran a k -> kwp m (fun r k' => v r = -1 /\ ran (a ++ out) k') nojump k.

Lemma passes_seq {A} (m : K A) (v : A -> Z) (rest : A -> Z -> K Z) msg a b :
  refuses m v a -> (forall r, passes (rest r 0) b) ->
  passes (r ← m; fail ← must_fail w fr (v r) msg 0; rest r fail) (a ++ b).
Proof using Type.
  intros Hm Hr out k Hk. kwp_step. eapply kwp_mono; [by apply Hm| |done].
  intros r k1 [-> H1]. unfold must_fail. rewrite decide_False by auto. do 2 kwp_step.
  rewrite app_assoc. by apply Hr.
Qed.

Lemma report_passes name out : message (litln (name ++ ": PASS")) out -> passes (report w fr 0 name) out.
Proof using Type.
  intros M a k Hk. unfold report. rewrite decide_False by auto. kwp_step.
  eapply kwp_mono; [by apply fdputs_ran| |done]. cbv beta. intros [] k' Hp. by kwp_step.
Qed.

Lemma refuses_of {A} (m : K A) (v : A -> Z) out :
  (forall k, user k i p -> fs k = fs k0 -> curr_terminal (lib k) = curr_terminal (lib k0) ->
     kwp m (fun r k' => v r = -1 /\ prints out k k') nojump k) -> refuses m v out.
Proof using Type.
  intros H a k Hk. pose proof (ran_rest _ _ _ _ _ Hk) as (Ef & _ & _ & Et & _).
  eapply kwp_mono; [apply H; [apply Hk|done|done]| |done]. intros r k' [Hv P]. split; [done|].
  by eapply ran_more.
Qed.

Lemma read_refused fd buf n : bad_fd p (i32 fd) ->
  refuses (ece391_read s fr fd buf n) fst (says "Invalid FD, sys_read").
Proof using Type.
  intros Hb. apply refuses_of. intros k U _ _.
  eapply kwp_mono; [by apply (ece391_read_bad s fr k i p U)| |done]. by intros [v b] k' [[= -> ->] P].
Qed.
Lemma write_refused fd buf n : bad_fd p (i32 fd) ->
  refuses (ece391_write s fr fd buf n) id (says "Invalid FD, sys_write").
Proof using Type. intros Hb. apply refuses_of. intros k U _ _. by apply (ece391_write_bad s fr k i p U). Qed.
Lemma close_refused fd : bad_fd p (i32 fd) ->
  refuses (ece391_close s fr fd) id (says "Invalid FD, sys_close").
Proof using Type. intros Hb. apply refuses_of. intros k U _ _. by apply (ece391_close_bad s fr k i p U). Qed.

Lemma bad_fd_calls_pass fd name out buf : bad_fd p (i32 fd) -> message (litln (name ++ ": PASS")) out ->
  passes (bad_fd_calls w fr fd name buf)
    (says "Invalid FD, sys_read" ++ says "Invalid FD, sys_write" ++ says "Invalid FD, sys_close" ++ out).
Proof using Type.
  intros Hb M a k Hk. unfold bad_fd_calls.
  apply (kwp_at _ (r ← ece391_read s fr fd buf 31; fail ← must_fail w fr r.1 "read fail" 0;
    (fun r fail => v ← ece391_write s fr fd r.2 31; fail ← must_fail w fr v "write fail" fail;
       v ← ece391_close s fr fd; fail ← must_fail w fr v "close fail" fail; report w fr fail name) r fail)).
  { unfold mbind, K_bind. destruct (ece391_read s fr fd buf 31 k) as [[[[v b]|t] k']| |]; done. }
  revert a k Hk. apply passes_seq; [by apply read_refused|]. intros r.
  apply (passes_seq (ece391_write s fr fd r.2 31) id); [by apply write_refused|]. intros _.
  apply (passes_seq (ece391_close s fr fd) id); [by apply close_refused|]. intros _.
  by apply report_passes.
Qed.

(** ** The tests *)
Hypothesis (P0 : user k0 i p) (Hin : open_on p 0 kybd_ops_table).

Lemma err_neg_fd_pass buf : passes (err_neg_fd w fr buf)
  (says "Invalid FD, sys_read" ++ says "Invalid FD, sys_write" ++ says "Invalid FD, sys_close" ++
   says "err_neg_fd: PASS").
Proof using Type. apply bad_fd_calls_pass; [left; vm_compute; intros []; congruence|message]. Qed.
Lemma err_big_fd_pass buf : passes (err_big_fd w fr buf)
  (says "Invalid FD, sys_read" ++ says "Invalid FD, sys_write" ++ says "Invalid FD, sys_close" ++
   says "err_big_fd: PASS").
Proof using Type. apply bad_fd_calls_pass; [left; vm_compute; intros []; congruence|message]. Qed.

Lemma err_vidmap_pass : passes (err_vidmap w fr)
  (says "invalid pointer, vidmap" ++ says "pointer out of range, vidmap" ++ says "err_vidmap: PASS").
Proof using Type.
  apply (passes_seq (ece391_vidmap s fr 0) id).
  { apply refuses_of. intros k U _ _. apply vidmap_wp.
    eapply kwp_mono; [apply vidmap_null, U| |done]. intros r k' [-> Hs]. split; [by eapply prints_if|done]. }
  intros _. apply (passes_seq (ece391_vidmap s fr 0x400000) id).
  { apply refuses_of. intros k U _ _. apply vidmap_wp.
    eapply kwp_mono; [apply vidmap_out_of_range; [apply U|done|by vm_compute; intros []]| |done].
    intros r k' [-> Hs]. split; [by eapply prints_if|done]. }
  intros _. apply report_passes. message.
Qed.

Lemma call_sys_refused num : u32 num = 0 \/ u32 num >= 10 -> refuses (call_sys w fr num) id [].
Proof using Type.
  intros H a k Hk. unfold call_sys. kwp_step. eapply kwp_eq; [by apply int80_refused|].
  cbv beta iota. kwp_step. split; [done|]. by rewrite app_nil_r.
Qed.
Lemma err_syscall_num_pass : passes (err_syscall_num w fr) (says "err_syscall_num: PASS").
Proof using Type.
  apply (passes_seq (call_sys w fr BIG_NUM) id _ _ []); [by apply call_sys_refused; right|]. intros _.
  apply (passes_seq (call_sys w fr NEG_NUM) id _ _ []); [by apply call_sys_refused; right|]. intros _.
  apply (passes_seq (call_sys w fr 0) id _ _ []); [by apply call_sys_refused; left|]. intros _.
  apply report_passes. message.
Qed.

Lemma err_stdin_out_pass buf : 31 <= zlen buf ->
  passes (err_stdin_out w fr buf) (says "err_stdin_out: PASS").
Proof using Hin.
  intros Hb. apply (passes_seq (ece391_write s fr 0 buf 31) id _ _ []).
  { apply refuses_of. intros k [R Hl Op W Ho Sv] _ _. apply write_wp.
    apply (kwp_at _ (keyboard_write 0)); [exact (write_calls k i p s R Hl Op 0 kybd_ops_table buf 31 Hin)|].
    apply kwp_ret. split; [done|]. split; [done|]. by apply prints_nil. }
  intros _ a k Hk.
  apply (kwp_at _ (r ← ece391_read s fr 1 buf 31; fail ← must_fail w fr r.1 "read from stdout fail" 0;
    (fun _ fail => report w fr fail "err_stdin_out") r fail)).
  { unfold mbind, K_bind. destruct (ece391_read s fr 1 buf 31 k) as [[[[v b]|t] k']| |]; done. }
  revert a k Hk. apply (passes_seq _ _ _ _ []); [|intros _; apply report_passes; message].
  intros a k Hk. pose proof (ran_user _ _ _ _ _ Hk) as U.
  destruct (terminal_read_saves k i p buf 31 U) as (b & Hbw & E); [lia|].
  destruct U as [R Hl Op W Ho Sv]. apply read_wp.
  apply (kwp_at _ (r ← terminal_read (Some buf) 31; mret (r, Some buf)));
    [exact (read_calls k i p s R Hl Op 1 term_ops_table buf 31 Ho)|].
  kwp_step. eapply kwp_eq; [exact E|]. kwp_step. split; [done|]. split; [done|].
  rewrite app_nil_r. by apply ran_saved.
Qed.

(** ** Names that do not exist *)
Hypothesis (Wfs : fs_wf (fs k0)) (Ws : surr_wf s).

Lemma open_refused name : given_word name = [] \/ first_entry (fs k0) (given_word name) = None ->
  Forall byte name -> zlen (given_word name) < zlen name < 2 ^ 31 ->
  refuses (ece391_open s fr name) id [].
Proof using Wfs Ws.
  intros Hn Hb Hl. apply refuses_of. intros k U Ef _. apply open_wp.
  assert (E : open s (Some name) k = Ok (Returned (-1), k)).
  { unfold open. kstep (gets_ok fs k). rewrite Ef. destruct Ws as [Hd _].
    pose proof (read_dentry_by_name_spec (fs k0) Wfs name (s_dentry s) Hb Hl Hd) as E.
    kstep (lift_ok _ _ k E). destruct_decide (decide (given_word name = [])) as Hw; [done|].
    destruct Hn as [| ->]; [done|]. done. }
  eapply kwp_eq; [exact E|]. split; [done|]. split; [done|]. apply prints_nil, U.
Qed.

Lemma err_open_pass : first_entry (fs k0) (chars "helloo") = None -> first_entry (fs k0) (chars "shel") = None ->
  passes (err_open w fr) (says "err_open: PASS").
Proof using Wfs Ws.
  intros H1 H2.
  apply (passes_seq (ece391_open s fr (lit "helloo")) id _ _ []).
  { apply open_refused; [by right|by apply (bool_decide_unpack _); vm_compute|by split; vm_compute]. }
  intros _. apply (passes_seq (ece391_open s fr (lit "shel")) id _ _ []).
  { apply open_refused; [by right|by apply (bool_decide_unpack _); vm_compute|by split; vm_compute]. }
  intros _. apply (passes_seq (ece391_open s fr (lit "")) id _ _ []).
  { apply open_refused; [by left|by apply (bool_decide_unpack _); vm_compute|by split; vm_compute]. }
  intros _. apply report_passes. message.
Qed.

(** ** Descriptors that are not open *)
Hypothesis Hclosed : forall j, 2 <= j < MAX_OPEN_FILES -> flags (at_ (fd_table p) j) = FD_OFF.

Lemma closed_bad j : 2 <= j < 8 -> bad_fd p (i32 j).
Proof using Hclosed. intros Hj. rewrite i32_id by lia. right. by apply Hclosed. Qed.

Lemma close_own j t : open_on p j t -> t = kybd_ops_table \/ t = term_ops_table ->
  refuses (ece391_close s fr j) id [].
Proof using Type.
  intros Ho Ht. apply refuses_of. intros k [R Hl Op W _ _] _ _. apply close_wp.
  destruct Ho as [Hj Ho]. rewrite i32_id by (unfold MAX_OPEN_FILES in *; lia).
  eapply kwp_eq; [apply (close_terminal k i p s R Hl Op j t); [by split|done]|].
  split; [done|]. split; [done|]. by apply prints_nil.
Qed.

(** A loop of calls that all fail, the [j]-th showing [out j]. *)
Lemma each_fd_refused lo call msg (out : Z -> list Z) buf :
  0 <= lo <= 8 -> (forall j b, lo <= j < 8 -> refuses (call j b) fst (out j)) ->
  forall a k, ran a k ->
  kwp (each_fd w fr lo call msg 0 buf)
    (fun r k' => r.1 = 0 /\ ran (a ++ concat (out <$> seqZ lo (8 - lo))) k') nojump k.
Proof using Type.
  intros Hlo Hcall a k Hk.
  apply (kwp_kloop (fun '(j, fail, _) k => lo <= j <= 8 /\ fail = 0 /\
      ran (a ++ concat (out <$> seqZ lo (j - lo))) k) (fun '(j, _, _) => Z.to_nat (8 - j))).
  - split; [lia|]. split; [done|]. rewrite Z.sub_diag. simpl. by rewrite app_nil_r.
  - lia.
  - intros [[j fail] c] k1 (Hj & -> & Hr). kwp_step.
    + kwp_step. eapply kwp_mono; [apply Hcall; [lia|done]| |done]. intros [v b'] k2 [Hv Hr2]. simpl in Hv. subst v.
      cbv iota beta. unfold must_fail. rewrite decide_False by auto. do 2 kwp_step. kwp_step.
      split; [|lia]. split; [lia|]. split; [done|].
      replace (j + 1 - lo) with (j - lo + 1) by lia. rewrite seqZ_app by lia.
      rewrite fmap_app, concat_app. replace (lo + (j - lo)) with j by lia. change (seqZ j 1) with [j].
      simpl. by rewrite app_nil_r, app_assoc.
    + kwp_step. replace (8 - lo) with (j - lo) by lia. done.
Qed.

Lemma refuses_value {A B} (m : K A) (v : A -> Z) (b : B) out (f : A -> Z) : (forall r, f r = v r) ->
  refuses m v out -> refuses (r ← m; mret (f r, b)) fst out.
Proof using Type.
  intros Hf Hm a k Hk. kwp_step. eapply kwp_mono; [by apply Hm| |done].
  intros r k' [Hv Hr]. kwp_step. simpl. by rewrite Hf.
Qed.

Definition unopened_text : list Z :=
  concat (replicate 6 (says "Invalid FD, sys_close")) ++ concat (replicate 6 (says "Invalid FD, sys_read")) ++
  concat (replicate 6 (says "Invalid FD, sys_write")).

Lemma err_unopened_pass buf : passes (err_unopened w fr buf) (unopened_text ++ says "err_unopened: PASS").
Proof using P0 Hin Hclosed.
  intros a k Hk. unfold err_unopened. kwp_step.
  eapply kwp_mono; [apply (each_fd_refused 0 _ _
    (fun j => if decide (j < 2) then [] else says "Invalid FD, sys_close")); [lia| |exact Hk]| |done].
  { intros j b Hj. apply (refuses_value _ id); [done|]. case_decide.
    - assert (j = 0 \/ j = 1) as [->| ->] by lia.
      + apply (close_own 0 kybd_ops_table); [exact Hin|by left].
      + apply (close_own 1 term_ops_table); [apply P0|by right].
    - apply close_refused, closed_bad. lia. }
  intros [fail b] k1 [Hf H1]. simpl in Hf. subst fail. cbv iota beta. kwp_step.
  eapply kwp_mono; [apply (each_fd_refused 2 _ _ (fun _ => says "Invalid FD, sys_read")); [lia| |exact H1]| |done].
  { intros j b' Hj. apply read_refused, closed_bad. lia. }
  intros [fail b'] k2 [Hf H2]. simpl in Hf. subst fail. cbv iota beta. kwp_step.
  eapply kwp_mono; [apply (each_fd_refused 2 _ _ (fun _ => says "Invalid FD, sys_write")); [lia| |exact H2]| |done].
  { intros j b'' Hj. apply (refuses_value _ id); [done|]. apply write_refused, closed_bad. lia. }
  intros [fail b''] k3 [Hf H3]. simpl in Hf. subst fail. cbv iota beta.
  assert (M : message (litln "err_unopened: PASS") (says "err_unopened: PASS")) by message.
  eapply kwp_mono; [apply (report_passes "err_unopened" _ M _ _ H3)| |done]. intros r k4 [-> H4]. split; [done|].
  assert (E1 : concat ((fun j => if decide (j < 2) then [] else says "Invalid FD, sys_close") <$> seqZ 0 (8 - 0)) =
    concat (replicate 6 (says "Invalid FD, sys_close"))) by by vm_compute.
  assert (E2 : concat ((fun _ => says "Invalid FD, sys_read") <$> seqZ 2 (8 - 2)) =
    concat (replicate 6 (says "Invalid FD, sys_read"))) by by vm_compute.
  assert (E3 : concat ((fun _ => says "Invalid FD, sys_write") <$> seqZ 2 (8 - 2)) =
    concat (replicate 6 (says "Invalid FD, sys_write"))) by by vm_compute.
  rewrite E1, E2, E3 in H4. unfold unopened_text. rewrite <- !app_assoc in H4. by rewrite <- !app_assoc.
Qed.

(** ** More files than descriptors *)
Hypothesis (Hfds : fd_table p = initial_fds).
Variable e : Z.
Hypothesis (Hdot : first_entry (fs k0) (chars ".") = Some e) (Htype : type_of (fs k0) e = 1).

Definition dir_fd : fd_t := mkFd (Some dir_ops_table) (-1) 0 FD_ON.
(** The descriptors with [m] directories opened, and with the first [m] of
    six closed again. *)
Definition lots (m : nat) : list fd_t := take 2 initial_fds ++ replicate m dir_fd ++ replicate (6 - m) closed_fd.
Definition fewer (m : nat) : list fd_t := take 2 initial_fds ++ replicate m closed_fd ++ replicate (6 - m) dir_fd.
Definition with_table (t : list fd_t) (k : kernel) : kernel := put_running i (set_fd_table t p) k.

Lemma user_table k t : user k i p -> length t = 8%nat -> at_ t 1 = at_ initial_fds 1 ->
  user (with_table t k) i (set_fd_table t p).
Proof using All.
  intros [R Hl Op W (_ & Ho) Sv] Ht H1. constructor; try done.
  - by eapply running_put.
  - by destruct Op.
  - split; [done|]. simpl. rewrite H1. by rewrite Hfds in Ho.
Qed.

Lemma table_put t j d k : put_fd i (set_fd_table t p) j d (with_table t k) = with_table (upd t j d) k.
Proof using All. unfold put_fd, with_table. by rewrite put_running_twice. Qed.

Lemma table_id k : user k i p -> with_table initial_fds k = k.
Proof using All.
  intros [R _ _ _ _ _]. unfold with_table. rewrite <- Hfds. apply put_running_id. by destruct p.
Qed.

Lemma dot_arg : file_name_arg (fs k0) (lit ".").
Proof using All. constructor; [by apply (bool_decide_unpack _); vm_compute|by split; vm_compute|done]. Qed.

Lemma open_dot k m : user k i p -> fs k = fs k0 -> (m < 6)%nat ->
  ece391_open s fr (lit ".") (with_table (lots m) k) =
    Ok (Returned (2 + Z.of_nat m), with_table (lots (Datatypes.S m)) k).
Proof using All.
  intros U Ef Hm.
  assert (Hs : length (lots m) = 8%nat /\ at_ (lots m) 1 = at_ initial_fds 1 /\
    first_free (lots m) = Some (2 + Z.of_nat m) /\ upd (lots m) (2 + Z.of_nat m) dir_fd = lots (Datatypes.S m)).
  { assert (m = 0 \/ m = 1 \/ m = 2 \/ m = 3 \/ m = 4 \/ m = 5)%nat as Hc by lia.
    destruct Hc as [->|[->|[->|[->|[->| ->]]]]]; by vm_compute. }
  destruct Hs as (H8 & H1 & Hfree & Hupd).
  pose proof (user_table k (lots m) U H8 H1) as Um. destruct (Um) as [R Hl Op W Ho _].
  apply (ece391_open_eq s fr (with_table (lots m) k)); [|done].
  assert (Wf : fs_wf (fs (with_table (lots m) k))) by (change (fs_wf (fs k)); by rewrite Ef).
  assert (A : file_name_arg (fs (with_table (lots m) k)) (lit "."))
    by (change (file_name_arg (fs k) (lit ".")); rewrite Ef; apply dot_arg).
  assert (Hd : first_entry (fs (with_table (lots m) k)) (given_word (lit ".")) = Some e)
    by (change (first_entry (fs k) (chars ".") = Some e); by rewrite Ef).
  rewrite (open_calls _ i _ s (lit ".") R Hl Op Wf Ws A e Hd).
  change (fs (with_table (lots m) k)) with (fs k). rewrite Ef, Htype. change (driver_of_type 1) with dir_driver.
  rewrite (dir_open_ok _ i _ s (lit ".") R Hl Op Wf Ws A _ Hfree). fold dir_fd.
  by rewrite table_put, Hupd.
Qed.

(** Every descriptor is taken. *)
Lemma open_full k : user k i p -> fs k = fs k0 ->
  kwp (ece391_open s fr (lit ".")) (fun r k' => r = -1 /\
    prints (says "No Available FD, dir_open") (with_table (lots 6) k) k') nojump (with_table (lots 6) k).
Proof using All.
  intros U Ef. pose proof (user_table k (lots 6) U eq_refl eq_refl) as [R Hl Op W Ho _]. apply open_wp.
  set (k6 := with_table (lots 6) k) in *.
  assert (Wf : fs_wf (fs k6)) by (change (fs_wf (fs k)); by rewrite Ef).
  assert (A : file_name_arg (fs k6) (lit "."))
    by (change (file_name_arg (fs k) (lit ".")); rewrite Ef; apply dot_arg).
  assert (Hd : first_entry (fs k6) (given_word (lit ".")) = Some e)
    by (change (first_entry (fs k) (chars ".") = Some e); by rewrite Ef).
  apply (kwp_at _ (driver_open s dir_driver (lit "."))).
  { rewrite (open_calls k6 i _ s (lit ".") R Hl Op Wf Ws A e Hd). change (fs k6) with (fs k).
    by rewrite Ef, Htype. }
  unfold driver_open, dir_open. kwp_step. eapply kwp_eq; [apply (get_fd_index_ok k6 i _ R Hl)|].
  change (first_free (fd_table (set_fd_table (lots 6) p))) with (first_free (lots 6)).
  change (first_free (lots 6)) with (@None Z). cbn [default from_option]. rewrite decide_True by done.
  clearbody k6. kwp_step. kprint. intros [] k' Hs. kwp_step. split; [by eapply prints_if|]. done.
Qed.

Lemma close_lots k m : user k i p -> (m < 6)%nat ->
  ece391_close s fr (2 + Z.of_nat m) (with_table (fewer m) k) =
    Ok (Returned 0, with_table (fewer (Datatypes.S m)) k).
Proof using All.
  intros U Hm.
  assert (Hs : length (fewer m) = 8%nat /\ at_ (fewer m) 1 = at_ initial_fds 1 /\
    at_ (fewer m) (2 + Z.of_nat m) = dir_fd /\ upd (fewer m) (2 + Z.of_nat m) closed_fd = fewer (Datatypes.S m)).
  { assert (m = 0 \/ m = 1 \/ m = 2 \/ m = 3 \/ m = 4 \/ m = 5)%nat as Hc by lia.
    destruct Hc as [->|[->|[->|[->|[->| ->]]]]]; by vm_compute. }
  destruct Hs as (H8 & H1 & Hat & Hupd).
  pose proof (user_table k (fewer m) U H8 H1) as [R Hl Op W Ho _].
  apply (ece391_close_eq s fr (with_table (fewer m) k)); [|done]. rewrite i32_id by lia.
  rewrite (close_file_ok _ i _ (2 + Z.of_nat m) R Hl Op).
  - by rewrite table_put, Hupd.
  - right. split; [unfold MAX_OPEN_FILES; lia|]. cbn [fd_table set_fd_table]. by rewrite Hat.
Qed.

Lemma open_lots_loop k : user k i p -> fs k = fs k0 ->
  kwp (kloop 8 (fun '(q, cnt) =>
    if decide (q < 7) then
      fd ← ece391_open s fr (lit ".");
      mret (inl (q + 1, if decide (fd = -1) then cnt + 1 else cnt))
    else mret (inr cnt)) (0, 0))
  (fun cnt k' => cnt = 1 /\ exists k1, k' = with_table (lots 6) k1 /\
    prints (says "No Available FD, dir_open") k k1) nojump k.
Proof using All.
  intros U Ef.
  apply (kwp_kloop (fun '(q, cnt) k1 =>
      0 <= q <= 6 /\ cnt = 0 /\ k1 = with_table (lots (Z.to_nat q)) k \/
      q = 7 /\ cnt = 1 /\ prints (says "No Available FD, dir_open") (with_table (lots 6) k) k1)
    (fun '(q, _) => Z.to_nat (7 - q))).
  - left. split; [lia|]. split; [done|]. change (lots (Z.to_nat 0)) with initial_fds. by rewrite table_id.
  - lia.
  - intros [q cnt] k1 [(Hq & -> & ->)|(-> & -> & P)].
    + rewrite decide_True by lia. kwp_step. destruct_decide (decide (q = 6)).
      * subst q. eapply kwp_mono; [by apply (open_full k U Ef)| |done]. intros r k2 [-> P]. kwp_step.
        split; [|lia]. right. done.
      * destruct (Z_of_nat_complete q) as [m ->]; [lia|]. rewrite Nat2Z.id.
        eapply kwp_eq; [apply (open_dot k m U Ef); lia|]. cbv beta. kwp_step.
        rewrite decide_False by lia. split; [|lia]. left. split; [lia|]. split; [done|].
        by replace (Z.to_nat (Z.of_nat m + 1)) with (Datatypes.S m) by lia.
    + rewrite decide_False by lia. kwp_step. split; [done|]. destruct P as (s1 & -> & S).
      by exists (with_lib s1 k); split; [|exists s1].
Qed.

Lemma close_lots_loop k : user k i p ->
  kwp (kloop 7 (fun q => if decide (q < 8) then _ ← ece391_close s fr q; mret (inl (q + 1)) else mret (inr tt)) 2)
    (fun _ k' => k' = k) nojump (with_table (lots 6) k).
Proof using All.
  intros U.
  apply (kwp_kloop (fun q k1 => 2 <= q <= 8 /\ k1 = with_table (fewer (Z.to_nat (q - 2))) k)
    (fun q => Z.to_nat (8 - q))); [done|lia|].
  intros q k1 [Hq ->]. destruct (Z_of_nat_complete (q - 2)) as [m Hm]; [lia|].
  assert (q = 2 + Z.of_nat m) as -> by lia. replace (Z.to_nat (2 + Z.of_nat m - 2)) with m by lia. kwp_step.
  - kwp_step. eapply kwp_eq; [apply (close_lots k m U); lia|]. cbv beta. kwp_step.
    split; [|lia]. split; [lia|]. by replace (Z.to_nat _) with (Datatypes.S m) by lia.
  - kwp_step. assert (m = 6%nat) as -> by lia. by apply table_id.
Qed.

Lemma err_open_lots_pass : passes (err_open_lots w fr)
  (says "No Available FD, dir_open" ++ says "err_open_lots: PASS").
Proof using All.
  intros a k Hk. pose proof (ran_user _ _ _ _ _ Hk) as U. pose proof (ran_rest _ _ _ _ _ Hk) as (Ef & _).
  unfold err_open_lots. kwp_step. eapply kwp_mono; [by apply open_lots_loop| |done].
  intros cnt k' (-> & k1 & -> & P). cbv beta. kwp_step.
  assert (Hr1 : ran (a ++ says "No Available FD, dir_open") k1) by (by eapply ran_more).
  eapply kwp_mono; [apply close_lots_loop, Hr1| |done]. intros [] k2 ->. cbv beta.
  rewrite decide_True by done. kwp_step.
  assert (M : message (litln "err_open_lots: PASS") (says "err_open_lots: PASS")) by message.
  eapply kwp_mono; [by apply fdputs_ran| |done]. cbv beta. intros [] k3 H3. kwp_step.
  split; [done|]. by rewrite <- app_assoc in H3.
Qed.
End syserr.

(** What the tests need: a process that has only its terminal open, and a
    directory with ["."] but without the two names that are asked for. *)
Record tested (k : kernel) (i : Z) (p : pcb) : Prop := {
  td_user : user k i p;
  td_fds : fd_table p = initial_fds;
  td_fs : fs_wf (fs k);
  td_helloo : first_entry (fs k) (chars "helloo") = None;
  td_shel : first_entry (fs k) (chars "shel") = None;
  td_dot : exists e, first_entry (fs k) (chars ".") = Some e /\ type_of (fs k) e = 1;
}.

Definition all_tests_text : list Z :=
  (says "Invalid FD, sys_read" ++ says "Invalid FD, sys_write" ++ says "Invalid FD, sys_close" ++ says "err_neg_fd: PASS") ++ (says "Invalid FD, sys_read" ++ says "Invalid FD, sys_write" ++ says "Invalid FD, sys_close" ++ says "err_big_fd: PASS") ++
  (says "No Available FD, dir_open" ++ says "err_open_lots: PASS") ++ says "err_open: PASS" ++
  (unopened_text ++ says "err_unopened: PASS") ++
  (says "invalid pointer, vidmap" ++ says "pointer out of range, vidmap" ++ says "err_vidmap: PASS") ++
  says "err_stdin_out: PASS" ++ says "err_syscall_num: PASS" ++ 10 :: says "Overall Tests: PASS".

Lemma passes_then k0 i p m out rest b : passes k0 i p m out -> (passes k0 i p (rest 0) b) ->
  passes k0 i p (v ← m; rest v) (out ++ b).
Proof.
  intros Hm Hr a k Hk. kwp_step. eapply kwp_mono; [by apply Hm| |done].
  intros r k1 [-> H1]. rewrite app_assoc. by apply Hr.
Qed.

(** C7: The program that tests the system calls' error paths passes: all eight
    groups (negative and large descriptors, seven opens of the directory,
    misspelt names, unopened descriptors, vidmap outside the program, standard
    streams used the wrong way, unknown call numbers) return 0, and the text
    on the screen is exactly the kernel's messages and the eight PASS lines.
    *)
Theorem syserr_passes w fr k i p b1 b2 b5 b7 :
  tested k i p -> surr_wf (w 0%nat) -> 31 <= zlen b7 ->
  kwp (all_tests w fr b1 b2 b5 b7) (fun r k' => r = 0 /\ ran k i p all_tests_text k') nojump k.
Proof.
  intros [U F Wfs H1 H2 [e [Hd Ht]]] Ws Hb.
  assert (Hin : open_on p 0 kybd_ops_table) by (unfold open_on; by rewrite F).
  assert (Hc : forall j, 2 <= j < MAX_OPEN_FILES -> flags (at_ (fd_table p) j) = FD_OFF).
  { rewrite F. unfold MAX_OPEN_FILES. intros j Hj.
    assert (j = 2 \/ j = 3 \/ j = 4 \/ j = 5 \/ j = 6 \/ j = 7) as Hj6 by lia.
    by destruct Hj6 as [->|[->|[->|[->|[->| ->]]]]]. }
  assert (P : passes k i p (all_tests w fr b1 b2 b5 b7) all_tests_text); [|exact (P [] k (ran_start k i p U))].
  unfold all_tests, all_tests_text.
  apply passes_then; [apply err_neg_fd_pass|].
  apply passes_then; [apply err_big_fd_pass|].
  apply passes_then; [by eapply err_open_lots_pass|].
  apply passes_then; [by apply err_open_pass|].
  apply passes_then; [by apply err_unopened_pass|].
  apply passes_then; [apply err_vidmap_pass|].
  apply passes_then; [by apply err_stdin_out_pass|].
  apply passes_then; [apply err_syscall_num_pass|].
  intros a k1 Hk. cbv zeta. rewrite decide_False by auto. kwp_step.
  assert (M : message (10 :: litln "Overall Tests: PASS") (10 :: says "Overall Tests: PASS")) by message.
  eapply kwp_mono; [by apply fdputs_ran| |done]. cbv beta. intros [] k2 H. by kwp_step.
Qed.
