(* ===== verification/ReadersSpec.v ===== *)
(** Programs that read a descriptor to its end: [cat] shows a file, [ls] the
    names of the directory.  Both are one loop over the [Stream] interface. *)

From S2P Require Import Prelude Hardware CLib Screen Printf FileSystem Paging Kernel FdTable Drivers.
From S2P Require Import Streams Process Waiting Syscall SyscallSpec Getargs Vidmap UserLib UserSpec Programs.

(** * What is shown of each read *)
Fixpoint st_chunks `{Stream} (fuel : nat) (f : fs_state) (d : fd_t) (n : Z) : list (list Z) :=
  match fuel with
  | O => []
  | S fuel =>
      match st_next f d n with
      | [] => []
      | out => out :: st_chunks fuel f (st_step f d n) n
      end
  end.

Lemma st_rest_chunks `{Stream} fuel f d n : st_rest fuel f d n = concat (st_chunks fuel f d n).
Proof.
  revert d. induction fuel as [|fuel IH]; intros d; [done|]. simpl.
  destruct (st_next f d n); [done|]. simpl. by rewrite IH.
Qed.

Section loop.
Context `{Stream}.
Variables (s : surroundings) (fr : frame) (t : ops_table) (n : Z).
Hypothesis (Hn : 0 < n < 2 ^ 31)
  (Hdriver : forall fd buf n, driver_read s (table_driver t) fd buf n =
     '(r, buf) ← st_read fd buf n; mret (r, Some buf))
  (Hstep : forall f d, fd_jump (st_step f d n) = fd_jump d /\ flags (st_step f d n) = flags d).

(** A descriptor of this driver. *)
Record readable_fd (f : fs_state) (d : fd_t) : Prop := {
  rf_ok : st_ok f d;
  rf_jump : fd_jump d = Some t;
  rf_on : flags d = FD_ON;
}.

Lemma readable_step f d : readable_fd f d -> readable_fd f (st_step f d n).
Proof using Hn Hstep.
  intros [Ho Hj Hf]. destruct (Hstep f d) as [E1 E2]. constructor; [by apply st_step_ok|congruence..].
Qed.

Variables (i : Z) (p : pcb) (fd : Z).
Hypothesis (Hfd : 0 <= fd < MAX_OPEN_FILES) (Hfd1 : fd <> 1).

Lemma put_fd_again k d d' : user k i p -> put_fd i (with_fd fd d p) fd d' (put_fd i p fd d k) = put_fd i p fd d' k.
Proof using Hfd. intros U. apply (put_fd_twice k i p fd d (us_run _ _ _ U) (us_fds _ _ _ U) Hfd). Qed.

Lemma ece391_read_stream k d buf : user k i p -> readable_fd (fs k) d -> n <= zlen buf -> zlen buf < 2 ^ 31 ->
  ece391_read s fr fd buf n (put_fd i p fd d k) =
    Ok (Returned (received (st_next (fs k) d n) buf), put_fd i p fd (st_step (fs k) d n) k).
Proof using Hn Hdriver Hfd Hfd1.
  intros U [Ho Hj Hf] Hb Hb31. pose proof (user_put_fd k i p fd d U Hfd Hfd1) as U1.
  destruct U1 as [R Hl Op W Hout _].
  assert (Hat : at_ (fd_table (with_fd fd d p)) fd = d)
    by (apply at_upd_eq; rewrite (us_fds _ _ _ U); unfold MAX_OPEN_FILES in *; lia).
  apply kwp_ok, read_wp. rewrite !i32_id by (unfold MAX_OPEN_FILES in *; lia).
  apply (kwp_at _ ('(r, buf) ← st_read fd buf n; mret (r, Some buf))).
  { rewrite <- Hdriver. apply (read_calls _ i _ s R Hl Op fd t).
    split; [done|]. by rewrite Hat. }
  kwp_step. pose proof (st_read_spec _ i _ fd buf n R Hl Hfd) as E. rewrite Hat in E.
  change (fs (put_fd i p fd d k)) with (fs k) in E. specialize (E Ho ltac:(lia) Hb31). cbv zeta in E.
  eapply kwp_eq; [exact E|]. rewrite put_fd_again by done. unfold received. cbv iota beta. kwp_step.
  split; [done|]. done.
Qed.

(** A loop whose body reads once and shows [g] of what it got. *)
Section body.
Variables (k : kernel) (body : list Z -> K (list Z + Z)) (g : list Z -> list Z) (good : list Z -> Prop).
Hypothesis Hbody : forall k1 d buf, user k1 i p -> fs k1 = fs k -> readable_fd (fs k) d -> good buf ->
  kwp (body buf) (fun r k2 => match r with
    | inl buf' => st_next (fs k) d n <> [] /\ good buf' /\
        exists k3, prints (g (st_next (fs k) d n)) k1 k3 /\ k2 = put_fd i p fd (st_step (fs k) d n) k3
    | inr v => st_next (fs k) d n = [] /\ v = 0 /\ k2 = put_fd i p fd (st_step (fs k) d n) k1
    end) nojump (put_fd i p fd d k1).

Lemma stream_loop fuel buf d : user k i p -> readable_fd (fs k) d -> good buf ->
  (st_left (fs k) d < fuel)%nat ->
  kwp (kloop fuel body buf) (fun r k' => r = 0 /\ exists d' k1, readable_fd (fs k) d' /\
    prints (concat (g <$> st_chunks fuel (fs k) d n)) k k1 /\ k' = put_fd i p fd d' k1) nojump (put_fd i p fd d k).
Proof using Hn Hstep Hbody.
  intros U D G Hf.
  assert (Hgen : forall fuel buf d k1 out, user k1 i p -> fs k1 = fs k -> readable_fd (fs k) d -> good buf ->
    prints out k k1 -> (st_left (fs k) d < fuel)%nat ->
    kwp (kloop fuel body buf) (fun r k' => r = 0 /\ exists d' k2, readable_fd (fs k) d' /\
      prints (out ++ concat (g <$> st_chunks fuel (fs k) d n)) k k2 /\ k' = put_fd i p fd d' k2) nojump
      (put_fd i p fd d k1)).
  2: { apply (Hgen fuel buf d k []); try done. apply prints_nil, U. }
  clear U D G Hf fuel buf d. induction fuel as [|fuel IH]; intros buf d k1 out U1 E1 D G P Hf; [lia|].
  rewrite kloop_S. kwp_step. eapply kwp_mono; [by apply Hbody| |done].
  pose proof (st_progress (fs k) d n Hn (rf_ok _ _ D)) as Hp. simpl.
  intros [buf'|v] k2; cbv beta iota.
  - intros (Hne & G' & k3 & P3 & ->). destruct Hp as [|Hp]; [done|].
    eapply kwp_mono; [apply (IH buf' (st_step (fs k) d n) k3 (out ++ g (st_next (fs k) d n)))| |done].
    + by eapply user_prints.
    + by rewrite (prints_fs _ _ _ P3).
    + by apply readable_step.
    + done.
    + by eapply prints_app.
    + lia.
    + intros r k' (-> & d' & k4 & D' & P4 & ->). split; [done|]. exists d', k4. split; [done|]. split; [|done].
      destruct (st_next (fs k) d n) as [|b l] eqn:E; [done|]. by rewrite <- app_assoc in P4.
  - intros (He & -> & ->). kwp_step. split; [done|]. exists (st_step (fs k) d n), k1.
    split; [by apply readable_step|]. split; [|done]. rewrite He. simpl. by rewrite app_nil_r.
Qed.
End body.
End loop.

(** Output leaves the descriptors alone. *)
Lemma prints_put_fd out i p fd d k k' : prints out (put_fd i p fd d k) k' ->
  exists k1, k' = put_fd i p fd d k1 /\ prints out k k1.
Proof. intros (s & -> & S). exists (with_lib s k). split; [done|]. by exists s. Qed.

(** * cat and ls *)
Section programs.
Context `{Stream}.
Variables (w : nat -> surroundings) (fr : frame) (t : ops_table).
Hypothesis (Hdriver : forall fd buf n, driver_read (w 0%nat) (table_driver t) fd buf n =
     '(r, buf) ← st_read fd buf n; mret (r, Some buf))
  (Hstep : forall n f d, fd_jump (st_step f d n) = fd_jump d /\ flags (st_step f d n) = flags d).
Variables (i : Z) (p : pcb) (fd : Z).
Hypothesis (Hfd : 0 <= fd < MAX_OPEN_FILES) (Hfd1 : fd <> 1).

Lemma cat_loop_ok fuel k d buf : user k i p -> readable_fd t (fs k) d -> 1024 <= zlen buf < 2 ^ 31 ->
  (st_left (fs k) d < fuel)%nat ->
  kwp (cat_loop w fr fuel fd buf) (fun r k' => r = 0 /\ exists d' k1, readable_fd t (fs k) d' /\
    prints (concat (id <$> st_chunks fuel (fs k) d 1024)) k k1 /\ k' = put_fd i p fd d' k1) nojump
    (put_fd i p fd d k).
Proof using Hdriver Hstep Hfd Hfd1.
  intros U D Hb Hf. unfold cat_loop.
  apply (stream_loop t 1024 ltac:(lia) (Hstep 1024) i p fd k _ id (fun b => 1024 <= zlen b < 2 ^ 31)); try done.
  clear U D Hb Hf buf d. intros k1 d buf U E D Hb. rewrite <- E in D |- *. kwp_step.
  eapply kwp_eq; [apply (ece391_read_stream (w 0%nat) fr t 1024 ltac:(lia) Hdriver i p fd Hfd Hfd1 k1 d buf U D); lia|].
  unfold received. cbv iota beta.
  pose proof (st_next_length (fs k1) d 1024 ltac:(lia) (rf_ok _ _ _ D)) as Hl.
  set (out := st_next (fs k1) d 1024) in *. set (d' := st_step (fs k1) d 1024).
  destruct_decide (decide (zlen out = 0)) as H0.
  { kwp_step. split; [by destruct out|]. done. }
  rewrite (decide_False (P := zlen out = -1)) by lia. kwp_step.
  assert (Hlen : zlen (out ++ drop (length out) buf) = zlen buf) by (rewrite length_app, length_drop; lia).
  eapply kwp_mono; [apply (ece391_write_out (w 0%nat) fr _ i (with_fd fd d' p)
    (user_put_fd k1 i p fd d' U Hfd Hfd1)); lia| |done].
  cbv beta. intros r k2 [-> P]. rewrite Nat2Z.id, take_app_length in P.
  apply prints_put_fd in P as (k3 & -> & P). kwp_step. rewrite decide_False by lia.
  split; [by intros E0; rewrite E0 in H0|]. split; [by rewrite Hlen|]. by exists k3.
Qed.

Lemma ls_loop_ok fuel k d buf : user k i p -> readable_fd t (fs k) d -> zlen buf = 33 ->
  (st_left (fs k) d < fuel)%nat ->
  kwp (ls_loop w fr fuel fd buf) (fun r k' => r = 0 /\ exists d' k1, readable_fd t (fs k) d' /\
    prints (concat ((fun name => name ++ [10]) <$> st_chunks fuel (fs k) d 32)) k k1 /\
    k' = put_fd i p fd d' k1) nojump (put_fd i p fd d k).
Proof using Hdriver Hstep Hfd Hfd1.
  intros U D Hb Hf. unfold ls_loop.
  apply (stream_loop t 32 ltac:(lia) (Hstep 32) i p fd k _ (fun name => name ++ [10]) (fun b => zlen b = 33)); try done.
  clear U D Hb Hf buf d. intros k1 d buf U E D Hb. rewrite <- E in D |- *. kwp_step.
  change (SBUFSIZE - 1) with 32.
  eapply kwp_eq; [apply (ece391_read_stream (w 0%nat) fr t 32 ltac:(lia) Hdriver i p fd Hfd Hfd1 k1 d buf U D); lia|].
  unfold received. cbv iota beta.
  pose proof (st_next_length (fs k1) d 32 ltac:(lia) (rf_ok _ _ _ D)) as Hl.
  set (out := st_next (fs k1) d 32) in *. set (d' := st_step (fs k1) d 32).
  destruct_decide (decide (zlen out = 0)) as H0.
  { kwp_step. split; [by destruct out|]. done. }
  rewrite (decide_False (P := zlen out = -1)) by lia.
  assert (Hlen : zlen (out ++ drop (length out) buf) = 33) by (rewrite length_app, length_drop; lia).
  do 2 kwp_step. rewrite wr_ok by lia. kwp_step. kwp_step.
  set (buf2 := upd _ _ 10).
  assert (H2 : zlen buf2 = 33) by (unfold buf2; by rewrite length_upd).
  assert (Ht : take (Z.to_nat (zlen out + 1)) buf2 = out ++ [10]).
  { unfold buf2. rewrite upd_app_r by lia. rewrite take_app_ge by lia. f_equal.
    replace (zlen out - zlen out) with 0 by lia. replace (Z.to_nat _ - _)%nat with 1%nat by lia.
    destruct (drop (length out) buf) as [|x l] eqn:Ed; [|done].
    apply (f_equal length) in Ed. rewrite length_drop in Ed. simpl in Ed. lia. }
  eapply kwp_mono; [apply (ece391_write_out (w 0%nat) fr _ i (with_fd fd d' p)
    (user_put_fd k1 i p fd d' U Hfd Hfd1)); lia| |done].
  cbv beta. intros r k2 [-> P]. rewrite Ht in P.
  apply prints_put_fd in P as (k3 & -> & P). kwp_step. rewrite decide_False by lia.
  split; [by intros E0; rewrite E0 in H0|]. split; [done|]. by exists k3.
Qed.
End programs.

(** * What the file and the directory streams give *)
Lemma file_driver_read s fd buf n : driver_read s (table_driver filesys_ops_table) fd buf n =
  '(r, buf) ← st_read (Stream := file_stream) fd buf n; mret (r, Some buf).
Proof. done. Qed.
Lemma file_step_keeps n f d :
  fd_jump (st_step (Stream := file_stream) f d n) = fd_jump d /\ flags (st_step (Stream := file_stream) f d n) = flags d.
Proof. done. Qed.
Lemma dir_driver_read s fd buf n : driver_read s (table_driver dir_ops_table) fd buf n =
  '(r, buf) ← st_read (Stream := dir_stream) fd buf n; mret (r, Some buf).
Proof. done. Qed.
Lemma dir_step_keeps n f d :
  fd_jump (st_step (Stream := dir_stream) f d n) = fd_jump d /\ flags (st_step (Stream := dir_stream) f d n) = flags d.
Proof. simpl. unfold dir_step. by case_decide. Qed.

(** Every entry up to the count, when none has an empty name. *)
Lemma dir_chunks f fuel d : fs_wf f -> 0 <= file_position d <= num_entries f ->
  (forall j, 0 <= j < num_entries f -> entry_text f j <> []) ->
  (Z.to_nat (num_entries f - file_position d) < fuel)%nat ->
  st_chunks (H := dir_stream) fuel f d 32 =
    entry_text f <$> seqZ (file_position d) (num_entries f - file_position d).
Proof.
  intros W. revert d. induction fuel as [|fuel IH]; intros d Hp Hne Hf; [lia|].
  pose proof (wf_nentries _ W) as Hn. unfold MAX_ENTRIES in Hn. simpl. unfold dir_next, dir_step.
  case_decide as Hlt.
  - pose proof (entry_text_length f (file_position d)) as Hl.
    rewrite take_ge by lia.
    rewrite seqZ_cons by lia. cbn [fmap list_fmap].
    destruct (entry_text f (file_position d)) as [|b l] eqn:E; [by destruct (Hne (file_position d)); [lia|]|].
    rewrite IH; try done.
    + unfold advance. cbn [file_position]. rewrite u32_id by lia. do 3 f_equal; lia.
    + unfold advance. cbn [file_position]. rewrite u32_id by lia. lia.
    + unfold advance. cbn [file_position]. rewrite u32_id by lia. lia.
  - replace (num_entries f - file_position d) with 0 by lia. done.
Qed.

(** * The programs *)

(** The first word survives getargs. *)
Lemma cut_word_rtrim l : cut_word (rtrim l) = cut_word l.
Proof.
  induction l as [|c l IH]; [done|]. cbn [rtrim cut_word].
  destruct_decide (decide (c = 32 \/ c = 0)) as Hc.
  - destruct (rtrim l) as [|x r]; [|simpl; by rewrite decide_True].
    rewrite decide_True by (unfold blank_char; done). done.
  - destruct (rtrim l) as [|x r].
    + rewrite decide_False by (unfold blank_char; done). simpl in *. by rewrite decide_False, <- IH.
    + cbn [cut_word] in *. by rewrite decide_False, <- IH.
Qed.
Lemma cut_word_nul r t : cut_word (r ++ 0 :: t) = cut_word r.
Proof.
  induction r as [|c r IH]; [done|]. simpl. case_decide; [done|by rewrite IH].
Qed.

Lemma given_word_args args buf n : length args = 128%nat -> 128 < n <= zlen buf ->
  given_word (args_buffer args buf n) = given_word args.
Proof.
  intros Ha Hn. pose proof (rtrim_trimmed args) as [_ Hl _ _]. unfold given_word, args_buffer, over.
  destruct (Z.to_nat n - length (rtrim args))%nat as [|m] eqn:E; [lia|].
  cbn [replicate]. rewrite <- !app_assoc. cbn [app]. by rewrite cut_word_nul, cut_word_rtrim.
Qed.

(** A program that opened [j] is done: it has shown [out], and the
    descriptor's position is all that changed besides. *)
Definition read_out (k : kernel) (i : Z) (p : pcb) (j : Z) (out : list Z) (r : Z) (k' : kernel) : Prop :=
  r = 0 /\ exists d k1, prints out k k1 /\ k' = put_fd i p j d k1.

Lemma open_word k i p s fr name j t e : user k i p -> fs_wf (fs k) -> surr_wf s -> file_name_arg (fs k) name ->
  first_entry (fs k) (given_word name) = Some e -> first_free (fd_table p) = Some j ->
  (type_of (fs k) e = 1 /\ t = mkFd (Some dir_ops_table) (-1) 0 FD_ON \/
   2 <= type_of (fs k) e /\ t = mkFd (Some filesys_ops_table) (i32 (inode_of (fs k) e)) 0 FD_ON) ->
  ece391_open s fr name k = Ok (Returned j, put_fd i p j t k).
Proof.
  intros [R Hl Op W Ho _] Wf Ws A He Hj Ht. apply ece391_open_eq; [|done].
  rewrite (open_calls k i p s name R Hl Op Wf Ws A e He). destruct Ht as [[Ht ->]|[Ht ->]].
  - rewrite Ht. change (driver_of_type 1) with dir_driver.
    by apply (dir_open_ok k i p s name R Hl Op Wf Ws A).
  - replace (driver_of_type _) with file_driver by (unfold driver_of_type; by rewrite !decide_False by lia).
    by apply (file_open_ok k i p s name R Hl Op Wf Ws A e).
Qed.

(** C8: ls shows the name of every directory entry on a line of its own, in
    order, and returns 0, in a directory whose entries all have names. *)
Theorem ls_shows w fr fuel k i p j e buf :
  user k i p -> fs_wf (fs k) -> surr_wf (w 0%nat) ->
  first_entry (fs k) (chars ".") = Some e -> type_of (fs k) e = 1 -> first_free (fd_table p) = Some j ->
  (forall q, 0 <= q < num_entries (fs k) -> entry_text (fs k) q <> []) ->
  zlen buf = 33 -> num_entries (fs k) < Z.of_nat fuel ->
  kwp (ls_main w fr fuel buf)
    (read_out k i p j (concat ((fun q => entry_text (fs k) q ++ [10]) <$> seqZ 0 (num_entries (fs k))))) nojump k.
Proof.
  intros U Wf Ws He Ht Hj Hne Hb Hfuel. pose proof (first_free_range _ _ Hj) as [Hr _].
  assert (A : file_name_arg (fs k) (lit "."))
    by (constructor; [by apply (bool_decide_unpack _); vm_compute|by split; vm_compute|done]).
  pose proof (wf_nentries _ Wf) as Hn.
  unfold ls_main. kwp_step. set (d := mkFd (Some dir_ops_table) (-1) 0 FD_ON).
  eapply kwp_eq; [apply (open_word k i p (w 0%nat) fr (lit ".") j d e U Wf Ws A He Hj); by left|].
  rewrite (decide_False (P := j = -1)) by lia.
  assert (D : readable_fd (H := dir_stream) dir_ops_table (fs k) d) by (constructor; [constructor; [done|simpl; lia]|done|done]).
  eapply kwp_mono; [apply (ls_loop_ok (H := dir_stream) w fr dir_ops_table (dir_driver_read _) dir_step_keeps
    i p j ltac:(lia) ltac:(lia) fuel k d buf U D Hb)| |done].
  { simpl. lia. }
  intros r k' (-> & d' & k1 & _ & P & ->). split; [done|]. exists d', k1. split; [|done].
  rewrite dir_chunks in P; [|done|simpl; lia|done|simpl; lia]. simpl in P. rewrite Z.sub_0_r in P.
  by rewrite <- list_fmap_compose in P.
Qed.

Theorem cat_shows w fr fuel k i p j e buf :
  user k i p -> fs_wf (fs k) -> surr_wf (w 0%nat) ->
  length (args p) = 128%nat -> Forall byte (args p) -> given_word (args p) <> [] ->
  first_entry (fs k) (given_word (args p)) = Some e -> 2 <= type_of (fs k) e ->
  0 <= inode_of (fs k) e < num_inodes (fs k) -> inode_of (fs k) e < 2 ^ 31 ->
  first_free (fd_table p) = Some j -> zlen buf = 1024 -> Forall byte buf ->
  size_of (fs k) (inode_of (fs k) e) < Z.of_nat fuel ->
  kwp (cat_main w fr fuel buf) (read_out k i p j (contents (fs k) (inode_of (fs k) e))) nojump k.
Proof.
  intros U Wf Ws Ha Hab Hw He Ht Hino Hi32 Hj Hb Hbb Hfuel. pose proof (first_free_range _ _ Hj) as [Hr _].
  unfold cat_main. kwp_step.
  assert (Hrt : rtrim (args p) <> []).
  { intros E. apply Hw. unfold given_word. by rewrite <- cut_word_rtrim, E. }
  assert (H0 : at_ (args p) 0 <> 0).
  { intros E. apply Hw. unfold given_word. destruct (args p) as [|c l]; [done|].
    rewrite at_cons in E by lia. rewrite decide_True in E by lia. subst c. done. }
  assert (G : getargs (Some buf) (i32 1024) k = Ok (Returned (0, Some (args_buffer (args p) buf 1024)), k)).
  { change (i32 1024) with 1024. rewrite (getargs_ok k i p buf 1024 (us_run _ _ _ U) Ha) by (done || lia).
    by rewrite decide_False. }
  apply getargs_wp. eapply kwp_eq; [exact G|]. split; [done|]. cbn [fst snd default].
  set (name := args_buffer (args p) buf 1024). cbv iota beta. rewrite (decide_False (P := 0 <> 0)) by auto. kwp_step.
  assert (Hname : given_word name = given_word (args p)) by (apply given_word_args; [done|lia]).
  assert (Hnl : zlen name = 1024).
  { unfold name, args_buffer. pose proof (rtrim_trimmed (args p)) as [_ Hl _ _].
    rewrite length_over; [done|]. rewrite length_app, length_replicate. lia. }
  assert (A : file_name_arg (fs k) name).
  { constructor.
    - unfold name, args_buffer, over. pose proof (rtrim_trimmed (args p)) as [Hp _ _ _].
      apply Forall_app. split; [apply Forall_app; split|by apply Forall_drop].
      + rewrite Hp. by apply Forall_take.
      + apply Forall_replicate. unfold byte. lia.
    - unfold given_word. rewrite length_take. lia.
    - by rewrite Hname. }
  set (d := mkFd (Some filesys_ops_table) (i32 (inode_of (fs k) e)) 0 FD_ON).
  eapply kwp_eq; [apply (open_word k i p (w 0%nat) fr name j d e U Wf Ws A); [by rewrite Hname|done|by right]|].
  rewrite (decide_False (P := j = -1)) by lia.
  pose proof (size_bound (fs k) _ Wf Hino) as Hsz.
  assert (D : readable_fd (H := file_stream) filesys_ops_table (fs k) d).
  { constructor; [|done|done]. constructor; unfold d; simpl; rewrite ?i32_id by lia; (done || lia). }
  eapply kwp_mono; [apply (cat_loop_ok (H := file_stream) w fr filesys_ops_table (file_driver_read _) file_step_keeps
    i p j ltac:(lia) ltac:(lia) fuel k d name U D ltac:(lia))| |done].
  { simpl. rewrite i32_id by lia. lia. }
  intros r k' (-> & d' & k1 & _ & P & ->). split; [done|]. exists d', k1. split; [|done].
  rewrite list_fmap_id, <- st_rest_chunks in P.
  rewrite (file_rest _ _ _ _ (rf_ok _ _ _ D)) in P; [|lia|simpl; rewrite i32_id by lia; lia].
  unfold d in P. simpl in P. by rewrite i32_id in P by lia.
Qed.
