(* ===== verification/RunSpec.v ===== *)
(** Running a program from another: [execute] builds the child, its [main]
    runs over the system calls, [halt] hands its value to the parent. *)

From S2P Require Import Prelude Hardware CLib Screen FileSystem Paging Kernel FdTable Drivers Streams.
From S2P Require Import Process CmdLine Lifecycle Waiting Syscall SyscallSpec Getargs UserLib UserSpec.

(** * The child *)

(** What a program that opens files and shows text leaves behind: its
    descriptors, and the console. *)
Definition leaves (i : Z) (p : pcb) (r : Z) (out : list Z) (k : kernel) (v : Z) (k' : kernel) : Prop :=
  v = r /\ exists t k1, length t = Z.to_nat MAX_OPEN_FILES /\ prints out k k1 /\
    k' = put_running i (set_fd_table t p) k1.

(** The console does not see memory outside the screen. *)
Lemma grid_same m m' : (forall a, VIDEO <= a < VIDEO + 2 * NUM_ROWS * NUM_COLS -> get m' a = get m a) ->
  grid m' = grid m.
Proof.
  intros Hm. apply grid_ext; [apply grid_length|]. intros y Hy. rewrite at_grid by done.
  apply at_ext; [by rewrite !row_of_length|]. intros x Hx. rewrite row_of_length in Hx.
  unfold NUM_COLS, NUM_ROWS in *. rewrite !at_row_of by (unfold NUM_COLS; lia).
  unfold glyph. rewrite cell_eq. unfold NUM_COLS. f_equal; apply Hm; lia.
Qed.

Lemma store_bytes_get a l m b : b < a \/ a + zlen l <= b -> get (store_bytes a l m) b = get m b.
Proof. intros H. rewrite (store_bytes_filled a l m b). by rewrite decide_False by lia. Qed.

(** * The parent *)

(** A process that can run others. *)
Record ready (k : kernel) (q : Z) (pq : pcb) : Prop := {
  rd_user : user k q pq;
  rd_procs : procs_wf k;
  rd_fs : fs_wf (fs k);
  rd_paging : paging_wf (page_directory_at (link k)) (paging k);
  rd_flag : exception_flag (cpu k) = 0;
}.

(** The kernel after a child came and went. *)
Record child_done (k : kernel) (q : Z) (pq : pcb) (tx : text) (k' : kernel) : Prop := {
  cd_ready : ready k' q pq;
  cd_view : view (lib k') = tx;
  cd_use : in_use (procs k') = in_use (procs k);
  cd_current : current_process (procs k') = current_process (procs k);
  cd_term : curr_terminal (lib k') = curr_terminal (lib k);
  cd_if : if_flag (lib_io (lib k')) = if_flag (lib_io (lib k));
  cd_fs : fs k' = fs k;
  cd_kbd : kbd k' = kbd k;
  cd_saved : save_buff k' = save_buff k;
  cd_rest : (link k', ops k', rtc k', masks k', idt k') = (link k, ops k, rtc k, masks k, idt k);
}.

(** [g] is [k] after a child was taken down: what process [q], which
    started it, has is as it was. *)
Record taken_down (k : kernel) (q : Z) (g : kernel) : Prop := {
  td_rest : (link g, fs g, ops g, masks g, idt g) = (link k, fs k, ops k, masks k, idt k);
  td_paging : paging_wf (page_directory_at (link g)) (paging g);
  td_flag : exception_flag (cpu g) = 0;
  td_procs : procs_wf g;
  td_use : in_use (procs g) = in_use (procs k);
  td_current : current_process (procs g) = current_process (procs k);
  td_block : pcbs (procs g) !! slot_addr q = pcbs (procs k) !! slot_addr q;
  td_ptr : at_ (process_array (procs g)) q = at_ (process_array (procs k)) q;
  td_con : con_wf (lib g);
  td_term : curr_terminal (lib g) = curr_terminal (lib k);
  td_saved : saved_wf (save_buff g);
}.

Lemma running_cpu cp k i p : running k i p -> running (with_cpu cp k) i p.
Proof. intros []. by constructor. Qed.

(** The stub of the call that started the child gives the interrupt flag
    back. *)
Definition back_in (k g : kernel) : kernel :=
  with_lib (set_io (set_if (if_flag (lib_io (lib k))) (lib_io (lib g))) (lib g)) g.

Lemma taken_down_ready k q pq g : ready k q pq -> taken_down k q g -> ready (back_in k g) q pq.
Proof.
  intros [[R Hl Op W Ho Sv] Wk Wfs Wpg Hf] [E Tp Te Tw Tu Tc Tb Ta Wc Hcr Ts]. injection E as Tl Tf To Tm Ti.
  pose proof (pw_array _ Wk) as Ha. pose proof (pw_array _ Tw) as Ha'.
  constructor; simpl; try done.
  - constructor; simpl; [constructor; simpl|..]; try done.
    + rewrite Tc, Hcr. apply R.
    + rewrite Tc, Hcr. apply R.
    + pose proof (run_slot _ _ _ R). lia.
    + rewrite Ta. apply R.
    + rewrite Tb. apply R.
    + destruct Op. by constructor; simpl; rewrite To.
    + by destruct Wc.
  - by destruct Tw.
  - by rewrite Tf.
Qed.

Lemma taken_down_done k q pq g tx : ready k q pq -> taken_down k q g ->
  (rtc g, kbd g, save_buff g) = (rtc k, kbd k, save_buff k) -> view (lib g) = tx ->
  child_done k q pq tx (back_in k g).
Proof.
  intros Rd T E Vc. pose proof (taken_down_ready _ _ _ _ Rd T) as Rd'. injection E as Er Ek Es.
  destruct T as [Et _ _ _ Tu Tc _ _ _ Hcr _]. injection Et as Tl Tf To Tm Ti.
  constructor; simpl; try done. by rewrite Tl, To, Er, Tm, Ti.
Qed.

(** Halting process [i] keeps the process table well formed. *)
Lemma halted_procs k i q p pq status : procs_wf k -> 0 <= i < MAX_PROCESSES -> pcbs (procs k) !! slot_addr i = Some p ->
  procs_wf (halted i q p pq status k).
Proof.
  intros [Hct Ha Hu Hcur Hrows Hbl Hptr] Hi Hp. constructor; simpl; rewrite ?length_upd; try done.
  intros j Hj. destruct_decide (decide (j = i)) as Hji.
  - subst j. eexists. split; [apply lookup_insert_eq|]. split; [|done].
    destruct (Hbl i Hj) as (p' & Hp' & Hargs & _). by replace p' with p in * by congruence.
  - rewrite lookup_insert_ne by (intros E%slot_addr_inj; congruence). by apply Hbl.
Qed.

(** * A process when its first instruction runs *)
Section entered.
Variables (k : kernel) (fr : frame) (comm : list Z) (i : Z) (p : pcb) (parent : Z) (c : list Z).
Hypothesis (Wk : procs_wf k) (Wfs : fs_wf (fs k)) (Wfr : frame_wf fr) (CL : command_line comm)
  (Hi : 0 <= i < MAX_PROCESSES) (Hp : pcbs (procs k) !! slot_addr i = Some p).
Abbreviation fresh := (fresh_pcb i parent (child_args comm p) p).
Abbreviation start := (entered fr i c fresh (spawned comm i p k)).

Lemma entered_user : ops_ready k -> con_wf (lib k) -> saved_wf (save_buff k) ->
  user start i (set_current_stack (r_esp fr) (r_ebp fr) fresh).
Proof using All.
  intros Op W Sv. constructor; try done.
  - pose proof (spawned_running k fr comm Wk Wfs Wfr CL i p Hi) as []. constructor; try done. apply lookup_insert_eq.
  - by destruct Op.
  - by destruct W.
Qed.

Lemma entered_view : view (lib start) = view (lib k).
Proof using All.
  unfold view. cbn -[grid store_bytes process_base]. f_equal.
  apply grid_same. intros a Ha. apply store_bytes_get. left.
  unfold process_base, USER_SPACE, PROCESS_SIZE_, PROGRAM_START, PROGRAM_PAGE, VIDEO, NUM_ROWS, NUM_COLS in *. lia.
Qed.

Lemma entered_procs : procs_wf start.
Proof using All.
  pose proof Wk as [Hct Ha Hu Hcur Hrows Hbl Hptr]. unfold MAX_PROCESSES, TERM_BUFF_SIZE in *.
  destruct (command_line_facts k comm Wk CL) as (Hrow & _ & _ & Ha' & _).
  assert (Hover : forall l : list Z, length l = 128%nat -> length (over (args_of_line comm ++ [0]) l) = 128%nat)
    by (intros l Hl; rewrite length_over; rewrite ?length_app; simpl; lia).
  constructor; unfold MAX_PROCESSES, TERM_BUFF_SIZE; simpl; rewrite ?length_upd; try done.
  - destruct Hrows as [Hr1 Hr2]. split; [done|]. apply Forall_upd; [done|]. by apply Hover.
  - intros j Hj. destruct_decide (decide (j = i)) as Hji.
    + subst j. eexists. split; [apply lookup_insert_eq|]. split; [|done].
      destruct (Hbl i Hj) as (p' & Hp' & Hargs & _). replace p' with p in * by congruence. by apply Hover.
    + rewrite !lookup_insert_ne by (intros E%slot_addr_inj; congruence). by apply Hbl.
  - intros j Hj. destruct_decide (decide (j = i)) as Hji.
    + subst j. right. rewrite at_upd_eq by lia. done.
    + rewrite at_upd_ne by lia. by apply Hptr.
Qed.
End entered.

(** A command line the process [q] can run: program [e] of the directory in
    the free slot [i], whose control block was [p]. *)
Record launches (k : kernel) (fr : frame) (comm : list Z) (e i : Z) (p : pcb) (q : Z) : Prop := {
  ln_frame : frame_wf fr;
  ln_line : command_line comm;
  ln_program : program (fs k) (program_name comm) e;
  ln_slot : first_slot (in_use (procs k)) = i;
  ln_range : 3 <= i < MAX_PROCESSES;
  ln_block : pcbs (procs k) !! slot_addr i = Some p;
  ln_other : q <> i;
}.

Section run.
Variables (k : kernel) (fr : frame) (comm : list Z) (e i : Z) (p : pcb) (q : Z) (pq : pcb).
Hypothesis (Rd : ready k q pq) (Ln : launches k fr comm e i p q).
Let Wfr : frame_wf fr := ln_frame _ _ _ _ _ _ _ Ln.
Let CL : command_line comm := ln_line _ _ _ _ _ _ _ Ln.
Let Hpg : program (fs k) (program_name comm) e := ln_program _ _ _ _ _ _ _ Ln.
Let Hslot : first_slot (in_use (procs k)) = i := ln_slot _ _ _ _ _ _ _ Ln.
Let Hi : 3 <= i < MAX_PROCESSES := ln_range _ _ _ _ _ _ _ Ln.
Let Hp : pcbs (procs k) !! slot_addr i = Some p := ln_block _ _ _ _ _ _ _ Ln.
Let Hqi : q <> i := ln_other _ _ _ _ _ _ _ Ln.
Abbreviation c := (contents (fs k) (inode_of (fs k) e)).

(** The child's control block, and the kernel its first instruction finds. *)
Definition child_pcb : pcb := set_current_stack (r_esp fr) (r_ebp fr) (fresh_pcb i q (child_args comm p) p).
Definition child_start : kernel := entered fr i c (fresh_pcb i q (child_args comm p) p) (spawned comm i p k).

Lemma child_parent : parent_of i k = q.
Proof using All. unfold parent_of. rewrite decide_False by lia. apply Rd. Qed.

Lemma child_executes :
  execute fr (Some comm) k = Ok (Jump (ToUser (entry_of c) 0x83FFFFC), child_start).
Proof using All.
  destruct Rd as [_ Wk Wfs Wpg _]. unfold child_start.
  rewrite (execute_program k fr comm Wk Wfs Wfr CL e i p Wpg Hpg Hslot ltac:(lia) Hp).
  by rewrite child_parent.
Qed.

Lemma child_user : user child_start i child_pcb.
Proof using All. destruct Rd as [[R Hl Op W Ho Sv] Wk Wfs Wpg _]. apply entered_user; try done; lia. Qed.

Lemma child_view : view (lib child_start) = view (lib k).
Proof using All. destruct Rd as [_ Wk Wfs Wpg _]. apply entered_view; try done; lia. Qed.

(** A call that does not come back. *)
Lemma int80_jumps s eax r t k0 k1 : syscall_handler s fr eax r k0 = Ok (Jump t, k1) ->
  int80 s fr eax r k0 = Ok (Jump t, k1).
Proof using Type. intros E. unfold int80, gets, mbind, K_bind. by rewrite E. Qed.

(** ** The child halts

    From the console [s'], with the screen [tx], the processor state [cp] and
    the descriptors [t]. *)
Section halts.
Variables (s' : lib_state) (tx : text) (cp : cpu_state) (t : list fd_t) (v : Z).
Hypothesis (Hs : con_spec (lib child_start) s' tx) (Ht : length t = Z.to_nat MAX_OPEN_FILES).
Definition child_end : kernel :=
  put_running i (set_fd_table t child_pcb) (with_cpu cp (with_lib s' child_start)).
Definition child_gone : kernel :=
  halted i q (set_fd_table t child_pcb) pq (exit_status v (exception_flag cp)) child_end.

Lemma child_halts fr' :
  halt fr' v child_end =
    Ok (Jump (ToExecuteReturn (r_esp fr) (r_ebp fr) (exit_status v (exception_flag cp))), child_gone).
Proof using All.
  pose proof child_user as U. pose proof (us_run _ _ _ U) as R1.
  destruct Rd as [[R Hl Op W Ho Sv] Wk Wfs Wpg Hf]. destruct Wk as [Hct Ha Hu Hcur _ _ _].
  unfold MAX_PROCESSES, MAX_TERMINAL in *.
  assert (R2 : running (with_lib s' child_start) i child_pcb) by (by eapply fr_running).
  assert (Hsa : slot_addr i <> slot_addr q) by (intros E%slot_addr_inj; congruence).
  pose proof (run_slot _ _ _ R) as Hqs. unfold child_gone.
  apply (halt_child fr' child_end i (set_fd_table t child_pcb) q pq v); try done.
  - eapply running_put, running_cpu, R2.
  - change (i >= 3). lia.
  - simpl. rewrite !length_upd. lia.
  - simpl. rewrite length_upd. lia.
  - simpl. rewrite at_upd_ne by lia. apply R.
  - simpl. rewrite !lookup_insert_ne by done. apply R.
Qed.

(** What is back as it was. *)
Lemma child_gone_procs :
  in_use (procs child_gone) = in_use (procs k) /\
  current_process (procs child_gone) = current_process (procs k) /\
  (forall j, j <> i -> pcbs (procs child_gone) !! slot_addr j = pcbs (procs k) !! slot_addr j) /\
  (forall j, 0 <= j -> j <> i -> at_ (process_array (procs child_gone)) j = at_ (process_array (procs k)) j).
Proof using All.
  destruct Rd as [[R _ _ _ _ _] Wk _ _ _]. destruct Wk as [_ _ Hu _ _ _ _].
  pose proof (fr_curr _ _ (sp_frame _ _ _ Hs)) as Hcr. cbn in Hcr. unfold MAX_PROCESSES in *.
  split_and!.
  - simpl. rewrite upd_upd. destruct (first_slot_free _ _ Hslot ltac:(lia)) as [H0 _].
    rewrite <- H0. apply upd_id. lia.
  - simpl. rewrite Hcr, upd_upd. rewrite <- (run_pid _ _ _ R). apply upd_id. apply R.
  - intros j Hj. simpl. by rewrite !lookup_insert_ne by (intros E%slot_addr_inj; congruence).
  - intros j Hj Hne. simpl. by rewrite at_upd_ne by lia.
Qed.

Lemma child_gone_table : procs_wf child_gone.
Proof using All.
  destruct child_gone_procs as (Huse & Hcurr & Hpcb & Harr). destruct Rd as [_ Wk _ _ _].
  pose proof Wk as [Hct Ha Hu Hcur Hrows Hbl Hptr]. unfold MAX_PROCESSES, TERM_BUFF_SIZE in *.
  destruct (command_line_facts k comm Wk CL) as (Hrow & _ & _ & Ha' & _).
  pose proof (fr_curr _ _ (sp_frame _ _ _ Hs)) as Hcr. cbn in Hcr.
  assert (Hover : forall l : list Z, length l = 128%nat -> length (over (args_of_line comm ++ [0]) l) = 128%nat)
    by (intros l Hl; rewrite length_over; rewrite ?length_app; simpl; lia).
  constructor; unfold MAX_PROCESSES, TERM_BUFF_SIZE; rewrite ?Huse, ?Hcurr; try done.
  - cbn. by rewrite Hcr.
  - simpl. by rewrite length_upd.
  - simpl. rewrite length_upd. destruct Hrows as [Hr1 Hr2]. split; [done|].
    apply Forall_upd; [done|]. by apply Hover.
  - intros j Hj. destruct_decide (decide (j = i)) as Hji; [|rewrite Hpcb by done; by apply Hbl].
    subst j. eexists. split; [apply lookup_insert_eq|]. split; [|done].
    destruct (Hbl i Hj) as (p' & Hp' & Hargs & _). replace p' with p in * by congruence. by apply Hover.
  - intros j Hj. destruct_decide (decide (j = i)) as Hji; [|rewrite Harr by lia; by apply Hptr].
    subst j. right. simpl. by rewrite at_upd_eq by lia.
Qed.

Lemma child_gone_down : taken_down k q child_gone.
Proof using All.
  destruct child_gone_procs as (Huse & Hcurr & Hpcb & Harr). pose proof child_gone_table as Wk'.
  destruct Rd as [[R _ _ _ _ Sv] _ _ Wpg _], Hs as [Wc Fc _]. pose proof (run_slot _ _ _ R).
  constructor; [reflexivity| |reflexivity|exact Wk'|exact Huse|exact Hcurr|by apply Hpcb|apply Harr; lia
    |exact Wc|exact (fr_curr _ _ Fc)|exact Sv].
  change (paging child_gone) with (add_process q (add_process i (paging k))). by do 2 apply add_process_wf.
Qed.

Lemma child_gone_done : child_done k q pq tx (back_in k child_gone).
Proof using All.
  apply taken_down_done; [exact Rd|exact child_gone_down|reflexivity|]. apply Hs.
Qed.
End halts.

(** ** The end of execute *)
Lemma execute_returns s code v g :
  start s fr (code (entry_of c)) child_start = Ok (Jump (ToExecuteReturn (r_esp fr) (r_ebp fr) v), g) ->
  ece391_execute s fr code comm k = Ok (Returned (i32 v), back_in k g).
Proof using All.
  intros E. unfold ece391_execute.
  rewrite (int80_jumps s SYS_EXECUTE _ (ToUser (entry_of c) 0x83FFFFC) k child_start).
  2: { change (syscall_handler s fr SYS_EXECUTE (mkRegs 0 0 0 (Some comm) None) k)
         with ((v ← execute fr (Some comm); mret (v, None : option (list Z))) k).
       unfold mbind, K_bind. by rewrite child_executes. }
  by rewrite E, decide_True.
Qed.

Lemma exit_status_u8 v : exit_status (u8 v) 0 = u8 v.
Proof using Type.
  unfold exit_status, STATUS_BYTEMASK. pose proof (u8_range v) as H. rewrite Z.land_comm.
  change 0xFF with (Z.ones 8). rewrite Z.land_ones by lia. rewrite Z.mod_small by lia.
  rewrite Z.add_0_r. apply u32_id. lia.
Qed.

(** The parent gets the low byte of what main returns, its own page and
    process back, and the screen as the child left it. *)
Lemma ece391_execute_runs s code r out :
  kwp (code (entry_of c)) (leaves i child_pcb r out child_start) nojump child_start ->
  kwp (ece391_execute s fr code comm) (fun v k' => v = u8 r /\
    child_done k q pq (t_puts out (view (lib k))) k') nojump k.
Proof using All.
  intros Hmain. rewrite <- child_view. unfold kwp in Hmain.
  destruct (code (entry_of c) child_start) as [[[v|] k1]| |] eqn:Ec; [|done..].
  destruct Hmain as (-> & t & k2 & Ht & (s' & -> & Hs) & ->).
  pose proof (child_halts s' _ (cpu child_start) t (u8 r) Hs Ht fr) as E.
  change (exception_flag (cpu child_start)) with (exception_flag (cpu k)) in E.
  rewrite (rd_flag _ _ _ Rd), exit_status_u8 in E. pose proof (u8_range r).
  eapply kwp_eq.
  - apply execute_returns. unfold start, mbind, K_bind at 1. rewrite Ec.
    unfold ece391_halt, mbind, K_bind at 1. erewrite int80_jumps; [reflexivity|].
    change (put_running i (set_fd_table t child_pcb) (with_lib s' child_start)) with (child_end s' (cpu child_start) t).
    change (syscall_handler s fr SYS_HALT (mkRegs r 0 0 None None) (child_end s' (cpu child_start) t))
      with ((v ← halt fr (u8 r); mret (v, None : option (list Z))) (child_end s' (cpu child_start) t)).
    unfold mbind, K_bind. rewrite E. reflexivity.
  - split; [rewrite i32_id; lia|by apply child_gone_done].
Qed.

(** The child finds the arguments of the command line. *)
Lemma child_args_row : 0 ∉ args_of_line comm /\ length (child_args comm p) = 128%nat /\
  exists t, child_args comm p = args_of_line comm ++ 0 :: t.
Proof using All.
  destruct Rd as [_ Wk _ _ _]. destruct (pw_blocks _ Wk i ltac:(lia)) as (p' & Hp' & Hargs & _).
  replace p' with p in * by congruence.
  destruct (command_line_facts k comm Wk CL) as (_ & _ & _ & Ha & Hnul). unfold TERM_BUFF_SIZE in Hargs.
  split; [done|]. split.
  - unfold child_args. rewrite length_over; [done|]. rewrite length_app. simpl. lia.
  - unfold child_args, over. rewrite <- app_assoc. by eexists.
Qed.

Lemma args_start c0 r : args_of_line comm = c0 :: r -> c0 <> 32 /\ c0 <> 0.
Proof using All.
  intros E. destruct CL as [H0 _ _ _]. pose proof (after_word_cstr comm H0) as Ha. unfold args_of_line in E.
  assert (Hz : 0 < zlen (cstr (drop (after_word comm) comm))) by (rewrite E; simpl; lia).
  split.
  - intros ->. apply (f_equal (fun l => at_ l 0)) in E. rewrite at_cons, decide_True in E by lia.
    rewrite at_cstr in E by lia. unfold after_word in *.
    rewrite <- drop_drop in *. set (r' := drop (length (cut_word comm)) comm) in *.
    rewrite cstr_drop, length_drop in Hz.
    2: { apply spaces_cstr, nul_drop; [done|apply cut_word_cstr]. }
    pose proof (length_cstr r'). rewrite at_drop in E by lia.
    apply (spaces_stop r'); [lia|]. rewrite <- E. f_equal. lia.
  - intros ->. pose proof (cstr_idem (drop (after_word comm) comm)) as Hn. rewrite E in Hn. set_solver.
Qed.

(** What a program is given is what was typed after its name, up to the
    blanks at the end. *)
(** C12: A program started with arguments gets them back: getargs with a
    buffer longer than 128 bytes returns 0 and the string typed after the
    program's name, up to blanks at its end. *)
Theorem getargs_child buf n : 128 < n < 2 ^ 31 -> n <= zlen buf -> args_of_line comm <> [] ->
  exists b, getargs (Some buf) n child_start = Ok (Returned (0, Some b), child_start) /\
    rtrim (cstr b) = rtrim (args_of_line comm).
Proof using All.
  intros Hn Hb Hne. pose proof (us_run _ _ _ child_user) as R. destruct child_args_row as (Hnul & Hl & t & Et).
  assert (H0 : at_ (args child_pcb) 0 <> 0 /\ rtrim (args child_pcb) <> []).
  { change (args child_pcb) with (child_args comm p). rewrite Et.
    destruct (args_of_line comm) as [|c0 r] eqn:E; [done|]. destruct (args_start c0 r E) as [H32 H00].
    cbn [app]. split; [by rewrite at_cons, decide_True by lia|]. cbn [rtrim].
    destruct (rtrim (r ++ 0 :: t)); [|done]. by rewrite decide_False by (unfold blank_char; lia). }
  eexists. split.
  - rewrite (getargs_ok _ _ _ buf n R Hl Hn Hb (proj2 H0)). by rewrite decide_False by apply H0.
  - change (args child_pcb) with (child_args comm p). rewrite Et in Hl |- *.
    apply args_buffer_text; [done|done|lia].
Qed.
End run.

(** * A command that is no program *)
Lemma ece391_execute_missing s fr code comm k q pq :
  ready k q pq -> frame_wf fr -> command_line comm ->
  (forall e, first_entry (fs k) (program_name comm) = Some e -> type_of (fs k) e <> 2) ->
  kwp (ece391_execute s fr code comm) (fun v k' => v = -1 /\ child_done k q pq (view (lib k)) k') nojump k.
Proof.
  intros Rd Wfr CL Hno. unfold ece391_execute, kwp.
  pose proof Rd as [[R Hl Op W Ho Sv] Wk Wfs Wpg Hf].
  rewrite (int80_eq s fr SYS_EXECUTE (mkRegs 0 0 0 (Some comm) None) (-1, None) k
    (with_cmd_row (parsed_row comm k) k)); [| |done].
  2: { change (syscall_handler s fr SYS_EXECUTE (mkRegs 0 0 0 (Some comm) None) k)
         with ((v ← execute fr (Some comm); mret (v, None : option (list Z))) k).
       by kstep (execute_not_found k fr comm Wk Wfs Wfr CL Hno). }
  split; [done|]. constructor; try done. constructor; try done.
  - constructor; try done; [by destruct R|by destruct Op].
  - destruct (command_line_facts k comm Wk CL) as (Hrow & _ & _ & Ha & _). destruct Wk as [? ? ? ? [Hr1 Hr2] ? ?].
    constructor; simpl; rewrite ?length_upd; try done. split; [done|]. apply Forall_upd; [done|].
    unfold parsed_row. rewrite length_over; rewrite ?length_app; simpl; lia || done.
Qed.
