(* ===== verification/ShellSpec.v ===== *)
(** The shell ([syscalls/ece391shell.c]): a line is typed at its prompt, the
    program it names runs, its output is on the screen and the shell prompts
    again. *)

From S2P Require Import Prelude Hardware CLib Screen Printf FileSystem Paging Kernel FdTable Drivers Streams.
From S2P Require Import Process CmdLine Lifecycle Keyboard KeyboardSpec Waiting WaitingSpec Syscall.
From S2P Require Import SyscallSpec Getargs UserLib UserSpec Programs ReadersSpec RunSpec.

(** * Between system calls *)
Lemma ready_prints k q pq out k' : ready k q pq -> prints out k k' -> ready k' q pq.
Proof.
  intros [U Wk Wfs Wpg Hf] P. pose proof (user_prints _ _ _ _ _ U P) as U'.
  destruct P as (s & -> & [_ F _]). constructor; try done.
  destruct Wk. constructor; try done. cbn. by rewrite (fr_curr _ _ F).
Qed.

Lemma idle_prints k e out k' : idle k e -> prints out k k' -> idle k' e /\
  typed_in k' = typed_in k /\ view (lib k') = t_puts out (view (lib k)).
Proof.
  intros [Rep W Hif M] (s & -> & S). destruct (rep_with_lib _ _ _ _ S Rep) as [Rep' _].
  destruct S as [W' [_ _ _ _ _ [E1 E2 E3 _]] V]. split; [|split; [|done]].
  - constructor; [done|done|by rewrite <- Hif|done].
  - unfold typed_in. simpl. by rewrite E2, E3.
Qed.

Lemma quiet_saved k k' e : quiet k k' -> kbd_rep k' e -> saved_wf (save_buff k) -> saved_wf (save_buff k').
Proof.
  intros [_ Ht Ho] Rep [Hl Hr]. pose proof (kr_saves _ _ Rep) as Hl'. split; [done|].
  apply Forall_lookup. intros j row Hj. pose proof (lookup_lt_Some _ _ _ Hj) as Hlt.
  replace row with (at_ (save_buff k') (Z.of_nat j))
    by (unfold at_; rewrite Nat2Z.id; by apply list_lookup_total_correct).
  destruct_decide (decide (Z.of_nat j = curr_terminal (lib k))) as Hc.
  - rewrite Hc, <- Ht, (kr_save _ _ Rep). apply row_of_line_length, Rep.
  - destruct (Ho (Z.of_nat j)) as (_ & _ & _ & ->); [lia|done|].
    apply (Forall_at (fun row => length row = Z.to_nat TERM_BUFF_SIZE)); [done|lia].
Qed.

Lemma ready_quiet k q pq k' e : ready k q pq -> quiet k k' -> idle k' e -> ready k' q pq.
Proof.
  intros [[R Hl Op W Ho Sv] Wk Wfs Wpg Hf] Q [Rep W' _ _].
  pose proof (quiet_saved _ _ _ Q Rep Sv) as Sv'. destruct Q as [E Ht _].
  assert (Ef : (procs k', fs k', paging k', cpu k', ops k', link k') = (procs k, fs k, paging k, cpu k, ops k, link k))
    by (by rewrite E). injection Ef as E1 E2 E3 E4 E5 E6.
  constructor; try congruence.
  - constructor; try done.
    + destruct R. constructor; rewrite ?E1, ?Ht; done.
    + destruct Op. constructor; rewrite ?E5; done.
  - destruct Wk. constructor; rewrite ?E1, ?Ht; done.
Qed.

(** The keyboard stays as it was while a child runs. *)
Lemma idle_child k e q pq tx k' : idle k e -> child_done k q pq tx k' -> idle k' e.
Proof.
  intros [Rep W Hif M] D. destruct D as [Rd _ _ _ Ht Hif' _ Hk Hs Hrest]. injection Hrest as _ _ _ Hm _.
  constructor; [|apply Rd|congruence|].
  - destruct Rep. constructor; rewrite ?Hk, ?Hs, ?Ht; done.
  - intros j. rewrite <- (M j). by apply unmasked_masks.
Qed.

(** * Reading a line through descriptor 0 *)
Lemma ece391_read_line s fr k q pq e keys rest buf n e' t' :
  ready k q pq -> open_on pq 0 kybd_ops_table -> idle k e -> edit_bytes e ->
  typed_in k (s_arriving s) = keys ++ ENTER :: rest -> ENTER ∉ keys -> no_commands e keys ->
  Forall byte buf -> 128 <= n <= zlen buf -> zlen buf < 2 ^ 31 ->
  session (keys ++ [ENTER]) (unready e) (view (lib k)) = (e', t') ->
  let line := stripped (e_saved e') in
  kwp (ece391_read s fr 0 buf n) (fun '(c, b) k' =>
    c = count_read line /\ b = over (line_read line) buf /\ (Forall byte line /\ 0 ∉ line /\ zlen line <= 127) /\
    ready k' q pq /\ idle k' e' /\ edit_bytes e' /\ quiet k k' /\ view (lib k') = t') nojump k.
Proof.
  intros Rd Hk Hi Hb Ht Hne Hc Hbuf Hn Hb31 Es line. destruct (rd_user _ _ _ Rd) as [R Hl Op _ _ _].
  apply read_wp. change (i32 0) with 0. rewrite i32_id by lia.
  apply (kwp_at _ (keyboard_read (s_arriving s) (Some buf) n));
    [exact (read_calls k q pq s R Hl Op 0 kybd_ops_table buf n Hk)|].
  eapply kwp_mono; [by apply (keyboard_read_session k e (s_arriving s) keys rest buf n e' t')| |done].
  intros [c b] k' (-> & -> & (? & ? & ?) & Hi' & Hb' & Q & V). split.
  - unfold keeps_if. rewrite (id_if _ _ Hi). apply Hi'.
  - split_and!; try done. by eapply ready_quiet.
Qed.

(** * From the line to the command *)
Lemma wr_end (line buf : list Z) x y : zlen line < zlen buf ->
  wr (over (line ++ [x]) buf) (zlen line) y = Ok (over (line ++ [y]) buf).
Proof.
  intros Hl. assert (Hlo : length (over (line ++ [x]) buf) = length buf)
    by (apply length_over; rewrite length_app; simpl; lia).
  rewrite wr_ok by lia. f_equal. rewrite <- !upd_over by lia. apply upd_upd.
Qed.

(** The shell cuts the newline off. *)
Lemma line_cut (line buf : list Z) : zlen line < zlen buf -> 10 ∉ line ->
  let cnt := count_read line in
  let b := over (line_read line) buf in
  exists c, (if decide (cnt > 0) then rd b (cnt - 1) else mret 0) = Ok c /\
    wr b (if decide (cnt > 0 /\ c = 10) then cnt - 1 else cnt) 0 = Ok (over (line ++ [0]) buf).
Proof.
  intros Hl H10. unfold count_read, line_read. cbv zeta.
  assert (Hlo : forall x, length (over (line ++ [x]) buf) = length buf)
    by (intros x; apply length_over; rewrite length_app; simpl; lia).
  destruct (is_exit line) eqn:Hex.
  - assert (Hpos : 0 < zlen line).
    { apply bool_decide_eq_true in Hex. apply (f_equal length) in Hex. rewrite length_take in Hex.
      change (length (chars "exit")) with 4%nat in Hex. lia. }
    rewrite decide_True by lia. rewrite rd_ok by (rewrite Hlo; lia). eexists. split; [done|].
    rewrite decide_False; [by apply wr_end|]. intros [_ E]. apply H10. rewrite <- E.
    rewrite at_over, length_app by lia. simpl. rewrite decide_True, at_app, decide_True by lia.
    apply list_elem_of_lookup_total_2. lia.
  - rewrite decide_True by lia. replace (zlen line + 1 - 1) with (zlen line) by lia.
    rewrite rd_ok by (rewrite Hlo; lia). eexists. split; [done|].
    rewrite decide_True; [by apply wr_end|]. split; [lia|].
    rewrite at_over, length_app by lia. simpl. rewrite decide_True, at_app, decide_False by lia.
    by rewrite Z.sub_diag.
Qed.

(** * One turn *)

(** The shell waits for a line: [e] is the line typed so far. *)
Record prompt (k : kernel) (q : Z) (pq : pcb) (e : edit) : Prop := {
  pr_ready : ready k q pq;
  pr_stdin : open_on pq 0 kybd_ops_table;
  pr_idle : idle k e;
  pr_bytes : edit_bytes e;
}.

(** During the wait after the message [out] the keys [keys] and enter arrive:
    they leave the edit state [e'] and the screen [t']. *)
Record answers (k : kernel) (s : surroundings) (e : edit) (out keys : list Z) (e' : edit) (t' : text) : Prop := {
  ty_keys : exists rest, typed_in k (s_arriving s) = keys ++ ENTER :: rest;
  ty_enter : ENTER ∉ keys;
  ty_plain : no_commands e keys;
  ty_session : session (keys ++ [ENTER]) (unready e) (t_puts out (view (lib k))) = (e', t');
}.
Abbreviation types k s e := (answers k s e (chars "391OS> ")).

(** Process [q] goes on after a child: [e] is the line typed meanwhile, [tx]
    the screen. *)
Record resumes (k : kernel) (q : Z) (pq : pcb) (e : edit) (tx : text) (k' : kernel) : Prop := {
  rs_ready : ready k' q pq;
  rs_idle : idle k' e;
  rs_bytes : edit_bytes e;
  rs_use : in_use (procs k') = in_use (procs k);
  rs_view : view (lib k') = tx;
}.

Lemma child_resumes k e q pq tx k' : idle k e -> edit_bytes e -> child_done k q pq tx k' -> resumes k q pq e tx k'.
Proof. intros Hi He D. pose proof (idle_child _ _ _ _ _ _ Hi D). by destruct D; constructor. Qed.

(** What the message and the line leave: the same process, the line's text on
    the screen. *)
Record typed_at (k : kernel) (q : Z) (pq : pcb) (e' : edit) (t' : text) (k' : kernel) : Prop := {
  ta_ready : ready k' q pq;
  ta_idle : idle k' e';
  ta_bytes : edit_bytes e';
  ta_view : view (lib k') = t';
  ta_procs : procs k' = procs k;
  ta_fs : fs k' = fs k;
  ta_term : curr_terminal (lib k') = curr_terminal (lib k);
  ta_paging : paging k' = paging k;
  ta_link : link k' = link k;
}.

(** A question and its answer. *)
Lemma ask_line s0 s fr k q pq e str out keys buf e' t' :
  prompt k q pq e -> message str out -> answers k s e out keys e' t' -> Forall byte buf -> zlen buf = 1024 ->
  let line := stripped (e_saved e') in
  kwp (ece391_fdputs s0 fr 1 str) (fun _ => kwp (ece391_read s fr 0 buf (BUFSIZE - 1))
    (fun '(c, b) k' => c = count_read line /\ b = over (line_read line) buf /\
      (Forall byte line /\ 0 ∉ line /\ zlen line <= 127) /\ typed_at k q pq e' t' k') nojump) nojump k.
Proof.
  intros [Rd Hk0 Hi Hb] [M0 M1 M2] [[rest Hkeys] Hent Hcmd Hses] Hbuf Hlen line.
  eapply kwp_mono; [by apply (ece391_fdputs_ok s0 fr k q pq (rd_user _ _ _ Rd))| |done].
  rewrite M2. intros [] k1 P. destruct (idle_prints _ _ _ _ Hi P) as (Hi1 & T1 & V1).
  pose proof (ready_prints _ _ _ _ _ Rd P) as Rd1. unfold BUFSIZE. change (1024 - 1) with 1023.
  eapply kwp_mono; [apply (ece391_read_line s fr k1 q pq e keys rest buf 1023 e' t'); try done;
    [by rewrite T1|lia|lia|by rewrite V1]| |done].
  intros [c b] k2 (-> & -> & Hline & Rd2 & Hi2 & Hb2 & Q2 & V2). split_and!; try done; try apply Hline.
  destruct Q2 as [E Ht _]. destruct P as (s1 & -> & [_ F _]). constructor; try done; try by rewrite E.
  by rewrite Ht, <- (fr_curr _ _ F).
Qed.

Section turn.
Variables (w : nat -> surroundings) (fr : frame) (code : Z -> K Z) (n : nat).
Variables (k : kernel) (q : Z) (pq : pcb) (e : edit) (keys : list Z) (buf : list Z) (e' : edit) (t' : text).
Hypothesis (Pr : prompt k q pq e) (Ty : types k (w n) e keys e' t')
  (Hbuf : Forall byte buf) (Hlen : zlen buf = 1024).
Abbreviation line := (stripped (e_saved e')).
Abbreviation typed_here := (typed_at k q pq e' t').

(** Without the newline, the line is the command. *)
Definition command_of_line : list Z := over (line ++ [0]) buf.

Lemma shell_turn_reads Q J :
  (forall k', typed_here k' -> 10 ∉ line -> kwp (
    r ← lift (ece391_strcmp command_of_line (lit "exit"));
    if decide (r = 0) then mret (Some 0, command_of_line) else
    c ← lift (rd command_of_line 0);
    if decide (c = 0) then mret (None, command_of_line) else
    rval ← ece391_execute (w n) fr code command_of_line;
    _ ← (if decide (rval = -1) then ece391_fdputs (w 0%nat) fr 1 (litln "no such command")
         else if decide (rval = 256) then ece391_fdputs (w 0%nat) fr 1 (litln "program terminated by exception")
         else if decide (rval <> 0) then ece391_fdputs (w 0%nat) fr 1 (litln "program terminated abnormally")
         else mret tt);
    mret (None, command_of_line)) Q J k') ->
  10 ∉ line -> kwp (shell_turn w fr code n buf) Q J k.
Proof using All.
  intros HQ H10. unfold shell_turn. kwp_step.
  assert (M : message (lit "391OS> ") (chars "391OS> ")) by message.
  eapply kwp_mono; [by apply (ask_line (w 0%nat) (w n) fr k q pq e _ _ keys buf e' t' Pr M Ty)| |done].
  intros [] k1 P. kwp_step. eapply kwp_mono; [exact P| |done].
  intros [c b] k2 (-> & -> & (Bl & Zl & Ll) & T2).
  rewrite decide_False by (unfold count_read; destruct (is_exit line); lia).
  destruct (line_cut line buf ltac:(lia) H10) as (c & E1 & E2).
  kwp_step. eapply kwp_eq; [by apply lift_ok|]. kwp_step. eapply kwp_eq; [by apply lift_ok|]. by apply HQ.
Qed.

Lemma command_text k' : typed_here k' -> 0 ∈ command_of_line /\ cstr command_of_line = line /\ zlen command_of_line = 1024.
Proof using All.
  intros [_ [Rep _ _ _] _ _ _ _ _ _ _]. pose proof (kr_saved_short _ _ Rep) as Hs. apply stripped_short in Hs.
  unfold command_of_line. split; [|split].
  - unfold over. set_solver.
  - unfold over. rewrite <- app_assoc. apply cstr_app, stripped_no_nul.
  - rewrite length_over; [done|]. rewrite length_app. simpl. lia.
Qed.

(** "exit" ends the shell. *)
Lemma shell_turn_exits : line = chars "exit" ->
  kwp (shell_turn w fr code n buf) (fun '(v, b) k' => v = Some 0 /\ typed_here k') nojump k.
Proof using All.
  intros Hl. apply shell_turn_reads.
  - intros k1 T _. destruct (command_text k1 T) as (H0 & Hc & _). do 2 kwp_step.
    eapply wp_mono; [apply ece391_strcmp_ok; [done|by apply (bool_decide_unpack _); vm_compute]|].
    intros v Hv. rewrite decide_True; [by kwp_step|]. apply Hv. by rewrite Hc, Hl.
  - rewrite Hl. by apply (bool_decide_unpack _); vm_compute.
Qed.

(** What the shell says of the value of execute. *)
Definition complaint (v : Z) : list Z :=
  if decide (v = -1) then says "no such command"
  else if decide (v = 256) then says "program terminated by exception"
  else if decide (v <> 0) then says "program terminated abnormally" else [].

Lemma complain v k1 ex tx k2 : resumes k1 q pq ex tx k2 ->
  kwp (if decide (v = -1) then ece391_fdputs (w 0%nat) fr 1 (litln "no such command")
       else if decide (v = 256) then ece391_fdputs (w 0%nat) fr 1 (litln "program terminated by exception")
       else if decide (v <> 0) then ece391_fdputs (w 0%nat) fr 1 (litln "program terminated abnormally")
       else mret tt)
    (fun _ k3 => prompt k3 q pq ex /\ in_use (procs k3) = in_use (procs k1) /\
      view (lib k3) = t_puts (complaint v) tx) nojump k2.
Proof using Pr.
  intros [Rd2 Hi2 Be Hu Hv]. pose proof (pr_stdin _ _ _ _ Pr) as Hk0.
  assert (P : forall str out, message str out -> kwp (ece391_fdputs (w 0%nat) fr 1 str)
    (fun _ k3 => prompt k3 q pq ex /\ in_use (procs k3) = in_use (procs k1) /\ view (lib k3) = t_puts out tx)
    nojump k2).
  { intros str out [M0 M1 <-].
    eapply kwp_mono; [by apply (ece391_fdputs_ok (w 0%nat) fr k2 q pq (rd_user _ _ _ Rd2))| |done].
    intros [] k3 P. destruct (idle_prints _ _ _ _ Hi2 P) as (Hi3 & _ & V3). split; [|split].
    - constructor; [by eapply ready_prints|done..].
    - by destruct P as (s & -> & _).
    - by rewrite V3, Hv. }
  unfold complaint. repeat case_decide; [apply P; message..|]. kwp_step. by split_and!.
Qed.

Hypothesis (Hexit : line <> chars "exit") (H10 : 10 ∉ line) (CL : command_line command_of_line).

(** The line runs a command; the shell reports its value and prompts. *)
Lemma shell_turn_resumes rv (left : edit -> Prop) tx :
  (forall k1, typed_here k1 -> kwp (ece391_execute (w n) fr code command_of_line)
    (fun v k2 => v = rv /\ exists ex, left ex /\ resumes k1 q pq ex tx k2) nojump k1) ->
  kwp (shell_turn w fr code n buf) (fun '(v, b) k' => v = None /\ zlen b = 1024 /\
    (exists ex, left ex /\ prompt k' q pq ex) /\
    in_use (procs k') = in_use (procs k) /\ view (lib k') = t_puts (complaint rv) tx) nojump k.
Proof using All.
  intros Hx. apply shell_turn_reads; [|done]. intros k1 T _. destruct (command_text k1 T) as (H0 & Hc & Hcl).
  specialize (Hx k1 T). rewrite <- (ta_procs _ _ _ _ _ _ T).
  do 2 kwp_step. eapply wp_mono; [apply ece391_strcmp_ok; [done|by apply (bool_decide_unpack _); vm_compute]|].
  intros v Hv. rewrite Hc in Hv. rewrite decide_False by (intros E; apply Hexit; by apply Hv).
  assert (Hl0 : at_ command_of_line 0 <> 0).
  { intros E. destruct CL as [_ _ _ Hn]. unfold program_name, word_of_line in Hn.
    destruct command_of_line as [|x l]; [simpl in Hn; lia|]. rewrite at_cons, decide_True in E by lia.
    subst x. simpl in Hn. lia. }
  kwp_step. eapply kwp_eq; [apply lift_ok, rd_ok; lia|]. cbv beta. rewrite decide_False by done. kwp_step.
  eapply kwp_mono; [exact Hx| |done]. intros rv' k2 (-> & ex & Hex & D).
  kwp_step. eapply kwp_mono; [by apply (complain rv k1 ex tx k2)| |done].
  intros _ k3 (P3 & U3 & V3). kwp_step. split_and!; [done|done|by exists ex|done|done].
Qed.

Lemma shell_turn_executes rv tx :
  (forall k1, typed_here k1 -> kwp (ece391_execute (w n) fr code command_of_line)
    (fun v k2 => v = rv /\ child_done k1 q pq tx k2) nojump k1) ->
  kwp (shell_turn w fr code n buf) (fun '(v, b) k' => v = None /\ zlen b = 1024 /\ prompt k' q pq e' /\
    in_use (procs k') = in_use (procs k) /\ view (lib k') = t_puts (complaint rv) tx) nojump k.
Proof using All.
  intros Hx. eapply kwp_mono; [apply (shell_turn_resumes rv (eq e') tx)| |done].
  - intros k1 T. eapply kwp_mono; [by apply Hx| |done]. intros v k2 [-> D]. split; [done|]. exists e'. split; [done|].
    destruct T. by apply child_resumes.
  - intros [v b] k' (? & ? & (ex & <- & ?) & ? & ?). done.
Qed.

(** A program whose main returns [r], and what it shows. *)
Lemma shell_turn_runs ep i p r out : launches k fr command_of_line ep i p q ->
  (forall k1, typed_here k1 -> let kc := child_start k1 fr command_of_line ep i p q in
    kwp (code (entry_of (contents (fs k) (inode_of (fs k) ep))))
      (leaves i (child_pcb fr command_of_line i p q) r out kc) nojump kc) ->
  kwp (shell_turn w fr code n buf) (fun '(v, b) k' => v = None /\ zlen b = 1024 /\ prompt k' q pq e' /\
    in_use (procs k') = in_use (procs k) /\ view (lib k') = t_puts (out ++ complaint (u8 r)) t') nojump k.
Proof using All.
  intros Ln Hcode. rewrite t_puts_app. apply shell_turn_executes. intros k1 T.
  specialize (Hcode k1 T). destruct T as [Rd1 _ _ V1 Ep Ef Et _ _]. rewrite <- V1. rewrite <- Ef in Hcode.
  assert (Ln1 : launches k1 fr command_of_line ep i p q) by (destruct Ln; constructor; congruence).
  exact (ece391_execute_runs k1 fr command_of_line ep i p q pq Rd1 Ln1 (w n) code r out Hcode).
Qed.
End turn.

(** * cat at the prompt *)

(** A program that only opens and reads one descriptor. *)
Lemma read_out_leaves k i p j out r k' : length (fd_table p) = Z.to_nat MAX_OPEN_FILES ->
  read_out k i p j out r k' -> leaves i p 0 out k r k'.
Proof.
  intros Hl (-> & d & k1 & P & ->). split; [done|]. exists (upd (fd_table p) j d), k1.
  split; [by rewrite length_upd|]. by split.
Qed.

Lemma given_word_child a t : 0 ∉ a -> given_word (a ++ 0 :: t) = given_word a.
Proof. intros _. unfold given_word. by rewrite cut_word_nul. Qed.

(** The file a program's first argument names. *)
Record text_file (f : fs_state) (arg : list Z) (e : Z) : Prop := {
  tf_given : arg <> [];
  tf_entry : first_entry f arg = Some e;
  tf_type : 2 <= type_of f e;
  tf_inode : 0 <= inode_of f e < num_inodes f;
  tf_int : inode_of f e < 2 ^ 31;
}.

(** The user types "cat" (program [ep]) and the name of a file (entry [ef])
    at the prompt: the file is on the screen and the shell waits for the
    next line. *)
(** C2: From the prompt to the prompt: when the user types cat and the name of
    a file, the shell reads the line, execute builds the process and enters
    the program, cat opens the file and copies it to the terminal, halt
    returns to the shell; the screen shows the edited line and then exactly
    the file's contents, and the shell is at its prompt again with the process
    slots as they were. *)
Theorem shell_cat w cw fr cfr code n fuel k q pq e keys buf cbuf e' t' ep i p ef :
  prompt k q pq e -> types k (w n) e keys e' t' -> Forall byte buf -> zlen buf = 1024 ->
  let line := stripped (e_saved e') in
  let comm := command_of_line buf e' in
  let file := inode_of (fs k) ef in
  line <> chars "exit" -> 10 ∉ line -> launches k fr comm ep i p q -> Forall byte (args p) ->
  code (entry_of (contents (fs k) (inode_of (fs k) ep))) = cat_main cw cfr fuel cbuf ->
  surr_wf (cw 0%nat) -> zlen cbuf = 1024 -> Forall byte cbuf ->
  text_file (fs k) (given_word (args_of_line comm)) ef -> size_of (fs k) file < Z.of_nat fuel ->
  kwp (shell_turn w fr code n buf) (fun '(v, b) k' => v = None /\ zlen b = 1024 /\ prompt k' q pq e' /\
    in_use (procs k') = in_use (procs k) /\ view (lib k') = t_puts (contents (fs k) file) t') nojump k.
Proof.
  intros Pr Ty Hbuf Hlen line comm file Hexit H10 Ln Hpb Hcode Wcw Hcb Hcbb [Hw Hf Hft Hfi Hf31] Hfuel.
  eapply kwp_mono; [apply (shell_turn_runs w fr code n k q pq e keys buf e' t' Pr Ty Hbuf Hlen Hexit H10
    (ln_line _ _ _ _ _ _ _ Ln) ep i p 0 (contents (fs k) file) Ln)| |done].
  - intros k1 [Rd1 _ _ _ Ep Ef Et _ _] ks. rewrite Hcode.
    assert (Ln1 : launches k1 fr comm ep i p q) by (destruct Ln; constructor; congruence).
    pose proof (child_user k1 fr comm ep i p q pq Rd1 Ln1) as U. fold comm in ks. fold ks in U.
    destruct (child_args_row k1 fr comm ep i p q pq Rd1 Ln1) as (Hnul & Hal & t & Ea).
    assert (Efs : fs ks = fs k) by exact Ef. change (child_args comm p) with (args (child_pcb fr comm i p q)) in *.
    assert (Hg : given_word (args (child_pcb fr comm i p q)) = given_word (args_of_line comm))
      by (rewrite Ea; by apply given_word_child).
    unfold file in *. rewrite <- Efs in *. rewrite <- Hg in *.
    eapply kwp_mono; [apply (cat_shows cw cfr fuel ks i _ 2 ef cbuf U); try done| |done].
    + apply Rd1.
    + destruct (ln_line _ _ _ _ _ _ _ Ln) as [_ _ Bc _]. unfold child_args, over. apply Forall_app. split; [|by apply Forall_drop].
      apply Forall_app. split; [|by apply Forall_singleton]. unfold args_of_line. rewrite cstr_prefix.
      by apply Forall_take, Forall_drop.
    + intros v k2 Ho. by apply (read_out_leaves _ _ _ 2).
  - intros [v b] k2 (H1 & H2 & H3 & H4 & H5). change (complaint (u8 0)) with (@nil Z) in H5. by rewrite app_nil_r in H5.
Qed.

(** A line whose first word is no program of the directory. *)
(** C21: When the user types a command whose first word is no regular file of
    the directory, execute returns -1, the shell prints "no such command"
    after the edited line and is at its prompt again, the process slots as
    they were. *)
Theorem shell_unknown w fr code n k q pq e keys buf e' t' :
  prompt k q pq e -> types k (w n) e keys e' t' -> Forall byte buf -> zlen buf = 1024 -> frame_wf fr ->
  let line := stripped (e_saved e') in
  let comm := command_of_line buf e' in
  line <> chars "exit" -> 10 ∉ line -> command_line comm ->
  (forall ep, first_entry (fs k) (program_name comm) = Some ep -> type_of (fs k) ep <> 2) ->
  kwp (shell_turn w fr code n buf) (fun '(v, b) k' => v = None /\ zlen b = 1024 /\ prompt k' q pq e' /\
    in_use (procs k') = in_use (procs k) /\ view (lib k') = t_puts (says "no such command") t') nojump k.
Proof.
  intros Pr Ty Hbuf Hlen Wfr line comm Hexit H10 CL Hno.
  apply (shell_turn_executes w fr code n k q pq e keys buf e' t' Pr Ty Hbuf Hlen Hexit H10 CL (-1)).
  intros k1 [Rd1 _ _ <- _ Ef _ _ _]. apply ece391_execute_missing; try done. by rewrite Ef.
Qed.
