(* ===== verification/PromptSpec.v ===== *)
(** Programs that ask for a line: [hello] ([syscalls/ece391hello.c]) greets
    it, [counter] ([syscalls/ece391counter.c]) takes it for the number of a
    test. *)

From S2P Require Import Prelude Hardware CLib Screen Printf Kernel Process Keyboard KeyboardSpec Waiting WaitingSpec Syscall.
From S2P Require Import UserLib UserSpec Programs ReadersSpec RunSpec ShellSpec.

(** * The line as a string *)

(** The line with its newline, unless it is the command [exit]. *)
Definition answered (line : list Z) : list Z := if is_exit line then line else line ++ [10].

Lemma answered_length line : zlen (answered line) = count_read line.
Proof. unfold answered, count_read. destruct (is_exit line); [done|]. rewrite length_app. simpl. lia. Qed.

Lemma answered_no_nul line : 0 ∉ line -> 0 ∉ answered line.
Proof. unfold answered. destruct (is_exit line); set_solver. Qed.

(** The program puts a NUL where the count it read says. *)
Lemma wr_count line buf : zlen line <= 127 -> zlen buf = 1024 ->
  wr (over (line_read line) buf) (count_read line) 0 = Ok (over (answered line ++ [0]) buf).
Proof.
  intros Hl Hb. unfold line_read, count_read, answered. destruct (is_exit line).
  - apply wr_end. lia.
  - rewrite wr_ok by (rewrite length_over; rewrite ?length_app; simpl; lia). f_equal.
    replace (zlen line + 1) with (zlen (line ++ [10])) by (rewrite length_app; simpl; lia).
    apply upd_over. rewrite length_app. simpl. lia.
Qed.

Lemma answered_string line buf : 0 ∉ line -> zlen line <= 127 -> zlen buf = 1024 ->
  let b := over (answered line ++ [0]) buf in 0 ∈ b /\ zlen b = 1024 /\ cstr b = answered line.
Proof.
  intros H0 Hl Hb b. unfold b. split_and!.
  - unfold over. set_solver.
  - rewrite length_over; [done|]. rewrite length_app. pose proof (answered_length line) as E.
    unfold count_read in E. simpl. destruct (is_exit line); lia.
  - unfold over. rewrite <- app_assoc. by apply cstr_app, answered_no_nul.
Qed.

(** A line is never a single digit: the newline counts. *)
Lemma wrong_choice line buf : let c := at_ (over (answered line ++ [0]) buf) 0 in
  count_read line > 1 \/ count_read line = 1 /\ (c < 48 \/ c > 50).
Proof.
  unfold count_read, answered. destruct (is_exit line) eqn:Hex.
  - left. apply bool_decide_eq_true in Hex. apply (f_equal length) in Hex. rewrite length_take in Hex.
    change (length (chars "exit")) with 4%nat in Hex. lia.
  - destruct line as [|c line]; [right|left; simpl; lia]. split; [done|]. by left.
Qed.

(** Printing keeps the prompt. *)
Lemma typed_prompt k q pq e e' t' k' : prompt k q pq e -> typed_at k q pq e' t' k' -> prompt k' q pq e'.
Proof. intros Pr T. constructor; [apply T|apply Pr|apply T|apply T]. Qed.

Lemma prompt_prints k q pq e out k' : prompt k q pq e -> prints out k k' ->
  prompt k' q pq e /\ view (lib k') = t_puts out (view (lib k)).
Proof.
  intros [Rd Hk Hi Hb] P. destruct (idle_prints _ _ _ _ Hi P) as (Hi' & _ & V).
  split; [|done]. constructor; try done. by eapply ready_prints.
Qed.

Lemma prompt_fdputs s fr k q pq e str out : prompt k q pq e -> 0 ∈ str -> zlen str < 2 ^ 31 -> cstr str = out ->
  kwp (ece391_fdputs s fr 1 str) (fun _ k' => prompt k' q pq e /\ view (lib k') = t_puts out (view (lib k))) nojump k.
Proof.
  intros Pr H0 Hl <-. pose proof Pr as [Rd _ _ _].
  eapply kwp_mono; [by apply (ece391_fdputs_ok s fr k q pq (rd_user _ _ _ Rd))| |done].
  intros [] k' P. by apply (prompt_prints k).
Qed.

(** * The programs *)
Section programs.
Variables (w : nat -> surroundings) (fr : frame).
Variables (k : kernel) (q : Z) (pq : pcb) (e : edit) (keys buf : list Z) (e' : edit) (t' : text).
Hypothesis (Pr : prompt k q pq e) (Hbuf : Forall byte buf) (Hlen : zlen buf = 1024).
Abbreviation line := (stripped (e_saved e')).

(** The program has shown [out] since enter was typed. *)
Definition replied (out : list Z) (r : Z) (k' : kernel) : Prop :=
  r = 0 /\ prompt k' q pq e' /\ view (lib k') = t_puts out t'.

(** C11: hello prints its question, waits for a line, and then prints Hello,
    and exactly the line as edited with its newline (no newline after the
    command exit), returning 0 with the keyboard and the process as before. *)
Theorem hello_greets : answers k (w 0%nat) e (chars "Hi, what's your name? ") keys e' t' ->
  kwp (hello_main w fr buf) (replied (chars "Hello, " ++ answered line)) nojump k.
Proof using All.
  intros An. unfold hello_main. kwp_step.
  assert (M : message (lit "Hi, what's your name? ") (chars "Hi, what's your name? ")) by message.
  eapply kwp_mono; [by apply (ask_line (w 0%nat) (w 0%nat) fr k q pq e _ _ keys buf e' t' Pr M An)| |done].
  intros [] k1 P. kwp_step. eapply kwp_mono; [exact P| |done]. clear P.
  intros [c b] k2 (-> & -> & (Bl & Zl & Ll) & T2). pose proof (typed_prompt _ _ _ _ _ _ _ Pr T2) as P2.
  rewrite decide_False by (unfold count_read; destruct (is_exit line); lia).
  kwp_step. eapply kwp_eq; [by apply lift_ok, wr_count|]. kwp_step.
  destruct (answered_string line buf Zl Ll Hlen) as (H0 & Hb & Hs).
  assert (M2 : message (lit "Hello, ") (chars "Hello, ")) by message. destruct M2 as [M0 M1 M2].
  eapply kwp_mono; [by apply (prompt_fdputs _ fr k2 q pq e' _ _ P2 M0 M1 M2)| |done].
  intros [] k3 [P3 V3]. kwp_step.
  eapply kwp_mono; [apply (prompt_fdputs _ fr k3 q pq e' _ _ P3 H0 ltac:(lia) Hs)| |done].
  intros [] k4 [P4 V4]. kwp_step. split; [done|]. split; [done|].
  by rewrite V4, V3, (ta_view _ _ _ _ _ _ T2), t_puts_app.
Qed.

(** C10: counter never counts: whatever line is typed at its menu, the newline
    that read returns with the line makes the choice longer than one character
    (or, for an empty line, a wrong one), and the program prints Wrong Choice!
    after the edited line and returns 0, the keyboard and the process as
    before. *)
Theorem counter_refuses :
  answers k (w 0%nat) e (says "Enter the Test Number: (0): 100, (1): 10000, (2): 100000") keys e' t' ->
  kwp (counter_main w fr buf) (replied (says "Wrong Choice!")) nojump k.
Proof using All.
  intros An. unfold counter_main. kwp_step.
  assert (M : message (litln "Enter the Test Number: (0): 100, (1): 10000, (2): 100000")
    (says "Enter the Test Number: (0): 100, (1): 10000, (2): 100000")) by message.
  eapply kwp_mono; [by apply (ask_line (w 0%nat) (w 0%nat) fr k q pq e _ _ keys buf e' t' Pr M An)| |done].
  intros [] k1 P. kwp_step. eapply kwp_mono; [exact P| |done]. clear P.
  intros [c b] k2 (-> & -> & (Bl & Zl & Ll) & T2). pose proof (typed_prompt _ _ _ _ _ _ _ Pr T2) as P2.
  assert (Hc : 0 <= count_read line <= 128) by (unfold count_read; destruct (is_exit line); lia).
  cbv zeta. rewrite u32_id by lia. change (u32 (-1)) with 4294967295. rewrite decide_False by lia.
  kwp_step. eapply kwp_eq; [by apply lift_ok, wr_count|]. kwp_step.
  destruct (answered_string line buf Zl Ll Hlen) as (H0 & Hb & Hs).
  kwp_step. rewrite ece391_strlen_ok by (done || lia). rewrite Hs, answered_length. kwp_step. kwp_step.
  eapply kwp_eq; [apply lift_ok, rd_ok; lia|].
  rewrite decide_True by (by apply wrong_choice). kwp_step.
  assert (M2 : message (litln "Wrong Choice!") (says "Wrong Choice!")) by message. destruct M2 as [M0 M1 M2].
  eapply kwp_mono; [by apply (prompt_fdputs _ fr k2 q pq e' _ _ P2 M0 M1 M2)| |done].
  intros [] k3 [P3 V3]. kwp_step. split; [done|]. split; [done|].
  by rewrite V3, (ta_view _ _ _ _ _ _ T2).
Qed.
End programs.
