(* ===== verification/SyscallTypes.v ===== *)
(** What every system call keeps: the types of the caller's descriptors, and
    everything that is not the caller's.

    Partial correctness suffices here: a call that faults or still waits has
    given nothing back.  That the calls do return is shown call by call in
    the other files. *)

From S2P Require Import Prelude Hardware CLib Screen Printf FileSystem Pic Idt Rtc Paging Kernel.
From S2P Require Import FdTable Drivers Streams Process CmdLine Lifecycle Terminals Testcases Keyboard KeyboardSpec.
From S2P Require Import Waiting WaitingSpec Syscall SyscallSpec Vidmap UserLib UserSpec RunSpec ShellSpec.

(** * Specifications *)

(** A descriptor is closed, a file, or bound to a driver that has no inode. *)
Inductive fd_typed : fd_t -> Prop :=
| typed_closed : fd_typed closed_fd
| typed_file inode pos : int32 inode -> uint32 pos ->
    fd_typed (mkFd (Some filesys_ops_table) inode pos FD_ON)
| typed_device t pos : t <> filesys_ops_table -> uint32 pos -> fd_typed (mkFd (Some t) (-1) pos FD_ON).

(** The caller's program page is its own four megabytes. *)
Record own_page (k : kernel) (i : Z) : Prop := {
  op_linked : kernel_linked k;
  op_inv : paging_inv (page_directory_at (link k)) (page_table_at (link k)) (user_page_table_at (link k)) (paging k);
  op_program : forall v, in_program_page v ->
    ktranslate k v = Some (Mapped (process_base i + (v - PROGRAM_PAGE)) true);
}.

Record typed_user (k : kernel) (i : Z) (p : pcb) : Prop := {
  ty_user : user k i p;
  ty_fds : Forall fd_typed (fd_table p);
  ty_in : open_on p 0 kybd_ops_table;
  ty_page : own_page k i;
}.

(** Physical memory a call of process [i] may write: the screen and the
    process's own page. *)
Definition may_write (i a : Z) : Prop :=
  VIDEO <= a < VIDEO + 2 * NUM_ROWS * NUM_COLS \/ process_base i <= a < process_base i + USER_PAGE_SIZE.

(** What terminal [u] has on the keyboard's and the terminal driver's side. *)
Definition line_of_terminal (k : kernel) (u : Z) : Z * Z * list Z * list Z :=
  (at_ (caps_shift_flag (kbd k)) u, at_ (buffer_index (kbd k)) u, at_ (buffer (kbd k)) u, at_ (save_buff k) u).
(** Its cursor. *)
Definition cursor_of_terminal (k : kernel) (u : Z) : Z * Z := (at_ (screen_x (lib k)) u, at_ (screen_y (lib k)) u).

(** [k'] has, of what does not belong to process [i] and its terminal, what
    [k] has: the other terminals' lines and cursors, all memory but the
    screen and the program page, all address translations but the video
    window of the terminal. *)
Record apart_from (i : Z) (k k' : kernel) : Prop := {
  ap_link : link k' = link k;
  ap_term : curr_terminal (lib k') = curr_terminal (lib k);
  ap_old : old_terminal (lib k') = old_terminal (lib k);
  ap_lines : forall u, 0 <= u < MAX_TERMINAL -> u <> curr_terminal (lib k) ->
    line_of_terminal k' u = line_of_terminal k u /\ cursor_of_terminal k' u = cursor_of_terminal k u;
  ap_mem : forall a, ~ may_write i a -> get (lib_mem (lib k')) a = get (lib_mem (lib k)) a;
  ap_pages : forall v, 0 <= v < 2 ^ 32 -> page_of v <> page_of (video_window (curr_terminal (lib k))) ->
    ktranslate k' v = ktranslate k v;
}.
#[export] Instance apart_from_preorder i : PreOrder (apart_from i).
Proof.
  split; [by intros k; constructor|]. intros k1 k2 k3 [L1 T1 O1 N1 M1 P1] [L2 T2 O2 N2 M2 P2]. constructor; try congruence.
  - intros u Hu Hne. destruct (N1 u Hu Hne), (N2 u Hu ltac:(congruence)). split; congruence.
  - intros a Ha. by rewrite M2, M1.
  - intros v Hv Hne. rewrite P2; [by apply P1|done|congruence].
Qed.

(** [k'], in which [p'] is the caller's control block, differs from [k] in
    nothing but the caller's descriptors, its terminal's console, line and
    video window, its program page, and the clock and keyboard flags. *)
Record kept (i : Z) (k : kernel) (p : pcb) (k' : kernel) (p' : pcb) : Prop := {
  kp_typed : typed_user k' i p';
  kp_pcb : p' = set_fd_table (fd_table p') p;
  kp_procs : procs k' = set_pcbs (<[slot_addr i := p']> (pcbs (procs k))) (procs k);
  kp_rest : (link k', fs k', ops k', cpu k', masks k', idt k') = (link k, fs k, ops k, cpu k, masks k, idt k);
  kp_apart : apart_from i k k';
}.

Definition keeps {A} (k : kernel) (i : Z) (p : pcb) (_ : A) (k' : kernel) : Prop :=
  exists p', kept i k p k' p'.

(** [m] faults, does not end, or returns with [Q]: it does not leave for
    another process. *)
Definition kwlp {A} (m : K A) (Q : A -> kernel -> Prop) (k : kernel) : Prop :=
  match m k with
  | Ok (Returned a, k') => Q a k'
  | Ok (Jump _, _) => False
  | Fault | NoFuel => True
  end.

Section kwlp.
Context {A B : Type}.
Implicit Types Q : A -> kernel -> Prop.

Lemma kwlp_ret (a : A) Q k : Q a k -> kwlp (mret a) Q k.
Proof using Type. done. Qed.
Lemma kwlp_bind (m : K A) (f : A -> K B) (Q : B -> kernel -> Prop) k :
  kwlp m (fun a => kwlp (f a) Q) k -> kwlp (m ≫= f) Q k.
Proof using Type. unfold kwlp, mbind, K_bind. destruct (m k) as [[[a|t] k']| |]; done. Qed.
Lemma kwlp_mono (m : K A) Q Q' k : kwlp m Q k -> (forall a k', Q a k' -> Q' a k') -> kwlp m Q' k.
Proof using Type. unfold kwlp. destruct (m k) as [[[a|t] k']| |]; auto. Qed.
Lemma kwlp_kwp (m : K A) Q k : kwp m Q nojump k -> kwlp m Q k.
Proof using Type. unfold kwp, kwlp. by destruct (m k) as [[[a|t] k']| |]. Qed.
Lemma kwlp_eq (m : K A) a k k' Q : m k = Ok (Returned a, k') -> Q a k' -> kwlp m Q k.
Proof using Type. unfold kwlp. by intros ->. Qed.
Lemma kwlp_at (m m' : K A) Q k : m k = m' k -> kwlp m' Q k -> kwlp m Q k.
Proof using Type. unfold kwlp. by intros ->. Qed.
Lemma kwlp_gets (f : kernel -> A) Q k : Q (f k) k -> kwlp (gets f) Q k.
Proof using Type. done. Qed.
Lemma kwlp_modify f (Q : unit -> kernel -> Prop) k : Q tt (f k) -> kwlp (modify f) Q k.
Proof using Type. done. Qed.
Lemma kwlp_lift (o : outcome A) Q k : (forall a, o = Ok a -> Q a k) -> kwlp (lift o) Q k.
Proof using Type. unfold kwlp, lift. destruct o; simpl; auto. Qed.
Lemma kwlp_console (f : lib_state -> outcome (A * lib_state)) Q k :
  (forall a s, f (lib k) = Ok (a, s) -> Q a (with_lib s k)) -> kwlp (console f) Q k.
Proof using Type. unfold kwlp, console. destruct (f (lib k)) as [[a s]| |]; simpl; auto. Qed.
Lemma kwlp_fault Q k : kwlp fault Q k.
Proof using Type. done. Qed.
End kwlp.

(** A loop that is left has kept its invariant. *)
Lemma loop_left {S R} (Inv : S -> Prop) (body : S -> outcome (S + R)) (Q : R -> Prop) fuel : forall s r,
  Inv s -> (forall s r, Inv s -> body s = Ok r -> match r with inl s' => Inv s' | inr r => Q r end) ->
  loop fuel body s = Ok r -> Q r.
Proof.
  induction fuel as [|fuel IH]; intros s r HI Hb E; [done|]. rewrite loop_S in E.
  destruct (body s) as [[s'|r']| |] eqn:Es; simpl in E; try done.
  - by apply (IH s' r (Hb _ _ HI Es)).
  - injection E as <-. exact (Hb _ _ HI Es).
Qed.

Lemma wr_length {A} (l l' : list A) i x : wr l i x = Ok l' -> length l' = length l.
Proof. unfold wr. case_decide; intros [= <-]. by rewrite length_upd. Qed.

Ltac lwp_step :=
  lazymatch goal with
  | |- kwlp (mbind _ _) _ _ => apply kwlp_bind
  | |- kwlp (mret _) _ _ => apply kwlp_ret
  | |- kwlp (gets _) _ _ => apply kwlp_gets
  | |- kwlp (modify _) _ _ => apply kwlp_modify
  | |- kwlp (lift _) _ _ => apply kwlp_lift; let a := fresh "a" in let E := fresh "E" in intros a E
  | |- kwlp fault _ _ => apply kwlp_fault
  | |- kwlp (if decide ?P then _ else _) _ _ => destruct_decide (decide P)
  | |- kwlp (let '(_, _) := ?x in _) _ _ => destruct x as [? ?]
  end; cbv beta iota.

(** * Frames *)

Lemma own_page_same k k' i : own_page k i -> link k' = link k -> paging k' = paging k -> own_page k' i.
Proof.
  intros [L I V] El Ep. unfold kernel_linked, ktranslate in *.
  constructor; unfold kernel_linked, ktranslate; by rewrite El, ?Ep.
Qed.

Lemma typed_same k k' i p : typed_user k i p -> procs k' = procs k -> ops k' = ops k -> link k' = link k ->
  paging k' = paging k -> curr_terminal (lib k') = curr_terminal (lib k) -> con_wf (lib k') ->
  saved_wf (save_buff k') -> typed_user k' i p.
Proof.
  intros [[[] Hl [] W Ho Sv] F I V] E1 E2 E3 E4 E5 W' S'.
  constructor; [|done|done|by eapply own_page_same].
  constructor; [|done| |done|done|done]; constructor; rewrite ?E1, ?E2, ?E5; done.
Qed.

(** The screen changed, or only the parts no one else has. *)
Lemma apart_same k k' i : link k' = link k -> paging k' = paging k -> screen_frame (lib k) (lib k') ->
  (forall u, 0 <= u < MAX_TERMINAL -> u <> curr_terminal (lib k) -> line_of_terminal k' u = line_of_terminal k u) ->
  apart_from i k k'.
Proof.
  intros El Ep [O C X M] Hl. constructor; [done..| | |].
  - intros u Hu Hne. split; [by apply Hl|]. unfold cursor_of_terminal. destruct (X u ltac:(lia) Hne). congruence.
  - intros a Ha. apply M. intros H. apply Ha. by left.
  - intros v _ _. unfold ktranslate. by rewrite El, Ep.
Qed.

Lemma set_pcbs_same k i p : running k i p -> procs k = set_pcbs (<[slot_addr i := p]> (pcbs (procs k))) (procs k).
Proof. intros []. unfold set_pcbs. rewrite insert_id by done. by destruct (procs k). Qed.

(** Only the parts that are free to change did. *)
Lemma kept_same k k' i p : typed_user k i p -> procs k' = procs k ->
  (link k', fs k', ops k', cpu k', masks k', idt k') = (link k, fs k, ops k, cpu k, masks k, idt k) ->
  paging k' = paging k -> screen_frame (lib k) (lib k') ->
  (forall u, 0 <= u < MAX_TERMINAL -> u <> curr_terminal (lib k) -> line_of_terminal k' u = line_of_terminal k u) ->
  con_wf (lib k') -> saved_wf (save_buff k') -> kept i k p k' p.
Proof.
  intros T E1 E2 E3 Sf Hn W S. assert (E4 : ops k' = ops k) by congruence. assert (E5 : link k' = link k) by congruence.
  constructor.
  - eapply typed_same; try done. apply Sf.
  - by destruct p.
  - rewrite E1. by eapply set_pcbs_same, T.
  - done.
  - by apply apart_same.
Qed.

Lemma kept_refl k i p : typed_user k i p -> kept i k p k p.
Proof. intros T. apply kept_same; try done; apply T. Qed.

Lemma kept_trans i k p k1 p1 k2 p2 : kept i k p k1 p1 -> kept i k1 p1 k2 p2 -> kept i k p k2 p2.
Proof.
  intros [T1 P1 C1 R1 E1] [T2 P2 C2 R2 E2]. constructor; [done| | |congruence|by etransitivity].
  - rewrite P2, P1. by destruct p.
  - rewrite C2, C1. unfold set_pcbs. simpl. by rewrite insert_insert_eq.
Qed.

Lemma kept_shows k i p k' t : typed_user k i p -> shows t k k' -> kept i k p k' p.
Proof.
  intros T (s & -> & [W F _]). apply kept_same; try done; [by apply con_frame_screen|apply T].
Qed.

Lemma kept_put_fd k i p j d : typed_user k i p -> 2 <= j < MAX_OPEN_FILES -> fd_typed d ->
  kept i k p (put_fd i p j d k) (with_fd j d p).
Proof.
  intros [U F (Ho & Hf & Ht) V] Hj Hd. constructor; [|done|done|done|by apply apart_same].
  constructor; [apply user_put_fd; [done|lia|lia]|by apply Forall_upd| |by eapply own_page_same].
  unfold MAX_OPEN_FILES in *. repeat split; simpl; rewrite ?at_upd_ne by lia; done.
Qed.

Lemma kept_quiet k i p k' e : typed_user k i p -> quiet k k' -> idle k' e -> kept i k p k' p.
Proof.
  intros T Q [Rep W _ _].
  assert (S : saved_wf (save_buff k')) by (eapply quiet_saved; [done|done|apply T]).
  destruct Q as [E Ht Ho Sf]. apply kept_same; [done|by rewrite E|by rewrite E|by rewrite E|done| |done|done].
  intros u Hu Hne. destruct (Ho u Hu Hne) as (E1 & E2 & E3 & E4). unfold line_of_terminal. congruence.
Qed.

(** * The drivers *)
Section calls.
Variables (s : surroundings) (k : kernel) (i : Z) (p : pcb).
Hypothesis T : typed_user k i p.

Let R : running k i p := us_run _ _ _ (ty_user _ _ _ T).
Let Hl : length (fd_table p) = Z.to_nat MAX_OPEN_FILES := us_fds _ _ _ (ty_user _ _ _ T).

Lemma keeps_refl {A} (a : A) : keeps k i p a k.
Proof using T. exists p. by apply kept_refl. Qed.

(** Descriptors 0 and 1 are not files. *)
Lemma file_fd fd t : open_on p fd t -> t <> kybd_ops_table -> t <> term_ops_table -> 2 <= fd < MAX_OPEN_FILES.
Proof using T.
  intros (Hfd & _ & E) N0 N1. destruct (ty_in _ _ _ T) as (_ & _ & E0). destruct (us_out _ _ _ (ty_user _ _ _ T)) as (_ & _ & E1).
  assert (fd <> 0 /\ fd <> 1) by (split; intros ->; congruence). lia.
Qed.

Lemma fd_type fd : 0 <= fd < MAX_OPEN_FILES -> fd_typed (at_ (fd_table p) fd).
Proof using T.
  intros Hfd. apply (Forall_at fd_typed); [apply T|]. pose proof (us_fds _ _ _ (ty_user _ _ _ T)).
  unfold MAX_OPEN_FILES in *. lia.
Qed.

(** An open descriptor stays of its type at another position. *)
Lemma advance_typed amt d : fd_typed d -> flags d = FD_ON -> fd_typed (advance amt d).
Proof using Type.
  intros [|inode pos Hi Hp|t pos Ht Hp] Hf; [done|..]; unfold advance; simpl; constructor; try done; apply u32_range.
Qed.

Lemma kprint_keeps {A} fmt args out (v : A) : 0 ∈ fmt -> render None (cstr fmt) args = Some out ->
  kwlp (_ ← kprintf fmt args; mret v) (keeps k i p) k.
Proof using T.
  intros H0 Hr. lwp_step. apply kwlp_kwp. eapply kwp_mono; [apply (kprintf_ok k fmt args out); [apply T|done|done]| |done].
  intros [] k' S. exists p. by eapply kept_shows.
Qed.

Lemma close_fd_keeps fd t (v : Z) : open_on p fd t -> t <> kybd_ops_table -> t <> term_ops_table ->
  kwlp (_ ← close_fd fd; mret v) (keeps k i p) k.
Proof using T.
  intros Ho N0 N1. pose proof (file_fd _ _ Ho N0 N1). lwp_step.
  eapply kwlp_eq; [by apply (close_fd_ok k i p R Hl), Ho|]. lwp_step.
  eexists. apply kept_put_fd; [done|done|constructor].
Qed.

Lemma add_offset_keeps fd t amt : open_on p fd t -> t <> kybd_ops_table -> t <> term_ops_table ->
  kwlp (add_offset fd amt) (keeps k i p) k.
Proof using T.
  intros Ho N0 N1. pose proof (file_fd _ _ Ho N0 N1).
  eapply kwlp_eq; [by apply (add_offset_ok k i p R Hl), Ho|].
  eexists. apply kept_put_fd; [done|done|]. apply advance_typed; [apply fd_type; lia|apply Ho].
Qed.

(** A new descriptor. *)
Lemma new_fd_keeps d msg out : fd_typed d -> 0 ∈ msg -> render None (cstr msg) [] = Some out ->
  kwlp (fd_index ← get_fd_index;
    if decide (fd_index = -1) then _ ← kprintf msg []; mret (-1)
    else _ ← set_fd_info fd_index d; mret fd_index) (keeps k i p) k.
Proof using T.
  intros Hd H0 Hr. lwp_step. eapply kwlp_eq; [by apply (get_fd_index_ok k i p R Hl)|].
  destruct (first_free (fd_table p)) as [j|] eqn:E; unfold default, from_option, id; cbv beta.
  - apply first_free_range in E as [E _]. rewrite decide_False by lia. lwp_step.
    eapply kwlp_eq; [apply (set_fd_info_ok k i p R Hl); lia|]. lwp_step. eexists. by apply kept_put_fd.
  - rewrite decide_True by done. by eapply kprint_keeps.
Qed.

(** The clock's registers are reached through its ports. *)
Lemma kset_frequency_keeps beyond f : kwlp (kset_frequency beyond f) (keeps k i p) k.
Proof using T.
  unfold kset_frequency, kwlp. rewrite set_frequency_eq. simpl. exists p.
  apply kept_same; try done; [apply con_wf_io|]; apply T.
Qed.
End calls.

Lemma keeps_bind {A B} (m : K A) (f : A -> K B) k i p :
  kwlp m (keeps k i p) k ->
  (forall a k1 p1, typed_user k1 i p1 -> kwlp (f a) (keeps k1 i p1) k1) -> kwlp (m ≫= f) (keeps k i p) k.
Proof.
  intros Hm Hf. apply kwlp_bind. eapply kwlp_mono; [exact Hm|]. intros a k1 [p1 K1].
  eapply kwlp_mono; [apply (Hf a k1 p1), K1|]. intros b k2 [p2 K2]. exists p2. by eapply kept_trans.
Qed.

Ltac constant := first [by apply (bool_decide_unpack _); vm_compute | vm_compute; reflexivity].

Lemma rtc_open_keeps beyond k i p : typed_user k i p -> kwlp (rtc_open beyond) (keeps k i p) k.
Proof.
  intros T. apply keeps_bind; [by apply kset_frequency_keeps|]. intros [] k1 p1 T1.
  eapply new_fd_keeps; [done| |constant..]. by apply (typed_device rtc_ops_table 0).
Qed.

Lemma clean_row_keeps row row' : clean_row row = Ok row' -> length row' = length row.
Proof.
  apply (loop_left (fun '(_, r) => length r = length row) _ (fun r => length r = length row)); [done|]. intros [i r] o Hr E.
  case_decide; ok_inv; [|done]. by erewrite wr_length by done.
Qed.
Lemma fill_row_keeps row buf n row' : fill_row row buf n = Ok row' -> length row' = length row.
Proof.
  apply (loop_left (fun '(_, r) => length r = length row) _ (fun r => length r = length row)); [done|]. intros [i r] o Hr E.
  case_decide; ok_inv; [|done]. by erewrite wr_length by done.
Qed.

Lemma terminal_read_keeps buf n k i p : typed_user k i p -> kwlp (terminal_read buf n) (keeps k i p) k.
Proof.
  intros T. destruct buf as [buf|]; simpl; [|by apply keeps_refl]. unfold curr_term. do 15 lwp_step.
  pose proof (us_saved _ _ _ (ty_user _ _ _ T)) as [Hn Hr].
  apply rd_inv in E as [Hc ->]. apply clean_row_keeps in E0. apply fill_row_keeps in E1.
  assert (Hrow : length a1 = Z.to_nat TERM_BUFF_SIZE).
  { rewrite E1, E0. apply (Forall_at (fun row => length row = Z.to_nat TERM_BUFF_SIZE)); [done|lia]. }
  unfold wr in E2. case_decide; [|done]. injection E2 as <-.
  exists p. apply kept_same; try done; [|apply T|].
  - intros u Hu Hne. unfold line_of_terminal. simpl. by rewrite at_upd_ne by (lia || done).
  - split; simpl; [by rewrite length_upd|by apply Forall_upd].
Qed.

Lemma terminal_write_keeps buf n k i p : typed_user k i p -> kwlp (terminal_write (Some buf) n) (keeps k i p) k.
Proof.
  intros T. apply kwlp_console. intros m s E. revert E.
  pose proof (us_con _ _ _ (ty_user _ _ _ T)) as W.
  apply (loop_left (fun '(_, s') => con_wf s' /\ screen_frame (lib k) s')
    _ (fun '(m, s') => keeps k i p m (with_lib s' k))); [by split|].
  intros [j s1] o [W1 C1] E. case_decide; ok_inv.
  - pose proof (putc_spec (u8 a) s1 W1) as P. rewrite E1 in P. destruct P as [W2 F2 _].
    split; [done|]. etransitivity; [done|by apply con_frame_screen].
  - exists p. apply kept_same; try done. apply T.
Qed.

(** Interrupts without command keys leave the caller alone. *)
Lemma wait_quiet ready arriving : forall k e, idle k e -> no_commands e (typed_in k arriving) ->
  kwlp (wait_until ready arriving) (fun _ k' => quiet k k' /\ exists e', idle k' e') k.
Proof.
  induction arriving as [|i arriving IH]; intros k e Hi Hc; simpl; unfold poll; lwp_step; lwp_step;
    destruct (ready k); try (split; [done|by exists e]); [done|].
  assert (Hp : forall j, i = Key j -> plain_key e (scancode k)).
  { intros j ->. unfold typed_in in Hc. simpl in Hc. by destruct (no_commands_step _ _ _ Hc). }
  apply kwlp_bind. eapply kwlp_mono; [apply kwlp_kwp, (deliver_ok i k e Hi Hp)|]. intros [] k' [A V N P F Q].
  eapply kwlp_mono; [apply (IH k' _ A)|].
  - unfold typed_in in *. rewrite N, P. destruct i; simpl in *; rewrite ?Nat.add_0_r, ?Nat.add_1_r; try done.
    by destruct (no_commands_step _ _ _ Hc).
  - intros [] k2 [Q2 ?]. split; [by etransitivity|done].
Qed.

(** * The calls through a descriptor *)
Section driver.
Variables (s : surroundings) (k : kernel) (i : Z) (p : pcb) (fd : Z) (t : ops_table).
Hypotheses (T : typed_user k i p) (Ho : open_on p fd t).

Lemma driver_write_keeps buf n : kwlp (driver_write s (table_driver t) fd buf n) (keeps k i p) k.
Proof using All.
  destruct t; simpl.
  - unfold rtc_write. lwp_step. lwp_step. apply keeps_bind; [by apply kset_frequency_keeps|].
    intros [] k1 p1 T1. by apply keeps_refl.
  - eapply kprint_keeps; [done|constant..].
  - eapply kprint_keeps; [done|constant..].
  - by apply keeps_refl.
  - by apply terminal_write_keeps.
Qed.

Lemma driver_close_keeps : kwlp (driver_close (table_driver t) fd) (keeps k i p) k.
Proof using All.
  destruct t; simpl.
  - unfold rtc_close. case_decide; [by eapply kprint_keeps; [done|constant..]|by eapply close_fd_keeps].
  - by eapply close_fd_keeps.
  - by eapply close_fd_keeps.
  - by apply keeps_refl.
  - by apply keeps_refl.
Qed.

(** The reads that wait may do so for any keys but the command keys. *)
Hypothesis Hwait : exists e, idle k e /\ no_commands e (typed_in k (s_arriving s)).

Lemma rtc_read_keeps : kwlp (rtc_read (s_arriving s)) (keeps k i p) k.
Proof using T Hwait.
  destruct Hwait as (e & Hi & Hc). unfold rtc_read. lwp_step. unfold set_rtc. lwp_step.
  lwp_step. eapply kwlp_mono.
  - apply (wait_quiet _ (s_arriving s) (with_rtc (set_interrupt_flag 0 (rtc k)) k) e); [|done].
    destruct Hi as [[] [] ? ?]. constructor; [by constructor|by constructor|done|done].
  - intros [] k' [Q [e' Hi']]. lwp_step. exists p. eapply kept_quiet; [done| |exact Hi'].
    etransitivity; [|exact Q]. constructor; [by destruct k|done|done|reflexivity].
Qed.

Lemma keyboard_read_keeps buf n : kwlp (keyboard_read (s_arriving s) (Some buf) n) (keeps k i p) k.
Proof using T Hwait.
  destruct Hwait as (e & Hi & Hc). unfold keyboard_read. lwp_step. unfold set_kbd. lwp_step.
  lwp_step. eapply kwlp_mono.
  - apply (wait_quiet _ (s_arriving s) (with_kbd (kb_ready 0 (kbd k)) k) (unready e)); [by apply idle_unready|].
    by destruct Hc.
  - intros [] k' [Q [e' Hi']].
    assert (K : forall r : Z * option (list Z), keeps k i p r k').
    { exists p. eapply kept_quiet; [done| |exact Hi']. etransitivity; [|exact Q]. constructor; [by destruct k|done|done|reflexivity]. }
    lwp_step. unfold terminal_retrieve, curr_term. repeat (lwp_step; try apply K).
Qed.

Lemma file_read_keeps buf n : open_on p fd filesys_ops_table -> kwlp (file_read fd buf n) (keeps k i p) k.
Proof using T.
  clear Ho Hwait. intros Ho. pose proof (ty_user _ _ _ T) as [R Hl _ _ _ _]. unfold file_read.
  lwp_step. eapply kwlp_eq; [by apply (get_inode_ptr_ok k i p R Hl), Ho|].
  lwp_step. eapply kwlp_eq; [by apply (get_file_position_ok k i p R Hl), Ho|].
  do 5 lwp_step. apply keeps_bind.
  - case_decide; [by eapply add_offset_keeps|by apply keeps_refl].
  - intros [] k1 p1 T1. by apply keeps_refl.
Qed.

Lemma dir_read_keeps buf n : open_on p fd dir_ops_table -> kwlp (dir_read fd buf n) (keeps k i p) k.
Proof using T.
  clear Ho Hwait. intros Ho. pose proof (ty_user _ _ _ T) as [R Hl _ _ _ _]. unfold dir_read.
  lwp_step. eapply kwlp_eq; [by apply (get_file_position_ok k i p R Hl), Ho|].
  do 2 lwp_step. lwp_step; [by apply keeps_refl|]. do 3 lwp_step. apply keeps_bind.
  - by eapply add_offset_keeps.
  - intros [] k1 p1 T1. by apply keeps_refl.
Qed.

Lemma driver_read_keeps buf n : kwlp (driver_read s (table_driver t) fd buf n) (keeps k i p) k.
Proof using All.
  assert (L : forall m : K Z, kwlp m (keeps k i p) k -> kwlp (r ← m; mret (r, Some buf)) (keeps k i p) k).
  { intros m Hm. lwp_step. eapply kwlp_mono; [exact Hm|]. intros r k' K. by lwp_step. }
  assert (L2 : forall m : K (Z * list Z), kwlp m (keeps k i p) k ->
    kwlp ('(r, buf) ← m; mret (r, Some buf)) (keeps k i p) k).
  { intros m Hm. lwp_step. eapply kwlp_mono; [exact Hm|]. intros [r b] k' K. by lwp_step. }
  destruct t; cbn [driver_read table_driver].
  - by apply L, rtc_read_keeps.
  - by apply L2, file_read_keeps.
  - by apply L2, dir_read_keeps.
  - by apply keyboard_read_keeps.
  - by apply L, terminal_read_keeps.
Qed.
End driver.

(** * The calls *)
Section handler.
Variables (s : surroundings) (k : kernel) (i : Z) (p : pcb).
Hypothesis T : typed_user k i p.

(** A descriptor that passes the test is open on some table. *)
Lemma valid_fd fd : (if decide (0 <= fd < MAX_OPEN_FILES) then flags (at_ (fd_table p) fd) else 0) <> 0 ->
  exists t, open_on p fd t.
Proof using T.
  intros Hv. case_decide as Hfd; [|done]. pose proof (fd_type k i p T fd Hfd) as Hd.
  unfold open_on. revert Hv Hd. generalize (at_ (fd_table p) fd). intros d Hv Hd.
  destruct Hd; [done|by eexists|by eexists].
Qed.

(** What the four calls through the jump table share. *)
Lemma through_table {A} fd msg out (bad : A) (good : K A) : 0 ∈ msg -> render None (cstr msg) [] = Some out ->
  (forall t, open_on p fd t -> kwlp good (keeps k i p) k) ->
  kwlp (valid ← check_valid_fd fd;
    if decide (valid = 0) then _ ← kprintf msg []; mret bad else good) (keeps k i p) k.
Proof using T.
  intros H0 Hr Hg. pose proof (ty_user _ _ _ T) as [R Hl _ _ _ _]. lwp_step.
  eapply kwlp_eq; [by apply (check_valid_fd_ok k i p R Hl)|]. cbv beta.
  destruct (decide ((if decide (0 <= fd < MAX_OPEN_FILES) then flags (at_ (fd_table p) fd) else 0) = 0)) as [|Hv].
  - by eapply kprint_keeps.
  - destruct (valid_fd fd Hv) as [t Ht]. by apply (Hg t).
Qed.

Lemma jump_keeps {A} op fd t (f : driver -> K A) : (forall d, op (driver_ops d) = Some d) -> open_on p fd t ->
  kwlp (f (table_driver t)) (keeps k i p) k -> kwlp (d ← jump_through op fd; f d) (keeps k i p) k.
Proof using T s.
  intros Hop (Hfd & _ & Ht) H. pose proof (ty_user _ _ _ T) as [R Hl Op _ _ _]. lwp_step.
  eapply kwlp_eq; [by apply (jump_through_ok k i p s R Hl Op op fd t)|]. exact H.
Qed.

Lemma read_keeps fd buf n : (exists e, idle k e /\ no_commands e (typed_in k (s_arriving s))) ->
  kwlp (read s fd buf n) (keeps k i p) k.
Proof using T.
  intros Hw. eapply through_table; [constant..|]. intros t Ho. destruct buf as [buf|]; [|by apply keeps_refl].
  eapply jump_keeps; [done|exact Ho|]. by apply driver_read_keeps.
Qed.
Lemma write_keeps fd buf n : kwlp (write s fd buf n) (keeps k i p) k.
Proof using T.
  eapply through_table; [constant..|]. intros t Ho. destruct buf as [buf|]; [|by apply keeps_refl].
  eapply jump_keeps; [done|exact Ho|]. by apply driver_write_keeps.
Qed.
Lemma close_keeps fd : kwlp (close fd) (keeps k i p) k.
Proof using T s.
  eapply through_table; [constant..|]. intros t Ho. eapply jump_keeps; [done|exact Ho|]. by apply driver_close_keeps.
Qed.

Lemma open_with_keeps t name : t = rtc_ops_table \/ t = dir_ops_table \/ t = filesys_ops_table ->
  kwlp (open_with s t name) (keeps k i p) k.
Proof using T.
  intros Ht. pose proof (ty_user _ _ _ T) as [_ _ Op _ _ _]. unfold open_with. do 2 lwp_step.
  rewrite (ops_ready_driver k t Op). destruct Ht as [->|[->| ->]]; cbn [driver_ops op_open driver_open table_driver].
  - by apply rtc_open_keeps.
  - eapply new_fd_keeps; [done| |constant..]. by apply (typed_device dir_ops_table 0).
  - unfold file_open. do 5 lwp_step. eapply new_fd_keeps; [done| |constant..].
    apply typed_file; [apply i32_range|done].
Qed.

Lemma open_keeps name : kwlp (open s name) (keeps k i p) k.
Proof using T.
  destruct name as [name|]; simpl; [|eapply kprint_keeps; [done|constant..]].
  do 5 lwp_step. lwp_step; [by apply keeps_refl|].
  lwp_step; [|lwp_step]; apply open_with_keeps; auto.
Qed.

Lemma getargs_keeps buf n : kwlp (getargs buf n) (keeps k i p) k.
Proof using T.
  destruct buf as [buf|]; simpl; [|by apply keeps_refl]. do 2 lwp_step. lwp_step.
  eapply kwlp_eq; [apply (curr_pcb_ok k i p), T|]. cbv beta iota. repeat (lwp_step; try by apply keeps_refl).
Qed.
End handler.

(** ** vidmap *)
Section vidmap.
Variables (k : kernel) (v i : Z) (p : pcb).
Hypotheses (T : typed_user k i p) (Hv : PROGRAM_PAGE <= v <= PROGRAM_PAGE + USER_PAGE_SIZE - 4).
Abbreviation a := (process_base i + (v - PROGRAM_PAGE)).

(** The store stays in the program page. *)
Lemma stored_memory b : ~ may_write i b -> get (lib_mem (lib (stored k a))) b = get (lib_mem (lib k)) b.
Proof using Hv.
  intros Hb. apply store_bytes_get. change (zlen (word_bytes _)) with 4.
  destruct (decide (b < a)); [by left|right]. revert Hv Hb. unfold may_write, PROGRAM_PAGE, USER_PAGE_SIZE in *. lia.
Qed.

Lemma windowed_keeps : kept i k p (windowed k a) p.
Proof using All.
  pose proof T as [[[] Hl [] W Ho Sv] F I [L V P]]. pose proof (wf_curr _ W) as Ht.
  assert (Hp : in_program_page v) by (revert Hv; unfold in_program_page, PROGRAM_PAGE, USER_PAGE_SIZE; lia).
  assert (Tr := windowed_translate k v a true L V Ht Hv (P v Hp)).
  assert (P' : forall x, in_program_page x ->
    ktranslate (windowed k a) x = Some (Mapped (process_base i + (x - PROGRAM_PAGE)) true)).
  { intros x Hx. rewrite Tr; [|unfold in_program_page in Hx; lia]. rewrite decide_False by by apply window_not_program. by apply P. }
  assert (W' : con_wf (lib (windowed k a))) by by apply wf_set_mem.
  constructor; [|by destruct p|exact (set_pcbs_same k i p (us_run _ _ _ (ty_user _ _ _ T)))|done|].
  - constructor; [|done|done|].
    + constructor; [by constructor|done|by constructor|done|done|done].
    + constructor; [done| |done]. apply map_virt_to_phys_inv; [done|by apply window_dir|done].
  - constructor; [done..| |]; [by apply stored_memory|].
    intros x Hx Hne. by rewrite Tr, decide_False.
Qed.
End vidmap.

Lemma vidmap_keeps v k i p : typed_user k i p -> kwlp (vidmap v) (keeps k i p) k.
Proof.
  intros T. pose proof (us_con _ _ _ (ty_user _ _ _ T)) as W. pose proof (wf_curr _ W) as Ht.
  destruct (decide (v = 0)) as [->|H0].
  { apply kwlp_kwp. eapply kwp_mono; [by apply vidmap_null| |done]. intros r k' [_ S]. exists p. by eapply kept_shows. }
  destruct (decide (PROGRAM_PAGE <= v < PROGRAM_PAGE + USER_PAGE_SIZE)) as [Hv|Hv].
  - destruct (decide (v <= PROGRAM_PAGE + USER_PAGE_SIZE - 4)).
    + assert (Hr : PROGRAM_PAGE <= v <= PROGRAM_PAGE + USER_PAGE_SIZE - 4) by lia. destruct (ty_page _ _ _ T) as [L V P].
      eapply kwlp_eq; [apply (vidmap_returns k v (process_base i + (v - PROGRAM_PAGE)) true L V Ht Hr), P|].
      * unfold in_program_page, PROGRAM_PAGE, USER_PAGE_SIZE in *. lia.
      * exists p. by apply windowed_keeps.
    + unfold kwlp. rewrite vidmap_past by (done || lia). done.
  - apply kwlp_kwp. eapply kwp_mono; [by apply vidmap_out_of_range| |done]. intros r k' [_ S]. exists p. by eapply kept_shows.
Qed.

