(* ===== verification/ExceptionSpec.v ===== *)
(** An exception ends the program that raised it: the screen shows the
    exception alone, the shell learns of it by the value 256. *)

From S2P Require Import Prelude Hardware CLib Screen Printf FileSystem Paging Kernel FdTable Drivers Streams.
From S2P Require Import Process CmdLine Lifecycle Exceptions Keyboard KeyboardSpec Waiting WaitingSpec Syscall.
From S2P Require Import SyscallSpec UserLib UserSpec Programs RunSpec ShellSpec SyscallTypes.

(** * The message *)
Definition exception_text (cr2 n : Z) : list Z :=
  at_ exception_messages n ++ [10] ++
  (if decide (n = PAGE_FAULT) then chars "Suspected Address in CR2: " ++ numeral 16 (u32 cr2) ++ [10] else []).

Lemma exception_message_renders m : m ∈ exception_messages ->
  0 ∈ m ++ [10; 0] /\ render None (cstr (m ++ [10; 0])) [] = Some (m ++ [10]).
Proof.
  intros Hm. split; [set_solver|]. revert m Hm. apply Forall_forall.
  by apply (bool_decide_unpack _); vm_compute.
Qed.

Lemma render_plain l rest args : Forall byte l -> 37 ∉ l ->
  render None (l ++ rest) args = app l <$> render None rest args.
Proof.
  induction l as [|c l IH]; intros Hb H37; [simpl; by destruct (render None rest args)|].
  apply Forall_cons in Hb as [Hc Hb]. apply not_elem_of_cons in H37 as [Hne H37].
  cbn [app render]. rewrite decide_False by done. rewrite IH by done. rewrite u8_id by done.
  by destruct (render None rest args).
Qed.
Lemma render_address v : render None (cstr (litln "Suspected Address in CR2: %x")) [AInt v] =
  Some (chars "Suspected Address in CR2: " ++ numeral 16 (u32 v) ++ [10]).
Proof.
  change (cstr _) with (chars "Suspected Address in CR2: " ++ [37; 120; 10]).
  rewrite render_plain; [done|by apply (bool_decide_unpack _); vm_compute..].
Qed.

Lemma shows_trans a b k1 k2 k3 : shows a k1 k2 -> shows b k2 k3 -> shows b k1 k3.
Proof.
  intros (s1 & -> & S1) (s2 & -> & S2). exists s2. split; [done|]. by eapply con_spec_trans.
Qed.

Lemma exception_messages_length : length exception_messages = 32%nat.
Proof. done. Qed.

Lemma print_message_ok k m : con_wf (lib k) -> m ∈ exception_messages ->
  kwp (kprintf (m ++ [10; 0]) []) (fun _ => shows (t_puts (m ++ [10]) (view (lib k))) k) nojump k.
Proof. intros W Hm. destruct (exception_message_renders m Hm) as [H0 Hr]. by apply kprintf_ok. Qed.

Lemma print_cr2_ok k cr2 : con_wf (lib k) ->
  kwp (print_cr2 cr2) (fun _ => shows (t_puts (chars "Suspected Address in CR2: " ++ numeral 16 (u32 cr2) ++ [10])
    (view (lib k))) k) nojump k.
Proof.
  intros W. apply kprintf_ok; [done|by apply (bool_decide_unpack _); vm_compute|apply render_address].
Qed.

Lemma print_exception_ok k cr2 n : con_wf (lib k) -> 0 <= n < 32 ->
  kwp (print_exception cr2 n) (fun _ => shows (t_puts (exception_text cr2 n) (view (lib k))) k) nojump k.
Proof.
  intros W Hn. unfold print_exception. rewrite decide_True by done.
  assert (Hl : 0 <= n < zlen exception_messages) by (rewrite exception_messages_length; lia).
  assert (Hm : at_ exception_messages n ∈ exception_messages) by (apply list_elem_of_lookup_total_2; lia).
  kwp_step. eapply kwp_eq; [by apply lift_ok, rd_ok|]. cbv beta. unfold exception_text.
  revert Hm. generalize (at_ exception_messages n). intros m Hm.
  kwp_step. eapply kwp_mono; [by apply print_message_ok| |done].
  intros [] k1 Hs. rewrite app_assoc, t_puts_app.
  destruct_decide (decide (n = PAGE_FAULT)) as Hpf; [|by kwp_step].
  destruct Hs as (s1 & -> & S1). eapply kwp_mono; [apply print_cr2_ok, S1| |done].
  intros [] k2 Hs2. change (view (lib (with_lib s1 k))) with (view s1) in Hs2. rewrite (sp_view _ _ _ S1) in Hs2.
  eapply shows_trans; [|exact Hs2]. by exists s1.
Qed.

(** * The program that raises it *)

(** The child in slot [i], whose control block was [p], ran from [ks] to
    [kx]: it may have opened, closed and moved descriptors, written its
    memory, the screen and the page tables, read the keyboard, set the clock,
    run children of its own that are gone again.  Its parent [q] and the table
    of slots are as they were, and [ex] is the line typed meanwhile. *)
Record child_ran (i q : Z) (p : pcb) (ks kx : kernel) (ex : edit) : Prop := {
  cr_running : exists t, length t = Z.to_nat MAX_OPEN_FILES /\ running kx i (set_fd_table t p);
  cr_rest : (link kx, fs kx, ops kx, masks kx, idt kx) = (link ks, fs ks, ops ks, masks ks, idt ks);
  cr_paging : paging_wf (page_directory_at (link kx)) (paging kx);
  cr_flag : exception_flag (cpu kx) = 0;
  cr_procs : procs_wf kx;
  cr_use : in_use (procs kx) = in_use (procs ks);
  cr_current : current_process (procs kx) = current_process (procs ks);
  cr_block : pcbs (procs kx) !! slot_addr q = pcbs (procs ks) !! slot_addr q;
  cr_ptr : at_ (process_array (procs kx)) q = at_ (process_array (procs ks)) q;
  cr_term : curr_terminal (lib kx) = curr_terminal (lib ks);
  cr_saved : saved_wf (save_buff kx);
  cr_idle : idle kx ex;
  cr_bytes : edit_bytes ex;
}.

(** The system calls of a program keep to that. *)
Lemma child_ran_kept i q p ks kx ex px kx' px' ex' : 0 <= i < MAX_PROCESSES -> q <> i -> child_ran i q p ks kx ex ->
  running kx i px -> kept i kx px kx' px' -> idle kx' ex' -> edit_bytes ex' -> child_ran i q p ks kx' ex'.
Proof.
  intros Hi Hqi [(t & _ & R) Er _ Hf Wk Hu Hc Hb Hp Ht _ _ _] Rx [[U _ _ [_ V _]] Ep Ec Er' A] I B.
  assert (Epx : px = set_fd_table t p) by (pose proof (run_pcb _ _ _ R); pose proof (run_pcb _ _ _ Rx); congruence).
  pose proof (us_fds _ _ _ U) as Hl. pose proof (ap_term _ _ _ A) as Ht'. injection Er' as E1 E2 E3 E4 E5 E6.
  assert (Hne : forall j, j <> i -> slot_addr i <> slot_addr j) by (intros j Hj E%slot_addr_inj; congruence).
  constructor; rewrite ?Ec; simpl; try done; try congruence.
  - exists (fd_table px'). split; [done|]. replace (set_fd_table _ p) with px' by (rewrite Ep, Epx; by destruct p). apply U.
  - apply V.
  - destruct Wk as [Hct Ha Hu' Hcur Hrows Hbl Hptr]. constructor; rewrite ?Ht', ?Ec; simpl; try done.
    intros j Hj. destruct_decide (decide (j = i)) as Hji; [|rewrite lookup_insert_ne by (by apply Hne); by apply Hbl].
    subst j. eexists. split; [apply lookup_insert_eq|]. split; [|done].
    destruct (Hbl i Hj) as (p0 & Hp0 & Ha0 & _). rewrite (run_pcb _ _ _ Rx) in Hp0. injection Hp0 as <-. by rewrite Ep.
  - by rewrite lookup_insert_ne by by apply Hne.
  - apply U.
Qed.

Section excepts.
Variables (k : kernel) (fr : frame) (comm : list Z) (e i : Z) (p : pcb) (q : Z) (pq : pcb).
Hypothesis (Rd : ready k q pq) (Ln : launches k fr comm e i p q).
Abbreviation ks := (child_start k fr comm e i p q).
Abbreviation cp := (child_pcb fr comm i p q).

(** The exception: the screen is cleared for the message, the child is gone
    and the parent learns of it by 256. *)
Lemma exception_halts kx ex n fr' cr2 : if_flag (lib_io (lib k)) = true ->
  child_ran i q cp ks kx ex -> 0 <= Z.of_nat n < 32 ->
  exists g, exception_n n fr' cr2 kx = Ok (Jump (ToExecuteReturn (r_esp fr) (r_ebp fr) 256), g) /\
    resumes k q pq ex (t_puts (exception_text cr2 (Z.of_nat n)) t_clear) (back_in k g).
Proof using All.
  intros Hif [(t & Hlt & R) Er Wpg Hf Wk Hu Hc Hb Hp Ht Sv Hi He] Hn.
  set (tx := t_puts (exception_text cr2 (Z.of_nat n)) t_clear).
  assert (Sc : con_spec (lib kx) (clear (lib kx)) t_clear) by apply clear_spec, Hi.
  pose proof (print_exception_ok (with_lib (clear (lib kx)) kx) cr2 (Z.of_nat n) (sp_wf _ _ _ Sc) Hn) as Pr.
  simpl in Pr. rewrite (sp_view _ _ _ Sc) in Pr. fold tx in Pr. unfold kwp in Pr.
  destruct (print_exception cr2 (Z.of_nat n) (with_lib (clear (lib kx)) kx)) as [[[[]|] k2]| |] eqn:Ep; [|done..].
  destruct Pr as (s2 & -> & S2). simpl in S2.
  assert (S : con_spec (lib kx) s2 tx) by by eapply con_spec_trans.
  set (k3 := with_cpu (mkCpu (tss_esp0 (cpu kx)) (tss_ss0 (cpu kx)) (extended_status (cpu kx)) 1 (segs (cpu kx)))
    (with_lib s2 kx)).
  set (p1 := set_fd_table t cp) in *. pose proof (fr_curr _ _ (sp_frame _ _ _ S)) as Hs2.
  assert (R3 : running k3 i p1) by by apply running_cpu; eapply fr_running.
  destruct Rd as [[Rq _ _ _ _ _] Wq _ _ _]. pose proof Ln as [_ _ _ Hslot Hr Hblk Hqi].
  pose proof (run_slot _ _ _ Rq) as Hqs. pose proof (pw_array _ Wq). pose proof (pw_array _ Wk). pose proof (pw_use _ Wq).
  pose proof (pw_use _ Wk). unfold MAX_PROCESSES in *.
  assert (Hsa : slot_addr i <> slot_addr q) by (intros E%slot_addr_inj; congruence).
  exists (halted i q p1 pq 256 k3). split.
  - unfold exception_n, exception_handler, kclear, on_lib.
    kstep (modify_ok (fun k => with_lib (clear (lib k)) k) kx).
    kstep Ep. kstep (gets_ok (fun k => extended_status (cpu k)) (with_lib s2 (with_lib (clear (lib kx)) kx))).
    unfold set_status. rewrite (kbind_eq _ _ _ _ _ (modify_ok _ _)).
    change (halt fr' 255 k3 = Ok (Jump (ToExecuteReturn (r_esp fr) (r_ebp fr) 256), halted i q p1 pq 256 k3)).
    apply (halt_child fr' k3 i p1 q pq 255); try done.
    + change (i >= 3). lia.
    + change (0 <= i < zlen (in_use (procs kx))). lia.
    + change (0 <= q < zlen (process_array (procs kx))). lia.
    + change (at_ (process_array (procs kx)) q = Some (slot_addr q)). rewrite Hp. simpl. rewrite at_upd_ne by lia. apply Rq.
    + change (pcbs (procs kx) !! slot_addr q = Some pq). rewrite Hb. simpl. rewrite !lookup_insert_ne by done. apply Rq.
  - assert (T : taken_down k q (halted i q p1 pq 256 k3)).
    { constructor; simpl; rewrite ?Hs2, ?Ht; try done.
      - by apply add_process_wf.
      - apply (halted_procs k3); [|unfold MAX_PROCESSES; lia|apply R]. destruct Wk. constructor; try done. by rewrite <- Hs2 in *.
      - rewrite Hu. simpl. rewrite upd_upd. destruct (first_slot_free _ _ Hslot ltac:(lia)) as [Hz _].
        rewrite <- Hz. apply upd_id. lia.
      - rewrite Hc. simpl. rewrite upd_upd, <- (run_pid _ _ _ Rq). apply upd_id. apply Rq.
      - rewrite lookup_insert_ne, Hb by done. simpl. by rewrite !lookup_insert_ne by done.
      - rewrite Hp. simpl. by rewrite at_upd_ne by lia.
      - apply S. }
    constructor; [by apply taken_down_ready| |done|exact (td_use _ _ _ T)|exact (sp_view _ _ _ S)].
    destruct (rep_with_lib _ _ _ _ S (id_rep _ _ Hi)) as [[] _].
    constructor; [by constructor|destruct (sp_wf _ _ _ S); by constructor| |].
    + exact Hif.
    + intros j. rewrite <- (id_masks _ _ Hi j). by apply unmasked_masks.
Qed.

(** The program [main] runs to a state that [left] allows and raises
    exception [n] there; [rest] is what it would have done next. *)
Definition raises (main : K Z) (n : nat) (cr2 : Z) (left : edit -> Prop) : Prop :=
  exists fr' kx ex rest, child_ran i q cp ks kx ex /\ left ex /\ main ks = (v ← exception_n n fr' cr2; rest v) kx.

Lemma ece391_execute_excepts s code n cr2 left : (n < 32)%nat -> if_flag (lib_io (lib k)) = true ->
  raises (code (entry_of (contents (fs k) (inode_of (fs k) e)))) n cr2 left ->
  kwp (ece391_execute s fr code comm) (fun v k' => v = 256 /\
    exists ex, left ex /\ resumes k q pq ex (t_puts (exception_text cr2 (Z.of_nat n)) t_clear) k') nojump k.
Proof using All.
  intros Hn Hif (fr' & kx & ex & rest & Hran & Hex & Em).
  destruct (exception_halts kx ex n fr' cr2 Hif Hran ltac:(lia)) as (g & Eg & Hg).
  eapply kwp_eq; [|split; [done|by exists ex]].
  apply (execute_returns k fr comm e i p q pq Rd Ln s code 256).
  unfold start, mbind, K_bind. rewrite Em. unfold mbind, K_bind. by rewrite Eg.
Qed.
End excepts.

(** * At the shell *)

(** C22: A program that runs into a processor exception is stopped and the
    shell survives it: whatever the program did before (descriptors, its
    memory and its terminal's screen, keyboard and clock, video window,
    children that have ended), as long as the shell's control block, the slot
    table and its own stack frame are left alone and its terminal stays the
    current one, the exception's message and what the shell prints about the
    abnormal end are all that is on the screen, the process slots are as
    before the program was started and the shell is at its prompt with what
    was typed meanwhile. *)
Theorem shell_exception w fr code n k q pq e keys buf e' t' ep i p m cr2 left :
  prompt k q pq e -> types k (w n) e keys e' t' -> Forall byte buf -> zlen buf = 1024 ->
  let line := stripped (e_saved e') in
  let comm := command_of_line buf e' in
  line <> chars "exit" -> 10 ∉ line -> launches k fr comm ep i p q -> (m < 32)%nat ->
  (forall k1, typed_at k q pq e' t' k1 ->
    raises k1 fr comm ep i p q (code (entry_of (contents (fs k) (inode_of (fs k) ep)))) m cr2 left) ->
  kwp (shell_turn w fr code n buf) (fun '(v, b) k' => v = None /\ zlen b = 1024 /\
    (exists ex, left ex /\ prompt k' q pq ex) /\ in_use (procs k') = in_use (procs k) /\
    view (lib k') = t_puts (exception_text cr2 (Z.of_nat m) ++ says "program terminated by exception") t_clear) nojump k.
Proof.
  intros Pr Ty Hbuf Hlen line comm Hexit H10 Ln Hm Hcode. rewrite t_puts_app.
  apply (shell_turn_resumes w fr code n k q pq e keys buf e' t' Pr Ty Hbuf Hlen Hexit H10
    (ln_line _ _ _ _ _ _ _ Ln) 256).
  intros k1 T. specialize (Hcode k1 T). destruct T as [Rd1 Hi1 _ _ Ep Ef _ _ _].
  assert (Ln1 : launches k1 fr comm ep i p q) by (destruct Ln; constructor; congruence).
  rewrite <- Ef in Hcode. by apply (ece391_execute_excepts k1 fr comm ep i p q pq Rd1 Ln1); [|apply Hi1|].
Qed.

(** * Instances *)

(** A program that has run no system call yet. *)
Lemma ran_nothing k fr comm e i p q pq e' : ready k q pq -> launches k fr comm e i p q ->
  idle k e' -> edit_bytes e' ->
  child_ran i q (child_pcb fr comm i p q) (child_start k fr comm e i p q) (child_start k fr comm e i p q) e'.
Proof.
  intros Rd Ln Hi He. pose proof (child_user k fr comm e i p q pq Rd Ln) as U.
  destruct Rd as [_ Wk Wfs Wpg Hf]. pose proof Ln as [Wfr CL _ _ Hr Hp _]. constructor; try done.
  - exists (fd_table (child_pcb fr comm i p q)). split; [done|]. apply U.
  - by apply add_process_wf.
  - apply entered_procs; try done. lia.
  - apply U.
  - destruct Hi as [[] [] ? ?]. constructor; [by constructor|by constructor|done|done].
Qed.

(** A store through a null pointer. *)
Lemma null_store_raises k fr fr' comm e i p q pq b e' : ready k q pq -> launches k fr comm e i p q ->
  idle k e' -> edit_bytes e' ->
  translate (page_directory_at (link k)) (page_table_at (link k)) (user_page_table_at (link k)) (paging k) 0 = None ->
  raises k fr comm e i p q (_ ← user_store fr' 0 b; mret 0) 14 0 (eq e').
Proof.
  intros Rd Ln Hi He Ht.
  exists fr', (child_start k fr comm e i p q), e', (fun _ => mret 0). split; [|split; [done|]].
  - by apply (ran_nothing k fr comm e i p q pq e' Rd Ln).
  - unfold user_store, mbind, K_bind at 1.
    change (translate _ _ _ (paging (child_start k fr comm e i p q)) 0) with
      (translate (page_directory_at (link k)) (page_table_at (link k)) (user_page_table_at (link k)) (add_process i (paging k)) 0).
    destruct Rd as [_ _ _ Wpg _], Ln as [_ _ _ _ Hr _ _]. unfold MAX_PROCESSES in *.
    rewrite translate_add_process by (done || lia). rewrite decide_False by (unfold in_program_page; lia).
    rewrite Ht. unfold mbind, K_bind.
    by destruct (exception_n 14 fr' 0 (child_start k fr comm e i p q)) as [[[v|t] k']| |].
Qed.
