(* ===== verification/BootSpec.v ===== *)
(** Booting ([student-distrib/kernel.c]): from the multiboot structure to the
    shell's prompt, with every table the kernel runs on in place. *)

From S2P Require Import Prelude Hardware CLib Screen Printf FileSystem Pic Idt Segments Rtc Paging Kernel.
From S2P Require Import FdTable Drivers Streams Process CmdLine Lifecycle Terminals Testcases Keyboard KeyboardSpec.
From S2P Require Import Waiting WaitingSpec Syscall SyscallSpec UserLib UserSpec RunSpec ShellSpec Boot.

(** * Messages whose arguments do not matter *)
Inductive same_kind : arg -> arg -> Prop :=
| kind_int a b : same_kind (AInt a) (AInt b)
| kind_str s t : 0 ∈ s -> 0 ∈ t -> same_kind (AStr s) (AStr t).

Lemma render_conv_kind alt c args args' t rest : Forall2 same_kind args args' ->
  render_conv alt c args = Some (t, rest) ->
  exists t' rest', render_conv alt c args' = Some (t', rest') /\ Forall2 same_kind rest rest'.
Proof.
  intros F E. unfold render_conv in *.
  repeat (case_decide; [destruct F as [|? ? ? ? [a b|s s' Hs Hs'] F]; simplify_eq; rewrite ?decide_True in * by done;
    simplify_eq; by eexists _, _|]).
  simplify_eq. by eexists _, _.
Qed.

Lemma render_kind fmt mode args args' : Forall2 same_kind args args' -> is_Some (render mode fmt args) ->
  is_Some (render mode fmt args').
Proof.
  revert mode args args'. induction fmt as [|c fmt IH]; intros mode args args' F [out E]; simpl in *; [by rewrite E|].
  destruct mode as [alt|].
  - repeat case_decide.
    + destruct (render None fmt args) eqn:Er; [|done]. destruct (IH None args args' F) as [o ->]; [by eexists|by eexists].
    + by eapply IH.
    + destruct (render_conv alt c args) as [[t rest]|] eqn:Ec; [|done].
      destruct (render_conv_kind _ _ _ _ _ _ F Ec) as (t' & rest' & -> & F'). simpl in *.
      destruct (render None fmt rest) eqn:Er; [|done]. destruct (IH None rest rest' F') as [o ->]; [by eexists|by eexists].
  - case_decide; [by eapply IH|].
    destruct (render None fmt args) eqn:Er; [|done]. destruct (IH None args args' F) as [o ->]; [by eexists|by eexists].
Qed.

(** The console was used, and nothing else. *)
Record same_lib (s s' : lib_state) : Prop := {
  sl_wf : con_wf s -> con_wf s';
  sl_if : if_flag (lib_io s') = if_flag (lib_io s);
  sl_term : curr_terminal s' = curr_terminal s;
}.
#[export] Instance same_lib_preorder : PreOrder same_lib.
Proof.
  split; [by constructor|]. intros s1 s2 s3 [W1 I1 T1] [W2 I2 T2]. constructor; [tauto|congruence|congruence].
Qed.
Definition said (k k' : kernel) : Prop := k' = with_lib (lib k') k /\ same_lib (lib k) (lib k').

Lemma shows_said t k k' : shows t k k' -> said k k'.
Proof.
  intros (s & -> & [W F V]). split; [done|]. destruct F as [? ? ? ? ? []]. by constructor.
Qed.
Lemma said_refl k : said k k.
Proof. split; [by destruct k|reflexivity]. Qed.
Lemma said_trans k1 k2 k3 : said k1 k2 -> said k2 k3 -> said k1 k3.
Proof. intros [E1 S1] [E2 S2]. split; [rewrite E2, E1; done|by transitivity (lib k2)]. Qed.
Lemma said_wf k k' : said k k' -> con_wf (lib k) -> con_wf (lib k').
Proof. intros [_ []]. done. Qed.

(** A string argument ends; the numbers do not matter. *)
Definition arg_ok (a : arg) : Prop := match a with AInt _ => True | AStr s => 0 ∈ s end.
Definition zero_arg (a : arg) : arg := match a with AInt _ => AInt 0 | AStr _ => AStr [0] end.

Lemma zero_kind args : Forall arg_ok args -> Forall2 same_kind (zero_arg <$> args) args.
Proof.
  induction 1 as [|[z|s] args H _ IH]; constructor; try done; constructor; [set_solver|done].
Qed.

Lemma kprintf_says k fmt args : con_wf (lib k) -> 0 ∈ fmt -> Forall arg_ok args ->
  is_Some (render None (cstr fmt) (zero_arg <$> args)) -> kwp (kprintf fmt args) (fun _ => said k) nojump k.
Proof.
  intros W H0 F R. destruct (render_kind _ _ _ _ (zero_kind args F) R) as [out E].
  eapply kwp_mono; [by apply kprintf_ok| |done]. intros [] k' S. by eapply shows_said.
Qed.

(** * The multiboot structure *)

(** A module the kernel can look at; a file system image has to be one. *)
Record module_ok (m : module_t) : Prop := {
  mo_name : Forall byte (mod_string m) /\ readable filesys_name_length (mod_string m) /\ zlen (mod_string m) < 2 ^ 31;
  mo_bytes : forall i, 0 <= i < 16 -> exists b, img_byte (mod_image m) i = Ok b;
}.
Definition is_filesys (m : module_t) : bool :=
  match strncmp (mod_string m) filesys_name filesys_name_length with Ok r => bool_decide (r = 0) | _ => false end.

(** The image the kernel ends up with: the last module of the name. *)
Definition filesys_of (o : option (list (list Z))) (l : list module_t) : option (list (list Z)) :=
  foldl (fun o m => if is_filesys m then Some (mod_image m) else o) o l.

(** What happened since [k0]: messages, and the file system [img] is in
    place. *)
Record loaded (k0 : kernel) (img : option (list (list Z))) (k : kernel) : Prop := {
  ld_rest : k = with_ops (ops k) (with_fs (fs k) (with_lib (lib k) k0));
  ld_lib : same_lib (lib k0) (lib k);
  ld_wf : con_wf (lib k);
  ld_img : match img with
           | None => True
           | Some i => filesystem_init_overlay i = Ok (fs k) /\ ops_ready k
           end;
}.

Lemma loaded_said k0 img k k' : loaded k0 img k -> said k k' -> loaded k0 img k'.
Proof.
  intros [E S W I] [E' S']. constructor; [rewrite E', E; done|by transitivity (lib k)|by apply S'|].
  rewrite E'. destruct img; [|done]. destruct I as [I []]. done.
Qed.

(** A message keeps [loaded]. *)
Lemma loaded_says k0 img k fmt args : loaded k0 img k -> 0 ∈ fmt -> Forall arg_ok args ->
  is_Some (render None (cstr fmt) (zero_arg <$> args)) ->
  kwp (kprintf fmt args) (fun _ => loaded k0 img) nojump k.
Proof.
  intros L H0 F R. eapply kwp_mono; [apply kprintf_says; try done; apply (ld_wf _ _ _ L)| |done].
  intros [] k' S. by eapply loaded_said.
Qed.
Ltac msg := eapply kwp_mono; [eapply loaded_says;
  [eassumption|by apply (bool_decide_unpack _); vm_compute|first [assumption|repeat (apply Forall_cons_2; [exact I|]); apply Forall_nil_2]
  |by vm_compute; eexists]| |done];
  let k := fresh "k" in let L := fresh "L" in intros [] k L; cbv beta in L.

Lemma first_bytes_loaded k0 img k m : loaded k0 img k -> module_ok m ->
  kwp (print_first_bytes (mod_image m)) (fun _ => loaded k0 img) nojump k.
Proof.
  intros L [_ Hb]. unfold print_first_bytes.
  apply (kwp_kloop (fun i k' => loaded k0 img k' /\ 0 <= i <= 16) (fun i => Z.to_nat (16 - i))); [by split; [|lia]|lia|].
  intros i k1 [L1 Hi]. kwp_step; [|by kwp_step].
  destruct (Hb i ltac:(lia)) as [b Eb]. kwp_step. eapply kwp_eq; [by apply lift_ok|]. cbv beta.
  kwp_step. msg. kwp_step. split; [|lia]. split; [done|lia].
Qed.

Lemma filesystem_loaded k0 img k i f : loaded k0 img k -> filesystem_init_overlay i = Ok f ->
  kwp (filesystem_init i) (fun _ => loaded k0 (Some i)) nojump k.
Proof.
  intros [E S W I] Ef. unfold filesystem_init. kwp_steps. rewrite Ef. kwp_steps.
  unfold fops_table_init. kwp_steps. rewrite E. constructor; [done| | |].
  - destruct S as [Hw Hi Ht]. constructor; [intros _; destruct W; by constructor|done|done].
  - destruct W. by constructor.
  - done.
Qed.

Lemma module_loaded k0 img k m n : loaded k0 img k -> module_ok m ->
  (is_filesys m = true -> exists f, filesystem_init_overlay (mod_image m) = Ok f) ->
  kwp (load_module n m) (fun _ => loaded k0 (if is_filesys m then Some (mod_image m) else img)) nojump k.
Proof.
  intros L M Hf. unfold load_module. kwp_step. msg. kwp_step. msg. kwp_step. msg.
  kwp_step. eapply kwp_mono; [by eapply first_bytes_loaded| |done]. intros [] k4 L4.
  destruct M as [(Hn1 & Hn2 & Hn3) _].
  assert (S : wp (strncmp (mod_string m) filesys_name filesys_name_length) (fun _ => True)).
  { eapply wp_mono; [apply strncmp_spec; try done; [by apply (bool_decide_unpack _); vm_compute|by left; apply (bool_decide_unpack _); vm_compute]|done]. }
  unfold is_filesys in *. destruct (strncmp _ _ _) as [r| |] eqn:Er; [|done..]. kwp_step. kwp_step. kwp_step.
  case_bool_decide as Hr.
  - destruct (Hf eq_refl) as [f Ef]. rewrite decide_True by done.
    kwp_step. eapply kwp_mono; [by eapply filesystem_loaded| |done]. intros [] k5 L5. msg. done.
  - rewrite decide_False by done. kwp_step. kwp_step. msg. done.
Qed.

Definition modules_ok (l : list module_t) : Prop :=
  Forall (fun m => module_ok m /\ (is_filesys m = true -> exists f, filesystem_init_overlay (mod_image m) = Ok f)) l.

Lemma modules_loaded k0 img k l n : loaded k0 img k -> modules_ok l ->
  kwp (load_modules n l) (fun _ => loaded k0 (filesys_of img l)) nojump k.
Proof.
  intros L F. revert img k n L. induction F as [|m l [M Hf] F IH]; intros img k n L; cbn [load_modules]; [by kwp_step|].
  kwp_step. eapply kwp_mono; [by eapply module_loaded| |done]. intros [] k1 L1. by apply IH.
Qed.

Lemma maps_loaded k0 img k l : loaded k0 img k -> kwp (print_maps l) (fun _ => loaded k0 img) nojump k.
Proof.
  revert k. induction l as [|m l IH]; intros k L; cbn [print_maps]; [by kwp_step|].
  kwp_step. msg. by apply IH.
Qed.

(** What the boot loader has to pass for the kernel to boot. *)
Record mbi_ok (mbi : multiboot_info_t) : Prop := {
  mi_line : CHECK_FLAG (mbi_flags mbi) 2 = true -> 0 ∈ cmdline mbi;
  mi_mods : CHECK_FLAG (mbi_flags mbi) 3 = true /\ modules_ok (mods mbi);
  mi_syms : CHECK_FLAG (mbi_flags mbi) 4 && CHECK_FLAG (mbi_flags mbi) 5 = false;
}.

Lemma when_loaded k0 img img' k b m : loaded k0 img k ->
  (b = true -> kwp m (fun _ => loaded k0 img') nojump k) -> (b = false -> img' = img) ->
  kwp (when b m) (fun _ => loaded k0 img') nojump k.
Proof. intros L Hm Hb. destruct b; [by apply Hm|]. rewrite Hb by done. by apply kwp_ret. Qed.
Ltac optional := kwp_step; eapply kwp_mono; [eapply when_loaded; [eassumption| |done]| |done];
  [intros ?|let k := fresh "k" in let L := fresh "L" in intros [] k L; cbv beta in L].

Lemma multiboot_loaded k0 k mbi : loaded k0 None k -> mbi_ok mbi ->
  kwp (read_multiboot mbi) (fun ok k' => ok = true /\ loaded k0 (filesys_of None (mods mbi)) k') nojump k.
Proof.
  intros L [Hl [H3 Hm] Hs]. unfold read_multiboot. cbv zeta. kwp_step. msg.
  optional; [msg; done|]. optional; [msg; done|]. optional.
  { assert (Forall arg_ok [AStr (cmdline mbi)]) by (apply Forall_singleton; by apply Hl). msg. done. }
  rewrite H3. kwp_step. eapply kwp_mono; [by eapply modules_loaded| |done]. intros [] km Lm. rewrite Hs.
  optional; [msg; done|]. optional; [kwp_step; msg; by eapply maps_loaded|]. by kwp_step.
Qed.

(** * The kernel the boot loader starts

    Its static variables are zero but for the tables of [x86_desc.S]; the
    control blocks are whatever their memory holds. *)
Record at_start (k : kernel) : Prop := {
  st_linked : kernel_linked k;
  st_con : con_wf (lib k);
  st_off : if_flag (lib_io (lib k)) = false;
  st_idt : length (idt k) = Z.to_nat IDT_SIZE;
  st_tables : tables_wf (in_memory (paging k));
  st_user_table : forall i, 0 <= i < PAGE_SIZE -> at_ (user_page_table (in_memory (paging k))) i = 0;
  st_array : length (process_array (procs k)) = Z.to_nat MAX_PROCESSES;
  st_use : length (in_use (procs k)) = Z.to_nat MAX_PROCESSES;
  st_current : length (current_process (procs k)) = Z.to_nat MAX_TERMINAL;
  st_rows : length (cmd_args (procs k)) = Z.to_nat MAX_TERMINAL /\
    Forall (fun row => length row = Z.to_nat TERM_BUFF_SIZE) (cmd_args (procs k));
  st_blocks : forall i, 0 <= i < MAX_PROCESSES -> exists p, pcbs (procs k) !! slot_addr i = Some p /\
    length (args p) = Z.to_nat TERM_BUFF_SIZE /\ length (fd_table p) = Z.to_nat FD_TABLE_SIZE;
  st_lines : length (buffer (kbd k)) = Z.to_nat MAX_TERMINAL /\
    Forall (fun row => length row = Z.to_nat TERM_BUFF_SIZE) (buffer (kbd k));
  st_keys : ctrl_flag (kbd k) = 0 /\ alt_flag (kbd k) = 0 /\ kbdr_flag (kbd k) = 0;
  st_saved : save_buff k = replicate 3 (replicate 128 0);
  st_flag : exception_flag (cpu k) = 0;
}.

(** The descriptor tables after boot. *)
Definition boot_idt (k : kernel) : list idt_desc :=
  let on v h := on_vector v (fun d => SET_IDT_ENTRY h (set_present 1 d)) in
  on PIT_VECTOR_NUM (pit_handler_at (link k)) (on RTC_VECTOR_NUM (rtc_handler_at (link k))
    (on KBD_VECTOR_NUM (keyboard_handler_at (link k))
      (idt_init (exception_addr (link k)) (syscall_handler_at (link k)) (idt k)))).
Definition boot_segs (d d' : seg_desc_t) (k : kernel) : segments :=
  construct_tss (tss_at (link k)) d' (construct_ldt (ldt_at (link k)) d (segs (cpu k))).
Definition boot_procs (k : kernel) : proc_state :=
  mkProcs (replicate 8 None) [0; 1; 1; 0; 0; 0; 0; 0] [-1; -1; -1] (pcbs (procs k)) (cmd_args (procs k)).

(** The kernel when every part has been initialised. *)
Record initialized (k k' : kernel) : Prop := {
  ia_link : link k' = link k;
  ia_lib : con_wf (lib k') /\ curr_terminal (lib k') = 0;
  ia_fs : fs k' = fs k;
  ia_procs : procs k' = boot_procs k;
  ia_ops : ops k' = ops k;
  ia_kbd : exists c4 c3, kbd k' = mkKbd c4 c3 [0; 0; 0] 0 0 [0; 0; 0] (replicate 3 (row_of_line [])) 0;
  ia_save : save_buff k' = save_buff k;
  ia_paging : paging k' = paging_init (page_directory_at (link k)) (page_table_at (link k))
                            (user_page_table_at (link k)) (paging k);
  ia_masks : masks k' = (0xF8, 0xFE);
  ia_idt : idt k' = boot_idt k;
  ia_cpu : cpu k' = cpu k;
}.

Lemma keyboard_init_rows l : length l = Z.to_nat MAX_TERMINAL ->
  Forall (fun row => length row = Z.to_nat TERM_BUFF_SIZE) l -> mapM clear_row l = Ok (replicate 3 (row_of_line [])).
Proof.
  destruct l as [|a [|b [|c [|]]]]; try done. intros _ F.
  apply Forall_cons in F as [Ha F]. apply Forall_cons in F as [Hb F]. apply Forall_cons in F as [Hc _].
  simpl. by rewrite !clear_row_ok.
Qed.

Lemma pc_init_ok k : length (process_array (procs k)) = Z.to_nat MAX_PROCESSES ->
  length (in_use (procs k)) = Z.to_nat MAX_PROCESSES -> length (current_process (procs k)) = Z.to_nat MAX_TERMINAL ->
  pc_init k = Ok (Returned tt, with_procs (mkProcs (replicate 8 None) (replicate 8 0) [-1; -1; -1] (pcbs (procs k))
    (cmd_args (procs k))) (with_lib (set_terms 0 (old_terminal (lib k)) (lib k)) k)).
Proof.
  destruct k as [a b c [arr use cur m rows] e f g h i j l n]. cbn [procs process_array in_use current_process].
  destruct arr as [|? [|? [|? [|? [|? [|? [|? [|? [|]]]]]]]]]; try done.
  destruct use as [|? [|? [|? [|? [|? [|? [|? [|? [|]]]]]]]]]; try done.
  destruct cur as [|? [|? [|? [|]]]]; try done.
Qed.

Lemma init_segments_ok d d' k : init_segments d d' k = Ok (Returned tt,
  with_cpu (mkCpu 0x800000 KERNEL_DS (extended_status (cpu k)) (exception_flag (cpu k)) (boot_segs d d' k)) k).
Proof. done. Qed.

(** Each device's part: its gate, its line and its variables; the ports saw
    something. *)
Abbreviation io_after io k := (with_lib (set_io io (lib k)) k).
Abbreviation gate_at v h k := (with_idt (on_vector v (fun d => SET_IDT_ENTRY (h (link k)) (set_present 1 d)) (idt k)) k).

Lemma con_screens s s' : con_wf s -> screen_x s' = screen_x s -> screen_y s' = screen_y s ->
  0 <= curr_terminal s' < MAX_TERMINAL -> con_wf s'.
Proof. intros [] Ex Ey H. by constructor; rewrite ?Ex, ?Ey. Qed.

Lemma io_twice io io' k : io_after io' (io_after io k) = io_after io' k.
Proof. done. Qed.
Lemma port_part {A} (f : io_state -> A * io_state) k :
  kwp (port f) (fun _ k' => exists io, k' = io_after io k) nojump k.
Proof. kwp_step. by eexists. Qed.
Lemma on_io_part f k : kwp (on_io f) (fun _ k' => exists io, k' = io_after io k) nojump k.
Proof. kwp_step. by eexists. Qed.
(** One access to the ports. *)
Ltac io_part := first [eapply kwp_mono; [first [apply port_part|apply on_io_part]| |done]];
  let io := fresh "io" in intros ? ? [io ->]; rewrite ?io_twice.

(** [with_masks] for the line [i] unmasked. *)
Definition line_open (i m1 m2 m1' m2' : Z) : Prop := forall io,
  let p := enable_irq i (mkPic m1 m2 io) in master_mask p = m1' /\ slave_mask p = m2'.

Lemma pic_part k : kwp (on_pic i8259_init) (fun _ k' => exists io, k' = with_masks (0xFB, 0xFF) (io_after io k)) nojump k.
Proof. unfold on_pic. kwp_step. by eexists. Qed.

Lemma line_part i m1 m2 m1' m2' k : masks k = (m1, m2) -> line_open i m1 m2 m1' m2' ->
  kwp (on_pic (enable_irq i)) (fun _ k' => exists io, k' = with_masks (m1', m2') (io_after io k)) nojump k.
Proof.
  intros E H. unfold on_pic. kwp_step. rewrite E. cbn [fst snd]. destruct (H (lib_io (lib k))) as [-> ->]. by eexists.
Qed.

(** The end of each: the line, then the interrupt flag. *)
Lemma line_restored i m1 m2 m1' m2' k b : masks k = (m1, m2) -> line_open i m1 m2 m1' m2' ->
  kwp (_ ← on_pic (enable_irq i); on_io (restore_flags b))
    (fun _ k' => exists io, k' = with_masks (m1', m2') (io_after io k)) nojump k.
Proof.
  intros E H. kwp_step. eapply kwp_mono; [by eapply line_part| |done]. intros [] k1 [io1 ->].
  eapply kwp_mono; [apply on_io_part| |done]. intros [] k2 [io2 ->]. by exists io2.
Qed.

Lemma keyboard_part k : masks k = (0xFB, 0xFF) -> length (buffer (kbd k)) = Z.to_nat MAX_TERMINAL ->
  Forall (fun row => length row = Z.to_nat TERM_BUFF_SIZE) (buffer (kbd k)) ->
  kwp keyboard_init (fun _ k' => exists io, k' = with_masks (0xF9, 0xFF) (with_kbd
    (mkKbd (CTR4 (kbd k)) (CTR3 (kbd k)) [0; 0; 0] (ctrl_flag (kbd k)) (alt_flag (kbd k)) [0; 0; 0]
      (replicate 3 (row_of_line [])) (kbdr_flag (kbd k)))
    (gate_at KBD_VECTOR_NUM keyboard_handler_at (io_after io k)))) nojump k.
Proof.
  intros M Hl Hr. unfold keyboard_init. kwp_step. io_part. do 5 kwp_step. cbn [kbd with_idt with_lib].
  rewrite keyboard_init_rows by done. do 2 kwp_step. unfold set_kbd. do 2 kwp_step.
  eapply kwp_mono; [by apply (line_restored KBD_IRQ 0xFB 0xFF 0xF9 0xFF)| |done].
  intros [] k' [io' ->]. by exists io'.
Qed.

Lemma frequency_part beyond f k :
  kwp (kset_frequency beyond f) (fun _ k' => exists r io, k' = with_rtc r (io_after io k)) nojump k.
Proof. unfold kwp, kset_frequency, set_frequency. rewrite find_rate_ok. by eexists _, _. Qed.

Lemma rtc_part beyond k : masks k = (0xF9, 0xFF) ->
  kwp (rtc_init beyond) (fun _ k' => exists io r, k' = with_masks (0xF9, 0xFE) (with_rtc r
    (gate_at RTC_VECTOR_NUM rtc_handler_at (io_after io k)))) nojump k.
Proof.
  intros M. unfold rtc_init. kwp_step. io_part. kwp_step. kwp_step.
  change (with_idt _ (io_after io k)) with (io_after io (gate_at RTC_VECTOR_NUM rtc_handler_at k)).
  do 4 (kwp_step; io_part). kwp_step. eapply kwp_mono; [apply frequency_part| |done].
  intros [] k1 (r & io5 & ->). rewrite io_twice. unfold set_rtc. kwp_step. kwp_step.
  eapply kwp_mono; [by apply (line_restored RTC_IRQ 0xF9 0xFF 0xF9 0xFE)| |done].
  intros [] k' [io' ->]. by eexists io', _.
Qed.

Lemma pit_part k : masks k = (0xF9, 0xFE) ->
  kwp pit_init (fun _ k' => exists io, k' = with_masks (0xF8, 0xFE)
    (gate_at PIT_VECTOR_NUM pit_handler_at (io_after io k))) nojump k.
Proof.
  intros M. unfold pit_init. kwp_step. io_part. kwp_step. kwp_step. cbv zeta.
  change (with_idt _ (io_after io k)) with (io_after io (gate_at PIT_VECTOR_NUM pit_handler_at k)).
  do 2 (kwp_step; io_part).
  eapply kwp_mono; [by apply (line_restored PIT_IRQ 0xF9 0xFE 0xF8 0xFE)| |done].
  intros [] k' [io' ->]. by exists io'.
Qed.

(** What the devices' parts leave alone. *)
Definition core (k : kernel) :=
  (link k, fs k, ops k, save_buff k, paging k, cpu k, screen_x (lib k), screen_y (lib k)).

Lemma init_all_ok beyond k : at_start k -> kwp (init_all beyond) (fun _ => initialized k) nojump k.
Proof.
  intros St. unfold init_all. kwp_step. kwp_step. set (k1 := with_idt _ k).
  kwp_step. eapply kwp_mono; [apply pic_part| |done]. intros [] k2 [io2 E2].
  kwp_step. eapply kwp_mono; [apply keyboard_part; rewrite E2; [done|apply St|apply St]| |done]. intros [] k3 [io3 E3].
  kwp_step. eapply kwp_mono; [apply rtc_part; by rewrite E3| |done]. intros [] k4 (io4 & r & E4).
  kwp_step. kwp_step. set (k5 := with_paging _ k4).
  assert (E5 : procs k5 = procs k) by (unfold k5; by rewrite E4, E3, E2).
  kwp_step. eapply kwp_eq; [apply pc_init_ok; rewrite E5; apply St|]. cbv beta. set (k6 := with_procs _ _).
  assert (E7 : terminal_init k6 = Ok (Returned 0, with_procs (boot_procs k) k6)).
  { unfold boot_procs. by rewrite <- E5. }
  kwp_step. eapply kwp_eq; [exact E7|]. cbv beta.
  eapply kwp_mono; [apply pit_part; unfold k6, k5; by rewrite E4| |done]. intros [] k8 [io8 E8].
  destruct St as [_ W _ _ _ _ _ _ _ _ _ _ (K1 & K2 & K3) _ _].
  assert (EC : core k4 = core k).
  { transitivity (core k3); [by rewrite E4|]. transitivity (core k2); [by rewrite E3|]. by rewrite E2. }
  injection EC as EL EF EO ES EP EU EX EY.
  assert (EI : idt k8 = boot_idt k).
  { unfold boot_idt. rewrite E8. cbn [idt with_masks with_idt with_lib with_procs k6 k5 with_paging link].
    unfold k6, k5. cbn [idt with_lib with_procs with_paging link]. rewrite EL, E4. cbn [idt with_masks with_rtc with_idt with_lib link].
    rewrite E3. cbn [idt with_masks with_kbd with_idt with_lib link]. rewrite E2. reflexivity. }
  assert (EK : exists c4 c3, kbd k3 = mkKbd c4 c3 [0; 0; 0] 0 0 [0; 0; 0] (replicate 3 (row_of_line [])) 0).
  { exists (CTR4 (kbd k2)), (CTR3 (kbd k2)). rewrite E3. cbn [kbd with_masks with_kbd].
    rewrite E2. cbn [kbd with_masks with_lib with_idt k1]. unfold k1. cbn [kbd with_idt]. by rewrite K1, K2, K3. }
  constructor.
  - rewrite E8. exact EL.
  - rewrite E8. split; [|reflexivity]. apply (con_screens (lib k)); [done|exact EX|exact EY|].
    unfold MAX_TERMINAL. simpl. lia.
  - rewrite E8. exact EF.
  - by rewrite E8.
  - rewrite E8. exact EO.
  - destruct EK as (c4 & c3 & EK). exists c4, c3. rewrite <- EK, E8. change (kbd k4 = kbd k3). by rewrite E4.
  - rewrite E8. exact ES.
  - rewrite E8. change (paging_init (page_directory_at (link k4)) (page_table_at (link k4))
      (user_page_table_at (link k4)) (paging k4) = paging_init (page_directory_at (link k)) (page_table_at (link k))
      (user_page_table_at (link k)) (paging k)). by rewrite EL, EP.
  - by rewrite E8.
  - exact EI.
  - rewrite E8. exact EU.
Qed.

(** * The gates *)
Definition boot_vector (l : link_map) (v : Z) : gate :=
  let on h := InterruptGate KERNEL_CS (u32 h) 0 in
  if decide (v < NUM_EXCEPTIONS) then on (exception_addr l v)
  else if decide (v = PIT_VECTOR_NUM) then on (pit_handler_at l)
  else if decide (v = KBD_VECTOR_NUM) then on (keyboard_handler_at l)
  else if decide (v = RTC_VECTOR_NUM) then on (rtc_handler_at l)
  else if decide (v = SYSCALL_VECTOR_NUM) then TrapGate KERNEL_CS (u32 (syscall_handler_at l)) 3
  else NotPresent (InterruptGate KERNEL_CS 0 0).

Lemma boot_gates k v : length (idt k) = Z.to_nat IDT_SIZE -> 0 <= v < IDT_SIZE ->
  gate_of (at_ (boot_idt k) v) = boot_vector (link k) v.
Proof.
  intros Hl Hv. destruct (idt_init_at (exception_addr (link k)) (syscall_handler_at (link k)) (idt k) Hl) as [L A].
  unfold boot_idt, IDT_SIZE in *. rewrite !at_on_vector by (rewrite ?length_on_vector, ?L, ?Hl; unfold PIT_VECTOR_NUM,
    RTC_VECTOR_NUM, KBD_VECTOR_NUM; lia). rewrite A by done.
  unfold idt_entry, boot_vector, NUM_EXCEPTIONS, PIT_VECTOR_NUM, RTC_VECTOR_NUM, KBD_VECTOR_NUM, SYSCALL_VECTOR_NUM.
  repeat case_decide; try lia; unfold gate_of, gate_shape;
    cbn [present reserved0 size reserved1 reserved2 reserved3 reserved4 seg_selector dpl SET_IDT_ENTRY set_present set_gate];
    simpl; by rewrite ?target_set.
Qed.

(** * The first process *)
Definition fresh_edit : edit := mkEdit false false false false [] [] false.

Lemma shell_name : program_name (lit "shell") = chars "shell".
Proof. by vm_compute. Qed.
Lemma shell_line_ok : command_line (lit "shell").
Proof.
  constructor; (by apply (bool_decide_unpack _); vm_compute) || (split; by vm_compute) || by vm_compute.
Qed.

(** A kernel that is ready to execute the shell. *)
Record shell_ready (k : kernel) (f : fs_state) (e : Z) : Prop := {
  sr_procs : procs_wf k;
  sr_use : in_use (procs k) = [0; 1; 1; 0; 0; 0; 0; 0];
  sr_fs : fs k = f /\ fs_wf f;
  sr_shell : program f (chars "shell") e;
  sr_paging : paging_wf (page_directory_at (link k)) (paging k);
  sr_ops : ops_ready k;
  sr_saved : save_buff k = replicate 3 (replicate 128 0);
  sr_flag : exception_flag (cpu k) = 0;
  sr_con : con_wf (lib k) /\ curr_terminal (lib k) = 0 /\ view (lib k) = t_clear;
  sr_masks : masks k = (0xF8, 0xFE);
  sr_kbd : exists c4 c3, kbd k = mkKbd c4 c3 [0; 0; 0] 0 0 [0; 0; 0] (replicate 3 (row_of_line [])) 0;
}.

Lemma first_shell k f e fr : shell_ready k f e -> frame_wf fr ->
  exists p, let pq := set_current_stack (r_esp fr) (r_ebp fr) (fresh_pcb 0 (-1) (child_args (lit "shell") p) p) in
    let c := contents f (inode_of f e) in
    let k' := entered fr 0 c (fresh_pcb 0 (-1) (child_args (lit "shell") p) p) (spawned (lit "shell") 0 p k) in
    execute fr (Some (lit "shell")) k = Ok (Jump (ToUser (entry_of c) 0x83FFFFC), k') /\
    prompt k' 0 pq fresh_edit /\ view (lib k') = t_clear.
Proof.
  intros [Wk Hu [Ef Wf] Hpg Wpg Op Sv Fl (Wc & Ht & Hv) Hm (c4 & c3 & Hk)] Wfr. subst f.
  destruct (pw_blocks _ Wk 0) as (p & Hp & Ha & Hd); [unfold MAX_PROCESSES; lia|]. exists p. cbv zeta.
  assert (H0 : 0 <= 0 < MAX_PROCESSES) by (unfold MAX_PROCESSES; lia). rewrite <- shell_name in Hpg.
  pose proof (execute_program k fr (lit "shell") Wk Wf Wfr shell_line_ok e 0 p Wpg Hpg) as E. rewrite Hu in E.
  specialize (E eq_refl (proj2 H0) Hp). change (parent_of 0 k) with (-1) in E. split; [exact E|].
  set (c := contents _ _). assert (Sv' : saved_wf (save_buff k)).
  { rewrite Sv. split; [done|]. by apply (bool_decide_unpack _); vm_compute. }
  split; [constructor|].
  - constructor; [|exact (entered_procs k fr (lit "shell") 0 p (-1) c Wk Wf Wfr shell_line_ok H0 Hp)|exact Wf|by apply add_process_wf|exact Fl].
    exact (entered_user k fr (lit "shell") 0 p (-1) c Wk Wf Wfr shell_line_ok H0 Hp Op Wc Sv').
  - done.
  - constructor.
    + constructor; cbn [lib entered with_pcb with_cpu with_paging with_lib with_procs spawned started with_use with_cmd_row
        curr_terminal set_io set_mem kbd save_buff]; rewrite ?Hk, ?Sv, ?Ht; done.
    + by destruct Wc.
    + done.
    + intros i. unfold unmasked. cbn [masks entered with_pcb with_cpu with_paging with_lib with_procs spawned started
        with_use with_cmd_row]. rewrite Hm. by destruct i.
  - done.
  - rewrite <- Hv. exact (entered_view k fr (lit "shell") 0 p (-1) c Wk Wf Wfr shell_line_ok H0 Hp).
Qed.

(** * From the boot loader to the prompt *)
Lemma at_start_loaded k0 img k : at_start k0 -> loaded k0 img k -> at_start k.
Proof. intros [] [E S W _]. rewrite E. destruct S. by constructor; simpl; rewrite ?sl_if0. Qed.

Lemma at_start_segments d d' k : at_start k ->
  at_start (with_cpu (mkCpu 0x800000 KERNEL_DS (extended_status (cpu k)) (exception_flag (cpu k)) (boot_segs d d' k)) k).
Proof. intros []. by constructor. Qed.

(** The windows of the terminals that are not on the screen. *)
Lemma boot_windows k t : at_start k -> 0 <= t < MAX_TERMINAL ->
  translate (page_directory_at (link k)) (page_table_at (link k)) (user_page_table_at (link k)) (add_process 0 (paging_init (page_directory_at (link k))
    (page_table_at (link k)) (user_page_table_at (link k)) (paging k))) (video_window t) = Some (Mapped (backup t) false).
Proof.
  intros St Ht. destruct St. pose proof (paging_init_inv (page_directory_at (link k)) _ _ (paging k) st_linked0 st_tables0) as P.
  assert (Hw : 0 <= video_window t < 2 ^ 32 /\ ~ in_program_page (video_window t) /\
    boot_mapping (video_window t) = Some (Mapped (backup t) false)).
  { unfold MAX_TERMINAL in Ht.
    split; [|split]; [unfold video_window, VIRT_VID_TERM1, FOURKiB; lia| |].
    - unfold in_program_page, video_window, VIRT_VID_TERM1, FOURKiB. lia.
    - assert (t = 0 \/ t = 1 \/ t = 2) as [->|[->| ->]] by lia; reflexivity. }
  destruct Hw as (Hr & Hn & Hb). rewrite translate_add_process; [|exact (inv_wf _ _ _ _ P)|lia|exact Hr].
  rewrite decide_False by exact Hn. rewrite <- Hb. by apply boot_translation.
Qed.

(** What the theorem says of the kernel the shell starts in. *)
Record booted (k0 : kernel) (f : fs_state) (d d' : seg_desc_t) (k : kernel) : Prop := {
  bt_fs : fs k = f;
  bt_use : in_use (procs k) = [1; 1; 1; 0; 0; 0; 0; 0];
  bt_first : current_process (procs k) = [0; -1; -1];
  bt_video : video_wf k;
  bt_gates : forall v, 0 <= v < IDT_SIZE -> gate_of (at_ (idt k) v) = boot_vector (link k0) v;
  bt_tss : let s := segs (cpu k) in
    selected (gdt s) (tr s) = mkSegment (u32 (tss_at (link k0))) (TSS_SIZE - 1) 0x9 0 true false /\
    tss_esp0 (cpu k) = K_STACK_BOTTOM - 4 /\ selected (gdt s) (tss_ss0 (cpu k)) = flat 0x12 0;
}.

(** All parts are in place: what [entry] has made of [k0] just before it
    executes the shell. *)
Record in_place (k0 : kernel) (f : fs_state) (d d' : seg_desc_t) (k : kernel) : Prop := {
  ip_link : link k = link k0;
  ip_fs : fs k = f /\ ops_ready k;
  ip_procs : procs k = boot_procs k0;
  ip_kbd : exists c4 c3, kbd k = mkKbd c4 c3 [0; 0; 0] 0 0 [0; 0; 0] (replicate 3 (row_of_line [])) 0;
  ip_save : save_buff k = save_buff k0;
  ip_paging : paging k = paging_init (page_directory_at (link k0)) (page_table_at (link k0))
                           (user_page_table_at (link k0)) (paging k0);
  ip_masks : masks k = (0xF8, 0xFE);
  ip_idt : idt k = boot_idt k0;
  ip_cpu : exception_flag (cpu k) = 0 /\ segs (cpu k) = boot_segs d d' k0;
  ip_lib : con_wf (lib k) /\ curr_terminal (lib k) = 0;
}.

Lemma init_in_place k0 k1 k2 img f d d' : at_start k0 -> loaded k0 (Some img) k1 ->
  filesystem_init_overlay img = Ok f ->
  initialized (with_cpu (mkCpu 0x800000 KERNEL_DS (extended_status (cpu k1)) (exception_flag (cpu k1))
    (boot_segs d d' k1)) k1) k2 ->
  in_place k0 f d d' k2.
Proof.
  intros St [E S W [Ef Op]] Hf I. rewrite Hf in Ef. injection Ef as ->. destruct I as [I1 I2 I3 I4 I5 I6 I7 I8 I9 I10 I11].
  assert (El : link k1 = link k0) by by rewrite E.
  assert (Ei : idt k1 = idt k0) by by rewrite E. assert (Ep : paging k1 = paging k0) by by rewrite E.
  constructor.
  - by rewrite I1.
  - split; [done|]. destruct Op. by constructor; rewrite I5.
  - rewrite I4. by rewrite E.
  - done.
  - rewrite I7. by rewrite E.
  - rewrite I8. cbn [link paging with_cpu]. by rewrite El, Ep.
  - done.
  - rewrite I10. unfold boot_idt. cbn [link idt with_cpu]. by rewrite El, Ei.
  - rewrite I11. simpl. split; [rewrite E; apply St|]. by rewrite E.
  - done.
Qed.

Lemma in_place_said k0 f d d' k k' : in_place k0 f d d' k -> said k k' -> in_place k0 f d d' k'.
Proof.
  intros [P1 [P2 []] P3 P4 P5 P6 P7 P8 P9 [P10 P11]] [E [Sw _ St]]. rewrite E.
  split; [exact P1|split; [exact P2|by split]|exact P3|exact P4|exact P5|exact P6|exact P7|exact P8|exact P9|].
  split; [by apply Sw|]. transitivity (curr_terminal (lib k)); [exact St|exact P11].
Qed.

Lemma in_place_ready k0 f d d' k e : at_start k0 -> fs_wf f -> program f (chars "shell") e ->
  in_place k0 f d d' k -> view (lib k) = t_clear -> shell_ready k f e.
Proof.
  intros St Wf Hpg [P1 [P2 Op] P3 P4 P5 P6 P7 P8 [P9 _] [P10 P11]] Hv.
  constructor; [|by rewrite P3|by split|exact Hpg| |exact Op| |exact P9|by split|exact P7|exact P4].
  - constructor; rewrite ?P3, ?P11; try done; try apply St.
    intros i Hi. left. unfold boot_procs. cbn [process_array]. apply at_replicate. unfold MAX_PROCESSES in Hi. lia.
  - rewrite P6, P1. exact (inv_wf _ _ _ _ (paging_init_inv _ _ _ _ (st_linked _ St) (st_tables _ St))).
  - rewrite P5. apply St.
Qed.

Lemma in_place_booted k0 f d d' k fr c p q : at_start k0 -> gdt (segs (cpu k0)) = static_gdt ->
  in_place k0 f d d' k -> booted k0 f d d' (entered fr 0 c q (spawned (lit "shell") 0 p k)).
Proof.
  intros St G [P1 [P2 Op] P3 P4 P5 P6 P7 P8 [_ P9] [P10 P11]].
  constructor; cbn [fs procs in_use current_process idt cpu segs tss_esp0 tss_ss0 entered with_pcb with_cpu with_paging
    with_lib with_procs set_pcbs spawned started with_use with_cmd_row lib]; rewrite ?P3, ?P11; try done.
  - constructor.
    + unfold kernel_linked. simpl. rewrite P1. apply St.
    + simpl. rewrite P1, P6. apply add_process_inv, paging_init_inv; apply St.
    + intros t Ht _. exists false. unfold ktranslate. simpl. rewrite P1, P6. by apply boot_windows.
  - intros v Hv. rewrite P8. by apply boot_gates; [apply St|].
  - rewrite P9. destruct (segments_constructed (tss_at (link k0)) (ldt_at (link k0)) d d' (segs (cpu k0)) G)
      as (_ & H2 & _ & _ & H5 & _). by split.
Qed.

(** The kernel boots: with a file system that holds the shell among the
    modules, [entry] enters it at its prompt. *)
(** C1: The kernel boots: when a module of the multiboot structure is a file
    system image that holds the shell, entry initialises every part and enters
    the shell; the state it enters it in satisfies what the theorems about the
    running system assume (process table, page tables, descriptors, console,
    keyboard state, open interrupt lines), the screen is clear, the gates of
    the 256 vectors are the installed handlers, terminals 1 and 2 have their
    backup windows, and the task register selects the task state with the
    kernel stack of process 0. *)
Theorem entry_boots k fr d d' beyond mbi img f e :
  at_start k -> gdt (segs (cpu k)) = static_gdt -> frame_wf fr ->
  mbi_ok mbi -> filesys_of None (mods mbi) = Some img -> filesystem_init_overlay img = Ok f -> fs_wf f ->
  program f (chars "shell") e ->
  kwp (entry fr d d' beyond MULTIBOOT_BOOTLOADER_MAGIC mbi) (fun _ _ => False) (fun t k' =>
    t = ToUser (entry_of (contents f (inode_of f e))) 0x83FFFFC /\
    (exists p, prompt k' 0 p fresh_edit /\ parent_id p = -1) /\ view (lib k') = t_clear /\
    booted k f d d' k') k.
Proof.
  intros St G Wfr Hm Himg Hf Wf Hpg. unfold entry. kwp_step. unfold kclear, on_lib at 1. kwp_step.
  rewrite decide_False by auto.
  assert (L : loaded k None (with_lib (clear (lib k)) k)).
  { pose proof (clear_spec (lib k) (st_con _ St)) as [W F V]. split; [reflexivity| |exact W|exact Logic.I].
    destruct F as [Fc _ _ _ _ [Fi _ _ _]]. split; [by intros _|exact Fi|exact Fc]. }
  kwp_step. eapply kwp_mono; [by apply (multiboot_loaded _ _ _ L)| |done]. intros ok k1 [-> L1]. rewrite Himg in L1.
  pose proof (at_start_loaded _ _ _ St L1) as St1. kwp_step. eapply kwp_eq; [apply init_segments_ok|]. cbv beta.
  kwp_step. eapply kwp_mono; [by apply init_all_ok, at_start_segments| |done]. intros [] k2 I.
  pose proof (init_in_place _ _ _ _ _ _ _ St L1 Hf I) as P.
  kwp_step. eapply kwp_mono; [apply (kprintf_says k2 _ []); [apply (ip_lib _ _ _ _ _ P)|by apply (bool_decide_unpack _); vm_compute|
    constructor|by vm_compute; eexists]| |done].
  intros [] k3 S3. pose proof (in_place_said _ _ _ _ _ _ P S3) as P3.
  unfold kclear, on_lib at 1. kwp_step. kwp_step. set (k4 := with_lib (clear (lib k3)) k3).
  pose proof (clear_spec (lib k3) (proj1 (ip_lib _ _ _ _ _ P3))) as C.
  assert (P4 : in_place k f d d' k4).
  { eapply in_place_said; [exact P3|]. apply (shows_said t_clear). by eexists. }
  kwp_step. kwp_step. set (k5 := with_lib _ k4).
  assert (P5 : in_place k f d d' k5).
  { destruct P4 as [Q1 [Q2 Q0] Q3 Q4 Q5 Q6 Q7 Q8 Q9 [Q10 Q11]].
    split; [exact Q1|split; [exact Q2|by destruct Q0]|exact Q3|exact Q4|exact Q5|exact Q6|exact Q7|exact Q8|exact Q9|].
    split; [by destruct Q10|exact Q11]. }
  assert (V5 : view (lib k5) = t_clear) by apply C.
  destruct (first_shell k5 f e fr (in_place_ready _ _ _ _ _ _ St Wf Hpg P5 V5) Wfr) as (p & E & Pr & V).
  kwp_step. unfold kwp. rewrite E. split; [reflexivity|]. split; [eexists; split; [exact Pr|reflexivity]|]. split; [exact V|].
  exact (in_place_booted _ _ _ _ _ _ _ _ _ St G P5).
Qed.
