(* ===== verification/Fish.v ===== *)
(** The fish animation: [fish/fish.c] over the blinking characters of
    [fish/blink.S].

    The blinks are a linked list through the 2000 elements of [blink_array];
    a pointer to one is its index ([None] is NULL).  Functions take the
    program's data and return it, in the monad of the system calls. *)

From S2P Require Import Prelude Hardware CLib Screen Kernel Process Waiting Syscall UserLib Programs.

(** * Data *)

Definition i16 (z : Z) : Z := (z + 2 ^ 15) mod 2 ^ 16 - 2 ^ 15.

(** ** blink.h *)
Record mp1_blink_struct : Type := mkBlink {
  location : Z;
  on_char : Z;
  off_char : Z;
  on_length : Z;
  off_length : Z;
  countdown : Z;
  status : Z;
  next : option Z;
}.
#[export] Instance blink_eq_dec : EqDecision mp1_blink_struct.
Proof. solve_decision. Defined.
(** All bytes 0. *)
Definition zero_blink : mp1_blink_struct := mkBlink 0 0 0 0 0 0 0 None.
#[export] Instance blink_inhabited : Inhabited mp1_blink_struct := populate zero_blink.

Definition RTC_ADD := 0.
Definition RTC_REMOVE := 1.
Definition RTC_FIND := 2.
Definition RTC_SYNC := 3.
Definition WAIT := 200.
Definition BLINKS := 80 * 25.

Record fish_state : Type := mkFish {
  blink_array : list mp1_blink_struct;
  mp1_list_head : option Z;
  vmem_base_addr : Z;
}.

Definition set_blinks (l : list mp1_blink_struct) (f : fish_state) : fish_state :=
  mkFish l (mp1_list_head f) (vmem_base_addr f).
Definition set_head (h : option Z) (f : fish_state) : fish_state :=
  mkFish (blink_array f) h (vmem_base_addr f).

Definition set_next (n : option Z) (b : mp1_blink_struct) : mp1_blink_struct :=
  mkBlink (location b) (on_char b) (off_char b) (on_length b) (off_length b) (countdown b) (status b) n.
Definition set_phase (c s : Z) (b : mp1_blink_struct) : mp1_blink_struct :=
  mkBlink (location b) (on_char b) (off_char b) (on_length b) (off_length b) c s (next b).

Section fish.
Variable (fr : frame).

(** * fish.c: the allocator *)
Definition mp1_malloc (f : fish_state) : outcome (option Z) :=
  loop (Z.to_nat BLINKS + 1) (fun i =>
    if decide (i < BLINKS) then
      b ← rd (blink_array f) i;
      mret (if decide (location b = 0) then inr (Some i) else inl (i + 1))
    else mret (inr None)) 0.
Definition mp1_free (i : Z) (f : fish_state) : outcome fish_state :=
  l ← wr (blink_array f) i zero_blink; mret (set_blinks l f).

(** * blink.S *)

(** The byte at an offset of the screen. *)
Definition mp1_poke (f : fish_state) (offset c : Z) : K unit :=
  user_store fr (u32 (vmem_base_addr f + offset)) (u8 c).

Definition store_blink (i : Z) (b : mp1_blink_struct) (f : fish_state) : outcome fish_state :=
  l ← wr (blink_array f) i b; mret (set_blinks l f).

(** One element of the list: [countdown] is a signed word to the test. *)
Definition tasklet_step (i : Z) (f : fish_state) : K (option Z * fish_state) :=
  b ← lift (rd (blink_array f) i);
  let cd := u16 (countdown b - 1) in
  f ← lift (store_blink i (set_phase cd (status b) b) f);
  if decide (i16 cd > 0) then mret (next b, f) else
  let on := Z.testbit (status b) 0 in
  _ ← mp1_poke f (2 * location b) (if on then off_char b else on_char b);
  f ← lift (store_blink i (set_phase (if on then off_length b else on_length b)
                             (Z.lxor (status b) 1) b) f);
  mret (next b, f).

Definition mp1_rtc_tasklet (fuel : nat) (f : fish_state) : K fish_state :=
  kloop fuel (fun '(p, f) =>
    match p with
    | None => mret (inr f)
    | Some i => s ← tasklet_step i f; mret (inl s)
    end) (mp1_list_head f, f).

Definition mp1_find_helper (fuel : nat) (loc : Z) (f : fish_state) : outcome (option Z) :=
  loop fuel (fun p =>
    match p with
    | None => mret (inr None)
    | Some i =>
        b ← rd (blink_array f) i;
        mret (if decide (location b = u16 loc) then inr (Some i) else inl (next b))
    end) (mp1_list_head f).

Definition mp1_ioctl_add (b : mp1_blink_struct) (f : fish_state) : K (Z * fish_state) :=
  if decide (location b >= BLINKS) then mret (-1, f) else
  let b := set_phase (on_length b) 1 b in
  slot ← lift (mp1_malloc f);
  match slot with
  | None => mret (-1, f)
  | Some i =>
      f ← lift (store_blink i b f);
      f ← lift (store_blink i (set_next (mp1_list_head f) b) f);
      let f := set_head (Some i) f in
      _ ← mp1_poke f (2 * location b) (on_char b);
      mret (0, f)
  end.

(** The pointer that points to [i], the head or an element's [next], gets
    the value [v]. *)
Definition unlink (fuel : nat) (i : Z) (v : option Z) (f : fish_state) : outcome fish_state :=
  if decide (mp1_list_head f = Some i) then mret (set_head v f) else
  loop fuel (fun p =>
    match p with
    | None => Fault
    | Some j =>
        b ← rd (blink_array f) j;
        if decide (next b = Some i) then
          f ← store_blink j (set_next v b) f; mret (inr f)
        else mret (inl (next b))
    end) (mp1_list_head f).

Definition mp1_ioctl_remove (fuel : nat) (arg : Z) (f : fish_state) : K (Z * fish_state) :=
  p ← lift (mp1_find_helper fuel arg f);
  match p with
  | None => mret (-1, f)
  | Some i =>
      b ← lift (rd (blink_array f) i);
      f ← lift (unlink fuel i (next b) f);
      f ← lift (mp1_free i f);
      mret (0, f)
  end.

(** The test before the conditional move clears the flags it looks at: the
    character shown is always the one for off. *)
Definition mp1_ioctl_sync (fuel : nat) (arg : Z) (f : fish_state) : K (Z * fish_state) :=
  p ← lift (mp1_find_helper fuel (Z.shiftr (u32 arg) 16) f);
  match p with
  | None => mret (-1, f)
  | Some i =>
      q ← lift (mp1_find_helper fuel (Z.land arg 0xFFFF) f);
      match q with
      | None => mret (-1, f)
      | Some j =>
          a ← lift (rd (blink_array f) i);
          b ← lift (rd (blink_array f) j);
          let b := mkBlink (location b) (on_char b) (off_char b) (on_length a) (off_length a)
                     (countdown a) (status a) (next b) in
          f ← lift (store_blink j b f);
          _ ← mp1_poke f (2 * location b) (off_char b);
          mret (0, f)
      end
  end.

(** Returns the element found too, which the caller's structure gets. *)
Definition mp1_ioctl_find (fuel : nat) (b : mp1_blink_struct) (f : fish_state)
    : outcome (Z * mp1_blink_struct) :=
  p ← mp1_find_helper fuel (location b) f;
  match p with
  | None => mret (-1, b)
  | Some i => b ← rd (blink_array f) i; mret (0, b)
  end.

(** * fish.c *)
Variable (w : nat -> surroundings).
Abbreviation s := (w 0%nat).

(** [row] of a frame character, a blank for a missing one. *)
Definition frame_char (c : Z) : Z := if decide (c = 10) then 32 else c.
Definition frame_blink (row col c0 c1 : Z) : mp1_blink_struct :=
  mkBlink (u16 (row * 80 + col + 40)) (frame_char c0) (frame_char c1) 15 15 0 0 None.

(** The next character of a frame's line, unless the line has ended. *)
Definition next_char (fd c eof : Z) : K (Z * Z) :=
  if decide (c <> 10) then
    '(num_bytes, buf) ← ece391_read s fr fd [c] 1;
    c ← lift (rd buf 0);
    mret (if decide (num_bytes = 0) then (10, 1) else (c, eof))
  else mret (c, eof).

Definition frame_row (fuel : nat) (fd0 fd1 row c0 c1 eof0 eof1 : Z) (f : fish_state)
    : K (Z * Z * fish_state) :=
  kloop fuel (fun '(col, c0, c1, eof0, eof1, f) =>
    '(c0, eof0) ← next_char fd0 c0 eof0;
    '(c1, eof1) ← next_char fd1 c1 eof1;
    if decide (c0 = 10 /\ c1 = 10) then mret (inr (eof0, eof1, f)) else
    f ← (if decide ((c0 <> 32 /\ c0 <> 10) \/ (c1 <> 32 /\ c1 <> 10)) then
           '(_, f) ← mp1_ioctl_add (frame_blink row col c0 c1) f; mret f
         else mret f);
    mret (inl (col + 1, c0, c1, eof0, eof1, f))) (0, c0, c1, eof0, eof1, f).

(** After a row, a frame at its end is closed (again, on every later row). *)
Definition end_row (fd eof : Z) : K Z :=
  if decide (eof <> 0) then _ ← ece391_close s fr fd; mret 10 else mret 48.

Definition add_frames (fuel : nat) (f0 f1 : list Z) (f : fish_state) : K fish_state :=
  fd0 ← ece391_open s fr f0;
  _ ← (if decide (fd0 < 0) then ece391_halt s fr (-1) else mret 0);
  fd1 ← ece391_open s fr f1;
  _ ← (if decide (fd1 < 0) then ece391_halt s fr (-1) else mret 0);
  kloop fuel (fun '(row, c0, c1, eof0, eof1, f) =>
    if decide (eof0 = 0 \/ eof1 = 0) then
      '(eof0, eof1, f) ← frame_row fuel fd0 fd1 row c0 c1 eof0 eof1 f;
      c0 ← end_row fd0 eof0;
      c1 ← end_row fd1 eof1;
      mret (inl (row + 1, c0, c1, eof0, eof1, f))
    else mret (inr f)) (0, 48, 48, 0, 0, f).

(** [at_v] is the address of [vmem_base_addr]. *)
Definition mp1_set_video_mode (at_v : Z) (f : fish_state) : K (Z * fish_state) :=
  r ← ece391_vidmap s fr at_v;
  if decide (r = -1) then mret (0, f) else
  v ← load_word at_v;
  mret (v, mkFish (blink_array f) (mp1_list_head f) v).

(** [n] ticks, from the [i]-th wait on. *)
Definition ticks (fuel : nat) (rtc_fd n : Z) (i : nat) (f : fish_state) : K fish_state :=
  kloop (Z.to_nat n + 1) (fun '(j, f) =>
    if decide (j < n) then
      _ ← ece391_read (w (i + Z.to_nat j)%nat) fr rtc_fd (replicate 4 0) 4;
      f ← mp1_rtc_tasklet fuel f;
      mret (inl (j + 1, f))
    else mret (inr f)) (0, f).

Definition fish_main (fuel : nat) (at_v : Z) : K Z :=
  let f := mkFish (replicate (Z.to_nat BLINKS) zero_blink) None 0 in
  '(v, f) ← mp1_set_video_mode at_v f;
  if decide (v = 0) then mret (-1) else
  rtc_fd ← ece391_open s fr (lit "rtc");
  f ← add_frames fuel (lit "frame0.txt") (lit "frame1.txt") f;
  _ ← ece391_write s fr rtc_fd [32; 0; 0; 0] 4;
  f ← ticks fuel rtc_fd WAIT 0 f;
  '(_, f) ← mp1_ioctl_add (mkBlink (6 * 80 + 60) 73 77 7 6 0 0 None) f;
  f ← ticks fuel rtc_fd WAIT 200 f;
  '(_, f) ← mp1_ioctl_sync fuel (Z.lor (Z.shiftl 40 16) (6 * 80 + 60)) f;
  f ← ticks fuel rtc_fd WAIT 400 f;
  '(_, f) ← mp1_ioctl_remove fuel WAIT f;
  f ← ticks fuel rtc_fd BLINKS 600 f;
  _ ← ece391_close s fr rtc_fd;
  mret 0.
End fish.
