(* ===== verification/FishSpec.v ===== *)
(** What the linked blinks of [fish/blink.S] implement: a list of blinks with
    the newest first, looked up by their place on the screen. *)

From S2P Require Import Prelude Hardware CLib Screen Paging Kernel Process Terminals Waiting Syscall Vidmap.
From S2P Require Import UserLib UserSpec Programs Fish.

(** * The chain *)
Inductive chain (arr : list mp1_blink_struct) : option Z -> list Z -> Prop :=
| chain_nil : chain arr None []
| chain_cons i l : 0 <= i < zlen arr -> chain arr (next (at_ arr i)) l -> chain arr (Some i) (i :: l).

Lemma chain_range arr p l i : chain arr p l -> i ∈ l -> 0 <= i < zlen arr.
Proof.
  induction 1 as [|j l Hj _ IH]; [by intros ?%elem_of_nil|]. intros [->|H]%elem_of_cons; [done|by apply IH].
Qed.

(** The chain is what [next] says. *)
Lemma chain_ext arr arr' p l : chain arr p l -> length arr' = length arr ->
  (forall j, j ∈ l -> next (at_ arr' j) = next (at_ arr j)) -> chain arr' p l.
Proof.
  intros C Hl. induction C as [|i l Hi C IH]; intros Hn; constructor; [lia|].
  rewrite Hn by set_solver. apply IH. intros j Hj. apply Hn. set_solver.
Qed.

Lemma chain_upd arr p l i b : chain arr p l -> 0 <= i < zlen arr -> next b = next (at_ arr i) -> chain (upd arr i b) p l.
Proof.
  intros C Hi Hb. eapply chain_ext; [done|by rewrite length_upd|]. intros j Hj.
  pose proof (chain_range _ _ _ _ C Hj). destruct_decide (decide (j = i)) as E.
  - subst j. by rewrite at_upd_eq by lia.
  - by rewrite at_upd_ne by lia.
Qed.

(** [j] is before [i]: it now points past it. *)
Lemma chain_redirect arr p l1 j i l2 v : chain arr p (l1 ++ j :: i :: l2) -> NoDup (l1 ++ j :: i :: l2) ->
  v = next (at_ arr i) -> chain (upd arr j (set_next v (at_ arr j))) p (l1 ++ j :: l2).
Proof.
  intros C N ->. remember (l1 ++ j :: i :: l2) as l eqn:E. revert l1 E N.
  induction C as [|x l Hx C IH]; intros l1 E N; [by destruct l1|].
  apply NoDup_cons in N as [Nx N].
  destruct l1 as [|y l1]; simplify_eq/=.
  - inversion C as [|? ? Hi C']; subst. apply NoDup_cons in N as [Ni N]. constructor; [by rewrite length_upd|].
    rewrite at_upd_eq by done. simpl. eapply chain_ext; [done|by rewrite length_upd|].
    intros m Hm. pose proof (chain_range _ _ _ m C' Hm). rewrite at_upd_ne; [done|lia|lia|].
    intros ->. apply Nx. set_solver.
  - pose proof (chain_range _ _ _ j C ltac:(set_solver)).
    constructor; [by rewrite length_upd|]. rewrite at_upd_ne; [by apply IH|lia|lia|set_solver].
Qed.

(** * The program's data *)
Record blinks (f : fish_state) (l : list Z) : Prop := {
  bl_length : length (blink_array f) = Z.to_nat BLINKS;
  bl_chain : chain (blink_array f) (mp1_list_head f) l;
  bl_nodup : NoDup l;
  bl_used : forall i, 0 <= i < BLINKS -> (i ∈ l <-> location (at_ (blink_array f) i) <> 0);
  bl_screen : forall i, i ∈ l -> 0 <= location (at_ (blink_array f) i) < BLINKS;
}.

(** The blinks, newest first. *)
Definition shown (f : fish_state) (l : list Z) : list mp1_blink_struct :=
  (fun i => set_next None (at_ (blink_array f) i)) <$> l.

(** * The helpers *)
Lemma blinks_range f l i : blinks f l -> i ∈ l -> 0 <= i < BLINKS.
Proof.
  intros B Hi. pose proof (chain_range _ _ _ _ (bl_chain _ _ B) Hi) as H. rewrite (bl_length _ _ B) in H.
  unfold BLINKS in *. lia.
Qed.

(** The first free element. *)
Definition free_at (arr : list mp1_blink_struct) (i : Z) : Prop := location (at_ arr i) = 0.
Lemma malloc_first f : length (blink_array f) = Z.to_nat BLINKS ->
  exists r, mp1_malloc f = Ok r /\ match r with
  | Some i => 0 <= i < BLINKS /\ free_at (blink_array f) i /\ forall j, 0 <= j < i -> ~ free_at (blink_array f) j
  | None => forall j, 0 <= j < BLINKS -> ~ free_at (blink_array f) j
  end.
Proof.
  intros Hl. apply wp_ok. unfold mp1_malloc.
  apply (wp_loop (fun i => 0 <= i <= BLINKS /\ forall j, 0 <= j < i -> ~ free_at (blink_array f) j)
    (fun i => Z.to_nat (BLINKS - i))).
  - unfold BLINKS. split; [lia|]. intros j Hj. lia.
  - unfold BLINKS. lia.
  - intros i [Hi Hall]. unfold BLINKS in *. wp_step.
    + wp_step. wp_step. case_decide as Hz; [split; [lia|by split]|].
      split; [|lia]. split; [lia|]. intros j Hj. destruct_decide (decide (j = i)) as E; [by subst j|apply Hall; lia].
    + wp_step. intros j Hj. apply Hall. lia.
Qed.

Section helpers.
Variables (f : fish_state) (l : list Z) (fuel : nat).
Hypothesis (B : blinks f l) (Hfuel : (length l < fuel)%nat).
Abbreviation arr := (blink_array f).

(** The newest blink at a place. *)
Definition blink_at (loc : Z) : option Z := snd <$> list_find (fun i => location (at_ arr i) = loc) l.

Lemma find_helper_ok loc : mp1_find_helper fuel loc f = Ok (blink_at (u16 loc)).
Proof using All.
  unfold mp1_find_helper, blink_at. pose proof (bl_chain _ _ B) as C. revert C Hfuel. generalize (mp1_list_head f).
  clear B. revert fuel. induction l as [|i l' IH]; intros fuel' p C Hf; (destruct fuel' as [|fuel']; [simpl in Hf; lia|]);
    rewrite loop_S; inversion C as [|? ? Hi C']; subst; [done|].
  rewrite rd_ok by done. cbn [mbind outcome_bind mret outcome_ret list_find].
  case_decide; [done|]. simpl in Hf. rewrite IH by (done || lia).
  by destruct (list_find _ l') as [[]|].
Qed.

(** An element outside the list, unless all are in it. *)
Lemma malloc_ok : exists r, mp1_malloc f = Ok r /\ match r with
  | Some i => 0 <= i < BLINKS /\ i ∉ l
  | None => length l = Z.to_nat BLINKS
  end.
Proof using All.
  destruct (malloc_first f (bl_length _ _ B)) as (r & E & H). exists r. split; [done|]. destruct r as [i|].
  - destruct H as (Hi & Hz & _). split; [done|]. rewrite (bl_used _ _ B) by done. tauto.
  - apply Nat.le_antisymm.
    + assert (Hsub : l ⊆ seqZ 0 2000).
      { intros j Hj. apply elem_of_seqZ. pose proof (blinks_range f l j B Hj). unfold BLINKS in *. lia. }
      apply NoDup_submseteq, submseteq_length in Hsub; [|apply B]. by rewrite length_seqZ in Hsub.
    + assert (Hsub : seqZ 0 2000 ⊆ l).
      { intros j Hj%elem_of_seqZ. apply (bl_used _ _ B); [|apply H]; unfold BLINKS; lia. }
      apply NoDup_submseteq, submseteq_length in Hsub; [|apply NoDup_seqZ]. by rewrite length_seqZ in Hsub.
Qed.
End helpers.

(** ** Unlinking *)
Lemma chain_head arr p x l : chain arr p (x :: l) -> p = Some x.
Proof. by inversion 1. Qed.

(** The first pointer of a chain that goes through [j] to [i], when it is
    not the one to [i]. *)
Lemma chain_next arr x l1 j i l2 : chain arr (Some x) (l1 ++ j :: i :: l2) -> NoDup (l1 ++ j :: i :: l2) ->
  match l1 with
  | [] => x = j /\ next (at_ arr x) = Some i
  | _ :: l1 => next (at_ arr x) <> Some i /\ chain arr (next (at_ arr x)) (l1 ++ j :: i :: l2)
  end.
Proof.
  intros C N. destruct l1 as [|y l1]; simpl in *; inversion C as [|? ? Hx C']; subst.
  - split; [done|]. by apply chain_head in C'.
  - split; [|done]. intros E. rewrite E in C'. apply NoDup_cons in N as [_ N].
    destruct l1 as [|z l1]; simpl in *; apply chain_head in C' as [= ->]; apply NoDup_cons in N as [N _]; set_solver.
Qed.

Lemma unlink_ok f l1 i l2 fuel : let l := l1 ++ i :: l2 in let arr := blink_array f in
  chain arr (mp1_list_head f) l -> NoDup l -> (length l < fuel)%nat ->
  exists f', unlink fuel i (next (at_ arr i)) f = Ok f' /\ vmem_base_addr f' = vmem_base_addr f /\
    chain (blink_array f') (mp1_list_head f') (l1 ++ l2) /\ length (blink_array f') = length arr /\
    forall j, 0 <= j -> set_next None (at_ (blink_array f') j) = set_next None (at_ arr j).
Proof.
  intros l arr C N Hf. unfold unlink. destruct l1 as [|j l0 _] using rev_ind.
  - subst l. simpl in *. rewrite decide_True by by apply chain_head in C. eexists. split; [done|].
    split; [done|]. inversion C; subst. done.
  - unfold l in *. rewrite <- app_assoc in *. simpl in *. pose proof C as C0.
    assert (Hj : 0 <= j < zlen arr) by (apply (chain_range _ _ _ _ C); set_solver).
    rewrite decide_False.
    2: { intros E. rewrite E in C. destruct l0 as [|y l0]; apply chain_head in C as [= ->];
         apply NoDup_cons in N as [N _]; set_solver. }
    exists (set_blinks (upd arr j (set_next (next (at_ arr i)) (at_ arr j))) f).
    split; [|split; [|split; [by eapply chain_redirect|split]]].
    + clear C0. revert C N Hf. generalize (mp1_list_head f). revert fuel. induction l0 as [|y l0 IH]; intros fuel p C N Hf.
      * pose proof (chain_head _ _ _ _ C) as ->. destruct fuel as [|fuel]; [simpl in Hf; lia|]. rewrite loop_S.
        apply (chain_next _ _ []) in C as [_ E]; [|done]. rewrite rd_ok by done.
        cbn [mbind outcome_bind mret outcome_ret]. rewrite decide_True by done.
        unfold store_blink. rewrite wr_ok by done. done.
      * pose proof (chain_head _ _ _ _ C) as ->. destruct fuel as [|fuel]; [simpl in Hf; lia|]. rewrite loop_S.
        assert (Hy : 0 <= y < zlen arr) by (apply (chain_range _ _ _ _ C); set_solver).
        apply (chain_next _ _ (y :: l0)) in C as [Ne C]; [|done]. fold arr. rewrite rd_ok by done.
        cbn [mbind outcome_bind mret outcome_ret]. rewrite decide_False by done.
        apply IH; [done| |simpl in Hf; lia]. simpl in N. by apply NoDup_cons in N as [_ N].
    + done.
    + simpl. by rewrite length_upd.
    + intros m Hm. simpl. destruct_decide (decide (m = j)) as E.
      * subst m. by rewrite at_upd_eq by lia.
      * by rewrite at_upd_ne by lia.
Qed.

(** * The screen *)

(** [w] writes to the screen, at the physical address [pa]. *)
Abbreviation write := (Z * Z)%type.
Definition paint (pa : Z) (ws : list write) (k : kernel) : kernel :=
  with_lib (set_mem (foldl (fun m '(o, c) => put m (pa + o) (u8 c)) (lib_mem (lib k)) ws) (lib k)) k.

(** The program sees the screen page at [base]. *)
Record window (base pa : Z) (k : kernel) : Prop := {
  wd_range : 0 <= base /\ base + 4096 <= 2 ^ 32;
  wd_maps : forall o, 0 <= o < 4096 ->
    translate (page_directory_at (link k)) (page_table_at (link k)) (user_page_table_at (link k)) (paging k) (base + o) = Some (Mapped (pa + o) true);
}.

(** What vidmap leaves: the program's window is the video memory. *)
Lemma video_mode_ok s fr f k v a u : let t := curr_terminal (lib k) in
  kernel_linked k -> paging_inv (page_directory_at (link k)) (page_table_at (link k)) (user_page_table_at (link k)) (paging k) ->
  0 <= t < MAX_TERMINAL -> PROGRAM_PAGE <= v <= PROGRAM_PAGE + USER_PAGE_SIZE - 4 ->
  ktranslate k v = Some (Mapped a u) ->
  mp1_set_video_mode fr (fun _ => s) v f k =
    Ok (Returned (video_window t, mkFish (blink_array f) (mp1_list_head f) (video_window t)), windowed k a) /\
  window (video_window t) VIDEO (windowed k a).
Proof.
  intros t L P Ht Hv Ha. assert (Ht' : 0 <= t < 3) by done.
  assert (Hv' : 0x08000000 <= v < 2 ^ 32) by (unfold PROGRAM_PAGE, USER_PAGE_SIZE in Hv; lia).
  assert (Hw : video_window t = 0x10000000 + t * 0x1000) by done.
  split; [|split].
  - unfold mp1_set_video_mode. assert (E : ece391_vidmap s fr v k = Ok (Returned (video_window t), windowed k a)).
    { apply kwp_ok, vidmap_wp. rewrite u32_id by lia.
      eapply kwp_eq; [by apply (vidmap_returns k v a u)|done]. }
    rewrite (kbind_eq _ _ _ _ _ E). rewrite decide_False by lia.
    erewrite kbind_eq; [done|]. apply (load_window k v a u); try done.
    by apply (windowed_program k v a u).
  - lia.
  - intros o Ho. pose proof (windowed_translate k v a u L P Ht Hv Ha
      (video_window t + o) ltac:(lia)) as E. unfold ktranslate in E. rewrite E. rewrite decide_True.
    + do 3 f_equal. rewrite Hw. unfold FOURKiB. replace (0x10000000 + t * 0x1000 + o) with (o + (0x10000 + t) * 0x1000) by lia.
      rewrite Z.mod_add, Z.mod_small by lia. done.
    + fold t. rewrite Hw. unfold page_of.
      replace (0x10000000 + t * 0x1000 + o) with (o + (0x10000 + t) * 2 ^ 12) by lia.
      replace (0x10000000 + t * 0x1000) with (0 + (0x10000 + t) * 2 ^ 12) by lia.
      rewrite !Z.div_add by lia. by rewrite (Z.div_small o) by lia.
Qed.

Lemma paint_nil pa k : paint pa [] k = k.
Proof. by destruct k as [? [] ? ? ? ? ? ? ? ? ? ?]. Qed.
Lemma paint_app pa ws ws' k : paint pa ws' (paint pa ws k) = paint pa (ws ++ ws') k.
Proof. unfold paint. simpl. by rewrite foldl_app. Qed.
Lemma window_paint base pa ws k : window base pa k -> window base pa (paint pa ws k).
Proof. by intros [? ?]. Qed.

Lemma poke_ok fr f pa o c k : window (vmem_base_addr f) pa k -> 0 <= o < 4096 ->
  mp1_poke fr f o c k = Ok (Returned tt, paint pa [(o, c)] k).
Proof.
  intros [Hr Hm] Ho. unfold mp1_poke, user_store. rewrite u32_id by lia. by rewrite Hm.
Qed.

Lemma bind_lift {A B} (a : A) (g : A -> K B) k : (lift (Ok a) ≫= g) k = g a k.
Proof. done. Qed.

(** * A tick *)
Definition expired (b : mp1_blink_struct) : bool := bool_decide (i16 (u16 (countdown b - 1)) <= 0).
Definition is_on (b : mp1_blink_struct) : bool := Z.testbit (status b) 0.

Definition tick (b : mp1_blink_struct) : mp1_blink_struct :=
  if expired b
  then set_phase (if is_on b then off_length b else on_length b) (Z.lxor (status b) 1) b
  else set_phase (u16 (countdown b - 1)) (status b) b.
Definition tick_writes (b : mp1_blink_struct) : list write :=
  if expired b then [(2 * location b, if is_on b then off_char b else on_char b)] else [].

Lemma tick_next n b : tick (set_next n b) = set_next n (tick b).
Proof. unfold tick, expired, is_on. simpl. by case_bool_decide. Qed.
Lemma next_tick b : next (tick b) = next b.
Proof. unfold tick. by destruct (expired b). Qed.
Lemma location_tick b : location (tick b) = location b.
Proof. unfold tick. by destruct (expired b). Qed.

Section tasklet.
Variables (fr : frame) (pa : Z).

Lemma tasklet_step_ok i f k : 0 <= i < zlen (blink_array f) -> window (vmem_base_addr f) pa k ->
  0 <= location (at_ (blink_array f) i) < BLINKS ->
  let b := at_ (blink_array f) i in
  tasklet_step fr i f k =
  Ok (Returned (next b, set_blinks (upd (blink_array f) i (tick b)) f), paint pa (tick_writes b) k).
Proof using Type.
  intros Hi W Hloc b. unfold BLINKS in Hloc. unfold tasklet_step, store_blink. rewrite rd_ok by done.
  rewrite bind_lift. fold b. cbv zeta. rewrite wr_ok by done. cbn [mbind outcome_bind mret outcome_ret].
  rewrite bind_lift. unfold tick, tick_writes, expired, is_on. case_decide; case_bool_decide; try lia.
  - by rewrite paint_nil.
  - erewrite kbind_eq by (apply poke_ok; [exact W|cbn [location set_phase]; fold b in Hloc; lia]). cbn [blink_array set_blinks].
    rewrite wr_ok by (by rewrite length_upd). cbn [mbind outcome_bind mret outcome_ret].
    rewrite bind_lift. by rewrite upd_upd.
Qed.
End tasklet.

Lemma blinks_ext f f' l : blinks f l -> length (blink_array f') = length (blink_array f) ->
  mp1_list_head f' = mp1_list_head f ->
  (forall j, 0 <= j -> next (at_ (blink_array f') j) = next (at_ (blink_array f) j) /\
     location (at_ (blink_array f') j) = location (at_ (blink_array f) j)) -> blinks f' l.
Proof.
  intros B Hl Hh Ha. assert (Hr : forall i, i ∈ l -> 0 <= i < BLINKS) by (intros i; by apply (blinks_range f)).
  destruct B as [L C N U S]. constructor.
  - congruence.
  - rewrite Hh. eapply chain_ext; [done|done|]. intros j Hj. apply Ha. by apply Hr.
  - done.
  - intros i Hi. destruct (Ha i) as [_ ->]; [lia|]. by apply U.
  - intros i Hi. destruct (Ha i) as [_ ->]; [by apply Hr|by apply S].
Qed.

Lemma shown_ext f f' l g : (forall i, i ∈ l -> set_next None (at_ (blink_array f') i) = g (set_next None (at_ (blink_array f) i))) ->
  shown f' l = g <$> shown f l.
Proof. intros H. unfold shown. rewrite <- list_fmap_compose. apply list_fmap_ext. intros n i Hi. apply H. by eapply list_elem_of_lookup_2. Qed.

Section tasklet.
Variables (fr : frame) (pa : Z).

(** From any element on, the rest of the list is ticked. *)
Lemma tasklet_loop fuel f l p k : chain (blink_array f) p l -> NoDup l -> (length l < fuel)%nat ->
  window (vmem_base_addr f) pa k -> (forall i, i ∈ l -> 0 <= location (at_ (blink_array f) i) < BLINKS) ->
  exists f', kloop fuel (fun '(p, f) =>
      match p with None => mret (inr f) | Some i => s ← tasklet_step fr i f; mret (inl s) end) (p, f) k =
    Ok (Returned f', paint pa (concat ((fun i => tick_writes (at_ (blink_array f) i)) <$> l)) k) /\
    vmem_base_addr f' = vmem_base_addr f /\ mp1_list_head f' = mp1_list_head f /\
    length (blink_array f') = length (blink_array f) /\
    forall j, 0 <= j -> at_ (blink_array f') j =
      if decide (j ∈ l) then tick (at_ (blink_array f) j) else at_ (blink_array f) j.
Proof using Type.
  revert f p l k. induction fuel as [|fuel IH]; intros f p l k C N Hf W S; [lia|].
  rewrite kloop_S. destruct C as [|i l Hi C].
  - exists f. cbn. rewrite paint_nil. repeat split.
  - apply NoDup_cons in N as [Ni N].
    pose proof (tasklet_step_ok fr pa i f k Hi W (S i ltac:(set_solver))) as Es.
    set (b := at_ (blink_array f) i) in *. set (f1 := set_blinks (upd (blink_array f) i (tick b)) f) in *.
    assert (Ho : forall j, j ∈ l -> at_ (blink_array f1) j = at_ (blink_array f) j).
    { intros j Hj. simpl. pose proof (chain_range _ _ _ _ C Hj). apply at_upd_ne; [lia|lia|]. set_solver. }
    destruct (IH f1 (next b) l (paint pa (tick_writes b) k)) as (f' & E & V & Hh & Hl & Ha).
    { eapply chain_ext; [exact C|simpl; by rewrite length_upd|]. intros j Hj. by rewrite Ho. }
    { done. } { simpl in Hf. lia. } { by apply window_paint. }
    { intros j Hj. rewrite Ho by done. apply S. set_solver. }
    exists f'. split; [|split; [|split; [|split]]].
    + rewrite (kbind_eq _ _ _ _ _ (kbind_eq _ _ _ _ _ Es)). etransitivity; [exact E|].
      rewrite paint_app. cbn [fmap list_fmap concat]. fold b.
      replace ((fun j => tick_writes (at_ (blink_array f1) j)) <$> l)
        with ((fun j => tick_writes (at_ (blink_array f) j)) <$> l); [done|].
      apply list_fmap_ext. intros n j Hj. apply list_elem_of_lookup_2 in Hj. by rewrite Ho.
    + done.
    + done.
    + rewrite Hl. simpl. by rewrite length_upd.
    + intros j Hj. rewrite Ha by done. simpl. destruct_decide (decide (j = i)) as Ej.
      * subst j. rewrite decide_False by done. rewrite at_upd_eq by done. by rewrite decide_True by set_solver.
      * rewrite at_upd_ne by lia. destruct_decide (decide (j ∈ l)) as Hjl.
        -- by rewrite decide_True by set_solver.
        -- by rewrite decide_False by set_solver.
Qed.

Lemma tasklet_ok fuel f l k : blinks f l -> (length l < fuel)%nat -> window (vmem_base_addr f) pa k ->
  exists f', mp1_rtc_tasklet fr fuel f k = Ok (Returned f', paint pa (concat (tick_writes <$> shown f l)) k) /\
    blinks f' l /\ shown f' l = tick <$> shown f l /\ vmem_base_addr f' = vmem_base_addr f.
Proof using Type.
  intros B Hf W. destruct (tasklet_loop fuel f l (mp1_list_head f) k) as (f' & E & V & Hh & Hl & Ha); try apply B; try done.
  exists f'. split; [|split; [|split]].
  - unfold mp1_rtc_tasklet. rewrite E. unfold shown. by rewrite <- list_fmap_compose.
  - eapply blinks_ext; [done..|]. intros j Hj. rewrite Ha by done.
    case_decide; [by rewrite next_tick, location_tick|done].
  - apply shown_ext. intros i Hi. pose proof (blinks_range f l i B Hi). rewrite Ha, decide_True by (done || lia).
    by rewrite <- tick_next.
  - done.
Qed.
End tasklet.

(** * The abstract list *)
Fixpoint find_blink (loc : Z) (bs : list mp1_blink_struct) : option mp1_blink_struct :=
  match bs with
  | [] => None
  | b :: bs => if decide (location b = loc) then Some b else find_blink loc bs
  end.
Fixpoint on_first (loc : Z) (g : mp1_blink_struct -> list mp1_blink_struct) (bs : list mp1_blink_struct)
    : list mp1_blink_struct :=
  match bs with
  | [] => []
  | b :: bs => if decide (location b = loc) then g b ++ bs else b :: on_first loc g bs
  end.

(** The requests of [mp1_ioctl] that change the list, and the clock. *)
Inductive request : Type := Add (b : mp1_blink_struct) | Remove (arg : Z) | Sync (arg : Z) | Tick.

Definition fresh (b : mp1_blink_struct) : mp1_blink_struct := set_next None (set_phase (on_length b) 1 b).
Definition synced (a b : mp1_blink_struct) : mp1_blink_struct :=
  mkBlink (location b) (on_char b) (off_char b) (on_length a) (off_length a) (countdown a) (status a) (next b).

(** The value returned, the list after it and what it writes to the screen. *)
Definition spec_request (r : request) (bs : list mp1_blink_struct) : Z * list mp1_blink_struct * list write :=
  match r with
  | Add b =>
      if decide (location b >= BLINKS \/ zlen bs = BLINKS) then (-1, bs, [])
      else (0, fresh b :: bs, [(2 * location b, on_char b)])
  | Remove arg =>
      match find_blink (u16 arg) bs with
      | None => (-1, bs, [])
      | Some _ => (0, on_first (u16 arg) (fun _ => []) bs, [])
      end
  | Sync arg =>
      match find_blink (u16 (Z.shiftr (u32 arg) 16)) bs, find_blink (u16 (Z.land arg 0xFFFF)) bs with
      | Some a, Some b =>
          (0, on_first (u16 (Z.land arg 0xFFFF)) (fun b => [synced a b]) bs, [(2 * location b, off_char b)])
      | _, _ => (-1, bs, [])
      end
  | Tick => (0, tick <$> bs, concat (tick_writes <$> bs))
  end.

Definition perform (fr : frame) (fuel : nat) (r : request) (f : fish_state) : K (Z * fish_state) :=
  match r with
  | Add b => mp1_ioctl_add fr b f
  | Remove arg => mp1_ioctl_remove fuel arg f
  | Sync arg => mp1_ioctl_sync fr fuel arg f
  | Tick => f ← mp1_rtc_tasklet fr fuel f; mret (0, f)
  end.

Lemma find_blink_first loc l1 b l2 : (forall x, x ∈ l1 -> location x <> loc) -> location b = loc ->
  find_blink loc (l1 ++ b :: l2) = Some b.
Proof.
  intros H1 H2. induction l1 as [|x l1 IH]; simpl; [by rewrite decide_True|].
  rewrite decide_False by (apply H1; set_solver). apply IH. set_solver.
Qed.
Lemma on_first_first loc g l1 b l2 : (forall x, x ∈ l1 -> location x <> loc) -> location b = loc ->
  on_first loc g (l1 ++ b :: l2) = l1 ++ g b ++ l2.
Proof.
  intros H1 H2. induction l1 as [|x l1 IH]; simpl; [by rewrite decide_True|].
  rewrite decide_False by (apply H1; set_solver). f_equal. apply IH. set_solver.
Qed.
Lemma find_blink_none loc bs : (forall x, x ∈ bs -> location x <> loc) -> find_blink loc bs = None.
Proof.
  intros H. induction bs as [|x bs IH]; [done|]. simpl. rewrite decide_False by (apply H; set_solver). apply IH. set_solver.
Qed.

(** What a lookup by place finds. *)
Definition hit (f : fish_state) (l : list Z) (loc : Z) (o : option Z) : Prop :=
  match o with
  | None => find_blink loc (shown f l) = None
  | Some i => exists l1 l2, l = l1 ++ i :: l2 /\ location (at_ (blink_array f) i) = loc /\
      (forall x, x ∈ shown f l1 -> location x <> loc)
  end.

Lemma elem_of_shown f l x : x ∈ shown f l -> exists i, i ∈ l /\ location x = location (at_ (blink_array f) i).
Proof. unfold shown. intros (i & -> & Hi)%list_elem_of_fmap. by exists i. Qed.

Lemma find_helper_hit f l fuel loc : blinks f l -> (length l < fuel)%nat ->
  exists o, mp1_find_helper fuel loc f = Ok o /\ hit f l (u16 loc) o.
Proof.
  intros B Hf. exists (blink_at f l (u16 loc)). split; [by apply find_helper_ok|]. unfold blink_at, hit.
  destruct (list_find _ l) as [[n i]|] eqn:E; simpl.
  - apply list_find_Some in E as (Hl & Hi & Hn). exists (take n l), (drop (Datatypes.S n) l).
    split; [by rewrite take_drop_middle|]. split; [done|].
    intros x (j & Hj & ->)%elem_of_shown. apply list_elem_of_lookup in Hj as [m Hm].
    apply lookup_take_Some in Hm as [Hm Hmn]. by eapply Hn.
  - apply list_find_None in E. rewrite Forall_forall in E. apply find_blink_none.
    intros x (j & Hj & ->)%elem_of_shown. by apply E.
Qed.

Lemma shown_mid f l1 i l2 :
  shown f (l1 ++ i :: l2) = shown f l1 ++ set_next None (at_ (blink_array f) i) :: shown f l2.
Proof. unfold shown. by rewrite fmap_app. Qed.

Lemma hit_find f l1 i l2 loc : location (at_ (blink_array f) i) = loc ->
  (forall x, x ∈ shown f l1 -> location x <> loc) ->
  find_blink loc (shown f (l1 ++ i :: l2)) = Some (set_next None (at_ (blink_array f) i)) /\
  forall g, on_first loc g (shown f (l1 ++ i :: l2)) = shown f l1 ++ g (set_next None (at_ (blink_array f) i)) ++ shown f l2.
Proof.
  intros H1 H2. rewrite shown_mid. split; [by apply find_blink_first|]. intros g. by apply on_first_first.
Qed.

(** * The three requests *)

(** A free element [i] gets the blink. *)
Lemma add_at fr pa f k b i : length (blink_array f) = Z.to_nat BLINKS -> window (vmem_base_addr f) pa k ->
  0 <= location b < BLINKS -> mp1_malloc f = Ok (Some i) -> 0 <= i < BLINKS ->
  mp1_ioctl_add fr b f k =
  Ok (Returned (0, mkFish (upd (blink_array f) i (set_next (mp1_list_head f) (set_phase (on_length b) 1 b)))
                     (Some i) (vmem_base_addr f)), paint pa [(2 * location b, on_char b)] k).
Proof.
  intros Hl W Hb Em Hi. unfold mp1_ioctl_add, BLINKS in *. rewrite decide_False by lia.
  rewrite Em, bind_lift. unfold store_blink.
  rewrite wr_ok by lia. cbn [mbind outcome_bind mret outcome_ret]. rewrite bind_lift.
  cbn [blink_array set_blinks]. rewrite wr_ok by (rewrite length_upd; lia).
  cbn [mbind outcome_bind mret outcome_ret]. rewrite bind_lift, upd_upd.
  erewrite kbind_eq; [done|]. apply poke_ok; [done|]. simpl. lia.
Qed.

(** The list after [r], and what else is left as it was. *)
Definition refines (f : fish_state) (bs : list mp1_blink_struct) (f' : fish_state) : Prop :=
  vmem_base_addr f' = vmem_base_addr f /\ exists l', blinks f' l' /\ shown f' l' = bs.

Section requests.
Variables (fr : frame) (pa : Z) (f : fish_state) (l : list Z) (fuel : nat) (k : kernel).
Hypothesis (B : blinks f l) (Hfuel : (length l < fuel)%nat) (W : window (vmem_base_addr f) pa k).

(** [perform] does what [spec_request] says. *)
Definition meets (r : request) : Prop :=
  let '(v, bs, ws) := spec_request r (shown f l) in
  exists f', perform fr fuel r f k = Ok (Returned (v, f'), paint pa ws k) /\ refines f bs f'.

Lemma refused : refines f (shown f l) f.
Proof using B. split; [done|]. by exists l. Qed.

Lemma add_meets b : 0 < location b < 2 ^ 16 -> meets (Add b).
Proof using All.
  intros Hb. destruct (malloc_ok f l fuel B Hfuel) as (o & Em & Ho).
  assert (Hlen : zlen (shown f l) = zlen l) by (unfold shown; by rewrite length_fmap).
  unfold meets, spec_request, perform, mp1_ioctl_add. rewrite Hlen. case_decide as Hfull.
  - exists f. split; [|apply refused]. rewrite paint_nil. case_decide as Hloc; [done|].
    rewrite Em, bind_lift. destruct o as [i|]; [|done]. exfalso. destruct Ho as [Hi Hn].
    assert (Hsub : i :: l ⊆+ seqZ 0 2000).
    { apply NoDup_submseteq; [constructor; [done|apply B]|]. intros j Hj. apply elem_of_seqZ.
      apply elem_of_cons in Hj as [->|Hj]; [|pose proof (blinks_range f l j B Hj)]; unfold BLINKS in *; lia. }
    apply submseteq_length in Hsub. rewrite length_seqZ in Hsub. unfold BLINKS in *. simpl in Hsub. lia.
  - destruct o as [i|]; [|unfold BLINKS in *; lia].
    destruct Ho as [Hi Hn]. pose proof (bl_length _ _ B) as Hl.
    pose proof (add_at fr pa f k b i Hl W ltac:(unfold BLINKS in *; lia) Em Hi) as Ea. unfold mp1_ioctl_add in Ea.
    eexists. split; [exact Ea|].
    split; [done|]. exists (i :: l). set (arr' := upd _ _ _).
    assert (Hi' : 0 <= i < zlen (blink_array f)) by (unfold BLINKS in *; lia).
    assert (Hat : forall j, 0 <= j -> j <> i -> at_ arr' j = at_ (blink_array f) j).
    { intros j Hj Hne. by apply at_upd_ne; lia. }
    assert (Hati : at_ arr' i = set_next (mp1_list_head f) (set_phase (on_length b) 1 b)) by by apply at_upd_eq.
    assert (Hr : forall j, j ∈ l -> 0 <= j /\ j <> i).
    { intros j Hj. pose proof (blinks_range f l j B Hj). split; [lia|set_solver]. }
    split; [constructor; simpl|].
    + unfold arr'. by rewrite length_upd.
    + fold arr'. constructor; [unfold arr'; by rewrite length_upd|]. rewrite Hati. simpl.
      eapply chain_ext; [apply B|unfold arr'; by rewrite length_upd|]. intros j Hj. by rewrite Hat by by apply Hr.
    + constructor; [done|apply B].
    + intros j Hj. fold arr'. destruct_decide (decide (j = i)) as E.
      * subst j. rewrite Hati. simpl. set_solver by lia.
      * rewrite Hat by lia. rewrite <- (bl_used _ _ B) by done. set_solver.
    + intros j Hj. fold arr'. apply elem_of_cons in Hj as [->|Hj].
      * rewrite Hati. simpl. unfold BLINKS in *. lia.
      * rewrite Hat by by apply Hr. by apply B.
    + unfold shown. simpl. fold arr'. rewrite Hati. f_equal. apply list_fmap_ext.
      intros n j Hj. apply list_elem_of_lookup_2 in Hj. by rewrite Hat by by apply Hr.
Qed.

Lemma at_location j j' g g' : set_next None (at_ (blink_array g) j) = set_next None (at_ (blink_array g') j') ->
  location (at_ (blink_array g) j) = location (at_ (blink_array g') j').
Proof using Type. intros E. by apply (f_equal location) in E. Qed.

(** Taking an element out of the list and clearing it. *)
Lemma remove_keeps l1 i l2 f1 : l = l1 ++ i :: l2 ->
  chain (blink_array f1) (mp1_list_head f1) (l1 ++ l2) -> length (blink_array f1) = length (blink_array f) ->
  (forall j, 0 <= j -> set_next None (at_ (blink_array f1) j) = set_next None (at_ (blink_array f) j)) ->
  let f2 := set_blinks (upd (blink_array f1) i zero_blink) f1 in
  blinks f2 (l1 ++ l2) /\ shown f2 (l1 ++ l2) = shown f l1 ++ shown f l2.
Proof using All.
  intros -> C Hl Ha f2. assert (N := bl_nodup _ _ B).
  apply NoDup_app in N as (N1 & Hd & N2%NoDup_cons). destruct N2 as [Ni N2].
  assert (Ni' : i ∉ l1 ++ l2) by set_solver.
  assert (Hr : forall j, j ∈ l1 ++ l2 -> 0 <= j < BLINKS /\ j <> i).
  { intros j Hj. split; [apply (blinks_range f _ j B); set_solver|by intros ->]. }
  assert (Hi : 0 <= i < BLINKS) by (apply (blinks_range f _ i B); set_solver).
  pose proof (bl_length _ _ B) as HL.
  assert (Hat : forall j, 0 <= j -> j <> i -> at_ (blink_array f2) j = at_ (blink_array f1) j).
  { intros j Hj Hne. by apply at_upd_ne; lia. }
  split; [constructor|].
  - simpl. rewrite length_upd. congruence.
  - simpl. eapply chain_ext; [exact C|by rewrite length_upd|]. intros j Hj. by rewrite Hat by (apply Hr in Hj; lia).
  - apply NoDup_app. set_solver.
  - intros j Hj. destruct_decide (decide (j = i)) as E.
    + subst j. simpl. rewrite at_upd_eq by (unfold BLINKS in *; lia). set_solver.
    + rewrite Hat by lia. rewrite (at_location j j f1 f) by (apply Ha; lia).
      rewrite <- (bl_used _ _ B) by done. set_solver.
  - intros j Hj. pose proof (Hr j Hj). rewrite Hat by lia. rewrite (at_location j j f1 f) by (apply Ha; lia).
    apply B. set_solver.
  - unfold shown. rewrite <- fmap_app. apply list_fmap_ext. intros n j Hj. apply list_elem_of_lookup_2, Hr in Hj.
    rewrite Hat by lia. apply Ha. lia.
Qed.

Lemma remove_meets arg : meets (Remove arg).
Proof using All.
  destruct (find_helper_hit f l fuel arg B Hfuel) as (o & Ef & Ho).
  unfold meets, spec_request, perform, mp1_ioctl_remove. rewrite Ef, bind_lift. destruct o as [i|]; simpl in Ho.
  - destruct Ho as (l1 & l2 & El & Hloc & H1). destruct (hit_find f l1 i l2 _ Hloc H1) as [Eh Eg].
    rewrite <- El in Eh, Eg. rewrite Eh, Eg.
    destruct (unlink_ok f l1 i l2 fuel) as (f1 & Eu & V & C & Hl & Ha); [rewrite <- El; apply B..|by rewrite <- El|].
    destruct (remove_keeps l1 i l2 f1) as [B' S]; [done..|].
    eexists. split; [|split; [|exists (l1 ++ l2); split; [exact B'|exact S]]]; [|done].
    rewrite paint_nil. rewrite rd_ok by (apply (chain_range _ _ _ _ (bl_chain _ _ B)); rewrite El; set_solver).
    rewrite bind_lift, Eu, bind_lift. unfold mp1_free.
    rewrite wr_ok; [done|]. rewrite Hl. apply (chain_range _ _ _ _ (bl_chain _ _ B)). rewrite El. set_solver.
  - rewrite Ho. exists f. rewrite paint_nil. split; [done|apply refused].
Qed.

Lemma sync_meets arg : meets (Sync arg).
Proof using All.
  destruct (find_helper_hit f l fuel (Z.shiftr (u32 arg) 16) B Hfuel) as (o & Ef & Ho).
  destruct (find_helper_hit f l fuel (Z.land arg 0xFFFF) B Hfuel) as (o' & Ef' & Ho').
  unfold meets, spec_request, perform, mp1_ioctl_sync. rewrite Ef, bind_lift. destruct o as [i|]; simpl in Ho.
  2: { rewrite Ho. exists f. rewrite paint_nil. split; [done|apply refused]. }
  destruct Ho as (l1 & l2 & El & Hloc & H1). destruct (hit_find f l1 i l2 _ Hloc H1) as [Eh _].
  rewrite <- El in Eh. rewrite Eh, Ef', bind_lift. destruct o' as [j|]; simpl in Ho'.
  2: { rewrite Ho'. exists f. rewrite paint_nil. split; [done|apply refused]. }
  destruct Ho' as (m1 & m2 & Em & Hlocj & Hm1). destruct (hit_find f m1 j m2 _ Hlocj Hm1) as [Ej Eg].
  rewrite <- Em in Ej, Eg. rewrite Ej, Eg.
  assert (Hil : i ∈ l) by (rewrite El; set_solver). assert (Hjl : j ∈ l) by (rewrite Em; set_solver).
  pose proof (chain_range _ _ _ _ (bl_chain _ _ B) Hil) as Hi. pose proof (chain_range _ _ _ _ (bl_chain _ _ B) Hjl) as Hj.
  rewrite (rd_ok _ i), (rd_ok _ j), !bind_lift by done. unfold store_blink.
  rewrite wr_ok by done. cbn [mbind outcome_bind mret outcome_ret]. rewrite bind_lift. cbn [location].
  eexists. split.
  { erewrite kbind_eq; [done|]. apply poke_ok; [done|].
    pose proof (bl_screen _ _ B j Hjl). cbn [location set_next]. unfold BLINKS in *. lia. }
  split; [done|]. exists l. split.
  - eapply blinks_ext; [done|simpl; by rewrite length_upd|done|]. intros n Hn. simpl.
    destruct_decide (decide (n = j)) as E; [subst n; by rewrite at_upd_eq|by rewrite at_upd_ne by lia].
  - rewrite Em, shown_mid. simpl. rewrite at_upd_eq by done. pose proof (bl_nodup _ _ B) as N. rewrite Em in N.
    apply NoDup_app in N as (_ & Hd & [Nj _]%NoDup_cons).
    assert (Hsame : forall m, m ⊆ l -> j ∉ m -> shown (set_blinks (upd (blink_array f) j (mkBlink
      (location (at_ (blink_array f) j)) (on_char (at_ (blink_array f) j)) (off_char (at_ (blink_array f) j))
      (on_length (at_ (blink_array f) i)) (off_length (at_ (blink_array f) i)) (countdown (at_ (blink_array f) i))
      (status (at_ (blink_array f) i)) (next (at_ (blink_array f) j)))) f) m = shown f m).
    { intros m Hm Hjm. unfold shown. apply list_fmap_ext. intros n x Hx. apply list_elem_of_lookup_2 in Hx.
      pose proof (blinks_range f l x B (Hm x Hx)). simpl. rewrite at_upd_ne; [done|lia|lia|]. by intros ->. }
    rewrite (Hsame m1), (Hsame m2); [done|..].
    + intros x Hx. rewrite Em. apply elem_of_app. right. by constructor.
    + done.
    + intros x Hx. rewrite Em. apply elem_of_app. by left.
    + intros Hx. apply (Hd j Hx). constructor.
Qed.

Lemma tick_meets : meets Tick.
Proof using All.
  destruct (tasklet_ok fr pa fuel f l k B Hfuel W) as (f' & E & B' & S & V).
  exists f'. split; [|split; [done|by exists l]]. simpl. by rewrite (kbind_eq _ _ _ _ _ E).
Qed.
End requests.

(** * Sequences of requests *)

(** Place 0 marks a free element. *)
Definition request_ok (r : request) : Prop :=
  match r with Add b => 0 < location b < 2 ^ 16 | _ => True end.

Fixpoint perform_all (fr : frame) (fuel : nat) (rs : list request) (f : fish_state) : K (list Z * fish_state) :=
  match rs with
  | [] => mret ([], f)
  | r :: rs =>
      '(v, f) ← perform fr fuel r f;
      '(vs, f) ← perform_all fr fuel rs f;
      mret (v :: vs, f)
  end.
Fixpoint spec_all (rs : list request) (bs : list mp1_blink_struct) : list Z * list mp1_blink_struct * list write :=
  match rs with
  | [] => ([], bs, [])
  | r :: rs =>
      let '(v, bs, ws) := spec_request r bs in
      let '(vs, bs, ws') := spec_all rs bs in
      (v :: vs, bs, ws ++ ws')
  end.

Lemma blinks_count f l : blinks f l -> (length l <= 2000)%nat.
Proof.
  intros B. assert (Hsub : l ⊆+ seqZ 0 2000).
  { apply NoDup_submseteq; [apply B|]. intros j Hj. apply elem_of_seqZ.
    pose proof (blinks_range f l j B Hj). unfold BLINKS in *. lia. }
  apply submseteq_length in Hsub. by rewrite length_seqZ in Hsub.
Qed.

(** No blink at the program's start. *)
Lemma blinks_start v : blinks (mkFish (replicate (Z.to_nat BLINKS) zero_blink) None v) [].
Proof.
  constructor; cbn [blink_array mp1_list_head].
  - apply length_replicate.
  - constructor.
  - constructor.
  - intros i Hi. rewrite at_replicate by lia. set_solver.
  - set_solver.
Qed.

Section refinement.
Variables (fr : frame) (pa : Z) (fuel : nat).
Hypothesis Hfuel : (2000 < fuel)%nat.

Lemma perform_meets f l k r : blinks f l -> window (vmem_base_addr f) pa k -> request_ok r -> meets fr pa f l fuel k r.
Proof using Hfuel.
  intros B W Hr. pose proof (blinks_count f l B). destruct r.
  - apply add_meets; [done|lia|done..].
  - apply remove_meets; [done|lia|done].
  - apply sync_meets; [done|lia|done].
  - apply tick_meets; [done|lia|done].
Qed.

Lemma perform_all_ok f l k rs : blinks f l -> window (vmem_base_addr f) pa k -> Forall request_ok rs ->
  let '(vs, bs, ws) := spec_all rs (shown f l) in
  exists f', perform_all fr fuel rs f k = Ok (Returned (vs, f'), paint pa ws k) /\ refines f bs f'.
Proof using Hfuel.
  intros B W F. revert f l k B W. induction F as [|r rs Hr F IH]; intros f l k B W; simpl.
  - exists f. rewrite paint_nil. split; [done|]. split; [done|]. by exists l.
  - pose proof (perform_meets f l k r B W Hr) as M. unfold meets in M.
    destruct (spec_request r (shown f l)) as [[v bs] ws]. destruct M as (f1 & E1 & V1 & l1 & B1 & <-).
    specialize (IH f1 l1 (paint pa ws k) B1). rewrite V1 in IH. specialize (IH (window_paint _ _ _ _ W)).
    destruct (spec_all rs (shown f1 l1)) as [[vs bs] ws']. destruct IH as (f2 & E2 & V2 & l2 & B2 & S2).
    exists f2. split; [|split; [congruence|by exists l2]].
    by rewrite (kbind_eq _ _ _ _ _ E1), (kbind_eq _ _ _ _ _ E2), <- paint_app.
Qed.
End refinement.

(** * The blinking *)

(** What ends up at an offset of the screen that held [d]. *)
Definition cell (o : Z) (ws : list write) (d : Z) : Z :=
  foldl (fun d '(o', c) => if decide (o' = o) then u8 c else d) d ws.

Lemma get_paint pa o ws k : get (lib_mem (lib (paint pa ws k))) (pa + o) = cell o ws (get (lib_mem (lib k)) (pa + o)).
Proof.
  unfold paint, cell. simpl. generalize (lib_mem (lib k)). induction ws as [|[o' c] ws IH]; intros m; [done|].
  simpl. rewrite IH. f_equal. rewrite get_put. case_decide; case_decide; (done || lia).
Qed.
Lemma cell_app o ws ws' d : cell o (ws ++ ws') d = cell o ws' (cell o ws d).
Proof. unfold cell. by rewrite foldl_app. Qed.

(** Blinks elsewhere leave the place alone. *)
Lemma cell_others loc bs d : (forall b, b ∈ bs -> location b <> loc) -> cell (2 * loc) (concat (tick_writes <$> bs)) d = d.
Proof.
  intros H. induction bs as [|b bs IH]; [done|]. simpl. rewrite cell_app.
  assert (E : cell (2 * loc) (tick_writes b) d = d); [|rewrite E; apply IH; set_solver].
  unfold tick_writes. destruct (expired b); [|done]. simpl. rewrite decide_False; [done|].
  pose proof (H b ltac:(set_solver)). lia.
Qed.

Section phases.
Variable b : mp1_blink_struct.
Hypothesis (Hon : 0 < on_length b < 2 ^ 15) (Hoff : 0 < off_length b < 2 ^ 15).
Abbreviation period := (on_length b + off_length b).

(** The phase after [n] ticks: whether it is on, and how long still. *)
Definition phase (n : Z) : mp1_blink_struct :=
  let r := n mod period in
  if decide (r < on_length b) then set_phase (on_length b - r) 1 b else set_phase (period - r) 0 b.

Lemma tick_phase n : 0 <= n -> tick (phase n) = phase (n + 1).
Proof using Hon Hoff.
  intros Hn. unfold phase. pose proof (Z.mod_pos_bound n period ltac:(lia)) as Hr.
  assert (E : (n + 1) mod period = if decide (n mod period + 1 = period) then 0 else n mod period + 1).
  { rewrite <- Z.add_mod_idemp_l by lia. case_decide as Hc; [rewrite Hc; apply Z.mod_same; lia|apply Z.mod_small; lia]. }
  rewrite E. set (r := n mod period) in *.
  assert (Hu : forall z, 0 <= z < 2 ^ 15 -> u16 z = z /\ i16 z = z).
  { intros z Hz. split; [apply u16_id; lia|]. unfold i16. rewrite Z.mod_small; lia. }
  unfold tick, expired, is_on. destruct_decide (decide (r < on_length b)) as Hlt; cbn [countdown set_phase status].
  - destruct (Hu (on_length b - r - 1)) as [U1 U2]; [lia|]. rewrite U1, U2.
    case_bool_decide; (rewrite (decide_False (P := r + 1 = period)) by lia).
    + rewrite decide_False by lia. unfold set_phase. simpl. f_equal. lia.
    + rewrite decide_True by lia. unfold set_phase. simpl. f_equal. lia.
  - destruct (Hu (period - r - 1)) as [U1 U2]; [lia|]. rewrite U1, U2. case_bool_decide.
    + rewrite (decide_True (P := r + 1 = period)) by lia. rewrite decide_True by lia. unfold set_phase. simpl. f_equal. lia.
    + rewrite (decide_False (P := r + 1 = period)) by lia. rewrite decide_False by lia. unfold set_phase. simpl. f_equal. lia.
Qed.

Lemma is_on_tick x : is_on (tick x) = if expired x then negb (is_on x) else is_on x.
Proof using Type.
  unfold tick. destruct (expired x); [|done]. unfold is_on. cbn [status set_phase]. rewrite Z.lxor_spec.
  change (Z.testbit 1 0) with true. by destruct (Z.testbit (status x) 0).
Qed.

(** The character after [n] ticks. *)
Definition face (n : Z) : Z := u8 (if decide (n mod period < on_length b) then on_char b else off_char b).

Lemma face_phase n : face n = u8 (if is_on (phase n) then on_char b else off_char b).
Proof using Type. unfold face, phase. by case_decide. Qed.

Lemma tick_writes_face n : 0 <= n -> cell (2 * location b) (tick_writes (phase n)) (face n) = face (n + 1).
Proof using Hon Hoff.
  intros Hn. rewrite !face_phase, <- tick_phase, is_on_tick by done.
  assert (E : location (phase n) = location b /\ on_char (phase n) = on_char b /\ off_char (phase n) = off_char b)
    by (unfold phase; by case_decide).
  destruct E as (E1 & E2 & E3). unfold tick_writes. destruct (expired (phase n)); [|done].
  rewrite E1, E2, E3. simpl. rewrite decide_True by done. by destruct (is_on (phase n)).
Qed.

Lemma tick_writes_next n x : tick_writes (set_next n x) = tick_writes x.
Proof using Type. done. Qed.

Lemma ticks_cell n m bs : 0 <= m -> (forall x, x ∈ bs -> location x <> location b) ->
  cell (2 * location b) (spec_all (replicate n Tick) (set_next None (phase m) :: bs)).2 (face m) = face (m + Z.of_nat n).
Proof using Hon Hoff.
  revert m bs. induction n as [|n IH]; intros m bs Hm Hbs; simpl replicate; cbn [spec_all spec_request].
  - simpl. f_equal. lia.
  - cbn [fmap list_fmap]. rewrite tick_next, tick_phase by done.
    specialize (IH (m + 1) (tick <$> bs) ltac:(lia)). destruct (spec_all _ _) as [[vs bs'] ws]. cbn [snd] in *.
    cbn [concat]. rewrite tick_writes_next, !cell_app, tick_writes_face, cell_others by done. rewrite IH.
    + f_equal. lia.
    + intros x (y & -> & Hy)%list_elem_of_fmap. rewrite location_tick. by apply Hbs.
Qed.
End phases.

(** The character alternates. *)
(** C14: A character added at a free place of the screen alternates exactly:
    after any number n of ticks the screen holds its on character when n
    modulo (on_length + off_length) is below on_length and its off character
    otherwise; for a place above 0 and on the screen that no shown blink has,
    fewer than 2000 blinks, and both lengths above 0 and below 2^15, where the
    signed comparison of the countdown is the unsigned one. *)
Theorem blink_alternates fr fuel pa f l k b n :
  blinks f l -> window (vmem_base_addr f) pa k -> (length l < 2000)%nat -> (2000 < fuel)%nat ->
  0 < location b < BLINKS -> (forall x, x ∈ shown f l -> location x <> location b) ->
  0 < on_length b < 2 ^ 15 -> 0 < off_length b < 2 ^ 15 ->
  exists vs f' k', perform_all fr fuel (Add b :: replicate n Tick) f k = Ok (Returned (vs, f'), k') /\
    get (lib_mem (lib k')) (pa + 2 * location b) =
    u8 (if decide (Z.of_nat n mod (on_length b + off_length b) < on_length b) then on_char b else off_char b).
Proof.
  intros B W Hl Hf Hb Hu Hon Hoff. unfold BLINKS in Hb.
  pose proof (perform_all_ok fr pa fuel Hf f l k (Add b :: replicate n Tick) B W) as P.
  cbn [spec_all spec_request] in P. rewrite decide_False in P by (unfold shown, BLINKS; rewrite length_fmap; lia).
  assert (E0 : fresh b = set_next None (phase b 0)) by (unfold phase; rewrite Z.mod_0_l by lia; cbv zeta; by rewrite decide_True, Z.sub_0_r by lia).
  pose proof (ticks_cell b Hon Hoff n 0 (shown f l) ltac:(lia) Hu) as C. rewrite <- E0 in C.
  destruct (spec_all _ _) as [[vs bs] ws]. destruct P as (f' & E & _).
  { constructor; [simpl; lia|]. by apply Forall_replicate. }
  exists (0 :: vs), f', (paint pa ([(2 * location b, on_char b)] ++ ws) k). split; [done|].
  rewrite get_paint, cell_app. cbn [cell foldl]. rewrite decide_True by done. simpl in C.
  replace (u8 (on_char b)) with (face b 0); [exact C|].
  unfold face. by rewrite Z.mod_0_l, decide_True by lia.
Qed.

(** The three requests and the clock against the list of records. *)
(** C13: The linked blinks of blink.S implement a list of records, newest
    first: for any sequence of add, remove and sync requests and clock ticks
    (places other than 0), the values returned, the list afterwards and every
    byte written to the screen are those of the abstract operations, through
    any address the screen is mapped at; every call terminates. *)
Theorem fish_refines fr fuel pa f l k rs :
  blinks f l -> window (vmem_base_addr f) pa k -> Forall request_ok rs -> (2000 < fuel)%nat ->
  let '(vs, bs, ws) := spec_all rs (shown f l) in
  exists f', perform_all fr fuel rs f k = Ok (Returned (vs, f'), paint pa ws k) /\
    vmem_base_addr f' = vmem_base_addr f /\ exists l', blinks f' l' /\ shown f' l' = bs.
Proof. intros. by apply perform_all_ok. Qed.

(** * A blink at place 0 *)

(** The element is taken for free and the next request gets it again: the
    list then runs in a circle. *)
Record circle (i : Z) (f : fish_state) : Prop := {
  ci_range : 0 <= i < zlen (blink_array f);
  ci_next : next (at_ (blink_array f) i) = Some i;
  ci_screen : 0 <= location (at_ (blink_array f) i) < BLINKS;
}.

Lemma circle_spins fr pa i n f k : circle i f -> window (vmem_base_addr f) pa k -> mp1_list_head f = Some i ->
  mp1_rtc_tasklet fr n f k = NoFuel.
Proof.
  intros C W Hh. unfold mp1_rtc_tasklet. rewrite Hh. clear Hh. revert f k C W.
  induction n as [|n IH]; intros f k [Hi Hn Hs] W; [done|]. rewrite kloop_S.
  pose proof (tasklet_step_ok fr pa i f k Hi W Hs) as E. cbv zeta in E. rewrite Hn in E.
  rewrite (kbind_eq _ _ _ _ _ (kbind_eq _ _ _ _ _ E)). apply IH; [|by apply window_paint].
  constructor; simpl.
  - by rewrite length_upd.
  - rewrite at_upd_eq by done. by rewrite next_tick.
  - rewrite at_upd_eq by done. by rewrite location_tick.
Qed.

(** C15: The allocator takes an element at place 0 for free: after adding a
    blink at place 0 and another one, the list runs in a circle, both calls
    having returned 0, and the next tick never terminates. *)
Theorem add_zero_spins fr pa f l k b b' :
  blinks f l -> window (vmem_base_addr f) pa k -> (length l < 2000)%nat ->
  location b = 0 -> 0 <= location b' < BLINKS ->
  exists f', perform_all fr 0 [Add b; Add b'] f k =
      Ok (Returned ([0; 0], f'), paint pa [(0, on_char b); (2 * location b', on_char b')] k) /\
    forall n, mp1_rtc_tasklet fr n f' (paint pa [(0, on_char b); (2 * location b', on_char b')] k) = NoFuel.
Proof.
  intros B W Hl Hb Hb'. pose proof (bl_length _ _ B) as HL.
  destruct (malloc_first f HL) as (r & Em & Hr). destruct (malloc_ok f l 2001 B ltac:(lia)) as (r' & Em' & Hr').
  rewrite Em in Em'. injection Em' as <-. destruct r as [i|]; [|unfold BLINKS in *; lia].
  destruct Hr as (Hi & Hz & Hbefore). clear Hr'. assert (Hi' : 0 <= i < zlen (blink_array f)) by (unfold BLINKS in *; lia).
  pose proof (add_at fr pa f k b i HL W ltac:(unfold BLINKS; lia) Em Hi) as E1. rewrite Hb in E1.
  set (f1 := mkFish _ _ _) in E1. set (k1 := paint _ _ _) in E1.
  assert (HL1 : length (blink_array f1) = Z.to_nat BLINKS) by (simpl; by rewrite length_upd).
  assert (Em1 : mp1_malloc f1 = Ok (Some i)).
  { destruct (malloc_first f1 HL1) as (r & E & Hr1). rewrite E. f_equal.
    assert (Hfree : free_at (blink_array f1) i) by (unfold free_at; simpl; by rewrite at_upd_eq).
    destruct r as [j|]; [|by apply Hr1 in Hfree]. f_equal. destruct Hr1 as (Hj & Hzj & Hbj).
    destruct (Z.lt_trichotomy i j) as [Hlt|[->|Hlt]]; [by destruct (Hbj i); [lia|]|done|].
    exfalso. apply (Hbefore j); [lia|]. unfold free_at in *. simpl in Hzj. by rewrite at_upd_ne in Hzj by lia. }
  pose proof (add_at fr pa f1 k1 b' i HL1 (window_paint _ _ _ _ W) Hb' Em1 Hi) as E2.
  eexists. split.
  - cbn [perform_all perform]. rewrite (kbind_eq _ _ _ _ _ E1).
    erewrite kbind_eq by (erewrite kbind_eq by exact E2; reflexivity). reflexivity.
  - intros n. apply (circle_spins fr pa i); [|exact (window_paint _ _ _ _ W)|done]. constructor; simpl.
    + by rewrite !length_upd.
    + by rewrite at_upd_eq by (by rewrite length_upd).
    + rewrite at_upd_eq by (by rewrite length_upd). done.
Qed.
