(* ===== verification/EmulateSpec.v ===== *)
(** The emulated system calls: the argument vector ece391_execute makes of a
    command line, getargs as its inverse, and directories as the user
    programs read them. *)

From S2P Require Import Prelude CLib UserLib Emulate.

(** * Specifications *)

(** The words of a command line.  [cur] is the word being read; a newline
    ends a word as a blank does, and the line where none is being read. *)
Fixpoint words (cur : option (list Z)) (l : list Z) : list (list Z) :=
  match l, cur with
  | [], None => []
  | [], Some w => [w]
  | c :: l, None => if decide (c = 32) then words None l else if decide (c = 10) then [] else words (Some [c]) l
  | c :: l, Some w => if decide (ends_word c) then w :: words None l else words (Some (w ++ [c])) l
  end.

(** The argument vector of a command: the file is looked for in the
    working directory. *)
Definition arguments (command : list Z) : list (list Z) := words (Some (chars "./")) (cstr command).

Fixpoint with_blanks (ws : list (list Z)) : list Z :=
  match ws with
  | [] => []
  | [w] => w
  | w :: ws => w ++ 32 :: with_blanks ws
  end.

(** The string [w] lies, with its NUL, at offset [a] of [buf]. *)
Definition placed (buf : list Z) (a : Z) (w : list Z) : Prop :=
  exists p q, buf = p ++ w ++ 0 :: q /\ a = zlen p.

(** The arguments found: at most [room] of them. *)
Definition parsed (o : outcome (Z * list Z * list Z)) (args : list Z) (room : Z) (ws : list (list Z)) : Prop :=
  exists m args' buf', o = Ok (m, args', buf') /\ length args' = length args /\ 0 <= m <= room /\
    Forall2 (placed buf') (take (Z.to_nat m) args') ws.

(** The names a directory stream still gives. *)
Inductive streams {D H} (readdir : D -> H -> option (list Z) * D * H) : D -> H -> list (list Z) -> Prop :=
| streams_end d h d' h' : readdir d h = (None, d', h') -> streams readdir d h []
| streams_name d h name d' h' names : readdir d h = (Some name, d', h') ->
    streams readdir d' h' names -> streams readdir d h (name :: names).

Lemma with_blanks_cons w w' ws : with_blanks (w :: w' :: ws) = w ++ 32 :: with_blanks (w' :: ws).
Proof. done. Qed.
Arguments with_blanks : simpl never.

(** * Words *)

Lemma span (P : Z -> Prop) `{forall c, Decision (P c)} l : exists a b, l = a ++ b /\ Forall P a /\
  (b = [] \/ exists c b', b = c :: b' /\ ~ P c).
Proof.
  induction l as [|c l (a & b & -> & Ha & Hb)]; [exists [], []; auto|].
  destruct (decide (P c)); [exists (c :: a), b|exists [], (c :: a ++ b)]; naive_solver.
Qed.

Lemma words_blanks n l : words None (replicate n 32 ++ l) = words None l.
Proof. by induction n. Qed.

Lemma words_word w w' l : Forall (fun c => ~ ends_word c) w' ->
  words (Some w) (w' ++ l) = words (Some (w ++ w')) l.
Proof.
  intros H. revert w. induction H as [|c w' Hc _ IH]; intros w; simpl; [by rewrite app_nil_r|].
  rewrite decide_False by done. by rewrite IH, <- app_assoc.
Qed.

Lemma words_start c w l : ~ ends_word c -> Forall (fun c => ~ ends_word c) w ->
  words None (c :: w ++ l) = words (Some (c :: w)) l.
Proof.
  unfold ends_word. intros Hc Hw. simpl. rewrite !decide_False by lia.
  by rewrite words_word.
Qed.

Lemma words_nonul cur l : 0 ∉ l -> from_option (fun w => 0 ∉ w) True cur ->
  Forall (fun w => 0 ∉ w) (words cur l).
Proof.
  revert cur. induction l as [|c l IH]; intros [w|]; simpl; [by constructor|by constructor|..];
    intros [H0 Hl]%not_elem_of_cons Hc; repeat case_decide; try by constructor.
  - constructor; [done|by apply IH].
  - apply IH; [done|]. simpl. set_solver.
  - by apply IH.
  - apply IH; [done|]. simpl. set_solver.
Qed.

Lemma words_some w l : words (Some w) l <> [].
Proof. revert w. induction l as [|c l IH]; intros w; simpl; [done|]. by case_decide. Qed.

(** A line with single blanks between its words is their list. *)
Lemma words_with_blanks ws w0 : Forall (fun w => Forall (fun c => ~ ends_word c) w /\ w <> []) ws ->
  words (Some w0) (match ws with [] => [] | _ => 32 :: with_blanks ws end) = w0 :: ws.
Proof.
  revert w0. induction ws as [|w ws IH]; intros w0 HF; [done|].
  apply Forall_cons in HF as [[Hw Hne] HF]. 
  change (words (Some w0) (32 :: with_blanks (w :: ws))) with (w0 :: words None (with_blanks (w :: ws))). f_equal.
  destruct w as [|c w]; [done|]. apply Forall_cons in Hw as [Hc Hw]. specialize (IH (c :: w) HF).
  destruct ws as [|w' ws].
  - change (with_blanks [c :: w]) with (c :: w). rewrite <- (app_nil_r w) at 1. by rewrite words_start.
  - rewrite with_blanks_cons. simpl app. by rewrite words_start.
Qed.

Lemma words_end w e l : ends_word e -> words (Some w) (e :: l) = w :: words None l.
Proof. intros He. simpl. by rewrite decide_True. Qed.
Arguments words : simpl never.

(** * Strings in place *)

Lemma placed_app buf q a w : placed buf a w -> placed (buf ++ q) a w.
Proof. intros (p & r & -> & ->). exists p, (r ++ q). by rewrite <- !app_assoc. Qed.

Lemma placed_here p w q : placed (p ++ w ++ 0 :: q) (zlen p) w.
Proof. by exists p, q. Qed.

Lemma placed_cstr buf a w : placed buf a w -> 0 ∉ w -> cstr (drop (Z.to_nat a) buf) = w.
Proof.
  intros (p & q & -> & ->) Hw. rewrite Nat2Z.id, drop_app_length. by apply cstr_app.
Qed.

Lemma at_here {A} `{Inhabited A} (p : list A) c q : at_ (p ++ c :: q) (zlen p) = c.
Proof. rewrite at_app, decide_False, Z.sub_diag by lia. done. Qed.

Lemma rd_here {A} `{Inhabited A} (p : list A) c q : rd (p ++ c :: q) (zlen p) = Ok c.
Proof. rewrite rd_ok by (rewrite length_app; simpl; lia). by rewrite at_here. Qed.

Lemma wr_here (p : list Z) c x q : wr (p ++ c :: q) (zlen p) x = Ok (p ++ x :: q).
Proof.
  rewrite wr_ok by (rewrite length_app; simpl; lia). by rewrite upd_app_cons, <- app_assoc.
Qed.

(** Loops that look for the first character of a kind. *)
Lemma skip_ok (stop : Z -> Prop) `{forall c, Decision (stop c)} body fuel p w c q :
  (forall scan x, rd (p ++ w ++ c :: q) scan = Ok x ->
     body scan = Ok (if decide (stop x) then inr scan else inl (scan + 1))) ->
  Forall (fun c => ~ stop c) w -> stop c -> (length w < fuel)%nat ->
  loop fuel body (zlen p) = Ok (zlen p + zlen w).
Proof.
  intros Hb Hw Hc. revert p fuel Hb. induction Hw as [|x w Hx _ IH]; intros p [|fuel] Hb Hf;
    simpl in *; try lia; rewrite loop_S, (Hb _ _ (rd_here _ _ _)); simpl.
  - rewrite decide_True by done. f_equal. lia.
  - rewrite decide_False by done. specialize (IH (p ++ [x]) fuel).
    rewrite <- app_assoc, length_app in IH. simpl in IH.
    replace (zlen p + 1) with (Z.of_nat (length p + 1)) by lia. rewrite IH by (done || lia). f_equal. lia.
Qed.

Lemma skip_word_ok p w c q : Forall (fun c => ~ ends_word c) w -> ends_word c ->
  skip_word (p ++ w ++ c :: q) (zlen p) = Ok (zlen p + zlen w).
Proof.
  intros. apply (skip_ok ends_word _ _ p w c q); [|done..|rewrite !length_app; lia].
  by intros scan x ->.
Qed.

Lemma skip_blanks_ok p n c q : c <> 32 ->
  skip_blanks (p ++ replicate n 32 ++ c :: q) (zlen p) = Ok (zlen p + Z.of_nat n).
Proof.
  intros Hc. rewrite <- (length_replicate n 32) at 2.
  apply (skip_ok (fun c => c <> 32) _ _ p _ c q); [|apply Forall_replicate; lia|done|rewrite !length_app; lia].
  intros scan x ->. simpl. destruct (decide (x = 32)); [by rewrite decide_False by auto|by rewrite decide_True].
Qed.

Lemma cstr_split s : 0 ∈ s -> exists t, s = cstr s ++ 0 :: t.
Proof.
  induction s as [|c s IH]; intros H0; [by apply not_elem_of_nil in H0|]. simpl. case_decide as Hc.
  - exists s. by subst.
  - apply elem_of_cons in H0 as [?|H0]; [congruence|]. destruct (IH H0) as [t Et]. exists t. simpl. congruence.
Qed.

Lemma strcpy_ok p r s : 0 ∈ s -> zlen (cstr s) < zlen r ->
  Emulate.ece391_strcpy (p ++ r) (zlen p) s = Ok (p ++ cstr s ++ 0 :: drop (Datatypes.S (length (cstr s))) r).
Proof.
  intros H0. pose proof (cstr_idem s) as Hw. destruct (cstr_split s H0) as [t Et]. revert Hw Et.
  generalize (cstr s) as w. intros w Hw -> Hr. unfold Emulate.ece391_strcpy.
  assert (G : forall w2 fuel w1 p' r', 0 ∉ w2 -> zlen w2 < zlen r' -> (length w2 < fuel)%nat ->
    zlen p' = zlen p + zlen w1 ->
    loop fuel (fun '(i, a) => c ← rd (w1 ++ w2 ++ 0 :: t) i; a ← wr a (zlen p + i) c;
      mret (if decide (c <> 0) then inl (i + 1, a) else inr a)) (zlen w1, p' ++ r')
    = Ok (p' ++ w2 ++ 0 :: drop (Datatypes.S (length w2)) r')).
  { clear. induction w2 as [|c w2 IH]; intros [|fuel] w1 p' [|y r'] H0 Hr Hf Hp; simpl in *; try lia;
      rewrite loop_S, rd_here; simpl; rewrite <- Hp, wr_here; simpl; [done|].
    apply not_elem_of_cons in H0 as [Hc H0]. rewrite decide_True by done.
    specialize (IH fuel (w1 ++ [c]) (p' ++ [c]) r'). rewrite <- !app_assoc, !length_app in IH. simpl in IH.
    replace (zlen w1 + 1) with (Z.of_nat (length w1 + 1)) by lia. apply IH; [done|lia..]. }
  apply (G w _ [] p r); [done..| |simpl; lia]. rewrite length_app. simpl. lia.
Qed.

(** * ece391_execute *)

(** A round at the end of the line. *)
Lemma next_argument_end n args p k c q : c = 0 \/ c = 10 ->
  next_argument (n, args, p ++ replicate k 32 ++ c :: q, zlen p)
  = Ok (inr (n, args, (p ++ replicate k 32) ++ 0 :: q)).
Proof.
  intros Hc. unfold next_argument. rewrite skip_blanks_ok by lia. simpl.
  rewrite app_assoc. replace (zlen p + Z.of_nat k) with (zlen (p ++ replicate k 32)) by clia.
  rewrite rd_here. simpl. by rewrite decide_True, wr_here by done.
Qed.

(** A round that finds a word, ended by [e]. *)
Lemma next_argument_word n args p k c w e q :
  ~ ends_word c -> Forall (fun c => ~ ends_word c) w -> ends_word e -> 0 <= n < zlen args ->
  let p' := p ++ replicate k 32 in
  next_argument (n, args, p ++ replicate k 32 ++ (c :: w) ++ e :: q, zlen p)
  = Ok (inl (n + 1, upd args n (zlen p'), p' ++ (c :: w) ++ 0 :: q,
      zlen (p' ++ c :: w) + if decide (e = 0) then 0 else 1)).
Proof.
  intros Hc Hw He Hn p'. unfold next_argument. unfold ends_word in Hc. change ((c :: w) ++ e :: q) with (c :: w ++ e :: q).
  rewrite skip_blanks_ok by lia. simpl. rewrite app_assoc. fold p'.
  replace (zlen p + Z.of_nat k) with (zlen p') by (subst p'; clia).
  rewrite rd_here. simpl. rewrite decide_False by lia. rewrite wr_ok by done. simpl.
  pose proof (skip_word_ok p' (c :: w) e q) as E. simpl app in E. rewrite E; [|by constructor|done].
  simpl. clear E. replace (zlen p' + Z.of_nat (Datatypes.S (length w))) with (zlen (p' ++ c :: w)) by (clen; simpl; lia).
  change (c :: w ++ e :: q) with ((c :: w) ++ e :: q). rewrite (app_assoc p').
  rewrite rd_here. simpl. destruct (decide (e = 0)) as [->|He0].
  - rewrite decide_False by auto. rewrite Z.add_0_r. simpl. by rewrite <- app_assoc.
  - rewrite decide_True by done. rewrite wr_here. simpl. by rewrite <- app_assoc.
Qed.

Lemma placed_take buf args n a ws w : 0 <= n < zlen args ->
  Forall2 (placed buf) (take (Z.to_nat n) args) ws -> placed buf a w ->
  Forall2 (placed buf) (take (Z.to_nat (n + 1)) (upd args n a)) (ws ++ [w]).
Proof.
  intros Hn HF Hw. replace (Z.to_nat (n + 1)) with (Datatypes.S (Z.to_nat n)) by lia.
  rewrite (take_S_r _ _ a) by (apply list_lookup_insert_eq; lia).
  unfold upd. rewrite take_insert_ge by lia. apply Forall2_app; [done|by repeat constructor].
Qed.

(** From [scan] on: [rest] is what is left of the command, [args] has the
    words before it. *)
Section parse.
Variable junk : list Z.

Lemma parse_loop_end fuel p k c q args n ws room : c = 0 \/ c = 10 -> (0 < fuel)%nat -> 0 <= n <= room ->
  Forall2 (placed (p ++ replicate k 32 ++ [0])) (take (Z.to_nat n) args) ws ->
  parsed (loop fuel next_argument (n, args, p ++ replicate k 32 ++ c :: q, zlen p)) args room ws.
Proof using Type.
  destruct fuel as [|fuel]; [lia|]. intros Hc _ Hn HF.
  rewrite loop_S, next_argument_end by done. eexists _, _, _. split; [done|]. split; [done|]. split; [done|].
  eapply Forall2_impl; [exact HF|]. intros a w Hw. apply (placed_app _ q) in Hw.
  by rewrite <- !app_assoc in *.
Qed.

Lemma parse_loop len : forall rest fuel p args n ws,
  (length rest <= len)%nat -> (len < fuel)%nat ->
  0 ∉ rest -> 0 <= n -> n + zlen rest < zlen args ->
  Forall2 (placed p) (take (Z.to_nat n) args) ws ->
  parsed (loop fuel next_argument (n, args, p ++ rest ++ 0 :: junk, zlen p)) args (n + zlen rest)
    (ws ++ words None rest).
Proof using Type.
  induction len as [len IH] using (well_founded_induction lt_wf). intros rest fuel p args n ws Hl Hf H0 Hn Hr HF.
  destruct (span (fun c => 32 = c) rest) as (b & t & -> & Hb & Ht).
  pose proof (proj2 (replicate_as_Forall 32 (length b) b) (conj eq_refl Hb)) as Eb.
  rewrite <- Eb in *. clear Eb Hb. generalize dependent (length b). clear b. intros k Hl H0 Hr.
  rewrite words_blanks, <- !app_assoc.
  assert (HF' : forall q, Forall2 (placed (p ++ q)) (take (Z.to_nat n) args) ws).
  { intros q. eapply Forall2_impl; [exact HF|]. intros. by apply placed_app. }
  destruct Ht as [->|(c & t' & -> & Hc)]; simpl app.
  { change (words None []) with (@nil (list Z)). rewrite !app_nil_r in *. apply parse_loop_end; [by left|lia|lia|apply HF']. }
  destruct (decide (c = 10)) as [->|Hc10].
  { replace (words None (10 :: t')) with (@nil (list Z)) by done. rewrite app_nil_r.
    apply parse_loop_end; [by right|lia|lia|apply HF']. }
  rewrite elem_of_app, elem_of_cons in H0. assert (Hce : ~ ends_word c) by (unfold ends_word; naive_solver).
  destruct (span (fun c => ~ ends_word c) t') as (w & t2 & -> & Hw & Ht2).
  rewrite words_start by done. rewrite !length_app in Hl, Hr. simpl in Hl, Hr. rewrite length_app in Hl, Hr.
  rewrite length_replicate in Hl, Hr.
  destruct fuel as [|fuel]; [lia|]. rewrite loop_S.
  rewrite elem_of_app in H0.
  destruct Ht2 as [->|(e & t3 & -> & He)].
  - change ((c :: w ++ []) ++ 0 :: junk) with (c :: (w ++ []) ++ 0 :: junk). rewrite app_nil_r.
    change (c :: w ++ 0 :: junk) with ((c :: w) ++ 0 :: junk).
    erewrite ok_bind by (apply next_argument_word; [done|done|by left|lia]). cbv iota.
    rewrite decide_True, Z.add_0_r by done. rewrite (app_assoc (p ++ _) (c :: w)).
    assert (Hp : placed ((p ++ replicate k 32) ++ (c :: w) ++ [0]) (zlen (p ++ replicate k 32)) (c :: w)) by apply placed_here.
    destruct (parse_loop_end fuel ((p ++ replicate k 32) ++ c :: w) 0 0 junk (upd args n (zlen (p ++ replicate k 32)))
      (n + 1) (ws ++ [c :: w]) (n + zlen (replicate k 32 ++ c :: w))) as (m & args' & buf' & E & La & Hm & F).
    + by left.
    + lia.
    + clen. simpl. lia.
    + apply placed_take; [lia| |by rewrite <- (app_assoc _ (c :: w))].
      specialize (HF' (replicate k 32 ++ (c :: w) ++ [0])). simpl in *. by rewrite <- !app_assoc in *.
    + exists m, args', buf'. rewrite length_upd in La. by split.
  - assert (Hee : ends_word e) by (by destruct (decide (ends_word e))).
    assert (He0 : e <> 0) by (intros ->; apply H0; right; right; right; left).
    assert (H3 : 0 ∉ t3) by (intros ?; apply H0; right; right; right; by right).
    replace (c :: (w ++ e :: t3) ++ 0 :: junk) with ((c :: w) ++ e :: (t3 ++ 0 :: junk)) by (simpl; by rewrite <- app_assoc).
    erewrite ok_bind by (apply (next_argument_word _ _ _ _ c w e); [exact Hce|exact Hw|exact Hee|lia]). cbv iota.
    rewrite (decide_False _ _ He0), (words_end _ _ _ Hee).
    replace (zlen ((p ++ replicate k 32) ++ c :: w) + 1) with (zlen ((p ++ replicate k 32) ++ (c :: w) ++ [0]))
      by (clen; simpl; lia).
    replace ((p ++ replicate k 32) ++ (c :: w) ++ 0 :: t3 ++ 0 :: junk)
      with (((p ++ replicate k 32) ++ (c :: w) ++ [0]) ++ t3 ++ 0 :: junk) by (simpl; rewrite <- !app_assoc; simpl; by rewrite <- app_assoc).
    destruct (IH (length t3) ltac:(simpl in Hl; lia) t3 fuel ((p ++ replicate k 32) ++ (c :: w) ++ [0])
      (upd args n (zlen (p ++ replicate k 32))) (n + 1) (ws ++ [c :: w])) as (m & args' & buf' & E & La & Hm & F).
    + lia.
    + simpl in Hl. lia.
    + done.
    + lia.
    + rewrite length_upd. simpl in Hr. lia.
    + apply placed_take; [lia| |apply placed_here]. rewrite <- app_assoc. apply HF'.
    + exists m, args', buf'. rewrite length_upd in La. split; [done|]. split; [done|].
      split; [clen; simpl in *; clen; simpl in *; lia|]. by rewrite <- app_assoc in F.
Qed.
End parse.

Lemma ends_word_0 : ends_word 0.
Proof. by left. Qed.

Lemma strcpy_at (p r : list Z) s : 0 ∈ s -> zlen (cstr s) < zlen r -> forall n, n = zlen p ->
  Emulate.ece391_strcpy (p ++ r) n s = Ok (p ++ cstr s ++ 0 :: drop (Datatypes.S (length (cstr s))) r).
Proof. intros. subst. by apply strcpy_ok. Qed.

Lemma split_command_ok buf args command :
  zlen buf = 1026 -> zlen args = 1024 -> 0 ∈ command -> zlen (cstr command) <= 1023 ->
  exists argv buf', split_command buf args command = Ok (argv, buf') /\
    Forall2 (placed buf') argv (arguments command).
Proof.
  intros Hb Ha H0 Hl. destruct buf as [|b0 [|b1 r]]; simpl in Hb; [lia..|].
  destruct args as [|a0 args]; simpl in Ha; [lia|].
  unfold split_command, arguments.
  erewrite ok_bind by apply (wr_here [] b0). erewrite ok_bind by apply (wr_here [46] b1).
  erewrite ok_bind by (apply (strcpy_at [46; 47] r command H0); [lia|done]).
  pose proof (cstr_idem command) as Hn.
  destruct (span (fun c => ~ ends_word c) (cstr command)) as (w & t & Ec & Hw & Ht). rewrite Ec in *.
  rewrite words_word by done. generalize (drop (Datatypes.S (length (w ++ t))) r) as junk. intros junk.
  rewrite elem_of_app in Hn. rewrite length_app in Hl.
  destruct Ht as [->|(e & t' & -> & He)].
  - rewrite app_nil_r. erewrite ok_bind by (apply (skip_word_ok [46; 47] w 0); [exact Hw|exact ends_word_0]).
    erewrite ok_bind by apply (wr_here [] a0).
    replace (zlen [46; 47] + zlen w) with (zlen ([46; 47] ++ w)) by (rewrite length_app; simpl; lia).
    rewrite app_assoc, rd_here. simpl. eexists _, _. split; [by rewrite decide_True by lia|].
    repeat constructor. apply (placed_here [] (46 :: 47 :: w)).
  - assert (Hee : ends_word e) by (by destruct (decide (ends_word e))).
    assert (He0 : e <> 0) by (intros ->; apply Hn; right; left).
    rewrite (words_end _ _ _ Hee). rewrite <- app_assoc. simpl ((e :: t') ++ _).
    erewrite ok_bind by (apply (skip_word_ok [46; 47] w e); [exact Hw|exact Hee]).
    erewrite ok_bind by apply (wr_here [] a0).
    replace (zlen [46; 47] + zlen w) with (zlen ([46; 47] ++ w)) by (rewrite length_app; simpl; lia).
    rewrite app_assoc, rd_here. erewrite ok_bind by done. rewrite (decide_True _ _ He0), wr_here.
    erewrite (ok_bind (Ok _)) by done.
    replace (([46; 47] ++ w) ++ 0 :: t' ++ 0 :: junk) with ((([46; 47] ++ w) ++ [0]) ++ t' ++ 0 :: junk)
      by (by rewrite <- (app_assoc (_ ++ _))).
    replace (zlen ([46; 47] ++ w) + 1) with (zlen (([46; 47] ++ w) ++ [0])) by (clen; simpl; lia).
    destruct (parse_loop junk (length t') t' (Datatypes.S (length ((([46; 47] ++ w) ++ [0]) ++ t' ++ 0 :: junk)))
      (([46; 47] ++ w) ++ [0]) ([] ++ 0 :: args) 1 [chars "./" ++ w]) as (m & args' & buf' & E & La & Hm & F).
    + done.
    + rewrite !length_app. lia.
    + intros Hin. apply Hn. right. by right.
    + lia.
    + simpl in *. lia.
    + repeat constructor. apply (placed_here [] (chars "./" ++ w)).
    + unfold parse_arguments. rewrite E. simpl. eexists _, _. split; [|exact F].
      apply decide_True. simpl in *. lia.
Qed.

(** The command line the program is run with. *)
Lemma execute_runs run buf args command :
  zlen buf = 1026 -> zlen args = 1024 -> 0 ∈ command -> zlen command < 2 ^ 31 -> zlen (cstr command) <= 1023 ->
  Emulate.ece391_execute run buf args command = Ok (wait_result (run (arguments command))).
Proof.
  intros Hb Ha H0 H31 Hl. unfold Emulate.ece391_execute. rewrite ece391_strlen_ok by done. simpl.
  rewrite decide_False by lia.
  destruct (split_command_ok buf args command Hb Ha H0 Hl) as (argv & buf' & -> & F). simpl. do 3 f_equal.
  assert (N : Forall (fun w => 0 ∉ w) (arguments command)).
  { apply words_nonul; [apply cstr_idem|]. by apply (bool_decide_unpack _). }
  clear -F N. induction F as [|a w argv ws Hp _ IH]; [done|]. apply Forall_cons in N as [Hw N].
  simpl. f_equal; [by apply placed_cstr|by apply IH].
Qed.

Lemma execute_too_long run buf args command :
  0 ∈ command -> zlen command < 2 ^ 31 -> 1023 < zlen (cstr command) ->
  Emulate.ece391_execute run buf args command = Ok (-1).
Proof.
  intros. unfold Emulate.ece391_execute. rewrite ece391_strlen_ok by done. simpl. by rewrite decide_True.
Qed.

(** * ece391_getargs *)

(** A string as the process finds it in memory. *)
Abbreviation asciiz w := (w ++ [0]).

Lemma asciiz_nul w : 0 ∈ asciiz w.
Proof. apply elem_of_app. right. by apply list_elem_of_singleton. Qed.
Lemma cstr_asciiz w : 0 ∉ w -> cstr (asciiz w) = w.
Proof. apply (cstr_app w []). Qed.

Section getargs.
Variables (prog : list (list Z)) (n0 : Z).
Hypothesis n0_int : n0 < 2 ^ 31 - 1.

Lemma strlen_asciiz w : 0 ∉ w -> zlen w <= n0 -> ece391_strlen (asciiz w) = Ok (zlen w).
Proof using n0_int.
  intros. rewrite ece391_strlen_ok; [by rewrite cstr_asciiz|apply asciiz_nul|clen; simpl; lia].
Qed.

(** Arguments that fit are joined with blanks, the last one ended by a NUL. *)
Lemma copy_loop_ok ws : forall w fuel before p r n,
  Forall (fun w => 0 ∉ w) (w :: ws) -> (length ws < fuel)%nat ->
  zlen (with_blanks (w :: ws)) < n <= n0 -> n <= zlen r ->
  let argv := before ++ ((fun w => asciiz w) <$> w :: ws) in
  let out := with_blanks (w :: ws) in
  loop fuel (next_copy argv) (zlen before, zlen p, p ++ r, n)
  = Ok (inr (zlen (p ++ out), p ++ out ++ 0 :: drop (Datatypes.S (length out)) r, n - zlen out)).
Proof using n0_int.
  induction ws as [|w' ws IH]; intros w [|fuel] before p r n N Hf Hn Hr argv out; fold out in Hn; simpl in Hf; try lia;
    apply Forall_cons in N as [Hw N].
  - assert (Eo : out = w) by done. assert (zlen w = zlen out) by (by rewrite Eo). rewrite loop_S. unfold next_copy at 2. subst argv. simpl fmap.
    rewrite decide_True by (rewrite length_app; simpl; lia). rewrite rd_here. simpl.
    rewrite strlen_asciiz by (done || lia). simpl. rewrite i32_id by lia. rewrite decide_False by lia.
    rewrite strcpy_at by (apply asciiz_nul || done || (rewrite cstr_asciiz by done; lia)). simpl.
    rewrite cstr_asciiz by done. rewrite decide_True by (rewrite length_app; simpl; lia).
    rewrite Eo. by rewrite length_app, Nat2Z.inj_add.
  - rewrite loop_S. unfold next_copy at 2. subst argv. simpl fmap.
    rewrite decide_True by (rewrite length_app; simpl; lia). rewrite rd_here. simpl.
    assert (Eo : out = w ++ 32 :: with_blanks (w' :: ws)) by done.
    assert (Ho : zlen out = zlen w + 1 + zlen (with_blanks (w' :: ws))) by (rewrite Eo, length_app; simpl; lia).
    rewrite strlen_asciiz by (done || lia). simpl. rewrite i32_id by lia. rewrite decide_False by lia.
    rewrite strcpy_at by (apply asciiz_nul || done || (rewrite cstr_asciiz by done; lia)). simpl.
    rewrite cstr_asciiz by done. rewrite decide_False by (rewrite length_app; simpl; lia).
    rewrite decide_False by lia. replace (zlen p + zlen w) with (zlen (p ++ w)) by (clen; lia).
    rewrite app_assoc, wr_here. simpl.
    replace (zlen before + 1) with (zlen (before ++ [asciiz w])) by (clen; simpl; lia).
    replace (zlen (p ++ w) + 1) with (zlen (p ++ w ++ [32])) by (clen; simpl; lia).
    replace ((p ++ w) ++ 32 :: drop (Datatypes.S (length w)) r) with ((p ++ w ++ [32]) ++ drop (Datatypes.S (length w)) r)
      by (by rewrite <- !app_assoc).
    specialize (IH w' fuel (before ++ [asciiz w]) (p ++ w ++ [32]) (drop (Datatypes.S (length w)) r) (n - zlen w - 1)).
    simpl fmap in IH. rewrite <- (app_assoc before) in IH. cbv zeta in IH. simpl app in IH |- *. rewrite IH.
    + clear IH. rewrite Eo. clear. generalize (with_blanks (w' :: ws)). intros wb.
      do 3 f_equal; [f_equal|].
      * clen. simpl. lia.
      * rewrite <- !app_assoc, drop_drop. simpl. do 6 f_equal. clen. simpl. lia.
      * clen. simpl. lia.
    + done.
    + lia.
    + lia.
    + clen. lia.
Qed.

Lemma fault_bind {A B} (m : outcome A) (f : A -> outcome B) : m = Fault -> m ≫= f = Fault.
Proof using Type. by intros ->. Qed.

(** strcpy writes the NUL past an array the string fills. *)
Lemma strcpy_full (p r : list Z) s n : 0 ∈ s -> zlen (cstr s) = zlen r -> n = zlen p ->
  Emulate.ece391_strcpy (p ++ r) n s = Fault.
Proof using Type.
  intros H0 Hr ->. pose proof (cstr_idem s) as Hw. destruct (cstr_split s H0) as [t Et]. revert Hr Hw Et.
  generalize (cstr s) as w. intros w Hr Hw ->. unfold Emulate.ece391_strcpy.
  assert (G : forall w2 fuel w1 p' r', 0 ∉ w2 -> zlen w2 = zlen r' -> (length w2 < fuel)%nat ->
    zlen p' = zlen p + zlen w1 ->
    loop fuel (fun '(i, a) => c ← rd (w1 ++ w2 ++ 0 :: t) i; a ← wr a (zlen p + i) c;
      mret (if decide (c <> 0) then inl (i + 1, a) else inr a)) (zlen w1, p' ++ r') = Fault).
  { clear. induction w2 as [|c w2 IH]; intros [|fuel] w1 p' [|y r'] H0 Hr Hf Hp; simpl in *; try lia;
      rewrite loop_S, rd_here; simpl; rewrite <- Hp.
    - by rewrite app_nil_r, wr_fault by lia.
    - rewrite wr_here. simpl. apply not_elem_of_cons in H0 as [Hc H0]. rewrite decide_True by done.
      specialize (IH fuel (w1 ++ [c]) (p' ++ [c]) r'). rewrite <- !app_assoc, !length_app in IH. simpl in IH.
      replace (zlen w1 + 1) with (Z.of_nat (length w1 + 1)) by lia. apply IH; [done|lia..]. }
  apply (G w _ [] p r); [done..| |simpl; lia]. rewrite length_app. simpl. lia.
Qed.

Lemma copy_loop_full ws : forall w fuel before p r n,
  Forall (fun w => 0 ∉ w) (w :: ws) -> (length ws < fuel)%nat ->
  zlen (with_blanks (w :: ws)) = n -> n <= n0 -> n = zlen r ->
  loop fuel (next_copy (before ++ ((fun w => asciiz w) <$> w :: ws))) (zlen before, zlen p, p ++ r, n) = Fault.
Proof using n0_int.
  induction ws as [|w' ws IH]; intros w [|fuel] before p r n N Hf Hn Hn0 Hr; simpl in Hf; try lia;
    apply Forall_cons in N as [Hw N]; rewrite loop_S; unfold next_copy at 2; simpl fmap;
    (rewrite decide_True by (rewrite length_app; simpl; lia)); rewrite rd_here; simpl.
  - assert (zlen w = n) by done.
    rewrite strlen_asciiz by (done || lia). simpl. rewrite i32_id by lia. rewrite decide_False by lia.
    by rewrite strcpy_full by (apply asciiz_nul || done || (rewrite cstr_asciiz by done; lia)).
  - rewrite with_blanks_cons, length_app in Hn. simpl in Hn.
    rewrite strlen_asciiz by (done || lia). simpl. rewrite i32_id by lia. rewrite decide_False by lia.
    rewrite strcpy_at by (apply asciiz_nul || done || (rewrite cstr_asciiz by done; lia)). simpl.
    rewrite cstr_asciiz by done. rewrite decide_False by (rewrite length_app; simpl; lia).
    rewrite decide_False by lia. replace (zlen p + zlen w) with (zlen (p ++ w)) by (clen; lia).
    rewrite app_assoc, wr_here. simpl.
    replace (zlen before + 1) with (zlen (before ++ [asciiz w])) by (clen; simpl; lia).
    replace (zlen (p ++ w) + 1) with (zlen (p ++ w ++ [32])) by (clen; simpl; lia).
    replace ((p ++ w) ++ 32 :: drop (Datatypes.S (length w)) r) with ((p ++ w ++ [32]) ++ drop (Datatypes.S (length w)) r)
      by (by rewrite <- !app_assoc).
    specialize (IH w' fuel (before ++ [asciiz w]) (p ++ w ++ [32]) (drop (Datatypes.S (length w)) r) (n - zlen w - 1)).
    simpl fmap in IH. rewrite <- (app_assoc before) in IH. simpl app in IH |- *. apply IH; [done|lia..|clen; lia].
Qed.
End getargs.

Lemma getargs_fits prog ws b n :
  Forall (fun w => 0 ∉ w) ws -> zlen (with_blanks ws) < n <= zlen b -> n < 2 ^ 31 - 1 ->
  Emulate.ece391_getargs ((fun w => asciiz w) <$> prog :: ws) b n
  = Ok (0, with_blanks ws ++ 0 :: drop (Datatypes.S (length (with_blanks ws))) b).
Proof.
  intros N Hn Hb. unfold Emulate.ece391_getargs. destruct ws as [|w ws].
  - change (with_blanks []) with (@nil Z) in *. destruct b as [|c b]; simpl in Hn; [lia|].
    simpl. rewrite decide_False by lia. done.
  - erewrite ok_bind by (apply (copy_loop_ok n ltac:(lia) ws w _ [asciiz prog] [] b n);
      [done|simpl; rewrite length_fmap; lia|lia|lia]).
    cbv iota. rewrite decide_False by lia. simpl app. by rewrite wr_here.
Qed.

(** Arguments of exactly [n] bytes: the length test lets them through and
    their NUL goes past the buffer. *)
(** C29: The emulated getargs writes one byte past its buffer: arguments that
    fill the buffer exactly pass the length test of every word, and strcpy
    puts the NUL of the last one past the end. *)
Lemma getargs_overrun prog w ws b :
  Forall (fun w => 0 ∉ w) (w :: ws) -> zlen (with_blanks (w :: ws)) = zlen b -> zlen b < 2 ^ 31 - 1 ->
  Emulate.ece391_getargs ((fun w => asciiz w) <$> prog :: w :: ws) b (zlen b) = Fault.
Proof.
  intros N Hn Hb. unfold Emulate.ece391_getargs.
  apply fault_bind, (copy_loop_full (zlen b) Hb ws w _ [asciiz prog] [] b); [done| |done|lia|done].
  simpl. rewrite length_fmap. lia.
Qed.

(** C17: On a Linux host the emulated execute and getargs are inverse: for
    every command line of at most 1023 characters execute runs "./" and the
    first word with the words of the line as its arguments (blanks between
    them skipped, a newline ending the line or a word), no buffer being
    overrun, and getargs in that process, given more bytes than the arguments
    need, returns 0 and the arguments joined with single blanks. *)
Theorem execute_getargs command buf args b n :
  zlen buf = 1026 -> zlen args = 1024 -> 0 ∈ command -> zlen command < 2 ^ 31 -> zlen (cstr command) <= 1023 ->
  exists prog ws, arguments command = prog :: ws /\
    (forall run, Emulate.ece391_execute run buf args command = Ok (wait_result (run (prog :: ws)))) /\
    (zlen (with_blanks ws) < n <= zlen b -> n < 2 ^ 31 - 1 ->
     Emulate.ece391_getargs ((fun w => asciiz w) <$> prog :: ws) b n
     = Ok (0, with_blanks ws ++ 0 :: drop (Datatypes.S (length (with_blanks ws))) b)).
Proof.
  intros Hb Ha H0 H31 Hl.
  assert (N : Forall (fun w => 0 ∉ w) (arguments command)) by (apply words_nonul; [apply cstr_idem|by apply (bool_decide_unpack _)]).
  destruct (arguments command) as [|prog ws] eqn:E; [by apply words_some in E|].
  exists prog, ws. split; [done|]. rewrite <- E. split; [intros; by apply execute_runs|].
  intros. rewrite E. apply getargs_fits; [|done|done]. by apply Forall_cons in N as [_ ?].
Qed.

(** * Directories *)

Lemma strncpy_result_pad buf name m k :
  (length (cstr name) <= k < m)%nat -> (m <= length buf)%nat ->
  upd (cstr name ++ replicate (k - length (cstr name)) 0 ++ drop k buf) (Z.of_nat k) 0
  = cstr name ++ replicate (Datatypes.S k - length (cstr name)) 0 ++ drop (Datatypes.S k) buf.
Proof.
  intros Hk Hm. rewrite app_assoc, upd_app_r by clia.
  replace (Z.of_nat k - _) with 0 by clia.
  destruct (drop k buf) as [|c q] eqn:E; [apply (f_equal length) in E; rewrite length_drop in E; simpl in E; lia|].
  change (upd (c :: q) 0 0) with (0 :: q).
  replace (drop (Datatypes.S k) buf) with q by (rewrite <- Nat.add_1_r, <- drop_drop, E; done).
  replace (Datatypes.S k - length (cstr name))%nat with (k - length (cstr name) + 1)%nat by lia.
  rewrite replicate_add, <- !app_assoc. done.
Qed.

(** The first loop copies the name, ... *)
Lemma copy_name_loop n t w2 : 0 < n -> forall fuel w1 r, 0 ∉ w2 -> (length w2 < fuel)%nat ->
  zlen w1 < Z.min n 32 -> Z.min n 32 - zlen w1 <= zlen r ->
  loop fuel (fun '(copied, buf) =>
    c ← rd (w1 ++ w2 ++ 0 :: t) copied;
    if decide (c <> 0) then
      buf ← wr buf copied c;
      let copied := copied + 1 in
      if decide (copied = n) then mret (inr (inr (n, buf))) else
      if decide (copied = 32) then mret (inr (inr (32, buf))) else mret (inl (copied, buf))
    else mret (inr (inl (copied, buf)))) (zlen w1, w1 ++ r)
  = Ok (if decide (zlen (w1 ++ w2) < Z.min n 32) then inl (zlen (w1 ++ w2), w1 ++ w2 ++ drop (length w2) r)
        else inr (Z.min n 32, take (Z.to_nat (Z.min n 32)) (w1 ++ w2) ++ drop (Z.to_nat (Z.min n 32) - length w1) r)).
Proof.
  intros Hn. set (m := Z.to_nat (Z.min n 32)).
  induction w2 as [|c w2 IH]; intros [|fuel] w1 r Hw Hf Hl Hr; simpl in Hf; try lia;
    rewrite loop_S; simpl; rewrite rd_here; simpl.
  - by rewrite app_nil_r, decide_True by done.
  - apply not_elem_of_cons in Hw as [Hc Hw]. rewrite decide_True by done.
    destruct r as [|x r]; simpl in Hr; [lia|]. rewrite wr_here. simpl.
    specialize (IH fuel (w1 ++ [c]) r Hw ltac:(lia)). rewrite <- !app_assoc in IH. simpl in IH.
    rewrite length_app in IH. simpl in IH. replace (zlen w1 + 1) with (Z.of_nat (length w1 + 1)) by lia.
    destruct (decide (Z.of_nat (length w1 + 1) = Z.min n 32)) as [Hm|Hm].
    + rewrite (decide_False (P := zlen (w1 ++ c :: w2) < Z.min n 32)) by (clen; simpl; lia).
      assert (Em : m = (length w1 + 1)%nat) by lia.
      assert (E : w1 ++ c :: r = take m (w1 ++ c :: w2) ++ drop (m - length w1) (x :: r)).
      { rewrite Em. replace (length w1 + 1 - length w1)%nat with 1%nat by lia.
        rewrite take_app. replace (length w1 + 1 - length w1)%nat with 1%nat by lia.
        rewrite take_ge by lia. simpl. rewrite drop_0, take_0, <- app_assoc. done. }
      rewrite <- E. repeat (case_decide; simpl); try lia; do 4 f_equal; lia.
    + rewrite decide_False by lia. rewrite decide_False by lia. simpl. rewrite IH by (simpl; lia).
      replace (m - length w1)%nat with (Datatypes.S (m - (length w1 + 1))) by lia. done.
Qed.

(** ... the second one pads it. *)
Lemma pad_loop n buf name : forall d fuel k,
  Z.min n 32 <= zlen buf -> Z.of_nat (k + d) = Z.min n 32 -> (length (cstr name) <= k)%nat -> (d < fuel)%nat ->
  loop fuel (fun '(copied, buf) =>
    if decide (n > copied /\ 32 > copied) then
      buf ← wr buf copied 0; mret (inl (copied + 1, buf))
    else mret (inr (copied, buf)))
    (Z.of_nat k, cstr name ++ replicate (k - length (cstr name)) 0 ++ drop k buf)
  = Ok (Z.min n 32, cstr name ++ replicate (k + d - length (cstr name)) 0 ++ drop (k + d) buf).
Proof.
  induction d as [|d IH]; intros [|fuel] k Hb Hk Hl Hf; try lia; rewrite loop_S.
  - rewrite decide_False by lia. rewrite Nat.add_0_r in *. simpl. by rewrite <- Hk.
  - rewrite decide_True by lia. rewrite wr_ok by (rewrite !length_app, length_replicate, length_drop; lia). simpl.
    rewrite (strncpy_result_pad buf name (Datatypes.S k)) by lia.
    replace (Z.of_nat k + 1) with (Z.of_nat (Datatypes.S k)) by lia. rewrite IH by lia.
    by replace (Datatypes.S k + d)%nat with (k + Datatypes.S d)%nat by lia.
Qed.

(** A directory entry fills [min nbytes 32] bytes, as strncpy would. *)
Lemma copy_dirent_ok name buf n : 0 ∈ name -> 0 < n -> Z.min n 32 <= zlen buf ->
  copy_dirent name buf n = Ok (Z.min n 32, strncpy_result buf name (Z.to_nat (Z.min n 32))).
Proof.
  intros H0 Hn Hb. destruct (cstr_split name H0) as [t Et]. pose proof (cstr_idem name) as Hw.
  unfold copy_dirent, strncpy_result. pose proof (copy_name_loop n t (cstr name) Hn (Datatypes.S (length name)) [] buf Hw) as E.
  simpl app in E. rewrite <- Et in E. erewrite ok_bind by (apply E; [pose proof (length_cstr name)|simpl|simpl]; lia). clear E.
  case_decide as Hc; cbv iota.
  - rewrite (take_ge (cstr name)) by lia.
    pose proof (pad_loop n buf name (Z.to_nat (Z.min n 32) - length (cstr name)) 33 (length (cstr name)) Hb) as E.
    rewrite Nat.sub_diag in E. simpl app in E. rewrite E by lia.
    by replace (length (cstr name) + (Z.to_nat (Z.min n 32) - length (cstr name)))%nat with (Z.to_nat (Z.min n 32)) by lia.
  - simpl length. rewrite Nat.sub_0_r, length_take.
    by replace (Z.to_nat (Z.min n 32) - Z.to_nat (Z.min n 32) `min` length (cstr name))%nat with O by lia.
Qed.

Section directory.
Context {D H : Type}.
Variables (readdir : D -> H -> option (list Z) * D * H) (host_read : Z -> list Z -> Z -> H -> Z * list Z * H).

(** Every read of the directory's descriptor gives the next name, of which
    all 32 bytes count as read; the end is a read of 0 bytes. *)
Lemma read_directory d h names e fd buf n : streams readdir d h names -> Forall (fun name => 0 ∈ name) names ->
  own_dir e fd = Some d -> 0 < n -> Z.min n 32 <= zlen buf ->
  exists d' h' e', own_dir e' fd = Some d' /\ (names <> [] -> streams readdir d' h' (tail names)) /\
    Emulate.ece391_read readdir host_read fd buf n e h = Ok
      match names with
      | [] => (0, buf, e', h')
      | name :: _ => (Z.min n 32, strncpy_result buf name (Z.to_nat (Z.min n 32)), e', h')
      end.
Proof using Type.
  intros S HF Ho Hn Hb. unfold Emulate.ece391_read. rewrite Ho.
  assert (Hd : forall d', own_dir (with_dir (Some d') (dir_fd e) e) fd = Some d').
  { intros d'. unfold own_dir in *. simpl. destruct (dir e); [|done]. by case_decide. }
  destruct S as [d h d' h' E|d h name d' h' names E S]; rewrite E; eexists d', h', _; (split; [apply Hd|]).
  - by split.
  - split; [done|]. apply Forall_cons in HF as [H0 _]. by rewrite copy_dirent_ok.
Qed.
End directory.

Lemma execute_getargs_witness :
  let command := lit "cat  frame0.txt fish " in
  exists prog ws, arguments command = prog :: ws /\ prog = chars "./cat" /\
    (forall run, Emulate.ece391_execute run (replicate 1026 0) (replicate 1024 0) command = Ok (wait_result (run (prog :: ws)))) /\
    Emulate.ece391_getargs ((fun w => asciiz w) <$> prog :: ws) (replicate 64 1) 64
    = Ok (0, lit "frame0.txt fish" ++ replicate 48 1).
Proof.
  intros command.
  destruct (execute_getargs command (replicate 1026 0) (replicate 1024 0) (replicate 64 1) 64) as (prog & ws & E & R & G).
  - by rewrite length_replicate.
  - by rewrite length_replicate.
  - apply (bool_decide_unpack _). by vm_compute.
  - by vm_compute.
  - by vm_compute.
  - exists prog, ws. split; [exact E|]. assert (E' : arguments command = [chars "./cat"; chars "frame0.txt"; chars "fish"]) by (by vm_compute).
    rewrite E' in E. injection E as <- <-. split; [done|]. split; [exact R|]. apply G; [by vm_compute|done].
Defined.

Lemma getargs_overrun_witness :
  Emulate.ece391_getargs ((fun w => asciiz w) <$> [chars "./cat"; chars "frame0.txt"; chars "fish"]) (replicate 15 0) 15 = Fault.
Proof.
  apply (getargs_overrun (chars "./cat") (chars "frame0.txt") [chars "fish"] (replicate 15 0)).
  - apply (bool_decide_unpack _). by vm_compute.
  - by vm_compute.
  - by vm_compute.
Defined.
