(* ===== verification/GrepSpec.v ===== *)
(** [ece391grep.c] against the lines of a file: which lines it prints, and
    that none is lost or torn where its buffer ends. *)

From S2P Require Import Prelude Hardware CLib Screen Printf FileSystem Paging Kernel FdTable Drivers.
From S2P Require Import Emulate EmulateSpec.
From S2P Require Import Streams Process Waiting WaitingSpec Syscall SyscallSpec Getargs UserLib UserSpec Programs ReadersSpec.

(** * Specification *)

(** The lines of a text; what follows the last newline is a line too. *)
Fixpoint lines_from (line l : list Z) : list (list Z) :=
  match l with
  | [] => [line]
  | c :: l => if decide (c = 10) then line :: lines_from [] l else lines_from (line ++ [c]) l
  end.
Definition lines (l : list Z) : list (list Z) := lines_from [] l.

Fixpoint occurs (s l : list Z) : bool :=
  match l with
  | [] => false
  | _ :: l' => bool_decide (s `prefix_of` l) || occurs s l'
  end.

(** What grep shows of a line, and of a text. *)
Definition match_line (name s line : list Z) : list Z :=
  if occurs s line then name ++ [58] ++ line ++ [10] else [].
Definition matches (name s l : list Z) : list Z := concat (match_line name s <$> lines l).

(** A text whose lines fit into grep's buffer with their newlines. *)
Definition text_ok (l : list Z) : Prop := 0 ∉ l /\ Forall (fun line => zlen line < 1024) (lines l).

(** The buffer holds [rem], and its last byte, which the program reads
    before it writes it, is no newline. *)
Record buffer_ok (data rem : list Z) : Prop := {
  bo_rem : rem `prefix_of` data;
  bo_len : zlen data = 1025;
  bo_end : at_ data 1024 <> 10;
}.

(** What is left of a file. *)
Definition rest_of (f : fs_state) (d : fd_t) : list Z :=
  drop (Z.to_nat (file_position d)) (contents f (inode_ptr d)).

(** * Lines *)
Section matches.
Variables (name s : list Z).
Hypothesis Hs : s <> [].

Lemma lines_from_app line w l : 10 ∉ w -> lines_from line (w ++ l) = lines_from (line ++ w) l.
Proof using Type.
  revert line. induction w as [|c w IH]; intros line; simpl; [by rewrite app_nil_r|].
  intros [Hc Hw]%not_elem_of_cons. rewrite decide_False by congruence. by rewrite IH, <- app_assoc.
Qed.

Lemma lines_newline w l : 10 ∉ w -> lines (w ++ 10 :: l) = w :: lines l.
Proof using Type. intros Hw. unfold lines. by rewrite lines_from_app. Qed.
Lemma lines_last w : 10 ∉ w -> lines w = [w].
Proof using Type. intros Hw. unfold lines. by rewrite <- (app_nil_r w), lines_from_app at 1. Qed.

Lemma matches_newline w l : 10 ∉ w -> matches name s (w ++ 10 :: l) = match_line name s w ++ matches name s l.
Proof using Type. intros Hw. unfold matches. by rewrite lines_newline. Qed.
Lemma matches_last w : 10 ∉ w -> matches name s w = match_line name s w.
Proof using Type. intros Hw. unfold matches. rewrite lines_last by done. simpl. by rewrite app_nil_r. Qed.
Lemma matches_nil : matches name s [] = [].
Proof using Type. done. Qed.

(** A text is ok from its next line on, and its first line is short. *)
Lemma text_ok_newline w l : 10 ∉ w -> text_ok (w ++ 10 :: l) -> text_ok l /\ zlen w < 1024.
Proof using Type.
  intros Hw [H0 HF]. rewrite lines_newline in HF by done. apply Forall_cons in HF as [Hl HF].
  split; [|done]. split; [|done]. intros H. apply H0. apply elem_of_app. right. by right.
Qed.

Lemma lines_from_first line l : exists x ls, lines_from line l = (line ++ x) :: ls.
Proof using Type.
  revert line. induction l as [|c l IH]; intros line; simpl; [exists [], []; by rewrite app_nil_r|].
  case_decide; [exists [], (lines_from [] l); by rewrite app_nil_r|].
  destruct (IH (line ++ [c])) as (x & ls & ->). exists (c :: x), ls. by rewrite <- app_assoc.
Qed.
Lemma text_ok_first w l : 10 ∉ w -> text_ok (w ++ l) -> zlen w < 1024.
Proof using Type.
  intros Hw [_ HF]. unfold lines in HF. rewrite lines_from_app in HF by done. simpl in HF.
  destruct (lines_from_first w l) as (x & ls & E). rewrite E in HF. apply Forall_cons in HF as [HF _].
  rewrite length_app in HF. lia.
Qed.

Lemma split_newline l : exists w t, l = w ++ t /\ 10 ∉ w /\ (t = [] \/ exists t', t = 10 :: t').
Proof using Type.
  induction l as [|c l (w & t & -> & Hw & Ht)]; [exists [], []; split_and!; [done|apply not_elem_of_nil|by left]|].
  destruct (decide (c = 10)) as [->|Hc].
  - exists [], (10 :: w ++ t). split_and!; [done|apply not_elem_of_nil|right; by eexists].
  - exists (c :: w), t. split_and!; [done| |done]. apply not_elem_of_cons. split; [congruence|done].
Qed.
End matches.
Arguments lines : simpl never.

(** * ece391_strncmp finds a prefix *)
Lemma strncmp_loop r t : forall s l fuel w v,
  s <> [] -> 0 ∉ s -> 0 ∉ l -> (length l < fuel)%nat -> zlen s < 2 ^ 32 -> zlen w = zlen v ->
  wp (loop fuel (fun '(i, n) =>
    c1 ← rd (w ++ l ++ 0 :: r) i; c2 ← rd (v ++ s ++ 0 :: t) i;
    mret (if decide (c1 = c2) then
            if decide (c1 = 0 \/ u32 (n - 1) = 0) then inr 0 else inl (i + 1, u32 (n - 1))
          else inr (c1 - c2))) (zlen w, zlen s)) (fun x => x = 0 <-> s `prefix_of` l).
Proof.
  induction s as [|c s IH]; intros l [|fuel] w v Hs H0 Hl Hf H32 Hwv; [done|done|lia|].
  apply not_elem_of_cons in H0 as [Hc H0]. rewrite loop_S. apply wp_bind. simpl in H32.
  assert (R2 : rd (v ++ (c :: s) ++ 0 :: t) (zlen w) = Ok c) by (rewrite Hwv; apply (rd_here v)).
  destruct l as [|c' l]; [rewrite (rd_here w 0 r : rd (w ++ [] ++ 0 :: r) (zlen w) = Ok 0)
    |rewrite (rd_here w c' (l ++ 0 :: r) : rd (w ++ (c' :: l) ++ 0 :: r) (zlen w) = Ok c')]; rewrite R2; clear R2; simpl.
  - rewrite decide_False by congruence. simpl. split; [lia|]. intros [z E]. done.
  - apply not_elem_of_cons in Hl as [Hc' Hl]. case_decide as E.
    + subst c'. replace (Z.of_nat (Datatypes.S (length s)) - 1) with (zlen s) by lia. rewrite u32_id by lia.
      destruct (decide (zlen s = 0)) as [Hz|Hz].
      * rewrite decide_True by auto. simpl. destruct s; [|done]. split; [|done]. intros _. by exists l.
      * rewrite decide_False by lia. simpl.
        specialize (IH l fuel (w ++ [c]) (v ++ [c])). rewrite <- !app_assoc, !length_app in IH. simpl in IH.
        replace (zlen w + 1) with (Z.of_nat (length w + 1)) by lia.
        eapply wp_mono; [apply IH; try done; [by destruct s|simpl in Hf; lia|lia|lia]|]. intros x Hx. rewrite Hx.
        split; [apply prefix_cons|apply prefix_cons_inv_2].
    + simpl. split; [lia|]. intros Hp. by apply prefix_cons_inv_1 in Hp.
Qed.

Lemma ece391_strncmp_prefix l r s t : s <> [] -> 0 ∉ s -> 0 ∉ l -> zlen s < 2 ^ 32 ->
  wp (ece391_strncmp (l ++ 0 :: r) (s ++ 0 :: t) (zlen s)) (fun x => x = 0 <-> s `prefix_of` l).
Proof.
  intros Hs H0 Hl H32. unfold ece391_strncmp. rewrite decide_False by (destruct s; simpl; [done|lia]).
  apply (strncmp_loop r t s l _ [] []); try done. rewrite length_app. simpl. lia.
Qed.

Ltac constant := first [by apply (bool_decide_unpack _); vm_compute | by vm_compute].

(** * The buffer *)
Lemma find_newline_ok pre w rest last : 10 ∉ w -> (exists r, rest = 10 :: r) \/ last = zlen (pre ++ w) ->
  zlen (pre ++ w) <= last -> find_newline (pre ++ w ++ rest) (zlen pre) last = Ok (zlen (pre ++ w)).
Proof.
  intros Hw Hr Hl. unfold find_newline. assert (Hf : (length w < Datatypes.S (length (pre ++ w ++ rest)))%nat)
    by (rewrite !length_app; lia).
  revert Hf. generalize (Datatypes.S (length (pre ++ w ++ rest))) as fuel. intros fuel. revert pre w Hw Hl Hr.
  induction fuel as [|fuel IH]; intros pre w Hw Hl Hr Hf; [lia|]. rewrite loop_S. destruct w as [|c w].
  - rewrite app_nil_r in *. simpl app. destruct Hr as [[r ->]| ->].
    + case_decide; [rewrite rd_here|]; done.
    + by rewrite decide_False by lia.
  - rewrite length_app in Hl. simpl in Hl. apply not_elem_of_cons in Hw as [Hc Hw].
    rewrite decide_True by lia. simpl app. rewrite rd_here. simpl. rewrite decide_True by congruence. simpl.
    specialize (IH (pre ++ [c]) w Hw). rewrite <- !app_assoc in IH. simpl in IH.
    replace (zlen pre + 1) with (zlen (pre ++ [c])) by (rewrite length_app; simpl; lia). simpl in Hf.
    apply IH; [rewrite !length_app in *; simpl in *; lia|done|lia].
Qed.

(** A NUL written over a byte is no newline. *)
Lemma at_replaced (a r : list Z) c q : 0 <= q -> at_ (a ++ c :: r) q <> 10 -> at_ (a ++ 0 :: r) q <> 10.
Proof.
  intros Hq H. rewrite at_app in * by lia. case_decide; [done|].
  rewrite at_cons in * by lia. by case_decide.
Qed.

(** strcpy moves a line to the front of its buffer. *)
Lemma strcpy_front pre w rest : 0 ∉ w -> exists d, 
  UserLib.ece391_strcpy (pre ++ w ++ 0 :: rest) 0 (zlen pre) = Ok (w ++ d) /\
  length (w ++ d) = length (pre ++ w ++ 0 :: rest) /\
  forall q, zlen w < q -> at_ (w ++ d) q = at_ (pre ++ w ++ 0 :: rest) q.
Proof.
  intros H0. set (a := pre ++ w ++ 0 :: rest).
  assert (Ha : forall j, 0 <= j <= zlen w -> at_ a (zlen pre + j) = at_ (w ++ 0 :: rest) j).
  { intros j Hj. unfold a. rewrite at_app, decide_False by lia. f_equal. lia. }
  assert (Hw : forall j, 0 <= j < zlen w -> at_ (w ++ 0 :: rest) j <> 0).
  { intros j Hj. apply cstr_nonzero. by rewrite (cstr_app w rest H0). }
  assert (Hla : zlen a = zlen pre + zlen w + 1 + zlen rest) by (unfold a; rewrite !length_app; simpl; lia).
  assert (G : wp (UserLib.ece391_strcpy a 0 (zlen pre)) (fun b => length b = length a /\
    forall q, 0 <= q -> at_ b q = if decide (q <= zlen w) then at_ (w ++ 0 :: rest) q else at_ a q)).
  { unfold UserLib.ece391_strcpy.
    apply (wp_loop (fun '(dst, src, b) => 0 <= dst <= zlen w /\ src = zlen pre + dst /\ length b = length a /\
        forall q, 0 <= q -> at_ b q = if decide (q < dst) then at_ (w ++ 0 :: rest) q else at_ a q)
      (fun '(dst, _, _) => Z.to_nat (zlen w - dst))).
    - split; [lia|]. split; [lia|]. split; [done|]. intros q Hq. by rewrite decide_False by lia.
    - lia.
    - intros [[dst src] b] (Hd & -> & Hb & Hat). wp_step. wp_step. rewrite Hat, decide_False, Ha by lia.
      wp_step. rewrite wr_ok by lia. do 2 wp_step. destruct_decide (decide (at_ (w ++ 0 :: rest) dst <> 0)) as Hnz.
      + assert (dst < zlen w).
        { destruct_decide (decide (dst = zlen w)) as E; [|lia]. subst dst. rewrite at_here in Hnz. done. }
        split; [|lia]. split; [lia|]. split; [lia|]. split; [by rewrite length_upd|].
        intros q Hq. rewrite at_upd by lia. case_decide; [subst; by rewrite decide_True by lia|].
        rewrite Hat by done. repeat case_decide; try lia; done.
      + assert (dst = zlen w) as ->.
        { destruct_decide (decide (dst < zlen w)) as E; [|lia]. exfalso. apply (Hw dst); [lia|done]. }
        split; [by rewrite length_upd|]. intros q Hq. rewrite at_upd by lia.
        case_decide; [subst; by rewrite decide_True by lia|].
        rewrite Hat by done. repeat case_decide; try lia; done. }
  apply wp_ok in G as (b & E & Hb & Hat). exists (drop (length w) b).
  assert (Eb : b = w ++ drop (length w) b).
  { rewrite <- (take_drop (length w) b) at 1. f_equal. apply at_ext; [rewrite length_take; lia|].
    intros q Hq. rewrite length_take in Hq. rewrite at_take, Hat, decide_True, at_app, decide_True by lia. done. }
  rewrite <- Eb. split; [done|]. split; [done|]. intros q Hq. by rewrite Hat, decide_False by lia.
Qed.

(** Reads into what is free of it. *)
Lemma rest_length f d : file_ok f d -> zlen (rest_of f d) = size_of f (inode_ptr d) - file_position d.
Proof.
  intros [W Hi _ Hp]. pose proof (size_bound f (inode_ptr d) W Hi). unfold rest_of.
  rewrite length_drop, contents_length. lia.
Qed.

Lemma next_of_rest f d n : file_ok f d -> 0 < n < 2 ^ 31 ->
  file_next f d n = take (Z.to_nat (Z.min n (zlen (rest_of f d)))) (rest_of f d) /\
  rest_of f (file_step f d n) = drop (Z.to_nat (Z.min n (zlen (rest_of f d)))) (rest_of f d).
Proof.
  intros D Hn. pose proof (rest_length f d D) as Hr. pose proof (file_step_pos f d n D Hn) as Hp.
  pose proof (file_count f d n D Hn) as Hc. rewrite Hr. split.
  - unfold file_next. by rewrite Hc.
  - unfold rest_of. rewrite Hp. change (inode_ptr (file_step f d n)) with (inode_ptr d).
    rewrite drop_drop. f_equal. destruct D as [_ _ _ Hpos]. lia.
Qed.

Lemma grep_buffer rem data chunk : buffer_ok data rem -> zlen rem + zlen chunk <= 1024 ->
  let data' := take (length rem) data ++ chunk ++ drop (length chunk) (from (zlen rem) data) in
  data' = (rem ++ chunk) ++ drop (length (rem ++ chunk)) data /\ buffer_ok data' [].
Proof.
  intros [[z ->] Hl He] Hc. cbv zeta. unfold from. rewrite Nat2Z.id, take_app_length, drop_app_length.
  assert (E : rem ++ chunk ++ drop (length chunk) z = (rem ++ chunk) ++ drop (length (rem ++ chunk)) (rem ++ z)).
  { rewrite <- app_assoc. do 2 f_equal. rewrite length_app, <- drop_drop, drop_app_length. done. }
  split; [done|]. constructor; [by eexists|rewrite length_app in *; rewrite length_app, length_drop; lia|].
  rewrite at_app in * by lia. rewrite !decide_False in * by lia. rewrite at_app by lia.
  case_decide as H1.
  - rewrite length_app in Hl. lia.
  - rewrite at_drop by lia. by replace (Z.of_nat (length chunk) + (1024 - zlen rem - zlen chunk)) with (1024 - zlen rem) by lia.
Qed.

(** * The search of a line *)
Section search.
Variables (w : nat -> surroundings) (fr : frame) (i : Z) (name s t nt : list Z).
Hypothesis (Hs : s <> []) (Hs0 : 0 ∉ s) (Hs31 : zlen s < 2 ^ 31).
Hypothesis (Hn0 : 0 ∉ name) (Hn31 : zlen (name ++ 0 :: nt) < 2 ^ 31).
Abbreviation str := (s ++ 0 :: t).
Abbreviation fname := (name ++ 0 :: nt).

Lemma puts_more k p a k1 str' : prints a k k1 -> user k1 i p -> 0 ∈ str' -> zlen str' < 2 ^ 31 ->
  kwp (ece391_fdputs (w 0%nat) fr 1 str') (fun _ => prints (a ++ cstr str') k) nojump k1.
Proof using Type.
  intros P U H0 Hl. eapply kwp_mono; [by apply (ece391_fdputs_ok (w 0%nat) fr k1 i p U)| |done].
  intros [] k2 P2. by eapply prints_app.
Qed.

Lemma nul_in (l r : list Z) : 0 ∈ l ++ 0 :: r.
Proof using Type. apply elem_of_app. right. by left. Qed.

Lemma search_line_ok k p pre line rest : user k i p -> 0 ∉ line -> zlen (pre ++ line ++ 0 :: rest) < 2 ^ 31 ->
  kwp (search_line w fr str fname (pre ++ line ++ 0 :: rest) (zlen s) (zlen pre) (zlen (pre ++ line)))
    (fun _ => prints (match_line name s line) k) nojump k.
Proof using All.
  intros U Hl H31. unfold search_line. match goal with |- kwp (kloop _ ?b _) _ _ _ => set (body := b) end.
  assert (G : forall l done_ fuel n, line = done_ ++ l -> (length l < fuel)%nat -> n = zlen (pre ++ done_) ->
    occurs s l = occurs s line ->
    kwp (kloop fuel body n) (fun _ => prints (match_line name s line) k) nojump k).
  2: { apply (G line []); [done|rewrite !length_app; simpl; lia|by rewrite app_nil_r|done]. }
  induction l as [|c l IH]; intros done_ [|fuel] n El Hf Hn Ho; simpl in Hf; [lia| |lia|].
  - rewrite kloop_S. kwp_step. unfold body. rewrite decide_False by (rewrite Hn, El, app_nil_r; lia). do 2 kwp_step.
    unfold match_line. rewrite <- Ho. simpl. apply prints_nil, U.
  - rewrite kloop_S. kwp_step. unfold body at 1. rewrite decide_True by (rewrite Hn, El, !length_app; simpl; lia).
    assert (Ed : pre ++ line ++ 0 :: rest = (pre ++ done_) ++ (c :: l) ++ 0 :: rest).
    { rewrite El, <- !app_assoc. done. }
    destruct s as [|s0 s'] eqn:Es; [done|]. rewrite <- Es in *. kwp_step. kwp_step.
    apply (wp_of_eq _ s0); [rewrite Es; apply (rd_here [])|]. kwp_step. kwp_step.
    apply (wp_of_eq _ c); [rewrite Ed, Hn; apply (rd_here (pre ++ done_))|]. kwp_step. kwp_step.
    apply (wp_mono _ (fun b => b = bool_decide (s `prefix_of` c :: l))).
    { rewrite El, elem_of_app in Hl. wp_step.
      - apply wp_bind. rewrite u32_id by lia. unfold from. rewrite Ed, Hn, Nat2Z.id, drop_app_length.
        eapply wp_mono; [apply ece391_strncmp_prefix; [done|done|tauto|lia]|]. intros x Hx. apply wp_ret.
        by apply bool_decide_ext.
      - apply wp_ret. symmetry. apply bool_decide_eq_false. rewrite Es. intros Hp.
        by apply prefix_cons_inv_1 in Hp. }
    intros b ->. simpl in Ho. destruct (bool_decide (s `prefix_of` c :: l)).
    + unfold match_line. rewrite <- Ho. simpl. kwp_step.
      eapply kwp_mono; [apply (puts_more k p [] k); [by apply prints_nil, U|done|apply nul_in|done]| |done].
      intros [] k1 P1. rewrite (cstr_app name) in P1 by done. kwp_step.
      eapply kwp_mono; [apply (puts_more k p _ k1 _ P1); [by eapply user_prints|constant..]| |done].
      intros [] k2 P2. kwp_step.
      assert (Ef : from (zlen pre) (pre ++ line ++ 0 :: rest) = line ++ 0 :: rest)
        by (unfold from; by rewrite Nat2Z.id, drop_app_length).
      eapply kwp_mono; [apply (puts_more k p _ k2 _ P2); [by eapply user_prints|rewrite Ef; apply nul_in|
        rewrite Ef; rewrite length_app in H31; lia]| |done].
      intros [] k3 P3. rewrite Ef, (cstr_app line) in P3 by done. kwp_step.
      eapply kwp_mono; [apply (puts_more k p _ k3 _ P3); [by eapply user_prints|constant..]| |done].
      intros [] k4 P4. do 2 kwp_step. simpl in P4. by rewrite <- !app_assoc in P4.
    + kwp_step. apply (IH (done_ ++ [c])); [by rewrite <- app_assoc|lia| |done].
      rewrite Hn, !length_app. simpl. lia.
Qed.

(** * The lines of the buffer *)

(** What search_lines has left: [rem], the beginning of a line, before
    [more], the rest of the file. *)
Definition searched (more : list Z) (cnt : Z) (txt : list Z) (k : kernel) : list Z * Z -> kernel -> Prop :=
  fun '(data, last) k' => exists rem out, buffer_ok data rem /\ last = zlen rem /\
    (cnt = 0 -> rem = []) /\ 10 ∉ rem /\ text_ok (rem ++ more) /\
    matches name s (txt ++ more) = out ++ matches name s (rem ++ more) /\ prints out k k'.

Lemma match_line_nil : match_line name s [] = [].
Proof using Type. done. Qed.

(** The last line in the buffer, when it is searched as it stands. *)
Lemma last_line_whole pre w0 more cnt data c :
  10 ∉ w0 -> text_ok (w0 ++ more) -> more = [] \/ zlen pre + zlen w0 = 1024 /\ cnt <> 0 ->
  ~ (c <> 10 /\ cnt <> 0 /\ zlen pre <> 0) -> c = at_ data (zlen (pre ++ w0)) -> at_ data 1024 <> 10 -> more = [].
Proof using All.
  intros Hw Ht [|[Hl Hc]] Hn -> Hd; [done|]. exfalso.
  rewrite length_app, Nat2Z.inj_add, Hl in Hn. pose proof (text_ok_first w0 more Hw Ht). lia.
Qed.

Lemma search_lines_ok k p cnt more txt stale : user k i p -> text_ok (txt ++ more) ->
  more = [] \/ zlen txt = 1024 /\ cnt <> 0 -> buffer_ok (txt ++ stale) [] -> zlen txt <= 1024 ->
  kwp (search_lines w fr str fname (zlen s) cnt (txt ++ stale) (zlen txt)) (searched more cnt txt k) nojump k.
Proof using All.
  intros U Ht Hm B Hle. unfold search_lines. match goal with |- kwp (kloop _ ?b _) _ _ _ => set (body := b) end.
  assert (G : forall n txt' pre stale' fuel k1,
    (length txt' <= n)%nat -> (n < fuel)%nat -> user k1 i p -> text_ok (txt' ++ more) ->
    more = [] \/ zlen pre + zlen txt' = 1024 /\ cnt <> 0 -> buffer_ok (pre ++ txt' ++ stale') [] ->
    zlen txt = zlen (pre ++ txt') ->
    kwp (kloop fuel body (zlen pre, pre ++ txt' ++ stale')) (searched more cnt txt' k1) nojump k1).
  2: { apply (G (length txt) txt [] stale); try done. rewrite length_app. lia. }
  clear stale B U Ht Hm k. set (last := zlen txt) in *. clearbody last. clear txt.
  intros n. induction n as [n IH] using (well_founded_induction lt_wf).
  intros txt pre stale [|fuel] k1 Hn Hf U Ht Hm B Hlast; [lia|]. rewrite kloop_S. kwp_step. unfold body at 1.
  destruct (split_newline txt) as (l & tl & -> & Hl & Htl). destruct B as [_ Hlen Hend].
  assert (H0 : 0 ∉ l ++ tl) by (intros H; destruct Ht as [H' _]; apply H', elem_of_app; by left).
  rewrite elem_of_app in H0. rewrite <- (app_assoc l tl stale) in *. kwp_step. kwp_step.
  assert (Hrd : exists c r, tl ++ stale = c :: r).
  { destruct (tl ++ stale) as [|c r] eqn:E; [|by eexists _, _]. exfalso. rewrite ?app_nil_r in Hlen.
    rewrite !length_app in *. lia. }
  destruct Hrd as (c & r & Ec).
  apply (wp_of_eq _ (zlen (pre ++ l))).
  { apply find_newline_ok; [done| |rewrite !length_app in *; lia].
    destruct Htl as [->|[t' ->]]; [right|left; by eexists]. by rewrite app_nil_r in Hlast. }
  kwp_step. kwp_step. rewrite Ec, (app_assoc pre l) in *.
  apply (wp_of_eq _ c); [apply rd_here|]. cbv beta. pose proof (at_replaced _ _ _ 1024 ltac:(lia) Hend) as Hend'.
  destruct_decide (decide (c <> 10 /\ cnt <> 0 /\ zlen pre <> 0)) as Hc.
  - destruct Htl as [->|[t' ->]]; [|simpl in Ec; naive_solver].
    rewrite app_nil_r in *. kwp_step. kwp_step. rewrite (wr_here (pre ++ l)). kwp_step.
    rewrite <- (app_assoc pre l) in Hend' |- *. destruct (strcpy_front pre l r) as (d & Ed & Hd & Hat); [tauto|].
    kwp_step. kwp_step. rewrite Ed. do 2 kwp_step. pose proof (text_ok_first l more Hl Ht) as Hl1024.
    exists l, []. split_and!; try done.
    + constructor; [by exists d|rewrite Hd; rewrite !length_app in *; simpl in *; lia|].
      by rewrite Hat by lia.
    + rewrite Hlast, length_app. lia.
    + tauto.
    + apply prints_nil, U.
  - kwp_step. kwp_step. rewrite (wr_here (pre ++ l)). kwp_step. rewrite <- (app_assoc pre l) in Hend' |- *. kwp_step.
    assert (Hlen' : zlen (pre ++ l ++ 0 :: r) = 1025) by (rewrite !length_app in *; simpl in *; lia).
    eapply kwp_mono; [apply (search_line_ok k1 p pre l r U); [tauto|lia]| |done].
    intros [] k2 P2. cbv zeta. kwp_step. destruct Htl as [->|[t' ->]].
    + rewrite app_nil_r in *. rewrite decide_True by lia. cbv iota. kwp_step.
      assert (more = []) as -> by (eapply (last_line_whole pre l more cnt); [done|done|done|exact Hc|by rewrite at_here|done]).
      rewrite app_nil_r in *. exists [], (match_line name s l). split_and!; try done.
      * constructor; [by eexists|done|done].
      * apply not_elem_of_nil.
      * split; [apply not_elem_of_nil|]. by repeat constructor.
      * simpl app. rewrite app_nil_r, matches_last by done. by rewrite matches_nil, app_nil_r.
    + rewrite <- app_assoc in Ht. simpl in Ht, Ec. injection Ec as <- <-. simpl in Hn. rewrite length_app in Hn. simpl in Hn.
      apply text_ok_newline in Ht as [Ht Hl1024]; [|done].
      assert (Em : matches name s ((l ++ 10 :: t') ++ more) = match_line name s l ++ matches name s (t' ++ more))
        by (rewrite <- app_assoc; by apply matches_newline).
      rewrite !length_app in Hlast. simpl in Hlast. case_decide as Hend2; cbv iota.
      * kwp_step. assert (t' = []) as -> by (rewrite length_app in Hend2; destruct t'; simpl in *; [done|lia]).
        exists [], (match_line name s l). split_and!; try done.
        -- constructor; [by eexists|done|done].
        -- apply not_elem_of_nil.
      * assert (Ep : pre ++ l ++ 0 :: t' ++ stale = (pre ++ l ++ [0]) ++ t' ++ stale) by (by rewrite <- !app_assoc).
        replace (zlen (pre ++ l) + 1) with (zlen (pre ++ l ++ [0])) by (rewrite !length_app; simpl; lia).
        rewrite Ep in *. eapply kwp_mono.
        -- apply (IH (length t') ltac:(lia) t' (pre ++ l ++ [0]) stale fuel k2); try done.
           ++ lia.
           ++ by eapply user_prints.
           ++ destruct Hm as [->|[Hm Hc2]]; [by left|right]. split; [|done].
              rewrite !length_app in *. simpl in *. lia.
           ++ constructor; [by eexists|done|done].
           ++ rewrite !length_app. simpl. lia.
        -- intros [data la] k3 (rem & o & B & -> & Hz & Hr & Hrt & E & P3).
           exists rem, (match_line name s l ++ o). split_and!; try done.
           ++ rewrite Em, E. by rewrite app_assoc.
           ++ by eapply prints_app.
        -- done.
Qed.

(** * One file *)

Variables (p : pcb) (j : Z) (sr : surroundings) (f : fs_state).
Hypothesis (Hj : 2 <= j < MAX_OPEN_FILES).

Lemma file_loop_ok fuel : forall rem data d k1, user k1 i p -> fs k1 = f ->
  readable_fd (H := file_stream) filesys_ops_table f d -> buffer_ok data rem -> 10 ∉ rem ->
  text_ok (rem ++ rest_of f d) -> (length (rest_of f d) < fuel)%nat ->
  kwp (file_loop w fr sr fuel str fname (zlen s) j (zlen rem, data))
    (fun r k' => r = 0 /\ exists d' k2, readable_fd (H := file_stream) filesys_ops_table f d' /\
      prints (matches name s (rem ++ rest_of f d)) k1 k2 /\ k' = put_fd i p j d' k2) nojump (put_fd i p j d k1).
Proof using All.
  induction fuel as [|fuel IH]; intros rem data d k1 U Ef D B Hrem Ht Hf; [lia|].
  pose proof (text_ok_first rem _ Hrem Ht) as Hr1024. unfold file_loop. rewrite kloop_S. fold (file_loop w fr sr fuel str fname (zlen s) j).
  kwp_step. kwp_step.
  set (n := BUFSIZE - zlen rem). assert (Hn : 0 < n < 2 ^ 31) by (unfold n, BUFSIZE; lia).
  destruct (next_of_rest f d n (rf_ok _ _ _ D) Hn) as [En Er].
  assert (Hbuf : zlen (from (zlen rem) data) = 1025 - zlen rem).
  { unfold from. rewrite length_drop. pose proof (bo_len _ _ B). lia. }
  eapply kwp_eq; [apply (ece391_read_stream (H := file_stream) sr fr filesys_ops_table n Hn (file_driver_read sr)
    i p j ltac:(lia) ltac:(lia) k1 d (from (zlen rem) data) U); [by rewrite Ef|unfold n, BUFSIZE; lia|lia]|].
  rewrite Ef. unfold received. cbv iota beta zeta. change (st_next f d n) with (file_next f d n).
  set (chunk := file_next f d n) in *. set (d' := file_step f d n) in *.
  assert (Hc : zlen chunk = Z.min n (zlen (rest_of f d))) by (rewrite En, length_take; lia).
  assert (Hrest : rest_of f d = chunk ++ rest_of f d') by (rewrite En, Er; by rewrite take_drop).
  rewrite (decide_False (P := zlen chunk = -1)) by lia. rewrite Nat2Z.id. kwp_step.
  destruct (grep_buffer rem data chunk B) as [Ed Bd]; [unfold n, BUFSIZE in *; lia|]. cbv zeta in Ed, Bd.
  rewrite Ed in *. replace (zlen rem + zlen chunk) with (zlen (rem ++ chunk)) by (rewrite length_app; lia).
  pose proof (user_put_fd k1 i p j d' U ltac:(lia) ltac:(lia)) as U1.
  rewrite Hrest, app_assoc in Ht. set (txt := rem ++ chunk) in *.
  assert (Hlt : zlen txt = zlen rem + zlen chunk) by (unfold txt; rewrite length_app; lia).
  eapply kwp_mono; [apply (search_lines_ok _ _ (zlen chunk) (rest_of f d') txt (drop (length txt) data) U1 Ht)| |done].
  - destruct_decide (decide (n <= zlen (rest_of f d))) as Hfull.
    + right. unfold n, BUFSIZE in *. lia.
    + left. apply nil_length_inv. rewrite Er, length_drop. lia.
  - done.
  - unfold n, BUFSIZE in *. lia.
  - intros [data2 last2] k2 (rem2 & out & B2 & -> & Hz & Hr2 & Ht2 & Em & P).
    apply prints_put_fd in P as (k3 & -> & P). kwp_step.
    assert (Et : rem ++ rest_of f d = txt ++ rest_of f d') by (rewrite Hrest; apply app_assoc).
    pose proof (readable_step filesys_ops_table n Hn (file_step_keeps n) f d D) as D'.
    change (st_step f d n) with d' in D'. case_decide as H0; cbv iota.
    + kwp_step. split; [done|]. exists d', k3. split; [done|]. split; [|done].
      rewrite Et, Em, (Hz H0). replace (rest_of f d') with (@nil Z); [by rewrite matches_nil, app_nil_r|].
      symmetry. apply nil_length_inv. rewrite Er, length_drop. lia.
    + eapply kwp_mono; [apply (IH rem2 data2 d' k3)| |done].
      * by eapply user_prints.
      * by rewrite (prints_fs _ _ _ P).
      * done.
      * done.
      * done.
      * done.
      * rewrite Er, length_drop. lia.
      * intros r k' (-> & d2 & k4 & D2 & P2 & ->). split; [done|]. exists d2, k4. split; [done|]. split; [|done].
        rewrite Et, Em. by eapply prints_app.
Qed.
End search.

(** A name that [open] finds, and the text it names. *)
Record text_file (f : fs_state) (fname text : list Z) : Prop := {
  tf_arg : file_name_arg f fname;
  tf_entry : exists e, first_entry f (given_word fname) = Some e /\ 2 <= type_of f e /\
    0 <= inode_of f e < num_inodes f /\ inode_of f e < 2 ^ 31 /\ text = contents f (inode_of f e);
  tf_text : text_ok text;
}.

(** The array of do_one_file before anything is in it. *)
Definition fresh_buffer (data : list Z) : Prop := zlen data = 1025 /\ at_ data 1024 <> 10.

Lemma grep_file w fr sr fuel k i p j str fname data text :
  user k i p -> fs_wf (fs k) -> surr_wf (w 0%nat) -> text_file (fs k) fname text ->
  first_free (fd_table p) = Some j -> at_ (fd_table p) j = closed_fd ->
  0 ∈ str -> cstr str <> [] -> zlen str < 2 ^ 31 -> 0 ∈ fname -> fresh_buffer data ->
  (length text < fuel)%nat ->
  kwp (do_one_file w fr sr fuel str fname data)
    (fun r k' => r = 0 /\ prints (matches (cstr fname) (cstr str) text) k k') nojump k.
Proof.
  intros U Wf Ws [A (e & He & Hty & Hino & Hi32 & ->) Ht] Hj Hcl H0 Hne Hs31 Hn0 [Hd1 Hd2] Hf.
  pose proof (first_free_range _ _ Hj) as [Hr _]. unfold do_one_file.
  destruct (cstr_split str H0) as [t Es]. destruct (cstr_split fname Hn0) as [nt En].
  pose proof (length_cstr str). pose proof (fa_length _ _ A) as Hfl.
  kwp_step. kwp_step. rewrite ece391_strlen_ok by done. kwp_step. rewrite i32_id by lia. cbv zeta. kwp_step.
  set (d := mkFd (Some filesys_ops_table) (i32 (inode_of (fs k) e)) 0 FD_ON).
  eapply kwp_eq; [apply (open_word k i p (w 0%nat) fr fname j d e U Wf Ws A He Hj); by right|].
  rewrite (decide_False (P := j = -1)) by lia. kwp_step.
  pose proof (size_bound (fs k) _ Wf Hino) as Hsz.
  assert (D : readable_fd (H := file_stream) filesys_ops_table (fs k) d).
  { constructor; [|done|done]. constructor; unfold d; simpl; rewrite ?i32_id by lia; (done || lia). }
  assert (Er : rest_of (fs k) d = contents (fs k) (inode_of (fs k) e)).
  { unfold rest_of, d. simpl. by rewrite i32_id, drop_0 by lia. }
  pose proof (cstr_idem str) as Hs0. pose proof (cstr_idem fname) as Hf0.
  change (0, data) with (zlen (@nil Z), data). rewrite <- Er.
  assert (B : buffer_ok data []) by (constructor; [by exists data|done|done]).
  assert (Hf31 : zlen fname < 2 ^ 31) by lia.
  generalize dependent (cstr fname). generalize dependent (cstr str). intros s Hne Es Hsl Hs0 name En Hf0.
  rewrite Es, En in *. clear Es En str fname.
  eapply kwp_mono; [apply (file_loop_ok w fr i name s t nt Hne Hs0 ltac:(lia) Hf0 Hf31 p j sr (fs k) ltac:(lia)
    fuel [] data d k U eq_refl D B)| |done].
  - apply not_elem_of_nil.
  - simpl. by rewrite Er.
  - by rewrite Er.
  - intros r k' (-> & d' & k1 & D' & P & ->). cbv beta. rewrite (decide_False (P := 0 = -1)) by lia. kwp_step.
    assert (U1 : user k1 i p) by (by eapply user_prints).
    pose proof (user_put_fd k1 i p j d' U1 ltac:(lia) ltac:(lia)) as U2.
    eapply kwp_eq.
    { apply (ece391_close_eq (w 0%nat) fr _ j 0 (put_fd i (with_fd j d' p) j closed_fd (put_fd i p j d' k1))); [|done].
      rewrite i32_id by (unfold MAX_OPEN_FILES in *; lia).
      apply (close_file_ok _ i (with_fd j d' p) j (us_run _ _ _ U2) (us_fds _ _ _ U2) (us_ops _ _ _ U2)).
      pose proof (us_fds _ _ _ U) as Hl. left. split; [lia|]. simpl. unfold MAX_OPEN_FILES in *.
      rewrite at_upd_eq by lia. split; [exact (rf_on _ _ _ D')|exact (rf_jump _ _ _ D')]. }
    rewrite (decide_False (P := 0 = -1)) by lia. kwp_step. split; [done|].
    rewrite (put_fd_again i p j ltac:(lia) k1 d' closed_fd U1).
    rewrite (put_fd_id k1 i p j closed_fd (us_run _ _ _ U1) (us_fds _ _ _ U1) ltac:(lia) (eq_sym Hcl)).
    exact P.
Qed.

(** * The directory *)

(** Entry [q] names the text [text] (grep opens the first entry with that
    name, up to the first blank). *)
Record searchable (f : fs_state) (q : Z) (text : list Z) : Prop := {
  sb_name : cut_word (entry_text f q) <> [];
  sb_entry : exists e, first_entry f (cut_word (entry_text f q)) = Some e /\ 2 <= type_of f e /\
    0 <= inode_of f e < num_inodes f /\ inode_of f e < 2 ^ 31 /\ text = contents f (inode_of f e);
  sb_text : text_ok text;
}.

(** Hidden files are skipped. *)
Definition hidden (name : list Z) : Prop := at_ name 0 = 46.
#[export] Instance hidden_dec name : Decision (hidden name) := _.
Definition grep_entry (f : fs_state) (pattern : list Z) (text : Z -> list Z) (q : Z) : list Z :=
  if decide (hidden (entry_text f q)) then [] else matches (entry_text f q) pattern (text q).

Lemma cut_word_length l : (length (cut_word l) <= length l)%nat.
Proof. induction l as [|c l IH]; simpl; [done|]. case_decide; simpl; lia. Qed.

Lemma searchable_file f q text rest : fs_wf f -> 0 <= q < MAX_ENTRIES -> searchable f q text ->
  Forall byte rest -> zlen (entry_text f q ++ 0 :: rest) = 33 -> text_file f (entry_text f q ++ 0 :: rest) text.
Proof.
  intros Wf Hq [Hn He Ht] Hb Hl. pose proof (entry_text_length f q). pose proof (cut_word_length (entry_text f q)).
  assert (Eg : given_word (entry_text f q ++ 0 :: rest) = cut_word (entry_text f q))
    by (unfold given_word; rewrite cut_word_nul, take_ge; [done|lia]).
  constructor; [constructor| |done].
  - apply Forall_app. split; [by apply entry_text_bytes|]. constructor; [unfold byte; lia|done].
  - rewrite Eg. lia.
  - by rewrite Eg.
  - by rewrite Eg.
Qed.

Lemma first_free_flags t j d d' : flags d = flags d' -> first_free (upd t j d) = first_free (upd t j d').
Proof.
  intros E. unfold first_free. f_equal. apply list_find_ext. intros q.
  assert (Eq : flags (at_ (upd t j d) q) = flags (at_ (upd t j d') q)); [|by rewrite Eq].
  unfold at_, upd. destruct (decide (Z.to_nat j = Z.to_nat q)) as [->|Hne];
    [|by rewrite !list_lookup_total_insert_ne by done].
  destruct (decide (Z.to_nat q < length t)%nat).
  - by rewrite !list_lookup_total_insert_eq by done.
  - by rewrite !list_insert_ge by lia.
Qed.

(** The name in the buffer, and the room for its NUL. *)
Lemma name_in_buffer name buf : (length name < length buf)%nat -> exists c r,
  name ++ drop (length name) buf = name ++ c :: r /\ zlen (name ++ 0 :: r) = zlen buf /\
  (Forall byte buf -> Forall byte r).
Proof.
  intros Hl. destruct (drop (length name) buf) as [|c r] eqn:E.
  - apply (f_equal length) in E. rewrite length_drop in E. simpl in E. lia.
  - exists c, r. split; [done|]. split.
    + apply (f_equal length) in E. rewrite length_drop in E. simpl in E. rewrite length_app. simpl. lia.
    + intros HF. apply (Forall_drop _ (length name)) in HF. rewrite E in HF. by apply Forall_cons in HF as [_ ?].
Qed.

Section directory.
Variables (w : nat -> surroundings) (fr : frame) (n : nat) (i : Z) (p : pcb) (j j2 : Z).
Variables (f : fs_state) (search : list Z) (data : nat -> list Z) (text : Z -> list Z).
Hypothesis (Wf : fs_wf f) (Ws : surr_wf (w 0%nat)) (Hj : 2 <= j < MAX_OPEN_FILES).
Hypothesis (Hj2 : first_free (upd (fd_table p) j (mkFd (Some dir_ops_table) (-1) 0 FD_ON)) = Some j2)
  (Hcl : at_ (fd_table p) j2 = closed_fd) (Hne2 : j2 <> j).
Hypothesis (Hs0 : 0 ∈ search) (Hs : cstr search <> []) (Hs31 : zlen search < 2 ^ 31).
Hypothesis (Hdata : forall m, fresh_buffer (data m)).
Hypothesis (Hentry : forall q, 0 <= q < num_entries f -> entry_text f q <> [] /\
  (~ hidden (entry_text f q) -> searchable f q (text q) /\ (length (text q) < n)%nat)).

(** The file whose name was just read. *)
Lemma grep_named m k1 d q buf : user k1 i p -> fs k1 = f -> flags d = FD_ON -> 0 <= q < num_entries f ->
  Forall byte buf -> zlen (entry_text f q ++ 0 :: buf) = 33 -> ~ hidden (entry_text f q) ->
  kwp (do_one_file w fr (w m) n search (entry_text f q ++ 0 :: buf) (data m))
    (fun r k' => r = 0 /\ exists k2, prints (grep_entry f (cstr search) text q) k1 k2 /\ k' = put_fd i p j d k2)
    nojump (put_fd i p j d k1).
Proof using All.
  intros U Ef Hd Hq Hb Hl Hh. destruct (Hentry q Hq) as [_ Hq2]. destruct (Hq2 Hh) as [Sq Hn].
  pose proof (user_put_fd k1 i p j d U ltac:(lia) ltac:(lia)) as U1. pose proof (wf_nentries _ Wf).
  eapply kwp_mono; [apply (grep_file w fr (w m) n _ i (with_fd j d p) j2 search (entry_text f q ++ 0 :: buf) (data m) (text q) U1)| |done].
  - by rewrite <- Ef in Wf.
  - done.
  - change (fs (put_fd i p j d k1)) with (fs k1). rewrite Ef. by apply searchable_file; [|lia| | |].
  - simpl. rewrite (first_free_flags _ _ _ (mkFd (Some dir_ops_table) (-1) 0 FD_ON)); done.
  - simpl. apply first_free_range in Hj2 as [Hr2 _]. by rewrite at_upd_ne by lia.
  - done.
  - done.
  - done.
  - apply elem_of_app. right. by left.
  - done.
  - done.
  - intros r k' [-> P]. split; [done|]. apply prints_put_fd in P as (k2 & -> & P). exists k2. split; [|done].
    unfold grep_entry. rewrite decide_False by done. rewrite (cstr_app (entry_text f q)) in P; [done|].
    unfold entry_text. apply cstr_idem.
Qed.

Lemma grep_loop_ok fuel : forall m buf d k1, user k1 i p -> fs k1 = f ->
  readable_fd (H := dir_stream) dir_ops_table f d -> zlen buf = 33 -> Forall byte buf ->
  (Z.to_nat (num_entries f - file_position d) < fuel)%nat ->
  kwp (grep_loop w fr n fuel j search data (m, buf))
    (fun r k' => r = 0 /\ exists d' k2, prints (concat (grep_entry f (cstr search) text <$>
      seqZ (file_position d) (num_entries f - file_position d))) k1 k2 /\ k' = put_fd i p j d' k2)
    nojump (put_fd i p j d k1).
Proof using All.
  induction fuel as [|fuel IH]; intros m buf d k1 U Ef D Hb Hbb Hf; [lia|].
  unfold grep_loop. rewrite kloop_S. fold (grep_loop w fr n fuel j search data). kwp_step. kwp_step.
  change (SBUFSIZE - 1) with 32.
  eapply kwp_eq; [apply (ece391_read_stream (H := dir_stream) (w 0%nat) fr dir_ops_table 32 ltac:(lia)
    (dir_driver_read _) i p j ltac:(lia) ltac:(lia) k1 d buf U); [by rewrite Ef|lia|lia]|].
  rewrite Ef. pose proof (readable_step dir_ops_table 32 ltac:(lia) (dir_step_keeps 32) f d D) as D'.
  pose proof (wf_nentries _ Wf) as Hne. unfold MAX_ENTRIES in Hne. destruct D as [[_ Hp] _ Hon]. unfold received. cbv iota beta.
  change (st_next f d 32) with (dir_next f d 32). change (st_step f d 32) with (dir_step f d 32) in *.
  unfold dir_next, dir_step in *. destruct_decide (decide (file_position d < num_entries f)) as Hlt.
  - set (q := file_position d) in *. pose proof (entry_text_length f q) as Hel. rewrite take_ge by lia.
    destruct (Hentry q) as [Hqne _]; [lia|].
    destruct (name_in_buffer (entry_text f q) buf) as (c & r & E & Hlr & Hbr); [lia|]. rewrite E.
    assert (Hz : 0 < zlen (entry_text f q)) by (destruct (entry_text f q); [done|simpl; lia]).
    rewrite !decide_False by lia. rewrite seqZ_cons by lia.
    assert (Epos : file_position (advance 1 d) = Z.succ q) by (unfold advance; simpl; fold q; rewrite u32_id; lia).
    kwp_step. kwp_step. rewrite rd_ok by (rewrite length_app; lia). rewrite at_app by lia. rewrite decide_True by lia.
    cbn [fmap list_fmap concat wp]. case_decide as Hh.
    + kwp_step. eapply kwp_mono; [apply (IH m _ (advance 1 d) k1 U Ef D')| |done].
      * rewrite length_app in *. simpl in *. lia.
      * rewrite <- E. apply Forall_app. split; [apply entry_text_bytes; [done|unfold MAX_ENTRIES; lia]|by apply Forall_drop].
      * rewrite Epos. lia.
      * rewrite Epos. unfold grep_entry at 2. rewrite (decide_True (P := hidden _)) by done.
        by replace (num_entries f - Z.succ q) with (Z.pred (num_entries f - q)) by lia.
    + kwp_step. kwp_step. rewrite wr_here. kwp_step. kwp_step.
      eapply kwp_mono; [apply (grep_named m k1 (advance 1 d) q r U Ef Hon)| |done].
      * lia.
      * by apply Hbr.
      * lia.
      * done.
      * intros v k2 (-> & k3 & P & ->). cbv beta. rewrite (decide_False (P := 0 <> 0)) by lia. kwp_step.
        eapply kwp_mono; [apply (IH (Datatypes.S m) _ (advance 1 d) k3)| |done].
        -- by eapply user_prints.
        -- by rewrite (prints_fs _ _ _ P).
        -- done.
        -- lia.
        -- apply Forall_app. split; [apply entry_text_bytes; [done|unfold MAX_ENTRIES; lia]|]. constructor; [unfold byte; lia|by apply Hbr].
        -- rewrite Epos. lia.
        -- rewrite Epos. intros v k' (-> & d2 & k4 & P2 & ->). split; [done|]. exists d2, k4. split; [|done].
           replace (num_entries f - Z.succ q) with (Z.pred (num_entries f - q)) in P2 by lia. by eapply prints_app.
  - rewrite decide_True by done. do 2 kwp_step. split; [done|]. exists d, k1. split; [|done].
    replace (num_entries f - file_position d) with 0 by lia. apply prints_nil, U.
Qed.
End directory.

(** * The program *)
Lemma args_pattern a buf : length a = 128%nat -> zlen buf = 1024 ->
  cstr (args_buffer a buf 1024) = cstr (rtrim a) /\ 0 ∈ args_buffer a buf 1024 /\ zlen (args_buffer a buf 1024) = 1024.
Proof.
  intros Ha Hb. destruct (rtrim_trimmed a) as [_ Hl _ _]. unfold args_buffer, over.
  destruct (Z.to_nat 1024 - length (rtrim a))%nat as [|m] eqn:Em; [lia|]. rewrite replicate_S. split_and!.
  - rewrite <- app_assoc. apply cstr_app_nul.
  - apply elem_of_app. left. apply elem_of_app. right. by left.
  - rewrite !length_app, length_drop. cbn [length]. rewrite length_replicate. lia.
Qed.

(** C9: grep prints exactly the matching lines: over a directory whose files,
    the hidden ones apart, are texts without NUL bytes and with lines shorter
    than its 1024-byte buffer, it prints, file by file in directory order, the
    name, a colon and the line for each line that contains the pattern given
    as the argument, and nothing else, then returns 0 with every file closed
    again; no line is lost, doubled or torn where the buffer ends, provided
    the byte past the buffer is not a newline at the start. *)
Theorem grep_shows w fr fuel k i p j j2 e buf search data text :
  user k i p -> fs_wf (fs k) -> surr_wf (w 0%nat) ->
  length (args p) = 128%nat -> cstr (rtrim (args p)) <> [] ->
  first_entry (fs k) (chars ".") = Some e -> type_of (fs k) e = 1 -> first_free (fd_table p) = Some j ->
  first_free (upd (fd_table p) j (mkFd (Some dir_ops_table) (-1) 0 FD_ON)) = Some j2 ->
  at_ (fd_table p) j2 = closed_fd ->
  (forall q, 0 <= q < num_entries (fs k) -> entry_text (fs k) q <> [] /\
    (~ hidden (entry_text (fs k) q) -> searchable (fs k) q (text q) /\ (length (text q) < fuel)%nat)) ->
  zlen buf = 33 -> Forall byte buf -> zlen search = 1024 -> (forall m, fresh_buffer (data m)) ->
  num_entries (fs k) < Z.of_nat fuel ->
  kwp (grep_main w fr fuel buf search data)
    (read_out k i p j (concat (grep_entry (fs k) (cstr (rtrim (args p))) text <$> seqZ 0 (num_entries (fs k)))))
    nojump k.
Proof.
  intros U Wf Ws Ha Hs He Ht Hj Hj2 Hcl Hent Hb Hbb Hsl Hdata Hfuel. pose proof (first_free_range _ _ Hj) as [Hr _].
  unfold grep_main. kwp_step. destruct (args_pattern (args p) search Ha Hsl) as (Epat & H0 & Hl).
  assert (Hrt : rtrim (args p) <> []) by (intros E; by rewrite E in Hs).
  assert (Ha0 : at_ (args p) 0 <> 0).
  { intros E. apply Hs. destruct (rtrim_trimmed (args p)) as [Hp _ _ _]. destruct (rtrim (args p)) as [|c l]; [done|].
    assert (Ec : at_ (c :: l) 0 = 0) by (rewrite Hp, at_take by (simpl; lia); done).
    rewrite at_cons in Ec by lia. rewrite decide_True in Ec by lia. by subst c. }
  assert (G : getargs (Some search) (i32 1024) k = Ok (Returned (0, Some (args_buffer (args p) search 1024)), k)).
  { change (i32 1024) with 1024. rewrite (getargs_ok k i p search 1024 (us_run _ _ _ U) Ha) by (done || lia).
    by rewrite decide_False. }
  apply getargs_wp. eapply kwp_eq; [exact G|]. split; [done|]. cbn [fst snd default].
  set (pat := args_buffer (args p) search 1024) in *. cbv iota beta. rewrite (decide_False (P := 0 <> 0)) by auto. kwp_step.
  assert (A : file_name_arg (fs k) (lit "."))
    by (constructor; [by apply (bool_decide_unpack _); vm_compute|by split; vm_compute|done]).
  set (d := mkFd (Some dir_ops_table) (-1) 0 FD_ON) in *.
  eapply kwp_eq; [apply (open_word k i p (w 0%nat) fr (lit ".") j d e U Wf Ws A He Hj); by left|].
  rewrite (decide_False (P := j = -1)) by lia.
  pose proof (wf_nentries _ Wf) as Hne.
  assert (D : readable_fd (H := dir_stream) dir_ops_table (fs k) d) by (constructor; [constructor; [done|simpl; lia]|done|done]).
  eapply kwp_mono; [apply (grep_loop_ok w fr fuel i p j j2 (fs k) pat data text Wf Ws ltac:(lia) Hj2 Hcl)| |done]; try done.
  - intros ->. apply first_free_range in Hj2 as [_ Hfl]. pose proof (us_fds _ _ _ U) as Hfd. unfold MAX_OPEN_FILES in *.
    by rewrite at_upd_eq in Hfl by lia.
  - by rewrite Epat.
  - lia.
  - simpl. lia.
  - rewrite Epat. simpl. rewrite Z.sub_0_r. intros r k' (-> & d' & k1 & P & ->). split; [done|]. by exists d', k1.
Qed.
