(* ===== verification/Sample.v ===== *)
(** A small machine for the examples: a file system with the directory
    itself, the RTC device, a text file and the programs ["shell"] and ["cat"]; three
    processes, one in each terminal; paging as [paging_init] leaves it with
    the video windows of terminals 1 and 2 on their backup pages.

    Examples apply the theorems of the other files to it. *)

From S2P Require Import Prelude Hardware Screen FileSystem Pic Idt Segments Rtc Paging Kernel FdTable.
From S2P Require Import Process Lifecycle Terminals Testcases Keyboard KeyboardSpec Waiting WaitingSpec Syscall.
From S2P Require Import SyscallSpec Streams UserSpec RunSpec.

(** * The disk *)

(** A 40-byte executable whose entry point is 0x08048094. *)
Definition sample_program : list Z :=
  [0x7f; 0x45; 0x4c; 0x46] ++ replicate 20 0 ++ [0x94; 0x80; 0x04; 0x08] ++ replicate 12 0x90.

Definition machine_image : list (list Z) :=
  [ pad 4096 (pad 64 (word_bytes 5 ++ word_bytes 3 ++ word_bytes 3)
      ++ dentry_bytes (chars ".") 1 0 ++ dentry_bytes (chars "rtc") 0 0
      ++ dentry_bytes (chars "frame0.txt") 2 1 ++ dentry_bytes (chars "shell") 2 2
      ++ dentry_bytes (chars "cat") 2 2);
    pad 4096 (word_bytes 0);
    pad 4096 (word_bytes 4100 ++ word_bytes 2 ++ word_bytes 0);
    pad 4096 (word_bytes 40 ++ word_bytes 1);
    replicate 4096 65; pad 4096 sample_program; replicate 4096 67 ].

Definition machine_fs : fs_state :=
  match filesystem_init_overlay machine_image with
  | Ok fs => fs
  | _ => mkFs [] 0 0 0 0 0 0 0 []
  end.

(** * The kernel *)
Definition sample_link : link_map :=
  mkLink 0x401000 0x402000 0x403000 0x404000 0x405000 (fun i => 0x400100 + 16 * i)
    0x400500 0x400600 0x400700 0x400800.

Definition zero_tables : tables :=
  mkTables (replicate 1024 0) (replicate 1024 0) (replicate 1024 0).
Definition booted_paging : paging_state :=
  paging_init 0x401000 0x402000 0x403000 (mkPaging zero_tables zero_tables 1 0 0).
Definition sample_paging : paging_state :=
  map_virt_to_phys 0x403000 (video_window 2) (backup 2 + 7)
    (map_virt_to_phys 0x403000 (video_window 1) (backup 1 + 7) booted_paging).

Definition sample_pcb (i : Z) (line : string) : pcb :=
  mkPcb i (-1) (slot_addr i + 0x1f00) (slot_addr i + 0x1f20) (slot_addr i + 0x1e00) (slot_addr i + 0x1e20)
    (over (chars line) (replicate 128 0)) initial_fds.

Definition sample_procs : proc_state :=
  mkProcs ((fun i => Some (slot_addr i)) <$> seqZ 0 8) [1; 1; 1; 0; 0; 0; 0; 0] [0; 1; 2]
    (list_to_map ((fun i => (slot_addr i, sample_pcb i (if decide (i = 0) then "frame0.txt" else "")))
      <$> seqZ 0 8))
    (replicate 3 (replicate 128 0)).

Definition sample_io (answers : list Z) : io_state :=
  mkIO true [] (fun n => default 0 (answers !! n)) 0.

(** The devices give [answers], then zeros. *)
Definition machine (answers : list Z) : kernel :=
  mkKernel sample_link (mkLib [0; 0; 0] [0; 0; 0] 0 0 ∅ (sample_io answers)) machine_fs sample_procs
    (fun t => driver_ops (table_driver t)) (mkRtc 0 15 2 (mkTime 0 0 0 1 1 2017))
    (mkKbd 0 0 [0; 0; 0] 0 0 [0; 0; 0] (replicate 3 (replicate 128 0)) 0)
    (replicate 3 (replicate 128 0)) sample_paging (mkCpu 0 0x18 0 0 (mkSegs static_gdt KERNEL_LDT KERNEL_TSS KERNEL_LDT)) (0xF8, 0xFE)
    (replicate 256 inhabitant).

Definition sample_frame : frame :=
  mkFrame (replicate 128 7) (replicate 32 7) (mkDentry (replicate 32 7) 9 9) (replicate 28 7)
    (mkDentry (replicate 32 7) 9 9) 0x007FBF00 0x007FBF20.
Definition sample_surroundings : surroundings :=
  mkSurr (mkDentry (replicate 32 7) 9 9) (mkDentry (replicate 32 7) 9 9) (fun _ => 0) [].

(** Unfold the kernel's record before the computed parts. *)
#[global] Strategy 1000 [machine_fs machine_image booted_paging sample_paging].

(** * It is well formed *)
Lemma machine_image_wf : image_wf machine_image.
Proof.
  constructor.
  - apply (bool_decide_unpack _). by vm_compute.
  - by vm_compute.
  - by vm_compute.
  - change (word_at machine_image 4) with 3. intros k Hk.
    assert (k = 0 \/ k = 1 \/ k = 2) as [->|[->| ->]] by lia; by vm_compute.
  - change (word_at machine_image 4) with 3. change (word_at machine_image 8) with 3. intros k j Hk Hj.
    assert (k = 0 \/ k = 1 \/ k = 2) as [->|[->| ->]] by lia.
    + change (word_at machine_image (BLOCK * (1 + 0))) with 0. unfold BLOCK. lia.
    + change (word_at machine_image (BLOCK * (1 + 1))) with 4100. unfold BLOCK. intros Hb.
      assert (j = 0 \/ j = 1) as [->| ->] by lia; by vm_compute.
    + change (word_at machine_image (BLOCK * (1 + 2))) with 40. unfold BLOCK. intros Hb.
      assert (j = 0) as -> by lia; by vm_compute.
Qed.

Lemma machine_fs_wf : fs_wf machine_fs.
Proof.
  pose proof (filesystem_init_ok _ machine_image_wf) as H. unfold machine_fs.
  destruct (filesystem_init_overlay machine_image); [apply H|done..].
Qed.

Lemma machine_running a : running (machine a) 0 (sample_pcb 0 "frame0.txt").
Proof. constructor; by vm_compute. Qed.

Lemma machine_con a : con_wf (lib (machine a)).
Proof. constructor; try done; by apply (bool_decide_unpack _). Qed.

Lemma machine_ops a : ops_ready (machine a).
Proof. by constructor. Qed.

Lemma slots8 i : 0 <= i < MAX_PROCESSES ->
  i = 0 \/ i = 1 \/ i = 2 \/ i = 3 \/ i = 4 \/ i = 5 \/ i = 6 \/ i = 7.
Proof. unfold MAX_PROCESSES. lia. Qed.

Lemma machine_procs a : procs_wf (machine a).
Proof.
  constructor; try done.
  - split; [done|]. by apply (bool_decide_unpack _).
  - intros i Hi%slots8. exists (sample_pcb i (if decide (i = 0) then "frame0.txt" else "")).
    destruct Hi as [->|[->|[->|[->|[->|[->|[->| ->]]]]]]]; (split_and!; by vm_compute).
  - intros i Hi%slots8. right. by destruct Hi as [->|[->|[->|[->|[->|[->|[->| ->]]]]]]].
Qed.

Lemma sample_frame_wf : frame_wf sample_frame.
Proof. constructor; try done. by apply (bool_decide_unpack _). Qed.

Lemma sample_surr_wf : surr_wf sample_surroundings.
Proof. done. Qed.

Lemma sample_linked : linked 0x401000 0x402000 0x403000.
Proof. by constructor. Qed.

Lemma zero_tables_wf : tables_wf zero_tables.
Proof. by constructor. Qed.

Lemma sample_paging_inv : paging_inv 0x401000 0x402000 0x403000 sample_paging.
Proof.
  unfold sample_paging, booted_paging.
  apply map_virt_to_phys_inv; [apply sample_linked|by apply window_dir|].
  apply map_virt_to_phys_inv; [apply sample_linked|by apply window_dir|].
  apply paging_init_inv; [apply sample_linked|apply zero_tables_wf].
Qed.

Lemma machine_video a : video_wf (machine a).
Proof.
  constructor; [apply sample_linked|apply sample_paging_inv|].
  unfold MAX_TERMINAL. simpl. intros t Ht Ht0. exists true.
  assert (t = 1 \/ t = 2) as [->| ->] by lia; by vm_compute.
Qed.

(** Nothing typed yet. *)
Definition no_edit : edit := mkEdit false false false false [] [] false.

Lemma machine_keyboard a : kbd_rep (machine a) no_edit.
Proof. by constructor. Qed.

Lemma machine_idle a : idle (machine a) no_edit.
Proof.
  constructor; [apply machine_keyboard|apply machine_con|done|]. intros [| |]; by vm_compute.
Qed.

Lemma machine_shell : program machine_fs (chars "shell") 3.
Proof. constructor; (by vm_compute) || (split; by vm_compute). Qed.

Definition shell_line : list Z := lit "shell frame0.txt".
Lemma shell_command : command_line shell_line.
Proof. constructor; (by apply (bool_decide_unpack _); vm_compute) || (split; by vm_compute) || by vm_compute. Qed.

Lemma machine_ready a : ready (machine a) 0 (sample_pcb 0 "frame0.txt").
Proof.
  split.
  - split; [apply machine_running|by vm_compute|apply machine_ops|apply machine_con| |].
    + split; [done|]. split; by vm_compute.
    + split; [done|]. by apply (bool_decide_unpack _).
  - apply machine_procs.
  - apply machine_fs_wf.
  - apply inv_wf with (1 := sample_paging_inv).
  - by vm_compute.
Qed.

(** What the keyboard handler finds on its stack. *)
Definition no_junk : junk :=
  mkJunk sample_frame (mkDentry (replicate 32 7) 9 9) (replicate 500 7) (fun _ => 0).

(** Decidable goals by evaluation. *)
Ltac evaluate := first [by vm_compute | by apply (bool_decide_unpack _); vm_compute | done | lia].
