(* ===== verification/FishExamples.v ===== *)
(** The theorems about the fish animation at concrete inputs: the program's
    data at its start, in the kernel vidmap leaves. *)

From S2P Require Import Prelude Hardware CLib Screen Paging Kernel Process Terminals Waiting Syscall Vidmap.
From S2P Require Import UserLib UserSpec Programs Fish FishSpec Sample.

Definition before_vidmap : kernel := with_paging (add_process 0 sample_paging) (machine []).
Definition fish_kernel : kernel := windowed before_vidmap 0x900000.
Definition fish_start : fish_state := mkFish (replicate (Z.to_nat BLINKS) zero_blink) None (video_window 0).

(** The letters of [fish.c]'s main. *)
Definition I_blink : mp1_blink_struct := mkBlink 540 73 77 7 6 0 0 None.
Definition zero_place : mp1_blink_struct := mkBlink 0 73 77 7 6 0 0 None.

Lemma fish_window : window (vmem_base_addr fish_start) VIDEO fish_kernel.
Proof.
  apply (video_mode_ok sample_surroundings sample_frame fish_start before_vidmap 0x08100000 0x900000 true).
  - apply sample_linked.
  - apply add_process_inv, sample_paging_inv.
  - split; evaluate.
  - split; evaluate.
  - evaluate.
Qed.

(** Two letters, some ticks, the clock of one copied to the other, and the
    removal of the loop counter, which finds nothing. *)
Definition fish_requests : list request :=
  [Add I_blink; Add (mkBlink 40 65 66 15 15 0 0 None); Tick; Tick;
   Sync (Z.lor (Z.shiftl 40 16) 540); Remove WAIT; Remove 540; Tick].

Lemma fish_refines_witness :
  (spec_all fish_requests (shown fish_start [])).1.1 = [0; 0; 0; 0; 0; -1; 0; 0] /\
  let '(vs, bs, ws) := spec_all fish_requests (shown fish_start []) in
  exists f', perform_all sample_frame 2001 fish_requests fish_start fish_kernel =
      Ok (Returned (vs, f'), paint VIDEO ws fish_kernel) /\
    vmem_base_addr f' = vmem_base_addr fish_start /\ exists l', blinks f' l' /\ shown f' l' = bs.
Proof.
  split; [by vm_compute|].
  apply (fish_refines sample_frame 2001 VIDEO fish_start [] fish_kernel fish_requests).
  - apply blinks_start.
  - apply fish_window.
  - repeat constructor; simpl; lia.
  - lia.
Defined.

Lemma blink_alternates_witness :
  exists vs f' k', perform_all sample_frame 2001 (Add I_blink :: replicate 10 Tick) fish_start fish_kernel =
      Ok (Returned (vs, f'), k') /\ get (lib_mem (lib k')) (VIDEO + 1080) = 77.
Proof.
  refine (blink_alternates sample_frame 2001 VIDEO fish_start [] fish_kernel I_blink 10
    (blinks_start _) fish_window _ _ _ _ _ _).
  - simpl. lia.
  - lia.
  - split; evaluate.
  - intros x Hx. by apply elem_of_nil in Hx.
  - split; evaluate.
  - split; evaluate.
Defined.

Lemma add_zero_spins_witness :
  exists f' k', perform_all sample_frame 0 [Add zero_place; Add I_blink] fish_start fish_kernel =
      Ok (Returned ([0; 0], f'), k') /\
    forall n, mp1_rtc_tasklet sample_frame n f' k' = NoFuel.
Proof.
  destruct (add_zero_spins sample_frame VIDEO fish_start [] fish_kernel zero_place I_blink
    (blinks_start _) fish_window) as (f' & E & H).
  - simpl. lia.
  - done.
  - split; evaluate.
  - eexists _, _. split; [exact E|exact H].
Defined.
