(* ===== verification/BootExamples.v ===== *)
(** Booting the sample machine: its image as the boot loader's only module. *)

From S2P Require Import Prelude Hardware Screen FileSystem Idt Segments Rtc Paging Kernel FdTable Process.
From S2P Require Import Lifecycle Terminals KeyboardSpec ShellSpec Boot BootSpec Sample.

(** The static variables are zero. *)
Definition cold_machine : kernel :=
  mkKernel sample_link (mkLib [0; 0; 0] [0; 0; 0] 0 0 ∅ (mkIO false [] (fun _ => 0) 0)) (mkFs [] 0 0 0 0 0 0 0 [])
    (mkProcs (replicate 8 None) (replicate 8 0) [0; 0; 0] (pcbs sample_procs) (replicate 3 (replicate 128 0)))
    (fun _ => mkOps None None None None) (mkRtc 0 0 0 (mkTime 0 0 0 0 0 0))
    (mkKbd 0 0 [0; 0; 0] 0 0 [0; 0; 0] (replicate 3 (replicate 128 0)) 0)
    (replicate 3 (replicate 128 0)) (mkPaging zero_tables zero_tables 1 0 0)
    (mkCpu 0 0 0 0 (mkSegs static_gdt 0 0 0)) (0, 0) (replicate 256 inhabitant).

Definition image_module : module_t := mkModule 0x10000 0x18000 (lit "/filesys_img") machine_image.
(** Memory sizes, command line and modules. *)
Definition sample_mbi : multiboot_info_t :=
  mkMbi 0xD 640 31744 0 (lit "/bootimg") [image_module] (mkElf 0 0 0 0) 0 0 [].
Definition no_desc : seg_desc_t := mkSeg 7 7 7 7 1 3 0 7 1 1 0 1 7.

Lemma cold_start : at_start cold_machine.
Proof.
  split; try reflexivity.
  - apply sample_linked.
  - constructor; try done; by apply (bool_decide_unpack _).
  - apply zero_tables_wf.
  - intros i Hi. unfold PAGE_SIZE in Hi. apply (at_replicate 1024 0). lia.
  - split; [done|]. by apply (bool_decide_unpack _); vm_compute.
  - intros i Hi. destruct (pw_blocks _ (machine_procs []) i Hi) as (p & H). by exists p.
  - split; [done|]. by apply (bool_decide_unpack _); vm_compute.
  - done.
Qed.

Lemma machine_image_fs : filesystem_init_overlay machine_image = Ok machine_fs.
Proof.
  pose proof (filesystem_init_ok _ machine_image_wf) as H. unfold machine_fs.
  by destruct (filesystem_init_overlay machine_image).
Qed.

Lemma image_module_ok : module_ok image_module.
Proof.
  constructor; [split; [by apply (bool_decide_unpack _); vm_compute|split; [by left; apply (bool_decide_unpack _); vm_compute|by vm_compute]]|].
  intros i Hi. cbn [image_module mod_image]. unfold img_byte. replace (i / BLOCK) with 0 by (symmetry; apply Z.div_small; unfold BLOCK; lia).
  rewrite Z.mod_small by (unfold BLOCK; lia). assert (El : zlen machine_image = 7) by by vm_compute. rewrite rd_ok by lia. cbn [mbind outcome_bind].
  exists (at_ (at_ machine_image 0) i). apply rd_ok. assert (E : zlen (at_ machine_image 0) = 4096) by by vm_compute. lia.
Qed.

Lemma sample_mbi_ok : mbi_ok sample_mbi.
Proof.
  split; [intros _; by apply (bool_decide_unpack _); vm_compute| |done].
  split; [done|]. apply Forall_singleton. split; [exact image_module_ok|]. intros _. exists machine_fs. exact machine_image_fs.
Qed.

Lemma sample_filesys : filesys_of None (mods sample_mbi) = Some machine_image.
Proof.
  unfold filesys_of. cbn [mods sample_mbi foldl]. assert (E : is_filesys image_module = true) by by vm_compute. by rewrite E.
Qed.

Lemma entry_boots_witness :
  kwp (entry sample_frame no_desc no_desc (fun _ => 0) MULTIBOOT_BOOTLOADER_MAGIC sample_mbi) (fun _ _ => False) (fun t k' =>
    t = ToUser (entry_of (contents machine_fs (inode_of machine_fs 3))) 0x83FFFFC /\
    (exists p, prompt k' 0 p fresh_edit /\ parent_id p = -1) /\ view (lib k') = t_clear /\
    booted cold_machine machine_fs no_desc no_desc k') cold_machine.
Proof.
  exact (entry_boots cold_machine sample_frame no_desc no_desc (fun _ => 0) sample_mbi machine_image machine_fs 3
    cold_start (eq_refl _) sample_frame_wf sample_mbi_ok sample_filesys machine_image_fs machine_fs_wf machine_shell).
Defined.
