(* ===== verification/Examples.v ===== *)
(** The theorems at concrete inputs: each [_witness] applies its theorem to
    the machine of [Sample] or to a small literal. *)

From S2P Require Import Prelude CLib Hardware Screen Printf FileSystem Pic Idt Rtc MemOps.
From S2P Require Import Paging Kernel FdTable Drivers Streams Process CmdLine Lifecycle.
From S2P Require Import Terminals Keyboard KeyboardSpec Waiting WaitingSpec Syscall.
From S2P Require Import SyscallSpec Getargs Vidmap Sample.

(** * The C library *)
Lemma itoa_parses_witness :
  exists buf, itoa 3054 (replicate 40 7) 16 = Ok buf /\ parse_numeral 16 (cstr buf) = 3054.
Proof. apply itoa_parses; evaluate. Defined.

Lemma memset_ok_witness : wp (memset 4099 300 10 ∅) (filled 4099 10 (fun _ => 44) ∅).
Proof. apply (memset_ok 4099 300 10 ∅). evaluate. Defined.

Lemma memmove_ok_witness :
  let m := put (put ∅ 100 1) 101 2 in
  filled 101 2 (fun i => get m (100 + i)) m (memmove 101 100 2 m).1.
Proof. apply memmove_ok. evaluate. Defined.

Lemma update_cursor_position_witness :
  vga_position (io_trace (lib_io (update_cursor (lib (machine []))))) = 0.
Proof. rewrite update_cursor_position; [by vm_compute|apply machine_con]. Defined.

(** * The file system *)
Lemma read_dentry_by_index_spec_witness :
  read_dentry_by_index machine_fs 2 (mkDentry (replicate 32 7) 9 9) =
  Ok (0, mkDentry (chars "frame0.txt" ++ replicate 22 7) 2 1).
Proof.
  rewrite (read_dentry_by_index_spec _ machine_fs_wf); [by vm_compute|evaluate|evaluate].
Defined.

Lemma read_dentry_by_index_beyond_witness :
  read_dentry_by_index machine_fs 63 (mkDentry (replicate 32 7) 9 9) = Fault.
Proof. rewrite (read_dentry_by_index_beyond _ machine_fs_wf); evaluate. Defined.

(** A descriptor of the 4100-byte file at position 4094. *)
Definition open_frame : fd_t := mkFd (Some filesys_ops_table) 1 4094 FD_ON.
Lemma open_frame_ok : file_ok machine_fs open_frame.
Proof. constructor; [apply machine_fs_wf|evaluate|evaluate|split; evaluate]. Qed.

(** It is descriptor 2 of the running process. *)
Definition frame_pcb : pcb := set_fd_table (upd initial_fds 2 open_frame) (sample_pcb 0 "frame0.txt").
Definition frame_kernel : kernel := put_running 0 frame_pcb (machine []).
Lemma file_all_witness : read_file_all 7 2 (replicate 8 7) 4 frame_kernel =
  Ok (Returned [67; 67; 65; 65; 65; 65], put_fd 0 frame_pcb 2 (at_end machine_fs open_frame) frame_kernel).
Proof.
  assert (E : at_ (fd_table frame_pcb) 2 = open_frame) by reflexivity.
  assert (B : drop (Z.to_nat 4094) (contents machine_fs 1) = [67; 67; 65; 65; 65; 65]) by by vm_compute.
  rewrite <- B. pose proof (file_all frame_kernel 0 frame_pcb 2 4) as H. rewrite E in H. apply H.
  - eapply running_put, machine_running.
  - evaluate.
  - split; evaluate.
  - split; evaluate.
  - apply open_frame_ok.
  - split; evaluate.
  - by vm_compute.
Defined.

(** * Interrupts and the clock *)
Lemma enable_irq_on_witness : irq_on (enable_irq 8 (mkPic 0xFB 0xFF (sample_io []))) 8 = true.
Proof. rewrite enable_irq_on; evaluate. Defined.

Lemma send_eoi_trace_witness :
  io_trace (send_eoi 8 (sample_io [])) = [Out 0x60 0xA0 true; Out 0x62 0x20 true].
Proof. rewrite send_eoi_trace; evaluate. Defined.

Lemma idt_init_gates_witness :
  gate_of (at_ (idt_init (fun i => 0x400100 + 16 * i) 0x400500 (replicate 256 inhabitant)) 0x80) =
  vector_spec (fun i => 0x400100 + 16 * i) 0x400500 0x80.
Proof. apply idt_init_gates; evaluate. Defined.

Lemma convert_cmos_time_witness :
  convert_time 2 (mkTime 0x59 0x07 0x23 0x31 0x12 0x17) = mkTime 59 7 23 31 12 2017.
Proof. apply (convert_cmos_time 2 (mkTime 59 7 23 31 12 2017)); evaluate. Defined.

Lemma convert_cmos_time_12_witness :
  convert_time 0 (cmos_time_12 (mkTime 0 30 12 5 6 2017)) = mkTime 0 30 0 5 6 2017.
Proof. rewrite convert_cmos_time_12; evaluate. Defined.

(** * Paging *)
Lemma translate_paging_init_witness :
  translate 0x401000 0x402000 0x403000 booted_paging 0x400123 = Some (Mapped 0x400123 false).
Proof.
  unfold booted_paging. rewrite translate_paging_init;
    [by vm_compute|apply sample_linked|apply zero_tables_wf| |evaluate].
  intros i Hi. unfold PAGE_SIZE in Hi. apply (at_replicate 1024 0). lia.
Defined.

(** * Processes *)
Lemma execute_not_found_witness :
  execute sample_frame (Some (lit "nosuch x")) (machine []) =
  Ok (Returned (-1), with_cmd_row (parsed_row (lit "nosuch x") (machine [])) (machine [])).
Proof.
  apply (execute_not_found (machine []) sample_frame (lit "nosuch x") (machine_procs [])
    machine_fs_wf sample_frame_wf).
  - constructor; (by vm_compute) || evaluate || (split; evaluate).
  - intros e E. vm_compute in E. discriminate E.
Defined.

Lemma execute_bad_magic_witness :
  execute sample_frame (Some (lit "frame0.txt")) (machine []) =
  Ok (Returned (-1), spawned (lit "frame0.txt") 3 (sample_pcb 3 "") (machine [])).
Proof.
  apply (execute_bad_magic (machine []) sample_frame (lit "frame0.txt") (machine_procs [])
    machine_fs_wf sample_frame_wf) with (e := 2).
  - constructor; evaluate || (split; evaluate).
  - evaluate.
  - evaluate.
  - split; evaluate.
  - intros E. vm_compute in E. discriminate E.
  - evaluate.
  - evaluate.
  - evaluate.
Defined.

Lemma execute_halt_witness : exists k1 k2,
  execute sample_frame (Some shell_line) (machine []) = Ok (Jump (ToUser 0x08048094 138412028), k1) /\
  halt sample_frame 7 k1 = Ok (Jump (ToExecuteReturn 0x007FBF00 0x007FBF20 7), k2) /\
  in_use (procs k2) = [1; 1; 1; 0; 0; 0; 0; 0].
Proof.
  destruct (execute_halt (machine []) sample_frame sample_frame shell_line 3 3 (sample_pcb 3 "") 0
    (sample_pcb 0 "frame0.txt") 7 (machine_procs []) machine_fs_wf sample_frame_wf shell_command)
    as (k1 & k2 & E1 & E2 & U & _).
  - apply sample_paging_inv.
  - change (program_name shell_line) with (chars "shell"). apply machine_shell.
  - evaluate.
  - split; evaluate.
  - evaluate.
  - apply machine_running.
  - evaluate.
  - evaluate.
  - exists k1, k2. split; [|split; [exact E2|exact U]]. rewrite E1. by vm_compute.
Defined.

Lemma terminal_switch_switches_witness : exists k',
  terminal_switch sample_frame 2 (machine []) =
    Ok (Jump (ToStack (return_esp (sample_pcb 2 "")) (return_ebp (sample_pcb 2 ""))), k') /\
  switched sample_frame 2 0 2 (sample_pcb 0 "frame0.txt") (machine []) k'.
Proof.
  apply terminal_switch_switches. constructor;
    [apply machine_video|apply machine_running|..]; evaluate || (split; evaluate).
Defined.

(** * System calls *)
Lemma first_free_initial : first_free initial_fds = Some 2.
Proof. by vm_compute. Qed.

Lemma frame_name : file_name_arg machine_fs (lit "frame0.txt").
Proof. constructor; evaluate || (split; evaluate) || (intros E; vm_compute in E; discriminate E). Qed.

Lemma open_read_ok_witness :
  let d pos := mkFd (Some filesys_ops_table) 1 pos FD_ON in
  let k1 := put_fd 0 (sample_pcb 0 "frame0.txt") 2 (d 0) (machine []) in
  open sample_surroundings (Some (lit "frame0.txt")) (machine []) = Ok (Returned 2, k1) /\
  read sample_surroundings 2 (Some (replicate 5 0)) 3 k1 =
    Ok (Returned (3, Some [67; 67; 67; 0; 0]), put_fd 0 (sample_pcb 0 "frame0.txt") 2 (d 3) (machine [])).
Proof.
  destruct (open_read_ok (machine []) 0 (sample_pcb 0 "frame0.txt") sample_surroundings (lit "frame0.txt")
    2 2 (replicate 5 0) 3 (machine_running []) eq_refl (machine_ops []) machine_fs_wf sample_surr_wf frame_name
    ltac:(evaluate) ltac:(evaluate) ltac:(split; evaluate) ltac:(evaluate) first_free_initial
    ltac:(split; evaluate) ltac:(evaluate)) as [E1 E2].
  assert (M : 3 `min` zlen (contents machine_fs 1) = 3) by evaluate.
  assert (B : over (take (Z.to_nat 3) (contents machine_fs 1)) (replicate 5 0) = [67; 67; 67; 0; 0]) by evaluate.
  assert (I : inode_of machine_fs 2 = 1) by evaluate.
  change (fs (machine [])) with machine_fs in *.
  cbv zeta in E1, E2. rewrite I in E1, E2. rewrite M, B in E2. split; [exact E1|exact E2].
Defined.

Lemma open_missing_witness :
  open sample_surroundings (Some (lit "nosuch")) (machine []) = Ok (Returned (-1), machine []).
Proof.
  apply (open_missing (machine []) 0 (sample_pcb 0 "frame0.txt") sample_surroundings (lit "nosuch")
    (machine_running []) eq_refl (machine_ops []) machine_fs_wf sample_surr_wf).
  - constructor; evaluate || (split; evaluate) || (intros E; vm_compute in E; discriminate E).
  - evaluate.
Defined.

Lemma getargs_short_witness :
  getargs (Some (replicate 12 7)) 12 (machine []) =
  Ok (Returned (-1, Some (chars "frame0.txt" ++ [0; 0])), machine []).
Proof.
  assert (B : over (take (Z.to_nat 12) (args (sample_pcb 0 "frame0.txt")))
    (over (replicate (Z.to_nat 12) 0) (replicate 12 7)) = chars "frame0.txt" ++ [0; 0]) by evaluate.
  rewrite <- B.
  apply (getargs_short (machine []) 0 (sample_pcb 0 "frame0.txt") (replicate 12 7) 12 (machine_running []));
    evaluate || (split; evaluate).
Defined.

Lemma vidmap_ok_witness :
  let k := with_paging (add_process 0 sample_paging) (machine []) in
  vidmap 0x08100000 k = Ok (Returned (video_window 0), windowed k 0x900000).
Proof.
  cbv zeta.
  apply (vidmap_ok (with_paging (add_process 0 sample_paging) (machine [])) 0x08100000 0x900000 true).
  - apply sample_linked.
  - apply add_process_inv, sample_paging_inv.
  - split; evaluate.
  - split; evaluate.
  - evaluate.
Defined.

Lemma vidmap_crosses_witness : vidmap 0x083FFFFF (machine []) = Fault.
Proof. apply vidmap_crosses; split; evaluate. Defined.

(** * Keyboard and waiting *)
Lemma key_map_us_witness : at_ (at_ kbd_ascii_key_map (mode_of true false)) 0x1E = 65.
Proof. rewrite key_map_us; evaluate || (split; evaluate). Defined.

(** The keys a, b and enter. *)
Definition typing : kernel := machine [0x1E; 0x30; ENTER].
Definition three_keys : list irq := [Key no_junk; Timer; Key no_junk; Key no_junk].

Lemma keyboard_read_ok_witness :
  kwp (keyboard_read three_keys (Some (replicate 128 7)) 128)
    (fun '(n, b) k' => n = 3 /\ b = Some ([97; 98; 10] ++ replicate 125 7) /\ quiet typing k') nojump typing.
Proof.
  assert (B : edit_bytes no_edit) by (split; apply Forall_nil_2).
  assert (T : typed_in typing three_keys = [0x1E; 0x30] ++ ENTER :: []) by evaluate.
  assert (N : ENTER ∉ [0x1E; 0x30]) by evaluate.
  assert (C : no_commands no_edit [0x1E; 0x30]) by (split_and!; evaluate).
  assert (Y : Forall byte (replicate 128 7)) by evaluate.
  pose proof (keyboard_read_ok typing no_edit three_keys [0x1E; 0x30] [] (replicate 128 7) 128
    (machine_idle _) B T N C Y ltac:(split; evaluate) ltac:(evaluate)) as H.
  destruct (session ([0x1E; 0x30] ++ [ENTER]) (unready no_edit) (view (lib typing))) as [e' t'] eqn:S.
  assert (L : e_saved e' = chars "ab").
  { change e' with (e', t').1. rewrite <- S. evaluate. }
  cbv beta iota zeta in H. rewrite L in H. refine (kwp_mono _ _ _ _ _ _ H _ (fun _ _ F => F)).
  intros [n b] k' (-> & -> & _ & Q & _). split; [evaluate|]. split; [evaluate|exact Q].
Defined.

Lemma rtc_read_ok_witness :
  kwp (rtc_read [Timer; Key no_junk; Clock]) (fun r k' => r = 0 /\ interrupt_flag (rtc k') = 1) nojump
    (machine [0x1E]).
Proof.
  eapply kwp_mono; [apply (rtc_read_ok (machine [0x1E]) no_edit)| |done].
  - apply machine_idle.
  - split_and!; evaluate.
  - by right; right; left.
  - intros r k' (-> & F & _). by split.
Defined.

Lemma rtc_read_waits_witness : rtc_read [Timer; Key no_junk] (machine [0x1E]) = NoFuel.
Proof.
  apply (rtc_read_waits (machine [0x1E]) no_edit [Timer; Key no_junk]).
  - apply machine_idle.
  - split_and!; evaluate.
  - intros [|[|[]%elem_of_nil]%elem_of_cons]%elem_of_cons; discriminate.
Defined.

(** * Bad descriptors *)
