(* ===== verification/ProgramExamples.v ===== *)
(** The theorems about user programs at concrete inputs: the sample machine
    of [Sample], with keys that are typed while the program waits. *)

From S2P Require Import Prelude Hardware CLib Screen FileSystem Paging Kernel FdTable Process CmdLine Lifecycle Terminals Keyboard.
From S2P Require Import KeyboardSpec Waiting WaitingSpec Syscall SyscallSpec Getargs UserLib UserSpec Programs.
From S2P Require Import Syserr SyserrSpec ReadersSpec RunSpec ShellSpec ExceptionSpec SyscallTypes Sample.

(** * cat frame0.txt *)
Definition cat_keys : list Z :=
  [0x2E; 0x1E; 0x14; 0x39; 0x21; 0x13; 0x1E; 0x32; 0x12; 0x0B; 0x34; 0x14; 0x2D; 0x14].
Definition cat_typed : kernel := machine (cat_keys ++ [ENTER]).
Definition while_typing : surroundings :=
  mkSurr (mkDentry (replicate 32 7) 9 9) (mkDentry (replicate 32 7) 9 9) (fun _ => 0)
    (replicate 15 (Key no_junk)).
Definition cat_session : edit * text :=
  session (cat_keys ++ [ENTER]) (unready no_edit) (t_puts (chars "391OS> ") (view (lib cat_typed))).

Lemma cat_line : stripped (e_saved cat_session.1) = chars "cat frame0.txt".
Proof. by vm_compute. Qed.

Lemma cat_prompt : prompt cat_typed 0 (sample_pcb 0 "frame0.txt") no_edit.
Proof.
  split; [apply machine_ready| |apply machine_idle|by split; apply Forall_nil_2].
  by split_and!; vm_compute.
Qed.

Lemma cat_types : types cat_typed while_typing no_edit cat_keys cat_session.1 cat_session.2.
Proof.
  split; [exists []; by vm_compute|evaluate|split_and!; evaluate|].
  unfold cat_session. by destruct (session _ _ _).
Qed.

Definition cat_buf : list Z := replicate 1024 7.
Abbreviation cat_command := (command_of_line cat_buf cat_session.1).

Lemma cat_command_eq : cat_command = over (lit "cat frame0.txt") cat_buf.
Proof. unfold command_of_line. by rewrite cat_line. Qed.

Lemma cat_command_line : command_line cat_command.
Proof. rewrite cat_command_eq. split; (evaluate || (split; evaluate)). Qed.

Lemma cat_launches :
  launches cat_typed sample_frame cat_command 4 3 (sample_pcb 3 "") 0.
Proof.
  split; [apply sample_frame_wf|apply cat_command_line| |evaluate|split; evaluate|by vm_compute|done].
  rewrite cat_command_eq. split; (by vm_compute) || (split; by vm_compute).
Qed.

Lemma cat_file : text_file (fs cat_typed) (given_word (args_of_line cat_command)) 2.
Proof. rewrite cat_command_eq. split; (by vm_compute) || (split; by vm_compute). Qed.

Definition cat_code (eip : Z) : K Z :=
  cat_main (fun _ => sample_surroundings) sample_frame (Z.to_nat 4200) cat_buf.

Lemma cat_code_eq eip : cat_code eip = cat_main (fun _ => sample_surroundings) sample_frame (Z.to_nat 4200) cat_buf.
Proof. done. Qed.

Lemma shell_cat_witness :
  kwp (shell_turn (fun _ => while_typing) sample_frame cat_code 0 cat_buf)
    (fun '(v, b) k' => v = None /\ zlen b = 1024 /\ prompt k' 0 (sample_pcb 0 "frame0.txt") cat_session.1 /\
      in_use (procs k') = in_use (procs cat_typed) /\
      view (lib k') = t_puts (contents machine_fs 1) cat_session.2) nojump cat_typed.
Proof.
  refine (kwp_mono _ _ _ _ _ _ (shell_cat (fun _ => while_typing) (fun _ => sample_surroundings) sample_frame
    sample_frame cat_code 0 (Z.to_nat 4200) cat_typed 0 (sample_pcb 0 "frame0.txt") no_edit cat_keys cat_buf
    cat_buf cat_session.1 cat_session.2 4 3 (sample_pcb 3 "") 2 cat_prompt cat_types _ _ _ _
    cat_launches _ (cat_code_eq _) sample_surr_wf _ _ cat_file _) _ (fun _ _ F => F)).
  - evaluate.
  - evaluate.
  - by rewrite cat_line.
  - rewrite cat_line. evaluate.
  - evaluate.
  - evaluate.
  - evaluate.
  - by vm_compute.
  - intros [v b] k' (H1 & H2 & H3 & H4 & H5). split_and!; try done.
Defined.

(** The same line when the program stores through a null pointer. *)
Definition null_code (eip : Z) : K Z := _ ← user_store sample_frame 0 1; mret 0.

Lemma null_code_raises k1 : typed_at cat_typed 0 (sample_pcb 0 "frame0.txt") cat_session.1 cat_session.2 k1 ->
  raises k1 sample_frame cat_command 4 3 (sample_pcb 3 "") 0 (_ ← user_store sample_frame 0 1; mret 0) 14 0 (eq cat_session.1).
Proof.
  intros [Rd Hi He _ Ep Ef _ Eg El]. apply (null_store_raises k1 _ _ _ _ _ _ _ (sample_pcb 0 "frame0.txt")).
  - done.
  - destruct cat_launches. by split; rewrite ?Ep, ?Ef.
  - done.
  - done.
  - rewrite Eg, El. by vm_compute.
Qed.

Lemma shell_exception_witness :
  kwp (shell_turn (fun _ => while_typing) sample_frame null_code 0 cat_buf)
    (fun '(v, b) k' => v = None /\ zlen b = 1024 /\
      (exists ex, cat_session.1 = ex /\ prompt k' 0 (sample_pcb 0 "frame0.txt") ex) /\
      in_use (procs k') = in_use (procs cat_typed) /\
      view (lib k') = t_puts (exception_text 0 (Z.of_nat 14) ++ says "program terminated by exception") t_clear) nojump cat_typed.
Proof.
  refine (kwp_mono _ _ _ _ _ _ (shell_exception (fun _ => while_typing) sample_frame null_code 0 cat_typed 0
    (sample_pcb 0 "frame0.txt") no_edit cat_keys cat_buf cat_session.1 cat_session.2 4 3 (sample_pcb 3 "") 14 0 (eq cat_session.1)
    cat_prompt cat_types _ _ _ _ cat_launches _ null_code_raises) _ (fun _ _ F => F)).
  - evaluate.
  - evaluate.
  - by rewrite cat_line.
  - rewrite cat_line. evaluate.
  - lia.
  - intros [v b] k' (H1 & H2 & H3 & H4 & H5). exact (conj H1 (conj H2 (conj H3 (conj H4 H5)))).
Defined.

(** * A command that is not there *)
Definition ls_keys : list Z := [0x26; 0x1F].
Definition ls_typed : kernel := machine (ls_keys ++ [ENTER]).
Definition ls_session : edit * text :=
  session (ls_keys ++ [ENTER]) (unready no_edit) (t_puts (chars "391OS> ") (view (lib ls_typed))).

Lemma ls_line : stripped (e_saved ls_session.1) = chars "ls".
Proof. by vm_compute. Qed.
Lemma ls_prompt : prompt ls_typed 0 (sample_pcb 0 "frame0.txt") no_edit.
Proof.
  split; [apply machine_ready| |apply machine_idle|by split; apply Forall_nil_2]. by split_and!; vm_compute.
Qed.
Lemma ls_types : types ls_typed while_typing no_edit ls_keys ls_session.1 ls_session.2.
Proof.
  split; [exists (replicate 12 0); by vm_compute|evaluate|split_and!; evaluate|].
  unfold ls_session. by destruct (session _ _ _).
Qed.
Lemma ls_command_eq : command_of_line cat_buf ls_session.1 = over (lit "ls") cat_buf.
Proof. unfold command_of_line. by rewrite ls_line. Qed.
Lemma ls_missing ep : first_entry machine_fs (program_name (command_of_line cat_buf ls_session.1)) = Some ep ->
  type_of machine_fs ep <> 2.
Proof.
  assert (H : first_entry machine_fs (program_name (over (lit "ls") cat_buf)) = None) by by vm_compute.
  rewrite ls_command_eq, H. intros E. exfalso. discriminate E.
Qed.

Lemma shell_unknown_witness :
  kwp (shell_turn (fun _ => while_typing) sample_frame null_code 0 cat_buf)
    (fun '(v, b) k' => v = None /\ zlen b = 1024 /\ prompt k' 0 (sample_pcb 0 "frame0.txt") ls_session.1 /\
      in_use (procs k') = in_use (procs ls_typed) /\
      view (lib k') = t_puts (says "no such command") ls_session.2) nojump ls_typed.
Proof.
  apply (shell_unknown (fun _ => while_typing) sample_frame null_code 0 ls_typed 0
    (sample_pcb 0 "frame0.txt") no_edit ls_keys cat_buf ls_session.1 ls_session.2).
  - apply ls_prompt.
  - apply ls_types.
  - evaluate.
  - evaluate.
  - apply sample_frame_wf.
  - by rewrite ls_line.
  - rewrite ls_line. evaluate.
  - rewrite ls_command_eq. split; (evaluate || (split; evaluate)).
  - apply ls_missing.
Defined.

(** * ls *)
Definition parent_pcb : pcb := sample_pcb 0 "frame0.txt".

Lemma machine_user a : user (machine a) 0 parent_pcb.
Proof. apply rd_user with (1 := machine_ready a). Qed.

Lemma machine_names j : 0 <= j < num_entries machine_fs -> entry_text machine_fs j <> [].
Proof.
  change (num_entries machine_fs) with 5. intros Hj.
  assert (j = 0 \/ j = 1 \/ j = 2 \/ j = 3 \/ j = 4) as [->|[->|[->|[->| ->]]]] by lia; by vm_compute.
Qed.

Lemma ls_shows_witness :
  kwp (ls_main (fun _ => sample_surroundings) sample_frame 10 (replicate 33 7))
    (read_out (machine []) 0 parent_pcb 2
      (concat ((fun q => entry_text machine_fs q ++ [10]) <$> seqZ 0 (num_entries machine_fs)))) nojump (machine []).
Proof.
  apply (ls_shows (fun _ => sample_surroundings) sample_frame 10 (machine []) 0 parent_pcb 2 0 (replicate 33 7)).
  - apply machine_user.
  - apply machine_fs_wf.
  - apply sample_surr_wf.
  - by vm_compute.
  - by vm_compute.
  - by vm_compute.
  - apply machine_names.
  - evaluate.
  - by vm_compute.
Defined.

(** * The system-call tests *)
Lemma machine_tested : tested (machine []) 0 parent_pcb.
Proof.
  split; [apply machine_user|done|apply machine_fs_wf|by vm_compute..|]. exists 0. split; by vm_compute.
Qed.

Lemma syserr_passes_witness :
  let b := replicate 32 7 in
  kwp (all_tests (fun _ => sample_surroundings) sample_frame b b b b)
    (fun r k' => r = 0 /\ ran (machine []) 0 parent_pcb all_tests_text k') nojump (machine []).
Proof.
  cbv zeta. apply (syserr_passes (fun _ => sample_surroundings) sample_frame (machine []) 0 parent_pcb).
  - apply machine_tested.
  - apply sample_surr_wf.
  - evaluate.
Defined.

(** * Arguments *)
Lemma sample_launches : launches (machine []) sample_frame shell_line 3 3 (sample_pcb 3 "") 0.
Proof.
  split; [apply sample_frame_wf|apply shell_command|apply machine_shell|evaluate|split; evaluate|by vm_compute|done].
Qed.

Lemma getargs_child_witness :
  let k1 := child_start (machine []) sample_frame shell_line 3 3 (sample_pcb 3 "") 0 in
  exists b, getargs (Some (replicate 1024 7)) 1024 k1 = Ok (Returned (0, Some b), k1) /\
    rtrim (cstr b) = rtrim (args_of_line shell_line).
Proof.
  cbv zeta. apply (getargs_child (machine []) sample_frame shell_line 3 3 (sample_pcb 3 "") 0 parent_pcb).
  - apply machine_ready.
  - apply sample_launches.
  - split; evaluate.
  - evaluate.
  - by vm_compute.
Defined.

(** Terminal 1's process has no arguments. *)
Definition no_args : kernel := with_lib (set_terms 1 0 (lib (machine []))) (machine []).
Lemma no_args_running : running no_args 1 (sample_pcb 1 "").
Proof. split; by vm_compute. Qed.

Lemma getargs_blank_witness : getargs (Some (replicate 1024 7)) 1024 no_args = Fault.
Proof.
  apply (getargs_blank no_args 1 (sample_pcb 1 "") (replicate 1024 7) 1024 no_args_running).
  - by vm_compute.
  - split; evaluate.
  - split; evaluate.
  - by vm_compute.
Defined.

(** * A read from the keyboard *)
(** The kernel while the process runs: its program page is mapped. *)
Definition in_program (a : list Z) : kernel := with_paging (add_process 0 sample_paging) (machine a).

Lemma in_program_page_own a : own_page (in_program a) 0.
Proof.
  constructor; [apply sample_linked|by apply add_process_inv, sample_paging_inv|].
  intros v Hv. unfold ktranslate. simpl. rewrite translate_add_process; [by rewrite decide_True| |lia|].
  - apply (inv_wf _ _ _ _ sample_paging_inv).
  - unfold in_program_page in Hv. lia.
Qed.

Lemma user_paging pg k i p : user k i p -> user (with_paging pg k) i p.
Proof. intros [[] Hl [] W Ho Sv]. constructor; [by constructor|done|by constructor|done|done|done]. Qed.
Lemma idle_paging pg k e : idle k e -> idle (with_paging pg k) e.
Proof. intros [[] W ? ?]. constructor; [by constructor|done|done|done]. Qed.

Lemma in_program_typed a : typed_user (in_program a) 0 parent_pcb.
Proof.
  split; [exact (user_paging _ (machine a) _ _ (machine_user a))| |split_and!; evaluate|apply in_program_page_own].
  change (fd_table parent_pcb) with initial_fds. repeat constructor; done.
Qed.

Definition keyboard_call : registers := mkRegs 0 0 1024 None (Some cat_buf).

Definition cat_program : kernel := in_program (cat_keys ++ [ENTER]).


Lemma keyboard_call_returns :
  match syscall_handler while_typing sample_frame 3 keyboard_call cat_program with
  | Ok (Returned (n, _), _) => n = 15
  | _ => False
  end.
Proof. by vm_compute. Qed.
