(* ===== verification/GrepExamples.v ===== *)
(** A directory with itself, a hidden file and two texts, searched for
    ["alpha"]. *)

From S2P Require Import Prelude Hardware Screen FileSystem Kernel FdTable Drivers Process Streams Getargs Syscall SyscallSpec.
From S2P Require Import UserLib UserSpec Programs ReadersSpec RunSpec GrepSpec Sample.

(** * The disk *)
Definition notes : list Z := chars "alpha" ++ [10] ++ chars "beta" ++ [10] ++ chars "not alphabet".
Definition text_image : list (list Z) :=
  [ pad 4096 (pad 64 (word_bytes 4 ++ word_bytes 2 ++ word_bytes 2)
      ++ dentry_bytes (chars ".") 1 0 ++ dentry_bytes (chars ".hidden") 2 0
      ++ dentry_bytes (chars "notes") 2 0 ++ dentry_bytes (chars "empty") 2 1);
    pad 4096 (word_bytes (zlen notes) ++ word_bytes 0);
    pad 4096 (word_bytes 0);
    pad 4096 notes; replicate 4096 67 ].

Definition text_fs : fs_state :=
  match filesystem_init_overlay text_image with
  | Ok fs => fs
  | _ => mkFs [] 0 0 0 0 0 0 0 []
  end.

Lemma text_image_wf : image_wf text_image.
Proof.
  constructor.
  - apply (bool_decide_unpack _). by vm_compute.
  - by vm_compute.
  - by vm_compute.
  - change (word_at text_image 4) with 2. intros k Hk. assert (k = 0 \/ k = 1) as [->| ->] by lia; by vm_compute.
  - change (word_at text_image 4) with 2. change (word_at text_image 8) with 2. intros k j Hk Hj.
    assert (k = 0 \/ k = 1) as [->| ->] by lia.
    + change (word_at text_image (BLOCK * (1 + 0))) with 23. unfold BLOCK. intros Hb.
      assert (j = 0) as -> by lia; by vm_compute.
    + change (word_at text_image (BLOCK * (1 + 1))) with 0. unfold BLOCK. lia.
Qed.

Lemma text_fs_wf : fs_wf text_fs.
Proof.
  pose proof (filesystem_init_ok _ text_image_wf) as H. unfold text_fs.
  destruct (filesystem_init_overlay text_image); [apply H|done..].
Qed.

(** * The program's machine *)
Definition grep_pcb : pcb := sample_pcb 0 "alpha".
Definition grep_kernel : kernel := put_running 0 grep_pcb (with_fs text_fs (machine [])).
Definition text_of (q : Z) : list Z := if decide (q = 2) then notes else [].

#[global] Strategy 1000 [text_fs text_image].

Lemma grep_user : user grep_kernel 0 grep_pcb.
Proof.
  destruct (rd_user _ _ _ (machine_ready [])) as [R Hl Op W Ho Sv]. split; try done.
Qed.

Lemma notes_text : text_ok notes.
Proof. split; evaluate. Qed.
Lemma empty_text : text_ok [].
Proof. split; evaluate. Qed.

Lemma grep_searchable q : 0 <= q < num_entries text_fs -> entry_text text_fs q <> [] /\
  (~ hidden (entry_text text_fs q) -> searchable text_fs q (text_of q) /\ (length (text_of q) < 30)%nat).
Proof.
  change (num_entries text_fs) with 4. intros Hq. assert (q = 0 \/ q = 1 \/ q = 2 \/ q = 3) as [->|[->|[->| ->]]] by lia.
  - split; [by vm_compute|]. intros []. by vm_compute.
  - split; [by vm_compute|]. intros []. by vm_compute.
  - split; [by vm_compute|]. intros _. split; [|by apply (bool_decide_unpack _); vm_compute].
    split; [by vm_compute| |apply notes_text]. exists 2. split_and!; by vm_compute.
  - split; [by vm_compute|]. intros _. split; [|by apply (bool_decide_unpack _); vm_compute].
    split; [by vm_compute| |apply empty_text]. exists 3. split_and!; by vm_compute.
Qed.

Lemma grep_shows_witness :
  kwp (grep_main (fun _ => sample_surroundings) sample_frame 30 (replicate 33 7) (replicate 1024 7)
      (fun _ => replicate 1025 7))
    (read_out grep_kernel 0 grep_pcb 2 (concat (grep_entry text_fs (cstr (rtrim (args grep_pcb))) text_of <$>
      seqZ 0 (num_entries text_fs)))) nojump grep_kernel.
Proof.
  apply (grep_shows (fun _ => sample_surroundings) sample_frame 30 grep_kernel 0 grep_pcb 2 3 0 (replicate 33 7)
    (replicate 1024 7) (fun _ => replicate 1025 7) text_of).
  - apply grep_user.
  - apply text_fs_wf.
  - apply sample_surr_wf.
  - by vm_compute.
  - by vm_compute.
  - by vm_compute.
  - by vm_compute.
  - by vm_compute.
  - by vm_compute.
  - by vm_compute.
  - apply grep_searchable.
  - by vm_compute.
  - evaluate.
  - by vm_compute.
  - intros _. split; by vm_compute.
  - by vm_compute.
Defined.

(** What it says there. *)
Example grep_output :
  concat (grep_entry text_fs (cstr (rtrim (args grep_pcb))) text_of <$> seqZ 0 (num_entries text_fs)) =
  chars "notes:alpha" ++ [10] ++ chars "notes:not alphabet" ++ [10].
Proof. by vm_compute. Qed.
