(* ===== verification/PromptExamples.v ===== *)
(** [hello] greets ["al"], and [counter] refuses ["1"], on the sample
    machine. *)

From S2P Require Import Prelude Hardware CLib Screen Printf Kernel FdTable Process Keyboard KeyboardSpec.
From S2P Require Import Waiting WaitingSpec Syscall UserLib UserSpec Programs ReadersSpec RunSpec ShellSpec.
From S2P Require Import PromptSpec Sample ProgramExamples.

Definition typing (keys : list Z) : kernel := machine (keys ++ [ENTER]).
Definition typed (out keys : list Z) : edit * text :=
  session (keys ++ [ENTER]) (unready no_edit) (t_puts out (view (lib (typing keys)))).

Lemma typing_prompt keys : prompt (typing keys) 0 parent_pcb no_edit.
Proof.
  split; [apply machine_ready| |apply machine_idle|by split; apply Forall_nil_2]. by split_and!; vm_compute.
Qed.

(** * hello *)
Definition name_keys : list Z := [0x1E; 0x26].
Definition greeting : list Z := chars "Hi, what's your name? ".

Lemma name_answers : answers (typing name_keys) while_typing no_edit greeting name_keys
  (typed greeting name_keys).1 (typed greeting name_keys).2.
Proof.
  split; [exists (replicate 12 0); by vm_compute|evaluate|split_and!; evaluate|].
  unfold typed. by destruct (session _ _ _).
Qed.

Lemma hello_greets_witness :
  kwp (hello_main (fun _ => while_typing) sample_frame cat_buf)
    (replied 0 parent_pcb (typed greeting name_keys).1 (typed greeting name_keys).2
      (chars "Hello, " ++ answered (stripped (e_saved (typed greeting name_keys).1)))) nojump (typing name_keys).
Proof.
  apply (hello_greets (fun _ => while_typing) sample_frame (typing name_keys) 0 parent_pcb no_edit name_keys cat_buf).
  - apply typing_prompt.
  - evaluate.
  - by vm_compute.
  - apply name_answers.
Defined.

Example hello_text : chars "Hello, " ++ answered (stripped (e_saved (typed greeting name_keys).1)) = says "Hello, al".
Proof. by vm_compute. Qed.

(** * counter *)
Definition choice_keys : list Z := [0x02].
Definition menu : list Z := says "Enter the Test Number: (0): 100, (1): 10000, (2): 100000".

Lemma choice_answers : answers (typing choice_keys) while_typing no_edit menu choice_keys
  (typed menu choice_keys).1 (typed menu choice_keys).2.
Proof.
  split; [exists (replicate 13 0); by vm_compute|evaluate|split_and!; evaluate|].
  unfold typed. by destruct (session _ _ _).
Qed.

Lemma counter_refuses_witness :
  kwp (counter_main (fun _ => while_typing) sample_frame cat_buf)
    (replied 0 parent_pcb (typed menu choice_keys).1 (typed menu choice_keys).2 (says "Wrong Choice!"))
    nojump (typing choice_keys).
Proof.
  apply (counter_refuses (fun _ => while_typing) sample_frame (typing choice_keys) 0 parent_pcb no_edit choice_keys cat_buf).
  - apply typing_prompt.
  - evaluate.
  - by vm_compute.
  - apply choice_answers.
Defined.
